(* ===== verification/_CoqProject ===== *)
-Q . S2P
Prelude.v
BitOps.v
LockTest.v
CList.v
CString.v
GenSection.v
Screen.v
Printf.v
Console.v
Keyboard.v
BootMem.v
Io.v
Memory.v
PageAlloc.v
Paging.v
PageWalk.v
PageFlags.v
SlabPages.v
Slab.v
SlabSpec.v
Heap.v
MpSpec.v
Descriptors.v
Syscall.v
Interrupts.v
SpinLock.v
LocalApic.v
HwHeaders.v
ApicRegs.v
Exceptions.v
Messages.v
PerCpu.v
Setup.v
Boot.v
Ram.v
A20.v
BootLoader.v
Startup.v
EntryStubs.v
Running.v
System.v
PowerOn.v
