(* ===== verification/Prelude.v ===== *)
(** * CaOS64: a verified model of the kernel

    CaOS64 is a small kernel for x86-64 processors. Its boot loader copies the
    image to 1 MB, switches to long mode and calls [start_kernel] (main.c).
    This development translates both into executable functions, file
    by file, and proves what each part guarantees, up to the theorem that from
    the boot sector on the diskette the kernel is loaded, starts, prints its
    messages and serves whatever interrupts come ([PowerOn.diskette_to_keys]). Paths
    below are relative to src/src/ and src/src/include/.

    ** How the code is modelled

    A C function that cannot go wrong is a function. Any other returns a
    [res]: [Ret] with its result, [Halted] when the code stops the machine
    (halt, an endless loop on purpose), [Fault] when it reads or writes
    outside the objects it may use, [NoFuel] when a loop uses up the bound the
    model gives it. [x <- f; g] (written with an arrow) is the sequence of two
    calls. The state of a component is a record or a map, passed explicitly;
    a C integer is a [Z] and its width is written out with [u8] to [u64] and
    [s8] to [s64] wherever it can matter; a pointer is an address, an index
    into a table, or [None] for NULL.

    A function that prints a message prints it last or in passing: messages
    are left out of every component but those whose work is printing. Messages
    lists all of them, debugging output included, and shows that each fits
    its arguments and the buffer of [caos_printf]; Startup says which of them
    the start of the kernel prints, in which order and with which values.

    Memory is modelled per component: bytes ([bmem] of CString) for strings,
    the multiprocessor tables and the per-processor section; 8-byte entries
    ([ptmem] of Paging) for page tables; two pointers ([list_heap] of CList)
    for list heads; records for page descriptors, slabs and caches. The places
    the components occupy are separate: the boot-time allocator hands out
    disjoint areas ([bootmem_areas_disjoint]), and so does the page allocator
    ([allocator_refines_blocks]).

    Hardware is an interface: [Device] (Interrupts) is the registers of the
    two APICs, the 8259A and the ports; [LocalApic] adds the contents of the
    local APIC's registers; [Processor] (PageWalk) is the control registers and
    the cached translations. Each has a concrete instance, on which the
    theorems are also evaluated. Between software components, [Console] is
    what printing promises to its callers, [PageSource] (SlabPages) what the
    page allocator promises to the slab allocator.

    ** The files

    - Prelude: machine integers, [res], loops, arrays and their automation.
    - BitOps: bitops.h, atomic.h and the test of unittest/test_atomic.c.
    - CList: list.h.  - CString: string.c.
    - Screen: screen.c and the output primitives of printf.c; Printf: printf.c;
      Console: the interface of both. Keyboard: keyboard.c. Exceptions:
      except_handler.c. Messages: every call of caos_printf.
    - BootMem, Memory, Paging: page.c with pgtable.h, memory.c, page.h,
      memory.h; PageWalk: the rest of pgtable.h and the control registers of
      processor.h; PageFlags: page-flags.h; PageAlloc: page_alloc.c; Io: the
      accesses of io.h to mapped memory and to ports.
    - SlabPages, Slab, SlabSpec: slab.c, slab.h; Heap: what its clients see.
    - MpSpec: mp_spec.c, mp_spec.h.
    - Descriptors: idt.c, gdt.c; Interrupts: irq_handler.c, io_apic.c,
      pic8259.c, keyboard_init; LocalApic: apic.c, smp.c; ApicRegs: the names
      and the structure of apic.h; EntryStubs: irq_entry.asm,
      except_entry.asm; Syscall: syscall.h, user_syscall.h.
    - SpinLock: spinlock.c, spinlock.h, the counter of smp.h; LockTest: the
      program docs/spinlock_test/lock.c (outside src/src).
    - HwHeaders: the structures and register bits of the headers, and that the
      components use their sizes and offsets ([kernel_structures],
      [processor_structures], [mp_structures], [register_bits]).
    - GenSection: utils/gen_section.c, the tool that writes the addresses of
      the symbols into a header.
    - Ram, A20, BootLoader: a20.inc, bootsect.asm, setup.asm.
    - PerCpu: percpu.c, smp_init. Setup: setup.c, setup.h. Boot: main.c.
      Startup: what all of these print at the start. Running: the interrupts
      and exceptions of the booted kernel. System: all of it, from
      [start_kernel] on. PowerOn: the loader and the kernel.

    A definition has the name of the function, macro or structure it
    translates; a loop or a part of a function that has a definition of its
    own is named after what it does.

    ** What the theorems show

    - Memory management. The descriptors and the zone [memory_init] builds
      ([memory_booted]); first-fit allocation refines a map of live blocks,
      with its failures and its round trip ([alloc_first_fit],
      [allocator_refines_blocks], [alloc_fails_cleanly],
      [get_free_roundtrip]). The slab allocator keeps its invariant from
      [kmem_cache_init] on, every operation does what it promises
      ([slab_ready_after_init], [kmalloc_fresh], [kfree_releases],
      [shrink_reclaims], [cache_creation]), and any sequence of requests
      refines a heap of blocks that do not overlap ([requests_refine_heap]).
    - Address spaces. The new page tables map all of the memory
      ([paging_maps_kernel]), the macros of the kernel find the entries the
      processor uses, whose indices are the 9-bit groups of the address
      ([kernel_walk_agrees]), and the switch puts the tables in
      force ([new_tables_in_force]).
    - Output and input. The screen is a window on an unbounded paper
      ([screen_is_window]), formats are rendered as a reference function does
      and numerals can be read back ([sprintf_renders], [printf_shows_text],
      [numerals_roundtrip], [exception_reported]), no message of the kernel is
      longer than the buffer it is rendered in ([messages_printed]), and the
      keyboard types what the history of scan codes says, on a layout written
      apart from the tables of the driver ([keyboard_follows_history]).
    - Interrupts. Gates and segment descriptors decode to what was put in them
      and keep their format ([gate_roundtrip], [idt_complete],
      [gdt_keeps_boot_segments], [descriptors_typed]); a registered interrupt
      reaches its handler ([irq_dispatched]); the local APIC and its timer
      are programmed ([bsp_apic_ready], [timer_programmed]); the structure that
      describes its registers agrees with the macros, but for two registers
      ([apic_struct_is_register_map]). The stubs in front
      of the handlers keep the registers, up to an exchange of FS and GS
      ([stubs_call_handlers]), and a system call is refused,
      though its stub passes what a handler would need
      ([syscalls_not_served]).
    - Processors. The configuration table is read as its entries say, within
      the arrays whatever they say ([mp_spec_init_reads_table],
      [mp_tables_bounded], [processors_enumerated]); the other processors get
      their commands ([processors_started]) and their data ([percpu_copies],
      [percpu_area_fits]); at most one is in a critical section
      if the bytes of the register the lock is exchanged through that the code
      does not load are clear, and not otherwise ([mutual_exclusion]); a waiter
      can miss the release of the lock ([waiter_misses_release]); the program
      that tests the lock finds no error in any interleaving under the same
      condition, and can find one without it ([lock_test_finds_no_error]).
    - The tool of the build: [gen_section_lists_symbols].
    - The boot loader: from the diskette to the first instruction of the kernel
      ([boot_loader_starts_kernel]), which it reaches only with the A20 line
      open ([a20_line_opened]); what it leaves is what [setup_arch]
      expects ([loader_fits_setup]), up to a word it fails to clear.
    - The composition: [arch_ready] for [setup_arch], [kernel_boots] for
      [start_kernel], and [interrupts_served] for the kernel after it: keys,
      ticks of the timer, exceptions and the work of other processors in any
      order, each from its line through the APICs, the gates, the stubs and
      [handle_irq] to its handler and the screen. It refines a view of the
      machine from outside ([see_all]). [system_runs] puts the three together:
      what the set-up of the devices leaves alone ([start_keeps]) and the
      memory outside the page of the per-processor data are what the console
      and the handlers need. What is on the screen before the first key is
      computed from the state of each component ([start_says]), and its
      addresses are those the boot-time allocator hands out
      ([arch_says_spec]); [boot_text_eq] is the whole text of a sample machine.
      [diskette_to_keys] puts the loader in front: what the kernel finds in
      memory is what the loader made of the diskette and of the memory it found
      ([loader_hands_over]), so the strings, the parameters, the descriptors and
      the per-processor section are those of the image on the diskette.

    Theorems without a number are lemmas worth keeping: among them the
    behaviours the code does not intend, such as [double_release] (SlabSpec),
    [alloc_reads_past_table] (PageAlloc) or [second_directory_misplaced]
    (Paging).

    ** Bounds and fuel

    A loop whose number of passes is known is a [for_loop] of that number. The
    others take fuel, and their callers give them enough: strings run on one
    more step than memory has bytes ([mem_fuel]), lists on one more than the
    store has heads ([list_fuel]), the search for a block on one more than the
    table has descriptors, the reader of the multiprocessor table on more than
    the bytes of its longest table. The theorems state results [Ret], so the
    fuel is shown to suffice, except where the code itself does not end:
    [unknown_entry_never_ends] gives [NoFuel] for every fuel.
    The boot loader reads an image of at most 109 sectors; a larger one
    destroys its stack ([large_image_lost]).
    The machine of [arch_ready] and [kernel_boots] has an even number of
    megabytes up to 1024, as the code that builds the tables needs, a heap
    from page 0x200 with room for them, and at most 819 bytes of
    per-processor data. The word at 0x100200 must not be the one at 0x200 plus
    32, or the boot sector stops ([boot_sector_stuck]).

    ** Not modelled

    What the BIOS itself does to memory and stack, and the linker: the
    addresses of symbols and of the strings are arguments ([link], [boot_env],
    [except_entries]). The contents of the task state
    segment, which nothing accesses. [test_bit] is modelled as its instruction
    without the lock prefix, which the processor refuses; [test_and_set_bit]
    and its like with a result as wide as that of [test_bit], where the
    assembler refuses the 32-bit [sbbl]. The macros that cannot be used, since
    they name others that do not exist (pte_present, PGD_SIZE, mk_pte,
    NUM_APIC_CLUSTERS, set_task_state) or pass too many arguments (pte_clear);
    names nothing uses. Headers that only declare
    (process.h, sched.h, user_tasks.h, char_device.h, cdev.h, oops.h), process.c, which
    is empty, the build files, and utils/test_utils.c, which prints one
    constant.

    A processor other than the first runs only the loop of [start_kernel]
    ([Boot.ap_loop]), so no other code is modelled with several processors but
    the lock and its test. An interrupt that comes while the handler of an
    exception prints is not modelled (Running), nor are two processors that
    print at once, beyond what their common buffer makes of it
    ([printers_share_buffer]). The greeting of
    another processor is printed between two messages of the first
    ([Startup.weave]), and the character it counts up in the corner of the
    screen changes from [sti] on, not during the rest of the start.

    [power_on_run] hands over memory, not hardware: the ports and the gate of
    the A20 line ([chipset]) and the processor of the loader are not tied to the
    devices and the control registers the kernel starts with, and what has a
    model of its own in the kernel (the page descriptors, the page of the GDT,
    the memory of the page tables) is given apart from the bytes. The jump goes
    to [start_kernel], the first function of main.c, because the Makefile links
    main.o first and ld-script.ld starts the image with the code. *)

From Stdlib Require Export ZArith Lia.
From stdpp Require Export base tactics numbers option list gmap list_numbers.

#[global] Set Default Goal Selector "!".
#[global] Open Scope Z_scope.

(** ** Machine integers *)

(** The value an unsigned object of [w] bits holds after [z] is stored in it. *)
Definition wrap (w z : Z) : Z := z mod 2 ^ w.

(** The value a signed object of [w] bits holds: two's complement. *)
Definition sext (w z : Z) : Z :=
  let v := wrap w z in if v <? 2 ^ (w - 1) then v else v - 2 ^ w.

Abbreviation u8 := (wrap 8).
Abbreviation u16 := (wrap 16).
Abbreviation u32 := (wrap 32).
Abbreviation u64 := (wrap 64).
Abbreviation s8 := (sext 8).
Abbreviation s32 := (sext 32).
Abbreviation s64 := (sext 64).

(** C integer constants shared by every file of the kernel. *)
Abbreviation U64_MAX := (2 ^ 64 - 1).

Create HintDb caos.
Create Rewrite HintDb caos.

Lemma wrap_range w z : 0 <= w -> 0 <= wrap w z < 2 ^ w.
Proof. intros Hw. apply Z.mod_pos_bound, Z.pow_pos_nonneg; lia. Qed.

Lemma wrap_small w z : 0 <= z < 2 ^ w -> wrap w z = z.
Proof. apply Z.mod_small. Qed.

Lemma wrap_wrap w z : wrap w (wrap w z) = wrap w z.
Proof. apply Zmod_mod. Qed.

Lemma wrap_add_l w a b : wrap w (wrap w a + b) = wrap w (a + b).
Proof. apply Zplus_mod_idemp_l. Qed.

Lemma wrap_add_r w a b : wrap w (a + wrap w b) = wrap w (a + b).
Proof. apply Zplus_mod_idemp_r. Qed.

Lemma wrap_sub_l w a b : wrap w (wrap w a - b) = wrap w (a - b).
Proof. apply Zminus_mod_idemp_l. Qed.

Lemma wrap_testbit w z n :
  0 <= w -> Z.testbit (wrap w z) n = (n <? w) && Z.testbit z n.
Proof.
  intros Hw. unfold wrap. destruct (Z.ltb_spec n w).
  - destruct (decide (0 <= n)).
    + by rewrite Z.mod_pow2_bits_low by lia.
    + by rewrite !Z.testbit_neg_r by lia.
  - by rewrite Z.mod_pow2_bits_high by lia.
Qed.

Lemma sext_wrap w z : 0 < w -> wrap w (sext w z) = wrap w z.
Proof.
  intros Hw. unfold sext. cbv zeta. destruct (_ <? _).
  - apply wrap_wrap.
  - unfold wrap. rewrite <- (Z_mod_plus_full _ 1).
    rewrite Z.mul_1_l, Z.sub_add. apply Zmod_mod.
Qed.

Lemma sext_small w z :
  0 < w -> - 2 ^ (w - 1) <= z < 2 ^ (w - 1) -> sext w z = z.
Proof.
  intros Hw Hz.
  assert (Hp : 2 ^ w = 2 * 2 ^ (w - 1)).
  { rewrite <- Z.pow_succ_r by lia. f_equal. lia. }
  unfold sext. cbv zeta. destruct (decide (0 <= z)).
  - rewrite wrap_small by lia. destruct (Z.ltb_spec z (2 ^ (w - 1))); lia.
  - replace (wrap w z) with (z + 2 ^ w).
    + destruct (Z.ltb_spec (z + 2 ^ w) (2 ^ (w - 1))); lia.
    + unfold wrap. rewrite <- (Z_mod_plus_full z 1), Z.mul_1_l.
      symmetry. apply Z.mod_small. lia.
Qed.

Lemma sext_range w z : 0 < w -> - 2 ^ (w - 1) <= sext w z < 2 ^ (w - 1).
Proof.
  intros Hw. pose proof (wrap_range w z ltac:(lia)) as Hr.
  assert (Hp : 2 ^ w = 2 * 2 ^ (w - 1)).
  { rewrite <- Z.pow_succ_r by lia. f_equal. lia. }
  unfold sext. cbv zeta. destruct (Z.ltb_spec (wrap w z) (2 ^ (w - 1))); lia.
Qed.

Lemma wrap_zero_small w z : 0 <= w -> - 2 ^ w < z < 2 ^ w -> wrap w z = 0 -> z = 0.
Proof.
  intros Hw Hz H. unfold wrap in H.
  apply Z.mod_divide in H as [k ->]; [|lia].
  assert (k = 0) by nia. lia.
Qed.

Lemma sext_congr w a b : wrap w a = wrap w b -> sext w a = sext w b.
Proof. unfold sext. by intros ->. Qed.

Lemma sext_sext_add w a b : 0 < w -> sext w (sext w a + b) = sext w (a + b).
Proof.
  intros Hw. apply sext_congr. by rewrite <- wrap_add_l, sext_wrap, wrap_add_l.
Qed.

#[export] Hint Rewrite wrap_wrap wrap_add_l wrap_add_r wrap_sub_l : caos.
#[export] Hint Resolve wrap_range : caos.

(** ** Outcomes of kernel code

    [Ret a]: the code returned [a]. [Fault]: it accessed memory outside the
    objects the model gives it (a NULL or wild pointer, an index out of
    bounds). [Halted]: it called [halt()], the endless loop of processor.h.
    [NoFuel]: the loop bound given to the model ran out. *)
Inductive res (A : Type) : Type :=
| Ret (a : A)
| Fault
| Halted
| NoFuel.
Arguments Ret {A} a.
Arguments Fault {A}.
Arguments Halted {A}.
Arguments NoFuel {A}.

#[global] Instance res_ret : MRet res := @Ret.
#[global] Instance res_bind : MBind res := fun A B f m =>
  match m with
  | Ret a => f a
  | Fault => Fault
  | Halted => Halted
  | NoFuel => NoFuel
  end.

#[global] Instance res_eq_dec `{EqDecision A} : EqDecision (res A).
Proof. solve_decision. Defined.

Lemma ret_inj {A} (a b : A) : Ret a = Ret b -> a = b.
Proof. congruence. Qed.

Lemma bind_ret_inv {A B} (m : res A) (k : A -> res B) y :
  (m ≫= k) = Ret y -> exists x, m = Ret x /\ k x = Ret y.
Proof. destruct m; cbn; [eauto | done..]. Qed.

(** One step of a computation: with [E : m = Ret x] a goal that starts with [m]
    goes on with [x], without unfolding what comes after. *)
Lemma bind_step {A B} (m : res A) (x : A) (k : A -> res B) : m = Ret x -> (m ≫= k) = k x.
Proof. by intros ->. Qed.

Ltac step E :=
  match type of E with
  | ?m = Ret ?x =>
      match goal with |- context [m ≫= ?k] => rewrite (bind_step m x k E) end
  end; cbv beta iota.

(** Opens a hypothesis that says a monadic computation returned. *)
Ltac inv_bind H :=
  let x := fresh "x" in
  let E := fresh "E" in
  apply bind_ret_inv in H; destruct H as (x & E & H).

(** ** Arrays with bounds *)

(** [a[i]]; an index outside the array is a [Fault]. *)
Definition aget {A} (l : list A) (i : Z) : res A :=
  if decide (0 <= i) then
    match l !! Z.to_nat i with Some x => Ret x | None => Fault end
  else Fault.

(** [a[i] = x]; an index outside the array is a [Fault]. *)
Definition aset {A} (l : list A) (i : Z) (x : A) : res (list A) :=
  if decide (0 <= i < Z.of_nat (length l)) then Ret (<[Z.to_nat i := x]> l)
  else Fault.

Lemma aget_Ret {A} (l : list A) i x :
  aget l i = Ret x <-> 0 <= i /\ l !! Z.to_nat i = Some x.
Proof.
  unfold aget. case_decide; [|by split; [done | intros [? _]]].
  destruct (l !! Z.to_nat i); by split; [intros [= ->] | intros [_ [= ->]]].
Qed.

Lemma aget_lt {A} (l : list A) i :
  0 <= i < Z.of_nat (length l) -> exists x, aget l i = Ret x.
Proof.
  intros H. destruct (lookup_lt_is_Some_2 l (Z.to_nat i)) as [x Hx]; [lia|].
  exists x. apply aget_Ret. split; [lia | done].
Qed.

Lemma aget_bounds {A} (l : list A) i x :
  aget l i = Ret x -> 0 <= i < Z.of_nat (length l).
Proof. intros [? Hl]%aget_Ret. apply lookup_lt_Some in Hl. lia. Qed.

Lemma aget_ge {A} (l : list A) i :
  ~ (0 <= i < Z.of_nat (length l)) -> aget l i = Fault.
Proof.
  intros H. unfold aget. case_decide; [|done].
  by rewrite lookup_ge_None_2 by lia.
Qed.

Lemma aset_lt {A} (l : list A) i x :
  0 <= i < Z.of_nat (length l) -> aset l i x = Ret (<[Z.to_nat i := x]> l).
Proof. intros H. unfold aset. by rewrite decide_True. Qed.

Lemma aset_ge {A} (l : list A) i x :
  ~ (0 <= i < Z.of_nat (length l)) -> aset l i x = Fault.
Proof. intros H. unfold aset. by rewrite decide_False. Qed.

Lemma aset_Ret {A} (l : list A) i x l' :
  aset l i x = Ret l' ->
  0 <= i < Z.of_nat (length l) /\ l' = <[Z.to_nat i := x]> l.
Proof.
  unfold aset. destruct (decide _) as [Hd|Hd]; intros Heq; [|done].
  injection Heq as <-. done.
Qed.

(** ** Counted loops: [for (i = i0; i < i0 + n; i++) body] *)
Fixpoint for_loop {S} (n : nat) (i : Z) (body : Z -> S -> res S) (s : S) : res S :=
  match n with
  | O => Ret s
  | Datatypes.S n' => s' ← body i s; for_loop n' (i + 1) body s'
  end.

(** The loop rule: an invariant that each iteration re-establishes holds at
    the end, and the loop returns. *)
Lemma for_loop_inv {S} (P : Z -> S -> Prop) n i body s :
  P i s ->
  (forall j t, i <= j < i + Z.of_nat n -> P j t ->
     exists t', body j t = Ret t' /\ P (j + 1) t') ->
  exists s', for_loop n i body s = Ret s' /\ P (i + Z.of_nat n) s'.
Proof.
  revert i s. induction n as [|n IH]; intros i s Hs Hb; simpl.
  - exists s. split; [done|]. by rewrite Z.add_0_r.
  - destruct (Hb i s) as (t & -> & Ht); [lia | done |]. simpl.
    destruct (IH (i + 1) t) as (s' & Hl & Hs'); [done | |].
    + intros j u Hj. apply Hb. lia.
    + exists s'. split; [done|].
      by replace (i + Z.of_nat (Datatypes.S n)) with (i + 1 + Z.of_nat n) by lia.
Qed.

(** What every iteration that returns keeps, the loop keeps. *)
Lemma for_loop_ret {S} (P : S -> Prop) n i (body : Z -> S -> res S) s s' :
  (forall j t t', body j t = Ret t' -> P t -> P t') -> for_loop n i body s = Ret s' -> P s -> P s'.
Proof.
  intros Hb. revert i s. induction n as [|n IH]; intros i s Hl Hs; simpl in Hl.
  - by injection Hl as <-.
  - inv_bind Hl. eapply IH; [done|]. by eapply Hb.
Qed.

Lemma for_loop_app {S} n m i (body : Z -> S -> res S) s :
  for_loop (n + m) i body s
  = (t ← for_loop n i body s; for_loop m (i + Z.of_nat n) body t).
Proof.
  revert i s. induction n as [|n IH]; intros i s; simpl.
  - by rewrite Z.add_0_r.
  - destruct (body i s) as [t| | |]; simpl; [|done..].
    rewrite IH. by replace (i + 1 + Z.of_nat n) with (i + Z.of_nat (Datatypes.S n)) by lia.
Qed.

Lemma for_loop_shift {S} n b i (body : Z -> S -> res S) s :
  for_loop n i (fun j => body (b + j)) s = for_loop n (b + i) body s.
Proof.
  revert i s. induction n as [|n IH]; intros i s; simpl; [done|].
  destruct (body (b + i) s); simpl; [|done..].
  rewrite IH. by rewrite Z.add_assoc.
Qed.

Lemma for_loop_ext {S} n i (body body' : Z -> S -> res S) s :
  (forall j t, i <= j < i + Z.of_nat n -> body j t = body' j t) ->
  for_loop n i body s = for_loop n i body' s.
Proof.
  revert i s. induction n as [|n IH]; intros i s Hb; simpl; [done|].
  rewrite Hb by lia. destruct (body' i s); simpl; [|done..].
  apply IH. intros j t Hj. apply Hb. lia.
Qed.

(** ** Updating a range of an array *)

(** [f i a[i]] in place of [a[i]] for [b <= i < b + n]. *)
Definition alter_range {A} (f : Z -> A -> A) (b n : Z) (l : list A) : list A :=
  imap (fun i x => if decide (b <= Z.of_nat i < b + n) then f (Z.of_nat i) x else x) l.

Lemma alter_range_lookup {A} (f : Z -> A -> A) b n l i :
  alter_range f b n l !! i
  = (fun x => if decide (b <= Z.of_nat i < b + n) then f (Z.of_nat i) x else x) <$> l !! i.
Proof. apply list_lookup_imap. Qed.

Lemma alter_range_length {A} (f : Z -> A -> A) b n l :
  length (alter_range f b n l) = length l.
Proof. apply length_imap. Qed.

Lemma alter_range_nil {A} (f : Z -> A -> A) b l : alter_range f b 0 l = l.
Proof.
  apply list_eq. intros i. rewrite alter_range_lookup.
  destruct (l !! i); simpl; [|done]. by rewrite decide_False by lia.
Qed.

(** One more element of the range. *)
Lemma alter_range_step {A} (f : Z -> A -> A) b n l :
  0 <= b -> 0 <= n -> b + n < Z.of_nat (length l) ->
  exists x, l !! Z.to_nat (b + n) = Some x /\
    aget (alter_range f b n l) (b + n) = Ret x /\
    aset (alter_range f b n l) (b + n) (f (b + n) x) = Ret (alter_range f b (n + 1) l).
Proof.
  intros Hb Hn Hl. destruct (lookup_lt_is_Some_2 l (Z.to_nat (b + n))) as [x Hx]; [lia|].
  exists x. split; [done|]. split.
  - apply aget_Ret. split; [lia|]. rewrite alter_range_lookup, Hx. simpl.
    by rewrite decide_False by lia.
  - rewrite aset_lt by (rewrite alter_range_length; lia). f_equal.
    apply list_eq. intros i. rewrite alter_range_lookup.
    destruct (decide (i = Z.to_nat (b + n))) as [->|Hne].
    + rewrite list_lookup_insert_eq by (rewrite alter_range_length; lia).
      rewrite Hx. simpl. rewrite decide_True by lia. by rewrite Z2Nat.id by lia.
    + rewrite list_lookup_insert_ne by done. rewrite alter_range_lookup.
      destruct (l !! i); simpl; [|done].
      destruct (decide (b <= Z.of_nat i < b + n));
        [rewrite decide_True by lia | rewrite decide_False by lia]; done.
Qed.

(** The loop [for (i = b; i < b + n; i++) a[i] = f(i, a[i]);]. *)
Lemma alter_range_loop {A} (f : Z -> A -> A) b n l :
  0 <= b -> 0 <= n -> b + n <= Z.of_nat (length l) ->
  for_loop (Z.to_nat n) b (fun i t => x ← aget t i; aset t i (f i x)) l
  = Ret (alter_range f b n l).
Proof.
  intros Hb Hn Hl.
  destruct (for_loop_inv (fun i t => t = alter_range f b (i - b) l) (Z.to_nat n) b
    (fun i t => x ← aget t i; aset t i (f i x)) l) as (t & -> & ->).
  - by rewrite Z.sub_diag, alter_range_nil.
  - intros j t Hj ->.
    destruct (alter_range_step f b (j - b) l) as (x & _ & Hg & Hs); [lia..|].
    replace (b + (j - b)) with j in * by lia. rewrite Hg. cbn [mbind res_bind].
    eexists. split; [done|]. f_equal. lia.
  - do 2 f_equal. lia.
Qed.

(** The same range from its last element to its first:
    [while (n--) a[b + n] = f(b + n, a[b + n]);]. *)
Lemma alter_range_loop_down {A} (f : Z -> A -> A) b n l :
  0 <= b -> 0 <= n -> b + n <= Z.of_nat (length l) ->
  for_loop (Z.to_nat n) 0
    (fun k t => x ← aget t (b + (n - 1 - k)); aset t (b + (n - 1 - k)) (f (b + (n - 1 - k)) x)) l
  = Ret (alter_range f b n l).
Proof.
  intros Hb Hn Hl.
  destruct (for_loop_inv (fun k t => t = alter_range f (b + (n - k)) k l) (Z.to_nat n) 0
    (fun k t => x ← aget t (b + (n - 1 - k)); aset t (b + (n - 1 - k)) (f (b + (n - 1 - k)) x)) l)
    as (t & -> & ->).
  - by rewrite alter_range_nil.
  - intros k t Hk ->. set (j := b + (n - 1 - k)).
    destruct (lookup_lt_is_Some_2 l (Z.to_nat j)) as [x Hx]; [lia|].
    rewrite (proj2 (aget_Ret _ _ x)).
    2:{ split; [lia|]. rewrite alter_range_lookup, Hx. simpl. by rewrite decide_False by lia. }
    cbn [mbind res_bind]. rewrite aset_lt by (rewrite alter_range_length; lia).
    eexists. split; [done|]. apply list_eq. intros i. rewrite alter_range_lookup.
    destruct (decide (i = Z.to_nat j)) as [->|Hne].
    + rewrite list_lookup_insert_eq by (rewrite alter_range_length; lia).
      rewrite Hx. simpl. rewrite decide_True by lia. by rewrite Z2Nat.id by lia.
    + rewrite list_lookup_insert_ne by done. rewrite alter_range_lookup.
      destruct (l !! i); simpl; [|done].
      destruct (decide (b + (n - k) <= Z.of_nat i < b + (n - k) + k));
        [rewrite decide_True by lia | rewrite decide_False by lia]; done.
  - do 2 f_equal; lia.
Qed.
