(* ===== verification/BitOps.v ===== *)
(** * Bit operations and atomic counters (include/bitops.h, include/atomic.h)

    Each inline-assembly body is modelled by the result of its instruction:
    [bts], [btr], [btc] and [bt] with a memory operand address a bit string
    that starts at the operand and extends over the words around it, so the
    bit number selects a word and a bit in it; [bsf] and [bsr] scan one word;
    the locked additions and [cmpxchg] act on a 64-bit counter. *)

From S2P Require Import Prelude.

(** ** One word *)

(** The bit the instructions select in a word: the bit number modulo 64. *)
Definition bit_mask (nr : Z) : Z := 2 ^ (nr mod 64).

Definition bts (w nr : Z) : Z := Z.lor w (bit_mask nr).
Definition btr (w nr : Z) : Z := Z.ldiff w (bit_mask nr).
Definition btc (w nr : Z) : Z := Z.lxor w (bit_mask nr).

Fixpoint bsf_pos (p : positive) : Z :=
  match p with
  | xO q => 1 + bsf_pos q
  | _ => 0
  end.

(** [bsfq]: the index of the lowest set bit of a nonzero word. *)
Definition bsf (w : Z) : Z := match w with Zpos p => bsf_pos p | _ => 0 end.

(** [bsrq]: the index of the highest set bit of a nonzero word. *)
Definition bsr (w : Z) : Z := Z.log2 w.

(** ** Bit strings in memory

    The words around the address the operation is given: word [i] is the
    64-bit word at [addr + 8 * i]. *)
Definition word_at (m : gmap Z Z) (i : Z) : Z := default 0 (m !! i).

Definition set_bit (nr : Z) (m : gmap Z Z) : gmap Z Z :=
  <[nr / 64 := bts (word_at m (nr / 64)) nr]> m.

Definition clear_bit (nr : Z) (m : gmap Z Z) : gmap Z Z :=
  <[nr / 64 := btr (word_at m (nr / 64)) nr]> m.

Definition change_bit (nr : Z) (m : gmap Z Z) : gmap Z Z :=
  <[nr / 64 := btc (word_at m (nr / 64)) nr]> m.

(** [sbbq %0,%0] turns the carry flag into 0 or all ones, which the function
    returns as a signed long. *)
Definition test_bit (nr : Z) (m : gmap Z Z) : Z :=
  if Z.testbit (word_at m (nr / 64)) (nr mod 64) then -1 else 0.

(** The [sbbl] of these three cannot name their 64-bit register, and the
    assembler would refuse a call: as in [test_bit], the carry flag fills all of
    the result. *)
Definition test_and_set_bit (nr : Z) (m : gmap Z Z) : Z * gmap Z Z :=
  (test_bit nr m, <[nr / 64 := bts (word_at m (nr / 64)) nr]> m).

Definition test_and_clear_bit (nr : Z) (m : gmap Z Z) : Z * gmap Z Z :=
  (test_bit nr m, <[nr / 64 := btr (word_at m (nr / 64)) nr]> m).

Definition test_and_change_bit (nr : Z) (m : gmap Z Z) : Z * gmap Z Z :=
  (test_bit nr m, <[nr / 64 := btc (word_at m (nr / 64)) nr]> m).

(** ** Scans *)

Definition ffz (word : Z) : Z :=
  if word =? U64_MAX then U64_MAX else bsf (u64 (Z.lnot word)).

Definition __ffs (word : Z) : Z :=
  if word =? 0 then 0 else bsf word.

(** [bsr] leaves the result undefined for 0; the only caller, [fls64], does
    not pass 0. *)
Definition __fls (word : Z) : Z := bsr word.

Definition fls64 (x : Z) : Z :=
  if x =? 0 then 0 else __fls x + 1.

(** page_alloc.h: convert a page count to an order. *)
Definition PAGE_ORDER (x : Z) : Z := fls64 x.

(** ** Atomic counters: the counter's new value, with the returned value *)

Definition atomic_read (v : Z) : Z := v.
Definition atomic_set (v i : Z) : Z := s64 i.
Definition atomic_add (i v : Z) : Z := s64 (v + i).
Definition atomic_sub (i v : Z) : Z := s64 (v - i).
Definition atomic_sub_and_test (i v : Z) : Z * Z :=
  let v' := s64 (v - i) in (v', if v' =? 0 then 1 else 0).
Definition atomic_inc (v : Z) : Z := s64 (v + 1).
Definition atomic_dec (v : Z) : Z := s64 (v - 1).
Definition atomic_dec_and_test (v : Z) : Z * Z :=
  let v' := s64 (v - 1) in (v', if v' =? 0 then 1 else 0).
Definition atomic_inc_and_test (v : Z) : Z * Z :=
  let v' := s64 (v + 1) in (v', if v' =? 0 then 1 else 0).

(** [xaddq] leaves the counter's old value in [i]; the function returns
    [i + __i]. *)
Definition atomic_add_return (i v : Z) : Z * Z :=
  let i' := v in (s64 (v + i), s64 (i' + i)).
Definition atomic_sub_return (i v : Z) : Z * Z := atomic_add_return (s64 (- i)) v.

(** [cmpxchgq]: memory and the returned previous value. *)
Definition atomic_cmpxchg (mem old new : Z) : Z * Z :=
  (if mem =? old then new else mem, mem).

(** unittest/test_atomic.c: how often [atomic_cmpxchg fails] is printed. *)
Definition test_atomic_step (i : Z) (st : Z * nat) : res (Z * nat) :=
  let '(val, fails) := st in
  let '(val', old_val) := atomic_cmpxchg val val (u64 (val + i)) in
  Ret (val', if negb (val' =? u64 (old_val + i)) then S fails else fails).

Definition test_atomic : res (Z * nat) :=
  for_loop 0x1ff 0 test_atomic_step (0x12345678ABCDEF00, 0%nat).

(** ** Lemmas *)

Lemma nr_decompose nr : nr = 64 * (nr / 64) + nr mod 64.
Proof. apply Z.div_mod. lia. Qed.

Lemma nr_mod_range nr : 0 <= nr mod 64 < 64.
Proof. apply Z.mod_pos_bound. lia. Qed.

Lemma bit_mask_testbit nr k :
  0 <= k -> Z.testbit (bit_mask nr) k = (k =? nr mod 64).
Proof.
  intros Hk. unfold bit_mask. pose proof (nr_mod_range nr).
  rewrite Z.pow2_bits_eqb by lia. apply Z.eqb_sym.
Qed.

Lemma word_at_insert m i j w :
  word_at (<[i := w]> m) j = if decide (i = j) then w else word_at m j.
Proof.
  unfold word_at. case_decide as Hij.
  - by rewrite Hij, lookup_insert_eq.
  - by rewrite lookup_insert_ne.
Qed.

(** How an update of one word by a bitwise operation shows through
    [test_bit]. *)
Lemma test_bit_update (f : Z -> Z -> Z) (g : bool -> bool) nr k m :
  (forall w j, 0 <= j ->
     Z.testbit (f w nr) j
     = if decide (j = nr mod 64) then g (Z.testbit w j) else Z.testbit w j) ->
  test_bit k (<[nr / 64 := f (word_at m (nr / 64)) nr]> m)
  = if decide (k = nr)
    then (if g (Z.testbit (word_at m (nr / 64)) (nr mod 64)) then -1 else 0)
    else test_bit k m.
Proof.
  intros Hf. unfold test_bit. rewrite word_at_insert.
  pose proof (nr_mod_range k). pose proof (nr_decompose k).
  pose proof (nr_decompose nr).
  destruct (decide (nr / 64 = k / 64)) as [Hq|Hq].
  - rewrite Hf by lia. destruct (decide (k = nr)) as [->|Hne].
    + by rewrite decide_True.
    + rewrite decide_False by lia. by rewrite Hq.
  - rewrite decide_False; [done|]. intros ->. lia.
Qed.

Lemma bts_testbit w nr j :
  0 <= j ->
  Z.testbit (bts w nr) j
  = if decide (j = nr mod 64) then true else Z.testbit w j.
Proof.
  intros Hj. unfold bts. rewrite Z.lor_spec, bit_mask_testbit by done.
  case_decide; [subst; rewrite Z.eqb_refl; apply orb_true_r|].
  rewrite (proj2 (Z.eqb_neq _ _)) by done. apply orb_false_r.
Qed.

Lemma btr_testbit w nr j :
  0 <= j ->
  Z.testbit (btr w nr) j
  = if decide (j = nr mod 64) then false else Z.testbit w j.
Proof.
  intros Hj. unfold btr. rewrite Z.ldiff_spec, bit_mask_testbit by done.
  case_decide; [subst; rewrite Z.eqb_refl; apply andb_false_r|].
  rewrite (proj2 (Z.eqb_neq _ _)) by done. apply andb_true_r.
Qed.

Lemma btc_testbit w nr j :
  0 <= j ->
  Z.testbit (btc w nr) j
  = if decide (j = nr mod 64) then negb (Z.testbit w j) else Z.testbit w j.
Proof.
  intros Hj. unfold btc. rewrite Z.lxor_spec, bit_mask_testbit by done.
  case_decide; [subst; rewrite Z.eqb_refl; apply xorb_true_r|].
  rewrite (proj2 (Z.eqb_neq _ _)) by done. apply xorb_false_r.
Qed.

(** A word with one more bit set is still a 64-bit word. *)
Lemma bits_above_range w n :
  0 <= n -> 0 <= w -> (forall j, n <= j -> Z.testbit w j = false) -> w < 2 ^ n.
Proof.
  intros Hn Hw Hb. destruct (decide (w = 0)) as [->|]; [by apply Z.pow_pos_nonneg|].
  apply Z.log2_lt_pow2; [lia|].
  destruct (Z.lt_ge_cases (Z.log2 w) n) as [|Hge]; [done|].
  specialize (Hb _ Hge). by rewrite Z.bit_log2 in Hb by lia.
Qed.

Lemma bits_above_false w n j : 0 <= w < 2 ^ n -> n <= j -> Z.testbit w j = false.
Proof.
  intros Hw Hj. destruct (decide (w = 0)) as [->|]; [apply Z.bits_0|].
  apply Z.bits_above_log2; [lia|].
  assert (Z.log2 w < n) by (apply Z.log2_lt_pow2; lia). lia.
Qed.

Lemma bts_range w nr : 0 <= w < 2 ^ 64 -> 0 <= bts w nr < 2 ^ 64.
Proof.
  intros Hw. pose proof (nr_mod_range nr).
  assert (0 <= bts w nr) by (apply Z.lor_nonneg; split; [lia|]; unfold bit_mask; lia).
  split; [done|]. apply bits_above_range; [lia | done |].
  intros j Hj. rewrite bts_testbit by lia. rewrite decide_False by lia.
  by apply (bits_above_false w 64).
Qed.

Lemma bsf_pos_nonneg p : 0 <= bsf_pos p.
Proof. induction p; simpl; lia. Qed.

Lemma bsf_pos_spec p :
  Z.testbit (Zpos p) (bsf_pos p) = true /\
  (forall j, 0 <= j < bsf_pos p -> Z.testbit (Zpos p) j = false).
Proof.
  induction p as [p _|p [IH1 IH2]|]; cbn [bsf_pos]; [by split; [|lia] | | by split; [|lia]].
  pose proof (bsf_pos_nonneg p).
  assert (Hx : Zpos p~0 = 2 * Zpos p) by lia. rewrite Hx. split.
  - replace (1 + bsf_pos p) with (Z.succ (bsf_pos p)) by lia.
    by rewrite Z.double_bits_succ.
  - intros j Hj. destruct (decide (j = 0)) as [->|].
    + apply Z.testbit_even_0.
    + replace j with (Z.succ (j - 1)) by lia. rewrite Z.double_bits_succ.
      apply IH2. lia.
Qed.

Lemma bsf_spec w :
  0 < w ->
  0 <= bsf w /\ Z.testbit w (bsf w) = true /\
  (forall j, 0 <= j < bsf w -> Z.testbit w j = false).
Proof.
  intros Hw. destruct w as [|p|p]; [lia| |lia].
  split; [apply bsf_pos_nonneg | apply bsf_pos_spec].
Qed.

Lemma u64_lnot_testbit w j :
  0 <= j -> Z.testbit (u64 (Z.lnot w)) j = (j <? 64) && negb (Z.testbit w j).
Proof. intros Hj. by rewrite wrap_testbit, Z.lnot_spec by lia. Qed.

Lemma u64_lnot_pos w : 0 <= w < 2 ^ 64 -> w <> U64_MAX -> 0 < u64 (Z.lnot w).
Proof.
  intros Hw Hne. unfold Z.lnot, wrap.
  rewrite <- (Z_mod_plus_full _ 1), Z.mod_small; lia.
Qed.

(** ** Properties *)

(** The bit-string operations do what their comments say for every bit
    number, of any size: after [set_bit nr] exactly bit [nr] is known set and
    every other bit keeps its value; [clear_bit] and [change_bit] likewise. *)
Theorem bit_string_ops (nr k : Z) (m : gmap Z Z) :
  test_bit k (set_bit nr m) = (if decide (k = nr) then -1 else test_bit k m) /\
  test_bit k (clear_bit nr m) = (if decide (k = nr) then 0 else test_bit k m) /\
  test_bit k (change_bit nr m)
  = (if decide (k = nr) then -1 - test_bit nr m else test_bit k m).
Proof.
  split_and!.
  - apply (test_bit_update bts (fun _ => true)). intros. by apply bts_testbit.
  - apply (test_bit_update btr (fun _ => false)). intros. by apply btr_testbit.
  - etrans; [apply (test_bit_update btc negb); intros; by apply btc_testbit|].
    destruct (decide _); [|done].
    unfold test_bit. by destruct (Z.testbit _ (nr mod 64)).
Qed.

(** [ffz] returns the index of the lowest zero bit of a word that has
    one, and all ones for the word that has none. *)
Theorem ffz_lowest_zero (word : Z) (Hw : 0 <= word < 2 ^ 64) :
  (word = U64_MAX /\ ffz word = U64_MAX) \/
  (word <> U64_MAX /\ 0 <= ffz word < 64 /\
   Z.testbit word (ffz word) = false /\
   forall j, 0 <= j < ffz word -> Z.testbit word j = true).
Proof.
  unfold ffz. destruct (Z.eqb_spec word U64_MAX) as [He|Hne]; [by left | right].
  destruct (bsf_spec _ (u64_lnot_pos word Hw Hne)) as (H0 & Ht & Hl).
  set (r := bsf (u64 (Z.lnot word))) in *.
  rewrite u64_lnot_testbit in Ht by done. apply andb_prop in Ht as [H64 Hz].
  split_and!; [done | done | lia | by apply negb_true_iff |].
  intros j Hj. specialize (Hl j Hj). rewrite u64_lnot_testbit in Hl by lia.
  rewrite (proj2 (Z.ltb_lt j 64)) in Hl by lia. by apply negb_false_iff.
Qed.

Lemma ffz_lowest_zero_witness :
  (7 = U64_MAX /\ ffz 7 = U64_MAX) \/
  (7 <> U64_MAX /\ 0 <= ffz 7 < 64 /\ Z.testbit 7 (ffz 7) = false /\
   forall j, 0 <= j < ffz 7 -> Z.testbit 7 j = true).
Proof. apply (ffz_lowest_zero 7). lia. Defined.

(** [fls64] brackets its argument between powers of two, so the order
    [PAGE_ORDER] computes for a nonzero count covers the count, and is never
    more than twice as large as needed. *)
Theorem page_order_covers (x : Z) (Hx : 0 < x < 2 ^ 64) :
  0 < PAGE_ORDER x <= 64 /\
  2 ^ (PAGE_ORDER x - 1) <= x < 2 ^ PAGE_ORDER x.
Proof.
  unfold PAGE_ORDER, fls64, __fls, bsr.
  rewrite (proj2 (Z.eqb_neq x 0)) by lia.
  pose proof (Z.log2_spec x ltac:(lia)). pose proof (Z.log2_nonneg x).
  assert (Z.log2 x < 64) by (apply Z.log2_lt_pow2; lia).
  rewrite Z.add_simpl_r, Z.add_1_r. lia.
Qed.

Lemma page_order_covers_witness :
  0 < PAGE_ORDER 5 <= 64 /\ 2 ^ (PAGE_ORDER 5 - 1) <= 5 < 2 ^ PAGE_ORDER 5.
Proof. apply (page_order_covers 5). lia. Defined.

(** A set of atomic additions leaves the same counter whatever the order
    in which the processors' operations take effect, and the value is the sum
    modulo 2^64; [atomic_add_return] returns the value it leaves. *)
Theorem atomic_adds_commute (ds es : list Z) (v : Z) (Hp : ds ≡ₚ es) :
  foldr atomic_add v ds = foldr atomic_add v es /\
  u64 (foldr atomic_add v ds) = u64 (v + foldr Z.add 0 ds) /\
  forall i, fst (atomic_add_return i v) = atomic_add i v /\
            snd (atomic_add_return i v) = atomic_add i v.
Proof.
  split_and!; [| |by unfold atomic_add_return].
  - induction Hp as [| |i j l|]; simpl; [done | congruence | | congruence].
    unfold atomic_add. rewrite !sext_sext_add by lia. f_equal. lia.
  - clear Hp. induction ds as [|i ds IH]; simpl; [by rewrite Z.add_0_r|].
    unfold atomic_add at 1. rewrite sext_wrap by lia.
    rewrite <- wrap_add_l, IH, wrap_add_l. f_equal. lia.
Qed.

Lemma atomic_adds_commute_witness :
  foldr atomic_add 5 [1; 2] = foldr atomic_add 5 [2; 1] /\
  u64 (foldr atomic_add 5 [1; 2]) = u64 (5 + foldr Z.add 0 [1; 2]) /\
  forall i, fst (atomic_add_return i 5) = atomic_add i 5 /\
            snd (atomic_add_return i 5) = atomic_add i 5.
Proof. apply (atomic_adds_commute [1; 2] [2; 1] 5). apply Permutation_swap. Defined.

(** What processors that test and set one bit in turn get. *)
Fixpoint test_and_set_all (n : nat) (nr : Z) (m : gmap Z Z) : list Z :=
  match n with
  | O => []
  | S n => let '(r, m) := test_and_set_bit nr m in r :: test_and_set_all n nr m
  end.

Lemma test_bit_insert nr m w :
  test_bit nr (<[nr / 64 := w]> m) = if Z.testbit w (nr mod 64) then -1 else 0.
Proof. unfold test_bit, word_at. by rewrite lookup_insert_eq. Qed.

(** The operations return the old bit and act as their plain counterparts; of
    any number of processors that test and set one bit, only the first can find
    it clear. *)
Theorem test_and_set_first (nr : Z) (m : gmap Z Z) (n : nat) :
  test_and_set_bit nr m = (test_bit nr m, set_bit nr m) /\
  test_and_clear_bit nr m = (test_bit nr m, clear_bit nr m) /\
  test_and_change_bit nr m = (test_bit nr m, change_bit nr m) /\
  test_bit nr (clear_bit nr m) = 0 /\
  test_and_set_all (S n) nr m = test_bit nr m :: replicate n (-1).
Proof.
  assert (Hr : 0 <= nr mod 64 < 64) by (apply Z.mod_pos_bound; lia).
  assert (Hset : forall m, test_bit nr (set_bit nr m) = -1).
  { intros m'. unfold set_bit. rewrite test_bit_insert, bts_testbit by lia. by rewrite decide_True. }
  do 3 (split; [done|]). split.
  - unfold clear_bit. rewrite test_bit_insert, btr_testbit by lia. by rewrite decide_True.
  - cbn [test_and_set_all test_and_set_bit]. f_equal.
    assert (Hn : forall m, test_bit nr m = -1 -> test_and_set_all n nr m = replicate n (-1)); [|apply Hn, Hset].
    clear m. induction n as [|n IH]; intros m Hm; [done|].
    cbn [test_and_set_all test_and_set_bit replicate]. rewrite Hm. f_equal. apply IH, Hset.
Qed.

(** The unit test prints nothing. *)
Lemma test_atomic_passes : exists val, test_atomic = Ret (val, 0%nat).
Proof. eexists. vm_compute. reflexivity. Qed.
