(* ===== verification/LockTest.v ===== *)
(** * The stand-alone test of the spin lock (docs/spinlock_test/lock.c)

    The program that was written to try the lock out: three threads take and
    release one lock in an endless loop and print what they do, a fourth
    reports every change of [preempt_count] it notices. It is built for a
    32-bit machine, whose [int], [long] and [size_t] have 32 bits. One step is
    one access to the memory the threads share or one call of [printf], which
    is atomic; delays are of any length. Unlike the kernel's, its [set_bit] has
    no lock prefix: a release is a read and a write. *)

From S2P Require Import Prelude BitOps.

(** ** The operations on the word of the lock *)

Definition SPIN_LOCK_UNLOCKED : Z := 1.
Definition SPIN_LOCK_LOCKED : Z := 0.

(** [btl $nr, word; sbbl r, r]: all bits of the result are the bit. *)
Definition test_bit (nr word : Z) : Z := if Z.testbit word nr then u32 (-1) else 0.

(** [btsl $nr, word] *)
Definition set_bit (nr word : Z) : Z := Z.setbit word nr.

Definition spin_is_locked (slock : Z) : Z := test_bit 0 slock.

(** [movb $0, %al; lock xchgb %al, slock]: the register, whose other bytes are
    [high], and the word. *)
Definition raw_spin_trylock (high slock : Z) : Z * Z :=
  (Z.lor (Z.shiftl high 8) (Z.land slock 0xff), Z.ldiff slock 0xff).

(** ** The program *)

(** What is printed; a line of [thread_func] names the thread. *)
Inductive line :=
| Relax                       (* RELAX *)
| LockBy (tid : Z)            (* LOCK by   <tid> *)
| Error                       (* ERROR *)
| Preempt (count : Z)         (* ======>PREEMPT=count *)
| UnlockBy (tid : Z)          (* UNLOCK by <tid> *)
| Monitor (count : Z).        (* [MONITOR]PREEMPT=count *)

#[global] Instance line_eq_dec : EqDecision line.
Proof. solve_decision. Defined.

(** Where a thread is. The step of a place is the access named after it. *)
Inductive place :=
| Enter                       (* spin_lock: read preempt_count *)
| Entered (tmp : Z)           (* write it *)
| Try                         (* while (!raw_spin_trylock(lock)) *)
| Leave                       (* preempt_enable: read *)
| Left (tmp : Z)              (* write *)
| Spin                        (* while (spin_is_locked(lock)) *)
| SayRelax                    (* printf("RELAX ") *)
| Again                       (* preempt_disable: read *)
| Rejoin (tmp : Z)            (* write *)
| SayLock                     (* printf("LOCK by ...") *)
| CheckBit                    (* if (test_bit(0, &l.slock)) *)
| SayError                    (* printf("ERROR\n"); return *)
| ReadCount                   (* the argument of the printf *)
| SayCount (count : Z)
| SayUnlock                   (* printf("UNLOCK by ...") *)
| Unlock                      (* spin_unlock: set_bit reads the word *)
| Unlocked (word : Z)         (* and writes it *)
| Exit                        (* preempt_enable: read *)
| Exited (tmp : Z)            (* write *)
| Returned.

Record memory := { slock : Z; preempt_count : Z; stdout : list line }.

Definition with_slock (w : Z) (m : memory) : memory :=
  {| slock := w; preempt_count := preempt_count m; stdout := stdout m |}.
Definition with_count (c : Z) (m : memory) : memory :=
  {| slock := slock m; preempt_count := s32 c; stdout := stdout m |}.
Definition say (l : line) (m : memory) : memory :=
  {| slock := slock m; preempt_count := preempt_count m; stdout := stdout m ++ [l] |}.

(** [preempt_disable] and [preempt_enable]: a read, and a write of the sum. *)
Definition preempt_disable (tmp : Z) : memory -> memory := with_count (tmp + 1).
Definition preempt_enable (tmp : Z) : memory -> memory := with_count (tmp - 1).

(** The part of [spin_lock] and [spin_unlock] in a thread's loop. *)
Definition spin_lock (high : Z) (p : place) (m : memory) : place * memory :=
  match p with
  | Enter => (Entered (preempt_count m), m)
  | Entered tmp => (Try, preempt_disable tmp m)
  | Try =>
      let '(r, w) := raw_spin_trylock high (slock m) in
      (if r =? 0 then Leave else SayLock, with_slock w m)
  | Leave => (Left (preempt_count m), m)
  | Left tmp => (Spin, preempt_enable tmp m)
  | Spin => (if spin_is_locked (slock m) =? 0 then Again else SayRelax, m)
  | SayRelax => (Spin, say Relax m)
  | Again => (Rejoin (preempt_count m), m)
  | Rejoin tmp => (Try, preempt_disable tmp m)
  | _ => (p, m)
  end.

Definition spin_unlock (p : place) (m : memory) : place * memory :=
  match p with
  | Unlock => (Unlocked (slock m), m)
  | Unlocked w => (Exit, with_slock (set_bit 0 w) m)
  | Exit => (Exited (preempt_count m), m)
  | Exited tmp => (Enter, preempt_enable tmp m)
  | _ => (p, m)
  end.

(** One step of the thread [tid]. *)
Definition thread_func (high tid : Z) (p : place) (m : memory) : place * memory :=
  match p with
  | SayLock => (CheckBit, say (LockBy tid) m)
  | CheckBit => (if test_bit 0 (slock m) =? 0 then ReadCount else SayError, m)
  | SayError => (Returned, say Error m)
  | ReadCount => (SayCount (preempt_count m), m)
  | SayCount c => (SayUnlock, say (Preempt c) m)
  | SayUnlock => (Unlock, say (UnlockBy tid) m)
  | Returned => (Returned, m)
  | Unlock | Unlocked _ | Exit | Exited _ => spin_unlock p m
  | _ => spin_lock high p m
  end.

(** The monitor reads [preempt_count] to compare it, to print it and to keep
    it. *)
Inductive watch := Compare (old : Z) | Fetch | Report (count : Z) | Keep.

Definition preempt_monitor (w : watch) (m : memory) : watch * memory :=
  match w with
  | Compare old => (if preempt_count m =? old then Compare old else Fetch, m)
  | Fetch => (Report (preempt_count m), m)
  | Report c => (Keep, say (Monitor c) m)
  | Keep => (Compare (preempt_count m), m)
  end.

(** The threads [main] has created so far, with their numbers, and the monitor
    once it is there; [main] then waits for threads that do not end. *)
Record program := { threads : list place; monitor : option watch; mem : memory }.

Definition main_thread : program :=
  {| threads := []; monitor := None;
     mem := {| slock := SPIN_LOCK_UNLOCKED; preempt_count := 0; stdout := [] |} |}.

Inductive step (high : Z) : program -> program -> Prop :=
| Create s :                  (* pthread_create(&thr[i], NULL, thread_func, ...) *)
    (length (threads s) < 3)%nat ->
    step high s {| threads := threads s ++ [Enter]; monitor := monitor s; mem := mem s |}
| CreateMonitor s :           (* pthread_create(&thr[3], NULL, preempt_monitor, NULL) *)
    length (threads s) = 3%nat -> monitor s = None ->
    step high s {| threads := threads s; monitor := Some (Compare 0); mem := mem s |}
| Thread s i p p' m :
    threads s !! i = Some p -> thread_func high (Z.of_nat i) p (mem s) = (p', m) ->
    step high s {| threads := <[i := p']> (threads s); monitor := monitor s; mem := m |}
| Watch s w w' m :
    monitor s = Some w -> preempt_monitor w (mem s) = (w', m) ->
    step high s {| threads := threads s; monitor := Some w'; mem := m |}.

Definition reachable (high : Z) : program -> Prop := rtc (step high) main_thread.

(** Runs the program: [main] creates, the monitor steps, or a thread does. *)
Inductive turn := Main | Mon | Thr (i : nat).

Definition take_turn (high : Z) (t : turn) (s : program) : option program :=
  match t with
  | Main =>
      if decide (length (threads s) < 3)%nat then
        Some {| threads := threads s ++ [Enter]; monitor := monitor s; mem := mem s |}
      else if decide (length (threads s) = 3%nat /\ monitor s = None) then
        Some {| threads := threads s; monitor := Some (Compare 0); mem := mem s |}
      else None
  | Mon =>
      w ← monitor s;
      let '(w', m) := preempt_monitor w (mem s) in
      Some {| threads := threads s; monitor := Some w'; mem := m |}
  | Thr i =>
      p ← threads s !! i;
      let '(p', m) := thread_func high (Z.of_nat i) p (mem s) in
      Some {| threads := <[i := p']> (threads s); monitor := monitor s; mem := m |}
  end.

Definition run (high : Z) (ts : list turn) (s : program) : option program :=
  foldl (fun o t => s ← o; take_turn high t s) (Some s) ts.

(** ** The log *)

(** Reads the log: [Some h] when every thread that said it has the lock said it
    has released it before the next one said it has it, [h] the one that has
    not released it yet; no thread reported an error. *)
Definition log_step (o : option (option Z)) (l : line) : option (option Z) :=
  h ← o;
  match l, h with
  | LockBy t, None => Some (Some t)
  | UnlockBy t, Some t' => if t =? t' then Some None else None
  | LockBy _, Some _ | UnlockBy _, None | Error, _ => None
  | _, _ => Some h
  end.

Definition log_holder : list line -> option (option Z) := foldl log_step (Some None).

Lemma log_holder_snoc ls l : log_holder (ls ++ [l]) = log_step (log_holder ls) l.
Proof. unfold log_holder. by rewrite foldl_app. Qed.

Lemma log_no_error ls h : log_holder ls = Some h -> Error ∉ ls.
Proof.
  revert h. induction ls as [|l ls IH] using rev_ind; intros h E; [apply not_elem_of_nil|].
  rewrite log_holder_snoc in E. destruct (log_holder ls) as [h'|]; [|done].
  apply not_elem_of_app. split; [by eapply IH|]. by intros <-%list_elem_of_singleton.
Qed.

(** ** The invariant *)

(** The places from the successful exchange to the write of the release, and
    those between the two lines of the log. *)
Definition inside (p : place) : bool :=
  match p with
  | SayLock | CheckBit | ReadCount | SayCount _ | SayUnlock | Unlock => true
  | Unlocked w => w =? 0
  | _ => false
  end.

Definition outside (p : place) : bool :=
  match p with
  | Enter | Entered _ | Try | Leave | Left _ | Spin | SayRelax | Again | Rejoin _ | Exit | Exited _ => true
  | _ => false
  end.

Definition speaking (p : place) : bool :=
  match p with CheckBit | ReadCount | SayCount _ | SayUnlock => true | _ => false end.

Inductive lock_inv (s : program) : Prop :=
| Free :
    slock (mem s) = SPIN_LOCK_UNLOCKED ->
    (forall j q, threads s !! j = Some q -> outside q = true) ->
    log_holder (stdout (mem s)) = Some None -> lock_inv s
| Held i p :
    slock (mem s) = SPIN_LOCK_LOCKED ->
    threads s !! i = Some p -> inside p = true ->
    (forall j q, j <> i -> threads s !! j = Some q -> outside q = true) ->
    log_holder (stdout (mem s)) = Some (if speaking p then Some (Z.of_nat i) else None) ->
    lock_inv s.

Lemma quiet_step ls h l :
  log_holder ls = Some h -> (forall t, l <> LockBy t /\ l <> UnlockBy t) -> l <> Error ->
  log_holder (ls ++ [l]) = Some h.
Proof. intros E Hq He. rewrite log_holder_snoc, E. destruct l; naive_solver. Qed.

(** What a thread outside does to the memory: nothing but its attempt to take
    the lock touches the word. *)
Lemma outside_step tid p m p' m' :
  outside p = true -> slock m = 0 \/ slock m = 1 -> thread_func 0 tid p m = (p', m') ->
  (p = Try /\ slock m = 1 /\ p' = SayLock /\ slock m' = 0 /\ stdout m' = stdout m) \/
  (outside p' = true /\ slock m' = slock m /\ (p = Try -> slock m = 0) /\
   (stdout m' = stdout m \/ stdout m' = stdout m ++ [Relax])).
Proof.
  intros Ho Hw E. destruct m as [k c o]. cbn [slock] in Hw. destruct p; try discriminate Ho.
  3,6: destruct Hw as [->| ->]; vm_compute in E; injection E as <- <-; cbn; naive_solver.
  all: injection E as <- <-; right; cbn; naive_solver.
Qed.

(** What the thread inside does. *)
Lemma inside_step tid p m p' m' :
  inside p = true -> slock m = 0 -> thread_func 0 tid p m = (p', m') ->
  log_holder (stdout m) = Some (if speaking p then Some tid else None) ->
  (inside p' = true /\ slock m' = 0 /\
   log_holder (stdout m') = Some (if speaking p' then Some tid else None)) \/
  (outside p' = true /\ slock m' = 1 /\ log_holder (stdout m') = Some None).
Proof.
  intros Hi Hw E Hl. destruct m as [k c o]. cbn [slock stdout] in *. subst k.
  destruct p; try discriminate Hi; cbn [speaking] in Hl;
    cbn [thread_func spin_unlock] in E; try (injection E as <- <-); cbn [stdout say slock inside outside speaking];
    rewrite ?log_holder_snoc, ?Hl; cbn [log_step mbind option_bind]; rewrite ?Z.eqb_refl; auto.
  cbn in Hi. apply Z.eqb_eq in Hi as ->. by right.
Qed.

Lemma watch_step w m w' m' :
  preempt_monitor w m = (w', m') ->
  slock m' = slock m /\ (stdout m' = stdout m \/ exists c, stdout m' = stdout m ++ [Monitor c]).
Proof.
  intros E. destruct w; cbn in E; injection E as <- <-; cbn; eauto.
Qed.

Lemma test_inv_step s s' : lock_inv s -> step 0 s s' -> lock_inv s'.
Proof.
  intros Hinv Hs. destruct Hs as [s Hl|s Hl Hm|s i p p' m Hp E|s w w' m Hw E].
  - destruct Hinv as [Hk Ho Hg|i p Hk Hp Hi Ho Hg]; [left|apply (Held _ i p)]; cbn [threads mem]; try done.
    + intros j q [Hj|[_ Hj]]%lookup_app_Some; [by eapply Ho|]. by apply list_lookup_singleton_Some in Hj as [_ <-].
    + by apply lookup_app_l_Some.
    + intros j q Hne [Hj|[_ Hj]]%lookup_app_Some; [by eapply Ho|].
      by apply list_lookup_singleton_Some in Hj as [_ <-].
  - destruct Hinv as [|i p]; [by left | by apply (Held _ i p)].
  - pose proof (lookup_lt_Some _ _ _ Hp) as Hlt.
    destruct Hinv as [Hk Ho Hg|k q Hk Hq Hi Ho Hg].
    + destruct (outside_step _ _ _ _ _ (Ho i p Hp) (or_intror Hk) E)
        as [(-> & _ & -> & Hk' & Hs)|(Ho' & Hk' & _ & Hs)].
      * apply (Held _ i SayLock); cbn [threads mem]; [done | by apply list_lookup_insert_eq | done | | by rewrite Hs].
        intros j q Hne Hj. rewrite list_lookup_insert_ne in Hj by done. by eapply Ho.
      * left; cbn [threads mem]; [by rewrite Hk' | |].
        -- intros j q Hj. apply list_lookup_insert_Some in Hj as [(_ & <- & _)|[_ Hj]]; [done | by eapply Ho].
        -- destruct Hs as [->| ->]; [done | by apply quiet_step].
    + destruct (decide (i = k)) as [->|Hne].
      * assert (p = q) as -> by congruence.
        destruct (inside_step _ _ _ _ _ Hi Hk E Hg) as [(Hi' & Hk' & Hg')|(Ho' & Hk' & Hg')].
        -- apply (Held _ k p'); cbn [threads mem]; [done | by apply list_lookup_insert_eq | done | | done].
           intros j r Hne Hj. rewrite list_lookup_insert_ne in Hj by done. by eapply Ho.
        -- left; cbn [threads mem]; [done | | done]. intros j r Hj.
           apply list_lookup_insert_Some in Hj as [(_ & <- & _)|[Hne Hj]]; [done | by eapply (Ho j)].
      * destruct (outside_step _ _ _ _ _ (Ho i p Hne Hp) (or_introl Hk) E)
          as [(_ & Hk1 & _)|(Ho' & Hk' & _ & Hs)]; [rewrite Hk in Hk1; discriminate|].
        apply (Held _ k q); cbn [threads mem]; [by rewrite Hk' | by rewrite list_lookup_insert_ne | done | |].
        -- intros j r Hj Hr. apply list_lookup_insert_Some in Hr as [(_ & <- & _)|[_ Hr]]; [done | by eapply (Ho j)].
        -- destruct Hs as [->| ->]; [done | by apply quiet_step].
  - destruct (watch_step _ _ _ _ E) as [Hk' Hs].
    destruct Hinv as [Hk Ho Hg|k q Hk Hq Hi Ho Hg]; [left|apply (Held _ k q)]; cbn [threads mem];
      rewrite ?Hk'; try done; by destruct Hs as [->|[c ->]]; [|apply quiet_step].
Qed.

Lemma test_reachable_inv s : reachable 0 s -> lock_inv s.
Proof.
  intros Hr. assert (Hi : lock_inv main_thread).
  { apply Free; [done | | done]. intros [|j] q; done. }
  unfold reachable in Hr.
  induction Hr as [|s1 s2 s3 Hs _ IH]; [done|]. apply IH. by eapply test_inv_step.
Qed.

Lemma at_most_three high s : reachable high s -> (length (threads s) <= 3)%nat.
Proof.
  intros Hr. assert (Hi : (length (threads main_thread) <= 3)%nat) by (simpl; lia).
  unfold reachable in Hr. induction Hr as [|s1 s2 s3 Hs _ IH]; [done|]. apply IH.
  destruct Hs; cbn [threads]; rewrite ?length_app, ?length_insert; simpl; lia.
Qed.

Lemma take_turn_step high t s s' : take_turn high t s = Some s' -> step high s s'.
Proof.
  destruct t as [| |i]; cbn [take_turn]; intros E.
  - case_decide as H3; [injection E as <-; by apply Create|].
    case_decide as Hm; [|done]. destruct Hm. injection E as <-. by apply CreateMonitor.
  - destruct (monitor s) as [w|] eqn:Hw; [|done]. cbn [mbind option_bind] in E.
    destruct (preempt_monitor w (mem s)) as [w' m] eqn:Es. injection E as <-. by eapply Watch.
  - destruct (threads s !! i) as [p|] eqn:Hp; [|done]. cbn [mbind option_bind] in E.
    destruct (thread_func high (Z.of_nat i) p (mem s)) as [p' m] eqn:Es. injection E as <-. by eapply Thread.
Qed.

Lemma turns_are_steps high ts s s' : run high ts s = Some s' -> rtc (step high) s s'.
Proof.
  unfold run. revert s s'. induction ts as [|t ts IH] using rev_ind; intros s s' E.
  - injection E as <-. apply rtc_refl.
  - rewrite foldl_app in E. cbn [foldl] in E.
    destruct (foldl _ (Some s) ts) as [s1|] eqn:E1; [|done]. cbn [mbind option_bind] in E.
    eapply rtc_r; [by apply IH | by eapply take_turn_step].
Qed.

(** ** Properties *)

Lemma clear_register_no_error s :
  reachable 0 s ->
  Error ∉ stdout (mem s) /\ (exists h, log_holder (stdout (mem s)) = Some h) /\
  (forall i p, threads s !! i = Some p -> p <> SayError /\ p <> Returned) /\
  (forall i j p q, threads s !! i = Some p -> threads s !! j = Some q ->
     inside p = true -> inside q = true -> i = j).
Proof.
  intros Hr. pose proof (test_reachable_inv s Hr) as Hinv.
  assert (Ho : forall p, outside p = true -> inside p = true -> False) by (by intros []).
  assert (Hn : forall p, outside p = true \/ inside p = true -> p <> SayError /\ p <> Returned).
  { intros p [Hp|Hp]; by destruct p. }
  destruct Hinv as [_ Hout Hg|k r _ Hk Hi Hout Hg]; (split; [by eapply log_no_error|]); (split; [by eexists|]); split.
  - intros i p Hp. apply Hn. left. by eapply Hout.
  - intros i j p q Hp _ Hip _. exfalso. eapply Ho; [by eapply Hout | done].
  - intros i p Hp. apply Hn. destruct (decide (i = k)) as [->|]; [right | left; by eapply (Hout i)].
    congruence.
  - assert (Hk' : forall i p, threads s !! i = Some p -> inside p = true -> i = k).
    { intros i p Hp Hip. destruct (decide (i = k)) as [|Hne]; [done|]. exfalso.
      eapply Ho; [by eapply (Hout i) | done]. }
    intros i j p q Hp Hq Hip Hiq. by rewrite (Hk' i p), (Hk' j q).
Qed.

(** Two threads take the lock; the first says so and releases it, which sets
    the bit the second one tests. *)
Definition two_lockers : list turn :=
  [Main; Main] ++ replicate 3 (Thr 0) ++ replicate 3 (Thr 1) ++ replicate 7 (Thr 0) ++ replicate 3 (Thr 1).

Lemma other_register_error high :
  0 < high ->
  exists s, reachable high s /\ Error ∈ stdout (mem s) /\ threads s !! 1%nat = Some Returned.
Proof.
  intros Hh. destruct high as [|high|high]; [lia| |lia].
  eexists. split; [apply (turns_are_steps _ two_lockers); vm_compute; reflexivity|].
  split; [|done]. apply (bool_decide_unpack _). vm_compute. done.
Qed.

(** C18: what the test finds. The program has the three threads of [main] and
    the monitor, created one after the other while those already there run. If
    the bytes of the register that the exchange does not load are clear, then
    whatever the order of the steps no thread prints ERROR and returns; two
    threads are never both between the exchange that takes the lock and the
    write that releases it; and in what the program prints every "LOCK by"
    line is followed by the "UNLOCK by" line of the same thread before another
    "LOCK by" line. If they are anything else, which lock.c does not exclude,
    there is an order of steps in which a thread finds the lock free that it
    has just taken, prints ERROR and returns. *)
Theorem lock_test_finds_no_error high :
  (high = 0 ->
   forall s, reachable high s ->
   (length (threads s) <= 3)%nat /\
   Error ∉ stdout (mem s) /\ (exists h, log_holder (stdout (mem s)) = Some h) /\
   (forall i p, threads s !! i = Some p -> p <> SayError /\ p <> Returned) /\
   (forall i j p q, threads s !! i = Some p -> threads s !! j = Some q ->
      inside p = true -> inside q = true -> i = j)) /\
  (0 < high ->
   exists s, reachable high s /\ Error ∈ stdout (mem s) /\ threads s !! 1%nat = Some Returned).
Proof.
  split.
  - intros -> s Hr. split; [by eapply at_most_three | by apply clear_register_no_error].
  - exact (other_register_error high).
Qed.

(** Two threads are created; the first takes the lock and prints, the second
    waits, the first releases the lock. *)
Definition sample_turns : list turn :=
  [Main; Main] ++ replicate 3 (Thr 0) ++ replicate 7 (Thr 1) ++ [Main; Main; Mon; Mon; Mon] ++ replicate 8 (Thr 0).

Definition sample_test : program := default main_thread (run 0 sample_turns main_thread).

Lemma lock_test_finds_no_error_witness :
  stdout (mem sample_test) = [Monitor 1; LockBy 0; Preempt 1; UnlockBy 0] /\
  Error ∉ stdout (mem sample_test) /\
  exists s, reachable 0xdead s /\ Error ∈ stdout (mem s) /\ threads s !! 1%nat = Some Returned.
Proof.
  split; [vm_compute; reflexivity|]. split.
  - destruct (lock_test_finds_no_error 0) as [Hno _].
    apply (Hno eq_refl sample_test). apply (turns_are_steps 0 sample_turns). vm_compute. reflexivity.
  - destruct (lock_test_finds_no_error 0xdead) as [_ Her]. by apply Her.
Defined.
