(* ===== verification/CList.v ===== *)
(** * Circular doubly linked lists (include/list.h)

    A store maps the address of each [struct list_head] to its two pointers.
    Operations read and write the store pointer by pointer in the order of the
    code; a pointer to no list head is a [Fault]. [dlist] says that a head
    and the entries after it form a circular list; each operation is shown to
    act on such a list as the sequence operation it stands for. *)

From S2P Require Import Prelude.

(** ** Data *)

Record list_head := { next : Z; prev : Z }.

Abbreviation list_heap := (gmap Z list_head).

Definition LIST_POISON1 : Z := 0x00100100.
Definition LIST_POISON2 : Z := 0x00200200.

Definition node (h : list_heap) (a : Z) : res list_head :=
  match h !! a with Some n => Ret n | None => Fault end.

Definition set_next (a v : Z) (h : list_heap) : res list_heap :=
  n ← node h a; Ret (<[a := {| next := v; prev := prev n |}]> h).

Definition set_prev (a v : Z) (h : list_heap) : res list_heap :=
  n ← node h a; Ret (<[a := {| next := next n; prev := v |}]> h).

(** ** Operations *)

(** Both pointers are written and none is read, so the memory of the list
    head need not hold one before. *)
Definition INIT_LIST_HEAD (list : Z) (h : list_heap) : list_heap :=
  <[list := {| next := list; prev := list |}]> h.

Definition __list_add (new prv nxt : Z) (h : list_heap) : res list_heap :=
  h ← set_prev nxt new h;
  h ← set_next new nxt h;
  h ← set_prev new prv h;
  set_next prv new h.

Definition list_add (new head : Z) (h : list_heap) : res list_heap :=
  n ← node h head;
  __list_add new head (next n) h.

Definition list_add_tail (new head : Z) (h : list_heap) : res list_heap :=
  n ← node h head;
  __list_add new (prev n) head h.

Definition __list_del (prv nxt : Z) (h : list_heap) : res list_heap :=
  h ← set_prev nxt prv h;
  set_next prv nxt h.

Definition list_del (entry : Z) (h : list_heap) : res list_heap :=
  n ← node h entry;
  h ← __list_del (prev n) (next n) h;
  h ← set_next entry LIST_POISON1 h;
  set_prev entry LIST_POISON2 h.

Definition list_empty (head : Z) (h : list_heap) : res bool :=
  n ← node h head;
  Ret (next n =? head).

(** [list_for_each_entry] from [pos] on, where [body] returns [true] to
    [break]. The result is the position at which the loop stops ([head] when
    it runs to the end) and the state. The condition evaluates
    [pos->member.next] for the prefetch before it compares. *)
Fixpoint list_loop {S} (fuel : nat) (h : list_heap) (pos head : Z)
    (body : Z -> S -> res (S * bool)) (s : S) : res (Z * S) :=
  match fuel with
  | O => NoFuel
  | Datatypes.S fuel' =>
      n ← node h pos;
      if pos =? head then Ret (pos, s)
      else
        '(s', brk) ← body pos s;
        if (brk : bool) then Ret (pos, s')
        else list_loop fuel' h (next n) head body s'
  end.

Definition list_for_each_entry {S} (fuel : nat) (h : list_heap) (head : Z)
    (body : Z -> S -> res (S * bool)) (s : S) : res (Z * S) :=
  n ← node h head;
  list_loop fuel h (next n) head body s.

(** The store has at most [size h] list heads, so a traversal of a list in it
    takes at most that many steps. *)
Definition list_fuel (h : list_heap) : nat := S (size h).

(** ** What a well-formed list is *)

Definition nxt (h : list_heap) (a : Z) : option Z := next <$> h !! a.
Definition prv (h : list_heap) (a : Z) : option Z := prev <$> h !! a.

Definition link (h : list_heap) (a b : Z) : Prop :=
  nxt h a = Some b /\ prv h b = Some a.

Fixpoint linked (h : list_heap) (a : Z) (l : list Z) : Prop :=
  match l with
  | [] => True
  | b :: l' => link h a b /\ linked h b l'
  end.

(** [head] is the head of a circular list whose entries are [xs], in the
    order of the [next] pointers. *)
Definition dlist (h : list_heap) (head : Z) (xs : list Z) : Prop :=
  NoDup (head :: xs) /\ linked h head (xs ++ [head]).

(** The sequential reading of a traversal: the body on each entry in turn. *)
Fixpoint walk {S} (head : Z) (xs : list Z)
    (body : Z -> S -> res (S * bool)) (s : S) : res (Z * S) :=
  match xs with
  | [] => Ret (head, s)
  | x :: xs' =>
      '(s', brk) ← body x s;
      if (brk : bool) then Ret (x, s') else walk head xs' body s'
  end.

(** ** Pointer updates *)

Lemma nxt_insert h a n x :
  nxt (<[a := n]> h) x = if decide (a = x) then Some (next n) else nxt h x.
Proof.
  unfold nxt. case_decide; [subst; by rewrite lookup_insert_eq|].
  by rewrite lookup_insert_ne.
Qed.

Lemma prv_insert h a n x :
  prv (<[a := n]> h) x = if decide (a = x) then Some (prev n) else prv h x.
Proof.
  unfold prv. case_decide; [subst; by rewrite lookup_insert_eq|].
  by rewrite lookup_insert_ne.
Qed.

Lemma node_Ret h a n : node h a = Ret n <-> h !! a = Some n.
Proof. unfold node. destruct (h !! a); naive_solver. Qed.

Lemma nxt_is_Some h a : is_Some (h !! a) -> exists n, node h a = Ret n /\ nxt h a = Some (next n) /\ prv h a = Some (prev n).
Proof.
  intros [n Hn]. exists n. unfold nxt, prv. rewrite Hn. split; [|done].
  by apply node_Ret.
Qed.

Lemma link_is_Some h a b : link h a b -> is_Some (h !! a) /\ is_Some (h !! b).
Proof.
  unfold link, nxt, prv. intros [(n & Hn & _)%fmap_Some (m & Hm & _)%fmap_Some].
  eauto.
Qed.

(** The store after [a->next = v] or [a->prev = v], pointer by pointer. *)
Definition updates (h h' : list_heap) (fn fp : Z -> option Z) : Prop :=
  (forall x, nxt h' x = fn x) /\ (forall x, prv h' x = fp x) /\
  dom h' = dom h.

Lemma set_next_spec h a v :
  is_Some (h !! a) ->
  exists h', set_next a v h = Ret h' /\
    updates h h' (fun x => if decide (a = x) then Some v else nxt h x) (prv h) /\
    (forall x, x <> a -> h' !! x = h !! x).
Proof.
  intros [n Hn]. unfold set_next, node. rewrite Hn. simpl. eexists. split; [done|].
  split; [|intros x Hx; by apply lookup_insert_ne].
  split; [intros x; by rewrite nxt_insert|]. split.
  - intros x. rewrite prv_insert. case_decide; [|done]. subst. unfold prv. by rewrite Hn.
  - rewrite dom_insert_L. apply elem_of_dom_2 in Hn. set_solver.
Qed.

Lemma set_prev_spec h a v :
  is_Some (h !! a) ->
  exists h', set_prev a v h = Ret h' /\
    updates h h' (nxt h) (fun x => if decide (a = x) then Some v else prv h x) /\
    (forall x, x <> a -> h' !! x = h !! x).
Proof.
  intros [n Hn]. unfold set_prev, node. rewrite Hn. simpl. eexists. split; [done|].
  split; [|intros x Hx; by apply lookup_insert_ne].
  split; [|split].
  - intros x. rewrite nxt_insert. case_decide; [|done]. subst. unfold nxt. by rewrite Hn.
  - intros x. by rewrite prv_insert.
  - rewrite dom_insert_L. apply elem_of_dom_2 in Hn. set_solver.
Qed.

Lemma updates_is_Some h h' fn fp x :
  updates h h' fn fp -> is_Some (h' !! x) <-> is_Some (h !! x).
Proof. intros (_ & _ & Hd). by rewrite <- !elem_of_dom, Hd. Qed.

(** Runs one pointer store: its target is a list head of the store. *)
Ltac step_ptr lem :=
  let h' := fresh "h" in let E := fresh "E" in
  let U := fresh "U" in let F := fresh "F" in
  match goal with
  | |- context [mbind _ (?f ?a ?v ?h)] =>
      destruct (lem h a v) as (h' & E & U & F)
  | |- context [?f ?a ?v ?h = Ret _] =>
      destruct (lem h a v) as (h' & E & U & F)
  end; [|rewrite E; cbn [mbind res_bind]].

Lemma __list_add_spec h new p n :
  is_Some (h !! new) -> is_Some (h !! p) -> is_Some (h !! n) ->
  exists h', __list_add new p n h = Ret h' /\
    updates h h'
      (fun x => if decide (p = x) then Some new
                else if decide (new = x) then Some n else nxt h x)
      (fun x => if decide (new = x) then Some p
                else if decide (n = x) then Some new else prv h x) /\
    (forall x, x <> new -> x <> p -> x <> n -> h' !! x = h !! x).
Proof.
  intros Hnew Hp Hn. unfold __list_add.
  step_ptr set_prev_spec; [done|].
  step_ptr set_next_spec; [by eapply updates_is_Some|].
  step_ptr set_prev_spec; [by do 2 (eapply updates_is_Some; [done|])|].
  step_ptr set_next_spec; [by do 3 (eapply updates_is_Some; [done|])|].
  eexists. split; [done|].
  destruct U as (Un & Up & Ud), U0 as (Un0 & Up0 & Ud0),
    U1 as (Un1 & Up1 & Ud1), U2 as (Un2 & Up2 & Ud2).
  split.
  - split; [|split; [|congruence]].
    + intros x. by rewrite Un2, Un1, Un0, Un.
    + intros x. by rewrite Up2, Up1, Up0, Up.
  - intros x H1 H2 H3. by rewrite F2, F1, F0, F.
Qed.

Lemma __list_del_spec h p n :
  is_Some (h !! p) -> is_Some (h !! n) ->
  exists h', __list_del p n h = Ret h' /\
    updates h h'
      (fun x => if decide (p = x) then Some n else nxt h x)
      (fun x => if decide (n = x) then Some p else prv h x) /\
    (forall x, x <> p -> x <> n -> h' !! x = h !! x).
Proof.
  intros Hp Hn. unfold __list_del.
  step_ptr set_prev_spec; [done|].
  step_ptr set_next_spec; [by eapply updates_is_Some|].
  eexists. split; [done|].
  destruct U as (Un & Up & Ud), U0 as (Un0 & Up0 & Ud0). split.
  - split; [|split; [|congruence]].
    + intros x. by rewrite Un0, Un.
    + intros x. by rewrite Up0, Up.
  - intros x H1 H2. by rewrite F0, F.
Qed.

(** ** Segments *)

Lemma linked_app h a l1 b l2 :
  linked h a (l1 ++ b :: l2) <-> linked h a (l1 ++ [b]) /\ linked h b l2.
Proof.
  revert a. induction l1 as [|c l1 IH]; intros a; simpl; [tauto|].
  rewrite IH. tauto.
Qed.

(** A segment survives any change that keeps the [next] of every node it
    leaves and the [prev] of every node it enters. *)
Lemma linked_frame h h' a l :
  linked h a l ->
  (forall x, x ∈ removelast (a :: l) -> nxt h' x = nxt h x) ->
  (forall x, x ∈ l -> prv h' x = prv h x) ->
  linked h' a l.
Proof.
  revert a. induction l as [|b l IH]; intros a Hl Hn Hp; [done|].
  change (removelast (a :: b :: l)) with (a :: removelast (b :: l)) in Hn.
  destruct Hl as [[H1 H2] Hl]. split.
  - split; [rewrite Hn | rewrite Hp]; [done | set_solver | done | set_solver].
  - apply IH; [done | |]; intros x Hx; [apply Hn | apply Hp]; set_solver.
Qed.

Lemma linked_insert h h' a l1 p new n r :
  linked h a (l1 ++ n :: r) ->
  last (a :: l1) = Some p ->
  nxt h' p = Some new -> prv h' new = Some p ->
  nxt h' new = Some n -> prv h' n = Some new ->
  (forall x, x ∈ removelast (a :: l1) ++ removelast (n :: r) -> nxt h' x = nxt h x) ->
  (forall x, x ∈ l1 ++ r -> prv h' x = prv h x) ->
  linked h' a (l1 ++ new :: n :: r).
Proof.
  intros Hl Hlast Hn1 Hp1 Hn2 Hp2. revert a Hl Hlast.
  induction l1 as [|b l1 IH]; intros a Hl Hlast Hfn Hfp.
  - simpl in Hlast. injection Hlast as ->. destruct Hl as [_ Hl].
    split; [done|]. split; [done|].
    eapply linked_frame; [done | |]; intros x Hx; [apply Hfn | apply Hfp]; set_solver.
  - change (removelast (a :: b :: l1)) with (a :: removelast (b :: l1)) in Hfn.
    destruct Hl as [[H1 H2] Hl]. split.
    + split; [rewrite Hfn | rewrite Hfp]; [done | set_solver | done | set_solver].
    + apply IH; [done | | |]; [by rewrite last_cons_cons in Hlast | |];
        intros x Hx; [apply Hfn | apply Hfp]; set_solver.
Qed.

Lemma linked_remove h h' a l1 p e n r :
  linked h a (l1 ++ e :: n :: r) ->
  last (a :: l1) = Some p ->
  nxt h' p = Some n -> prv h' n = Some p ->
  (forall x, x ∈ removelast (a :: l1) ++ removelast (n :: r) -> nxt h' x = nxt h x) ->
  (forall x, x ∈ l1 ++ r -> prv h' x = prv h x) ->
  linked h' a (l1 ++ n :: r).
Proof.
  intros Hl Hlast Hn1 Hp1. revert a Hl Hlast.
  induction l1 as [|b l1 IH]; intros a Hl Hlast Hfn Hfp.
  - simpl in Hlast. injection Hlast as ->. destruct Hl as (_ & _ & Hl).
    split; [done|].
    eapply linked_frame; [done | |]; intros x Hx; [apply Hfn | apply Hfp]; set_solver.
  - change (removelast (a :: b :: l1)) with (a :: removelast (b :: l1)) in Hfn.
    destruct Hl as [[H1 H2] Hl]. split.
    + split; [rewrite Hfn | rewrite Hfp]; [done | set_solver | done | set_solver].
    + apply IH; [done | | |]; [by rewrite last_cons_cons in Hlast | |];
        intros x Hx; [apply Hfn | apply Hfp]; set_solver.
Qed.

(** ** Reading a list *)

Lemma removelast_snoc {A} (l : list A) x : removelast (l ++ [x]) = l.
Proof. apply removelast_last. Qed.

(** The pointers around the point between [l1] and [l2]. *)
Lemma dlist_split h head l1 l2 :
  dlist h head (l1 ++ l2) ->
  exists k p n r,
    head :: l1 = k ++ [p] /\ l2 ++ [head] = n :: r /\
    linked h head (l1 ++ n :: r) /\ link h p n /\
    removelast (head :: l1) = k /\ removelast (n :: r) = l2 /\
    last (head :: l1) = Some p.
Proof.
  intros [_ Hl]. rewrite <- app_assoc in Hl.
  destruct (exists_last (l := head :: l1)) as (k & p & Hk); [done|].
  destruct (l2 ++ [head]) as [|n r] eqn:Hr; [by destruct l2|].
  exists k, p, n, r. split_and!; try done.
  - destruct k as [|y k]; simpl in Hk.
    + injection Hk as -> ->. simpl in Hl. tauto.
    + injection Hk as -> ->. rewrite <- app_assoc in Hl.
      apply (linked_app h y k p (n :: r)) in Hl. simpl in Hl. tauto.
  - rewrite Hk. apply removelast_snoc.
  - rewrite <- Hr. apply removelast_snoc.
  - rewrite Hk. apply last_snoc.
Qed.

Lemma dlist_is_Some h head xs x :
  dlist h head xs -> x ∈ head :: xs -> is_Some (h !! x).
Proof.
  intros [_ Hl] Hx.
  assert (Hall : forall a l y, linked h a l -> y ∈ l -> is_Some (h !! y)).
  { intros a l. revert a. induction l as [|b l IH]; intros a y Hk Hy; [set_solver|].
    destruct Hk as [Hk1 Hk2]. apply link_is_Some in Hk1 as [_ Hb].
    apply elem_of_cons in Hy as [->|Hy]; [done | eauto]. }
  eapply Hall; [done|]. set_solver.
Qed.

Lemma dlist_first h head xs :
  dlist h head xs ->
  nxt h head = Some (default head (hd_error xs)) /\
  prv h head = Some (default head (last xs)).
Proof.
  intros Hd. split.
  - destruct Hd as [_ Hl]. destruct xs as [|x xs]; simpl in *; unfold link in Hl; tauto.
  - rewrite <- (app_nil_r xs) in Hd.
    destruct (dlist_split _ _ _ _ Hd) as (k & p & n & r & Hk & Hr & _ & [_ Hp] & _ & _ & Hlast).
    simpl in Hr. injection Hr as <- <-. rewrite Hp. f_equal.
    destruct xs as [|x xs]; [by injection Hlast|].
    rewrite last_cons_cons in Hlast. by rewrite Hlast.
Qed.

(** ** Each operation as an operation on sequences *)

Lemma INIT_LIST_HEAD_dlist h l : dlist (INIT_LIST_HEAD l h) l [].
Proof.
  split; [by repeat constructor; set_solver|].
  unfold INIT_LIST_HEAD. split; [|done].
  by split; [rewrite nxt_insert | rewrite prv_insert]; rewrite decide_True.
Qed.

(** A change away from a list does not touch it. *)
Lemma dlist_frame h h' head xs :
  dlist h head xs ->
  (forall x, x ∈ head :: xs -> h' !! x = h !! x) ->
  dlist h' head xs.
Proof.
  intros [Hnd Hl] Hf. split; [done|].
  assert (Hrm : removelast (head :: xs ++ [head]) = head :: xs)
    by apply (removelast_snoc (head :: xs)).
  eapply linked_frame; [done | rewrite Hrm |]; intros x Hx;
    unfold nxt, prv; rewrite Hf; [done | done | done | set_solver].
Qed.

(** The neighbours of a point of a list occur once. *)
Lemma dlist_point_NoDup head (l1 l2 k r : list Z) p n :
  NoDup (head :: l1 ++ l2) ->
  head :: l1 = k ++ [p] -> l2 ++ [head] = n :: r ->
  p ∉ k /\ p ∉ l2 /\ n ∉ r /\ n ∉ l1.
Proof.
  intros Hnd Hk Hr.
  assert (Hnd' : NoDup (l1 ++ n :: r)).
  { rewrite <- Hr, app_assoc, <- Permutation_cons_append. done. }
  rewrite app_comm_cons, Hk in Hnd.
  apply NoDup_app in Hnd as (Hkp & Hdis & _).
  apply NoDup_app in Hkp as (_ & Hkp & _).
  apply NoDup_app in Hnd' as (_ & Hdis' & Hnd').
  apply NoDup_cons in Hnd' as [? _]. split_and!; set_solver.
Qed.

(** Inserting [new] at any point of a list. *)
Lemma dlist_insert h head l1 l2 new p n :
  dlist h head (l1 ++ l2) -> new ∉ head :: l1 ++ l2 -> is_Some (h !! new) ->
  last (head :: l1) = Some p -> hd_error (l2 ++ [head]) = Some n ->
  exists h', __list_add new p n h = Ret h' /\ dlist h' head (l1 ++ new :: l2) /\
    dom h' = dom h /\
    (forall x, x ∉ new :: head :: l1 ++ l2 -> h' !! x = h !! x).
Proof.
  intros Hd Hnew Hin Hp Hn.
  destruct (dlist_split _ _ _ _ Hd) as (k & p' & n' & r & Hk & Hr & Hl & _ & Hrm1 & Hrm2 & Hp').
  rewrite Hp in Hp'. injection Hp' as <-. rewrite Hr in Hn. injection Hn as ->.
  destruct (dlist_point_NoDup _ _ _ _ _ _ _ (proj1 Hd) Hk Hr) as (Hpk & Hp2 & Hnr & Hn1).
  assert (Hpin : p ∈ head :: l1) by (rewrite Hk; set_solver).
  assert (Hnin : n ∈ l2 ++ [head]) by (rewrite Hr; set_solver).
  assert (Hrin : forall x, x ∈ r -> x ∈ l2 ++ [head]) by (rewrite Hr; set_solver).
  assert (Hkin : forall x, x ∈ k -> x ∈ head :: l1) by (rewrite Hk; set_solver).
  destruct (__list_add_spec h new p n) as (h' & E & (Un & Up & Ud) & F);
    [done | eapply dlist_is_Some; [done | set_solver]
    | eapply dlist_is_Some; [done | set_solver] |].
  exists h'. split_and!; [done | | done | intros x Hx; apply F; set_solver].
  destruct Hd as [Hnd _]. assert (Hne : p <> new /\ n <> new) by (split; set_solver).
  split.
  - rewrite app_comm_cons, <- Permutation_middle. by constructor.
  - rewrite <- app_assoc. simpl. rewrite Hr.
    eapply linked_insert; [exact Hl | exact Hp | ..].
    + by rewrite Un, decide_True.
    + by rewrite Up, decide_True.
    + rewrite Un, decide_False by naive_solver. by rewrite decide_True.
    + rewrite Up, decide_False by naive_solver. by rewrite decide_True.
    + rewrite Hrm1, Hrm2. intros x Hx. rewrite Un, !decide_False by set_solver. done.
    + intros x Hx. rewrite Up, !decide_False by set_solver. done.
Qed.

Lemma list_add_dlist h head xs new :
  dlist h head xs -> new ∉ head :: xs -> is_Some (h !! new) ->
  exists h', list_add new head h = Ret h' /\ dlist h' head (new :: xs) /\
    dom h' = dom h /\ (forall x, x ∉ new :: head :: xs -> h' !! x = h !! x).
Proof.
  intros Hd Hnew Hin. unfold list_add.
  destruct (dlist_first _ _ _ Hd) as [Hn _].
  destruct (nxt_is_Some h head) as (n & -> & Hn' & _);
    [eapply dlist_is_Some; [done | set_solver]|].
  rewrite Hn in Hn'. injection Hn' as Hn'. simpl.
  apply (dlist_insert h head [] xs); try done.
  rewrite <- Hn'. by destruct xs.
Qed.

Lemma list_add_tail_dlist h head xs new :
  dlist h head xs -> new ∉ head :: xs -> is_Some (h !! new) ->
  exists h', list_add_tail new head h = Ret h' /\ dlist h' head (xs ++ [new]) /\
    dom h' = dom h /\ (forall x, x ∉ new :: head :: xs -> h' !! x = h !! x).
Proof.
  intros Hd Hnew Hin. unfold list_add_tail.
  destruct (dlist_first _ _ _ Hd) as [_ Hp].
  destruct (nxt_is_Some h head) as (n & -> & _ & Hp');
    [eapply dlist_is_Some; [done | set_solver]|].
  rewrite Hp in Hp'. injection Hp' as Hp'. simpl.
  destruct (dlist_insert h head xs [] new (prev n) head)
    as (h' & ? & ? & ? & ?); rewrite ?app_nil_r; try done.
  - rewrite <- Hp'. destruct xs as [|x xs]; [done|].
    rewrite last_cons_cons. by destruct (last_is_Some (x :: xs)) as [_ [? ->]].
  - exists h'. rewrite app_nil_r in *. done.
Qed.

(** The entry's two neighbours, read off a list that holds it. *)
Lemma dlist_entry h head l1 e l2 :
  dlist h head (l1 ++ e :: l2) ->
  exists p n r,
    node h e = Ret {| next := n; prev := p |} /\
    last (head :: l1) = Some p /\ l2 ++ [head] = n :: r /\
    p ∈ head :: l1 /\ linked h head (l1 ++ e :: n :: r).
Proof.
  intros Hd.
  destruct (dlist_split _ _ _ _ Hd) as (k & p & e' & r' & Hk & Hr' & _ & [_ Hpe] & _ & _ & Hp).
  simpl in Hr'. injection Hr' as <- <-.
  pose proof Hd as Hd2. rewrite cons_middle, app_assoc in Hd2.
  destruct (dlist_split _ _ _ _ Hd2) as (k2 & e' & n & r & _ & Hr & Hl & [Hen _] & _ & _ & He).
  rewrite app_comm_cons, last_snoc in He. injection He as <-.
  rewrite <- app_assoc in Hl. simpl in Hl.
  exists p, n, r. split_and!; [| done | done | rewrite Hk; set_solver | done].
  unfold nxt, prv in *. apply node_Ret.
  destruct (h !! e) as [[nx pv]|]; simpl in *; congruence.
Qed.

Lemma list_del_dlist h head l1 e l2 :
  dlist h head (l1 ++ e :: l2) ->
  exists h', list_del e h = Ret h' /\ dlist h' head (l1 ++ l2) /\
    h' !! e = Some {| next := LIST_POISON1; prev := LIST_POISON2 |} /\
    dom h' = dom h /\
    (forall x, x ∉ head :: l1 ++ e :: l2 -> h' !! x = h !! x).
Proof.
  intros Hd. destruct (dlist_entry _ _ _ _ _ Hd) as (p & n & r & He & Hp & Hr & Hpin & Hl).
  assert (Hnin : n ∈ l2 ++ [head]) by (rewrite Hr; set_solver).
  assert (Hin : forall x, x ∈ head :: l1 ++ e :: l2 -> is_Some (h !! x))
    by (intros x; by apply dlist_is_Some).
  destruct Hd as [Hnd _].
  assert (Hnd' : NoDup (e :: head :: l1 ++ l2)).
  { rewrite <- Permutation_middle, (Permutation_swap e head) in Hnd. done. }
  apply NoDup_cons in Hnd' as [Hne Hnd'].
  destruct (__list_del_spec h p n) as (h1 & E & (Un & Up & Ud) & F);
    [apply Hin; set_solver | apply Hin; set_solver |].
  unfold list_del. rewrite He. simpl. rewrite E. simpl.
  step_ptr set_next_spec; [rewrite <- elem_of_dom, Ud, elem_of_dom; apply Hin; set_solver|].
  step_ptr set_prev_spec; [by eapply updates_is_Some; [|
    rewrite <- elem_of_dom, Ud, elem_of_dom; apply Hin; set_solver]|].
  destruct U as (Un0 & Up0 & Ud0), U0 as (Un1 & Up1 & Ud1).
  eexists. split; [done|]. split_and!.
  - destruct (exists_last (l := head :: l1)) as (k & p' & Hk); [done|].
    rewrite Hk, last_snoc in Hp. injection Hp as ->.
    destruct (dlist_point_NoDup _ _ _ _ _ _ _ Hnd' Hk Hr) as (Hpk & Hp2 & Hnr & Hn1).
    assert (Hkin : forall x, x ∈ k -> x ∈ head :: l1) by (rewrite Hk; set_solver).
    assert (Hrin : forall x, x ∈ r -> x ∈ l2 ++ [head]) by (rewrite Hr; set_solver).
    split; [done|]. rewrite <- app_assoc, Hr.
    eapply linked_remove; [exact Hl | rewrite Hk; apply last_snoc | ..].
    + rewrite Un1, Un0, Un. rewrite decide_False by set_solver. by rewrite decide_True.
    + rewrite Up1, Up0, Up. rewrite decide_False by set_solver. by rewrite decide_True.
    + rewrite Hk, removelast_snoc, <- Hr, removelast_snoc. intros x Hx.
      rewrite Un1, Un0, Un, !decide_False by set_solver. done.
    + intros x Hx. rewrite Up1, Up0, Up, !decide_False by set_solver. done.
  - specialize (Un1 e). specialize (Up1 e). rewrite Un0, decide_True in Un1 by done.
    rewrite decide_True in Up1 by done. unfold nxt, prv in *.
    destruct (h2 !! e) as [[? ?]|]; simpl in *; congruence.
  - congruence.
  - intros x Hx. rewrite F1, F0 by set_solver. apply F; set_solver.
Qed.

(** ** Traversal *)

Lemma list_loop_walk {S} h head xs (body : Z -> S -> res (S * bool)) :
  forall fuel a s,
    linked h a (xs ++ [head]) -> head ∉ xs -> is_Some (h !! head) ->
    (length xs < fuel)%nat ->
    list_loop fuel h (default head (hd_error xs)) head body s = walk head xs body s.
Proof.
  induction xs as [|x xs IH]; intros fuel a s Hl Hh Hin Hf;
    (destruct fuel as [|fuel]; [simpl in Hf; lia|]); simpl.
  - destruct (nxt_is_Some _ _ Hin) as (n & -> & _). simpl. by rewrite Z.eqb_refl.
  - destruct Hl as [Hax Hl].
    assert (Hx : nxt h x = Some (default head (hd_error xs))).
    { destruct xs; simpl in Hl; unfold link in Hl; tauto. }
    destruct (nxt_is_Some h x) as (n & -> & Hn & _); [by eapply link_is_Some|]. simpl.
    rewrite (proj2 (Z.eqb_neq x head)) by set_solver.
    destruct (body x s) as [[s' [|]]| | |]; simpl; try done.
    rewrite Hx in Hn. injection Hn as <-. simpl in Hf.
    apply (IH fuel x); [done | set_solver | done | lia].
Qed.

Lemma dlist_length h head xs : dlist h head xs -> (length xs < list_fuel h)%nat.
Proof.
  intros Hd. unfold list_fuel.
  assert (Hs : list_to_set (head :: xs) ⊆ dom h).
  { intros x Hx%elem_of_list_to_set. apply elem_of_dom. by eapply dlist_is_Some. }
  apply subseteq_size in Hs. destruct Hd as [Hnd _].
  rewrite size_list_to_set, size_dom in Hs by done. simpl in Hs. lia.
Qed.

Lemma list_for_each_walk {S} h head xs (body : Z -> S -> res (S * bool)) s :
  dlist h head xs ->
  list_for_each_entry (list_fuel h) h head body s = walk head xs body s.
Proof.
  intros Hd. unfold list_for_each_entry.
  pose proof (dlist_first _ _ _ Hd) as [Hn _].
  assert (Hin : is_Some (h !! head)) by (eapply dlist_is_Some; [done | set_solver]).
  destruct (nxt_is_Some _ _ Hin) as (n & -> & Hn' & _). cbn [mbind res_bind].
  rewrite Hn in Hn'. injection Hn' as <-.
  pose proof (dlist_length _ _ _ Hd) as Hlen.
  destruct Hd as [Hnd Hl]. apply NoDup_cons in Hnd as [Hh _].
  by apply (list_loop_walk h head xs body _ head s).
Qed.

(** ** Properties *)

(** C22: on every well-formed circular list, [list_add] pushes the new entry
    in front, [list_add_tail] appends it, [list_del] removes the entry from
    wherever it is and poisons its pointers, [list_empty] tells whether there
    are entries, and none of them touches a list head that is neither the
    list's nor the entry. *)
Theorem list_operations_refine_sequences (h : list_heap) (head : Z) (xs : list Z)
    (Hd : dlist h head xs) :
  (forall new, new ∉ head :: xs -> is_Some (h !! new) ->
     (exists h', list_add new head h = Ret h' /\ dlist h' head (new :: xs) /\
        forall x, x ∉ new :: head :: xs -> h' !! x = h !! x) /\
     (exists h', list_add_tail new head h = Ret h' /\ dlist h' head (xs ++ [new]) /\
        forall x, x ∉ new :: head :: xs -> h' !! x = h !! x)) /\
  (forall l1 e l2, xs = l1 ++ e :: l2 ->
     exists h', list_del e h = Ret h' /\ dlist h' head (l1 ++ l2) /\
       h' !! e = Some {| next := LIST_POISON1; prev := LIST_POISON2 |} /\
       forall x, x ∉ head :: xs -> h' !! x = h !! x) /\
  list_empty head h = Ret (bool_decide (xs = [])).
Proof.
  split_and!.
  - intros new Hnew Hin. split.
    + destruct (list_add_dlist h head xs new) as (h' & ? & ? & ? & ?); eauto.
    + destruct (list_add_tail_dlist h head xs new) as (h' & ? & ? & ? & ?); eauto.
  - intros l1 e l2 ->.
    destruct (list_del_dlist h head l1 e l2) as (h' & ? & ? & ? & ? & ?); eauto.
  - unfold list_empty. pose proof (dlist_first _ _ _ Hd) as [Hn _].
    destruct (nxt_is_Some h head) as (n & -> & Hn' & _);
      [eapply dlist_is_Some; [done | set_solver]|].
    rewrite Hn in Hn'. injection Hn' as Hn'. simpl. rewrite <- Hn'. f_equal.
    destruct Hd as [Hnd _]. apply NoDup_cons in Hnd as [Hh _].
    destruct xs as [|x xs]; simpl; [apply Z.eqb_refl|].
    apply Z.eqb_neq. set_solver.
Qed.

Lemma list_operations_refine_sequences_witness :
  exists h', list_add 8 1 (INIT_LIST_HEAD 1 (INIT_LIST_HEAD 8 ∅)) = Ret h' /\
    dlist h' 1 [8] /\
    forall x, x ∉ [8; 1] -> h' !! x = INIT_LIST_HEAD 1 (INIT_LIST_HEAD 8 ∅) !! x.
Proof.
  destruct (list_operations_refine_sequences
              (INIT_LIST_HEAD 1 (INIT_LIST_HEAD 8 ∅)) 1 []
              (INIT_LIST_HEAD_dlist _ _)) as [Hadd _].
  destruct (Hadd 8) as [Ha _]; [by vm_compute; set_solver | by vm_compute; eauto | done].
Defined.

(** A traversal with [list_for_each_entry] of a well-formed list visits
    its entries in order, once each, until the body breaks, and ends; the
    position it leaves is the entry it broke at, or the head. *)
Theorem list_for_each_visits_in_order {S} (h : list_heap) (head : Z) (xs : list Z)
    (body : Z -> S -> res (S * bool)) (s : S) (Hd : dlist h head xs) :
  list_for_each_entry (list_fuel h) h head body s = walk head xs body s.
Proof. by apply list_for_each_walk. Qed.

Lemma list_for_each_visits_in_order_witness :
  list_for_each_entry (list_fuel (INIT_LIST_HEAD 1 ∅)) (INIT_LIST_HEAD 1 ∅) 1
    (fun x s => Ret (x :: s, false)) []
  = walk 1 [] (fun x s => Ret (x :: s, false)) [].
Proof.
  apply (list_for_each_visits_in_order (INIT_LIST_HEAD 1 ∅) 1 []).
  apply INIT_LIST_HEAD_dlist.
Defined.
