(* ===== verification/CString.v ===== *)
(** * Byte strings in memory (string.c)

    Memory maps the addresses the code may use to bytes 0..255; a load or a
    store anywhere else is a [Fault]. [char] is a signed byte. Loops whose
    length is not an argument run on [mem_fuel], one more step than memory has
    bytes, which is enough for every string that lies in memory. *)

From Stdlib Require Ascii String.
From S2P Require Import Prelude.

(** The characters of a string literal. *)
Definition bytes_of (s : String.string) : list Z :=
  (fun a => Z.of_N (Ascii.N_of_ascii a)) <$> String.list_ascii_of_string s.

Abbreviation bmem := (gmap Z Z).

(** ** Access to memory *)

Definition load8 (m : bmem) (a : Z) : res Z :=
  match m !! a with Some b => Ret b | None => Fault end.

Definition store8 (a b : Z) (m : bmem) : res bmem :=
  match m !! a with Some _ => Ret (<[a := b]> m) | None => Fault end.

Fixpoint load_bytes (n : nat) (m : bmem) (a : Z) : res (list Z) :=
  match n with
  | O => Ret []
  | S n' => b ← load8 m a; bs ← load_bytes n' m (a + 1); Ret (b :: bs)
  end.

Fixpoint store_bytes (a : Z) (bs : list Z) (m : bmem) : res bmem :=
  match bs with
  | [] => Ret m
  | b :: bs' => m' ← store8 a b m; store_bytes (a + 1) bs' m'
  end.

Definition mem_fuel (m : bmem) : nat := S (size m).

(** ** The functions of string.c *)

Fixpoint memcmp_loop (count : nat) (m : bmem) (su1 su2 res : Z) : Prelude.res Z :=
  match count with
  | O => Ret res
  | S count' =>
      a ← load8 m su1;
      b ← load8 m su2;
      let res := u64 (a - b) in
      if negb (res =? 0) then Ret res
      else memcmp_loop count' m (su1 + 1) (su2 + 1) res
  end.

Definition caos_memcmp (m : bmem) (cs ct count : Z) : res Z :=
  memcmp_loop (Z.to_nat count) m cs ct 0.

Fixpoint strcmp_loop (fuel : nat) (m : bmem) (src dst : Z) : res Z :=
  match fuel with
  | O => NoFuel
  | S fuel' =>
      a ← load8 m src;
      b ← load8 m dst;
      let t := s8 (s8 a - s8 b) in
      if negb (t =? 0) || (s8 a =? 0) then Ret (u64 t)
      else strcmp_loop fuel' m (src + 1) (dst + 1)
  end.

Definition caos_strcmp (m : bmem) (src dst : Z) : res Z :=
  strcmp_loop (mem_fuel m) m src dst.

Fixpoint strcat_loop (fuel : nat) (m : bmem) (dest src p : Z) : res (Z * bmem) :=
  match fuel with
  | O => NoFuel
  | S fuel' =>
      c ← load8 m src;
      if c =? 0 then Ret (src - p, m)
      else m' ← store8 dest c m; strcat_loop fuel' m' (dest + 1) (src + 1) p
  end.

Definition caos_strcat (m : bmem) (dest src : Z) : res (Z * bmem) :=
  strcat_loop (mem_fuel m) m dest src src.

(** The index is an [int]. *)
Fixpoint strlen_loop (fuel : nat) (m : bmem) (s i : Z) : res Z :=
  match fuel with
  | O => NoFuel
  | S fuel' =>
      c ← load8 m (s + i);
      if c =? 0 then Ret (u64 i) else strlen_loop fuel' m s (s32 (i + 1))
  end.

Definition caos_strlen (m : bmem) (s : Z) : res Z :=
  strlen_loop (mem_fuel m) m s 0.

(** [while (len >= sizeof(long)) { *pldst++ = *plsrc++; len -= sizeof(long); }] *)
Fixpoint copy_longs (fuel : nat) (m : bmem) (pldst plsrc len : Z)
    : res (bmem * Z * Z * Z) :=
  match fuel with
  | O => NoFuel
  | S fuel' =>
      if 8 <=? len then
        bs ← load_bytes 8 m plsrc;
        m' ← store_bytes pldst bs m;
        copy_longs fuel' m' (pldst + 8) (plsrc + 8) (len - 8)
      else Ret (m, pldst, plsrc, len)
  end.

(** [while (len--) *pcdst++ = *pcsrc++;] *)
Fixpoint copy_chars (len : nat) (m : bmem) (pcdst pcsrc : Z) : res bmem :=
  match len with
  | O => Ret m
  | S len' =>
      c ← load8 m pcsrc;
      m' ← store8 pcdst c m;
      copy_chars len' m' (pcdst + 1) (pcsrc + 1)
  end.

(** The test that guards the copy by words. *)
Definition memcpy_by_words (dst src : Z) : bool :=
  (Z.land src (u64 (- 4)) =? 0) && (Z.land dst (u64 (- 4)) =? 0).

Definition caos_memcpy (m : bmem) (dst src len : Z) : res (Z * bmem) :=
  '(m', pldst, plsrc, len') ←
    (if memcpy_by_words dst src
     then copy_longs (S (Z.to_nat len)) m dst src len
     else Ret (m, dst, src, len));
  m'' ← copy_chars (Z.to_nat len') m' pldst plsrc;
  Ret (dst, m'').

Fixpoint memset_loop (len : nat) (m : bmem) (p c : Z) : res bmem :=
  match len with
  | O => Ret m
  | S len' => m' ← store8 p (u8 c) m; memset_loop len' m' (p + 1) c
  end.

Definition caos_memset (m : bmem) (dst c len : Z) : res (Z * bmem) :=
  m' ← memset_loop (Z.to_nat len) m dst c;
  Ret (dst, m').

(** ** What memory holds *)

(** The bytes [bs] lie at [a]. *)
Fixpoint bytes_at (m : bmem) (a : Z) (bs : list Z) : Prop :=
  match bs with
  | [] => True
  | b :: bs' => m !! a = Some b /\ bytes_at m (a + 1) bs'
  end.

(** A NUL-terminated string with the characters [s] lies at [a]. *)
Definition cstr (m : bmem) (a : Z) (s : list Z) : Prop :=
  bytes_at m a (s ++ [0]) /\ Forall (fun c => 0 < c < 256) s.

(** The [n] bytes from [a] on can be accessed. *)
Definition mapped (m : bmem) (a : Z) (n : Z) : Prop :=
  forall x, a <= x < a + n -> is_Some (m !! x).

(** Memory after the bytes [bs] were written at [a]. *)
Fixpoint write_bytes (a : Z) (bs : list Z) (m : bmem) : bmem :=
  match bs with
  | [] => m
  | b :: bs' => write_bytes (a + 1) bs' (<[a := b]> m)
  end.

(** ** Lemmas *)

Lemma load8_Ret m a b : load8 m a = Ret b <-> m !! a = Some b.
Proof. unfold load8. destruct (m !! a); naive_solver. Qed.

Lemma store8_mapped m a b : is_Some (m !! a) -> store8 a b m = Ret (<[a := b]> m).
Proof. unfold store8. by intros [? ->]. Qed.

Lemma write_bytes_lookup a bs m x :
  write_bytes a bs m !! x
  = if decide (a <= x < a + Z.of_nat (length bs))
    then bs !! Z.to_nat (x - a) else m !! x.
Proof.
  revert a m. induction bs as [|b bs IH]; intros a m; simpl.
  - rewrite decide_False by lia. done.
  - rewrite IH. destruct (decide (x = a)) as [->|Hne].
    + rewrite decide_False, decide_True by lia. rewrite Z.sub_diag.
      by rewrite lookup_insert_eq.
    + case_decide.
      * rewrite decide_True by lia.
        by replace (Z.to_nat (x - a)) with (S (Z.to_nat (x - (a + 1)))) by lia.
      * rewrite decide_False by lia. by rewrite lookup_insert_ne.
Qed.

(** What was written is there. *)
Lemma bytes_at_written m a bs : bytes_at (write_bytes a bs m) a bs.
Proof.
  assert (Hg : forall cs b m, (forall i c, cs !! i = Some c -> m !! (b + Z.of_nat i) = Some c) ->
            bytes_at m b cs).
  { induction cs as [|c cs IH]; intros b m' Hm; [done|]. split.
    - rewrite <- (Hm 0%nat c) by done. f_equal. lia.
    - apply IH. intros i d Hi. rewrite <- (Hm (S i) d) by done. f_equal. lia. }
  apply Hg. intros i c Hi. rewrite write_bytes_lookup.
  pose proof (lookup_lt_Some _ _ _ Hi). rewrite decide_True by lia.
  rewrite <- Hi. f_equal. lia.
Qed.

Lemma write_bytes_app a bs cs m :
  write_bytes a (bs ++ cs) m
  = write_bytes (a + Z.of_nat (length bs)) cs (write_bytes a bs m).
Proof.
  revert a m. induction bs as [|b bs IH]; intros a m; simpl.
  - by rewrite Z.add_0_r.
  - rewrite IH. f_equal. lia.
Qed.

Lemma write_bytes_mapped m a bs b n :
  mapped m b n -> mapped (write_bytes a bs m) b n.
Proof.
  intros Hm x Hx. rewrite write_bytes_lookup. case_decide; [|by apply Hm].
  apply lookup_lt_is_Some_2. lia.
Qed.

Lemma mapped_weaken m a n b k :
  mapped m a n -> a <= b -> b + k <= a + n -> mapped m b k.
Proof. intros Hm H1 H2 x Hx. apply Hm. lia. Qed.

Lemma bytes_at_lookup m a bs i b :
  bytes_at m a bs -> bs !! i = Some b -> m !! (a + Z.of_nat i) = Some b.
Proof.
  revert a i. induction bs as [|c bs IH]; intros a i Hb Hi; [done|].
  destruct Hb as [Hc Hb]. destruct i as [|i]; simpl in Hi.
  - injection Hi as <-. by rewrite Z.add_0_r.
  - replace (a + Z.of_nat (S i)) with (a + 1 + Z.of_nat i) by lia. eauto.
Qed.

Lemma bytes_at_app m a bs cs :
  bytes_at m a (bs ++ cs)
  <-> bytes_at m a bs /\ bytes_at m (a + Z.of_nat (length bs)) cs.
Proof.
  revert a. induction bs as [|b bs IH]; intros a; simpl.
  - rewrite Z.add_0_r. tauto.
  - rewrite IH. replace (a + 1 + Z.of_nat (length bs))
      with (a + Z.of_nat (S (length bs))) by lia. tauto.
Qed.

Lemma bytes_at_mapped m a bs : bytes_at m a bs -> mapped m a (Z.of_nat (length bs)).
Proof.
  intros Hb x Hx. destruct (lookup_lt_is_Some_2 bs (Z.to_nat (x - a))) as [b Hl]; [lia|].
  pose proof (bytes_at_lookup _ _ _ _ _ Hb Hl) as Hx'.
  replace (a + Z.of_nat (Z.to_nat (x - a))) with x in Hx' by lia. eauto.
Qed.

Lemma bytes_at_frame m m' a bs :
  bytes_at m a bs ->
  (forall x, a <= x < a + Z.of_nat (length bs) -> m' !! x = m !! x) ->
  bytes_at m' a bs.
Proof.
  revert a. induction bs as [|b bs IH]; intros a Hb Hf; [done|].
  destruct Hb as [Hb Hbs]. simpl in Hf. split.
  - rewrite Hf; [done | lia].
  - apply IH; [done|]. intros x Hx. apply Hf. lia.
Qed.

(** Memory is at least as large as what is mapped in it. *)
Lemma mapped_size m a n : 0 <= n -> mapped m a n -> n <= Z.of_nat (size m).
Proof.
  intros Hn Hm.
  set (l := (fun i => a + Z.of_nat i) <$> seq 0 (Z.to_nat n)).
  assert (Hnd : NoDup l).
  { apply NoDup_fmap_2; [intros i j; lia | apply NoDup_seq]. }
  assert (Hs : list_to_set (C := gset Z) l ⊆ dom m).
  { intros x. rewrite elem_of_list_to_set. unfold l.
    intros (i & -> & Hi%elem_of_seq)%list_elem_of_fmap. apply elem_of_dom, Hm. lia. }
  apply subseteq_size in Hs. rewrite size_list_to_set, size_dom in Hs by done.
  unfold l in Hs. rewrite length_fmap, length_seq in Hs. lia.
Qed.

Lemma mapped_fuel m a n : 0 <= n -> mapped m a n -> (Z.to_nat n < mem_fuel m)%nat.
Proof. intros Hn Hm. apply mapped_size in Hm; [|done]. unfold mem_fuel. lia. Qed.

Lemma s8_zero c : 0 <= c < 256 -> (s8 c =? 0) = (c =? 0).
Proof.
  intros Hc. unfold sext. cbv zeta. rewrite wrap_small by (simpl; lia).
  change (2 ^ (8 - 1)) with 128. change (2 ^ 8) with 256.
  destruct (Z.ltb_spec c 128); [done|].
  rewrite (proj2 (Z.eqb_neq c 0)), (proj2 (Z.eqb_neq (c - 256) 0)) by lia. done.
Qed.

Lemma s8_diff a b : 0 <= a < 256 -> 0 <= b < 256 -> s8 (s8 a - s8 b) = 0 <-> a = b.
Proof.
  intros Ha Hb. rewrite (sext_congr 8 (s8 a - s8 b) (a - b)).
  - unfold sext. cbv zeta. unfold wrap. change (2 ^ (8 - 1)) with 128.
    change (2 ^ 8) with 256. destruct (Z.ltb_spec ((a - b) mod 256) 128) as [Hlt|Hge]; split; intros He.
    + apply Z.mod_divide in He as [k Hk]; lia.
    + subst. by rewrite Z.sub_diag.
    + pose proof (Z.mod_pos_bound (a - b) 256 ltac:(lia)). lia.
    + subst. rewrite Z.sub_diag in Hge. change (0 mod 256) with 0 in Hge. lia.
  - unfold wrap. rewrite Zminus_mod. pose proof (sext_wrap 8 a) as H1.
    pose proof (sext_wrap 8 b) as H2. unfold wrap in H1, H2.
    rewrite H1, H2 by lia. by rewrite <- Zminus_mod.
Qed.

(** A store of bytes in mapped memory writes them all. *)
Lemma store_bytes_mapped m a bs :
  mapped m a (Z.of_nat (length bs)) -> store_bytes a bs m = Ret (write_bytes a bs m).
Proof.
  revert a m. induction bs as [|b bs IH]; intros a m Hm; [done|].
  cbn [store_bytes write_bytes length] in *.
  rewrite store8_mapped by (apply Hm; lia). simpl. apply IH.
  intros x Hx. destruct (decide (x = a)) as [->|].
  - rewrite lookup_insert_eq. eauto.
  - rewrite lookup_insert_ne by done. apply Hm. lia.
Qed.

Lemma load_bytes_at m a bs :
  bytes_at m a bs -> load_bytes (length bs) m a = Ret bs.
Proof.
  revert a. induction bs as [|b bs IH]; intros a Hb; [done|].
  destruct Hb as [Hb Hbs]. cbn [load_bytes length].
  rewrite (proj2 (load8_Ret _ _ _) Hb). simpl. by rewrite IH.
Qed.

Lemma bytes_at_split m a bs n :
  (n <= length bs)%nat -> bytes_at m a bs ->
  bytes_at m a (take n bs) /\ bytes_at m (a + Z.of_nat n) (drop n bs).
Proof.
  intros Hn Hb. rewrite <- (take_drop n bs) in Hb.
  apply bytes_at_app in Hb as [H1 H2]. split; [done|].
  by rewrite length_take_le in H2.
Qed.

(** Bytes away from the written ones are still there. *)
Lemma bytes_at_write m a bs b cs :
  bytes_at m b cs ->
  (b + Z.of_nat (length cs) <= a \/ a + Z.of_nat (length bs) <= b) ->
  bytes_at (write_bytes a bs m) b cs.
Proof.
  intros Hb Hd. eapply bytes_at_frame; [done|]. intros x Hx.
  rewrite write_bytes_lookup, decide_False by lia. done.
Qed.

(** Both copy loops, for areas that do not overlap. *)
Lemma copy_chars_spec bs : forall m dst src,
  bytes_at m src bs -> mapped m dst (Z.of_nat (length bs)) ->
  (src + Z.of_nat (length bs) <= dst \/ dst + Z.of_nat (length bs) <= src) ->
  copy_chars (length bs) m dst src = Ret (write_bytes dst bs m).
Proof.
  induction bs as [|b bs IH]; intros m dst src Hb Hm Hd; [done|].
  destruct Hb as [Hb Hbs]. cbn [copy_chars length write_bytes] in *.
  rewrite (proj2 (load8_Ret _ _ _) Hb). simpl.
  rewrite store8_mapped by (apply Hm; lia). simpl. apply IH; [| |lia].
  - apply (bytes_at_write m dst [b]); [done|]. simpl. lia.
  - apply (write_bytes_mapped m dst [b]). eapply mapped_weaken; [done | lia..].
Qed.

Lemma copy_longs_spec fuel : forall bs m dst src,
  (length bs < fuel)%nat ->
  bytes_at m src bs -> mapped m dst (Z.of_nat (length bs)) ->
  (src + Z.of_nat (length bs) <= dst \/ dst + Z.of_nat (length bs) <= src) ->
  exists k, (8 * k <= length bs)%nat /\
    copy_longs fuel m dst src (Z.of_nat (length bs))
    = Ret (write_bytes dst (take (8 * k) bs) m, dst + Z.of_nat (8 * k),
           src + Z.of_nat (8 * k), Z.of_nat (length bs - 8 * k)).
Proof.
  induction fuel as [|fuel IH]; intros bs m dst src Hf Hb Hm Hd; [lia|].
  cbn [copy_longs]. destruct (Z.leb_spec 8 (Z.of_nat (length bs))) as [H8|H8].
  - destruct (bytes_at_split m src bs 8 ltac:(lia) Hb) as [Hb1 Hb2].
    assert (Hl8 : length (take 8 bs) = 8%nat) by (rewrite length_take; lia).
    pose proof (load_bytes_at _ _ _ Hb1) as Hload. rewrite Hl8 in Hload.
    rewrite Hload. cbn [mbind res_bind].
    rewrite store_bytes_mapped by (eapply mapped_weaken; [done | lia..]).
    cbn [mbind res_bind].
    assert (Hld : length (drop 8 bs) = (length bs - 8)%nat) by apply length_drop.
    destruct (IH (drop 8 bs) (write_bytes dst (take 8 bs) m) (dst + 8) (src + 8))
      as (k & Hk & E); [lia | | | lia |].
    + apply bytes_at_write; [done|]. lia.
    + apply write_bytes_mapped. eapply mapped_weaken; [done | lia..].
    + exists (S k). split; [lia|].
      replace (Z.of_nat (length bs) - 8) with (Z.of_nat (length (drop 8 bs))) by lia.
      rewrite E. replace (8 * S k)%nat with (8 + 8 * k)%nat by lia.
      rewrite <- take_take_drop, write_bytes_app, Hl8.
      rewrite Hld. change (Z.of_nat 8) with 8.
      f_equal. f_equal; [f_equal; [f_equal|]|]; lia.
  - exists 0%nat. split; [lia|]. rewrite Z.add_0_r, Z.add_0_r.
    by replace (length bs - 8 * 0)%nat with (length bs) by lia.
Qed.

Lemma strlen_loop_spec s0 s : forall fuel m a i,
  cstr m (a + i) s -> 0 <= i -> i + Z.of_nat (length s) < 2 ^ 31 ->
  (length s < fuel)%nat -> s0 = i + Z.of_nat (length s) ->
  strlen_loop fuel m a i = Ret s0.
Proof.
  induction s as [|c s IH]; intros fuel m a i [Hb Hc] Hi H31 Hf ->;
    (destruct fuel as [|fuel]; [simpl in Hf; lia|]); cbn [strlen_loop].
  - destruct Hb as [Hb _]. rewrite (proj2 (load8_Ret _ _ _) Hb). simpl.
    f_equal. rewrite wrap_small by lia. lia.
  - destruct Hb as [Hb Hbs]. rewrite (proj2 (load8_Ret _ _ _) Hb). simpl.
    apply Forall_cons in Hc as [Hc Hcs]. cbn [length] in *.
    rewrite (proj2 (Z.eqb_neq c 0)) by lia.
    rewrite sext_small by (change (32 - 1) with 31; lia).
    apply IH; [split; [by rewrite Z.add_assoc|done] | lia | lia | lia | lia].
Qed.

Lemma cstr_fuel m a s : cstr m a s -> (length s < mem_fuel m)%nat.
Proof.
  intros [Hb _]. apply bytes_at_mapped in Hb. rewrite length_app in Hb.
  apply mapped_fuel in Hb; [|lia]. simpl in Hb. lia.
Qed.

Lemma strcat_loop_spec s : forall fuel m dest src p,
  cstr m src s -> mapped m dest (Z.of_nat (length s)) ->
  (src + Z.of_nat (length s) < dest \/ dest + Z.of_nat (length s) <= src) ->
  (length s < fuel)%nat ->
  strcat_loop fuel m dest src p
  = Ret (src + Z.of_nat (length s) - p, write_bytes dest s m).
Proof.
  induction s as [|c s IH]; intros fuel m dest src p [Hb Hc] Hm Hd Hf;
    (destruct fuel as [|fuel]; [simpl in Hf; lia|]); cbn [strcat_loop].
  - destruct Hb as [Hb _]. rewrite (proj2 (load8_Ret _ _ _) Hb). simpl.
    by rewrite Z.add_0_r.
  - destruct Hb as [Hb Hbs]. rewrite (proj2 (load8_Ret _ _ _) Hb). simpl.
    apply Forall_cons in Hc as [Hc Hcs]. cbn [length] in *.
    rewrite (proj2 (Z.eqb_neq c 0)) by lia.
    rewrite store8_mapped by (apply Hm; lia). cbn [mbind res_bind].
    rewrite IH; [f_equal; f_equal; lia | | | lia | lia].
    + split; [|done]. apply (bytes_at_write m dest [c]); [done|].
      rewrite length_app. simpl. lia.
    + apply (write_bytes_mapped m dest [c]). eapply mapped_weaken; [done | lia..].
Qed.

Lemma caos_strcat_spec m dest src s :
  cstr m src s -> mapped m dest (Z.of_nat (length s)) ->
  (src + Z.of_nat (length s) < dest \/ dest + Z.of_nat (length s) <= src) ->
  caos_strcat m dest src = Ret (Z.of_nat (length s), write_bytes dest s m).
Proof.
  intros Hs Hm Hd. unfold caos_strcat.
  erewrite strcat_loop_spec by eauto using cstr_fuel. f_equal. f_equal. lia.
Qed.

Lemma strcmp_loop_spec s : forall t fuel m a b,
  cstr m a s -> cstr m b t -> (length s < fuel)%nat ->
  exists r, strcmp_loop fuel m a b = Ret r /\ (r = 0 <-> s = t).
Proof.
  assert (Hstop : forall fuel m a b x y, m !! a = Some x -> m !! b = Some y ->
    0 <= x < 256 -> 0 <= y < 256 -> x <> y ->
    exists r, strcmp_loop (S fuel) m a b = Ret r /\ r <> 0).
  { intros fuel m a b x y Hx Hy Hxr Hyr Hne. cbn [strcmp_loop].
    rewrite (proj2 (load8_Ret _ _ _) Hx), (proj2 (load8_Ret _ _ _) Hy). simpl.
    pose proof (s8_diff x y Hxr Hyr) as Hd.
    rewrite (proj2 (Z.eqb_neq (s8 (s8 x - s8 y)) 0)) by tauto. simpl.
    eexists. split; [done|]. intros Hz.
    assert (Hw : s8 (s8 x - s8 y) = 0); [|tauto].
    pose proof (sext_range 8 (s8 x - s8 y) ltac:(lia)) as Hr.
    change (2 ^ (8 - 1)) with 128 in Hr.
    apply wrap_zero_small in Hz; lia. }
  induction s as [|c s IH]; intros t fuel m a b [Hs Hcs] [Ht Hct] Hf;
    (destruct fuel as [|fuel]; [simpl in Hf; lia|]); destruct t as [|d t];
    simpl in Hs, Ht; try apply Forall_cons in Hcs as [Hc Hcs];
    try apply Forall_cons in Hct as [Hdr Hct]; destruct Hs as [Hs Hss], Ht as [Ht Hts].
  - cbn [strcmp_loop]. rewrite (proj2 (load8_Ret _ _ _) Hs), (proj2 (load8_Ret _ _ _) Ht).
    by exists 0.
  - destruct (Hstop fuel m a b 0 d) as (r & -> & Hr); [done | done | lia | lia | lia |].
    exists r. split; [done|]. by split.
  - destruct (Hstop fuel m a b c 0) as (r & -> & Hr); [done | done | lia | lia | lia |].
    exists r. split; [done|]. by split.
  - destruct (decide (c = d)) as [->|Hne].
    + cbn [strcmp_loop].
      rewrite (proj2 (load8_Ret _ _ _) Hs), (proj2 (load8_Ret _ _ _) Ht). simpl.
      rewrite Z.sub_diag, (s8_zero d) by lia. rewrite (proj2 (Z.eqb_neq d 0)) by lia. simpl.
      destruct (IH t fuel m (a + 1) (b + 1)) as (r & -> & Hr);
        [done | done | simpl in Hf; lia |].
      exists r. split; [done|]. rewrite Hr. split; [by intros -> | by intros [= ->]].
    + destruct (Hstop fuel m a b c d) as (r & -> & Hr); [done | done | lia | lia | done |].
      exists r. split; [done|]. split; [done | congruence].
Qed.

Lemma caos_strcmp_spec m a b s t :
  cstr m a s -> cstr m b t ->
  exists r, caos_strcmp m a b = Ret r /\ (r = 0 <-> s = t).
Proof. intros. eapply strcmp_loop_spec; eauto using cstr_fuel. Qed.

Lemma caos_memcpy_spec m dst src bs :
  bytes_at m src bs -> mapped m dst (Z.of_nat (length bs)) ->
  (src + Z.of_nat (length bs) <= dst \/ dst + Z.of_nat (length bs) <= src) ->
  caos_memcpy m dst src (Z.of_nat (length bs)) = Ret (dst, write_bytes dst bs m).
Proof.
  intros Hb Hm Hd. unfold caos_memcpy. destruct (memcpy_by_words dst src).
  - destruct (copy_longs_spec (S (Z.to_nat (Z.of_nat (length bs)))) bs m dst src)
      as (k & Hk & ->); [lia | done | done | done |]. cbn [mbind res_bind].
    destruct (bytes_at_split _ _ _ (8 * k)%nat Hk Hb) as [_ Hb2].
    rewrite Nat2Z.id. rewrite <- length_drop.
    rewrite copy_chars_spec; cbn [mbind res_bind]; rewrite ?length_drop.
    + do 2 f_equal. rewrite <- (take_drop (8 * k) bs) at 3.
      rewrite write_bytes_app. by rewrite length_take_le.
    + apply bytes_at_write; [done|]. rewrite length_take_le, length_drop by done. lia.
    + apply write_bytes_mapped. eapply mapped_weaken; [done | lia..].
    + lia.
  - cbn [mbind res_bind]. rewrite Nat2Z.id, copy_chars_spec by done. done.
Qed.

Lemma memset_loop_spec len : forall m p c,
  mapped m p (Z.of_nat len) ->
  memset_loop len m p c = Ret (write_bytes p (replicate len (u8 c)) m).
Proof.
  induction len as [|len IH]; intros m p c Hm; [done|].
  cbn [memset_loop replicate write_bytes].
  rewrite store8_mapped by (apply Hm; lia). simpl. apply IH.
  apply (write_bytes_mapped m p [u8 c]). eapply mapped_weaken; [done | lia..].
Qed.

Lemma memcmp_loop_spec bs : forall cs m a b,
  bytes_at m a bs -> bytes_at m b cs -> length bs = length cs ->
  Forall (fun c => 0 <= c < 256) bs -> Forall (fun c => 0 <= c < 256) cs ->
  exists r, memcmp_loop (length bs) m a b 0 = Ret r /\ (r = 0 <-> bs = cs).
Proof.
  induction bs as [|x bs IH]; intros [|y cs] m a b Hb Hc Hl Hrb Hrc; try done.
  - by exists 0.
  - destruct Hb as [Hx Hb], Hc as [Hy Hc].
    apply Forall_cons in Hrb as [Hxr Hrb]. apply Forall_cons in Hrc as [Hyr Hrc].
    cbn [memcmp_loop length].
    rewrite (proj2 (load8_Ret _ _ _) Hx), (proj2 (load8_Ret _ _ _) Hy). simpl.
    destruct (decide (x = y)) as [->|Hne].
    + rewrite Z.sub_diag. simpl. injection Hl as Hl.
      destruct (IH cs m (a + 1) (b + 1)) as (r & E & Hr); [done..|].
      exists r. split; [done|]. rewrite Hr. split; [by intros -> | by intros [= ->]].
    + assert (Hnz : u64 (x - y) <> 0).
      { intros Hz. apply wrap_zero_small in Hz; lia. }
      rewrite (proj2 (Z.eqb_neq _ _) Hnz). simpl. eexists. split; [done|].
      split; [done | congruence].
Qed.

Lemma memcpy_word_test a : 0 <= a < 2 ^ 64 -> (Z.land a (u64 (-4)) =? 0) = (a <? 4).
Proof.
  intros Ha. destruct (Z.ltb_spec a 4) as [Hlt|Hge].
  - assert (a = 0 \/ a = 1 \/ a = 2 \/ a = 3) as [->|[->|[->| ->]]] by lia; done.
  - apply Z.eqb_neq. intros Hz.
    assert (Hl : 2 <= Z.log2 a < 64).
    { split; [apply (Z.log2_le_mono 4); lia | apply Z.log2_lt_pow2; lia]. }
    assert (Hb : Z.testbit (Z.land a (u64 (-4))) (Z.log2 a) = true).
    { rewrite Z.land_spec, Z.bit_log2, wrap_testbit by lia.
      rewrite (proj2 (Z.ltb_lt _ 64)) by lia.
      change (-4) with (Z.lnot 3). rewrite Z.lnot_spec by lia.
      rewrite Z.bits_above_log2; [done | lia | simpl; lia]. }
    by rewrite Hz, Z.bits_0 in Hb.
Qed.

(** ** Properties *)

(** On NUL-terminated strings in memory [caos_strcmp] terminates and
    returns 0 exactly for equal strings, although it subtracts signed bytes
    and stores the difference in a [char]; [caos_strlen] returns the length
    of a string shorter than 2 GiB. *)
Theorem strcmp_decides_equality (m : bmem) (a b : Z) (s t : list Z)
    (Hs : cstr m a s) (Ht : cstr m b t) :
  (exists r, caos_strcmp m a b = Ret r /\ (r = 0 <-> s = t)) /\
  (Z.of_nat (length s) < 2 ^ 31 -> caos_strlen m a = Ret (Z.of_nat (length s))).
Proof.
  split; [by apply caos_strcmp_spec|]. intros Hl.
  apply (strlen_loop_spec _ s); [by rewrite Z.add_0_r | lia | lia | by eapply cstr_fuel | lia].
Qed.

Lemma strcmp_decides_equality_witness :
  let m := write_bytes 100 [73; 83; 65; 0; 80; 67; 73; 0] ∅ in
  (exists r, caos_strcmp m 100 104 = Ret r /\ (r = 0 <-> [73; 83; 65] = [80; 67; 73])) /\
  (Z.of_nat 3 < 2 ^ 31 -> caos_strlen m 100 = Ret 3).
Proof.
  apply (strcmp_decides_equality _ 100 104 [73; 83; 65] [80; 67; 73]);
    (split; [by vm_compute | repeat constructor; lia]).
Defined.

(** Between areas that do not overlap [caos_memcpy] copies exactly the
    bytes of the source and touches nothing else, whether it copies by words
    first or not; [caos_memset] fills the area, and [caos_memcmp] is 0 exactly
    on equal areas. *)
Theorem memory_functions_spec (m : bmem) (dst src c : Z) (bs : list Z)
    (Hb : bytes_at m src bs) (Hr : Forall (fun b => 0 <= b < 256) bs)
    (Hm : mapped m dst (Z.of_nat (length bs)))
    (Hd : src + Z.of_nat (length bs) <= dst \/ dst + Z.of_nat (length bs) <= src) :
  caos_memcpy m dst src (Z.of_nat (length bs)) = Ret (dst, write_bytes dst bs m) /\
  caos_memset m dst c (Z.of_nat (length bs))
  = Ret (dst, write_bytes dst (replicate (length bs) (u8 c)) m) /\
  (forall cs, length cs = length bs -> bytes_at m dst cs ->
     Forall (fun b => 0 <= b < 256) cs ->
     exists r, caos_memcmp m src dst (Z.of_nat (length bs)) = Ret r /\ (r = 0 <-> bs = cs)).
Proof.
  split_and!.
  - by apply caos_memcpy_spec.
  - unfold caos_memset. by rewrite Nat2Z.id, memset_loop_spec.
  - intros cs Hl Hc Hrc. unfold caos_memcmp. rewrite Nat2Z.id.
    by apply memcmp_loop_spec.
Qed.

Lemma memory_functions_spec_witness :
  let m := write_bytes 0 [7; 8; 9; 0; 0; 0] ∅ in
  caos_memcpy m 3 0 3 = Ret (3, write_bytes 3 [7; 8; 9] m) /\
  caos_memset m 3 511 3 = Ret (3, write_bytes 3 (replicate 3 (u8 511)) m) /\
  (forall cs, length cs = 3%nat -> bytes_at m 3 cs ->
     Forall (fun b => 0 <= b < 256) cs ->
     exists r, caos_memcmp m 0 3 3 = Ret r /\ (r = 0 <-> [7; 8; 9] = cs)).
Proof.
  apply (memory_functions_spec _ 3 0 511 [7; 8; 9]);
    [by vm_compute | repeat constructor; lia | | simpl; lia].
  intros x Hx. rewrite write_bytes_lookup. rewrite decide_True by (simpl in *; lia).
  apply lookup_lt_is_Some_2. simpl in *. lia.
Defined.

(** The guard of the word-by-word copy of [caos_memcpy], whose comment
    says it tests alignment, accepts only pointers below 4: for every pointer
    into kernel memory the copy is byte by byte. *)
Theorem memcpy_word_copy_only_at_null (dst src : Z)
    (Hdst : 0 <= dst < 2 ^ 64) (Hsrc : 0 <= src < 2 ^ 64) :
  memcpy_by_words dst src = true <-> dst < 4 /\ src < 4.
Proof.
  unfold memcpy_by_words. rewrite !memcpy_word_test, andb_true_iff by done.
  rewrite !Z.ltb_lt. tauto.
Qed.

Lemma memcpy_word_copy_only_at_null_witness :
  memcpy_by_words 0xFFFF800000200000 0xFFFF800000201000 = true
  <-> 0xFFFF800000200000 < 4 /\ 0xFFFF800000201000 < 4.
Proof. apply memcpy_word_copy_only_at_null; lia. Defined.
