(* ===== verification/GenSection.v ===== *)
(** * The generator of section.h (utils/gen_section.c)

    The build runs this program on the symbol table of the kernel: each line,
    an address, a letter and a name, becomes a definition for the assembler.
    Files and lines are lists of characters; of the C library the program uses
    [fgets], [sscanf] with the format "%s %c %s" and [fprintf]. *)

From Stdlib Require Import String.
From S2P Require Import Prelude CString.

#[local] Open Scope list_scope.
#[local] Open Scope Z_scope.

(** ** The C library *)

Definition isspace (c : Z) : bool := (c =? 32) || ((9 <=? c) && (c <=? 13)).

(** [fgets]: at most [n] characters, up to the end of the line, and the rest. *)
Fixpoint fgets (n : nat) (file : list Z) : list Z * list Z :=
  match n, file with
  | O, _ | _, [] => ([], file)
  | S n, c :: file =>
      if c =? 10 then ([c], file)
      else let '(l, rest) := fgets n file in (c :: l, rest)
  end.

Fixpoint skip_space (s : list Z) : list Z :=
  match s with
  | c :: s' => if isspace c then skip_space s' else s
  | [] => []
  end.

Fixpoint word (s : list Z) : list Z * list Z :=
  match s with
  | [] => ([], [])
  | c :: s' => if isspace c then ([], s) else let '(w, rest) := word s' in (c :: w, rest)
  end.

(** [%s] into an array of [size] characters: [None] when there is no word. A
    word that does not fit with its terminator is stored past the array. *)
Definition scan_word (size : nat) (s : list Z) : res (option (list Z * list Z)) :=
  let '(w, rest) := word (skip_space s) in
  match w with
  | [] => Ret None
  | _ => if decide (length w < size)%nat then Ret (Some (w, rest)) else Fault
  end.

(** [%-20s] *)
Definition pad20 (s : list Z) : list Z := s ++ replicate (20 - length s) 32.

(** ** The program *)

Record vars := { address : list Z; flag : Z; symbol : list Z }.

(** The variables are static: they are empty at the start. *)
Definition vars0 : vars := {| address := []; flag := 0; symbol := [] |}.

(** [sscanf(line_buf, "%s %c %s", address, &flag, symbol)] stops at the first
    conversion that finds nothing, and leaves the variables after it as they
    are. *)
Definition scan_line (line_buf : list Z) (v : vars) : res vars :=
  o ← scan_word 20 line_buf;
  match o with
  | None => Ret v
  | Some (a, rest) =>
      match skip_space rest with
      | [] => Ret {| address := a; flag := flag v; symbol := symbol v |}
      | c :: rest =>
          o ← scan_word 64 rest;
          Ret {| address := a; flag := c; symbol := match o with Some (s, _) => s | None => symbol v end |}
      end
  end.

Definition equ_line (v : vars) : list Z :=
  pad20 (symbol v) ++ bytes_of " equ 0x" ++ address v ++ [10].

(** [while (fgets(line_buf, 127, symfile) != NULL)] *)
Fixpoint convert (fuel : nat) (symfile headfile : list Z) (v : vars) : res (list Z) :=
  match fuel with
  | O => NoFuel
  | S fuel =>
      let '(line_buf, symfile) := fgets 126 symfile in
      match line_buf with
      | [] => Ret headfile
      | _ => v ← scan_line line_buf v; convert fuel symfile (headfile ++ equ_line v) v
      end
  end.

Definition banner : list Z :=
  let stars := bytes_of ";*******************************************************************" ++ [10] in
  stars ++ bytes_of "; This file is generated automatically by utils/gen_section program" ++ [10] ++ stars.

(** The exit status and what the header file holds, [None] when there is none.
    [symfile] is the symbol table, [None] when it cannot be opened. *)
Definition main (argc : Z) (symfile : option (list Z)) (writable : bool) : res (Z * option (list Z)) :=
  if negb (argc =? 3) then Ret (1, None)
  else
    match symfile, writable with
    | Some f, true => h ← convert (S (length f)) f banner vars0; Ret (0, Some h)
    | None, true => Ret (1, Some [])
    | _, false => Ret (1, None)
    end.

(** ** Lemmas *)

Lemma fgets_length n file : (0 < n)%nat -> file <> [] ->
  fst (fgets n file) <> [] /\ (length (snd (fgets n file)) < length file)%nat.
Proof.
  intros Hn Hf. destruct n as [|n]; [lia|]. destruct file as [|c file]; [done|]. cbn [fgets].
  destruct (c =? 10); [simpl; split; [done | lia]|].
  destruct (fgets n file) as [l rest] eqn:E. cbn [fst snd length]. split; [done|].
  enough (length rest <= length file)%nat by lia.
  clear Hf Hn. revert file l rest E. induction n as [|n IH]; intros file l rest E.
  - destruct file; injection E as _ <-; done.
  - destruct file as [|c' file]; [by injection E as _ <-|]. cbn [fgets] in E.
    destruct (c' =? 10); [injection E as _ <-; simpl; lia|].
    destruct (fgets n file) as [l' r] eqn:E'. injection E as _ <-. apply IH in E'. simpl. lia.
Qed.

(** Enough steps: one for every character, and one to find the end. *)
Lemma convert_total f : forall fuel h v, (length f < fuel)%nat -> convert fuel f h v <> NoFuel.
Proof.
  intros fuel. revert f. induction fuel as [|fuel IH]; intros f h v Hf; [lia|]. cbn [convert].
  destruct (decide (f = [])) as [->|Hne]; [done|].
  destruct (fgets_length 126 f ltac:(lia) Hne) as [H1 H2].
  destruct (fgets 126 f) as [l rest]. cbn [fst snd] in H1, H2. destruct l as [|c l]; [done|].
  unfold scan_line, scan_word. destruct (word (skip_space (c :: l))) as [[|a w] r]; cbn [mbind res_bind].
  { apply IH. lia. }
  case_decide; [|done]. cbn [mbind res_bind]. destruct (skip_space r) as [|x r']; cbn [mbind res_bind].
  { apply IH. lia. }
  destruct (word (skip_space r')) as [[|b w'] r'']; cbn [mbind res_bind]; [apply IH; lia|].
  case_decide; [|done]. cbn [mbind res_bind]. apply IH. lia.
Qed.

Lemma fgets_line n l file :
  10 ∉ l -> (length l < n)%nat -> fgets n (l ++ 10 :: file) = (l ++ [10], file).
Proof.
  revert n. induction l as [|c l IH]; intros [|n] Hl Hn; simpl in Hn; try lia; cbn [app fgets]; [done|].
  apply not_elem_of_cons in Hl as [Hc Hl]. rewrite (proj2 (Z.eqb_neq c 10)) by done.
  by rewrite IH by (done || lia).
Qed.

(** A word: characters that are not spaces, at least one. *)
Definition is_word (w : list Z) : Prop := w <> [] /\ Forall (fun c => isspace c = false) w.

Lemma word_space w c rest :
  Forall (fun c => isspace c = false) w -> isspace c = true -> word (w ++ c :: rest) = (w, c :: rest).
Proof.
  intros Hw Hc. induction Hw as [|x w Hx Hw IH]; cbn [app word]; [by rewrite Hc|]. by rewrite Hx, IH.
Qed.

Lemma skip_space_word w rest : is_word w -> skip_space (w ++ rest) = w ++ rest.
Proof. intros [Hn Hw]. destruct Hw as [|x w Hx _]; [done|]. cbn [app skip_space]. by rewrite Hx. Qed.

Lemma scan_word_ok size w c rest :
  is_word w -> isspace c = true ->
  scan_word size (w ++ c :: rest)
  = if decide (length w < size)%nat then Ret (Some (w, c :: rest)) else Fault.
Proof.
  intros Hw Hc. unfold scan_word. rewrite skip_space_word by done. destruct Hw as [Hn Hw].
  rewrite word_space by done. destruct w; [done|]. by case_decide.
Qed.

(** An entry of the symbol table, as [nm] prints it. *)
Record entry := { e_address : list Z; e_flag : Z; e_symbol : list Z }.

Definition entry_line (e : entry) : list Z :=
  e_address e ++ [32; e_flag e; 32] ++ e_symbol e ++ [10].

Definition entry_words (e : entry) : Prop :=
  is_word (e_address e) /\ isspace (e_flag e) = false /\ is_word (e_symbol e).

Definition entry_vars (e : entry) : vars :=
  {| address := e_address e; flag := e_flag e; symbol := e_symbol e |}.

Lemma word_no_newline w : is_word w -> 10 ∉ w.
Proof. intros [_ Hw] H10. rewrite Forall_forall in Hw. by specialize (Hw 10 H10). Qed.

Lemma fgets_entry e file :
  entry_words e -> (length (entry_line e) <= 126)%nat ->
  fgets 126 (entry_line e ++ file) = (entry_line e, file).
Proof.
  intros (Ha & Hf & Hs) Hl. unfold entry_line in *. rewrite !length_app in Hl. simpl in Hl.
  set (l := e_address e ++ [32; e_flag e; 32] ++ e_symbol e).
  replace (e_address e ++ [32; e_flag e; 32] ++ e_symbol e ++ [10]) with (l ++ [10])
    by (unfold l; by rewrite <- !app_assoc).
  rewrite <- app_assoc. cbn [app]. apply fgets_line.
  - unfold l. rewrite !not_elem_of_app, !not_elem_of_cons.
    split_and!; try by apply word_no_newline. all: try done.
    + intros E. rewrite <- E in Hf. done.
    + apply not_elem_of_nil.
  - unfold l. rewrite !length_app. simpl. lia.
Qed.

Lemma scan_entry e v :
  entry_words e -> (length (e_address e) < 20)%nat ->
  scan_line (entry_line e) v = if decide (length (e_symbol e) < 64)%nat then Ret (entry_vars e) else Fault.
Proof.
  intros (Ha & Hf & Hs) Hl. unfold scan_line, entry_line. cbn [app].
  rewrite scan_word_ok by done. rewrite decide_True by done. cbn [mbind res_bind].
  cbn [skip_space]. change (isspace 32) with true. cbn iota. cbn [skip_space]. rewrite Hf.
  change (32 :: e_symbol e ++ [10]) with ([32] ++ e_symbol e ++ [10]).
  assert (Hw : scan_word 64 ([32] ++ e_symbol e ++ [10]) = scan_word 64 (e_symbol e ++ [10])) by done.
  rewrite Hw, scan_word_ok by done. by case_decide.
Qed.

Lemma convert_entries es : forall fuel f h v,
  Forall (fun e => entry_words e /\ length (e_address e) < 20 /\ length (e_symbol e) < 64)%nat es ->
  (length es < fuel)%nat ->
  convert fuel (concat (entry_line <$> es) ++ f) h v
  = convert (fuel - length es) f (h ++ concat ((equ_line ∘ entry_vars) <$> es))
      (default v (entry_vars <$> last es)).
Proof.
  induction es as [|e es IH]; intros fuel f h v Hes Hf.
  - cbn [fmap list_fmap concat app length last]. by rewrite app_nil_r, Nat.sub_0_r.
  - apply Forall_cons in Hes as [(Hw & Ha & Hs) Hes]. destruct fuel as [|fuel]; [simpl in Hf; lia|].
    cbn [fmap list_fmap concat length]. rewrite <- app_assoc. cbn [convert].
    rewrite fgets_entry; [|done|unfold entry_line; rewrite !length_app; simpl; lia].
    assert (Hne : exists c l, entry_line e = c :: l).
    { unfold entry_line. destruct (e_address e) eqn:E; [by destruct Hw as [[Hx _] _]|]. eauto. }
    destruct Hne as (c & l & El). rewrite El. cbn [mbind res_bind].
    rewrite <- El, scan_entry, decide_True by done. cbn [mbind res_bind].
    rewrite IH by (done || (simpl in Hf; lia)). rewrite <- app_assoc. f_equal.
    rewrite last_cons. by destruct (last es).
Qed.

Lemma convert_blank k h v : convert (S (S k)) [10] h v = Ret (h ++ equ_line v).
Proof. reflexivity. Qed.

(** ** Properties *)

(** C36: the generated file lists the symbols. For a table of entries whose
    addresses have at most 19 characters and names at most 63, the header is
    the banner and one definition for each entry, in the order of the table. A
    name of 64 characters or more overflows its array, an empty line defines
    the last symbol again, and the program ends on every input. *)
Theorem gen_section_lists_symbols (es : list entry) (e : entry) (f : list Z) :
  Forall (fun e => entry_words e /\ length (e_address e) < 20 /\ length (e_symbol e) < 64)%nat es ->
  entry_words e -> (length (e_address e) < 20)%nat ->
  (64 <= length (e_symbol e) /\ length (entry_line e) <= 126)%nat ->
  main 3 (Some (concat (entry_line <$> es))) true
    = Ret (0, Some (banner ++ concat ((equ_line ∘ entry_vars) <$> es))) /\
  main 3 (Some (concat (entry_line <$> es) ++ entry_line e ++ f)) true = Fault /\
  main 3 (Some (concat (entry_line <$> es) ++ [10])) true
    = Ret (0, Some (banner ++ concat ((equ_line ∘ entry_vars) <$> es) ++
                    equ_line (default vars0 (entry_vars <$> last es)))) /\
  (forall argc file w, main argc file w <> NoFuel).
Proof.
  intros Hes He Ha [Hlong Hline].
  assert (Hlen : (length es <= length (concat (entry_line <$> es)))%nat).
  { clear. induction es as [|x es IH]; [done|]. cbn [fmap list_fmap concat length].
    rewrite length_app. unfold entry_line at 1. rewrite !length_app. simpl. lia. }
  split_and!.
  - unfold main. cbn [Z.eqb negb]. rewrite <- (app_nil_r (concat (entry_line <$> es))) at 2.
    rewrite convert_entries by (done || lia).
    destruct (S (length _) - length es)%nat as [|k] eqn:E; [lia|]. done.
  - unfold main. cbn [Z.eqb negb]. rewrite convert_entries by (done || (rewrite length_app; lia)).
    destruct (S (length _) - length es)%nat as [|k] eqn:E; [rewrite length_app in E; lia|].
    cbn [convert]. rewrite fgets_entry by done.
    destruct (entry_line e) eqn:El.
    { exfalso. unfold entry_line in El. destruct (e_address e); done. }
    rewrite <- El, scan_entry by done. by rewrite decide_False by lia.
  - unfold main. cbn [Z.eqb negb]. rewrite convert_entries by (done || (rewrite length_app; lia)).
    destruct (S (length _) - length es)%nat as [|[|k]] eqn:E; [rewrite length_app in E; simpl in E; lia..|].
    change (negb (3 =? 3)) with false. cbv iota. rewrite convert_blank. cbn [mbind res_bind].
    by rewrite <- app_assoc.
  - intros argc file w. unfold main. destruct (argc =? 3); cbn [negb]; [|done].
    destruct file as [file|], w; try done.
    pose proof (convert_total file (S (length file)) banner vars0 ltac:(lia)) as Hc.
    by destruct (convert _ file banner vars0).
Qed.

Definition sample_symbols : list entry :=
  [ {| e_address := bytes_of "ffff800000100000"; e_flag := 84; e_symbol := bytes_of "start_kernel" |};
    {| e_address := bytes_of "ffff800000101230"; e_flag := 66; e_symbol := bytes_of "tss" |} ].

Definition long_symbol : entry :=
  {| e_address := bytes_of "0"; e_flag := 84; e_symbol := replicate 64 97 |}.

Lemma gen_section_lists_symbols_witness :
  main 3 (Some (concat (entry_line <$> sample_symbols))) true
    = Ret (0, Some (banner ++ concat ((equ_line ∘ entry_vars) <$> sample_symbols))).
Proof.
  assert (Hw : forall w, w <> [] -> forallb (fun c => negb (isspace c)) w = true -> is_word w).
  { intros w Hn Hf. split; [done|]. rewrite forallb_forall in Hf. apply Forall_forall. intros c Hc.
    apply negb_true_iff, Hf. by apply list_elem_of_In. }
  apply (gen_section_lists_symbols sample_symbols long_symbol []).
  - repeat (apply Forall_cons; split); try apply Forall_nil_2;
      (split; [split_and!; [by apply Hw | done | by apply Hw] | simpl; lia]).
  - split_and!; [by apply Hw | done | by apply Hw].
  - simpl. lia.
  - simpl. lia.
Defined.
