(* ===== verification/Screen.v ===== *)
(** * The text screen (screen.c, the output primitives of printf.c)

    The state is [struct screen_info] with the 25 x 80 cells of video memory
    and the bytes sent to the CRT controller's ports. The cells are the object
    [video_mem] points to; an access outside them is a [Fault]. The screen is
    shown to be a window on a [paper]: an unbounded sequence of cells that the
    same output writes once and for all, of which scrolling only moves the
    visible part. *)

From S2P Require Import Prelude.

(** ** State *)

Definition SCREEN_ROW : Z := 25.
Definition SCREEN_COL : Z := 80.
Definition BG_BLACK : Z := 0x0700.

Record screen_info := {
  cursor_offset : Z;        (* size_t *)
  video_mem : list Z;       (* u16 cells *)
  crt_ports : list (Z * Z)  (* (port, byte) of every outb, latest first *)
}.

Definition set_offset (o : Z) (s : screen_info) : screen_info :=
  {| cursor_offset := o; video_mem := video_mem s; crt_ports := crt_ports s |}.

Definition set_video (v : list Z) (s : screen_info) : screen_info :=
  {| cursor_offset := cursor_offset s; video_mem := v; crt_ports := crt_ports s |}.

Definition __outb (p v : Z) (s : screen_info) : screen_info :=
  {| cursor_offset := cursor_offset s; video_mem := video_mem s;
     crt_ports := (p, v) :: crt_ports s |}.

(** ** Operations *)

Definition scroll_screen (line : Z) (s : screen_info) : res screen_info :=
  if line >? SCREEN_ROW - 1 then Ret s
  else
    let n := (SCREEN_ROW - line) * SCREEN_COL in
    v ← for_loop (Z.to_nat n) 0
          (fun i v => c ← aget v (line * SCREEN_COL + i); aset v i c)
          (video_mem s);
    v ← for_loop (Z.to_nat (SCREEN_ROW * SCREEN_COL - n)) n
          (fun i v => aset v i BG_BLACK) v;
    Ret (set_video v s).

Definition clear_screen (s : screen_info) : res screen_info :=
  v ← for_loop (Z.to_nat (SCREEN_ROW * SCREEN_COL)) 0
        (fun i v => aset v i BG_BLACK) (video_mem s);
  Ret (set_video v s).

Definition set_cursor (new : Z) (s : screen_info) : res screen_info :=
  let s := set_offset (u64 new) s in
  s ← (if SCREEN_ROW <=? cursor_offset s / SCREEN_COL then
         t ← scroll_screen 1 s;
         Ret (set_offset (u64 (cursor_offset t - SCREEN_COL)) t)
       else Ret s);
  let hi := u8 (Z.shiftr (cursor_offset s) 8) in
  let s := __outb 0x3d5 hi (__outb 0x3d4 0x0e s) in
  let lo := u8 (Z.land (cursor_offset s) 0xff) in
  Ret (__outb 0x3d5 lo (__outb 0x3d4 0x0f s)).

Definition init_screen (s : screen_info) : res screen_info :=
  s ← set_cursor 0 (set_offset 0 s);
  clear_screen s.

(** screen.h: write one cell; [c] is a [u8]. *)
Definition set_screen (offset c : Z) (s : screen_info) : res screen_info :=
  v ← aset (video_mem s) offset (u16 (Z.lor BG_BLACK c));
  Ret (set_video v s).

(** The cell of a character: [A_byteChar] is a signed [char]. *)
Definition char_cell (c : Z) : Z := u16 (Z.lor BG_BLACK (s8 c)).

Definition caos_putchar (c : Z) (s : screen_info) : res screen_info :=
  v ← aset (video_mem s) (cursor_offset s) (char_cell c);
  let s := set_offset (u64 (cursor_offset s + 1)) (set_video v s) in
  set_cursor (cursor_offset s) s.

Definition delchar_step (s : screen_info) : res screen_info :=
  let s := set_offset (u64 (cursor_offset s - 1)) s in
  s ← set_cursor (cursor_offset s) s;
  v ← aset (video_mem s) (cursor_offset s) BG_BLACK;
  Ret (set_video v s).

Definition caos_delchar (cnt : Z) (s : screen_info) : res screen_info :=
  for_loop (Z.to_nat cnt) 0 (fun _ => delchar_step) s.

(** The move to the next line of [caos_printf]. *)
Definition newline (s : screen_info) : res screen_info :=
  set_cursor ((cursor_offset s / SCREEN_COL + 1) * SCREEN_COL) s.

(** ** The paper behind the screen *)

Record paper := { ink : gmap Z Z; pos : Z }.

Definition cell (p : paper) (k : Z) : Z := default BG_BLACK (ink p !! k).

Definition p_putchar (c : Z) (p : paper) : paper :=
  {| ink := <[pos p := char_cell c]> (ink p); pos := pos p + 1 |}.

Definition p_newline (p : paper) : paper :=
  {| ink := ink p; pos := (pos p / SCREEN_COL + 1) * SCREEN_COL |}.

Definition p_delchar (p : paper) : paper :=
  {| ink := <[pos p - 1 := BG_BLACK]> (ink p); pos := pos p - 1 |}.

(** What the code may output: a character, a new line, a deleted character. *)
Inductive output := OutChar (c : Z) | OutLine | OutDel.

Definition out_screen (o : output) (s : screen_info) : res screen_info :=
  match o with
  | OutChar c => caos_putchar c s
  | OutLine => newline s
  | OutDel => caos_delchar 1 s
  end.

Fixpoint out_screen_all (os : list output) (s : screen_info) : res screen_info :=
  match os with
  | [] => Ret s
  | o :: os => s ← out_screen o s; out_screen_all os s
  end.

Definition out_paper (o : output) (p : paper) : paper :=
  match o with
  | OutChar c => p_putchar c p
  | OutLine => p_newline p
  | OutDel => p_delchar p
  end.

(** The abstract terminal: the first visible line, and the paper. The window
    moves down a line when the position leaves it. *)
Definition term_step (o : output) (t : Z * paper) : Z * paper :=
  let p := out_paper o t.2 in
  (if 2000 <=? pos p - 80 * t.1 then t.1 + 1 else t.1, p).

Fixpoint term_run (os : list output) (t : Z * paper) : Z * paper :=
  match os with [] => t | o :: os => term_run os (term_step o t) end.

(** Nothing is deleted before the first visible cell. *)
Fixpoint term_ok (os : list output) (t : Z * paper) : bool :=
  match os with
  | [] => true
  | o :: os =>
      match o with OutDel => 80 * t.1 <? pos t.2 | _ => true end
      && term_ok os (term_step o t)
  end.

Lemma term_run_app os os' t : term_run (os ++ os') t = term_run os' (term_run os t).
Proof. revert t. induction os as [|o os IH]; intros t; [done|]. simpl. apply IH. Qed.

Lemma term_ok_app os os' t :
  term_ok (os ++ os') t = term_ok os t && term_ok os' (term_run os t).
Proof.
  revert t. induction os as [|o os IH]; intros t; [done|]. simpl.
  by rewrite IH, andb_assoc.
Qed.

(** From the cell [lo] on, the 2000 cells are the 25 lines of the paper from
    line [top] on, and the paper below them is blank. *)
Record window (lo top : Z) (v : list Z) (p : paper) : Prop := {
  wi_top : 0 <= top;
  wi_len : length v = 2000%nat;
  wi_cell : forall i, 0 <= i < 2000 -> lo <= i -> v !! Z.to_nat i = Some (cell p (80 * top + i));
  wi_below : forall k, 80 * top + 2000 <= k -> cell p k = BG_BLACK
}.

(** The position the CRT controller was last told. *)
Definition crt_cursor (ports : list (Z * Z)) : option Z :=
  match ports with
  | (d1, lo) :: (a1, r1) :: (d2, hi) :: (a2, r2) :: _ =>
      if decide ((d1, a1, r1, d2, a2, r2) = (0x3d5, 0x3d4, 0x0f, 0x3d5, 0x3d4, 0x0e))
      then Some (256 * hi + lo) else None
  | _ => None
  end.

(** The screen shows the terminal from the cell [lo] on, and all of it when
    [lo] is 0. *)
Record shows (lo : Z) (t : Z * paper) (s : screen_info) : Prop := {
  sh_window : window lo t.1 (video_mem s) t.2;
  sh_cur : 0 <= cursor_offset s < 2000;
  sh_pos : pos t.2 = 80 * t.1 + cursor_offset s;
  sh_crt : crt_cursor (crt_ports s) = Some (cursor_offset s)
}.

(** ** Loops over the cells *)

Lemma fill_cells (v : list Z) (n m : Z) :
  length v = 2000%nat -> 0 <= n -> 0 <= m -> n + m = 2000 ->
  exists v', for_loop (Z.to_nat m) n (fun i v => aset v i BG_BLACK) v = Ret v' /\
    length v' = 2000%nat /\
    forall k, 0 <= k < 2000 ->
      v' !! Z.to_nat k = if decide (n <= k) then Some BG_BLACK else v !! Z.to_nat k.
Proof.
  intros Hl Hn Hm Hnm.
  destruct (for_loop_inv (fun i t => length t = 2000%nat /\
      forall k, 0 <= k < 2000 ->
        t !! Z.to_nat k = if decide (n <= k < i) then Some BG_BLACK else v !! Z.to_nat k)
    (Z.to_nat m) n (fun i v => aset v i BG_BLACK) v) as (v' & E & Hl' & Hv').
  - split; [done|]. intros k Hk. by rewrite decide_False by lia.
  - intros j t Hj [Ht Hk]. rewrite aset_lt by lia. eexists. split; [done|].
    split; [by rewrite length_insert|]. intros k Hk'. destruct (decide (k = j)) as [->|].
    + rewrite list_lookup_insert_eq by lia. by rewrite decide_True by lia.
    + rewrite list_lookup_insert_ne by lia. rewrite Hk by done.
      destruct (decide (n <= k < j)); [rewrite decide_True by lia | rewrite decide_False by lia]; done.
  - exists v'. split; [done|]. split; [done|]. intros k Hk. rewrite Hv' by done.
    destruct (decide (n <= k)); [rewrite decide_True by lia | rewrite decide_False by lia]; done.
Qed.

Lemma move_cells (v : list Z) (d n : Z) :
  length v = 2000%nat -> 0 <= d -> 0 <= n -> d + n = 2000 ->
  exists v', for_loop (Z.to_nat n) 0 (fun i v => c ← aget v (d + i); aset v i c) v = Ret v' /\
    length v' = 2000%nat /\
    forall k, 0 <= k < n -> v' !! Z.to_nat k = v !! Z.to_nat (d + k).
Proof.
  intros Hl Hd Hn Hdn.
  destruct (for_loop_inv (fun i t => length t = 2000%nat /\
      (forall k, 0 <= k < i -> t !! Z.to_nat k = v !! Z.to_nat (d + k)) /\
      (forall k, i <= k -> t !! Z.to_nat k = v !! Z.to_nat k))
    (Z.to_nat n) 0 (fun i v => c ← aget v (d + i); aset v i c) v) as (v' & E & Hl' & Hv' & _).
  - split_and!; [done | lia | done].
  - intros j t Hj (Ht & Hlo & Hhi).
    destruct (aget_lt t (d + j)) as [c Hc]; [lia|]. rewrite Hc. simpl.
    rewrite aset_lt by lia. eexists. split; [done|].
    apply aget_Ret in Hc as [_ Hc]. rewrite Hhi in Hc by lia.
    split_and!; [by rewrite length_insert | |].
    + intros k Hk. destruct (decide (k = j)) as [->|].
      * rewrite list_lookup_insert_eq by lia. done.
      * rewrite list_lookup_insert_ne by lia. apply Hlo. lia.
    + intros k Hk. rewrite list_lookup_insert_ne by lia. apply Hhi. lia.
  - exists v'. split; [done|]. split; [done|]. intros k Hk. apply Hv'. lia.
Qed.

(** [scroll_screen] moves the lines up and blanks the rest. *)
Lemma scroll_screen_spec (line : Z) (s : screen_info) :
  0 <= line <= 24 -> length (video_mem s) = 2000%nat ->
  exists v', scroll_screen line s = Ret (set_video v' s) /\ length v' = 2000%nat /\
    forall k, 0 <= k < 2000 ->
      v' !! Z.to_nat k = if decide (k < 2000 - 80 * line)
                         then video_mem s !! Z.to_nat (80 * line + k)
                         else Some BG_BLACK.
Proof.
  intros Hline Hl. unfold scroll_screen, SCREEN_ROW, SCREEN_COL.
  rewrite (Z.gtb_ltb line), (proj2 (Z.ltb_ge _ _)) by lia. cbv zeta.
  destruct (move_cells (video_mem s) (line * 80) ((25 - line) * 80))
    as (v1 & -> & Hl1 & Hv1); [done | lia..|]. simpl.
  destruct (fill_cells v1 ((25 - line) * 80) (25 * 80 - (25 - line) * 80))
    as (v2 & -> & Hl2 & Hv2); [done | lia..|]. simpl.
  exists v2. split_and!; [done | done |]. intros k Hk. rewrite Hv2 by done.
  destruct (decide (k < 2000 - 80 * line)).
  - rewrite decide_False by lia. rewrite Hv1 by lia. do 2 f_equal. lia.
  - by rewrite decide_True by lia.
Qed.

(** ** The cursor *)

(** Scrolling by a line moves the window down the paper. *)
Lemma scroll_window lo top (s : screen_info) p :
  window lo top (video_mem s) p ->
  exists v', scroll_screen 1 s = Ret (set_video v' s) /\ window lo (top + 1) v' p.
Proof.
  intros [Ht Hl Hc Hb].
  destruct (scroll_screen_spec 1 s) as (v' & E & Hl' & Hv'); [lia | done |].
  exists v'. split; [done|]. split; [lia | done | |].
  - intros i Hi Hlo. rewrite Hv' by done. case_decide.
    + rewrite Hc by lia. do 2 f_equal. lia.
    + rewrite Hb by lia. done.
  - intros k Hk. apply Hb. lia.
Qed.

Lemma crt_cursor_bytes o ports :
  0 <= o < 2000 ->
  crt_cursor ((0x3d5, u8 (Z.land o 0xff)) :: (0x3d4, 0x0f)
              :: (0x3d5, u8 (Z.shiftr o 8)) :: (0x3d4, 0x0e) :: ports) = Some o.
Proof.
  intros Ho. unfold crt_cursor. rewrite decide_True by done. f_equal.
  change 0xff with (Z.ones 8). rewrite Z.land_ones, Z.shiftr_div_pow2 by lia.
  change (2 ^ 8) with 256.
  pose proof (Z.mod_pos_bound o 256 ltac:(lia)).
  assert (0 <= o / 256 < 256).
  { split; [apply Z.div_pos; lia | apply Z.div_lt_upper_bound; lia]. }
  rewrite !wrap_small by (change (2 ^ 8) with 256; lia).
  symmetry. apply Z.div_mod. lia.
Qed.

(** [set_cursor] keeps the screen a window on the paper: it scrolls exactly
    when the new position is below the last line. *)
Lemma set_cursor_shows lo top (s : screen_info) p new :
  window lo top (video_mem s) p -> 0 <= new < 2080 -> pos p = 80 * top + new ->
  exists s', set_cursor new s = Ret s' /\
    shows lo (if 2000 <=? pos p - 80 * top then top + 1 else top, p) s'.
Proof.
  intros Hw Hn Hp. unfold set_cursor. cbv zeta.
  rewrite (wrap_small 64 new) by lia. cbn [cursor_offset set_offset].
  unfold SCREEN_ROW, SCREEN_COL. replace (pos p - 80 * top) with new by lia.
  destruct (Z.leb_spec 2000 new) as [Hge|Hlt].
  - rewrite (proj2 (Z.leb_le _ _)).
    2:{ apply Z.div_le_lower_bound; lia. }
    destruct (scroll_window lo top (set_offset new s) p) as (v' & -> & Hw'); [done|].
    cbn. rewrite (wrap_small 64 (new - 80)) by lia. eexists. split; [done|].
    split; cbn [crt_ports __outb cursor_offset set_offset set_video video_mem fst snd];
      [done | lia | lia |]. apply crt_cursor_bytes. lia.
  - rewrite (proj2 (Z.leb_gt _ _)).
    2:{ apply Z.div_lt_upper_bound; lia. }
    cbn. eexists. split; [done|].
    split; cbn [crt_ports __outb cursor_offset set_offset set_video video_mem fst snd];
      [done | lia | lia |]. apply crt_cursor_bytes. lia.
Qed.

(** Writing a cell is writing it on the paper. *)
Lemma window_write lo top v p o c np :
  window lo top v p -> 0 <= o < 2000 ->
  exists v', aset v o c = Ret v' /\
    window lo top v' {| ink := <[80 * top + o := c]> (ink p); pos := np |}.
Proof.
  intros [Ht Hl Hc Hb] Ho. rewrite aset_lt by lia. eexists. split; [done|].
  split; [done | by rewrite length_insert | |].
  - intros i Hi Hlo. unfold cell. simpl. destruct (decide (i = o)) as [->|].
    + rewrite list_lookup_insert_eq by lia. by rewrite lookup_insert_eq.
    + rewrite list_lookup_insert_ne by lia. rewrite lookup_insert_ne by lia. by apply Hc.
  - intros k Hk. unfold cell. simpl. rewrite lookup_insert_ne by lia. by apply Hb.
Qed.

Lemma window_pos lo top v p np : window lo top v p -> window lo top v {| ink := ink p; pos := np |}.
Proof. intros [? ? ? ?]. by split. Qed.

Lemma caos_delchar_1 s : caos_delchar 1 s = delchar_step s.
Proof. unfold caos_delchar. simpl. by destruct (delchar_step s). Qed.

(** What shows more shows less. *)
Lemma shows_weaken lo lo' t s : lo <= lo' -> shows lo t s -> shows lo' t s.
Proof.
  intros Hlo [[W1 W2 W3 W4] Hc Hp Hcrt]. split; [|done..]. split; [done | done | | done].
  intros i Hi Hi'. apply W3; [done | lia].
Qed.

(** One output: the screen follows the abstract terminal. *)
Lemma out_screen_shows lo o t (s : screen_info) :
  shows lo t s -> (o = OutDel -> 80 * t.1 < pos t.2) ->
  exists s', out_screen o s = Ret s' /\ shows lo (term_step o t) s'.
Proof.
  destruct t as [top p]. intros [Hw Hc Hp _] Hd. simpl in *.
  destruct o as [c| |]; unfold out_screen, term_step; simpl.
  - unfold caos_putchar.
    destruct (window_write lo top (video_mem s) p (cursor_offset s) (char_cell c) (pos p + 1))
      as (v' & -> & Hw'); [done | lia |].
    cbn [mbind res_bind cursor_offset set_offset set_video].
    rewrite (wrap_small 64 (cursor_offset s + 1)) by lia. rewrite <- Hp in Hw'.
    apply (set_cursor_shows lo top _ (p_putchar c p)); simpl; [done | lia | lia].
  - unfold newline. apply (set_cursor_shows lo top _ (p_newline p)).
    + by apply window_pos.
    + unfold SCREEN_COL. pose proof (Z.mul_div_le (cursor_offset s) 80 ltac:(lia)).
      pose proof (Z.div_pos (cursor_offset s) 80 ltac:(lia) ltac:(lia)). lia.
    + simpl. unfold SCREEN_COL. rewrite Hp, (Z.mul_comm 80), Z.div_add_l by lia. lia.
  - specialize (Hd eq_refl). rewrite caos_delchar_1. unfold delchar_step.
    cbn [cursor_offset set_offset]. rewrite (wrap_small 64 (cursor_offset s - 1)) by lia.
    destruct (set_cursor_shows lo top (set_offset (cursor_offset s - 1) s)
                {| ink := ink p; pos := pos p - 1 |} (cursor_offset s - 1))
      as (s' & -> & [Hw' Hc' Hp' Hcrt]); [by apply window_pos | lia | simpl; lia |].
    cbn [mbind res_bind]. simpl in *. rewrite (proj2 (Z.leb_gt _ _)) in * by lia.
    destruct (window_write lo top (video_mem s') _ (cursor_offset s') BG_BLACK (pos p - 1) Hw')
      as (v' & -> & Hw''); [lia|].
    cbn. eexists. split; [done|]. rewrite <- Hp' in Hw''. by split.
Qed.

Lemma out_screen_all_shows lo os t (s : screen_info) :
  shows lo t s -> term_ok os t = true ->
  exists s', out_screen_all os s = Ret s' /\ shows lo (term_run os t) s'.
Proof.
  revert t s. induction os as [|o os IH]; intros t s Hs Hok; simpl in *.
  - eauto.
  - apply andb_true_iff in Hok as [Hd Hok].
    destruct (out_screen_shows lo o t s Hs) as (s' & -> & Hs').
    { intros ->. by apply Z.ltb_lt. }
    simpl. by apply IH.
Qed.

(** ** Properties *)

(** C11: the screen is a window on an unbounded paper. Whatever sequence of
    characters, new lines and deletions the kernel outputs, if nothing is
    deleted before the first visible cell then every step returns (no access
    leaves the 2000 cells), the cells are the 25 lines of the paper that the
    same outputs write, the window moves down exactly when the position leaves
    it, and the CRT controller was told the position of the cursor. All of this
    holds below the first [lo] cells whatever else is drawn there. *)
Theorem screen_is_window lo os t (s : screen_info) :
  shows lo t s -> term_ok os t = true ->
  exists s', out_screen_all os s = Ret s' /\ shows lo (term_run os t) s'.
Proof. apply out_screen_all_shows. Qed.

(** The empty paper, and the screen that shows it. *)
Definition blank_paper : paper := {| ink := ∅; pos := 0 |}.

Lemma blank_window v :
  length v = 2000%nat -> (forall k, 0 <= k < 2000 -> v !! Z.to_nat k = Some BG_BLACK) ->
  window 0 0 v blank_paper.
Proof. intros Hl Hv. split; [lia | done | intros; by apply Hv |]. done. Qed.

Lemma set_cursor_0 (s : screen_info) :
  set_cursor 0 s
  = Ret {| cursor_offset := 0; video_mem := video_mem s;
           crt_ports := (0x3d5, 0) :: (0x3d4, 0x0f) :: (0x3d5, 0) :: (0x3d4, 0x0e)
                        :: crt_ports s |}.
Proof. reflexivity. Qed.

(** [init_screen], on 2000 cells of any content and any cursor, returns
    with the screen showing the blank paper from its first cell. *)
Theorem init_screen_blank (s : screen_info) :
  length (video_mem s) = 2000%nat ->
  exists s', init_screen s = Ret s' /\ shows 0 (0, blank_paper) s'.
Proof.
  intros Hl. unfold init_screen. rewrite set_cursor_0. cbn [mbind res_bind].
  unfold clear_screen. change (SCREEN_ROW * SCREEN_COL) with 2000. cbn [video_mem set_offset].
  destruct (fill_cells (video_mem s) 0 2000) as (v' & E & Hl' & Hv'); [done | lia..|].
  rewrite E. cbn [mbind res_bind]. eexists. split; [done|].
  split; cbn; [|lia|lia|done].
  apply blank_window; [done|]. intros k Hk. rewrite Hv' by done. by rewrite decide_True by lia.
Qed.

(** The screen the program starts with after [init_screen]. *)
Definition garbage_screen : screen_info :=
  {| cursor_offset := 77; video_mem := replicate 2000 0x4141; crt_ports := [] |}.

Lemma init_screen_blank_witness :
  exists s', init_screen garbage_screen = Ret s' /\ shows 0 (0, blank_paper) s'.
Proof. apply init_screen_blank. reflexivity. Defined.

Definition blank_screen : screen_info :=
  {| cursor_offset := 0; video_mem := replicate 2000 BG_BLACK;
     crt_ports := [(0x3d5, 0); (0x3d4, 0x0f); (0x3d5, 0); (0x3d4, 0x0e)] |}.

Lemma blank_screen_shows : shows 0 (0, blank_paper) blank_screen.
Proof.
  split; [|done|done|done].
  unfold blank_screen; cbn [video_mem fst snd]. apply blank_window.
  - by rewrite length_replicate.
  - intros k Hk. apply lookup_replicate. split; [done|lia].
Qed.

(** Thirty new lines, two characters of which one is deleted. *)
Definition sample_outputs : list output :=
  replicate 30 OutLine ++ [OutChar 65; OutChar 66; OutDel].

Lemma screen_is_window_witness :
  exists s', out_screen_all sample_outputs blank_screen = Ret s' /\
    shows 0 (term_run sample_outputs (0, blank_paper)) s'.
Proof. apply screen_is_window; [exact blank_screen_shows | vm_compute; reflexivity]. Defined.

(** A deletion with the cursor on the first cell leaves the screen: the
    offset becomes [2^64 - 1], [set_cursor] scrolls, and the blank is stored
    79 cells short of the end of the address space. *)
Theorem delchar_at_origin_faults (s : screen_info) :
  cursor_offset s = 0 -> length (video_mem s) = 2000%nat -> out_screen OutDel s = Fault.
Proof.
  intros Hc Hl. unfold out_screen. rewrite caos_delchar_1. unfold delchar_step.
  cbn [cursor_offset set_offset]. rewrite Hc.
  unfold set_cursor. cbv zeta. cbn [cursor_offset set_offset].
  change (u64 (u64 (0 - 1))) with (2 ^ 64 - 1).
  change (SCREEN_ROW <=? (2 ^ 64 - 1) / SCREEN_COL) with true. cbn [mbind res_bind].
  destruct (scroll_screen_spec 1 (set_offset (2 ^ 64 - 1) (set_offset (u64 (0 - 1)) s)))
    as (v' & -> & Hl' & _); [lia | done |].
  cbn [mbind res_bind cursor_offset set_offset set_video video_mem __outb].
  rewrite aset_ge; [done|]. rewrite Hl'. change (u64 _) with (2 ^ 64 - 81). lia.
Qed.

Lemma delchar_at_origin_faults_witness : out_screen OutDel blank_screen = Fault.
Proof. apply delchar_at_origin_faults; reflexivity. Defined.

(** The cell of a character: an ASCII character keeps the black attribute
    of the screen, every other one is sign-extended into the attribute byte. *)
Theorem char_cell_attribute c :
  char_cell c = if u8 c <? 128 then 0x0700 + u8 c else 0xff00 + u8 c.
Proof.
  assert (Hb : forall n, (n < 256)%nat -> 
     u16 (Z.lor BG_BLACK (let v := Z.of_nat n in if v <? 128 then v else v - 256))
     = (if Z.of_nat n <? 128 then 0x0700 + Z.of_nat n else 0xff00 + Z.of_nat n)).
  { intros n Hn. do 256 (destruct n as [|n]; [reflexivity|]). lia. }
  pose proof (wrap_range 8 c ltac:(lia)) as Hr. change (2 ^ 8) with 256 in Hr.
  specialize (Hb (Z.to_nat (u8 c)) ltac:(lia)). rewrite Z2Nat.id in Hb by lia. exact Hb.
Qed.
