(* ===== verification/Printf.v ===== *)
(** * Formatted output (printf.c)

    [print_hex] and [print_decimal] write the digits of a 64-bit number,
    [caos_vsprintf] translates a format and its arguments into a string in
    memory, and [caos_printf] sends the string to the screen, giving the escape
    characters their meaning. Memory is that of CString; a [va_list] is the
    list of the raw 64-bit arguments still to be taken. *)

From S2P Require Import Prelude BitOps CString Screen.

(** ** The functions of printf.c *)

Definition hex_char (n : Z) : Z := if n <=? 9 then n + 0x30 else n + 0x37.

(** The array [v] is modelled by the part of it that was written. *)
Definition hex_step (a : Z) (k : Z) (v : list Z) : res (list Z) :=
  let i := 8 - k in
  let p := u8 (Z.shiftr a (8 * (i - 1))) in
  Ret (v ++ [hex_char (Z.shiftr p 4); hex_char (Z.land p 0x0f)]).

(** [while (v[i] == '0') i++;] *)
Fixpoint skip_zeros (fuel : nat) (v : list Z) (i : Z) : res Z :=
  match fuel with
  | O => NoFuel
  | S fuel' =>
      c ← aget v i;
      if c =? 48 then skip_zeros fuel' v (i + 1) else Ret i
  end.

(** [for (j = 0; j < count; j++) buf[j] = v[i++];] *)
Definition copy_digits (v : list Z) (buf i count : Z) (m : bmem) : res bmem :=
  for_loop (Z.to_nat count) 0
    (fun j m => c ← aget v (i + j); store8 (buf + j) c m) m.

Definition print_hex (m : bmem) (buf a : Z) : res (Z * bmem) :=
  if a =? 0 then m' ← store8 buf 0x30 m; Ret (1, m')
  else
    v ← for_loop 8 0 (hex_step a) [];
    i ← skip_zeros 33 v 0;
    let count := 16 - i in
    m' ← copy_digits v buf i count m;
    Ret (count, m').

(** [while (a > 0) { v[i++] = a % 10; a /= 10; }]; [v] has 32 elements. *)
Fixpoint decimal_loop (fuel : nat) (v : list Z) (i a : Z) : res (list Z * Z) :=
  match fuel with
  | O => NoFuel
  | S fuel' =>
      if 0 <? a then
        v' ← aset v i (u8 (Z.rem a 10));
        decimal_loop fuel' v' (i + 1) (Z.quot a 10)
      else Ret (v, i)
  end.

(** [for (--i; i >= 0; i--) { *A_szBuffer++ = v[i]+'0'; count++; }], with
    [n] the value of [i] before. *)
Fixpoint emit_decimal (n : nat) (v : list Z) (buf count : Z) (m : bmem) : res (Z * bmem) :=
  match n with
  | O => Ret (count, m)
  | S i =>
      d ← aget v (Z.of_nat i);
      m' ← store8 buf (u8 (d + 48)) m;
      emit_decimal i v (buf + 1) (count + 1) m'
  end.

Definition print_decimal (m : bmem) (buf a : Z) : res (Z * bmem) :=
  if a =? 0 then m' ← store8 buf 48 m; Ret (1, m')
  else
    '(m', buf', count, a') ←
      (if negb (test_bit 63 {[0 := u64 a]} =? 0) then
         m' ← store8 buf 45 m; Ret (m', buf + 1, 1, s64 (- a))
       else Ret (m, buf, 0, a));
    '(v, i) ← decimal_loop 65 (replicate 32 0) 0 a';
    emit_decimal (Z.to_nat i) v buf' count m'.

(** [va_arg]: the next argument; there is none behind the last one. *)
Definition va_arg (ap : list Z) : res (Z * list Z) :=
  match ap with [] => Fault | x :: ap' => Ret (x, ap') end.

(** Is the character at [f + 1] the letter [c]? The C code looks at it only
    when the character at [f] is a percent sign. *)
Definition spec_is (m : bmem) (f x c : Z) : res bool :=
  if x =? 37 then y ← load8 m (f + 1); Ret (y =? c) else Ret false.

Fixpoint vsprintf_loop (fuel : nat) (m : bmem) (str f : Z) (ap : list Z) : res bmem :=
  match fuel with
  | O => NoFuel
  | S fuel' =>
      x ← load8 m f;
      if x =? 0 then store8 str 0 m
      else
        d ← spec_is m f x 100;
        if (d : bool) then
          '(a, ap') ← va_arg ap;
          '(n, m') ← print_decimal m str (s64 a);
          vsprintf_loop fuel' m' (str + n) (f + 2) ap'
        else
        h ← spec_is m f x 120;
        if (h : bool) then
          '(a, ap') ← va_arg ap;
          '(n, m') ← print_hex m str (s64 a);
          vsprintf_loop fuel' m' (str + n) (f + 2) ap'
        else
        s ← spec_is m f x 115;
        if (s : bool) then
          '(a, ap') ← va_arg ap;
          '(n, m') ← caos_strcat m str a;
          vsprintf_loop fuel' m' (str + n) (f + 2) ap'
        else
        c ← spec_is m f x 99;
        if (c : bool) then
          '(a, ap') ← va_arg ap;
          m' ← store8 str (u8 a) m;
          vsprintf_loop fuel' m' (str + 1) (f + 2) ap'
        else
          m' ← store8 str x m;
          vsprintf_loop fuel' m' (str + 1) (f + 1) ap
  end.

Definition caos_vsprintf (m : bmem) (str f : Z) (ap : list Z) : res bmem :=
  vsprintf_loop (mem_fuel m) m str f ap.

(** The string is written, and the return value is always 0. *)
Definition caos_sprintf (m : bmem) (outbuf f : Z) (ap : list Z) : res (Z * bmem) :=
  m' ← caos_vsprintf m outbuf f ap;
  Ret (0, m').

(** The second loop of [caos_printf]. *)
Fixpoint printf_loop (fuel : nat) (m : bmem) (sz i : Z) (s : screen_info)
    : res (Z * screen_info) :=
  match fuel with
  | O => NoFuel
  | S fuel' =>
      c ← load8 m (sz + i);
      if c =? 0 then Ret (i, s)
      else if c =? 10 then
        s' ← newline s;
        printf_loop fuel' m sz (i + 1) s'
      else if c =? 8 then
        s' ← caos_delchar 1 s;
        printf_loop fuel' m sz (i + 1) s'
      else
        s' ← caos_putchar c s;
        printf_loop fuel' m sz (i + 1) s'
  end.

(** The static buffer [sz] is an address; it has 128 bytes. *)
Definition caos_printf (sz : Z) (m : bmem) (s : screen_info) (f : Z) (ap : list Z)
    : res (Z * bmem * screen_info) :=
  m' ← caos_vsprintf m sz f ap;
  '(i, s') ← printf_loop (mem_fuel m') m' sz 0 s;
  Ret (i, m', s').

(** ** Numerals *)

(** The digits of [n] in base [b], most significant first, none for 0. *)
Fixpoint digits (fuel : nat) (b n : Z) : list Z :=
  match fuel with
  | O => []
  | S fuel' => if n <=? 0 then [] else digits fuel' b (n / b) ++ [n mod b]
  end.

Definition value (b : Z) (ds : list Z) : Z := foldl (fun acc d => acc * b + d) 0 ds.

Definition char_digit (c : Z) : Z :=
  if (48 <=? c) && (c <=? 57) then c - 48
  else if (65 <=? c) && (c <=? 70) then c - 55 else 0.

(** Reading a numeral back. *)
Definition parse (b : Z) (cs : list Z) : Z := value b (char_digit <$> cs).

Definition parse_decimal (cs : list Z) : Z :=
  match cs with
  | c :: ds => if c =? 45 then - parse 10 ds else parse 10 cs
  | [] => 0
  end.

(** The numerals the kernel prints, in decimal and in hexadecimal. *)
Definition decimal (n : Z) : list Z :=
  if n =? 0 then [48]
  else if n <? 0 then 45 :: (hex_char <$> digits 64 10 (- n))
  else hex_char <$> digits 64 10 n.

Definition hexadecimal (n : Z) : list Z :=
  if u64 n =? 0 then [48] else hex_char <$> digits 16 16 (u64 n).

Lemma value_app b ds d : value b (ds ++ [d]) = value b ds * b + d.
Proof. unfold value. by rewrite foldl_app. Qed.

Lemma digits_value b fuel : 1 < b -> forall n, 0 <= n < b ^ Z.of_nat fuel ->
  value b (digits fuel b n) = n.
Proof.
  intros Hb. induction fuel as [|fuel IH]; intros n Hn; simpl.
  - change (b ^ Z.of_nat 0) with 1 in Hn. unfold value. simpl. lia.
  - destruct (Z.leb_spec n 0); [unfold value; simpl; lia|].
    rewrite value_app, IH; [rewrite Z.mul_comm; symmetry; apply Z.div_mod; lia|].
    rewrite Nat2Z.inj_succ, Z.pow_succ_r in Hn by lia.
    split; [apply Z.div_pos; lia | apply Z.div_lt_upper_bound; lia].
Qed.

Lemma digits_range b fuel : 1 < b -> forall n, Forall (fun d => 0 <= d < b) (digits fuel b n).
Proof.
  intros Hb. induction fuel as [|fuel IH]; intros n; simpl; [done|].
  destruct (n <=? 0); [done|]. apply Forall_app. split; [done|].
  apply Forall_singleton, Z.mod_pos_bound. lia.
Qed.

Lemma digits_length b fuel : 1 < b -> forall k n, n < b ^ Z.of_nat k ->
  (length (digits fuel b n) <= k)%nat.
Proof.
  intros Hb. induction fuel as [|fuel IH]; intros k n Hn; simpl; [lia|].
  destruct (Z.leb_spec n 0); [simpl; lia|]. rewrite length_app. simpl.
  destruct k as [|k]; [change (b ^ Z.of_nat 0) with 1 in Hn; lia|].
  rewrite Nat2Z.inj_succ, Z.pow_succ_r in Hn by lia.
  assert (Hd : n / b < b ^ Z.of_nat k) by (apply Z.div_lt_upper_bound; lia).
  apply IH in Hd. lia.
Qed.

(** No numeral starts with a zero. *)
Lemma digits_head b fuel : 1 < b -> forall n, 0 <= n < b ^ Z.of_nat fuel ->
  head (digits fuel b n) <> Some 0.
Proof.
  intros Hb. induction fuel as [|fuel IH]; intros n Hn; simpl; [done|].
  destruct (Z.leb_spec n 0); [done|].
  rewrite Nat2Z.inj_succ, Z.pow_succ_r in Hn by lia.
  specialize (IH (n / b)). rewrite Z.mod_eq by lia.
  destruct (digits fuel b (n / b)) as [|d ds] eqn:E; simpl in *.
  - assert (Hv : value b (digits fuel b (n / b)) = n / b).
    { apply digits_value; [done|].
      split; [apply Z.div_pos; lia | apply Z.div_lt_upper_bound; lia]. }
    rewrite E in Hv. unfold value in Hv. simpl in Hv. rewrite <- Hv.
    intros [= Hz]. lia.
  - apply IH. split; [apply Z.div_pos; lia | apply Z.div_lt_upper_bound; lia].
Qed.

Lemma char_digit_hex d : 0 <= d < 16 -> char_digit (hex_char d) = d.
Proof.
  intros Hd. unfold char_digit, hex_char. destruct (Z.leb_spec d 9).
  - rewrite !(proj2 (Z.leb_le _ _)) by lia. simpl. lia.
  - rewrite (proj2 (Z.leb_le 48 _)), (proj2 (Z.leb_gt _ 57)) by lia. simpl.
    rewrite !(proj2 (Z.leb_le _ _)) by lia. simpl. lia.
Qed.

Lemma hex_char_range d : 0 <= d < 16 -> 48 <= hex_char d < 71 /\ (hex_char d = 48 <-> d = 0).
Proof. intros Hd. unfold hex_char. destruct (Z.leb_spec d 9); lia. Qed.

Lemma parse_digits b ds :
  Forall (fun d => 0 <= d < 16) ds -> parse b (hex_char <$> ds) = value b ds.
Proof.
  intros Hd. unfold parse. f_equal. induction Hd as [|d ds Hd Hds IH]; [done|].
  rewrite !fmap_cons. by rewrite IH, char_digit_hex.
Qed.

(** ** Hexadecimal output *)

Definition nib (a k : Z) : Z := (a / 16 ^ k) mod 16.

(** The [k] low nibbles of [a], most significant first. *)
Fixpoint nibs (k : nat) (a : Z) : list Z :=
  match k with O => [] | S k' => nib a (Z.of_nat k') :: nibs k' a end.

Lemma nib_div a k : 0 <= k -> nib (a / 16) k = nib a (k + 1).
Proof.
  intros Hk. unfold nib. f_equal.
  rewrite Z.div_div by (try apply Z.pow_pos_nonneg; lia). f_equal.
  rewrite Z.pow_add_r by lia. lia.
Qed.

Lemma nibs_snoc k a : nibs (S k) a = nibs k (a / 16) ++ [a mod 16].
Proof.
  induction k as [|k IH].
  - simpl. unfold nib. by rewrite Z.div_1_r.
  - change (nib a (Z.of_nat (S k)) :: nibs (S k) a
            = nib (a / 16) (Z.of_nat k) :: nibs k (a / 16) ++ [a mod 16]).
    rewrite nib_div, IH by lia. do 2 f_equal. lia.
Qed.

Lemma nibs_zero k : nibs k 0 = replicate k 0.
Proof.
  induction k as [|k IH]; [done|]. simpl. by rewrite IH.
Qed.

(** The nibbles are the numeral, padded with zeros. *)
Lemma nibs_digits k : forall n, 0 <= n < 16 ^ Z.of_nat k ->
  exists z, nibs k n = replicate z 0 ++ digits k 16 n.
Proof.
  induction k as [|k IH]; intros n Hn; [by exists 0%nat|].
  rewrite nibs_snoc. cbn [digits]. destruct (Z.leb_spec n 0).
  - assert (n = 0) as -> by lia. exists (S k).
    change (0 / 16) with 0. change (0 mod 16) with 0. rewrite nibs_zero.
    by rewrite app_nil_r, <- replicate_S_end.
  - rewrite Nat2Z.inj_succ, Z.pow_succ_r in Hn by lia.
    destruct (IH (n / 16)) as [z ->].
    { split; [apply Z.div_pos; lia | apply Z.div_lt_upper_bound; lia]. }
    exists z. by rewrite app_assoc.
Qed.

Lemma nib_testbit a k n :
  0 <= k -> 0 <= n -> Z.testbit (nib a k) n = (n <? 4) && Z.testbit a (n + 4 * k).
Proof.
  intros Hk Hn. unfold nib. change 16 with (2 ^ 4) at 2. fold (wrap 4 (a / 16 ^ k)).
  rewrite wrap_testbit by lia. f_equal. change 16 with (2 ^ 4).
  rewrite <- Z.pow_mul_r, <- Z.shiftr_div_pow2, Z.shiftr_spec by lia. done.
Qed.

(** The two nibbles of a byte of [a]. *)
Lemma hex_byte a j :
  0 <= j < 8 ->
  Z.shiftr (u8 (Z.shiftr a (8 * j))) 4 = nib (u64 a) (2 * j + 1) /\
  Z.land (u8 (Z.shiftr a (8 * j))) 0x0f = nib (u64 a) (2 * j).
Proof.
  intros Hj. split; apply Z.bits_inj'; intros n Hn; rewrite nib_testbit by lia.
  - rewrite Z.shiftr_spec, !wrap_testbit, Z.shiftr_spec by lia.
    replace (n + 4 + 8 * j) with (n + 4 * (2 * j + 1)) by lia.
    destruct (Z.ltb_spec n 4); simpl.
    + rewrite !(proj2 (Z.ltb_lt _ _)) by lia. done.
    + rewrite (proj2 (Z.ltb_ge _ _)) by lia. done.
  - change 0x0f with (Z.ones 4).
    rewrite Z.land_spec, Z.testbit_ones, !wrap_testbit, Z.shiftr_spec by lia.
    replace (n + 8 * j) with (n + 4 * (2 * j)) by lia.
    rewrite (proj2 (Z.leb_le 0 n)) by lia.
    destruct (Z.ltb_spec n 4); simpl.
    + rewrite !(proj2 (Z.ltb_lt _ _)) by lia. by rewrite andb_true_r.
    + by rewrite andb_false_r.
Qed.

Lemma hex_step_spec a k v :
  0 <= k < 8 ->
  hex_step a k v = Ret (v ++ [hex_char (nib (u64 a) (15 - 2 * k));
                              hex_char (nib (u64 a) (14 - 2 * k))]).
Proof.
  intros Hk. unfold hex_step. destruct (hex_byte a (8 - k - 1)) as [-> ->]; [lia|].
  do 3 f_equal; [|f_equal]; do 2 f_equal; lia.
Qed.

Lemma hex_loop a : for_loop 8 0 (hex_step a) [] = Ret (hex_char <$> nibs 16 (u64 a)).
Proof. cbn [for_loop]. do 8 (rewrite hex_step_spec by lia; cbn [mbind res_bind]). done. Qed.

Lemma skip_zeros_spec v (z : nat) c : forall k fuel (i : nat),
  (k + i)%nat = z -> (k < fuel)%nat -> v !! z = Some c -> c <> 48 ->
  (forall j, (j < z)%nat -> v !! j = Some 48) ->
  skip_zeros fuel v (Z.of_nat i) = Ret (Z.of_nat z).
Proof.
  induction k as [|k IH]; intros fuel i Hz Hf Hc Hne H0;
    (destruct fuel as [|fuel]; [lia|]); cbn [skip_zeros].
  - assert (Hg : aget v (Z.of_nat i) = Ret c).
    { apply aget_Ret. split; [lia|]. rewrite Nat2Z.id. by replace i with z by lia. }
    rewrite Hg. cbn [mbind res_bind].
    rewrite (proj2 (Z.eqb_neq c 48)) by done. f_equal. lia.
  - assert (Hg : aget v (Z.of_nat i) = Ret 48).
    { apply aget_Ret. split; [lia|]. rewrite Nat2Z.id. apply H0. lia. }
    rewrite Hg. cbn [mbind res_bind]. simpl.
    replace (Z.of_nat i + 1) with (Z.of_nat (S i)) by lia. apply IH; [lia | lia | done..].
Qed.

Lemma copy_digits_spec pre ds buf m :
  mapped m buf (Z.of_nat (length ds)) ->
  copy_digits (pre ++ ds) buf (Z.of_nat (length pre)) (Z.of_nat (length ds)) m
  = Ret (write_bytes buf ds m).
Proof.
  intros Hm. unfold copy_digits. rewrite Nat2Z.id.
  edestruct (for_loop_inv (fun j t => t = write_bytes buf (take (Z.to_nat j) ds) m))
    as (m' & -> & ->).
  - done.
  - intros j t Hj ->.
    destruct (lookup_lt_is_Some_2 ds (Z.to_nat j)) as [c Hc]; [lia|].
    rewrite (proj2 (aget_Ret _ _ c)).
    2:{ split; [lia|]. rewrite lookup_app_r by lia. rewrite <- Hc. f_equal. lia. }
    cbn [mbind res_bind]. rewrite store8_mapped.
    2:{ eapply write_bytes_mapped; [done | lia]. }
    eexists. split; [done|].
    replace (Z.to_nat (j + 1)) with (S (Z.to_nat j)) by lia.
    rewrite (take_S_r _ _ c Hc), write_bytes_app. simpl. do 2 f_equal.
    rewrite length_take. lia.
  - by rewrite Z.add_0_l, Nat2Z.id, take_ge by lia.
Qed.

Lemma wrap64_zero a : - 2 ^ 63 <= a < 2 ^ 63 -> (u64 a =? 0) = (a =? 0).
Proof.
  intros Ha. destruct (Z.eqb_spec a 0) as [->|Hne]; [done|]. apply Z.eqb_neq.
  intros Hz. apply wrap_zero_small in Hz; lia.
Qed.

Lemma print_hex_spec m buf a :
  - 2 ^ 63 <= a < 2 ^ 63 -> mapped m buf (Z.of_nat (length (hexadecimal a))) ->
  print_hex m buf a
  = Ret (Z.of_nat (length (hexadecimal a)), write_bytes buf (hexadecimal a) m).
Proof.
  intros Ha. unfold print_hex, hexadecimal. rewrite wrap64_zero by done.
  destruct (Z.eqb_spec a 0) as [->|Hne]; intros Hm.
  - simpl in Hm. rewrite store8_mapped by (apply Hm; lia). done.
  - rewrite hex_loop. cbn [mbind res_bind].
    pose proof (wrap_range 64 a ltac:(lia)) as Hr.
    assert (H16 : 0 <= u64 a < 16 ^ Z.of_nat 16) by (split; [lia | apply Hr]).
    destruct (nibs_digits 16 (u64 a)) as [z Hz]; [done|].
    pose proof (digits_head 16 16 ltac:(lia) (u64 a) H16) as Hh.
    pose proof (digits_value 16 16 ltac:(lia) (u64 a) H16) as Hv.
    pose proof (digits_range 16 16 ltac:(lia) (u64 a)) as Hd.
    assert (Hlen : length (nibs 16 (u64 a)) = 16%nat) by done.
    rewrite Hz in Hlen |- *. rewrite length_app, length_replicate in Hlen.
    rewrite fmap_app, fmap_replicate. change (hex_char 0) with 48.
    rewrite length_fmap in *. remember (digits 16 16 (u64 a)) as ds eqn:Eds.
    destruct ds as [|d ds].
    { exfalso. apply Hne. apply (wrap_zero_small 64); [lia | lia | by rewrite <- Hv]. }
    inversion_clear Hd as [|? ? Hd0 Hds].
    pose proof (hex_char_range d Hd0) as [_ Hc].
    rewrite (skip_zeros_spec _ z (hex_char d) z 33 0); [..|].
    + cbn [mbind res_bind].
      pose proof (copy_digits_spec (replicate z 48) (hex_char <$> d :: ds) buf m) as Hcp.
      rewrite length_replicate, length_fmap in Hcp.
      replace (16 - Z.of_nat z) with (Z.of_nat (length (d :: ds))) by lia.
      rewrite Hcp by done. done.
    + lia.
    + lia.
    + rewrite lookup_app_r, length_replicate, Nat.sub_diag by (rewrite length_replicate; lia). done.
    + rewrite Hc. intros ->. by apply Hh.
    + intros j Hj. rewrite lookup_app_l by (rewrite length_replicate; lia).
      by apply lookup_replicate.
Qed.

(** ** Decimal output *)

Lemma decimal_loop_spec fuel : forall a v (i : nat),
  0 <= a < 10 ^ Z.of_nat fuel -> length v = 32%nat ->
  (i + length (digits fuel 10 a) <= 32)%nat ->
  exists v', decimal_loop (S fuel) v (Z.of_nat i) a
             = Ret (v', Z.of_nat (i + length (digits fuel 10 a))) /\
    length v' = 32%nat /\
    take (i + length (digits fuel 10 a)) v' = take i v ++ reverse (digits fuel 10 a).
Proof.
  induction fuel as [|fuel IH]; intros a v i Ha Hl Hi.
  - change (10 ^ Z.of_nat 0) with 1 in Ha. assert (a = 0) as -> by lia. simpl.
    exists v. rewrite Nat.add_0_r, app_nil_r. done.
  - cbn [decimal_loop digits] in *. destruct (Z.leb_spec a 0).
    + rewrite (proj2 (Z.ltb_ge _ _)) by lia. exists v. cbn [length].
      rewrite Nat.add_0_r, app_nil_r. done.
    + rewrite (proj2 (Z.ltb_lt _ _)) by lia. rewrite length_app in Hi. simpl in Hi.
      rewrite aset_lt by lia. cbn [mbind res_bind].
      rewrite Z.rem_mod_nonneg, Z.quot_div_nonneg by lia.
      pose proof (Z.mod_pos_bound a 10 ltac:(lia)) as Hm.
      rewrite (wrap_small 8 (a mod 10)) by (change (2 ^ 8) with 256; lia).
      rewrite Nat2Z.id. replace (Z.of_nat i + 1) with (Z.of_nat (S i)) by lia.
      rewrite Nat2Z.inj_succ, Z.pow_succ_r in Ha by lia.
      destruct (IH (a / 10) (<[i := a mod 10]> v) (S i)) as (v' & E & Hl' & Ht).
      * split; [apply Z.div_pos; lia | apply Z.div_lt_upper_bound; lia].
      * by rewrite length_insert.
      * lia.
      * exists v'. cbn [decimal_loop] in E. rewrite E, length_app. cbn [length].
        split_and!; [do 2 f_equal; lia | done |].
        rewrite <- Nat.add_succ_comm, Nat.add_0_r in *.
        replace (i + S (length (digits fuel 10 (a / 10))))%nat
          with (S i + length (digits fuel 10 (a / 10)))%nat by lia.
        rewrite Ht. rewrite (take_S_r _ _ (a mod 10)) by (apply list_lookup_insert_eq; lia).
        rewrite take_insert_ge by lia. by rewrite reverse_app, <- app_assoc.
Qed.

Lemma emit_decimal_spec v : forall n buf count m,
  (n <= length v)%nat -> Forall (fun d => 0 <= d < 10) (take n v) ->
  mapped m buf (Z.of_nat n) ->
  emit_decimal n v buf count m
  = Ret (count + Z.of_nat n, write_bytes buf (hex_char <$> reverse (take n v)) m).
Proof.
  induction n as [|n IH]; intros buf count m Hn Hd Hm; cbn [emit_decimal].
  - by rewrite Z.add_0_r.
  - destruct (lookup_lt_is_Some_2 v n) as [d Hv]; [lia|].
    rewrite (take_S_r _ _ d Hv) in Hd |- *. apply Forall_app in Hd as [Hd Hd1].
    apply Forall_cons in Hd1 as [Hd1 _].
    rewrite (proj2 (aget_Ret _ _ d)) by (rewrite Nat2Z.id; split; [lia | done]).
    cbn [mbind res_bind]. rewrite (wrap_small 8 (d + 48)) by (change (2 ^ 8) with 256; lia).
    rewrite store8_mapped by (apply Hm; lia). cbn [mbind res_bind].
    rewrite IH; [|lia | done |].
    + assert (Hc : hex_char d = d + 48).
      { unfold hex_char. by rewrite (proj2 (Z.leb_le d 9)) by lia. }
      rewrite reverse_snoc, fmap_cons, Hc. cbn [write_bytes]. do 2 f_equal. lia.
    + apply (write_bytes_mapped m buf [_]). eapply mapped_weaken; [done | lia..].
Qed.

(** A positive number, without its sign. *)
Lemma print_positive a buf count m :
  0 < a < 2 ^ 63 -> mapped m buf (Z.of_nat (length (digits 64 10 a))) ->
  ('(v, i) ← decimal_loop 65 (replicate 32 0) 0 a; emit_decimal (Z.to_nat i) v buf count m)
  = Ret (count + Z.of_nat (length (digits 64 10 a)),
         write_bytes buf (hex_char <$> digits 64 10 a) m).
Proof.
  intros Ha Hm.
  assert (Hl : (length (digits 64 10 a) <= 19)%nat).
  { apply digits_length; [lia|]. change (10 ^ Z.of_nat 19) with 10000000000000000000. lia. }
  destruct (decimal_loop_spec 64 a (replicate 32 0) 0) as (v' & E & Hl' & Ht).
  { split; [lia|]. transitivity (2 ^ 63); [lia|]. by vm_compute. }
  { done. }
  { lia. }
  cbn [Nat.add] in Ht. rewrite take_0, app_nil_l in Ht.
  change (Z.of_nat 0) with 0 in E. rewrite E. cbn [mbind res_bind Nat.add].
  rewrite Nat2Z.id. rewrite emit_decimal_spec.
  - by rewrite Ht, reverse_involutive.
  - lia.
  - rewrite Ht. apply Forall_reverse. apply digits_range. lia.
  - done.
Qed.

Lemma sign_test a :
  - 2 ^ 63 <= a < 2 ^ 63 -> negb (test_bit 63 {[0 := u64 a]} =? 0) = (a <? 0).
Proof.
  intros Ha. unfold test_bit, word_at. change (63 / 64) with 0. change (63 mod 64) with 63.
  rewrite lookup_singleton_eq. cbn [from_option id]. rewrite wrap_testbit by lia.
  change (63 <? 64) with true. rewrite andb_true_l.
  destruct (Z.ltb_spec a 0).
  - assert (Z.testbit a 63 = true) as ->; [|done].
    apply Z.bits_above_log2_neg; [lia|]. destruct (decide (a = -1)) as [->|]; [done|].
    apply Z.log2_lt_pow2; lia.
  - assert (Z.testbit a 63 = false) as ->; [|done].
    destruct (decide (a = 0)) as [->|]; [done|].
    apply Z.bits_above_log2; [lia|]. apply Z.log2_lt_pow2; lia.
Qed.

Lemma print_decimal_spec m buf a :
  - 2 ^ 63 < a < 2 ^ 63 -> mapped m buf (Z.of_nat (length (decimal a))) ->
  print_decimal m buf a
  = Ret (Z.of_nat (length (decimal a)), write_bytes buf (decimal a) m).
Proof.
  intros Ha. unfold print_decimal, decimal. rewrite sign_test by lia.
  destruct (Z.eqb_spec a 0) as [->|Hne]; [|destruct (Z.ltb_spec a 0)]; intros Hm.
  - simpl in Hm. rewrite store8_mapped by (apply Hm; lia). done.
  - cbn [length] in Hm. rewrite length_fmap in Hm.
    rewrite store8_mapped by (apply Hm; lia). cbn [mbind res_bind].
    rewrite (sext_small 64) by lia.
    rewrite (print_positive (- a)); [| lia |].
    + cbn [length write_bytes]. rewrite length_fmap. do 2 f_equal. lia.
    + apply (write_bytes_mapped m buf [45]). eapply mapped_weaken; [done | lia..].
  - rewrite length_fmap in Hm. cbn [mbind res_bind].
    rewrite (print_positive a) by (done || lia). rewrite length_fmap. done.
Qed.

(** What the numerals are worth. *)
Lemma parse_digits_value b fuel n :
  1 < b <= 16 -> 0 <= n < b ^ Z.of_nat fuel ->
  parse b (hex_char <$> digits fuel b n) = n.
Proof.
  intros Hb Hn. rewrite parse_digits; [by apply digits_value; [lia|]|].
  eapply Forall_impl; [apply digits_range; lia|]. simpl. intros. lia.
Qed.

Lemma parse_hexadecimal a : parse 16 (hexadecimal a) = u64 a.
Proof.
  unfold hexadecimal. pose proof (wrap_range 64 a ltac:(lia)).
  destruct (Z.eqb_spec (u64 a) 0) as [->|]; [done|].
  apply parse_digits_value; [lia|]. change (16 ^ Z.of_nat 16) with (2 ^ 64). lia.
Qed.

Lemma digits_nonempty_head b n :
  1 < b <= 10 -> 0 < n < b ^ Z.of_nat 64 ->
  exists c cs, hex_char <$> digits 64 b n = c :: cs /\ 48 < c < 58.
Proof.
  intros Hb Hn. pose proof (digits_value b 64 ltac:(lia) n ltac:(lia)) as Hv.
  pose proof (digits_head b 64 ltac:(lia) n ltac:(lia)) as Hh.
  pose proof (digits_range b 64 ltac:(lia) n) as Hd.
  destruct (digits 64 b n) as [|d ds]; [unfold value in Hv; simpl in Hv; lia|].
  exists (hex_char d), (hex_char <$> ds). split; [done|].
  apply Forall_cons in Hd as [Hd _]. assert (d <> 0) by (intros ->; by apply Hh).
  unfold hex_char. rewrite (proj2 (Z.leb_le d 9)) by lia. lia.
Qed.

Lemma parse_decimal_decimal a : - 2 ^ 63 < a < 2 ^ 63 -> parse_decimal (decimal a) = a.
Proof.
  intros Ha. unfold decimal. assert (2 ^ 63 < 10 ^ Z.of_nat 64) by by vm_compute.
  destruct (Z.eqb_spec a 0) as [->|]; [done|]. destruct (Z.ltb_spec a 0).
  - cbn [parse_decimal]. rewrite Z.eqb_refl, parse_digits_value by lia. lia.
  - destruct (digits_nonempty_head 10 a) as (c & cs & E & Hc); [lia..|].
    pose proof (parse_digits_value 10 64 a ltac:(lia) ltac:(lia)) as Hp.
    rewrite E in Hp |- *. unfold parse_decimal.
    by rewrite (proj2 (Z.eqb_neq c 45)) by lia.
Qed.

(** ** The translation of formats *)

(** An argument: a number, or a pointer [p] to the string [s]. *)
Inductive vararg := VNum (n : Z) | VStr (p : Z) (s : list Z).

Definition raw (a : vararg) : Z := match a with VNum n => n | VStr p _ => p end.

(** The characters [o] an argument is printed as. *)
Definition render_arg (conv : Z) (a : vararg) : option (list Z) :=
  match a with
  | VNum n =>
      if conv =? 100 then Some (decimal n)
      else if conv =? 120 then Some (hexadecimal n)
      else if conv =? 99 then Some [u8 n]
      else None
  | VStr _ s => if conv =? 115 then Some s else None
  end.

Definition is_conv (c : Z) : bool := (c =? 100) || (c =? 120) || (c =? 115) || (c =? 99).

(** The reference: the text of a format and its arguments; nothing when an
    argument is missing or of the wrong kind. *)
Fixpoint render (f : list Z) (args : list vararg) : option (list Z) :=
  match f with
  | [] => Some []
  | x :: f' =>
      match f' with
      | y :: f'' =>
          if (x =? 37) && is_conv y then
            match args with
            | a :: args' => o ← render_arg y a; app o <$> render f'' args'
            | [] => None
            end
          else cons x <$> render f' args
      | [] => Some [x]
      end
  end.

(** The string at [p] keeps clear of the output area from [lo] to [hi]. *)
Definition apart (lo hi p : Z) (s : list Z) : Prop :=
  p + Z.of_nat (length s) < lo \/ hi <= p.

Definition arg_ok (lo hi : Z) (m : bmem) (a : vararg) : Prop :=
  match a with
  | VNum n => - 2 ^ 63 < n < 2 ^ 63
  | VStr p s => cstr m p s /\ apart lo hi p s
  end.

Lemma cstr_write lo hi m p s a bs :
  cstr m p s -> apart lo hi p s -> lo <= a -> a + Z.of_nat (length bs) <= hi ->
  cstr (write_bytes a bs m) p s.
Proof.
  intros [Hb Hc] Hd Hlo Hhi. split; [|done]. apply bytes_at_write; [done|].
  rewrite length_app. destruct Hd; simpl; lia.
Qed.

Lemma args_write lo hi m args a bs :
  Forall (arg_ok lo hi m) args -> lo <= a -> a + Z.of_nat (length bs) <= hi ->
  Forall (arg_ok lo hi (write_bytes a bs m)) args.
Proof.
  intros Ha Hlo Hhi. eapply Forall_impl; [done|]. intros [n|p s]; [done|].
  intros [Hs Hd]. split; [by eapply cstr_write | done].
Qed.

Lemma cstr_tail m p x s : cstr m p (x :: s) -> cstr m (p + 1) s.
Proof. intros [[_ Hb] [_ Hc]%Forall_cons]. by split. Qed.

Lemma apart_tail lo hi p x s : apart lo hi p (x :: s) -> apart lo hi (p + 1) s.
Proof. unfold apart. simpl. lia. Qed.

Lemma spec_is_percent m p y f c :
  cstr m p (37 :: y :: f) -> spec_is m p 37 c = Ret (y =? c).
Proof.
  intros [(_ & Hy & _) _]. unfold spec_is. simpl.
  by rewrite (proj2 (load8_Ret _ _ _) Hy).
Qed.

Lemma spec_is_plain m p x f c :
  cstr m p (x :: f) -> 0 < c ->
  (x =? 37) && match f with y :: _ => y =? c | [] => false end = false ->
  spec_is m p x c = Ret false.
Proof.
  intros [(_ & Hy) _] Hc Hx. unfold spec_is. destruct (Z.eqb_spec x 37) as [->|]; [|done].
  destruct f as [|y f]; destruct Hy as [Hy _]; rewrite (proj2 (load8_Ret _ _ _) Hy);
    cbn [mbind res_bind].
  - by rewrite (proj2 (Z.eqb_neq 0 c)) by lia.
  - simpl in Hx. by rewrite Hx.
Qed.

(** One conversion: the argument is taken and its text is written. *)
Lemma vsprintf_conv fuel lo hi m str p y f a args o :
  cstr m p (37 :: y :: f) -> is_conv y = true -> render_arg y a = Some o ->
  arg_ok lo hi m a -> lo <= str -> str + Z.of_nat (length o) <= hi ->
  mapped m str (Z.of_nat (length o)) ->
  vsprintf_loop (S fuel) m str p (raw a :: args)
  = vsprintf_loop fuel (write_bytes str o m) (str + Z.of_nat (length o)) (p + 2) args.
Proof.
  intros Hf Hy Ho Ha Hlo Hhi Hm. cbn [vsprintf_loop].
  rewrite (proj2 (load8_Ret m p 37)) by (destruct Hf as [[H _] _]; done).
  cbn [mbind res_bind Z.eqb Pos.eqb].
  rewrite !(spec_is_percent m p y f) by done. cbn [mbind res_bind va_arg].
  destruct a as [n|q s]; simpl in Ho, Ha.
  - destruct (y =? 100); [|destruct (y =? 120); [|destruct (y =? 99) eqn:E99; [|done]]];
      injection Ho as <-; cbn [raw].
    + rewrite (sext_small 64) by lia. by rewrite print_decimal_spec by (done || lia).
    + rewrite (sext_small 64) by lia. by rewrite print_hex_spec by (done || lia).
    + apply Z.eqb_eq in E99 as ->. simpl in *. by rewrite store8_mapped by (apply Hm; lia).
  - destruct (Z.eqb_spec y 115) as [->|]; [|done]. injection Ho as <-. simpl.
    destruct Ha as [Hs Hd]. rewrite (caos_strcat_spec m str q s); [done..|].
    unfold apart in Hd. lia.
Qed.

Lemma vsprintf_plain fuel m str p x f args :
  cstr m p (x :: f) ->
  (x =? 37) && match f with y :: _ => is_conv y | [] => false end = false ->
  mapped m str 1 ->
  vsprintf_loop (S fuel) m str p args
  = vsprintf_loop fuel (write_bytes str [x] m) (str + 1) (p + 1) args.
Proof.
  intros Hf Hx Hm. cbn [vsprintf_loop].
  rewrite (proj2 (load8_Ret m p x)) by (destruct Hf as [[H _] _]; done). cbn [mbind res_bind].
  rewrite (proj2 (Z.eqb_neq x 0)) by (destruct Hf as [_ [? _]%Forall_cons]; lia).
  assert (Hn : forall c, is_conv c = true ->
    (x =? 37) && match f with y :: _ => y =? c | [] => false end = false).
  { intros c Hc. destruct (x =? 37); [|done]. destruct f as [|y f]; [done|].
    simpl in *. destruct (Z.eqb_spec y c) as [->|]; [congruence | done]. }
  rewrite !(spec_is_plain m p x f) by (done || lia || by apply Hn). cbn [mbind res_bind].
  rewrite store8_mapped by (apply Hm; lia). done.
Qed.

Lemma vsprintf_loop_spec lo hi fuel : forall f args out m str p,
  render f args = Some out -> (length f < fuel)%nat ->
  cstr m p f -> apart lo hi p f -> Forall (arg_ok lo hi m) args ->
  lo <= str -> str + Z.of_nat (length out) + 1 <= hi ->
  mapped m str (Z.of_nat (length out) + 1) ->
  vsprintf_loop fuel m str p (raw <$> args) = Ret (write_bytes str (out ++ [0]) m).
Proof.
  induction fuel as [|fuel IH]; intros f args out m str p Hr Hl Hf Hd Ha Hlo Hhi Hm; [lia|].
  assert (Hnext : forall o out' f' args' p' k,
    out = o ++ out' -> render f' args' = Some out' -> (length f' < fuel)%nat ->
    cstr m p' f' -> apart lo hi p' f' -> Forall (arg_ok lo hi m) args' ->
    k = Z.of_nat (length o) ->
    vsprintf_loop fuel (write_bytes str o m) (str + k) p' (raw <$> args')
    = Ret (write_bytes str (out ++ [0]) m)).
  { intros o out' f' args' p' k -> Hr' Hl' Hf' Hd' Ha' ->. rewrite length_app in *.
    rewrite (IH f' args' out'); [| | | | | | | lia |]; try done; try lia.
    - by rewrite <- app_assoc, (write_bytes_app str o).
    - eapply cstr_write; [done | done | lia | lia].
    - apply args_write; [done | lia | lia].
    - apply write_bytes_mapped. eapply mapped_weaken; [done | lia..]. }
  destruct f as [|x f].
  - injection Hr as <-. cbn [vsprintf_loop]. destruct Hf as [[Hx _] _].
    rewrite (proj2 (load8_Ret m p 0)) by done. cbn [mbind res_bind Z.eqb].
    simpl in Hm. rewrite store8_mapped by (apply Hm; lia). done.
  - cbn [length] in Hl. pose proof (cstr_tail _ _ _ _ Hf) as Hf1.
    pose proof (apart_tail _ _ _ _ _ Hd) as Hd1.
    destruct ((x =? 37) && match f with y :: _ => is_conv y | [] => false end) eqn:E.
    + destruct f as [|y f]; [by rewrite andb_false_r in E|].
      apply andb_true_iff in E as [->%Z.eqb_eq Ey]. cbn [render] in Hr.
      rewrite Z.eqb_refl, Ey in Hr. simpl in Hr.
      destruct args as [|a args]; [done|]. apply bind_Some in Hr as (o & Ho & Hr).
      apply fmap_Some in Hr as (out' & Hr & ->).
      rewrite length_app in *. apply Forall_cons in Ha as [Ha Has].
      rewrite fmap_cons, (vsprintf_conv fuel lo hi m str p y f a _ o); [|done..| |]; [|lia |].
      * replace (p + 2) with (p + 1 + 1) by lia. cbn [length] in Hl.
        eapply Hnext; eauto using cstr_tail, apart_tail. lia.
      * eapply mapped_weaken; [done | lia..].
    + assert (Hr' : exists out', out = [x] ++ out' /\ render f args = Some out').
      { destruct f as [|y f]; [injection Hr as <-; by exists []|]. cbn [render] in Hr.
        rewrite E in Hr. apply fmap_Some in Hr as (out' & Hr & ->). by exists out'. }
      destruct Hr' as (out' & -> & Hr'). rewrite length_app in *. cbn [length] in *.
      rewrite (vsprintf_plain fuel m str p x f); [|done..|eapply mapped_weaken; [done|lia..]].
      by eapply Hnext; eauto; lia.
Qed.

Lemma caos_vsprintf_spec m str p f args out :
  render f args = Some out -> cstr m p f ->
  apart str (str + Z.of_nat (length out) + 1) p f ->
  Forall (arg_ok str (str + Z.of_nat (length out) + 1) m) args ->
  mapped m str (Z.of_nat (length out) + 1) ->
  caos_vsprintf m str p (raw <$> args) = Ret (write_bytes str (out ++ [0]) m).
Proof.
  intros Hr Hf Hd Ha Hm.
  eapply vsprintf_loop_spec; eauto using cstr_fuel; lia.
Qed.

(** ** From the string to the screen *)

Definition outputs (cs : list Z) : list output :=
  (fun c => if c =? 10 then OutLine else if c =? 8 then OutDel else OutChar c) <$> cs.

(** The characters before the first NUL. *)
Fixpoint until_nul (cs : list Z) : list Z :=
  match cs with
  | [] => []
  | c :: cs' => if c =? 0 then [] else c :: until_nul cs'
  end.

Lemma until_nul_prefix cs : exists ds, cs ++ [0] = until_nul cs ++ 0 :: ds.
Proof.
  induction cs as [|c cs [ds E]]; [by exists []|]. simpl.
  destruct (Z.eqb_spec c 0) as [->|]; [by eexists|]. exists ds. by rewrite E.
Qed.

Lemma until_nul_nonzero cs : Forall (fun c => c <> 0) (until_nul cs).
Proof.
  induction cs as [|c cs IH]; simpl; [done|].
  destruct (Z.eqb_spec c 0); [done|]. by constructor.
Qed.

Lemma printf_loop_spec cs : forall fuel m sz i s,
  bytes_at m (sz + i) (cs ++ [0]) -> Forall (fun c => c <> 0) cs -> (length cs < fuel)%nat ->
  printf_loop fuel m sz i s
  = (s' ← out_screen_all (outputs cs) s; Ret (i + Z.of_nat (length cs), s')).
Proof.
  induction cs as [|c cs IH]; intros fuel m sz i s [Hc Hb] Hne Hl;
    (destruct fuel as [|fuel]; [simpl in Hl; lia|]);
    cbn [printf_loop]; rewrite (proj2 (load8_Ret _ _ _) Hc); cbn [mbind res_bind].
  - simpl. by rewrite Z.add_0_r.
  - apply Forall_cons in Hne as [Hne Hnes]. cbn [length] in *.
    rewrite (proj2 (Z.eqb_neq c 0)) by done.
    assert (Hk : forall s', printf_loop fuel m sz (i + 1) s'
      = (s'' ← out_screen_all (outputs cs) s'; Ret (i + Z.of_nat (S (length cs)), s''))).
    { intros s'. rewrite IH; [|by rewrite Z.add_assoc | done | lia].
      destruct (out_screen_all (outputs cs) s'); simpl; [|done..]. do 2 f_equal. lia. }
    unfold outputs. rewrite fmap_cons. cbn [out_screen_all].
    destruct (c =? 10); [|destruct (c =? 8)]; cbn [out_screen];
      (match goal with |- context [?x ≫= _] => destruct x end;
       cbn [mbind res_bind]; [apply Hk | done..]).
Qed.

(** The second loop on a buffer that holds a text. *)
Lemma printf_loop_written m sz out s :
  printf_loop (mem_fuel (write_bytes sz (out ++ [0]) m)) (write_bytes sz (out ++ [0]) m) sz 0 s
  = (s' ← out_screen_all (outputs (until_nul out)) s; Ret (Z.of_nat (length (until_nul out)), s')).
Proof.
  destruct (until_nul_prefix out) as [ds Hds].
  assert (Hb : bytes_at (write_bytes sz (out ++ [0]) m) sz (until_nul out ++ [0])).
  { rewrite Hds, (app_assoc _ [0] ds : until_nul out ++ 0 :: ds = _).
    pose proof (bytes_at_written m sz ((until_nul out ++ [0]) ++ ds)) as Hw.
    by apply bytes_at_app in Hw as [Hw _]. }
  rewrite (printf_loop_spec (until_nul out)); [done | by rewrite Z.add_0_r | apply until_nul_nonzero |].
  apply bytes_at_mapped, mapped_fuel in Hb; [|lia]. rewrite length_app in Hb. simpl in Hb. lia.
Qed.

Lemma caos_printf_spec (lo sz p : Z) (m : bmem) (s : screen_info) (t : Z * paper)
    (f : list Z) (args : list vararg) (out : list Z) :
  render f args = Some out -> cstr m p f ->
  apart sz (sz + Z.of_nat (length out) + 1) p f ->
  Forall (arg_ok sz (sz + Z.of_nat (length out) + 1) m) args ->
  mapped m sz (Z.of_nat (length out) + 1) ->
  shows lo t s -> term_ok (outputs (until_nul out)) t = true ->
  exists s', caos_printf sz m s p (raw <$> args)
      = Ret (Z.of_nat (length (until_nul out)), write_bytes sz (out ++ [0]) m, s') /\
    shows lo (term_run (outputs (until_nul out)) t) s'.
Proof.
  intros Hr Hf Hd Ha Hm Hs Hok. unfold caos_printf.
  rewrite (caos_vsprintf_spec m sz p f args out) by done. cbn [mbind res_bind].
  destruct (out_screen_all_shows _ _ _ _ Hs Hok) as (s' & E & Hs').
  exists s'. split; [|done]. by rewrite printf_loop_written, E.
Qed.

(** The buffer is one for all processors: when a second one fills it before
    the first has printed its text, the first prints the text of the second. *)
Lemma printers_share_buffer (sz p1 p2 : Z) (m : bmem) f1 f2 args1 args2 out1 out2 :
  render f1 args1 = Some out1 -> render f2 args2 = Some out2 ->
  (length out1 < 128)%nat -> (length out2 < 128)%nat -> mapped m sz 128 ->
  cstr m p1 f1 -> cstr m p2 f2 -> apart sz (sz + 128) p1 f1 -> apart sz (sz + 128) p2 f2 ->
  Forall (arg_ok sz (sz + Z.of_nat (length out1) + 1) m) args1 ->
  (forall m', Forall (arg_ok sz (sz + Z.of_nat (length out2) + 1) m') args2) ->
  exists m1 m2, caos_vsprintf m sz p1 (raw <$> args1) = Ret m1 /\
    caos_vsprintf m1 sz p2 (raw <$> args2) = Ret m2 /\
    forall s, printf_loop (mem_fuel m2) m2 sz 0 s
      = (s' ← out_screen_all (outputs (until_nul out2)) s; Ret (Z.of_nat (length (until_nul out2)), s')).
Proof.
  intros R1 R2 L1 L2 Hm C1 C2 A1 A2 G1 G2.
  exists (write_bytes sz (out1 ++ [0]) m), (write_bytes sz (out2 ++ [0]) (write_bytes sz (out1 ++ [0]) m)).
  split; [|split; [|apply printf_loop_written]].
  - apply (caos_vsprintf_spec m sz p1 f1); [done | done | | done | eapply mapped_weaken; [done | lia..]].
    unfold apart in *. lia.
  - apply (caos_vsprintf_spec _ sz p2 f2); [done | | | apply G2 |].
    + assert (Hl : (length (out1 ++ [0%Z]) <= 128)%nat) by (rewrite length_app; simpl; lia).
      eapply cstr_write; [done | done | lia | lia].
    + unfold apart in *. lia.
    + apply write_bytes_mapped. eapply mapped_weaken; [done | lia..].
Qed.

(** ** Properties *)

(** C30: the numerals the kernel prints can be read back: in decimal as the
    number (the most negative one apart), in hexadecimal as the unsigned
    number, with at most 20 and 16 characters, written from the start of the
    buffer and nowhere else. *)
Theorem numerals_roundtrip (m : bmem) (buf a : Z) :
  - 2 ^ 63 < a < 2 ^ 63 -> mapped m buf 20 ->
  exists ds hs,
    print_decimal m buf a = Ret (Z.of_nat (length ds), write_bytes buf ds m) /\
    parse_decimal ds = a /\ (1 <= length ds <= 20)%nat /\
    print_hex m buf a = Ret (Z.of_nat (length hs), write_bytes buf hs m) /\
    parse 16 hs = u64 a /\ (1 <= length hs <= 16)%nat.
Proof.
  intros Ha Hm.
  assert (Hdec : (length (decimal a) <= 20)%nat).
  { assert (Hd : forall n, n < 2 ^ 63 -> (length (digits 64 10 n) <= 19)%nat).
    { intros n Hn. apply digits_length; [lia|].
      change (10 ^ Z.of_nat 19) with 10000000000000000000. lia. }
    unfold decimal. destruct (_ =? _); [simpl; lia|]. destruct (_ <? _); cbn [length];
      rewrite length_fmap; [specialize (Hd (- a)) | specialize (Hd a)]; lia. }
  assert (Hhex : (length (hexadecimal a) <= 16)%nat).
  { unfold hexadecimal. destruct (_ =? _); [simpl; lia|]. rewrite length_fmap.
    apply digits_length; [lia|]. apply (wrap_range 64 a). lia. }
  assert (H1 : forall cs : list Z, cs <> [] -> (1 <= length cs)%nat).
  { intros [|? ?]; simpl; [done | lia]. }
  assert (Hdn : decimal a <> []).
  { intros E. pose proof (parse_decimal_decimal a Ha) as Hp. rewrite E in Hp.
    simpl in Hp. subst a. done. }
  assert (Hhn : hexadecimal a <> []).
  { intros E. pose proof (parse_hexadecimal a) as Hp. rewrite E in Hp.
    change (parse 16 []) with 0 in Hp. unfold hexadecimal in E. by rewrite <- Hp in E. }
  exists (decimal a), (hexadecimal a).
  rewrite print_decimal_spec by (lia || (eapply mapped_weaken; [done | lia..])).
  rewrite print_hex_spec by (lia || (eapply mapped_weaken; [done | lia..])).
  split_and!; auto using parse_decimal_decimal, parse_hexadecimal.
Qed.

(** Memory with a buffer of [n] bytes at 4096, the string [f] at 100 and the
    string [t] at 1000. *)
Definition scratch (n : nat) (f t : list Z) : bmem :=
  write_bytes 4096 (replicate n 170)
    (write_bytes 100 (f ++ [0]) (write_bytes 1000 (t ++ [0]) ∅)).

Lemma scratch_mapped n f t : mapped (scratch n f t) 4096 (Z.of_nat n).
Proof.
  intros x Hx. unfold scratch. rewrite write_bytes_lookup.
  rewrite length_replicate, decide_True by lia.
  apply lookup_lt_is_Some_2. rewrite length_replicate. lia.
Qed.

Lemma numerals_roundtrip_witness :
  exists ds hs,
    print_decimal (scratch 20 [] []) 4096 (- 9007199254740993)
    = Ret (Z.of_nat (length ds), write_bytes 4096 ds (scratch 20 [] [])) /\
    parse_decimal ds = - 9007199254740993 /\ (1 <= length ds <= 20)%nat /\
    print_hex (scratch 20 [] []) 4096 (- 9007199254740993)
    = Ret (Z.of_nat (length hs), write_bytes 4096 hs (scratch 20 [] [])) /\
    parse 16 hs = u64 (- 9007199254740993) /\ (1 <= length hs <= 16)%nat.
Proof. apply numerals_roundtrip; [lia | exact (scratch_mapped 20 [] [])]. Defined.

(** The most negative number is printed as a bare minus sign: its
    negation is itself, so the digit loop does not run. *)
Theorem print_decimal_min (m : bmem) (buf : Z) :
  mapped m buf 1 -> print_decimal m buf (- 2 ^ 63) = Ret (1, write_bytes buf [45] m).
Proof.
  intros Hm. unfold print_decimal. rewrite sign_test by lia.
  change (- 2 ^ 63 =? 0) with false. change (- 2 ^ 63 <? 0) with true.
  cbv iota. rewrite (store8_mapped m buf 45) by (apply Hm; lia). reflexivity.
Qed.

Lemma print_decimal_min_witness :
  print_decimal (scratch 1 [] []) 4096 (- 2 ^ 63) = Ret (1, write_bytes 4096 [45] (scratch 1 [] [])).
Proof. apply print_decimal_min. exact (scratch_mapped 1 [] []). Defined.

(** C29: [caos_sprintf] refines the reference renderer: it returns, the text
    of the format and its arguments and a NUL are written from the start of
    the buffer and nowhere else, and the value returned is 0. *)
Theorem sprintf_renders (m : bmem) (outbuf p : Z) (f : list Z) (args : list vararg)
    (out : list Z) :
  render f args = Some out -> cstr m p f ->
  apart outbuf (outbuf + Z.of_nat (length out) + 1) p f ->
  Forall (arg_ok outbuf (outbuf + Z.of_nat (length out) + 1) m) args ->
  mapped m outbuf (Z.of_nat (length out) + 1) ->
  caos_sprintf m outbuf p (raw <$> args) = Ret (0, write_bytes outbuf (out ++ [0]) m).
Proof.
  intros Hr Hf Hd Ha Hm. unfold caos_sprintf. by rewrite (caos_vsprintf_spec m outbuf p f args out).
Qed.

(** The format "%d=%x%%%s%c" and the string "ok". *)
Definition fmt_text : list Z := [37; 100; 61; 37; 120; 37; 37; 115; 37; 99].
Definition fmt_mem : bmem := scratch 20 fmt_text [111; 107].
Definition fmt_args : list vararg := [VNum (- 12); VNum 255; VStr 1000 [111; 107]; VNum 33].

Lemma fmt_cstr : cstr fmt_mem 100 fmt_text /\ cstr fmt_mem 1000 [111; 107].
Proof. repeat split; repeat constructor. Qed.

Lemma fmt_args_ok : Forall (arg_ok 4096 (4096 + 11) fmt_mem) fmt_args.
Proof.
  repeat apply Forall_cons_2; [simpl; lia..| | simpl; lia | apply Forall_nil_2].
  split; [apply fmt_cstr | unfold apart; simpl; lia].
Qed.

Lemma sprintf_renders_witness :
  caos_sprintf fmt_mem 4096 100 (raw <$> fmt_args)
  = Ret (0, write_bytes 4096 ([45; 49; 50; 61; 70; 70; 37; 111; 107; 33] ++ [0]) fmt_mem).
Proof.
  apply (sprintf_renders fmt_mem 4096 100 fmt_text fmt_args).
  - vm_compute. reflexivity.
  - apply fmt_cstr.
  - unfold apart. simpl. lia.
  - exact fmt_args_ok.
  - eapply mapped_weaken; [exact (scratch_mapped 20 fmt_text [111; 107]) | simpl; lia..].
Defined.

(** C10: [caos_printf], end to end. If the screen shows a state of the terminal
    and the text of the format and its arguments deletes nothing above the
    window, then the call returns the number of characters before the first
    NUL, writes the text at the start of [sz], and the screen shows the
    terminal after the text's new lines, back spaces and characters. *)
Theorem printf_shows_text (lo sz p : Z) (m : bmem) (s : screen_info) (t : Z * paper)
    (f : list Z) (args : list vararg) (out : list Z) :
  render f args = Some out -> cstr m p f ->
  apart sz (sz + Z.of_nat (length out) + 1) p f ->
  Forall (arg_ok sz (sz + Z.of_nat (length out) + 1) m) args ->
  mapped m sz (Z.of_nat (length out) + 1) ->
  shows lo t s -> term_ok (outputs (until_nul out)) t = true ->
  exists s', caos_printf sz m s p (raw <$> args)
      = Ret (Z.of_nat (length (until_nul out)), write_bytes sz (out ++ [0]) m, s') /\
    shows lo (term_run (outputs (until_nul out)) t) s'.
Proof. apply caos_printf_spec. Qed.

Lemma printf_shows_text_witness :
  exists s', caos_printf 4096 fmt_mem blank_screen 100 (raw <$> fmt_args)
      = Ret (10, write_bytes 4096 ([45; 49; 50; 61; 70; 70; 37; 111; 107; 33] ++ [0]) fmt_mem,
             s') /\
    shows 0 (term_run (outputs [45; 49; 50; 61; 70; 70; 37; 111; 107; 33]) (0, blank_paper)) s'.
Proof.
  apply (printf_shows_text 0 4096 100 fmt_mem blank_screen (0, blank_paper) fmt_text fmt_args
           [45; 49; 50; 61; 70; 70; 37; 111; 107; 33]).
  - vm_compute. reflexivity.
  - apply fmt_cstr.
  - unfold apart. simpl. lia.
  - exact fmt_args_ok.
  - eapply mapped_weaken; [exact (scratch_mapped 20 fmt_text [111; 107]) | simpl; lia..].
  - exact blank_screen_shows.
  - vm_compute. reflexivity.
Defined.

(** Nothing keeps the text inside [sz]. A text of 128 characters or more
    overwrites the byte behind the 128 bytes of the buffer, whatever it holds. *)
Theorem printf_overflows_sz (sz p : Z) (m : bmem) (f : list Z) (args : list vararg)
    (out : list Z) :
  render f args = Some out -> cstr m p f ->
  apart sz (sz + Z.of_nat (length out) + 1) p f ->
  Forall (arg_ok sz (sz + Z.of_nat (length out) + 1) m) args ->
  mapped m sz (Z.of_nat (length out) + 1) -> (128 <= length out)%nat ->
  exists m', caos_vsprintf m sz p (raw <$> args) = Ret m' /\
    m' !! (sz + 128) = (out ++ [0]) !! 128%nat.
Proof.
  intros Hr Hf Hd Ha Hm Hl. rewrite (caos_vsprintf_spec m sz p f args out) by done.
  eexists. split; [done|]. rewrite write_bytes_lookup, length_app.
  rewrite decide_True by (simpl; lia). f_equal. lia.
Qed.

Definition long_text : list Z := replicate 128 65.

Lemma printf_overflows_sz_witness :
  exists m', caos_vsprintf (scratch 129 [37; 115] long_text) 4096 100 (raw <$> [VStr 1000 long_text])
             = Ret m' /\ m' !! (4096 + 128) = Some 0.
Proof.
  apply (printf_overflows_sz 4096 100 (scratch 129 [37; 115] long_text) [37; 115]
           [VStr 1000 long_text] long_text).
  - reflexivity.
  - split; [vm_compute; tauto | repeat constructor].
  - unfold apart. simpl. lia.
  - apply Forall_singleton. split; [split|].
    + vm_compute. tauto.
    + apply Forall_replicate. lia.
    + unfold apart. simpl. lia.
  - exact (scratch_mapped 129 [37; 115] long_text).
  - by vm_compute.
Defined.
