(* ===== verification/Console.v ===== *)
(** * The console: what printing promises to its callers

    Code that prints does so through [Console], a class of output operations
    on a state that shows an abstract terminal, with the law that each of them
    returns and moves the terminal. [printf_console] is the kernel's own
    console: [caos_printf] and [caos_delchar] on memory and the text screen,
    of which something else may draw the first [lo] cells. *)

From S2P Require Import Prelude CString Screen Printf.

Class Console (C : Type) := {
  con_newline : C -> res C;          (* caos_printf with a new line only *)
  con_putc : Z -> C -> res C;        (* caos_printf of one %c *)
  con_delchar : Z -> C -> res C;     (* caos_delchar *)
  con_shows : Z * paper -> C -> Prop;
  con_newline_ok t c : con_shows t c ->
    exists c', con_newline c = Ret c' /\ con_shows (term_run [OutLine] t) c';
  con_putc_ok t c x : con_shows t c -> 0 <= x < 256 ->
    term_ok (outputs (until_nul [x])) t = true ->
    exists c', con_putc x c = Ret c' /\ con_shows (term_run (outputs (until_nul [x])) t) c';
  con_delchar_ok t c : con_shows t c -> term_ok [OutDel] t = true ->
    exists c', con_delchar 1 c = Ret c' /\ con_shows (term_run [OutDel] t) c'
}.

Record console := { con_mem : bmem; con_screen : screen_info }.

Section PrintfConsole.

(** The addresses of the buffer [sz] and of the two format strings. *)
Context (sz fnl fpc : Z).

Definition k_printf (f : Z) (ap : list Z) (c : console) : res console :=
  '(_, m, s) ← caos_printf sz (con_mem c) (con_screen c) f ap;
  Ret {| con_mem := m; con_screen := s |}.

Definition k_delchar (n : Z) (c : console) : res console :=
  s ← caos_delchar n (con_screen c);
  Ret {| con_mem := con_mem c; con_screen := s |}.

(** The screen shows the terminal from the cell [lo] on, the formats are in
    memory, and the buffer is apart from them. *)
Record k_shows (lo : Z) (t : Z * paper) (c : console) : Prop := {
  ks_screen : shows lo t (con_screen c);
  ks_nl : cstr (con_mem c) fnl [10];
  ks_pc : cstr (con_mem c) fpc [37; 99];
  ks_sz : mapped (con_mem c) sz 128;
  ks_nl_apart : apart sz (sz + 128) fnl [10];
  ks_pc_apart : apart sz (sz + 128) fpc [37; 99]
}.

Lemma apart_weaken lo hi hi' p s : hi' <= hi -> apart lo hi p s -> apart lo hi' p s.
Proof. unfold apart. lia. Qed.

Lemma k_shows_weaken lo lo' t c : lo <= lo' -> k_shows lo t c -> k_shows lo' t c.
Proof. intros Hlo [? ? ? ? ? ?]. split; try done. by eapply shows_weaken. Qed.

(** Printing a short text through one of the formats: the terminal prints it,
    and the buffer holds it. *)
Lemma k_printf_writes lo f fs args out t c :
  k_shows lo t c -> cstr (con_mem c) f fs -> apart sz (sz + 128) f fs ->
  render fs args = Some out -> (length out < 128)%nat ->
  Forall (arg_ok sz (sz + Z.of_nat (length out) + 1) (con_mem c)) args ->
  term_ok (outputs (until_nul out)) t = true ->
  exists c', k_printf f (raw <$> args) c = Ret c' /\
    k_shows lo (term_run (outputs (until_nul out)) t) c' /\
    con_mem c' = write_bytes sz (out ++ [0]) (con_mem c).
Proof.
  intros [Hs Hnl Hpc Hsz Hnla Hpca] Hf Hfa Hr Hl Ha Hok. unfold k_printf.
  destruct (caos_printf_spec lo sz f (con_mem c) (con_screen c) t fs args out)
    as (s' & -> & Hs'); [done | done | | done | | done | done |].
  - eapply apart_weaken; [|done]. lia.
  - eapply mapped_weaken; [done | lia..].
  - cbn [mbind res_bind]. eexists. split; [done|]. split; [|done].
    assert (Hlen : (length (out ++ [0%Z]) <= 128)%nat) by (rewrite length_app; simpl; lia).
    split; cbn [con_mem con_screen]; try done; try (eapply cstr_write; [done | done | lia | lia]).
    by apply write_bytes_mapped.
Qed.

(** Strings clear of the buffer stay. *)
Lemma k_printf_shows lo f fs args out t c :
  k_shows lo t c -> cstr (con_mem c) f fs -> apart sz (sz + 128) f fs ->
  render fs args = Some out -> (length out < 128)%nat ->
  Forall (arg_ok sz (sz + Z.of_nat (length out) + 1) (con_mem c)) args ->
  term_ok (outputs (until_nul out)) t = true ->
  exists c', k_printf f (raw <$> args) c = Ret c' /\
    k_shows lo (term_run (outputs (until_nul out)) t) c' /\
    forall p s, cstr (con_mem c) p s -> apart sz (sz + 128) p s -> cstr (con_mem c') p s.
Proof.
  intros Hc Hf Hfa Hr Hl Ha Hok.
  destruct (k_printf_writes lo f fs args out t c) as (c' & E & Hc' & Hm); [done..|].
  exists c'. split; [done|]. split; [done|]. rewrite Hm. intros p s Hp Hpa.
  assert (Hlen : (length (out ++ [0%Z]) <= 128)%nat) by (rewrite length_app; simpl; lia).
  eapply cstr_write; [done | done | lia | lia].
Qed.

#[global, refine] Instance printf_console (lo : Z) : Console console := {
  con_newline := k_printf fnl [];
  con_putc x := k_printf fpc [x];
  con_delchar := k_delchar;
  con_shows := k_shows lo
}.
Proof.
  - intros t c Hc.
    destruct (k_printf_shows lo fnl [10] [] [10] t c) as (c' & E & Hc' & _);
      try apply Hc; try done; [simpl; lia | by exists c'].
  - intros t c x Hc Hx Hok.
    destruct (k_printf_shows lo fpc [37; 99] [VNum x] [x] t c) as (c' & E & Hc' & _);
      try apply Hc; try done; [| | |by exists c'].
    + cbn. by rewrite (wrap_small 8 x) by (change (2 ^ 8) with 256; lia).
    + simpl. lia.
    + apply Forall_singleton. simpl. lia.
  - intros t c [Hs Hnl Hpc Hsz Hnla Hpca] Hok.
    destruct (out_screen_all_shows lo [OutDel] t (con_screen c) Hs Hok) as (s' & E & Hs').
    cbn [out_screen_all out_screen] in E. apply bind_ret_inv in E as (s'' & E & [= <-]).
    unfold k_delchar. rewrite E. eexists. by split.
Defined.

End PrintfConsole.
