(* ===== verification/Keyboard.v ===== *)
(** * The keyboard (keyboard.c)

    [keyboard_isr] takes a scan code from port 0x60, keeps the state of the
    modifier keys in [key.status], translates the other keys with the table
    of the state and prints them on the console, which it knows only through
    the interface Console. *)

From Stdlib Require Import String.
From S2P Require Import Prelude CString Screen Printf Console.

(** ** The tables *)

Definition table_normal : list Z :=
  [0; 27; 49; 50; 51; 52; 53; 54; 55; 56; 57; 48; 45; 61; 8; 9;
   113; 119; 101; 114; 116; 121; 117; 105; 111; 112; 91; 93; 13; 0; 97; 115;
   100; 102; 103; 104; 106; 107; 108; 59; 39; 96; 0; 92; 122; 120; 99; 118;
   98; 110; 109; 44; 46; 47; 0; 42; 0; 32; 0; 3; 3; 3; 3; 8;
   3; 3; 3; 3; 3; 0; 0; 0; 0; 0; 45; 0; 0; 0; 43; 0;
   0; 0; 0; 127; 0; 0; 92; 3; 3; 0; 0; 0; 0; 0; 0; 0;
   13; 0; 47; 0; 0; 0; 0; 0; 0; 0; 0; 0; 0; 0; 0; 127;
   0; 0; 0; 0; 0; 0; 0; 0; 0; 0; 47; 0; 0; 0; 0; 0].

Definition table_capslock : list Z :=
  [0; 27; 49; 50; 51; 52; 53; 54; 55; 56; 57; 48; 45; 61; 8; 9;
   81; 87; 69; 82; 84; 89; 85; 73; 79; 80; 91; 93; 13; 0; 65; 83;
   68; 70; 71; 72; 74; 75; 76; 59; 39; 96; 0; 92; 90; 88; 67; 86;
   66; 78; 77; 44; 46; 47; 0; 42; 0; 32; 0; 3; 3; 3; 3; 8;
   3; 3; 3; 3; 3; 0; 0; 0; 0; 0; 45; 0; 0; 0; 43; 0;
   0; 0; 0; 127; 0; 0; 92; 3; 3; 0; 0; 0; 0; 0; 0; 0;
   13; 0; 47; 0; 0; 0; 0; 0; 0; 0; 0; 0; 0; 0; 0; 127;
   0; 0; 0; 0; 0; 0; 0; 0; 0; 0; 47; 0; 0; 0; 0; 0].

Definition table_shift : list Z :=
  [0; 27; 33; 64; 35; 36; 37; 94; 38; 42; 40; 41; 95; 43; 126; 126;
   81; 87; 69; 82; 84; 89; 85; 73; 79; 80; 123; 125; 126; 0; 65; 83;
   68; 70; 71; 72; 74; 75; 76; 58; 39; 126; 0; 124; 90; 88; 67; 86;
   66; 78; 77; 60; 62; 63; 0; 42; 0; 1; 0; 1; 1; 1; 1; 1;
   1; 1; 1; 1; 1; 0; 0; 0; 0; 0; 45; 0; 0; 0; 43; 0;
   0; 0; 1; 127; 0; 0; 0; 1; 1; 0; 0; 0; 0; 0; 0; 0;
   13; 0; 47; 0; 0; 0; 0; 0; 0; 0; 0; 0; 0; 0; 0; 127;
   0; 0; 0; 0; 0; 0; 0; 0; 0; 0; 47; 0; 0; 0; 0; 0].

Definition table_caps_n_shift : list Z :=
  [0; 27; 33; 64; 35; 36; 37; 94; 38; 42; 40; 41; 95; 43; 126; 126;
   113; 119; 101; 114; 116; 121; 117; 105; 111; 112; 123; 125; 126; 0; 97; 115;
   100; 102; 103; 104; 106; 107; 108; 58; 39; 126; 0; 124; 122; 120; 99; 118;
   98; 110; 109; 60; 62; 63; 0; 42; 0; 1; 0; 1; 1; 1; 1; 1;
   1; 1; 1; 1; 1; 0; 0; 0; 0; 0; 45; 0; 0; 0; 43; 0;
   0; 0; 1; 127; 0; 0; 0; 1; 1; 0; 0; 0; 0; 0; 0; 0;
   13; 0; 47; 0; 0; 0; 0; 0; 0; 0; 0; 0; 0; 0; 0; 127;
   0; 0; 0; 0; 0; 0; 0; 0; 0; 0; 47; 0; 0; 0; 0; 0].

Definition table_ctrl : list Z :=
  [0; 0; 2; 2; 2; 2; 2; 2; 2; 2; 2; 2; 0; 0; 127; 127;
   17; 23; 5; 18; 20; 25; 21; 9; 15; 16; 2; 2; 10; 0; 1; 19;
   4; 6; 7; 8; 10; 11; 12; 0; 0; 0; 0; 0; 26; 24; 3; 22;
   2; 14; 13; 0; 0; 0; 0; 0; 0; 0; 0; 2; 2; 2; 2; 2;
   2; 2; 2; 2; 2; 0; 0; 0; 0; 0; 0; 0; 0; 0; 0; 0;
   0; 0; 2; 0; 0; 0; 0; 2; 2; 0; 0; 0; 0; 0; 0; 0;
   0; 0; 2; 0; 0; 0; 0; 0; 0; 0; 0; 0; 0; 0; 0; 0;
   0; 0; 2; 0; 0; 0; 0; 0; 0; 0; 0; 0; 0; 0; 0; 0].

Definition scan_to_ascii : list (list Z) :=
  [table_normal; table_capslock; table_shift; table_caps_n_shift; table_ctrl].

Definition MK_SHIFT : Z := 1.
Definition MK_CTRL : Z := 2.
Definition MK_ALT : Z := 4.
Definition MK_CAPSLOCK : Z := 8.
Definition MK_SCROLLLOCK : Z := 16.
Definition MK_NUMLOCK : Z := 32.

Definition SCAN_NUMLOCK : Z := 0x45.
Definition SCAN_CAPSLOCK : Z := 0x1d.
Definition SCAN_SCROLLLOCK : Z := 0x46.
Definition SCAN_LEFTSHIFT : Z := 0x2a.
Definition SCAN_LEFTALT : Z := 0x38.
Definition SCAN_LEFTCTRL : Z := 0x3a.
Definition SCAN_ENTER : Z := 0x1c.
Definition SCAN_BACKSPACE : Z := 0x0e.

(** ** State and handler *)

(** [struct key_tag_t] and the static [prefix] of the handler. *)
Record kbd := { status : Z; code : Z; prefix : Z }.

Definition with_status (st : Z) (k : kbd) : kbd :=
  {| status := st; code := code k; prefix := prefix k |}.

(** The new status after a modifier key; [None] when [change_flag] stays 0. *)
Definition change_status (scan st : Z) : option Z :=
  if scan =? SCAN_NUMLOCK then Some (Z.lxor st MK_NUMLOCK)
  else if scan =? SCAN_CAPSLOCK then Some (Z.lxor st MK_CAPSLOCK)
  else if scan =? SCAN_SCROLLLOCK then Some (Z.lxor st MK_SCROLLLOCK)
  else if scan =? SCAN_LEFTSHIFT then Some (Z.lor st MK_SHIFT)
  else if scan =? Z.lor SCAN_LEFTSHIFT 0x80 then Some (Z.land st (Z.lnot MK_SHIFT))
  else if scan =? SCAN_LEFTCTRL then Some (Z.lor st MK_CTRL)
  else if scan =? Z.lor SCAN_LEFTCTRL 0x80 then Some (Z.land st (Z.lnot MK_CTRL))
  else if scan =? SCAN_LEFTALT then Some (Z.lor st MK_ALT)
  else if scan =? Z.lor SCAN_LEFTALT 0x80 then Some (Z.land st (Z.lnot MK_ALT))
  else None.

(** Is the bit of [mask] set in the status? *)
Definition has (st mask : Z) : bool := negb (Z.land st mask =? 0).

Definition table_entry (t scan : Z) : res Z :=
  row ← aget scan_to_ascii t; aget row scan.

Definition key_code (st scan : Z) : res Z :=
  if has st MK_CAPSLOCK && has st MK_SHIFT then table_entry 3 scan
  else if st =? 0 then table_entry 0 scan
  else if has st MK_CAPSLOCK then table_entry 1 scan
  else if has st MK_SHIFT then table_entry 2 scan
  else if has st MK_CTRL then table_entry 4 scan
  else Ret 0xff.

Section Handler.
Context {C : Type} `{Console C}.

(** [scan] is the byte read from the port. *)
Definition keyboard_isr (scan : Z) (k : kbd) (c : C) : res (kbd * C) :=
  if (scan =? 0) || (scan =? 0xff) then Ret (k, c)
  else if (scan =? 0xe0) || (scan =? 0xe1) then
    Ret ({| status := status k; code := code k; prefix := 1 |}, c)
  else
  match change_status scan (status k) with
  | Some st => Ret (with_status st k, c)
  | None =>
      if negb (Z.land scan 0x80 =? 0) then Ret (k, c)
      else
        x ← key_code (status k) scan;
        let k := {| status := status k; code := x; prefix := prefix k |} in
        if scan =? SCAN_ENTER then c ← con_newline c; Ret (k, c)
        else if scan =? SCAN_BACKSPACE then c ← con_delchar 1 c; Ret (k, c)
        else
          c ← con_putc x c;
          Ret ({| status := status k; code := code k; prefix := 0 |}, c)
  end.

(** The interrupts of a sequence of scan codes. *)
Fixpoint keyboard_run (scans : list Z) (k : kbd) (c : C) : res (kbd * C) :=
  match scans with
  | [] => Ret (k, c)
  | scan :: scans => '(k, c) ← keyboard_isr scan k c; keyboard_run scans k c
  end.

End Handler.

(** ** What the keys mean *)

(** A modifier that is held: was the last event about it a press? *)
Definition held (press : Z) (scans : list Z) : bool :=
  foldl (fun d s => if s =? press then true
                    else if s =? press + 0x80 then false else d) false scans.

(** A lock: was its key pressed an odd number of times? *)
Definition toggled (press : Z) (scans : list Z) : bool :=
  foldl (fun d s => if s =? press then negb d else d) false scans.

Definition bit (b : bool) (mask : Z) : Z := if b then mask else 0.

(** The status that a history of scan codes should leave. *)
Definition history_status (scans : list Z) : Z :=
  bit (held SCAN_LEFTSHIFT scans) MK_SHIFT + bit (held SCAN_LEFTCTRL scans) MK_CTRL
  + bit (held SCAN_LEFTALT scans) MK_ALT + bit (toggled SCAN_CAPSLOCK scans) MK_CAPSLOCK
  + bit (toggled SCAN_SCROLLLOCK scans) MK_SCROLLLOCK + bit (toggled SCAN_NUMLOCK scans) MK_NUMLOCK.

Definition is_modifier (s : Z) : bool :=
  existsb (Z.eqb s) [0x45; 0x1d; 0x46; 0x2a; 0xaa; 0x3a; 0xba; 0x38; 0xb8].

(** *** The layout

    What a key types, from the faces of its cap and not from the tables: a row
    of the keyboard is the scan code of its first key and the characters from
    there on. *)

(** Which of the modifiers decides: with none at all the key is plain; a lock
    or Alt alone disables it. *)
Inductive mode := Plain | Caps | Shift | CapsShift | Ctrl | Disabled.

Definition mode_of (st : Z) : mode :=
  match Z.testbit st 3, Z.testbit st 0 with
  | true, true => CapsShift
  | true, false => Caps
  | false, true => Shift
  | false, false => if st =? 0 then Plain else if Z.testbit st 1 then Ctrl else Disabled
  end.

Definition lower_rows : list (Z * string) :=
  [(0x02, "1234567890-="); (0x10, "qwertyuiop[]"); (0x1e, "asdfghjkl;'`"); (0x2b, "\zxcvbnm,./");
   (0x37, "*"); (0x39, " "); (0x4a, "-"); (0x4e, "+"); (0x56, "\"); (0x62, "/"); (0x7a, "/")]%string.

(** Shift leaves the quote as it is; it makes the space and the key at 0x56 no
    characters. *)
Definition upper_rows : list (Z * string) :=
  [(0x02, "!@#$%^&*()_+"); (0x10, "QWERTYUIOP{}"); (0x1e, "ASDFGHJKL:'~"); (0x2b, "|ZXCVBNM<>?");
   (0x37, "*"); (0x4a, "-"); (0x4e, "+"); (0x62, "/"); (0x7a, "/")]%string.

Definition face (rows : list (Z * string)) (s : Z) : option Z :=
  foldr (fun row o =>
    if row.1 <=? s then match bytes_of row.2 !! Z.to_nat (s - row.1) with Some c => Some c | None => o end else o)
    None rows.

(** The keys without a character: scan codes from the first to the second, and
    what they give plain, with Shift and with Ctrl. *)
Definition control_keys : list (Z * Z * (Z * Z * Z)) :=
  [(0x01, 0x01, (27, 27, 0)); (0x0e, 0x0e, (8, 126, 127)); (0x0f, 0x0f, (9, 126, 127)); (0x1c, 0x1c, (13, 126, 10));
   (0x39, 0x39, (0, 1, 0)); (0x3b, 0x3e, (3, 1, 2)); (0x3f, 0x3f, (8, 1, 2)); (0x40, 0x44, (3, 1, 2));
   (0x52, 0x52, (0, 1, 2)); (0x53, 0x53, (127, 127, 0)); (0x57, 0x58, (3, 1, 2));
   (0x60, 0x60, (13, 13, 0)); (0x6f, 0x6f, (127, 127, 0)); (0x02, 0x0b, (0, 0, 2)); (0x1a, 0x1b, (0, 0, 2));
   (0x62, 0x62, (0, 0, 2)); (0x72, 0x72, (0, 0, 2))].

Definition control (s : Z) : Z * Z * Z :=
  foldr (fun k o => if (k.1.1 <=? s) && (s <=? k.1.2) then k.2 else o) (0, 0, 0) control_keys.

Definition is_letter (c : Z) : bool := (97 <=? c) && (c <=? 122).

(** Caps Lock exchanges the two faces of a letter and of nothing else; Ctrl
    makes a letter the control character of its place in the alphabet. *)
Definition meant (st s : Z) : Z :=
  let '(p, u, c) := control s in
  let plain := default p (face lower_rows s) in
  let upper := default u (face upper_rows s) in
  match mode_of st with
  | Plain => plain
  | Shift => upper
  | Caps => if is_letter plain then upper else plain
  | CapsShift => if is_letter plain then plain else upper
  | Ctrl => if is_letter plain then plain - 96 else c
  | Disabled => 0xff
  end.

(** What a scan code types on the terminal in a given status. *)
Definition typed (st s : Z) : list output :=
  if (s =? 0) || (0x80 <=? s) || is_modifier s then []
  else if s =? SCAN_ENTER then [OutLine]
  else if s =? SCAN_BACKSPACE then [OutDel]
  else outputs (until_nul [meant st s]).

(** What a sequence types, after the history [h]. *)
Fixpoint typed_all (h scans : list Z) : list output :=
  match scans with
  | [] => []
  | s :: scans => typed (history_status h) s ++ typed_all (h ++ [s]) scans
  end.

(** ** Lemmas *)

Lemma change_status_modifier s st :
  change_status s st = None <-> is_modifier s = false.
Proof.
  unfold change_status, is_modifier, SCAN_NUMLOCK, SCAN_CAPSLOCK, SCAN_SCROLLLOCK,
    SCAN_LEFTSHIFT, SCAN_LEFTALT, SCAN_LEFTCTRL.
  change (Z.lor 42 128) with 170. change (Z.lor 58 128) with 186.
  change (Z.lor 56 128) with 184. cbn [existsb].
  repeat (case_match; cbn [orb]; [done|]). done.
Qed.

(** The status follows the history, one scan code at a time. *)
Lemma history_status_snoc h s :
  history_status (h ++ [s])
  = match change_status s (history_status h) with Some st => st | None => history_status h end.
Proof.
  unfold history_status, held, toggled. rewrite !foldl_app. cbn [foldl].
  unfold change_status, SCAN_NUMLOCK, SCAN_CAPSLOCK, SCAN_SCROLLLOCK,
    SCAN_LEFTSHIFT, SCAN_LEFTALT, SCAN_LEFTCTRL.
  change (Z.lor 42 128) with 170. change (Z.lor 58 128) with 186.
  change (Z.lor 56 128) with 184.
  cbn [Z.add Pos.add Pos.succ Pos.add_carry].
  repeat match goal with |- context [foldl ?f ?d h] => generalize (foldl f d h); intros ? end.
  repeat match goal with |- context [s =? ?n] =>
    destruct (Z.eqb_spec s n); [subst s; cbn [Z.eqb Pos.eqb] |] end;
  repeat match goal with b : bool |- _ => destruct b end; done.
Qed.

Lemma tables_in_range :
  Forall (fun row => length row = 128%nat /\ Forall (fun c => 0 <= c < 256) row) scan_to_ascii.
Proof. apply (bool_decide_unpack _). vm_compute. done. Qed.

Lemma table_entry_ok t s :
  0 <= t < 5 -> 0 <= s < 128 -> exists x, table_entry t s = Ret x /\ 0 <= x < 256.
Proof.
  intros Ht Hs. unfold table_entry.
  destruct (aget_lt scan_to_ascii t) as [row Hrow]; [simpl; lia|]. rewrite Hrow. simpl.
  apply aget_Ret in Hrow as [_ Hrow].
  pose proof (Forall_lookup_1 _ _ _ _ tables_in_range Hrow) as [Hl Hc].
  destruct (aget_lt row s) as [x Hx]; [lia|]. exists x. split; [done|].
  apply aget_Ret in Hx as [_ Hx]. exact (Forall_lookup_1 _ _ _ _ Hc Hx).
Qed.

Lemma key_code_ok st s : 0 <= s < 128 -> exists x, key_code st s = Ret x /\ 0 <= x < 256.
Proof.
  intros Hs. unfold key_code.
  repeat (case_match; [by apply table_entry_ok; [lia|]|]). exists 255. split; [done | lia].
Qed.

(** The tables give every key what the layout says: the five of them, and the
    choice among them. *)
Lemma tables_are_the_layout : Forall (fun s =>
    table_entry 0 s = Ret (meant 0 s) /\ table_entry 1 s = Ret (meant MK_CAPSLOCK s) /\
    table_entry 2 s = Ret (meant MK_SHIFT s) /\ table_entry 3 s = Ret (meant (MK_CAPSLOCK + MK_SHIFT) s) /\
    table_entry 4 s = Ret (meant MK_CTRL s)) (seqZ 0 128).
Proof. apply (bool_decide_unpack _). vm_compute. done. Qed.

Lemma has_testbit st k : 0 <= k -> has st (2 ^ k) = Z.testbit st k.
Proof.
  intros Hk. unfold has. destruct (Z.testbit st k) eqn:E.
  - apply negb_true_iff, Z.eqb_neq. intros Hz. pose proof (f_equal (fun x => Z.testbit x k) Hz) as Hb.
    cbv beta in Hb. by rewrite Z.land_spec, Z.pow2_bits_true, E, Z.bits_0 in Hb by done.
  - apply negb_false_iff, Z.eqb_eq, Z.bits_inj'. intros i Hi. rewrite Z.land_spec, Z.bits_0.
    destruct (decide (i = k)) as [->|]; [by rewrite E|]. by rewrite Z.pow2_bits_false, andb_false_r by done.
Qed.

Lemma key_code_meant st s : 0 <= s < 128 -> key_code st s = Ret (meant st s).
Proof.
  intros Hs. pose proof tables_are_the_layout as Ht. rewrite Forall_forall in Ht.
  destruct (Ht s) as (H0 & H1 & H2 & H3 & H4); [apply elem_of_seqZ; lia|].
  unfold key_code. change MK_CAPSLOCK with (2 ^ 3). change MK_SHIFT with (2 ^ 0). change MK_CTRL with (2 ^ 1).
  rewrite !has_testbit by done. unfold meant in *. destruct (control s) as [[p u] c].
  change (mode_of 0) with Plain in H0. change (mode_of MK_CAPSLOCK) with Caps in H1.
  change (mode_of MK_SHIFT) with Shift in H2. change (mode_of (MK_CAPSLOCK + MK_SHIFT)) with CapsShift in H3.
  change (mode_of MK_CTRL) with Ctrl in H4. unfold mode_of.
  destruct (Z.testbit st 3) eqn:E3, (Z.testbit st 0) eqn:E0; cbn [andb]; try done.
  - destruct (Z.eqb_spec st 0) as [->|]; [discriminate | done].
  - destruct (Z.eqb_spec st 0) as [->|]; [discriminate | done].
  - destruct (st =? 0); [done|]. by destruct (Z.testbit st 1).
Qed.

Lemma land_0x80 s : 0 <= s < 256 -> negb (Z.land s 0x80 =? 0) = (0x80 <=? s).
Proof.
  intros Hs.
  assert (Hall : Forall (fun n => negb (Z.land n 0x80 =? 0) = (0x80 <=? n)) (seqZ 0 256))
    by (apply (bool_decide_unpack _); vm_compute; done).
  rewrite Forall_forall in Hall. apply Hall, elem_of_seqZ. lia.
Qed.

Section Handler_lemmas.
Context {C : Type} `{Console C}.

(** One interrupt: the status follows the history and the terminal shows what
    the key types. *)
Lemma keyboard_isr_step h s k (c : C) t :
  0 <= s < 256 -> status k = history_status h -> con_shows t c ->
  term_ok (typed (history_status h) s) t = true ->
  exists k' c', keyboard_isr s k c = Ret (k', c') /\
    status k' = history_status (h ++ [s]) /\
    con_shows (term_run (typed (history_status h) s) t) c'.
Proof.
  intros Hs Hst Hc Hok. unfold keyboard_isr. rewrite Hst.
  pose proof (history_status_snoc h s) as Hsn. unfold typed in *.
  destruct (Z.eqb_spec s 0) as [->|Hs0]; [eexists _, _; split_and!; [done | by rewrite Hsn | done]|].
  destruct (Z.eqb_spec s 0xff) as [->|Hs1]; [eexists _, _; split_and!; [done | by rewrite Hsn | done]|].
  destruct ((s =? 0xe0) || (s =? 0xe1)) eqn:E0.
  { apply orb_true_iff in E0 as [->%Z.eqb_eq| ->%Z.eqb_eq];
      (eexists _, _; split_and!; [done | by rewrite Hsn | done]). }
  cbn [orb] in *. destruct (change_status s (history_status h)) as [st|] eqn:Ech.
  { assert (Hm : is_modifier s = true).
    { apply not_false_is_true. intros Hf. apply (change_status_modifier s (history_status h)) in Hf.
      congruence. }
    rewrite Hm, orb_true_r. eexists _, _. split_and!; [done | by rewrite Hsn | done]. }
  apply change_status_modifier in Ech as Hm. rewrite Hm, orb_false_r in *.
  rewrite land_0x80 by done. destruct (Z.leb_spec 0x80 s) as [Hge|Hlt].
  { eexists _, _. split_and!; [done | by rewrite Hsn | done]. }
  destruct (key_code_ok (history_status h) s) as (x & Hx & Hxr); [lia|].
  rewrite Hx. cbn [mbind res_bind].
  assert (Hxm : meant (history_status h) s = x) by (pose proof (key_code_meant (history_status h) s); intuition congruence).
  rewrite Hxm in *.
  destruct (s =? SCAN_ENTER); [|destruct (s =? SCAN_BACKSPACE)].
  - destruct (con_newline_ok t c Hc) as (c' & -> & Hc').
    eexists _, _. split_and!; [done | by rewrite Hsn | done].
  - destruct (con_delchar_ok t c Hc Hok) as (c' & -> & Hc').
    eexists _, _. split_and!; [done | by rewrite Hsn | done].
  - destruct (con_putc_ok t c x Hc Hxr Hok) as (c' & -> & Hc').
    eexists _, _. split_and!; [done | by rewrite Hsn | done].
Qed.

End Handler_lemmas.

(** ** Properties *)

(** C12: for every sequence of scan codes, from any history [h] of the
    modifiers: when no back space is typed on the first cell of the window,
    every interrupt returns; the status afterwards has the bit of Shift, Ctrl
    and Alt exactly when the last event about the key was a press, and the bit
    of a lock exactly when its key was pressed an odd number of times; and the
    console shows the terminal after what the keys mean under the modifiers of
    their moment: the characters of the layout ([meant]), a new line for Enter
    and a deletion for back space. *)
Theorem keyboard_follows_history {C : Type} `{Console C} scans h k (c : C) t :
  Forall (fun s => 0 <= s < 256) scans -> status k = history_status h -> con_shows t c ->
  term_ok (typed_all h scans) t = true ->
  exists k' c', keyboard_run scans k c = Ret (k', c') /\
    status k' = history_status (h ++ scans) /\
    con_shows (term_run (typed_all h scans) t) c'.
Proof.
  intros Hs. revert h k c t. induction Hs as [|s scans Hs _ IH]; intros h k c t Hst Hc Hok.
  - exists k, c. rewrite app_nil_r. done.
  - cbn [typed_all] in *. rewrite term_ok_app in Hok. apply andb_true_iff in Hok as [Hok1 Hok2].
    destruct (keyboard_isr_step h s k c t) as (k1 & c1 & E & Hk1 & Hc1); [done..|].
    destruct (IH (h ++ [s]) k1 c1 _ Hk1 Hc1 Hok2) as (k2 & c2 & E2 & Hk2 & Hc2).
    exists k2, c2. cbn [keyboard_run]. rewrite E. cbn [mbind res_bind].
    rewrite term_run_app. rewrite <- app_assoc in Hk2. done.
Qed.

(** The kernel's console with the buffer at 4096, the formats at 100 and 1000,
    and a blank screen. *)
Definition sample_console : console :=
  {| con_mem := scratch 128 [10] [37; 99]; con_screen := blank_screen |}.

Lemma sample_console_shows : k_shows 4096 100 1000 0 (0, blank_paper) sample_console.
Proof.
  split.
  - exact blank_screen_shows.
  - repeat split; repeat constructor.
  - repeat split; repeat constructor.
  - exact (scratch_mapped 128 [10] [37; 99]).
  - unfold apart. simpl. lia.
  - unfold apart. simpl. lia.
Qed.

(** Shift down, A, Shift up, B, back space, Enter. *)
Lemma keyboard_follows_history_witness :
  exists k' c',
    keyboard_run (H := printf_console 4096 100 1000 0)
      [0x2a; 0x1e; 0xaa; 0x30; 0x0e; 0x1c] {| status := 0; code := 0; prefix := 0 |} sample_console
    = Ret (k', c') /\ status k' = 0 /\
    k_shows 4096 100 1000 0 (term_run [OutChar 65; OutChar 98; OutDel; OutLine] (0, blank_paper)) c'.
Proof.
  apply (keyboard_follows_history (H := printf_console 4096 100 1000 0)
           [0x2a; 0x1e; 0xaa; 0x30; 0x0e; 0x1c] [] _ _ (0, blank_paper)).
  - repeat (apply Forall_cons_2; [lia|]). apply Forall_nil_2.
  - reflexivity.
  - exact sample_console_shows.
  - vm_compute. reflexivity.
Defined.

(** The scan codes of the letters, in the order of the alphabet. *)
Definition letter_scans : list Z :=
  [0x1e; 0x30; 0x2e; 0x20; 0x12; 0x21; 0x22; 0x23; 0x17; 0x24; 0x25; 0x26; 0x32;
   0x31; 0x18; 0x19; 0x10; 0x13; 0x1f; 0x14; 0x16; 0x2f; 0x11; 0x2d; 0x15; 0x2c].

(** The five tables agree with the layout they stand for. With Shift and
    Caps Lock the letter keys type capitals exactly when one of the two is
    on; with Ctrl alone they type the control characters 1 to 26. *)
Theorem letters_typed (i : nat) (s : Z) (shift caps : bool) :
  letter_scans !! i = Some s ->
  key_code (bit shift MK_SHIFT + bit caps MK_CAPSLOCK) s
    = Ret ((if xorb shift caps then 65 else 97) + Z.of_nat i) /\
  key_code MK_CTRL s = Ret (Z.of_nat i + 1).
Proof.
  intros Hi. pose proof (lookup_lt_Some _ _ _ Hi) as Hl. simpl in Hl.
  do 26 (destruct i as [|i]; [injection Hi as <-; destruct shift, caps; split; reflexivity|]).
  lia.
Qed.

Lemma letters_typed_witness :
  key_code (bit true MK_SHIFT + bit false MK_CAPSLOCK) 0x1e = Ret 65 /\ key_code MK_CTRL 0x1e = Ret 1.
Proof. apply (letters_typed 0 0x1e true false). reflexivity. Defined.

(** ** The other keys (keyboard.h) *)

Definition SCAN_TAB : Z := 0x0f.
Definition SCAN_KOR : Z := 0x72.
Definition SCAN_ESC : Z := 0x1.
Definition SCAN_F1 : Z := 0x3b.
Definition SCAN_F2 : Z := 0x3c.
Definition SCAN_F3 : Z := 0x3d.
Definition SCAN_F4 : Z := 0x3e.
Definition SCAN_F5 : Z := 0x3f.
Definition SCAN_F6 : Z := 0x40.
Definition SCAN_F7 : Z := 0x41.
Definition SCAN_F8 : Z := 0x42.
Definition SCAN_F9 : Z := 0x43.
Definition SCAN_F10 : Z := 0x44.
Definition SCAN_F11 : Z := 0x57.
Definition SCAN_F12 : Z := 0x58.
Definition SCAN_INSERT : Z := 0x52.
Definition SCAN_HOME : Z := 0x47.
Definition SCAN_PAGEUP : Z := 0x49.
Definition SCAN_DELETE : Z := 0x53.
Definition SCAN_END : Z := 0x4f.
Definition SCAN_PAGEDOWN : Z := 0x51.
Definition SCAN_UP : Z := 0x48.
Definition SCAN_DOWN : Z := 0x50.
Definition SCAN_LEFT : Z := 0x4b.
Definition SCAN_RIGHT : Z := 0x4d.
Definition SCAN_DIVIDE : Z := 0x35.
Definition SCAN_MULTIPLY : Z := 0x37.
Definition SCAN_SUBTRACT : Z := 0x4a.
Definition SCAN_ADD : Z := 0x4e.
Definition SCAN_SMALLENTER : Z := 0x1c.
Definition SCAN_POINT : Z := 0x53.
Definition SCAN_PAD_0 : Z := 0x52.
Definition SCAN_PAD_1 : Z := 0x4f.
Definition SCAN_PAD_2 : Z := 0x50.
Definition SCAN_PAD_3 : Z := 0x51.
Definition SCAN_PAD_4 : Z := 0x4b.
Definition SCAN_PAD_5 : Z := 0x4c.
Definition SCAN_PAD_6 : Z := 0x4d.
Definition SCAN_PAD_7 : Z := 0x47.
Definition SCAN_PAD_8 : Z := 0x48.
Definition SCAN_PAD_9 : Z := 0xc9.

Definition function_keys : list Z :=
  [SCAN_F1; SCAN_F2; SCAN_F3; SCAN_F4; SCAN_F5; SCAN_F6; SCAN_F7; SCAN_F8; SCAN_F9; SCAN_F10;
   SCAN_F11; SCAN_F12].

Definition cursor_keys : list Z :=
  [SCAN_INSERT; SCAN_HOME; SCAN_PAGEUP; SCAN_END; SCAN_PAGEDOWN; SCAN_UP; SCAN_DOWN; SCAN_LEFT; SCAN_RIGHT].

Definition pad_keys : list Z :=
  [SCAN_PAD_0; SCAN_PAD_1; SCAN_PAD_2; SCAN_PAD_3; SCAN_PAD_4; SCAN_PAD_5; SCAN_PAD_6; SCAN_PAD_7; SCAN_PAD_8].

(** Without modifiers the function keys type the character 3, except that F5
    types a back space and so deletes; the keys of the cursor and the digits of the pad
    type nothing, Delete the character 127, the operators of the pad themselves.
    [SCAN_PAD_9] is the code of a release, 0x49 that of the key. *)
Lemma special_keys_type :
  key_code 0 <$> filter (fun s => s <> SCAN_F5) function_keys = replicate 11 (Ret 3) /\
  typed 0 SCAN_F5 = [OutDel] /\
  Forall (fun s => typed 0 s = []) (cursor_keys ++ pad_keys) /\
  key_code 0 <$> [SCAN_DELETE; SCAN_DIVIDE; SCAN_MULTIPLY; SCAN_SUBTRACT; SCAN_ADD; SCAN_SMALLENTER; SCAN_POINT;
                  SCAN_TAB; SCAN_ESC; SCAN_KOR]
    = Ret <$> [127; 47; 42; 45; 43; 13; 127; 9; 27; 0] /\
  (forall st, typed st SCAN_PAD_9 = []).
Proof.
  do 2 (split; [vm_compute; reflexivity|]). split; [repeat constructor|]. by split; [vm_compute|].
Qed.

(** A status with none of Caps Lock, Shift and Ctrl, but with Alt, Scroll
    Lock or Num Lock, turns every key into the error code 0xff. *)
Theorem other_locks_disable_keys (st s : Z) :
  st <> 0 -> Z.land st (MK_SHIFT + MK_CTRL + MK_CAPSLOCK) = 0 -> key_code st s = Ret 0xff.
Proof.
  intros Hne Hz. unfold key_code.
  assert (Hh : forall m, Z.land (MK_SHIFT + MK_CTRL + MK_CAPSLOCK) m = m -> has st m = false).
  { intros m Hm. unfold has. rewrite <- Hm, Z.land_assoc, Hz. reflexivity. }
  rewrite !Hh by done. by rewrite (proj2 (Z.eqb_neq st 0)) by done.
Qed.

Lemma other_locks_disable_keys_witness : key_code MK_NUMLOCK 0x1e = Ret 0xff.
Proof. apply other_locks_disable_keys; [discriminate | reflexivity]. Defined.
