(* ===== verification/BootMem.v ===== *)
(** * Addresses and the boot-time allocator (pgtable.h, page.c)

    Linear and physical addresses, and the allocator of whole pages the kernel
    uses until the page descriptors exist: a counter that only grows. *)

From S2P Require Import Prelude.

(** ** Addresses *)

Definition PAGE_OFFSET : Z := 0xFFFF800000000000.
Definition PAGE_SHIFT : Z := 12.
Definition PAGE_SIZE : Z := Z.shiftl 1 PAGE_SHIFT.
Definition PAGE_MASK : Z := u64 (Z.lnot (PAGE_SIZE - 1)).

Definition __pa (x : Z) : Z := u64 (x - PAGE_OFFSET).
Definition __va (x : Z) : Z := u64 (x + PAGE_OFFSET).

Definition PAGE_ALIGN (addr : Z) : Z := Z.land (u64 (addr + PAGE_SIZE - 1)) PAGE_MASK.

(** ** The allocator *)

Record bootmem := {
  bootmem_page_index : Z;
  bootmem_page_start : Z;
  bootmem_page_max : Z
}.

Definition bootmem_init (start_heap end_heap : Z) : bootmem :=
  let start := Z.shiftr (__pa start_heap) PAGE_SHIFT in
  {| bootmem_page_start := start;
     bootmem_page_index := start;
     bootmem_page_max := u64 (Z.shiftr (__pa end_heap) PAGE_SHIFT - 1) |}.

Definition alloc_bootmem (count : Z) (b : bootmem) : res (Z * bootmem) :=
  if bootmem_page_max b <=? u64 (bootmem_page_index b + count) then Halted
  else
    let index := u64 (bootmem_page_index b + count) in
    Ret (__va (u64 (Z.shiftl (u64 (index - count)) PAGE_SHIFT)),
         {| bootmem_page_index := index;
            bootmem_page_start := bootmem_page_start b;
            bootmem_page_max := bootmem_page_max b |}).

(** ** Lemmas *)

Lemma PAGE_SIZE_eq : PAGE_SIZE = 4096.
Proof. done. Qed.

Lemma __va_pa x : 0 <= x < 2 ^ 64 -> __va (__pa x) = x.
Proof.
  intros Hx. unfold __va, __pa. rewrite wrap_add_l.
  replace (x - PAGE_OFFSET + PAGE_OFFSET) with x by lia. by apply wrap_small.
Qed.

Lemma __pa_va x : 0 <= x < 2 ^ 64 -> __pa (__va x) = x.
Proof.
  intros Hx. unfold __va, __pa. rewrite wrap_sub_l.
  replace (x + PAGE_OFFSET - PAGE_OFFSET) with x by lia. by apply wrap_small.
Qed.

Lemma PAGE_ALIGN_eq x : 0 <= x < 2 ^ 63 -> PAGE_ALIGN x = (x + 4095) / 4096 * 4096.
Proof.
  intros Hx. unfold PAGE_ALIGN, PAGE_MASK. rewrite PAGE_SIZE_eq.
  rewrite (wrap_small 64 (x + 4096 - 1)) by lia.
  replace (x + 4096 - 1) with (x + 4095) by lia.
  assert (Hz : Z.land (x + 4095) (u64 (Z.lnot (4096 - 1))) = Z.shiftl (Z.shiftr (x + 4095) 12) 12).
  { apply Z.bits_inj'. intros n Hn. rewrite Z.land_spec, wrap_testbit by lia.
    change (4096 - 1) with (Z.ones 12). rewrite Z.lnot_spec, Z.testbit_ones by lia.
    rewrite (proj2 (Z.leb_le 0 n)) by lia.
    destruct (Z.ltb_spec n 12).
    - rewrite Z.shiftl_spec_low by lia. by rewrite !andb_false_r.
    - rewrite Z.shiftl_spec_high, Z.shiftr_spec by lia.
      replace (n - 12 + 12) with n by lia. destruct (Z.ltb_spec n 64); simpl; [by rewrite andb_true_r|].
      rewrite andb_false_r. symmetry. destruct (decide (x + 4095 = 0)) as [->|]; [by apply Z.bits_0|].
      apply Z.bits_above_log2; [lia|]. assert (Z.log2 (x + 4095) < 64); [|lia].
      apply Z.log2_lt_pow2; lia. }
  rewrite Hz, Z.shiftl_mul_pow2, Z.shiftr_div_pow2 by lia. done.
Qed.

(** The pages of the heap are below the direct mapping's end. *)
Record bm_ok (b : bootmem) : Prop := {
  bm_start : 0 <= bootmem_page_start b <= bootmem_page_index b;
  bm_max : bootmem_page_max b < 2 ^ 35
}.

Lemma alloc_bootmem_ok n b :
  bm_ok b -> 0 <= n -> bootmem_page_index b + n < bootmem_page_max b ->
  alloc_bootmem n b
  = Ret (PAGE_OFFSET + 4096 * bootmem_page_index b,
         {| bootmem_page_index := bootmem_page_index b + n;
            bootmem_page_start := bootmem_page_start b;
            bootmem_page_max := bootmem_page_max b |}).
Proof.
  intros [Hs Hm] Hn Hlt. unfold alloc_bootmem.
  rewrite (wrap_small 64 (_ + n)) by lia. rewrite (proj2 (Z.leb_gt _ _)) by lia.
  unfold PAGE_SHIFT, PAGE_OFFSET, __va. rewrite Z.shiftl_mul_pow2 by lia.
  replace (bootmem_page_index b + n - n) with (bootmem_page_index b) by lia.
  rewrite (wrap_small 64 (bootmem_page_index b)) by lia.
  rewrite (wrap_small 64 (_ * _)) by lia. unfold PAGE_OFFSET.
  rewrite wrap_small by lia. do 2 f_equal. lia.
Qed.

(** The allocator after [n] more pages. *)
Definition taken (n : Z) (b : bootmem) : bootmem :=
  {| bootmem_page_index := bootmem_page_index b + n;
     bootmem_page_start := bootmem_page_start b;
     bootmem_page_max := bootmem_page_max b |}.

Lemma taken_ok n b : bm_ok b -> 0 <= n -> bm_ok (taken n b).
Proof. intros [Hs Hm] Hn. split; simpl; lia. Qed.

Lemma taken_taken n k b : taken n (taken k b) = taken (k + n) b.
Proof. unfold taken. simpl. f_equal. lia. Qed.

(** The requests of the boot sequence, in order. *)
Fixpoint alloc_all (counts : list Z) (b : bootmem) : res (list Z * bootmem) :=
  match counts with
  | [] => Ret ([], b)
  | n :: counts =>
      '(a, b) ← alloc_bootmem n b;
      '(l, b) ← alloc_all counts b;
      Ret (a :: l, b)
  end.

Lemma alloc_all_spec counts : forall b,
  bm_ok b -> Forall (fun n => 0 <= n) counts ->
  bootmem_page_index b + foldr Z.add 0 counts < bootmem_page_max b ->
  exists l b', alloc_all counts b = Ret (l, b') /\ bm_ok b' /\
    bootmem_page_max b' = bootmem_page_max b /\
    bootmem_page_index b' = bootmem_page_index b + foldr Z.add 0 counts /\
    length l = length counts /\
    forall i a n, l !! i = Some a -> counts !! i = Some n ->
      a = PAGE_OFFSET + 4096 * (bootmem_page_index b + foldr Z.add 0 (take i counts)).
Proof.
  induction counts as [|n counts IH]; intros b Hb Hc Hlt; simpl in *.
  - exists [], b. split_and!; try done; lia.
  - apply Forall_cons in Hc as [Hn Hc].
    assert (Hsum : 0 <= foldr Z.add 0 counts).
    { clear -Hc. induction Hc; simpl; lia. }
    rewrite alloc_bootmem_ok by (done || lia). cbn [mbind res_bind].
    destruct (IH {| bootmem_page_index := bootmem_page_index b + n;
                    bootmem_page_start := bootmem_page_start b;
                    bootmem_page_max := bootmem_page_max b |})
      as (l & b' & -> & Hb' & Hm & Hi & Hl & Ha); simpl in *; [|done|lia|].
    { destruct Hb. split; simpl; lia. }
    cbn [mbind res_bind]. eexists _, b'. split; [done|].
    split_and!; [done | done | lia | simpl; lia |].
    intros [|i] a k Hla Hlc; simpl in *.
    + injection Hla as <-. f_equal. lia.
    + rewrite (Ha i a k) by done. f_equal. lia.
Qed.

Lemma sum_take_mono counts i j n :
  Forall (fun n => 0 <= n) counts -> (i < j)%nat -> counts !! i = Some n ->
  foldr Z.add 0 (take i counts) + n <= foldr Z.add 0 (take j counts).
Proof.
  revert i j. induction counts as [|c counts IH]; intros i j Hc Hij Hi; [done|].
  apply Forall_cons in Hc as [Hc0 Hc].
  assert (Hpos : forall k, 0 <= foldr Z.add 0 (take k counts)).
  { intros k. assert (Hk : Forall (fun n => 0 <= n) (take k counts)) by by apply Forall_take.
    clear -Hk. induction Hk; simpl; lia. }
  destruct j as [|j]; [lia|]. destruct i as [|i]; simpl in *.
  - injection Hi as ->. specialize (Hpos j). lia.
  - specialize (IH i j Hc ltac:(lia) Hi). lia.
Qed.

Lemma sum_take_le counts j :
  Forall (fun n => 0 <= n) counts ->
  0 <= foldr Z.add 0 (take j counts) <= foldr Z.add 0 counts.
Proof.
  intros Hc. revert j. induction Hc as [|c counts Hc0 Hc IH]; intros [|j]; simpl; [lia..| |].
  - specialize (IH 0%nat). simpl in IH. lia.
  - specialize (IH j). lia.
Qed.

Lemma bootmem_init_eq s e :
  0 <= s < 2 ^ 35 -> 0 < e < 2 ^ 35 ->
  bootmem_init (PAGE_OFFSET + 4096 * s) (PAGE_OFFSET + 4096 * e)
  = {| bootmem_page_index := s; bootmem_page_start := s; bootmem_page_max := e - 1 |}.
Proof.
  intros Hs He. unfold bootmem_init, __pa, PAGE_SHIFT.
  assert (Hx : forall x, 0 <= x < 2 ^ 35 -> Z.shiftr (u64 (PAGE_OFFSET + 4096 * x - PAGE_OFFSET)) 12 = x).
  { intros x Hx. replace (PAGE_OFFSET + 4096 * x - PAGE_OFFSET) with (x * 4096) by lia.
    rewrite wrap_small by lia. rewrite Z.shiftr_div_pow2 by lia. by apply Z.div_mul. }
  rewrite !Hx by lia. by rewrite wrap_small by lia.
Qed.

(** ** Properties *)

(** The boot-time allocator. With the heap between the pages [s] and [e],
    any sequence of requests that fits returns areas that follow each other
    from the start of the heap, do not overlap, and end below the heap's last
    page; the first request that does not fit stops the machine. *)
Theorem bootmem_areas_disjoint (s e : Z) (counts : list Z) :
  0 <= s < e -> e < 2 ^ 35 -> Forall (fun n => 0 <= n) counts ->
  let b0 := bootmem_init (PAGE_OFFSET + 4096 * s) (PAGE_OFFSET + 4096 * e) in
  (s + foldr Z.add 0 counts < e - 1 ->
   exists l b', alloc_all counts b0 = Ret (l, b') /\ length l = length counts /\
     forall i j a a' n, (i < j)%nat -> l !! i = Some a -> counts !! i = Some n ->
       l !! j = Some a' ->
       PAGE_OFFSET + 4096 * s <= a /\ a + 4096 * n <= a' /\ a' < PAGE_OFFSET + 4096 * (e - 1)) /\
  (forall n, 0 <= n < 2 ^ 63 -> e - 1 <= s + foldr Z.add 0 counts + n ->
   s + foldr Z.add 0 counts < e - 1 -> alloc_all (counts ++ [n]) b0 = Halted).
Proof.
  intros Hs He Hc b0. subst b0. rewrite bootmem_init_eq by lia.
  set (b0 := {| bootmem_page_index := s; bootmem_page_start := s; bootmem_page_max := e - 1 |}).
  assert (Hb0 : bm_ok b0) by (split; simpl; lia). split.
  - intros Hlt. destruct (alloc_all_spec counts b0 Hb0 Hc Hlt)
      as (l & b' & E & _ & _ & _ & Hl & Ha).
    exists l, b'. split_and!; [done | done |]. intros i j a a' n Hij Hi Hn Hj.
    destruct (lookup_lt_is_Some_2 counts j) as [m Hm].
    { rewrite <- Hl. by eapply lookup_lt_Some. }
    rewrite (Ha i a n), (Ha j a' m) by done.
    pose proof (sum_take_mono counts i j n Hc Hij Hn).
    pose proof (sum_take_le counts i Hc). pose proof (sum_take_le counts j Hc). simpl. lia.
  - intros n Hn Hge Hlt.
    assert (Happ : forall cs b r, alloc_all cs b = Ret r -> 
              alloc_bootmem n r.2 = Halted -> alloc_all (cs ++ [n]) b = Halted).
    { induction cs as [|c cs IH]; intros b r Hr Hh; simpl in *.
      - injection Hr as <-. simpl in Hh. by rewrite Hh.
      - apply bind_ret_inv in Hr as ([a b1] & E1 & Hr). rewrite E1. simpl.
        apply bind_ret_inv in Hr as ([l b2] & E2 & [= <-]). by rewrite (IH b1 (l, b2)). }
    destruct (alloc_all_spec counts b0 Hb0 Hc Hlt) as (l & b' & E & [Hb1 Hb2] & Hm & Hi & _).
    apply (Happ counts b0 (l, b') E). simpl. unfold alloc_bootmem. simpl in Hm, Hi.
    pose proof (sum_take_le counts 0 Hc). rewrite wrap_small by lia.
    by rewrite (proj2 (Z.leb_le _ _)) by lia.
Qed.

(** The boot sequence of a machine with 128 MB: page tables, reserved tables
    and page descriptors, from page 0x203 of a heap that ends at 8 MB. *)
Lemma bootmem_areas_disjoint_witness :
  let b0 := bootmem_init (PAGE_OFFSET + 4096 * 0x203) (PAGE_OFFSET + 4096 * 0x800) in
  (0x203 + 655 < 0x7ff ->
   exists l b', alloc_all [1; 1; 1; 64; 1; 10; 577] b0 = Ret (l, b') /\ length l = 7%nat /\
     forall i j a a' n, (i < j)%nat -> l !! i = Some a ->
       [1; 1; 1; 64; 1; 10; 577] !! i = Some n -> l !! j = Some a' ->
       PAGE_OFFSET + 4096 * 0x203 <= a /\ a + 4096 * n <= a'
       /\ a' < PAGE_OFFSET + 4096 * 0x7ff) /\
  (forall n, 0 <= n < 2 ^ 63 -> 0x7ff <= 0x203 + 655 + n -> 0x203 + 655 < 0x7ff ->
   alloc_all ([1; 1; 1; 64; 1; 10; 577] ++ [n]) b0 = Halted).
Proof.
  apply (bootmem_areas_disjoint 0x203 0x800 [1; 1; 1; 64; 1; 10; 577]); [lia | lia |].
  repeat (apply Forall_cons_2; [lia|]). apply Forall_nil_2.
Defined.
