(* ===== verification/Io.v ===== *)
(** * Access to memory-mapped devices (io.h)

    The functions that read and write memory as words of 8, 16, 32 and 64 bits,
    on memory of bytes (CString): the lowest byte of a word is at its address.
    The port instructions are transfers with the devices behind the ports; the
    devices of the other components are in Interrupts. *)

From S2P Require Import Prelude CString BootMem.

(** ** Words as bytes *)

Fixpoint le_bytes (n : nat) (v : Z) : list Z :=
  match n with
  | O => []
  | S n => u8 v :: le_bytes n (Z.shiftr v 8)
  end.

Fixpoint le_value (bs : list Z) : Z :=
  match bs with
  | [] => 0
  | b :: bs => b + 256 * le_value bs
  end.

Definition read_word (n : nat) (addr : Z) (m : bmem) : res Z :=
  bs ← load_bytes n m addr; Ret (le_value bs).

Definition write_word (n : nat) (b addr : Z) (m : bmem) : res bmem :=
  store_bytes addr (le_bytes n b) m.

(** ** io.h *)

Definition virt_to_phys (address : Z) : Z := __pa address.

Definition __readb (addr : Z) (m : bmem) : res Z := read_word 1 addr m.
Definition __readw (addr : Z) (m : bmem) : res Z := read_word 2 addr m.
Definition __readl (addr : Z) (m : bmem) : res Z := read_word 4 addr m.
Definition __readq (addr : Z) (m : bmem) : res Z := read_word 8 addr m.

Definition __writeb (b addr : Z) (m : bmem) : res bmem := write_word 1 (u8 b) addr m.
Definition __writew (b addr : Z) (m : bmem) : res bmem := write_word 2 (u16 b) addr m.
Definition __writel (b addr : Z) (m : bmem) : res bmem := write_word 4 (u32 b) addr m.
Definition __writeq (b addr : Z) (m : bmem) : res bmem := write_word 8 (u64 b) addr m.

(** ** Ports *)

(** What is behind the ports: a transfer of [n] bytes in either direction. A
    byte port is 16 bits, a value as wide as the transfer. *)
Class Ports (D : Type) := {
  port_in : nat -> Z -> D -> Z * D;
  port_out : nat -> Z -> Z -> D -> D
}.

Section PortIo.
Context {D : Type} `{Ports D}.

Definition inb (port : Z) (d : D) : Z * D :=
  let '(_v, d) := port_in 1 (u16 port) d in (u8 _v, d).
Definition inw (port : Z) (d : D) : Z * D :=
  let '(_v, d) := port_in 2 (u16 port) d in (u16 _v, d).
Definition outb (port value : Z) (d : D) : D := port_out 1 (u16 port) (u8 value) d.
Definition outw (port value : Z) (d : D) : D := port_out 2 (u16 port) (u16 value) d.

End PortIo.

(** A device that keeps the bytes written to its ports. *)
#[global] Instance latch_ports : Ports (Z -> Z) := {
  port_in n p d := (le_value (d <$> seqZ p (Z.of_nat n)), d);
  port_out n p v d := fun q => default (d q) (if decide (p <= q) then le_bytes n v !! Z.to_nat (q - p) else None)
}.

(** ** Lemmas *)

Lemma le_bytes_length n v : length (le_bytes n v) = n.
Proof. revert v. induction n as [|n IH]; intros v; [done|]. cbn [le_bytes length]. by rewrite IH. Qed.

Lemma le_value_bytes n v : le_value (le_bytes n v) = wrap (8 * Z.of_nat n) v.
Proof.
  revert v. induction n as [|n IH]; intros v.
  - unfold wrap. cbn [le_bytes le_value]. rewrite Z.mul_0_r, Z.pow_0_r. by rewrite Z.mod_1_r.
  - cbn [le_bytes le_value]. rewrite IH. unfold wrap. rewrite Z.shiftr_div_pow2 by lia.
    replace (8 * Z.of_nat (S n)) with (8 + 8 * Z.of_nat n) by lia.
    rewrite Z.pow_add_r by lia. change (2 ^ 8) with 256. rewrite Z.rem_mul_r; lia.
Qed.

Lemma le_bytes_take k n v : (k <= n)%nat -> take k (le_bytes n v) = le_bytes k v.
Proof.
  revert n v. induction k as [|k IH]; intros [|n] v Hk; try done; [lia|].
  cbn [le_bytes take]. f_equal. apply IH. lia.
Qed.

Lemma le_bytes_drop k n v : le_bytes n (Z.shiftr v (8 * Z.of_nat k)) = drop k (le_bytes (k + n) v).
Proof.
  revert v. induction k as [|k IH]; intros v.
  - by rewrite Z.mul_0_r, Z.shiftr_0_r.
  - cbn [Nat.add le_bytes drop]. rewrite <- IH, Z.shiftr_shiftr by lia. do 2 f_equal. lia.
Qed.

(** Reading [k] of the [n] bytes that were written at [addr], from byte [j]. *)
Lemma read_written n k j v addr m :
  (j + k <= n)%nat ->
  read_word k (addr + Z.of_nat j) (write_bytes addr (le_bytes n v) m)
  = Ret (wrap (8 * Z.of_nat k) (Z.shiftr v (8 * Z.of_nat j))).
Proof.
  intros Hk. unfold read_word.
  destruct (bytes_at_split (write_bytes addr (le_bytes n v) m) addr (le_bytes n v) j) as [_ Hd].
  { rewrite le_bytes_length. lia. }
  { apply bytes_at_written. }
  replace n with (j + (n - j))%nat in Hd by lia. rewrite <- le_bytes_drop in Hd.
  replace (j + (n - j))%nat with n in Hd by lia.
  set (w := Z.shiftr v (8 * Z.of_nat j)) in *.
  destruct (bytes_at_split _ _ (le_bytes (n - j) w) k ltac:(rewrite le_bytes_length; lia) Hd) as [Ht _].
  rewrite le_bytes_take in Ht by lia. rewrite <- (le_bytes_length k w) at 1.
  rewrite (load_bytes_at _ _ _ Ht). cbn [mbind res_bind]. by rewrite le_value_bytes.
Qed.

Lemma write_word_mapped n v addr m :
  mapped m addr (Z.of_nat n) -> write_word n v addr m = Ret (write_bytes addr (le_bytes n v) m).
Proof. intros Hm. apply store_bytes_mapped. by rewrite le_bytes_length. Qed.

(** What is read from the ports of such a device. *)
Lemma latch_read n k (j p v : Z) (d : Z -> Z) : 0 <= j -> j + Z.of_nat k <= Z.of_nat n ->
  port_out n p v d <$> seqZ (p + j) (Z.of_nat k) = take k (drop (Z.to_nat j) (le_bytes n v)).
Proof.
  intros Hj Hk. apply list_eq. intros i. rewrite list_lookup_fmap. destruct (decide (i < k)%nat).
  - rewrite lookup_seqZ_lt, lookup_take_lt, lookup_drop by lia. cbn [fmap option_fmap option_map].
    unfold port_out, latch_ports. rewrite decide_True by lia.
    replace (Z.to_nat (p + j + Z.of_nat i - p)) with (Z.to_nat j + i)%nat by lia.
    destruct (lookup_lt_is_Some_2 (le_bytes n v) (Z.to_nat j + i)) as [x Hx]; [rewrite le_bytes_length; lia|].
    by rewrite Hx.
  - rewrite lookup_seqZ_ge, lookup_take_ge by lia. done.
Qed.

(** On such a device a word is two bytes, the lower one first. *)
Lemma latch_roundtrip p v (d : Z -> Z) : 0 <= p < 2 ^ 16 - 1 ->
  (inw p (outw p v d)).1 = u16 v /\ (inb p (outw p v d)).1 = u8 v /\
  (inb (p + 1) (outw p v d)).1 = u8 (Z.shiftr (u16 v) 8) /\ (inb p (outb p v d)).1 = u8 v.
Proof.
  intros Hp. unfold inw, inb, outw, outb. cbn [port_in latch_ports fst].
  rewrite (wrap_small 16 p), (wrap_small 16 (p + 1)) by lia.
  pose proof (fun n k v => latch_read n k 0 p v d) as Hr. rewrite Z.add_0_r in Hr.
  rewrite (Hr 2%nat 2%nat), (Hr 2%nat 1%nat), (Hr 1%nat 1%nat), (latch_read 2 1 1) by lia.
  assert (Hn : u8 (u16 v) = u8 v).
  { unfold wrap. rewrite <- (Z.mod_mod_divide v (2 ^ 16) (2 ^ 8)); [done | by exists (2 ^ 8)]. }
  split; [|split; [|split]].
  - change (take 2 (drop (Z.to_nat 0) (le_bytes 2 (u16 v)))) with (le_bytes 2 (u16 v)).
    by rewrite le_value_bytes, !wrap_wrap.
  - change (take 1 (drop (Z.to_nat 0) (le_bytes 2 (u16 v)))) with (le_bytes 1 (u16 v)).
    rewrite le_value_bytes. change (8 * Z.of_nat 1) with 8. by rewrite wrap_wrap, Hn.
  - change (take 1 (drop (Z.to_nat 1) (le_bytes 2 (u16 v)))) with (le_bytes 1 (Z.shiftr (u16 v) 8)).
    by rewrite le_value_bytes, wrap_wrap.
  - change (take 1 (drop (Z.to_nat 0) (le_bytes 1 (u8 v)))) with (le_bytes 1 (u8 v)).
    by rewrite le_value_bytes, !wrap_wrap.
Qed.

(** ** Properties *)

(** Words in memory. A 64-bit word that is written is read back; so are
    its halves, quarters and bytes, at the offsets of a little-endian machine;
    narrower words are read back modulo their width; nothing but the bytes of
    the word changes, and a word that is not all in memory is a fault. *)
Theorem io_words_roundtrip (v addr : Z) (m : bmem) :
  mapped m addr 8 ->
  exists m', __writeq v addr m = Ret m' /\ __readq addr m' = Ret (u64 v) /\
    (forall j, 0 <= j < 2 -> __readl (addr + 4 * j) m' = Ret (u32 (Z.shiftr (u64 v) (32 * j)))) /\
    (forall j, 0 <= j < 4 -> __readw (addr + 2 * j) m' = Ret (u16 (Z.shiftr (u64 v) (16 * j)))) /\
    (forall j, 0 <= j < 8 -> __readb (addr + j) m' = Ret (u8 (Z.shiftr (u64 v) (8 * j)))) /\
    (exists m4, __writel v addr m = Ret m4 /\ __readl addr m4 = Ret (u32 v) /\
       forall x, x < addr \/ addr + 4 <= x -> m4 !! x = m !! x) /\
    (forall x, x < addr \/ addr + 8 <= x -> m' !! x = m !! x) /\
    (m !! (addr + 8) = None -> __readq (addr + 1) m = Fault).
Proof.
  intros Hm. eexists. split; [by apply write_word_mapped|].
  set (m' := write_bytes addr (le_bytes 8 (u64 v)) m).
  assert (Hread : forall k j i, (j + k <= 8)%nat -> i = Z.of_nat j ->
    read_word k (addr + i) m' = Ret (wrap (8 * Z.of_nat k) (Z.shiftr (u64 v) (8 * i)))).
  { intros k j i Hk ->. by apply read_written. }
  split.
  { unfold __readq. rewrite <- (Z.add_0_r addr), (Hread 8%nat 0%nat) by done.
    rewrite Z.mul_0_r, Z.shiftr_0_r. f_equal. apply wrap_wrap. }
  split.
  { intros j Hj. unfold __readl. rewrite (Hread 4%nat (Z.to_nat (4 * j))) by lia.
    by replace (8 * (4 * j)) with (32 * j) by lia. }
  split.
  { intros j Hj. unfold __readw. rewrite (Hread 2%nat (Z.to_nat (2 * j))) by lia.
    by replace (8 * (2 * j)) with (16 * j) by lia. }
  split.
  { intros j Hj. unfold __readb. by rewrite (Hread 1%nat (Z.to_nat j)) by lia. }
  split; [|split].
  - eexists. split; [apply write_word_mapped; eapply mapped_weaken; [done | lia..]|]. split.
    + unfold __readl. rewrite <- (Z.add_0_r addr) at 1. rewrite (read_written 4 4 0) by lia.
      rewrite Z.mul_0_r, Z.shiftr_0_r. f_equal. apply wrap_wrap.
    + intros x Hx. rewrite write_bytes_lookup, le_bytes_length. rewrite decide_False; [done | lia].
  - intros x Hx. unfold m'. rewrite write_bytes_lookup, le_bytes_length. rewrite decide_False; [done | lia].
  - intros Hn. unfold __readq, read_word.
    assert (Hf : forall k a, (a + Z.of_nat k = addr + 8) -> addr <= a -> load_bytes (S k) m a = Fault).
    { induction k as [|k IH]; intros a Ha Hlo; cbn [load_bytes].
      - replace a with (addr + 8) by lia. unfold load8. by rewrite Hn.
      - destruct (Hm a) as [b Hb]; [lia|]. rewrite (proj2 (load8_Ret m a b) Hb). cbn [mbind res_bind].
        specialize (IH (a + 1) ltac:(lia) ltac:(lia)). cbn [load_bytes] in IH. by rewrite IH. }
    by rewrite Hf by lia.
Qed.

Lemma io_words_roundtrip_witness :
  exists m', __writeq 0x1122334455667788 0x1000 (write_bytes 0x1000 (replicate 8 0) ∅) = Ret m' /\
    __readq 0x1000 m' = Ret (u64 0x1122334455667788).
Proof.
  destruct (io_words_roundtrip 0x1122334455667788 0x1000 (write_bytes 0x1000 (replicate 8 0) ∅))
    as (m' & E & H & _).
  - exact (bytes_at_mapped _ _ _ (bytes_at_written ∅ 0x1000 (replicate 8 0))).
  - exists m'. exact (conj E H).
Defined.
