(* ===== verification/Memory.v ===== *)
(** * Page descriptors and the memory zone (page.h, memory.h, page.c, memory.c)

    The table [mem_map] of page descriptors, its initialisation by
    [mem_map_init] on memory the boot allocator returns, and [memory_init],
    which sets up the only node and its only zone, links the pages of the zone
    through their list heads and counts the free ones. A [struct page *] is
    the index of its descriptor in [mem_map]; the list heads of the pages live
    in a list heap at the addresses the descriptors have. *)

From S2P Require Import Prelude CList BootMem.

(** ** Data *)

Record page := {
  pg_private : Z;        (* the order of the block the page heads, or -1 *)
  pg_index : Z;
  pg_count : Z;
  pg_flags : Z;
  pg_virtual : Z;
  pg_zone : option Z;    (* page_zone: index of the zone, None for no zone *)
  pg_slab : Z
}.

Definition sizeof_page : Z := 72.

Record zone := {
  free_pages : Z;
  zone_start_paddr : Z;
  zone_size : Z;
  pages : Z;
  zone_mem_map : Z;      (* index of the first descriptor *)
  zone_start_pfn : Z
}.

Definition MAX_NR_ZONES : Z := 1.
Definition ZONE_NORMAL : Z := 0.
Definition ONE_MB : Z := 1024 * 1024.

(** [pg_data_t]; [node_next] and the back pointers of the zones are constant. *)
Record pg_data := {
  node_zones : list zone;
  nr_zones : Z;
  node_start_paddr : Z;
  node_size : Z;
  node_id : Z
}.

Definition set_count (c : Z) (p : page) : page :=
  {| pg_private := pg_private p; pg_index := pg_index p; pg_count := c;
     pg_flags := pg_flags p; pg_virtual := pg_virtual p; pg_zone := pg_zone p;
     pg_slab := pg_slab p |}.

Definition set_flags (f : Z) (p : page) : page :=
  {| pg_private := pg_private p; pg_index := pg_index p; pg_count := pg_count p;
     pg_flags := f; pg_virtual := pg_virtual p; pg_zone := pg_zone p;
     pg_slab := pg_slab p |}.

Definition set_private (v : Z) (p : page) : page :=
  {| pg_private := v; pg_index := pg_index p; pg_count := pg_count p;
     pg_flags := pg_flags p; pg_virtual := pg_virtual p; pg_zone := pg_zone p;
     pg_slab := pg_slab p |}.

Definition set_zone (z : option Z) (p : page) : page :=
  {| pg_private := pg_private p; pg_index := pg_index p; pg_count := pg_count p;
     pg_flags := pg_flags p; pg_virtual := pg_virtual p; pg_zone := z;
     pg_slab := pg_slab p |}.

Definition set_slab (s : Z) (p : page) : page :=
  {| pg_private := pg_private p; pg_index := pg_index p; pg_count := pg_count p;
     pg_flags := pg_flags p; pg_virtual := pg_virtual p; pg_zone := pg_zone p;
     pg_slab := s |}.

Definition set_free_pages (n : Z) (z : zone) : zone :=
  {| free_pages := n; zone_start_paddr := zone_start_paddr z; zone_size := zone_size z;
     pages := pages z; zone_mem_map := zone_mem_map z; zone_start_pfn := zone_start_pfn z |}.

(** ** Addresses and descriptors *)

Definition virt_to_page (vaddr : Z) : Z := Z.shiftr (__pa vaddr) PAGE_SHIFT.

Definition page_to_virt (pg : Z) : Z := __va (u64 (Z.shiftl (u64 pg) PAGE_SHIFT)).

(** ** [mem_map_init] *)

Definition page_count (phy_mem_size : Z) : Z :=
  u32 (u64 (phy_mem_size * 0x100000) / PAGE_SIZE).

Definition mem_map_page (phy_mem_size : Z) : Z :=
  let mem_map_size := s32 (page_count phy_mem_size * sizeof_page + 11) in
  s32 (PAGE_ALIGN (u64 mem_map_size) / PAGE_SIZE).

Definition init_page (l va : Z) (p : page) : page :=
  {| pg_private := u64 (- 1); pg_index := l; pg_count := 0; pg_flags := 0;
     pg_virtual := va; pg_zone := pg_zone p; pg_slab := pg_slab p |}.

(** The body of the initialisation loop. *)
Definition mem_map_step (mem_map l : Z) (st : list page * list_heap * Z)
    : res (list page * list_heap * Z) :=
  let '(mm, h, virtual_addr) := st in
  p ← aget mm l;
  mm ← aset mm l (init_page l virtual_addr p);
  Ret (mm, INIT_LIST_HEAD (mem_map + sizeof_page * l) h, u64 (virtual_addr + 0x1000)).

(** [for (l = a; l < b; l++) mem_map[l].count = 1;] *)
Definition set_busy (a b : Z) (mm : list page) : res (list page) :=
  for_loop (Z.to_nat (b - a)) a (fun l mm => p ← aget mm l; aset mm l (set_count 1 p)) mm.

(** [area] is what the memory of the table held before. The result is the
    address of the table, the table, the list heads and the boot allocator. *)
Definition mem_map_init (phy_mem_size : Z) (area : list page) (h : list_heap) (b : bootmem)
    : res (Z * list page * list_heap * bootmem) :=
  '(mem_map, b) ← alloc_bootmem (u64 (mem_map_page phy_mem_size)) b;
  '(mm, h, _) ←
    for_loop (Z.to_nat (page_count phy_mem_size)) 0 (mem_map_step mem_map)
      (area, h, PAGE_OFFSET);
  p ← aget mm 0;
  mm ← aset mm 0 (set_count 1 p);
  mm ← set_busy 0x9f 0x200 mm;
  mm ← set_busy (u32 (bootmem_page_start b)) (bootmem_page_index b) mm;
  Ret (mem_map, mm, h, b).

(** ** [memory_init] *)

Definition setup_node (phy_mem_size : Z) (n : pg_data) : pg_data :=
  {| node_zones := node_zones n; nr_zones := MAX_NR_ZONES; node_start_paddr := 0;
     node_size := u64 (phy_mem_size * ONE_MB); node_id := 0 |}.

Definition setup_zone (n : pg_data) (z : zone) : zone :=
  {| free_pages := free_pages z;
     zone_size := node_size n;
     zone_start_paddr := node_start_paddr n;
     pages := node_size n / PAGE_SIZE;
     zone_start_pfn := 0;
     zone_mem_map := 0 |}.

(** [list_add_tail] of a page of the zone, and its [page_zone]. *)
Definition link_step (mem_map head l : Z) (st : list page * list_heap)
    : res (list page * list_heap) :=
  let '(mm, h) := st in
  h ← list_add_tail (mem_map + sizeof_page * l) head h;
  p ← aget mm l;
  mm ← aset mm l (set_zone (Some ZONE_NORMAL) p);
  Ret (mm, h).

Definition link_pages (mem_map : Z) (z : zone) (mm : list page) (h : list_heap)
    : res (list page * list_heap) :=
  for_loop (Z.to_nat (pages z - zone_start_pfn z)) (zone_start_pfn z)
    (link_step mem_map (mem_map + sizeof_page * zone_mem_map z)) (mm, h).

(** The traversal of the pages from the list head of [mem_map[0]]. *)
Definition count_step (mem_map : Z) (mm : list page) (pg free : Z) : res (Z * bool) :=
  p ← aget mm ((pg - mem_map) / sizeof_page);
  Ret (if pg_count p =? 0 then u64 (free + 1) else free, false).

Definition count_free (mem_map : Z) (mm : list page) (h : list_heap) (free : Z) : res (Z * Z) :=
  list_for_each_entry (list_fuel h) h mem_map (count_step mem_map mm) free.

Definition memory_init (phy_mem_size mem_map : Z) (mm : list page) (h : list_heap) (n : pg_data)
    : res (list page * list_heap * pg_data) :=
  let n := setup_node phy_mem_size n in
  z0 ← aget (node_zones n) ZONE_NORMAL;
  let z := setup_zone n z0 in
  '(mm, h) ← link_pages mem_map z mm h;
  '(_, free) ← count_free mem_map mm h (free_pages z);
  zs ← aset (node_zones n) ZONE_NORMAL (set_free_pages free z);
  Ret (mm, h, {| node_zones := zs; nr_zones := nr_zones n;
                 node_start_paddr := node_start_paddr n; node_size := node_size n;
                 node_id := node_id n |}).

(** ** Lemmas *)

Lemma page_to_virt_eq i : 0 <= i < 2 ^ 35 -> page_to_virt i = PAGE_OFFSET + 4096 * i.
Proof.
  intros Hi. unfold page_to_virt, __va, PAGE_SHIFT. rewrite Z.shiftl_mul_pow2 by lia.
  rewrite (wrap_small 64 i) by lia. rewrite (wrap_small 64 (i * 2 ^ 12)) by lia.
  unfold PAGE_OFFSET. rewrite wrap_small by lia. lia.
Qed.

Lemma virt_to_page_eq i o :
  0 <= i < 2 ^ 35 -> 0 <= o < 4096 -> virt_to_page (PAGE_OFFSET + 4096 * i + o) = i.
Proof.
  intros Hi Ho. unfold virt_to_page, __pa, PAGE_SHIFT.
  replace (PAGE_OFFSET + 4096 * i + o - PAGE_OFFSET) with (i * 4096 + o) by lia.
  rewrite wrap_small by lia. rewrite Z.shiftr_div_pow2 by lia. change (2 ^ 12) with 4096.
  rewrite Z.div_add_l by lia. rewrite (Z.div_small o) by lia. lia.
Qed.

Lemma page_count_eq m : 0 <= m < 2 ^ 23 -> page_count m = 256 * m.
Proof.
  intros Hm. unfold page_count. rewrite (wrap_small 64) by lia. rewrite PAGE_SIZE_eq.
  replace (m * 0x100000) with (256 * m * 4096) by lia. rewrite Z.div_mul by lia.
  apply wrap_small. lia.
Qed.

(** The pages the table takes: enough for all its descriptors. *)
Lemma mem_map_page_eq m :
  0 <= m < 2 ^ 16 ->
  mem_map_page m = (256 * m * 72 + 11 + 4095) / 4096 /\
  0 <= mem_map_page m < 2 ^ 19 /\ 256 * m * sizeof_page <= 4096 * mem_map_page m.
Proof.
  intros Hm. unfold mem_map_page, sizeof_page. rewrite page_count_eq by lia.
  rewrite (sext_small 32 (_ + 11)) by lia. rewrite wrap_small by lia.
  rewrite PAGE_ALIGN_eq by lia. rewrite PAGE_SIZE_eq, Z.div_mul by lia.
  assert (Hd : 0 <= (256 * m * 72 + 11 + 4095) / 4096 < 2 ^ 19).
  { split; [apply Z.div_pos; lia | apply Z.div_lt_upper_bound; lia]. }
  rewrite sext_small by lia. split_and!; [done | lia | lia |].
  pose proof (Z.mul_succ_div_gt (256 * m * 72 + 11 + 4095) 4096). lia.
Qed.

Definition free_count (mm : list page) : Z :=
  Z.of_nat (length (filter (fun p => pg_count p = 0) mm)).

(** The list heads of the first [n] pages at [a] are initialised. *)
Definition heads_ready (a n : Z) (h : list_heap) : Prop :=
  forall i, 0 <= i < n -> h !! (a + sizeof_page * i)
    = Some {| next := a + sizeof_page * i; prev := a + sizeof_page * i |}.

Definition init_at (i : Z) (p : page) : page := init_page i (PAGE_OFFSET + 4096 * i) p.

Lemma mem_map_loop n a area h :
  0 <= n < 2 ^ 32 -> n <= Z.of_nat (length area) ->
  exists h',
    for_loop (Z.to_nat n) 0 (mem_map_step a) (area, h, PAGE_OFFSET)
    = Ret (alter_range init_at 0 n area, h', PAGE_OFFSET + 4096 * n) /\ heads_ready a n h'.
Proof.
  intros Hn Hl.
  destruct (for_loop_inv (fun l '(mm, h, va) =>
      mm = alter_range init_at 0 l area /\ va = PAGE_OFFSET + 4096 * l /\ heads_ready a l h)
    (Z.to_nat n) 0 (mem_map_step a) (area, h, PAGE_OFFSET))
    as ([[mm h'] va] & E & -> & -> & Hr); [| |exists h'; split; [|]].
  - split_and!; [by rewrite alter_range_nil | done |]. intros i Hi. lia.
  - intros l [[mm h1] va] Hl1 (-> & -> & Hr).
    destruct (alter_range_step init_at 0 l area) as (x & _ & Hg & Hs); [lia..|].
    rewrite Z.add_0_l in Hg, Hs. unfold mem_map_step. rewrite Hg. cbn [mbind res_bind].
    unfold init_at in Hs at 2. rewrite Hs. cbn [mbind res_bind].
    eexists. split; [done|]. split_and!; [done | unfold PAGE_OFFSET; rewrite wrap_small; lia |].
    intros i Hi. unfold INIT_LIST_HEAD. destruct (decide (i = l)) as [->|].
    + by rewrite lookup_insert_eq.
    + rewrite lookup_insert_ne by (unfold sizeof_page; lia). apply Hr. lia.
  - rewrite E. replace (0 + Z.of_nat (Z.to_nat n)) with n by lia. done.
  - replace (0 + Z.of_nat (Z.to_nat n)) with n in Hr by lia. done.
Qed.

Lemma set_busy_spec a b mm :
  0 <= a -> b <= Z.of_nat (length mm) -> a <= b ->
  set_busy a b mm = Ret (alter_range (fun _ => set_count 1) a (b - a) mm).
Proof. intros Ha Hb Hab. unfold set_busy. apply alter_range_loop; lia. Qed.

(** The pages [mem_map_init] marks as busy. *)
Definition boot_busy (start last i : Z) : Prop :=
  i = 0 \/ 0x9f <= i < 0x200 \/ start <= i < last.

#[global] Instance boot_busy_dec start last i : Decision (boot_busy start last i).
Proof. unfold boot_busy. solve_decision. Defined.

Definition fresh_page (busy : bool) (i : Z) (p : page) : Prop :=
  pg_index p = i /\ pg_count p = (if busy then 1 else 0) /\ pg_flags p = 0 /\
  pg_private p = u64 (- 1) /\ pg_virtual p = page_to_virt i.

Lemma mem_map_init_spec m area h b :
  bm_ok b -> 2 <= m < 2 ^ 16 -> 256 * m <= Z.of_nat (length area) ->
  let last := bootmem_page_index b + mem_map_page m in
  last < bootmem_page_max b -> last <= 256 * m ->
  exists mm h',
    mem_map_init m area h b
    = Ret (PAGE_OFFSET + 4096 * bootmem_page_index b, mm, h',
           {| bootmem_page_index := last; bootmem_page_start := bootmem_page_start b;
              bootmem_page_max := bootmem_page_max b |}) /\
    length mm = length area /\
    heads_ready (PAGE_OFFSET + 4096 * bootmem_page_index b) (256 * m) h' /\
    (forall i, 0 <= i < 256 * m -> exists p, mm !! Z.to_nat i = Some p /\
       fresh_page (bool_decide (boot_busy (bootmem_page_start b) last i)) i p).
Proof.
  intros Hb Hm Hl last Hmax Hin. destruct (mem_map_page_eq m) as (_ & Hmp & _); [lia|].
  pose proof (bm_start b Hb) as Hs. unfold mem_map_init.
  rewrite (wrap_small 64) by lia. rewrite alloc_bootmem_ok by (done || lia).
  cbn [mbind res_bind]. rewrite page_count_eq by lia.
  destruct (mem_map_loop (256 * m) (PAGE_OFFSET + 4096 * bootmem_page_index b) area h)
    as (h' & -> & Hr); [lia | lia |]. cbn [mbind res_bind].
  pose proof (alter_range_length init_at 0 (256 * m) area) as L1.
  destruct (aget_lt (alter_range init_at 0 (256 * m) area) 0) as [p0 Hp0]; [lia|].
  rewrite Hp0. cbn [mbind res_bind]. rewrite aset_lt by lia. cbn [mbind res_bind].
  apply aget_Ret in Hp0 as [_ Hp0]. cbn [bootmem_page_start bootmem_page_index].
  rewrite set_busy_spec by (rewrite ?length_insert; lia). cbn [mbind res_bind].
  rewrite (wrap_small 32) by lia. fold last.
  rewrite set_busy_spec by (rewrite ?alter_range_length, ?length_insert; lia).
  cbn [mbind res_bind]. eexists _, h'. split; [done|]. split; [|split; [done|]].
  { by rewrite !alter_range_length, length_insert, alter_range_length. }
  intros i Hi. rewrite !alter_range_lookup.
  destruct (lookup_lt_is_Some_2 area (Z.to_nat i)) as [p Hp]; [lia|].
  assert (Hin0 : <[Z.to_nat 0:=set_count 1 p0]> (alter_range init_at 0 (256 * m) area) !! Z.to_nat i
    = Some (if decide (i = 0) then set_count 1 (init_at i p) else init_at i p)).
  { assert (Hpi : alter_range init_at 0 (256 * m) area !! Z.to_nat i = Some (init_at i p)).
    { rewrite alter_range_lookup, Hp. simpl. rewrite decide_True by lia. by rewrite Z2Nat.id by lia. }
    destruct (decide (i = 0)) as [->|].
    - rewrite list_lookup_insert_eq by lia. congruence.
    - by rewrite list_lookup_insert_ne by lia. }
  rewrite Hin0. cbn [fmap option_fmap option_map]. eexists. split; [done|].
  rewrite Z2Nat.id by lia. unfold fresh_page, boot_busy. rewrite page_to_virt_eq by lia.
  assert (Hc : forall x, pg_index (set_count 1 x) = pg_index x /\ pg_flags (set_count 1 x) = pg_flags x
    /\ pg_private (set_count 1 x) = pg_private x /\ pg_virtual (set_count 1 x) = pg_virtual x) by done.
  repeat case_decide; (rewrite bool_decide_true by lia) || (rewrite bool_decide_false by lia); done.
Qed.

(** ** The pages of the zone *)

(** A list head that is alone in its list, added to itself, stays alone. *)
Lemma list_add_tail_self a h :
  h !! a = Some {| next := a; prev := a |} -> list_add_tail a a h = Ret h.
Proof.
  intros Ha. unfold list_add_tail, __list_add, set_prev, set_next, node.
  repeat (rewrite ?lookup_insert_eq, ?Ha; cbn [mbind res_bind next prev]).
  rewrite !insert_insert_eq. by rewrite insert_id.
Qed.

Definition page_heads (a k n : Z) : list Z := (fun i => a + sizeof_page * i) <$> seqZ k n.

Lemma elem_of_page_heads a k n x :
  x ∈ page_heads a k n <-> exists i, x = a + sizeof_page * i /\ k <= i < k + n.
Proof.
  unfold page_heads. rewrite list_elem_of_fmap.
  setoid_rewrite elem_of_seqZ. done.
Qed.

Lemma link_loop n a mm h :
  0 < n <= Z.of_nat (length mm) -> heads_ready a n h ->
  exists h', for_loop (Z.to_nat n) 0 (link_step a a) (mm, h)
    = Ret (alter_range (fun _ => set_zone (Some ZONE_NORMAL)) 0 n mm, h') /\
    dlist h' a (page_heads a 1 (n - 1)).
Proof.
  intros Hn Hr. pose proof (Hr 0 ltac:(lia)) as H0. rewrite Z.mul_0_r, Z.add_0_r in H0.
  destruct (for_loop_inv (fun l '(t, h) =>
      t = alter_range (fun _ => set_zone (Some ZONE_NORMAL)) 0 l mm /\
      dlist h a (page_heads a 1 (l - 1)) /\
      (forall i, l <= i < n -> 0 < i -> is_Some (h !! (a + sizeof_page * i))) /\
      (l = 0 -> h !! a = Some {| next := a; prev := a |}))
    (Z.to_nat n) 0 (link_step a a) (mm, h)) as ([t h'] & E & -> & Hd & _).
  - split_and!; [by rewrite alter_range_nil | | |].
    + split; [by repeat constructor; set_solver|].
      simpl. unfold link, nxt, prv. by rewrite H0.
    + intros i Hi _. rewrite Hr by lia. eauto.
    + done.
  - intros l [t h1] Hl (-> & Hd & Hs & H1).
    destruct (alter_range_step (fun _ => set_zone (Some ZONE_NORMAL)) 0 l mm)
      as (x & _ & Hg & Hst); [lia..|]. rewrite Z.add_0_l in Hg, Hst.
    unfold link_step. destruct (decide (l = 0)) as [->|Hne].
    + rewrite Z.mul_0_r, Z.add_0_r, list_add_tail_self by auto. cbn [mbind res_bind].
      rewrite Hg. cbn [mbind res_bind]. rewrite Hst. cbn [mbind res_bind].
      eexists. split; [done|]. split_and!; [done | done | | lia].
      intros i Hi. apply Hs. lia.
    + destruct (list_add_tail_dlist h1 a (page_heads a 1 (l - 1)) (a + sizeof_page * l))
        as (h2 & -> & Hd2 & Hdom & _); [done | | apply Hs; lia |].
      { rewrite elem_of_cons, elem_of_page_heads. unfold sizeof_page.
        intros [Hx|(i & Hx & Hi)]; lia. }
      cbn [mbind res_bind]. rewrite Hg. cbn [mbind res_bind]. rewrite Hst. cbn [mbind res_bind].
      eexists. split; [done|]. split_and!; [done | | | lia].
      * assert (Hsq : seqZ 1 (l + 1 - 1) = seqZ 1 (l - 1) ++ [l]).
        { replace (l + 1 - 1) with (l - 1 + 1) by lia. rewrite seqZ_app by lia.
          replace (1 + (l - 1)) with l by lia. done. }
        unfold page_heads. rewrite Hsq, fmap_app. done.
      * intros i Hi Hp. apply elem_of_dom. rewrite Hdom. apply elem_of_dom, Hs; lia.
  - exists h'. rewrite E. by replace (0 + Z.of_nat (Z.to_nat n)) with n in * by lia.
Qed.

Lemma count_step_page a mm k p free :
  mm !! Z.to_nat k = Some p -> 0 <= k ->
  count_step a mm (a + sizeof_page * k) free
  = Ret (if pg_count p =? 0 then u64 (free + 1) else free, false).
Proof.
  intros Hp Hk. unfold count_step.
  replace ((a + sizeof_page * k - a) / sizeof_page) with k
    by (unfold sizeof_page; apply Z.div_unique_exact; lia).
  by rewrite (proj2 (aget_Ret _ _ p)).
Qed.

Lemma count_walk a mm suf : forall k free,
  drop (Z.to_nat k) mm = suf -> 0 <= k -> 0 <= free -> free + Z.of_nat (length suf) < 2 ^ 64 ->
  walk a (page_heads a k (Z.of_nat (length suf))) (count_step a mm) free
  = Ret (a, free + free_count suf).
Proof.
  induction suf as [|p suf IH]; intros k free Hd Hk Hf Hlt.
  - simpl. f_equal. f_equal. unfold free_count. simpl. lia.
  - cbn [length]. unfold page_heads. rewrite Nat2Z.inj_succ, seqZ_cons by lia.
    rewrite fmap_cons. cbn [walk].
    assert (Hp : mm !! Z.to_nat k = Some p).
    { rewrite <- (Nat.add_0_r (Z.to_nat k)), <- lookup_drop, Hd. done. }
    rewrite (count_step_page a mm k p) by done. cbn [mbind res_bind].
    rewrite Z.pred_succ. fold (page_heads a (Z.succ k) (Z.of_nat (length suf))).
    rewrite IH.
    + unfold free_count. rewrite filter_cons. cbn [length] in Hlt.
      destruct (Z.eqb_spec (pg_count p) 0).
      * rewrite decide_True by done. rewrite wrap_small by lia. cbn [length]. do 2 f_equal. lia.
      * by rewrite decide_False by done.
    + replace (Z.to_nat (Z.succ k)) with (Z.to_nat k + 1)%nat by lia.
      by rewrite <- drop_drop, Hd.
    + lia.
    + destruct (pg_count p =? 0); [|lia]. apply wrap_range. lia.
    + cbn [length] in Hlt. destruct (pg_count p =? 0); [|lia]. rewrite wrap_small by lia. lia.
Qed.

Lemma free_count_cons p mm :
  free_count (p :: mm) = (if decide (pg_count p = 0) then 1 else 0) + free_count mm.
Proof. unfold free_count. rewrite filter_cons. case_decide; simpl; lia. Qed.

Lemma free_count_le mm : 0 <= free_count mm <= Z.of_nat (length mm).
Proof. unfold free_count. pose proof (length_filter (fun p => pg_count p = 0) mm). lia. Qed.

Lemma alter_range_all {A} (f : A -> A) n (l : list A) :
  n = Z.of_nat (length l) -> alter_range (fun _ => f) 0 n l = f <$> l.
Proof.
  intros ->. apply list_eq. intros i. rewrite alter_range_lookup, list_lookup_fmap.
  destruct (l !! i) eqn:E; simpl; [|done]. apply lookup_lt_Some in E.
  by rewrite decide_True by lia.
Qed.

Lemma free_count_fmap (f : page -> page) mm :
  (forall p, pg_count (f p) = pg_count p) -> free_count (f <$> mm) = free_count mm.
Proof.
  intros Hf. induction mm as [|p mm IH]; [done|].
  rewrite fmap_cons, !free_count_cons, IH, Hf. done.
Qed.

(** The zone [memory_init] sets up on a machine with [m] megabytes. *)
Definition boot_zone (m free : Z) : zone :=
  {| free_pages := free; zone_start_paddr := 0; zone_size := m * ONE_MB;
     pages := 256 * m; zone_mem_map := 0; zone_start_pfn := 0 |}.

Lemma memory_init_spec m a mm h n z0 p0 :
  0 < m < 2 ^ 16 -> Z.of_nat (length mm) = 256 * m -> heads_ready a (256 * m) h ->
  node_zones n = [z0] -> free_pages z0 = 0 -> mm !! 0%nat = Some p0 -> pg_count p0 <> 0 ->
  exists h' n', memory_init m a mm h n
      = Ret (set_zone (Some ZONE_NORMAL) <$> mm, h', n') /\
    dlist h' a (page_heads a 1 (256 * m - 1)) /\
    node_zones n' = [boot_zone m (free_count mm)].
Proof.
  intros Hm Hl Hr Hz Hf0 Hp0 Hc0. unfold memory_init, setup_node. cbn [node_zones].
  rewrite Hz. cbn [aget mbind res_bind]. change (aget [z0] ZONE_NORMAL) with (Ret z0).
  cbn [mbind res_bind].
  unfold link_pages, setup_zone. cbn [pages zone_start_pfn zone_mem_map free_pages node_size].
  unfold ONE_MB. change (1024 * 1024) with 1048576. rewrite PAGE_SIZE_eq.
  rewrite (wrap_small 64) by lia.
  assert (Hpg : m * 1048576 / 4096 = 256 * m).
  { replace (m * 1048576) with (256 * m * 4096) by lia. by rewrite Z.div_mul by lia. }
  rewrite !Hpg.
  rewrite Z.sub_0_r, Z.mul_0_r, Z.add_0_r.
  destruct (link_loop (256 * m) a mm h) as (h' & -> & Hd); [lia | done |]. cbn [mbind res_bind].
  rewrite alter_range_all by lia. unfold count_free. rewrite Hf0.
  rewrite (list_for_each_walk h' a _ _ 0 Hd).
  set (f := set_zone (Some ZONE_NORMAL)).
  destruct mm as [|p mm]; [done|]. injection Hp0 as ->. cbn [length] in Hl.
  pose proof (count_walk a (f <$> p0 :: mm) (f <$> mm) 1 0) as Hw.
  rewrite length_fmap in Hw. replace (256 * m - 1) with (Z.of_nat (length mm)) by lia.
  rewrite Hw by (done || lia). cbn [mbind res_bind].
  eexists h', _. split; [done|]. split.
  - by replace (Z.of_nat (length mm)) with (256 * m - 1) by lia.
  - cbn [node_zones]. unfold boot_zone, set_free_pages. cbn. do 2 f_equal.
    rewrite free_count_fmap by done. by rewrite free_count_cons, decide_False by done.
Qed.

(** Both steps of the boot sequence. *)
Definition boot_memory (m : Z) (area : list page) (h : list_heap) (b : bootmem) (n : pg_data)
    : res (Z * list page * list_heap * pg_data) :=
  '(a, mm, h, b) ← mem_map_init m area h b;
  '(mm, h, n) ← memory_init m a mm h n;
  Ret (a, mm, h, n).

Lemma boot_memory_spec (m : Z) (area : list page) (h : list_heap) (b : bootmem) (n : pg_data)
    (z0 : zone) :
  bm_ok b -> 2 <= m < 2 ^ 16 -> Z.of_nat (length area) = 256 * m ->
  node_zones n = [z0] -> free_pages z0 = 0 ->
  let last := bootmem_page_index b + mem_map_page m in
  last < bootmem_page_max b -> last <= 256 * m ->
  256 * m * sizeof_page <= 4096 * mem_map_page m /\
  exists mm h' n',
    boot_memory m area h b n
    = Ret (PAGE_OFFSET + 4096 * bootmem_page_index b, mm, h', n') /\
    Z.of_nat (length mm) = 256 * m /\
    (forall i, 0 <= i < 256 * m -> exists p, mm !! Z.to_nat i = Some p /\
       fresh_page (bool_decide (boot_busy (bootmem_page_start b) last i)) i p /\
       pg_zone p = Some ZONE_NORMAL) /\
    (let a := PAGE_OFFSET + 4096 * bootmem_page_index b in
     dlist h' a (page_heads a 1 (256 * m - 1))) /\
    node_zones n' = [boot_zone m (free_count mm)].
Proof.
  intros Hb Hm Hl Hz Hf0 last Hmax Hin. split; [by apply mem_map_page_eq; lia|].
  destruct (mem_map_init_spec m area h b Hb Hm ltac:(lia) Hmax Hin)
    as (mm & h1 & E & Hlm & Hr & Hp). unfold boot_memory. rewrite E. cbn [mbind res_bind].
  destruct (Hp 0) as (p0 & Hp0 & (_ & Hc0 & _)); [lia|].
  rewrite bool_decide_true in Hc0 by (unfold boot_busy; lia).
  destruct (memory_init_spec m (PAGE_OFFSET + 4096 * bootmem_page_index b) mm h1 n z0 p0)
    as (h' & n' & -> & Hd & Hn'); [lia | lia | done..| lia |]. cbn [mbind res_bind].
  eexists _, h', n'. split; [done|]. rewrite length_fmap.
  rewrite free_count_fmap by done. split_and!; [lia | | done | done].
  intros i Hi. destruct (Hp i Hi) as (p & Hpi & Hfresh). rewrite list_lookup_fmap, Hpi.
  eexists. split; [done|]. by split.
Qed.

(** ** Properties *)

(** Descriptors and linear addresses are inverse: the page of any address
    in a page is that page, and its address is the first of the page. *)
Theorem page_address_roundtrip (i o : Z) :
  0 <= i < 2 ^ 35 -> 0 <= o < 4096 ->
  virt_to_page (page_to_virt i + o) = i /\
  page_to_virt (virt_to_page (PAGE_OFFSET + 4096 * i + o)) = PAGE_OFFSET + 4096 * i /\
  __pa (page_to_virt i) = 4096 * i.
Proof.
  intros Hi Ho. rewrite page_to_virt_eq, virt_to_page_eq by lia.
  rewrite page_to_virt_eq by lia. split_and!; [done.. |]. unfold __pa.
  replace (PAGE_OFFSET + 4096 * i - PAGE_OFFSET) with (4096 * i) by lia.
  apply wrap_small. lia.
Qed.

Lemma page_address_roundtrip_witness :
  virt_to_page (page_to_virt 0x245 + 0xabc) = 0x245 /\
  page_to_virt (virt_to_page (PAGE_OFFSET + 4096 * 0x245 + 0xabc)) = PAGE_OFFSET + 4096 * 0x245 /\
  __pa (page_to_virt 0x245) = 4096 * 0x245.
Proof. apply page_address_roundtrip; lia. Defined.

(** C21: the memory of a machine with [m] megabytes after boot. The table of
    descriptors fits in the pages the boot allocator gives it; page [i] has
    index [i], its linear address, no owner and a reference count of 1 exactly
    when it is page 0, in the BIOS and kernel image range or in the kernel
    heap up to the last boot allocation; all pages but the first are linked,
    in order, behind the list head of the first; and the zone counts the pages
    that are not in use. *)
Theorem memory_booted (m : Z) (area : list page) (h : list_heap) (b : bootmem) (n : pg_data)
    (z0 : zone) :
  bm_ok b -> 2 <= m < 2 ^ 16 -> Z.of_nat (length area) = 256 * m ->
  node_zones n = [z0] -> free_pages z0 = 0 ->
  let last := bootmem_page_index b + mem_map_page m in
  last < bootmem_page_max b -> last <= 256 * m ->
  256 * m * sizeof_page <= 4096 * mem_map_page m /\
  exists mm h' n',
    boot_memory m area h b n
    = Ret (PAGE_OFFSET + 4096 * bootmem_page_index b, mm, h', n') /\
    Z.of_nat (length mm) = 256 * m /\
    (forall i, 0 <= i < 256 * m -> exists p, mm !! Z.to_nat i = Some p /\
       fresh_page (bool_decide (boot_busy (bootmem_page_start b) last i)) i p /\
       pg_zone p = Some ZONE_NORMAL) /\
    (let a := PAGE_OFFSET + 4096 * bootmem_page_index b in
     dlist h' a (page_heads a 1 (256 * m - 1))) /\
    node_zones n' = [boot_zone m (free_count mm)].
Proof. apply boot_memory_spec. Qed.

Definition garbage_page : page :=
  {| pg_private := 7; pg_index := 7; pg_count := 7; pg_flags := 7; pg_virtual := 7;
     pg_zone := None; pg_slab := 7 |}.

Definition garbage_zone : zone :=
  {| free_pages := 0; zone_start_paddr := 7; zone_size := 7; pages := 7; zone_mem_map := 7;
     zone_start_pfn := 7 |}.

(** A machine with 4 MB whose heap starts at page 0x203. *)
Definition sample_bootmem : bootmem :=
  {| bootmem_page_index := 0x203; bootmem_page_start := 0x200; bootmem_page_max := 0x3ff |}.

Definition empty_node : pg_data :=
  {| node_zones := [garbage_zone]; nr_zones := 0; node_start_paddr := 0; node_size := 0;
     node_id := 0 |}.

Lemma memory_booted_witness :
  256 * 4 * sizeof_page <= 4096 * mem_map_page 4 /\
  exists mm h' n',
    boot_memory 4 (replicate 1024 garbage_page) ∅ sample_bootmem empty_node
    = Ret (PAGE_OFFSET + 4096 * 0x203, mm, h', n') /\
    Z.of_nat (length mm) = 256 * 4 /\
    (forall i, 0 <= i < 256 * 4 -> exists p, mm !! Z.to_nat i = Some p /\
       fresh_page (bool_decide (boot_busy 0x200 (0x203 + mem_map_page 4) i)) i p /\
       pg_zone p = Some ZONE_NORMAL) /\
    (let a := PAGE_OFFSET + 4096 * 0x203 in dlist h' a (page_heads a 1 (256 * 4 - 1))) /\
    node_zones n' = [boot_zone 4 (free_count mm)].
Proof.
  apply (memory_booted 4 (replicate 1024 garbage_page) ∅ sample_bootmem empty_node garbage_zone).
  - split; simpl; lia.
  - lia.
  - by rewrite length_replicate.
  - done.
  - done.
  - vm_compute. reflexivity.
  - vm_compute. discriminate.
Defined.
