(* ===== verification/PageAlloc.v ===== *)
(** * The page allocator (page_alloc.c)

    First-fit allocation of blocks of [2^order] pages from the only zone, on
    the table of page descriptors of Memory. A [struct page *] is an index in
    the table, or [None] for NULL; reading or writing a descriptor outside the
    table is a [Fault]. The allocator refines an abstract map from the first
    page of each live block to its order. Messages are in Messages. *)

From S2P Require Import Prelude BootMem Memory.

(** ** State *)

Record kpages := { mem_map : list page; zones : list zone }.

Definition MAX_PAGE_ORDER : Z := 5.

(** ** Allocation *)

(** [for (last = 0; last < count; last++) if (map[first+last].count > 0) break;]
    with [n] iterations left; the result is the final [last]. *)
Fixpoint probe (n : nat) (mm : list page) (base last : Z) : res Z :=
  match n with
  | O => Ret last
  | S n' =>
      p ← aget mm (base + last);
      if 0 <? pg_count p then Ret last else probe n' mm base (last + 1)
  end.

(** The search for [count] free pages from [first] on; [map] is the index of
    the first descriptor of the zone. *)
Fixpoint scan (fuel : nat) (mm : list page) (map pages count first : Z) : res (option Z) :=
  match fuel with
  | O => NoFuel
  | S fuel' =>
      if first <? pages then
        p ← aget mm (map + first);
        if negb (pg_count p =? 0) then scan fuel' mm map pages count (first + 1)
        else
          last ← probe (Z.to_nat count) mm (map + first) 0;
          if last =? count then Ret (Some first)
          else scan fuel' mm map pages count (first + last + 1)
      else Ret None
  end.

(** The first zone from [i] on with more than [count] free pages. *)
Fixpoint find_zone (fuel : nat) (zs : list zone) (count i : Z) : res Z :=
  match fuel with
  | O => NoFuel
  | S fuel' =>
      if i <? MAX_NR_ZONES then
        z ← aget zs i;
        if free_pages z >? count then Ret i else find_zone fuel' zs count (i + 1)
      else Ret i
  end.

Definition mark_step (gfp_mask base last : Z) (mm : list page) : res (list page) :=
  p ← aget mm (base + last);
  aset mm (base + last) (set_flags gfp_mask (set_count 1 p)).

(** The pages found are taken: [map + first] is the result. *)
Definition take_pages (gfp_mask order count i first : Z) (z : zone) (st : kpages)
    : res (Z * kpages) :=
  let pg := zone_mem_map z + first in
  mm ← for_loop (Z.to_nat count) 0 (mark_step gfp_mask pg) (mem_map st);
  zs ← aset (zones st) i (set_free_pages (u64 (free_pages z - count)) z);
  p ← aget mm pg;
  mm ← aset mm pg (set_private order p);
  Ret (pg, {| mem_map := mm; zones := zs |}).

(** The loop closed by [goto FIND_ZONE]; a zone without a run of [count] free
    pages is left for the next one. *)
Fixpoint alloc_from (fuel : nat) (gfp_mask order count i : Z) (st : kpages)
    : res (option Z * kpages) :=
  match fuel with
  | O => NoFuel
  | S fuel' =>
      i ← find_zone 2 (zones st) count i;
      if MAX_NR_ZONES <=? i then Ret (None, st)
      else
        z ← aget (zones st) i;
        first ← scan (S (Z.to_nat (pages z))) (mem_map st) (zone_mem_map z) (pages z) count 0;
        match first with
        | Some first =>
            '(pg, st) ← take_pages gfp_mask order count i first z st;
            Ret (Some pg, st)
        | None => alloc_from fuel' gfp_mask order count (i + 1) st
        end
  end.

Definition __alloc_pages (gfp_mask order : Z) (st : kpages) : res (option Z * kpages) :=
  alloc_from 2 gfp_mask order (u64 (Z.shiftl 1 order)) 0 st.

Definition alloc_pages (gfp_mask order : Z) (st : kpages) : res (option Z * kpages) :=
  if order >? MAX_PAGE_ORDER then Ret (None, st) else __alloc_pages gfp_mask order st.

(** The difference of NULL and [mem_map] is not defined. *)
Definition __get_free_pages (gfp_mask order : Z) (st : kpages) : res (Z * kpages) :=
  if order >? MAX_PAGE_ORDER then Ret (0, st)
  else
    '(pg, st) ← __alloc_pages gfp_mask order st;
    match pg with
    | Some pg => Ret (page_to_virt pg, st)
    | None => Fault
    end.

(** ** Release *)

Definition free_step (page zone : Z) (i : Z) (st : kpages) : res kpages :=
  p ← aget (mem_map st) (page + i);
  let c := u64 (pg_count p - 1) in
  mm ← aset (mem_map st) (page + i) (set_count c p);
  if c =? 0 then
    z ← aget (zones st) zone;
    zs ← aset (zones st) zone (set_free_pages (u64 (free_pages z + 1)) z);
    Ret {| mem_map := mm; zones := zs |}
  else Ret {| mem_map := mm; zones := zones st |}.

Definition __free_pages (page : option Z) (order : Z) (st : kpages) : res kpages :=
  let count := u64 (s32 (Z.shiftl 1 order)) in
  match page with
  | None => Ret st
  | Some page =>
      if order >? MAX_PAGE_ORDER then Ret st
      else
        p ← aget (mem_map st) page;
        if pg_count p <=? 0 then Ret st
        else if negb (pg_private p =? order) then Ret st
        else
          match pg_zone p with
          | None => Fault
          | Some zone =>
              st ← for_loop (Z.to_nat count) 0 (free_step page zone) st;
              p ← aget (mem_map st) page;
              if pg_count p =? 0 then
                mm ← aset (mem_map st) page (set_private (u64 (- 1)) p);
                Ret {| mem_map := mm; zones := zones st |}
              else Ret st
          end
  end.

(** [free_pages] of the source; the zone's counter has that name here. *)
Definition free_pages_at (addr order : Z) (st : kpages) : res kpages :=
  if order >? MAX_PAGE_ORDER then Ret st else __free_pages (Some (virt_to_page addr)) order st.

(** ** The abstract allocator *)

(** The live blocks: first page to order. [rsv] are the pages taken at boot. *)
Abbreviation blocks := (gmap Z Z).

Definition in_block (s o i : Z) : Prop := s <= i < s + 2 ^ o.

Definition used (bl : blocks) (rsv : Z -> bool) (i : Z) : Prop :=
  rsv i = true \/ exists s o, bl !! s = Some o /\ in_block s o i.

(** The state implements the blocks [bl]. *)
Record rep (st : kpages) (bl : blocks) (rsv : Z -> bool) : Prop := {
  rep_zone : exists z, zones st = [z] /\ zone_mem_map z = 0 /\
    pages z = Z.of_nat (length (mem_map st)) /\ free_pages z = free_count (mem_map st);
  rep_size : Z.of_nat (length (mem_map st)) < 2 ^ 35;
  rep_page : forall i p, 0 <= i -> mem_map st !! Z.to_nat i = Some p ->
    (pg_count p = 0 /\ ~ used bl rsv i \/ pg_count p = 1 /\ used bl rsv i) /\
    pg_private p = default (u64 (- 1)) (bl !! i) /\ pg_zone p = Some ZONE_NORMAL;
  rep_block : forall s o, bl !! s = Some o ->
    0 <= s /\ 0 <= o <= MAX_PAGE_ORDER /\ s + 2 ^ o <= Z.of_nat (length (mem_map st)) /\
    forall i, in_block s o i -> rsv i = false;
  rep_disjoint : forall s o s' o' i, bl !! s = Some o -> bl !! s' = Some o' ->
    in_block s o i -> in_block s' o' i -> s = s'
}.

(** [n] consecutive free pages from [s] on. *)
Definition free_run (mm : list page) (n s : Z) : Prop :=
  0 <= s /\ s + n <= Z.of_nat (length mm) /\
  forall i p, s <= i < s + n -> mm !! Z.to_nat i = Some p -> pg_count p = 0.

(** [s] is the first run of [n] free pages. *)
Definition first_run (mm : list page) (n s : Z) : Prop :=
  free_run mm n s /\ forall s', free_run mm n s' -> s <= s'.

(** ** The search *)

Lemma probe_spec mm base n : forall last,
  0 <= base + last -> base + last + Z.of_nat n <= Z.of_nat (length mm) ->
  exists k, probe n mm base last = Ret k /\ last <= k <= last + Z.of_nat n /\
    (forall i p, last <= i < k -> mm !! Z.to_nat (base + i) = Some p -> pg_count p <= 0) /\
    (k < last + Z.of_nat n -> exists p, mm !! Z.to_nat (base + k) = Some p /\ 0 < pg_count p).
Proof.
  induction n as [|n IH]; intros last Hb Hl; cbn [probe].
  - exists last. split_and!; [done | lia | lia | intros; lia | lia].
  - destruct (aget_lt mm (base + last)) as [p Hp]; [lia|]. rewrite Hp. cbn [mbind res_bind].
    apply aget_Ret in Hp as [_ Hp]. destruct (Z.ltb_spec 0 (pg_count p)).
    + exists last. split_and!; [done | lia | lia | intros; lia |]. eauto.
    + destruct (IH (last + 1)) as (k & -> & Hk & Hfree & Hstop); [lia..|].
      exists k. split_and!; [done | lia | lia | |].
      * intros i q Hi Hq. destruct (decide (i = last)) as [->|]; [|apply (Hfree i); [lia | done]].
        congruence.
      * intros Hlt. apply Hstop. lia.
Qed.

(** A probe that stops stops at the same page whatever is behind it. *)
Lemma probe_more mm base n m x : forall last k,
  probe n mm base last = Ret k -> k < last + Z.of_nat n ->
  mm !! Z.to_nat (base + k) = Some x -> 0 < pg_count x ->
  probe (n + m) mm base last = Ret k.
Proof.
  induction n as [|n IH]; intros last k Hk Hlt Hx Hpos; cbn [probe Nat.add] in *.
  - injection Hk as <-. lia.
  - apply bind_ret_inv in Hk as (p & -> & Hk). cbn [mbind res_bind].
    destruct (0 <? pg_count p); [done|]. apply IH; [done | lia | done..].
Qed.

(** The pages of a table have counts 0 or more. *)
Definition counts_ok (mm : list page) : Prop :=
  forall (i : nat) p, mm !! i = Some p -> 0 <= pg_count p.

(** When there is a run of free pages, the search returns the first one, and
    every descriptor it looks at is in the table. *)
Lemma scan_first mm count s : forall fuel first,
  counts_ok mm -> 0 < count -> first_run mm count s -> 0 <= first <= s ->
  (Z.to_nat (s - first) < fuel)%nat ->
  scan fuel mm 0 (Z.of_nat (length mm)) count first = Ret (Some s).
Proof.
  intros fuel. induction fuel as [|fuel IH]; intros first Hc Hn Hs Hf Hfuel; [lia|].
  pose proof Hs as [(Hs0 & Hsl & Hfree) Hmin]. cbn [scan].
  rewrite (proj2 (Z.ltb_lt _ _)) by lia.
  destruct (aget_lt mm (0 + first)) as [p Hp]; [lia|]. rewrite Hp. cbn [mbind res_bind].
  apply aget_Ret in Hp as [_ Hp]. rewrite Z.add_0_l in *.
  destruct (Z.eqb_spec (pg_count p) 0) as [Hz|Hz]; cbn [negb].
  - destruct (probe_spec mm first (Z.to_nat count) 0) as (k & -> & Hk & Hpre & Hstop); [lia..|].
    cbn [mbind res_bind]. destruct (Z.eqb_spec k count) as [->|Hne].
    + assert (Hrun : free_run mm count first).
      { split_and!; [lia | lia |]. intros i q Hi Hq. specialize (Hpre (i - first) q).
        replace (first + (i - first)) with i in Hpre by lia.
        specialize (Hpre ltac:(lia) Hq). specialize (Hc _ _ Hq). lia. }
      apply Hmin in Hrun. do 2 f_equal. lia.
    + destruct Hstop as (q & Hq & Hbusy); [lia|].
      assert (first + k < s).
      { destruct (decide (first + k < s)); [done|].
        specialize (Hfree (first + k) q ltac:(lia) Hq). lia. }
      apply IH; [done | done | done | lia | lia].
  - assert (first <> s).
    { intros ->. apply Hz, (Hfree s); [lia | done]. }
    apply IH; [done | done | done | lia | lia].
Qed.

(** When there is none and the last page is in use, the search ends without a
    result inside the table. *)
Lemma scan_none mm count p : forall fuel first,
  counts_ok mm -> 0 < count -> (forall s, ~ free_run mm count s) ->
  last mm = Some p -> pg_count p <> 0 ->
  0 <= first <= Z.of_nat (length mm) -> (Z.to_nat (Z.of_nat (length mm) - first) < fuel)%nat ->
  scan fuel mm 0 (Z.of_nat (length mm)) count first = Ret None.
Proof.
  intros fuel. induction fuel as [|fuel IH];
    intros first Hc Hn Hno Hlast Hp0 Hf Hfuel; [lia|]. cbn [scan].
  destruct (Z.ltb_spec first (Z.of_nat (length mm))) as [Hlt|]; [|done].
  destruct (aget_lt mm (0 + first)) as [q Hq]; [lia|]. rewrite Hq. cbn [mbind res_bind].
  apply aget_Ret in Hq as [_ Hq]. rewrite Z.add_0_l in *.
  destruct (Z.eqb_spec (pg_count q) 0) as [Hz|Hz]; cbn [negb]; [|apply IH; done || lia].
  assert (Hlp : mm !! Z.to_nat (Z.of_nat (length mm) - 1) = Some p).
  { rewrite last_lookup in Hlast. rewrite <- Hlast. f_equal. lia. }
  assert (Hpr : exists k, probe (Z.to_nat count) mm first 0 = Ret k /\ 0 <= k < count /\
                  first + k < Z.of_nat (length mm)).
  { destruct (decide (first + count <= Z.of_nat (length mm))).
    - destruct (probe_spec mm first (Z.to_nat count) 0) as (k & E & Hk & Hpre & Hstop); [lia..|].
      exists k. split; [done|]. destruct (decide (k = count)) as [->|]; [|lia]. exfalso.
      apply (Hno first). split_and!; [lia | lia |]. intros i x Hi Hx.
      specialize (Hpre (i - first) x). replace (first + (i - first)) with i in Hpre by lia.
      specialize (Hpre ltac:(lia) Hx). specialize (Hc _ _ Hx). lia.
    - destruct (probe_spec mm first (Z.to_nat (Z.of_nat (length mm) - first)) 0)
        as (k & E & Hk & Hpre & Hstop); [lia..|].
      assert (k < Z.of_nat (length mm) - first).
      { destruct (decide (k = Z.of_nat (length mm) - first)) as [->|]; [|lia]. exfalso.
        specialize (Hpre (Z.of_nat (length mm) - 1 - first) p).
        replace (first + (Z.of_nat (length mm) - 1 - first))
          with (Z.of_nat (length mm) - 1) in Hpre by lia.
        specialize (Hpre ltac:(lia) Hlp). specialize (Hc _ _ Hlp). lia. }
      exists k. split; [|lia]. destruct Hstop as (x & Hx & Hpos); [lia|].
      replace (Z.to_nat count)
        with (Z.to_nat (Z.of_nat (length mm) - first)
              + Z.to_nat (count - (Z.of_nat (length mm) - first)))%nat by lia.
      eapply probe_more; [done | lia | done..]. }
  destruct Hpr as (k & -> & Hk & Hkl). cbn [mbind res_bind].
  rewrite (proj2 (Z.eqb_neq k count)) by lia. apply IH; done || lia.
Qed.

(** ** Counting the free pages *)

Definition zero_one (P : Prop) `{Decision P} : Z := if decide P then 1 else 0.

Lemma free_count_insert mm (i : nat) p q :
  mm !! i = Some p ->
  free_count (<[i := q]> mm)
  = free_count mm - zero_one (pg_count p = 0) + zero_one (pg_count q = 0).
Proof.
  revert i. induction mm as [|x mm IH]; intros i Hi; [done|]. unfold zero_one in *.
  destruct i as [|i]; simpl in Hi.
  - injection Hi as ->. cbn. rewrite !free_count_cons. repeat case_decide; lia.
  - change (<[S i:=q]> (x :: mm)) with (x :: <[i:=q]> mm). rewrite !free_count_cons.
    rewrite (IH i Hi). repeat case_decide; lia.
Qed.

(** A range whose pages all change from free to used, or back. *)
Lemma free_count_range (f : Z -> page -> page) (a b : Z) mm s n :
  0 <= s -> 0 <= n -> s + n <= Z.of_nat (length mm) ->
  (forall i p, s <= i < s + n -> mm !! Z.to_nat i = Some p ->
     zero_one (pg_count p = 0) = a /\ zero_one (pg_count (f i p) = 0) = b) ->
  free_count (alter_range f s n mm) = free_count mm + n * (b - a).
Proof.
  intros Hs Hn Hl Hf. revert Hl Hf. pattern n. apply natlike_ind; [| |done].
  - intros _ _. rewrite alter_range_nil. lia.
  - intros k Hk IH Hl Hf. destruct (alter_range_step f s k mm) as (x & Hx & Hg & Ha); [lia..|].
    apply aset_Ret in Ha as [_ Ha]. unfold Z.succ. rewrite Ha.
    apply aget_Ret in Hg as [_ Hg]. rewrite (free_count_insert _ _ x _ Hg).
    destruct (Hf (s + k) x) as [-> ->]; [lia | done |].
    rewrite IH; [lia | lia |]. intros i p Hi. apply Hf. lia.
Qed.

(** ** Allocation on a table that implements [bl] *)

Definition take_page (gfp_mask order s i : Z) (p : page) : page :=
  let q := set_flags gfp_mask (set_count 1 p) in if i =? s then set_private order q else q.

Lemma take_pages_spec gfp order i s n z st :
  zone_mem_map z = 0 -> aset (zones st) i (set_free_pages (u64 (free_pages z - n)) z)
    = Ret (<[Z.to_nat i := set_free_pages (u64 (free_pages z - n)) z]> (zones st)) ->
  0 <= s -> 0 < n -> s + n <= Z.of_nat (length (mem_map st)) ->
  take_pages gfp order n i s z st
  = Ret (s, {| mem_map := alter_range (take_page gfp order s) s n (mem_map st);
               zones := <[Z.to_nat i := set_free_pages (u64 (free_pages z - n)) z]> (zones st) |}).
Proof.
  intros Hz Hset Hs Hn Hl. unfold take_pages. rewrite Hz, Z.add_0_l.
  unfold mark_step.
  rewrite (for_loop_shift (Z.to_nat n) s 0 (fun k mm => p ← aget mm k;
     aset mm k (set_flags gfp (set_count 1 p)))).
  rewrite Z.add_0_r, (alter_range_loop (fun _ p => set_flags gfp (set_count 1 p))) by lia.
  cbn [mbind res_bind]. rewrite Hset. cbn [mbind res_bind].
  destruct (lookup_lt_is_Some_2 (mem_map st) (Z.to_nat s)) as [p Hp]; [lia|].
  rewrite (proj2 (aget_Ret _ _ (set_flags gfp (set_count 1 p)))).
  2:{ split; [done|]. rewrite alter_range_lookup, Hp. simpl. by rewrite decide_True by lia. }
  cbn [mbind res_bind]. rewrite aset_lt by (rewrite alter_range_length; lia).
  cbn [mbind res_bind]. do 3 f_equal. apply list_eq. intros j.
  destruct (decide (j = Z.to_nat s)) as [->|Hne].
  - rewrite list_lookup_insert_eq by (rewrite alter_range_length; lia).
    rewrite alter_range_lookup, Hp. simpl. rewrite decide_True by lia.
    unfold take_page. by rewrite Z2Nat.id, Z.eqb_refl by lia.
  - rewrite list_lookup_insert_ne by done. rewrite !alter_range_lookup.
    destruct (mem_map st !! j); simpl; [|done]. unfold take_page.
    by rewrite (proj2 (Z.eqb_neq _ _)) by lia.
Qed.

Lemma find_zone_one z count :
  find_zone 2 [z] count 0 = Ret (if free_pages z >? count then 0 else 1).
Proof. simpl. by destruct (_ >? _). Qed.

Lemma pow_order o : 0 <= o <= MAX_PAGE_ORDER ->
  u64 (Z.shiftl 1 o) = 2 ^ o /\ u64 (s32 (Z.shiftl 1 o)) = 2 ^ o /\ 0 < 2 ^ o <= 32.
Proof.
  unfold MAX_PAGE_ORDER. intros Ho. rewrite Z.shiftl_mul_pow2, Z.mul_1_l by lia.
  assert (0 < 2 ^ o <= 2 ^ 5) by (split; [lia | apply Z.pow_le_mono_r; lia]).
  change (2 ^ 5) with 32 in *.
  rewrite (sext_small 32) by (change (2 ^ (32 - 1)) with 2147483648; lia).
  rewrite wrap_small by lia. done.
Qed.

Lemma rep_counts st bl rsv : rep st bl rsv -> counts_ok (mem_map st).
Proof.
  intros Hr i p Hp. destruct (rep_page st bl rsv Hr (Z.of_nat i) p) as ([[-> _]|[-> _]] & _);
    [lia | by rewrite Nat2Z.id | lia | lia].
Qed.

Lemma rep_lookup st bl rsv i :
  rep st bl rsv -> 0 <= i < Z.of_nat (length (mem_map st)) ->
  exists p, mem_map st !! Z.to_nat i = Some p /\
    (pg_count p = 0 /\ ~ used bl rsv i \/ pg_count p = 1 /\ used bl rsv i) /\
    pg_private p = default (u64 (- 1)) (bl !! i) /\ pg_zone p = Some ZONE_NORMAL.
Proof.
  intros Hr Hi. destruct (lookup_lt_is_Some_2 (mem_map st) (Z.to_nat i)) as [p Hp]; [lia|].
  exists p. split; [done|]. by apply (rep_page st bl rsv Hr i p); [lia|].
Qed.

(** The pages of a free run are not used. *)
Lemma free_run_unused st bl rsv n s i :
  rep st bl rsv -> free_run (mem_map st) n s -> s <= i < s + n -> ~ used bl rsv i.
Proof.
  intros Hr (Hs & Hl & Hf) Hi. destruct (rep_lookup st bl rsv i Hr) as (p & Hp & Hc & _); [lia|].
  specialize (Hf i p Hi Hp). destruct Hc as [[_ Hu]|[Hc _]]; [done | lia].
Qed.

(** The new state of a successful allocation. *)
Definition allocated (gfp order s : Z) (st : kpages) : kpages :=
  {| mem_map := alter_range (take_page gfp order s) s (2 ^ order) (mem_map st);
     zones := set_free_pages (free_count (mem_map st) - 2 ^ order) <$> zones st |}.

Lemma alloc_run_spec gfp order st bl rsv s :
  rep st bl rsv -> 0 <= order <= MAX_PAGE_ORDER -> 2 ^ order < free_count (mem_map st) ->
  first_run (mem_map st) (2 ^ order) s ->
  __alloc_pages gfp order st = Ret (Some s, allocated gfp order s st).
Proof.
  intros Hr Ho Hfree Hrun. pose proof Hrun as [(Hs & Hl & _) _].
  destruct (pow_order order Ho) as (Hp1 & _ & Hp2).
  destruct (rep_zone st bl rsv Hr) as (z & Hz & Hz0 & Hzp & Hzf).
  pose proof (free_count_le (mem_map st)). pose proof (rep_size st bl rsv Hr).
  unfold __alloc_pages. rewrite Hp1. cbn [alloc_from]. rewrite Hz, find_zone_one, Hzf.
  cbn [mbind res_bind]. rewrite Z.gtb_ltb, (proj2 (Z.ltb_lt _ _)) by done.
  change (MAX_NR_ZONES <=? 0) with false. change (aget [z] 0) with (Ret z).
  cbn [mbind res_bind]. rewrite Hz0, Hzp.
  rewrite (scan_first _ _ s); [|by eapply rep_counts | lia | done | lia | lia].
  cbn [mbind res_bind]. rewrite take_pages_spec; [| done | by rewrite Hz | lia..].
  cbn [mbind res_bind]. unfold allocated. rewrite Hz, Hzf. cbn.
  rewrite (wrap_small 64) by lia. done.
Qed.

Lemma used_insert bl rsv s o i :
  bl !! s = None -> used (<[s := o]> bl) rsv i <-> used bl rsv i \/ in_block s o i.
Proof.
  intros Hs. unfold used. split.
  - intros [?|(s' & o' & Hb & Hi)]; [by left; left|].
    apply lookup_insert_Some in Hb as [[-> ->]|[_ Hb]]; [by right|]. left. right. eauto.
  - intros [[?|(s' & o' & Hb & Hi)]|Hi]; [by left | | right; exists s, o; by rewrite lookup_insert_eq].
    right. exists s', o'. split; [|done]. rewrite lookup_insert_ne; [done | congruence].
Qed.

(** A successful allocation adds the block. *)
Lemma alloc_rep gfp order st bl rsv s :
  rep st bl rsv -> 0 <= order <= MAX_PAGE_ORDER -> free_run (mem_map st) (2 ^ order) s ->
  rep (allocated gfp order s st) (<[s := order]> bl) rsv /\ bl !! s = None.
Proof.
  intros Hr Ho Hrun. pose proof Hrun as (Hs & Hl & Hf).
  destruct (pow_order order Ho) as (_ & _ & Hp2).
  assert (Hun : forall i, in_block s order i -> ~ used bl rsv i)
    by (intros i Hi; by eapply free_run_unused).
  assert (Hnone : bl !! s = None).
  { destruct (bl !! s) as [o|] eqn:E; [|done]. exfalso. apply (Hun s); [unfold in_block; lia|].
    right. exists s, o. split; [done|]. destruct (rep_block st bl rsv Hr s o E) as (_ & Ho' & _).
    destruct (pow_order o Ho') as (_ & _ & ?). unfold in_block. lia. }
  split; [|done]. split; cbn [mem_map zones allocated]; rewrite ?alter_range_length.
  - destruct (rep_zone st bl rsv Hr) as (z & Hz & Hz0 & Hzp & Hzf). rewrite Hz. eexists.
    split_and!; [done | done | done |]. cbn [free_pages set_free_pages].
    rewrite (free_count_range _ 1 0); [lia | lia | lia | lia |]. intros i p Hi Hp.
    specialize (Hf i p Hi Hp). unfold zero_one, take_page. rewrite decide_True by done.
    destruct (i =? s); done.
  - apply (rep_size st bl rsv Hr).
  - intros i q Hi Hq. rewrite alter_range_lookup in Hq.
    apply fmap_Some in Hq as (p & Hp & ->). rewrite Z2Nat.id by done.
    destruct (rep_page st bl rsv Hr i p Hi Hp) as (Hc & Hpr & Hzn).
    rewrite used_insert by done. unfold in_block.
    destruct (decide (s <= i < s + 2 ^ order)) as [Hin|Hout].
    + unfold take_page. destruct (Z.eqb_spec i s) as [->|Hne]; cbn.
      * rewrite lookup_insert_eq. split_and!; [right; split; [done | by right] | done | done].
      * rewrite lookup_insert_ne by done. split_and!; [right; split; [done | by right] | done | done].
    + rewrite lookup_insert_ne by lia. split_and!; [|done | done]. tauto.
  - intros s' o' Hb. apply lookup_insert_Some in Hb as [[<- <-]|[_ Hb]].
    + split_and!; [lia | lia | lia | lia |]. intros i Hi. apply not_true_is_false. intros Ht.
      apply (Hun i Hi). by left.
    + apply (rep_block st bl rsv Hr s' o' Hb).
  - intros s1 o1 s2 o2 i H1 H2 Hi1 Hi2.
    apply lookup_insert_Some in H1 as [[<- <-]|[_ H1]], H2 as [[<- <-]|[_ H2]]; [done | | |].
    + exfalso. apply (Hun i Hi1). right. eauto.
    + exfalso. apply (Hun i Hi2). right. eauto.
    + by apply (rep_disjoint st bl rsv Hr s1 o1 s2 o2 i).
Qed.

(** ** Release of a block *)

Definition release_page (s i : Z) (p : page) : page :=
  let q := set_count 0 p in if i =? s then set_private (u64 (- 1)) q else q.

Definition released (s o : Z) (st : kpages) : kpages :=
  {| mem_map := alter_range (release_page s) s (2 ^ o) (mem_map st);
     zones := set_free_pages (free_count (mem_map st) + 2 ^ o) <$> zones st |}.

Lemma free_loop s n z mm :
  0 <= s -> 0 <= n -> s + n <= Z.of_nat (length mm) ->
  0 <= free_pages z -> free_pages z + n < 2 ^ 64 ->
  (forall i p, s <= i < s + n -> mm !! Z.to_nat i = Some p -> pg_count p = 1) ->
  for_loop (Z.to_nat n) 0 (free_step s ZONE_NORMAL) {| mem_map := mm; zones := [z] |}
  = Ret {| mem_map := alter_range (fun _ => set_count 0) s n mm;
           zones := [set_free_pages (free_pages z + n) z] |}.
Proof.
  intros Hs Hn Hl Hz0 Hz1 Hone.
  destruct (for_loop_inv (fun j st => st = {| mem_map := alter_range (fun _ => set_count 0) s j mm;
      zones := [set_free_pages (free_pages z + j) z] |})
    (Z.to_nat n) 0 (free_step s ZONE_NORMAL) {| mem_map := mm; zones := [z] |}) as (t & -> & ->).
  - rewrite alter_range_nil, Z.add_0_r. by destruct z.
  - intros j t Hj ->.
    destruct (alter_range_step (fun _ => set_count 0) s j mm) as (x & Hx & Hg & Hst); [lia..|].
    unfold free_step. cbn [mem_map zones]. rewrite Hg. cbn [mbind res_bind].
    rewrite (Hone (s + j) x) by (done || lia). change (u64 (1 - 1)) with 0. rewrite Hst.
    cbn [mbind res_bind Z.eqb].
    change (aget [?y] ZONE_NORMAL) with (Ret y). cbn [mbind res_bind free_pages set_free_pages].
    rewrite (wrap_small 64) by lia. eexists. split; [done|].
    rewrite Z.add_assoc. done.
  - by replace (0 + Z.of_nat (Z.to_nat n)) with n by lia.
Qed.

Lemma free_block_spec st bl rsv s o :
  rep st bl rsv -> bl !! s = Some o -> __free_pages (Some s) o st = Ret (released s o st).
Proof.
  intros Hr Hb. destruct (rep_block st bl rsv Hr s o Hb) as (Hs & Ho & Hl & _).
  destruct (pow_order o Ho) as (_ & Hp1 & Hp2).
  destruct (rep_zone st bl rsv Hr) as (z & Hz & Hz0 & Hzp & Hzf).
  pose proof (free_count_le (mem_map st)). pose proof (rep_size st bl rsv Hr).
  assert (Hone : forall i p, s <= i < s + 2 ^ o -> mem_map st !! Z.to_nat i = Some p -> pg_count p = 1).
  { intros i p Hi Hp. destruct (rep_page st bl rsv Hr i p) as ([[_ Hu]|[Hc _]] & _); [lia | done | | done].
    exfalso. apply Hu. right. exists s, o. split; [done|]. unfold in_block. lia. }
  unfold __free_pages. rewrite Hp1.
  rewrite Z.gtb_ltb, (proj2 (Z.ltb_ge _ _)) by lia.
  destruct (rep_lookup st bl rsv s Hr) as (p & Hp & _ & Hpr & Hpz); [lia|].
  rewrite (proj2 (aget_Ret _ _ p)) by done. cbn [mbind res_bind].
  rewrite (Hone s p) by (done || lia). rewrite Hpr, Hb. cbn [from_option id].
  rewrite Z.eqb_refl, Hpz. cbn [negb]. change (1 <=? 0) with false. cbv iota.
  destruct st as [mm zs]. cbn [mem_map zones] in *. subst zs.
  rewrite free_loop by (done || lia). cbn [mbind res_bind mem_map].
  rewrite (proj2 (aget_Ret _ _ (set_count 0 p))).
  2:{ split; [done|]. rewrite alter_range_lookup, Hp. simpl. by rewrite decide_True by lia. }
  cbn [mbind res_bind pg_count set_count Z.eqb].
  rewrite aset_lt by (rewrite alter_range_length; lia). cbn [mbind res_bind].
  unfold released. cbn [mem_map zones fmap list_fmap]. rewrite Hzf. do 2 f_equal.
  apply list_eq. intros j.
  destruct (decide (j = Z.to_nat s)) as [->|Hne].
  - rewrite list_lookup_insert_eq by (rewrite alter_range_length; lia).
    rewrite alter_range_lookup, Hp. simpl. rewrite decide_True by lia.
    unfold release_page. by rewrite Z2Nat.id, Z.eqb_refl by lia.
  - rewrite list_lookup_insert_ne by done. rewrite !alter_range_lookup.
    destruct (mm !! j); simpl; [|done]. unfold release_page.
    by rewrite (proj2 (Z.eqb_neq _ _)) by lia.
Qed.

Lemma used_delete st bl rsv s o i :
  rep st bl rsv -> bl !! s = Some o ->
  used (delete s bl) rsv i <-> used bl rsv i /\ ~ in_block s o i.
Proof.
  intros Hr Hs. unfold used. split.
  - intros [Ht|(s' & o' & Hb & Hi)].
    + split; [by left|]. intros Hi.
      destruct (rep_block st bl rsv Hr s o Hs) as (_ & _ & _ & Hn). rewrite (Hn i Hi) in Ht. done.
    + apply lookup_delete_Some in Hb as [Hne Hb]. split; [right; eauto|].
      intros Hi'. apply Hne. by apply (rep_disjoint st bl rsv Hr s o s' o' i).
  - intros [[Ht|(s' & o' & Hb & Hi)] Hni]; [by left|]. right. exists s', o'. split; [|done].
    apply lookup_delete_Some. split; [|done]. intros ->. congruence.
Qed.

Lemma free_rep st bl rsv s o :
  rep st bl rsv -> bl !! s = Some o -> rep (released s o st) (delete s bl) rsv.
Proof.
  intros Hr Hb. destruct (rep_block st bl rsv Hr s o Hb) as (Hs & Ho & Hl & Hrsv).
  destruct (pow_order o Ho) as (_ & _ & Hp2).
  assert (Hone : forall i p, in_block s o i -> mem_map st !! Z.to_nat i = Some p -> pg_count p = 1).
  { intros i p Hi Hp. unfold in_block in Hi.
    destruct (rep_page st bl rsv Hr i p) as ([[_ Hu]|[Hc _]] & _); [lia | done | | done].
    exfalso. apply Hu. right. exists s, o. split; [done|]. unfold in_block. lia. }
  split; cbn [mem_map zones released]; rewrite ?alter_range_length.
  - destruct (rep_zone st bl rsv Hr) as (z & Hz & Hz0 & Hzp & Hzf). rewrite Hz. eexists.
    split_and!; [done | done | done |]. cbn [free_pages set_free_pages].
    rewrite (free_count_range _ 0 1); [lia | lia | lia | lia |]. intros i p Hi Hp.
    unfold zero_one, release_page. rewrite (Hone i p) by done. destruct (i =? s); done.
  - apply (rep_size st bl rsv Hr).
  - intros i q Hi Hq. rewrite alter_range_lookup in Hq.
    apply fmap_Some in Hq as (p & Hp & ->). rewrite Z2Nat.id by done.
    destruct (rep_page st bl rsv Hr i p Hi Hp) as (Hc & Hpr & Hzn).
    rewrite (used_delete st bl rsv s o) by done. unfold in_block.
    destruct (decide (s <= i < s + 2 ^ o)) as [Hin|Hout].
    + assert (Hni : i <> s -> bl !! i = None).
      { intros Hne. destruct (bl !! i) as [o'|] eqn:E; [|done]. exfalso. apply Hne.
        destruct (rep_block st bl rsv Hr i o' E) as (_ & Ho' & _).
        destruct (pow_order o' Ho') as (_ & _ & ?).
        apply (rep_disjoint st bl rsv Hr i o' s o i); [done | done | |]; unfold in_block; lia. }
      unfold release_page. destruct (Z.eqb_spec i s) as [->|Hne]; cbn.
      * rewrite lookup_delete_eq. split_and!; [left; split; [done | tauto] | done | done].
      * rewrite lookup_delete_ne by done. rewrite Hpr, Hni by done.
        split_and!; [left; split; [done | tauto] | done | done].
    + rewrite lookup_delete_ne by lia. split_and!; [|done | done]. tauto.
  - intros s' o' Hb'. apply lookup_delete_Some in Hb' as [_ Hb'].
    apply (rep_block st bl rsv Hr s' o' Hb').
  - intros s1 o1 s2 o2 i [_ H1]%lookup_delete_Some [_ H2]%lookup_delete_Some.
    by apply (rep_disjoint st bl rsv Hr s1 o1 s2 o2 i).
Qed.

(** Anything but a live block with its own order is refused. *)
Lemma free_refused st bl rsv i o :
  rep st bl rsv -> 0 <= i < Z.of_nat (length (mem_map st)) -> 0 <= o < 2 ^ 63 -> bl !! i <> Some o ->
  __free_pages (Some i) o st = Ret st.
Proof.
  intros Hr Hi Ho Hne. unfold __free_pages. cbv zeta.
  destruct (o >? MAX_PAGE_ORDER) eqn:Emax; [done|].
  destruct (rep_lookup st bl rsv i Hr Hi) as (p & Hp & Hc & Hpr & _).
  rewrite (proj2 (aget_Ret _ _ p)) by (split; [lia | done]). cbn [mbind res_bind].
  destruct Hc as [[-> _]|[-> _]]; [done|]. change (1 <=? 0) with false. cbv iota.
  rewrite (proj2 (Z.eqb_neq (pg_private p) o)); [done|]. rewrite Hpr.
  destruct (bl !! i) as [o'|]; cbn; [congruence|].
  rewrite Z.gtb_ltb in Emax. apply Z.ltb_ge in Emax. unfold MAX_PAGE_ORDER in Emax.
  change (u64 (- 1)) with 18446744073709551615. lia.
Qed.

(** ** Runs of free pages *)

Lemma free_run_Forall mm n s :
  0 <= n -> 0 <= s -> s + n <= Z.of_nat (length mm) ->
  free_run mm n s <->
  Forall (fun p => pg_count p = 0) (take (Z.to_nat n) (drop (Z.to_nat s) mm)).
Proof.
  intros Hn Hs Hl. rewrite Forall_lookup. split.
  - intros (_ & _ & Hf) i p Hi. apply lookup_take_Some in Hi as [Hi Hlt].
    rewrite lookup_drop in Hi. apply (Hf (s + Z.of_nat i)); [lia|].
    by replace (Z.to_nat (s + Z.of_nat i)) with (Z.to_nat s + i)%nat by lia.
  - intros Hf. split_and!; [done | done |]. intros i p Hi Hp.
    apply (Hf (Z.to_nat (i - s))). apply lookup_take_Some. rewrite lookup_drop.
    split; [|lia]. by replace (Z.to_nat s + Z.to_nat (i - s))%nat with (Z.to_nat i) by lia.
Qed.

#[global] Instance free_run_dec mm n s : Decision (free_run mm n s).
Proof.
  destruct (decide (0 <= n)).
  - destruct (decide (0 <= s)); [|right; unfold free_run; lia].
    destruct (decide (s + n <= Z.of_nat (length mm))); [|right; unfold free_run; lia].
    destruct (decide (Forall (fun p => pg_count p = 0) (take (Z.to_nat n) (drop (Z.to_nat s) mm)))).
    + left. by apply free_run_Forall.
    + right. by rewrite free_run_Forall.
  - destruct (decide (0 <= s)); [|right; unfold free_run; lia].
    destruct (decide (s + n <= Z.of_nat (length mm))); [|right; unfold free_run; lia].
    left. split_and!; [done | done | intros; lia].
Defined.

Lemma first_run_exists mm n s : free_run mm n s -> exists s0, first_run mm n s0.
Proof.
  intros Hs. assert (Hk : exists k, Z.to_nat s = k) by eauto. destruct Hk as [k Hk].
  revert s Hs Hk. induction k as [k IH] using lt_wf_ind. intros s Hs Hk.
  destruct (decide (Exists (free_run mm n) (seqZ 0 s))) as [Hex|Hno].
  - apply Exists_exists in Hex as (s' & Hin & Hs'). apply elem_of_seqZ in Hin.
    apply (IH (Z.to_nat s')) with (s := s'); [lia | done | done].
  - exists s. split; [done|]. intros s' Hs'. destruct (decide (s <= s')); [done|]. exfalso.
    apply Hno, Exists_exists. exists s'. split; [|done]. apply elem_of_seqZ.
    destruct Hs' as [? _]. lia.
Qed.

Lemma run_cases mm n : (exists s, first_run mm n s) \/ (forall s, ~ free_run mm n s) .
Proof.
  destruct (decide (Exists (free_run mm n) (seqZ 0 (Z.of_nat (length mm) + Z.abs n + 1)))) as [Hex|Hno].
  - left. apply Exists_exists in Hex as (s & _ & Hs). by eapply first_run_exists.
  - right. intros s Hs. apply Hno, Exists_exists. exists s. split; [|done].
    apply elem_of_seqZ. destruct Hs as (? & ? & _). lia.
Qed.

Lemma alloc_none_few gfp order st bl rsv :
  rep st bl rsv -> 0 <= order <= MAX_PAGE_ORDER -> free_count (mem_map st) <= 2 ^ order ->
  __alloc_pages gfp order st = Ret (None, st).
Proof.
  intros Hr Ho Hfew. destruct (pow_order order Ho) as (Hp1 & _ & Hp2).
  destruct (rep_zone st bl rsv Hr) as (z & Hz & _ & _ & Hzf).
  unfold __alloc_pages. rewrite Hp1. cbn [alloc_from]. rewrite Hz, find_zone_one, Hzf.
  rewrite Z.gtb_ltb, (proj2 (Z.ltb_ge _ _)) by done. done.
Qed.

Lemma alloc_none_fragmented gfp order st bl rsv p :
  rep st bl rsv -> 0 <= order <= MAX_PAGE_ORDER ->
  (forall s, ~ free_run (mem_map st) (2 ^ order) s) ->
  last (mem_map st) = Some p -> pg_count p <> 0 ->
  __alloc_pages gfp order st = Ret (None, st).
Proof.
  intros Hr Ho Hno Hlast Hp. destruct (pow_order order Ho) as (Hp1 & _ & Hp2).
  destruct (rep_zone st bl rsv Hr) as (z & Hz & Hz0 & Hzp & Hzf).
  unfold __alloc_pages. rewrite Hp1. cbn [alloc_from]. rewrite Hz, find_zone_one.
  destruct (free_pages z >? 2 ^ order); [|done]. cbn [mbind res_bind].
  change (MAX_NR_ZONES <=? 0) with false. change (aget [z] 0) with (Ret z).
  cbn [mbind res_bind]. rewrite Hz0, Hzp.
  rewrite (scan_none _ _ p); [|by eapply rep_counts | lia | done | done | done | lia | lia].
  done.
Qed.

Lemma alloc_pages_eq gfp order st :
  0 <= order <= MAX_PAGE_ORDER -> alloc_pages gfp order st = __alloc_pages gfp order st.
Proof.
  intros Ho. unfold alloc_pages. by rewrite Z.gtb_ltb, (proj2 (Z.ltb_ge _ _)) by lia.
Qed.

Lemma probe_fault mm n : forall base last,
  0 <= base + last <= Z.of_nat (length mm) ->
  Z.of_nat (length mm) < base + last + Z.of_nat n ->
  (forall i p, base + last <= i -> mm !! Z.to_nat i = Some p -> pg_count p <= 0) ->
  probe n mm base last = Fault.
Proof.
  induction n as [|n IH]; intros base last Hb Hl Hf; [lia|]. cbn [probe].
  destruct (decide (base + last = Z.of_nat (length mm))).
  - by rewrite aget_ge by lia.
  - destruct (aget_lt mm (base + last)) as [p Hp]; [lia|]. rewrite Hp. cbn [mbind res_bind].
    apply aget_Ret in Hp as [_ Hp]. rewrite (proj2 (Z.ltb_ge _ _)) by (apply (Hf (base + last)); [lia | done]).
    apply IH; [lia | lia |]. intros i q Hi. apply Hf. lia.
Qed.

Lemma scan_fault mm count p : forall fuel first,
  counts_ok mm -> 0 < count -> (forall s, ~ free_run mm count s) ->
  last mm = Some p -> pg_count p = 0 ->
  0 <= first < Z.of_nat (length mm) -> (Z.to_nat (Z.of_nat (length mm) - first) < fuel)%nat ->
  scan fuel mm 0 (Z.of_nat (length mm)) count first = Fault.
Proof.
  intros fuel. induction fuel as [|fuel IH];
    intros first Hc Hn Hno Hlast Hp0 Hf Hfuel; [lia|]. cbn [scan].
  rewrite (proj2 (Z.ltb_lt _ _)) by lia.
  destruct (aget_lt mm (0 + first)) as [q Hq]; [lia|]. rewrite Hq. cbn [mbind res_bind].
  apply aget_Ret in Hq as [_ Hq]. rewrite Z.add_0_l in *.
  assert (Hlp : mm !! Z.to_nat (Z.of_nat (length mm) - 1) = Some p).
  { rewrite last_lookup in Hlast. rewrite <- Hlast. f_equal. lia. }
  assert (Hnext : forall i x, mm !! Z.to_nat i = Some x -> 0 <= i < Z.of_nat (length mm) ->
            0 < pg_count x -> i + 1 < Z.of_nat (length mm)).
  { intros i x Hx Hi Hpos. destruct (decide (i = Z.of_nat (length mm) - 1)) as [->|]; [|lia].
    congruence || (rewrite Hx in Hlp; injection Hlp as ->; lia). }
  destruct (Z.eqb_spec (pg_count q) 0) as [Hz|Hz]; cbn [negb].
  2:{ specialize (Hc _ _ Hq) as Hqc. specialize (Hnext first q Hq ltac:(lia) ltac:(lia)).
      apply IH; done || lia. }
  destruct (probe_spec mm first (Z.to_nat (Z.min count (Z.of_nat (length mm) - first))) 0)
    as (k & E & Hk & Hpre & Hstop); [lia..|].
  destruct (decide (k < Z.min count (Z.of_nat (length mm) - first))) as [Hlt|Hge].
  - destruct Hstop as (x & Hx & Hpos); [lia|].
    replace (Z.to_nat count)
      with (Z.to_nat (Z.min count (Z.of_nat (length mm) - first))
            + Z.to_nat (count - Z.min count (Z.of_nat (length mm) - first)))%nat by lia.
    rewrite (probe_more _ _ _ _ x 0 k) by (done || lia). cbn [mbind res_bind].
    rewrite (proj2 (Z.eqb_neq k count)) by lia.
    specialize (Hnext (first + k) x Hx ltac:(lia) Hpos). apply IH; done || lia.
  - assert (Hrest : forall i x, first + 0 <= i < first + k -> mm !! Z.to_nat i = Some x -> pg_count x <= 0).
    { intros i x Hi Hx. apply (Hpre (i - first)); [lia|].
      by replace (first + (i - first)) with i by lia. }
    destruct (decide (count <= Z.of_nat (length mm) - first)) as [Hle|Hgt].
    + exfalso. apply (Hno first). split_and!; [lia | lia |]. intros i x Hi Hx.
      specialize (Hrest i x ltac:(lia) Hx). specialize (Hc _ _ Hx). lia.
    + rewrite probe_fault; [done | lia | lia |]. intros i x Hi Hx.
      apply (Hrest i x); [|done]. apply lookup_lt_Some in Hx. lia.
Qed.

Lemma alloc_fault gfp order st bl rsv p :
  rep st bl rsv -> 0 <= order <= MAX_PAGE_ORDER -> 2 ^ order < free_count (mem_map st) ->
  (forall s, ~ free_run (mem_map st) (2 ^ order) s) ->
  last (mem_map st) = Some p -> pg_count p = 0 ->
  __alloc_pages gfp order st = Fault.
Proof.
  intros Hr Ho Hlt Hno Hlast Hp. destruct (pow_order order Ho) as (Hp1 & _ & Hp2).
  destruct (rep_zone st bl rsv Hr) as (z & Hz & Hz0 & Hzp & Hzf).
  pose proof (free_count_le (mem_map st)).
  unfold __alloc_pages. rewrite Hp1. cbn [alloc_from]. rewrite Hz, find_zone_one, Hzf.
  rewrite Z.gtb_ltb, (proj2 (Z.ltb_lt _ _)) by done. cbn [mbind res_bind].
  change (MAX_NR_ZONES <=? 0) with false. change (aget [z] 0) with (Ret z).
  cbn [mbind res_bind]. rewrite Hz0, Hzp.
  rewrite (scan_fault _ _ p); [done | by eapply rep_counts | lia | done | done | done | lia | lia].
Qed.

(** A request whose search reads behind the last descriptor: enough pages are
    free, not as many of them together, and the last page is free. *)
Definition runs_off (st : kpages) (order : Z) : Prop :=
  2 ^ order < free_count (mem_map st) /\
  (forall s, ~ free_run (mem_map st) (2 ^ order) s) /\
  exists p, last (mem_map st) = Some p /\ pg_count p = 0.

(** The outcomes of a request: NULL and the same state, the first page of a run
    of free pages, or a read behind the table. *)
Lemma alloc_pages_cases gfp order st bl rsv :
  rep st bl rsv -> 0 <= order <= MAX_PAGE_ORDER ->
  (alloc_pages gfp order st = Ret (None, st) /\
   (free_count (mem_map st) <= 2 ^ order \/ forall s, ~ free_run (mem_map st) (2 ^ order) s)) \/
  (exists s, alloc_pages gfp order st = Ret (Some s, allocated gfp order s st) /\
    free_run (mem_map st) (2 ^ order) s) \/
  (runs_off st order /\ alloc_pages gfp order st = Fault).
Proof.
  intros Hr Hor. rewrite alloc_pages_eq by done.
  destruct (decide (2 ^ order < free_count (mem_map st))) as [Hlt|Hge].
  2:{ left. split; [|lia]. eapply alloc_none_few; [done | done | lia]. }
  destruct (run_cases (mem_map st) (2 ^ order)) as [[s Hs]|Hno].
  - right; left. exists s. split; [by eapply alloc_run_spec | apply Hs].
  - destruct (last (mem_map st)) as [p|] eqn:Hlast.
    2:{ apply last_None in Hlast. rewrite Hlast in Hlt. destruct (pow_order order Hor) as (_ & _ & ?).
        unfold free_count in Hlt. simpl in Hlt. lia. }
    destruct (decide (pg_count p = 0)) as [Hp|Hp].
    + right; right. split; [|by eapply alloc_fault]. split_and!; [done | done | by exists p].
    + left. split; [|by right]. by eapply alloc_none_fragmented.
Qed.

(** ** Operations in sequence *)

Inductive op := OpAlloc (gfp_mask order : Z) | OpFree (page order : Z).

Definition run_op (o : op) (st : kpages) : res (option Z * kpages) :=
  match o with
  | OpAlloc gfp order => alloc_pages gfp order st
  | OpFree page order => st ← __free_pages (Some page) order st; Ret (None, st)
  end.

Fixpoint run_ops (os : list op) (st : kpages) : res (list (option Z) * kpages) :=
  match os with
  | [] => Ret ([], st)
  | o :: os =>
      '(r, st) ← run_op o st;
      '(rs, st) ← run_ops os st;
      Ret (r :: rs, st)
  end.

(** Arguments a caller may give on a table of [n] pages. *)
Definition op_ok (n : Z) (o : op) : Prop :=
  match o with
  | OpAlloc _ order => 0 <= order
  | OpFree page order => 0 <= page < n /\ 0 <= order < 2 ^ 63
  end.

(** At most [2 ^ o] pages are free; no [2 ^ o] free pages lie together. *)
Definition few_free (n : Z) (rsv : Z -> bool) (bl : blocks) (o : Z) : Prop :=
  exists l : list Z, Z.of_nat (length l) <= 2 ^ o /\
    forall i, 0 <= i < n -> ~ used bl rsv i -> i ∈ l.

Definition no_run (n : Z) (rsv : Z -> bool) (bl : blocks) (o : Z) : Prop :=
  forall s, 0 <= s -> s + 2 ^ o <= n -> exists i, in_block s o i /\ used bl rsv i.

(** One step of the abstract allocator on a table of [n] pages. *)
Inductive astep (n : Z) (rsv : Z -> bool) : blocks -> op -> option Z -> blocks -> Prop :=
| astep_alloc bl gfp o s :
    0 <= s -> s + 2 ^ o <= n -> (forall i, in_block s o i -> ~ used bl rsv i) ->
    astep n rsv bl (OpAlloc gfp o) (Some s) (<[s := o]> bl)
| astep_fail bl gfp o :
    MAX_PAGE_ORDER < o \/ few_free n rsv bl o \/ no_run n rsv bl o ->
    astep n rsv bl (OpAlloc gfp o) None bl
| astep_free bl s o : bl !! s = Some o -> astep n rsv bl (OpFree s o) None (delete s bl)
| astep_refuse bl s o : bl !! s <> Some o -> astep n rsv bl (OpFree s o) None bl.

Inductive asteps (n : Z) (rsv : Z -> bool)
    : blocks -> list op -> list (option Z) -> blocks -> Prop :=
| asteps_nil bl : asteps n rsv bl [] [] bl
| asteps_cons bl bl' bl'' o os r rs :
    astep n rsv bl o r bl' -> asteps n rsv bl' os rs bl'' ->
    asteps n rsv bl (o :: os) (r :: rs) bl''.

Lemma free_list mm :
  exists l : list Z, Z.of_nat (length l) = free_count mm /\
    forall i p, 0 <= i -> mm !! Z.to_nat i = Some p -> pg_count p = 0 -> i ∈ l.
Proof.
  induction mm as [|x mm (l & Hl & Hin)]; [by exists []|].
  exists ((if decide (pg_count x = 0) then [0] else []) ++ (Z.succ <$> l)).
  rewrite free_count_cons, length_app, length_fmap. split; [case_decide; simpl; lia|].
  intros i p Hi Hp Hz. rewrite elem_of_app, list_elem_of_fmap.
  destruct (decide (i = 0)) as [->|].
  - injection Hp as ->. rewrite decide_True by done. left. set_solver.
  - right. exists (i - 1). split; [lia|]. apply (Hin (i - 1) p); [lia | | done].
    by replace (Z.to_nat i) with (S (Z.to_nat (i - 1))) in Hp by lia.
Qed.

Lemma rep_few_free st bl rsv o :
  rep st bl rsv -> free_count (mem_map st) <= 2 ^ o ->
  few_free (Z.of_nat (length (mem_map st))) rsv bl o.
Proof.
  intros Hr Hle. destruct (free_list (mem_map st)) as (l & Hl & Hin).
  exists l. split; [lia|]. intros i Hi Hu.
  destruct (rep_lookup st bl rsv i Hr Hi) as (p & Hp & [[Hc _]|[_ ?]] & _); [|done].
  apply (Hin i p); [lia | done | done].
Qed.

Lemma rep_no_run st bl rsv o :
  rep st bl rsv -> 0 <= o <= MAX_PAGE_ORDER ->
  (forall s, ~ free_run (mem_map st) (2 ^ o) s) ->
  no_run (Z.of_nat (length (mem_map st))) rsv bl o.
Proof.
  intros Hr Ho Hno s Hs Hl. specialize (Hno s). destruct (pow_order o Ho) as (_ & _ & Hp2).
  rewrite free_run_Forall in Hno by lia.
  apply not_Forall_Exists in Hno; [|intros ?; apply _].
  apply Exists_exists in Hno as (p & Hin & Hp). apply list_elem_of_lookup in Hin as [i Hi].
  apply lookup_take_Some in Hi as [Hi Hlt]. rewrite lookup_drop in Hi.
  exists (s + Z.of_nat i). unfold in_block. split; [lia|].
  destruct (rep_page st bl rsv Hr (s + Z.of_nat i) p) as ([[? _]|[_ Hu]] & _); [lia | | done | done].
  by replace (Z.to_nat (s + Z.of_nat i)) with (Z.to_nat s + i)%nat by lia.
Qed.

(** The abstract condition of a request that reads behind the table. *)
Definition stuck (n : Z) (rsv : Z -> bool) (bl : blocks) (o : Z) : Prop :=
  no_run n rsv bl o /\ ~ used bl rsv (n - 1).

Lemma rep_stuck st bl rsv o :
  rep st bl rsv -> 0 <= o <= MAX_PAGE_ORDER -> runs_off st o ->
  stuck (Z.of_nat (length (mem_map st))) rsv bl o.
Proof.
  intros Hr Ho (_ & Hno & p & Hlast & Hp). split; [by apply rep_no_run|].
  rewrite last_lookup in Hlast. pose proof (lookup_lt_Some _ _ _ Hlast) as Hl.
  destruct (rep_page st bl rsv Hr (Z.of_nat (length (mem_map st)) - 1) p) as ([[_ Hu]|[Hc _]] & _);
    [lia | | done | lia].
  rewrite <- Hlast. f_equal. lia.
Qed.

Lemma run_op_refines st bl rsv o :
  let n := Z.of_nat (length (mem_map st)) in
  rep st bl rsv -> op_ok n o ->
  (exists r st' bl', run_op o st = Ret (r, st') /\ astep n rsv bl o r bl' /\
    rep st' bl' rsv /\ length (mem_map st') = length (mem_map st)) \/
  (exists gfp order, o = OpAlloc gfp order /\ run_op o st = Fault /\ stuck n rsv bl order).
Proof.
  intros n Hr Ho. destruct o as [gfp order|page order]; cbn [run_op op_ok] in *.
  - destruct (decide (order <= MAX_PAGE_ORDER)) as [Hle|Hgt].
    2:{ left. exists None, st, bl. unfold alloc_pages. rewrite Z.gtb_ltb, (proj2 (Z.ltb_lt _ _)) by lia.
        split_and!; [done | constructor; left; lia | done | done]. }
    assert (Hor : 0 <= order <= MAX_PAGE_ORDER) by lia.
    destruct (alloc_pages_cases gfp order st bl rsv Hr Hor) as [[E Hwhy]|[(s & E & Hs)|[Hoff E]]].
    + left. exists None, st, bl. split_and!; [done | | done | done]. constructor. right.
      destruct Hwhy; [left; by apply (rep_few_free st bl rsv) | right; by apply rep_no_run].
    + left. destruct (alloc_rep gfp order st bl rsv s Hr Hor Hs) as [Hr' _].
      exists (Some s), (allocated gfp order s st), (<[s := order]> bl).
      split_and!; [done | |done | apply alter_range_length].
      pose proof Hs as (? & ? & _). constructor; [done | done |].
      intros i Hi. by eapply free_run_unused.
    + right. exists gfp, order. split_and!; [done | done | by apply rep_stuck].
  - left. destruct Ho as [Hp Ho]. destruct (decide (bl !! page = Some order)) as [Hb|Hb].
    + rewrite (free_block_spec st bl rsv) by done. cbn [mbind res_bind].
      exists None, (released page order st), (delete page bl).
      split_and!; [done | by constructor | by apply free_rep | apply alter_range_length].
    + rewrite (free_refused st bl rsv) by done. cbn [mbind res_bind].
      exists None, st, bl. split_and!; [done | by constructor | done | done].
Qed.

(** ** The state after boot *)

(** The table [memory_init] leaves implements an allocator without blocks. *)
Lemma rep_boot (mm : list page) (z : zone) (rsv : Z -> bool) :
  Z.of_nat (length mm) < 2 ^ 35 -> zone_mem_map z = 0 -> pages z = Z.of_nat (length mm) ->
  free_pages z = free_count mm ->
  (forall i p, 0 <= i -> mm !! Z.to_nat i = Some p ->
     pg_count p = (if rsv i then 1 else 0) /\ pg_private p = u64 (- 1) /\
     pg_zone p = Some ZONE_NORMAL) ->
  rep {| mem_map := mm; zones := [z] |} ∅ rsv.
Proof.
  intros Hl Hz Hp Hf Hpages. split; cbn [mem_map zones].
  - exists z. done.
  - done.
  - intros i p Hi Hp'. destruct (Hpages i p Hi Hp') as (Hc & Hpr & Hzn).
    rewrite lookup_empty. split_and!; [|done | done]. unfold used. destruct (rsv i) eqn:E.
    + right. split; [done | by left].
    + left. split; [done|]. intros [?|(s & o & Hb & _)]; [congruence|].
      by rewrite lookup_empty in Hb.
  - intros s o Hb. by rewrite lookup_empty in Hb.
  - intros s o s' o' i Hb. by rewrite lookup_empty in Hb.
Qed.

(** ** Properties *)

(** C9: first fit. On a table that implements the blocks [bl], a request of
    order 0 to 5 with more than [2 ^ order] free pages and a run of them
    returns the first page of the first run; exactly the pages of the run get
    count 1 and the flags asked for, its first page gets the order, the zone
    counts [2 ^ order] pages less, and the new table implements [bl] with the
    block added. Every descriptor read is in the table. *)
Theorem alloc_first_fit gfp order st bl rsv s :
  rep st bl rsv -> 0 <= order <= MAX_PAGE_ORDER -> 2 ^ order < free_count (mem_map st) ->
  first_run (mem_map st) (2 ^ order) s ->
  alloc_pages gfp order st = Ret (Some s, allocated gfp order s st) /\
  bl !! s = None /\ rep (allocated gfp order s st) (<[s := order]> bl) rsv.
Proof.
  intros Hr Ho Hlt Hs. rewrite alloc_pages_eq by done.
  destruct (alloc_rep gfp order st bl rsv s Hr Ho (proj1 Hs)) as [Hr' Hn].
  split_and!; [by eapply alloc_run_spec | done | done].
Qed.

(** A table of 16 pages whose pages 0, 3 and 15 are in use. *)
Definition sample_busy (i : Z) : bool := (i =? 0) || (i =? 3) || (i =? 15).

Definition sample_page (i : Z) : page :=
  {| pg_private := u64 (- 1); pg_index := i; pg_count := if sample_busy i then 1 else 0;
     pg_flags := 0; pg_virtual := page_to_virt i; pg_zone := Some ZONE_NORMAL; pg_slab := 0 |}.

Definition sample_zone (free n : Z) : zone :=
  {| free_pages := free; zone_start_paddr := 0; zone_size := 4096 * n; pages := n;
     zone_mem_map := 0; zone_start_pfn := 0 |}.

Definition sample_pages : kpages :=
  {| mem_map := sample_page <$> seqZ 0 16; zones := [sample_zone 13 16] |}.

Lemma sample_pages_rep : rep sample_pages ∅ sample_busy.
Proof.
  apply rep_boot; [vm_compute; reflexivity | reflexivity | reflexivity | vm_compute; reflexivity|].
  intros i p Hi Hp. rewrite list_lookup_fmap in Hp. apply fmap_Some in Hp as (j & Hj & ->).
  apply lookup_seqZ in Hj as [-> _]. rewrite Z.add_0_l, Z2Nat.id by done. done.
Qed.

(** Four pages: 1, 2 are too few before page 3, so the run starts at 4. *)
Lemma alloc_first_fit_witness :
  alloc_pages 7 2 sample_pages = Ret (Some 4, allocated 7 2 4 sample_pages) /\
  (∅ : blocks) !! 4 = None /\ rep (allocated 7 2 4 sample_pages) (<[4 := 2]> ∅) sample_busy.
Proof.
  apply (alloc_first_fit 7 2 sample_pages ∅ sample_busy 4).
  - exact sample_pages_rep.
  - unfold MAX_PAGE_ORDER. lia.
  - vm_compute. reflexivity.
  - split; [apply (bool_decide_unpack _); vm_compute; done|]. intros s Hs.
    assert (Hno : Forall (fun s => ~ free_run (mem_map sample_pages) (2 ^ 2) s) (seqZ 0 4))
      by (apply (bool_decide_unpack _); vm_compute; done).
    destruct (decide (4 <= s)); [done|]. exfalso.
    rewrite Forall_forall in Hno. apply (Hno s); [|done]. apply elem_of_seqZ.
    destruct Hs as [? _]. lia.
Defined.

(** The last page of the table is in use. *)
Definition last_taken (mm : list page) : bool :=
  match last mm with Some p => negb (pg_count p =? 0) | None => false end.

(** C34: how a request fails. A request that cannot be met, one of an order
    above 5, one with at most [2 ^ order] free pages in the zone (so a request
    for all of them, too) or one without a run of [2 ^ order] free pages,
    returns NULL and changes nothing, with one exception: enough pages are
    free, they do not lie together, and the last page of the table is free.
    Then the search for the run reads behind the table. No other request
    returns NULL. *)
Theorem alloc_fails_cleanly gfp order st bl rsv :
  rep st bl rsv -> 0 <= order ->
  let unmet := MAX_PAGE_ORDER < order \/ free_count (mem_map st) <= 2 ^ order \/
                 (forall s, ~ free_run (mem_map st) (2 ^ order) s) in
  (unmet ->
   alloc_pages gfp order st
   = if (MAX_PAGE_ORDER <? order) || (free_count (mem_map st) <=? 2 ^ order) || last_taken (mem_map st)
     then Ret (None, st) else Fault) /\
  (forall st', alloc_pages gfp order st = Ret (None, st') -> unmet /\ st' = st).
Proof.
  intros Hr Ho unmet. destruct (Z.ltb_spec MAX_PAGE_ORDER order) as [Hgt|Hle]; cbn [orb].
  { assert (E : alloc_pages gfp order st = Ret (None, st)).
    { unfold alloc_pages. by rewrite Z.gtb_ltb, (proj2 (Z.ltb_lt _ _)) by lia. }
    rewrite E. split; [done|]. intros st' [= <-]. split; [by left | done]. }
  destruct (alloc_pages_cases gfp order st bl rsv Hr ltac:(lia)) as [[E Hc]|[(s & E & Hs)|[Hoff E]]]; rewrite E.
  - split; [|intros st' [= <-]; split; [by right | done]]. intros _.
    destruct (Z.leb_spec (free_count (mem_map st)) (2 ^ order)) as [|Hlt]; [done|]. cbn [orb].
    destruct (last_taken (mem_map st)) eqn:Hlast; [done|]. exfalso.
    unfold last_taken in Hlast. destruct (last (mem_map st)) as [p|] eqn:Hl.
    + apply negb_false_iff, Z.eqb_eq in Hlast. rewrite alloc_pages_eq in E by lia.
      rewrite (alloc_fault gfp order st bl rsv p) in E; (done || lia || (destruct Hc; [lia | done])).
    + apply last_None in Hl. rewrite Hl in Hlt. pose proof (Z.pow_pos_nonneg 2 order).
      unfold free_count in Hlt. simpl in Hlt. lia.
  - split; [|done]. intros [?|[Hfew|Hno]]; [lia | | by destruct (Hno s)].
    rewrite alloc_pages_eq, (alloc_none_few gfp order st bl rsv) in E by (done || lia). discriminate.
  - split; [|done]. intros _. destruct Hoff as (Hlt & _ & p & Hl & Hp).
    rewrite (proj2 (Z.leb_gt _ _)) by done. unfold last_taken. by rewrite Hl, Hp.
Qed.

(** Sixteen pages are not free together, and there are not more than sixteen. *)
Lemma alloc_fails_cleanly_witness : alloc_pages 7 4 sample_pages = Ret (None, sample_pages).
Proof.
  apply (alloc_fails_cleanly 7 4 sample_pages ∅ sample_busy);
    [exact sample_pages_rep | lia | right; left; vm_compute; discriminate].
Defined.

(** C6: refinement. Any sequence of allocations and releases, with any orders
    and any pages, returns; its results are those of the abstract allocator,
    which hands out blocks of pages nobody holds, fails only when the order is
    above 5, when at most [2 ^ order] pages are free or when no [2 ^ order] of
    them lie together, and releases a block exactly when it is given its first
    page and its own order. The only exception: some request finds no run of free pages in a table whose last
    page is not in use, all requests before it having been answered, and its
    search leaves the table. *)
Theorem allocator_refines_blocks os st bl rsv :
  let n := Z.of_nat (length (mem_map st)) in
  rep st bl rsv -> Forall (op_ok n) os ->
  (exists rs st' bl', run_ops os st = Ret (rs, st') /\ asteps n rsv bl os rs bl' /\
     rep st' bl' rsv) \/
  (exists os1 gfp order os2 rs st1 bl1, os = os1 ++ OpAlloc gfp order :: os2 /\
     run_ops os1 st = Ret (rs, st1) /\ asteps n rsv bl os1 rs bl1 /\ rep st1 bl1 rsv /\
     stuck n rsv bl1 order /\ run_ops os st = Fault).
Proof.
  intros n Hr Hos. subst n. revert st bl Hr Hos.
  induction os as [|o os IH]; intros st bl Hr Hos.
  - left. exists [], st, bl. split_and!; [done | constructor | done].
  - apply Forall_cons in Hos as [Ho Hos].
    destruct (run_op_refines st bl rsv o Hr Ho)
      as [(r & st1 & bl1 & E & Ha & Hr1 & Hl)|(gfp & order & -> & E & Hs)].
    2:{ right. exists [], gfp, order, os, [], st, bl. cbn [run_ops app]. rewrite E.
        split_and!; [done | done | constructor | done | done | done]. }
    rewrite <- Hl in Hos, Ha |- *. cbn [run_ops]. rewrite E. cbn [mbind res_bind].
    destruct (IH st1 bl1 Hr1 Hos)
      as [(rs & st2 & bl2 & E2 & Has & Hr2)|(os1 & gfp & order & os2 & rs & st2 & bl2 & -> & E2 & Has & Hr2 & Hs & Ef)].
    + left. rewrite E2. cbn [mbind res_bind]. exists (r :: rs), st2, bl2.
      split_and!; [done | by econstructor | done].
    + right. rewrite Ef. exists (o :: os1), gfp, order, os2, (r :: rs), st2, bl2.
      cbn [run_ops]. rewrite E. cbn [mbind res_bind]. rewrite E2.
      split_and!; [done | done | by econstructor | done | done | done].
Qed.

(** Two allocations, a release with the wrong order, a release, a double free. *)
Definition sample_ops : list op :=
  [OpAlloc 1 1; OpAlloc 2 3; OpFree 4 2; OpFree 4 3; OpFree 4 3; OpAlloc 0 9].

Lemma allocator_refines_blocks_witness :
  exists rs st' bl', run_ops sample_ops sample_pages = Ret (rs, st') /\
    asteps 16 sample_busy ∅ sample_ops rs bl' /\ rep st' bl' sample_busy.
Proof.
  destruct (allocator_refines_blocks sample_ops sample_pages ∅ sample_busy) as [Hr|Hr].
  - exact sample_pages_rep.
  - change (Z.of_nat (length (mem_map sample_pages))) with 16.
    unfold sample_ops. repeat (apply Forall_cons_2; [simpl; lia|]). apply Forall_nil_2.
  - exact Hr.
  - exfalso. destruct Hr as (? & ? & ? & ? & ? & ? & ? & _ & _ & _ & _ & [_ Hu] & _).
    apply Hu. left. reflexivity.
Defined.

(** A release undoes an allocation. After an allocation by address and the
    release of the address it returned, the zone is as before, and so is every
    descriptor but for the flags of the pages of the block. *)
Theorem get_free_roundtrip gfp order st bl rsv s :
  rep st bl rsv -> 0 <= order <= MAX_PAGE_ORDER -> 2 ^ order < free_count (mem_map st) ->
  first_run (mem_map st) (2 ^ order) s ->
  exists addr st' st'', __get_free_pages gfp order st = Ret (addr, st') /\
    addr = PAGE_OFFSET + 4096 * s /\ free_pages_at addr order st' = Ret st'' /\
    zones st'' = zones st /\
    mem_map st'' = alter_range (fun _ => set_flags gfp) s (2 ^ order) (mem_map st).
Proof.
  intros Hr Ho Hlt Hs. pose proof Hs as [(Hs0 & Hsl & Hsf) _].
  destruct (pow_order order Ho) as (_ & _ & Hp2). pose proof (rep_size st bl rsv Hr).
  destruct (alloc_rep gfp order st bl rsv s Hr Ho (proj1 Hs)) as [Hr' Hn].
  unfold __get_free_pages, free_pages_at.
  rewrite Z.gtb_ltb, (proj2 (Z.ltb_ge _ _)) by lia.
  rewrite (alloc_run_spec gfp order st bl rsv s) by done. cbn [mbind res_bind].
  eexists _, _, (released s order (allocated gfp order s st)). split; [done|].
  rewrite page_to_virt_eq by lia. split; [done|].
  rewrite <- (Z.add_0_r (PAGE_OFFSET + 4096 * s)), virt_to_page_eq by lia.
  rewrite (free_block_spec _ (<[s := order]> bl) rsv) by (done || apply lookup_insert_eq).
  split; [done|]. destruct (rep_zone st bl rsv Hr) as (z & Hz & _ & _ & Hzf).
  assert (Hfc : free_count (mem_map (allocated gfp order s st))
    = free_count (mem_map st) - 2 ^ order).
  { destruct (rep_zone _ _ _ Hr') as (z' & Hz' & _ & _ & Hzf'). rewrite <- Hzf'.
    unfold allocated in Hz'. cbn in Hz'. rewrite Hz in Hz'. by injection Hz' as <-. }
  split.
  - unfold released. cbn [zones]. rewrite Hfc. unfold allocated. cbn [zones]. rewrite Hz.
    cbn. f_equal. destruct z. unfold set_free_pages. simpl in *. f_equal. lia.
  - cbn [released allocated mem_map]. apply list_eq. intros j. rewrite !alter_range_lookup.
    destruct (mem_map st !! j) as [p|] eqn:Ep; simpl; [|done].
    destruct (decide (s <= Z.of_nat j < s + 2 ^ order)); [|done].
    destruct (rep_page st bl rsv Hr (Z.of_nat j) p) as (_ & Hpr & _); [lia | by rewrite Nat2Z.id |].
    assert (Hc : pg_count p = 0) by (apply (Hsf (Z.of_nat j)); [lia | by rewrite Nat2Z.id]).
    assert (Hps : Z.of_nat j = s -> pg_private p = u64 (- 1)) by (intros Hj; by rewrite Hpr, Hj, Hn).
    clear Hpr. unfold release_page, take_page.
    destruct (Z.eqb_spec (Z.of_nat j) s) as [Hj|Hj]; [specialize (Hps Hj)|clear Hps];
      destruct p; unfold set_count, set_flags, set_private; simpl in *; by subst.
Qed.

Lemma get_free_roundtrip_witness :
  exists addr st' st'', __get_free_pages 7 2 sample_pages = Ret (addr, st') /\
    addr = PAGE_OFFSET + 4096 * 4 /\ free_pages_at addr 2 st' = Ret st'' /\
    zones st'' = zones sample_pages /\
    mem_map st'' = alter_range (fun _ => set_flags 7) 4 (2 ^ 2) (mem_map sample_pages).
Proof.
  apply (get_free_roundtrip 7 2 sample_pages ∅ sample_busy 4).
  - exact sample_pages_rep.
  - unfold MAX_PAGE_ORDER. lia.
  - vm_compute. reflexivity.
  - split; [apply (bool_decide_unpack _); vm_compute; done|]. intros s Hs.
    assert (Hno : Forall (fun s => ~ free_run (mem_map sample_pages) (2 ^ 2) s) (seqZ 0 4))
      by (apply (bool_decide_unpack _); vm_compute; done).
    destruct (decide (4 <= s)); [done|]. exfalso.
    rewrite Forall_forall in Hno. apply (Hno s); [|done]. apply elem_of_seqZ.
    destruct Hs as [? _]. lia.
Defined.

(** The search can leave the table. With enough free pages, no run of
    [2 ^ order] of them and the last page free, the probe of the pages behind
    the last one reads a descriptor that does not exist. *)
Theorem alloc_reads_past_table gfp order st bl rsv p :
  rep st bl rsv -> 0 <= order <= MAX_PAGE_ORDER -> 2 ^ order < free_count (mem_map st) ->
  (forall s, ~ free_run (mem_map st) (2 ^ order) s) ->
  last (mem_map st) = Some p -> pg_count p = 0 ->
  alloc_pages gfp order st = Fault.
Proof. intros. rewrite alloc_pages_eq by done. by eapply alloc_fault. Qed.

(** Every third page is in use, the last one is free. *)
Definition sparse_busy (i : Z) : bool := i mod 3 =? 0.

Definition sparse_page (i : Z) : page :=
  {| pg_private := u64 (- 1); pg_index := i; pg_count := if sparse_busy i then 1 else 0;
     pg_flags := 0; pg_virtual := page_to_virt i; pg_zone := Some ZONE_NORMAL; pg_slab := 0 |}.

Definition sparse_pages : kpages :=
  {| mem_map := sparse_page <$> seqZ 0 12; zones := [sample_zone 8 12] |}.

Lemma sparse_pages_rep : rep sparse_pages ∅ sparse_busy.
Proof.
  apply rep_boot; [vm_compute; reflexivity | reflexivity | reflexivity | vm_compute; reflexivity|].
  intros i p Hi Hp. rewrite list_lookup_fmap in Hp. apply fmap_Some in Hp as (j & Hj & ->).
  apply lookup_seqZ in Hj as [-> _]. rewrite Z.add_0_l, Z2Nat.id by done. done.
Qed.

Lemma alloc_reads_past_table_witness : alloc_pages 0 2 sparse_pages = Fault.
Proof.
  apply (alloc_reads_past_table 0 2 sparse_pages ∅ sparse_busy (sparse_page 11)).
  - exact sparse_pages_rep.
  - unfold MAX_PAGE_ORDER. lia.
  - vm_compute. reflexivity.
  - assert (Hno : Forall (fun s => ~ free_run (mem_map sparse_pages) (2 ^ 2) s) (seqZ 0 12))
      by (apply (bool_decide_unpack _); vm_compute; done).
    intros s Hs. rewrite Forall_forall in Hno. apply (Hno s); [|done]. apply elem_of_seqZ.
    destruct Hs as (? & Hl & _). change (Z.of_nat (length (mem_map sparse_pages))) with 12 in Hl. lia.
  - reflexivity.
  - reflexivity.
Defined.

(** The allocator after boot. The table that [mem_map_init] and
    [memory_init] build implements an allocator without live blocks, whose
    taken pages are those of the boot sequence. *)
Theorem booted_allocator m area h b nd z0 :
  bm_ok b -> 2 <= m < 2 ^ 16 -> Z.of_nat (length area) = 256 * m ->
  node_zones nd = [z0] -> free_pages z0 = 0 ->
  let last := bootmem_page_index b + mem_map_page m in
  last < bootmem_page_max b -> last <= 256 * m ->
  exists a mm h' nd', boot_memory m area h b nd = Ret (a, mm, h', nd') /\
    rep {| mem_map := mm; zones := node_zones nd' |} ∅
      (fun i => bool_decide (boot_busy (bootmem_page_start b) last i)).
Proof.
  intros Hb Hm Hl Hz Hf0 lst Hmax Hin.
  destruct (boot_memory_spec m area h b nd z0 Hb Hm Hl Hz Hf0 Hmax Hin)
    as (_ & mm & h' & nd' & E & Hlm & Hp & _ & Hz'). eexists _, mm, h', nd'. split; [done|].
  rewrite Hz'. apply rep_boot; [lia | done | by rewrite Hlm | done |].
  intros i p Hi Hpi. assert (Hlt := lookup_lt_Some _ _ _ Hpi).
  destruct (Hp i) as (q & Hq & (_ & Hc & _ & Hpr & _) & Hzn); [lia|].
  assert (p = q) as -> by congruence. done.
Qed.

Lemma booted_allocator_witness :
  exists a mm h' nd', boot_memory 4 (replicate 1024 garbage_page) ∅ sample_bootmem empty_node
      = Ret (a, mm, h', nd') /\
    rep {| mem_map := mm; zones := node_zones nd' |} ∅
      (fun i => bool_decide (boot_busy 0x200 (0x203 + mem_map_page 4) i)).
Proof.
  apply (booted_allocator 4 (replicate 1024 garbage_page) ∅ sample_bootmem empty_node garbage_zone).
  - split; simpl; lia.
  - lia.
  - by rewrite length_replicate.
  - done.
  - done.
  - vm_compute. reflexivity.
  - vm_compute. discriminate.
Defined.
