(* ===== verification/Paging.v ===== *)
(** * Page tables (pgtable.h, page.c)

    The entries of the four levels of tables, the construction of the kernel's
    tables by [paging_init], and the walk the processor does through them. The
    memory of the tables maps the linear address of an 8-byte entry to its
    value; the boot loader has mapped the heap the tables lie in. *)

From S2P Require Import Prelude BootMem.

(** ** Entries *)

Definition _PAGE_PRESENT : Z := 0x001.
Definition _PAGE_RW : Z := 0x002.
Definition _PAGE_USER : Z := 0x004.
Definition _PAGE_PWT : Z := 0x008.
Definition _PAGE_PCD : Z := 0x010.
Definition _PAGE_ACCESSED : Z := 0x020.
Definition _PAGE_DIRTY : Z := 0x040.
Definition _PAGE_PSE : Z := 0x080.

Definition __PHYSICAL_MASK_SHIFT : Z := 40.
Definition __PHYSICAL_MASK : Z := Z.shiftl 1 __PHYSICAL_MASK_SHIFT - 1.

Definition PGDIR_SHIFT : Z := 39.
Definition PUD_SHIFT : Z := 30.
Definition PMD_SHIFT : Z := 21.

Definition pgd_index (address : Z) : Z := Z.land (Z.shiftr address PGDIR_SHIFT) (512 - 1).
Definition pud_index (address : Z) : Z := Z.land (Z.shiftr address PUD_SHIFT) (512 - 1).
Definition pmd_index (address : Z) : Z := Z.land (Z.shiftr address PMD_SHIFT) (512 - 1).
Definition pte_index (address : Z) : Z := Z.land (Z.shiftr address PAGE_SHIFT) (512 - 1).

Definition pte_pfn (x : Z) : Z := Z.shiftr (Z.land x __PHYSICAL_MASK) PAGE_SHIFT.

(** The tests return an [int]. *)
Definition pte_dirty (pte : Z) : Z := s32 (Z.land pte _PAGE_DIRTY).
Definition pte_young (pte : Z) : Z := s32 (Z.land pte _PAGE_ACCESSED).
Definition pte_write (pte : Z) : Z := s32 (Z.land pte _PAGE_RW).
Definition pte_user (pte : Z) : Z := s32 (Z.land pte _PAGE_USER).

Definition pte_mkclean (pte : Z) : Z := Z.land pte (Z.lnot _PAGE_DIRTY).
Definition pte_mkold (pte : Z) : Z := Z.land pte (Z.lnot _PAGE_ACCESSED).
Definition pte_wrprotect (pte : Z) : Z := Z.land pte (Z.lnot _PAGE_RW).
Definition pte_mkdirty (pte : Z) : Z := Z.lor pte _PAGE_DIRTY.
Definition pte_mkyoung (pte : Z) : Z := Z.lor pte _PAGE_ACCESSED.
Definition pte_mkwrite (pte : Z) : Z := Z.lor pte _PAGE_RW.
Definition mk_pte_huge (pte : Z) : Z := Z.lor pte (Z.lor _PAGE_PRESENT _PAGE_PSE).

(** ** Tables in memory *)

Abbreviation ptmem := (gmap Z Z).

Definition set_pgd (dst val : Z) (m : ptmem) : ptmem := <[dst := u64 val]> m.
Definition set_pud (dst val : Z) (m : ptmem) : ptmem := <[dst := u64 val]> m.
Definition set_pmd (dst val : Z) (m : ptmem) : ptmem := <[dst := u64 val]> m.
Definition set_pte (dst val : Z) (m : ptmem) : ptmem := <[dst := u64 val]> m.

(** [for (l = i; l < i + n; l++) set(base + l, f(l));]: pointers to entries
    advance by 8. *)
Fixpoint set_entries (n : nat) (set : Z -> Z -> ptmem -> ptmem) (base : Z) (f : Z -> Z)
    (i : Z) (m : ptmem) : ptmem :=
  match n with
  | O => m
  | S n' => set_entries n' set base f (i + 1) (set (base + 8 * i) (f i) m)
  end.

Definition X86_CR3_PWT : Z := 0x8.
Definition X86_CR3_PCD : Z := 0x10.

(** The kernel's tables for [phy_mem_size] megabytes. The result is the value
    of CR3, the memory and the boot allocator. *)
Definition paging_init (phy_mem_size : Z) (m : ptmem) (b : bootmem) : res (Z * ptmem * bootmem) :=
  let page_attr := _PAGE_RW + _PAGE_PRESENT in
  let pmd_count := if phy_mem_size / 1024 =? 0 then 1 else phy_mem_size / 1024 in
  let pte_count := phy_mem_size / 2 in
  if pte_count =? 0 then Halted
  else
    let page_count := u64 (phy_mem_size * 256) in
    '(pgd, b) ← alloc_bootmem 1 b;
    '(pud, b) ← alloc_bootmem 1 b;
    '(pmd, b) ← alloc_bootmem pmd_count b;
    '(pte, b) ← alloc_bootmem pte_count b;
    let m := set_entries 0x100 set_pgd pgd (fun _ => 0) 0 m in
    let m := set_pgd (pgd + 8 * 0x100) (__pa pud + page_attr) m in
    let m := set_entries 0xff set_pgd pgd (fun _ => 0) 0x101 m in
    let m := set_entries (Z.to_nat pmd_count) set_pud pud
               (fun l => __pa (pmd + 8 * (l * PAGE_SIZE)) + page_attr) 0 m in
    let m := set_entries (Z.to_nat pte_count) set_pmd pmd
               (fun l => __pa pte + l * PAGE_SIZE + page_attr) 0 m in
    let m := set_entries (Z.to_nat page_count) set_pte pte
               (fun l => l * PAGE_SIZE + page_attr) 0 m in
    let page_attr := _PAGE_PRESENT + _PAGE_PCD in
    '(pmd_reserv, b) ← alloc_bootmem 1 b;
    '(pte_reserv, b) ← alloc_bootmem 10 b;
    let m := set_pud (pud + 8 * 3) (__pa pmd_reserv + page_attr) m in
    let m := set_entries 10 set_pmd pmd_reserv
               (fun l => __pa pte_reserv + l * PAGE_SIZE + page_attr) 0 m in
    let m := set_entries (Z.to_nat (512 * 10)) set_pte pte_reserv
               (fun l => 0xFEC00000 + l * PAGE_SIZE + page_attr) 0 m in
    Ret (Z.land (__pa pgd) (Z.lnot (Z.lor X86_CR3_PCD X86_CR3_PWT)), m, b).

(** ** The processor's walk *)

(** The physical address an entry points to. *)
Definition entry_base (e : Z) : Z := Z.land e 0x000FFFFFFFFFF000.

(** The entry [i] of the table at physical address [t], if it is present. *)
Definition entry (m : ptmem) (t i : Z) : option Z :=
  e ← m !! (PAGE_OFFSET + t + 8 * i);
  if Z.testbit e 0 then Some e else None.

(** Nine bits of an address from bit [n] on, the index of a level as the manual
    of the processor numbers them. *)
Definition table_index (n va : Z) : Z := (va / 2 ^ n) mod 512.

(** The physical address of [va], and whether it may be written to; [None] is
    a page fault. *)
Definition translate (m : ptmem) (cr3 va : Z) : option (Z * bool) :=
  e4 ← entry m (entry_base cr3) (table_index 39 va);
  e3 ← entry m (entry_base e4) (table_index 30 va);
  let rw := Z.testbit e4 1 && Z.testbit e3 1 in
  if Z.testbit e3 7 then
    Some (Z.land e3 0x000FFFFFC0000000 + va mod 2 ^ 30, rw)
  else
    e2 ← entry m (entry_base e3) (table_index 21 va);
    let rw := rw && Z.testbit e2 1 in
    if Z.testbit e2 7 then
      Some (Z.land e2 0x000FFFFFFFE00000 + va mod 2 ^ 21, rw)
    else
      e1 ← entry m (entry_base e2) (table_index 12 va);
      Some (entry_base e1 + va mod 2 ^ 12, rw && Z.testbit e1 1).

(** ** Lemmas *)

Lemma set_entries_lookup n set base f : forall i m a,
  (forall d v m, set d v m = <[d := u64 v]> m) ->
  set_entries n set base f i m !! a
  = if decide (base + 8 * i <= a < base + 8 * (i + Z.of_nat n) /\ (a - base) mod 8 = 0)
    then Some (u64 (f ((a - base) / 8))) else m !! a.
Proof.
  induction n as [|n IH]; intros i m a Hset; cbn [set_entries].
  - rewrite decide_False by lia. done.
  - rewrite IH by done. rewrite Hset. destruct (decide (a = base + 8 * i)) as [->|Hne].
    + rewrite decide_False by lia. rewrite lookup_insert_eq.
      replace (base + 8 * i - base) with (i * 8) by lia.
      rewrite decide_True by (rewrite Z.mod_mul; lia). by rewrite Z.div_mul by lia.
    + rewrite lookup_insert_ne by done.
      destruct (decide (base + 8 * (i + 1) <= a < base + 8 * (i + 1 + Z.of_nat n) /\ (a - base) mod 8 = 0)).
      * by rewrite decide_True by lia.
      * rewrite decide_False; [done|]. intros [Hr Hm]. apply n0. split; [|done].
        apply Z.mod_divide in Hm as [k Hk]; lia.
Qed.

(** The entry [k] of a filled table. *)
Lemma set_entries_hit n set base f i m k :
  (forall d v m, set d v m = <[d := u64 v]> m) -> i <= k < i + Z.of_nat n ->
  set_entries n set base f i m !! (base + 8 * k) = Some (u64 (f k)).
Proof.
  intros Hset Hk. rewrite set_entries_lookup by done.
  replace (base + 8 * k - base) with (k * 8) by lia.
  rewrite decide_True by (rewrite Z.mod_mul; lia). by rewrite Z.div_mul by lia.
Qed.

Lemma set_entries_miss n set base f i m a :
  (forall d v m, set d v m = <[d := u64 v]> m) ->
  a < base + 8 * i \/ base + 8 * (i + Z.of_nat n) <= a ->
  set_entries n set base f i m !! a = m !! a.
Proof. intros Hset Ha. rewrite set_entries_lookup by done. by rewrite decide_False by lia. Qed.

(** An entry made of a page address and attribute bits below 4096. *)
Lemma entry_base_add p attr :
  0 <= p < 2 ^ 40 -> 0 <= attr < 4096 -> entry_base (4096 * p + attr) = 4096 * p.
Proof.
  intros Hp Ha. unfold entry_base.
  assert (Hmask : 0x000FFFFFFFFFF000 = Z.shiftl (Z.ones 40) 12) by done. rewrite Hmask.
  apply Z.bits_inj'. intros n Hn. rewrite Z.land_spec.
  replace (4096 * p + attr) with (p * 2 ^ 12 + attr) by lia.
  replace (4096 * p) with (p * 2 ^ 12) by lia.
  destruct (Z.ltb_spec n 12).
  - rewrite Z.shiftl_spec_low, andb_false_r, Z.mul_pow2_bits_low by lia. done.
  - rewrite Z.shiftl_spec_high, Z.testbit_ones by lia. rewrite (proj2 (Z.leb_le 0 _)) by lia.
    replace (Z.testbit (p * 2 ^ 12 + attr) n) with (Z.testbit p (n - 12)).
    2:{ replace n with (n - 12 + 12) at 2 by lia. rewrite <- Z.div_pow2_bits by lia.
        rewrite Z.div_add_l by lia. rewrite (Z.div_small attr) by lia. by rewrite Z.add_0_r. }
    replace (Z.testbit (p * 2 ^ 12) n) with (Z.testbit p (n - 12)).
    2:{ replace n with (n - 12 + 12) at 2 by lia. rewrite <- Z.div_pow2_bits by lia.
        by rewrite Z.div_mul by lia. }
    destruct (Z.ltb_spec (n - 12) 40); simpl; [by rewrite andb_true_r|].
    rewrite andb_false_r. symmetry. destruct (decide (p = 0)) as [->|]; [apply Z.bits_0|].
    apply Z.bits_above_log2; [lia|]. assert (Z.log2 p < 40); [|lia]. apply Z.log2_lt_pow2; lia.
Qed.

Lemma attr_testbit p attr n :
  0 <= n < 12 -> Z.testbit (4096 * p + attr) n = Z.testbit attr n.
Proof.
  intros Hn. rewrite <- (Z.mod_pow2_bits_low (4096 * p + attr) 12 n) by lia.
  replace (4096 * p + attr) with (attr + p * 2 ^ 12) by lia.
  rewrite Z.mod_add by lia. by rewrite Z.mod_pow2_bits_low by lia.
Qed.

Lemma small_testbit x n : 0 <= x < 4096 -> 12 <= n -> Z.testbit x n = false.
Proof.
  intros Hx Hn. destruct (decide (x = 0)) as [->|]; [apply Z.bits_0|].
  apply Z.bits_above_log2; [lia|]. assert (Z.log2 x < 12); [|lia]. apply Z.log2_lt_pow2; lia.
Qed.

(** Clearing attribute bits of a page address changes nothing. *)
Lemma land_lnot_page p x : 0 <= x < 4096 -> Z.land (4096 * p) (Z.lnot x) = 4096 * p.
Proof.
  intros Hx. apply Z.bits_inj'. intros n Hn. rewrite Z.land_spec, Z.lnot_spec by done.
  destruct (decide (n < 12)).
  - rewrite <- (Z.add_0_r (4096 * p)), attr_testbit by lia. by rewrite Z.bits_0.
  - rewrite (small_testbit x n) by lia. apply andb_true_r.
Qed.

(** ** The tables [paging_init] builds *)

(** The linear address of page frame [k]. *)
Definition frame (k : Z) : Z := PAGE_OFFSET + 4096 * k.

(** The entries of the tables whose first page frame is [i], for [m]
    megabytes. *)
Record kernel_tables (mem : ptmem) (i m : Z) : Prop := {
  kt_pgd : forall k, 0 <= k < 512 ->
    mem !! (frame i + 8 * k) = Some (if k =? 0x100 then 4096 * (i + 1) + 3 else 0);
  kt_pud : mem !! frame (i + 1) = Some (4096 * (i + 2) + 3);
  kt_pud_reserv : mem !! (frame (i + 1) + 8 * 3) = Some (4096 * (i + 3 + m / 2) + 0x11);
  kt_pmd : forall l, 0 <= l < m / 2 ->
    mem !! (frame (i + 2) + 8 * l) = Some (4096 * (i + 3 + l) + 3);
  kt_pte : forall l, 0 <= l < 256 * m -> mem !! (frame (i + 3) + 8 * l) = Some (4096 * l + 3);
  kt_pmd_reserv : forall l, 0 <= l < 10 ->
    mem !! (frame (i + 3 + m / 2) + 8 * l) = Some (4096 * (i + 4 + m / 2 + l) + 0x11);
  kt_pte_reserv : forall l, 0 <= l < 5120 ->
    mem !! (frame (i + 4 + m / 2) + 8 * l) = Some (4096 * (0xFEC00 + l) + 0x11)
}.

Lemma __pa_frame k : 0 <= k < 2 ^ 35 -> __pa (frame k) = 4096 * k.
Proof.
  intros Hk. unfold __pa, frame.
  replace (PAGE_OFFSET + 4096 * k - PAGE_OFFSET) with (4096 * k) by lia.
  apply wrap_small. lia.
Qed.

(** Skips the stores made elsewhere. *)
Ltac skip_stores :=
  repeat first
    [ rewrite set_entries_miss by (done || (unfold frame; lia))
    | rewrite lookup_insert_ne by (unfold frame; lia) ].

Lemma paging_init_tables m mem b :
  bm_ok b -> 2 <= m <= 1024 -> m mod 2 = 0 ->
  let i := bootmem_page_index b in
  i + 14 + m / 2 < bootmem_page_max b ->
  exists mem', paging_init m mem b
    = Ret (4096 * i, mem',
           {| bootmem_page_index := i + 14 + m / 2; bootmem_page_start := bootmem_page_start b;
              bootmem_page_max := bootmem_page_max b |}) /\
    kernel_tables mem' i m.
Proof.
  intros Hb Hm Heven i Hmax. pose proof Hb as [Hs Hmx]. fold i in Hs.
  assert (Hd : m = 2 * (m / 2)) by (apply Z_div_exact_full_2; lia).
  assert (Hc : (if m / 1024 =? 0 then 1 else m / 1024) = 1).
  { destruct (decide (m = 1024)) as [->|]; [done|]. by rewrite (Z.div_small m 1024) by lia. }
  unfold paging_init. rewrite Hc. rewrite (proj2 (Z.eqb_neq (m / 2) 0)) by lia.
  set (c := m / 2) in *.
  rewrite alloc_bootmem_ok; [|done | lia | lia]. cbn [mbind res_bind].
  rewrite alloc_bootmem_ok; [|split; simpl; lia | lia | simpl; lia]. cbn [mbind res_bind].
  rewrite alloc_bootmem_ok; [|split; simpl; lia | lia | simpl; lia]. cbn [mbind res_bind].
  rewrite alloc_bootmem_ok; [|split; simpl; lia | lia | simpl; lia]. cbn [mbind res_bind].
  rewrite alloc_bootmem_ok; [|split; simpl; lia | lia | simpl; lia]. cbn [mbind res_bind].
  rewrite alloc_bootmem_ok; [|split; simpl; lia | lia | simpl; lia]. cbn [mbind res_bind].
  cbn [bootmem_page_index bootmem_page_start bootmem_page_max]. fold i.
  replace (i + 1 + 1 + 1) with (i + 3) by lia. replace (i + 1 + 1) with (i + 2) by lia.
  replace (i + 3 + c + 1) with (i + 4 + c) by lia.
  replace (i + 4 + c + 10) with (i + 14 + c) by lia.
  repeat match goal with |- context [PAGE_OFFSET + 4096 * ?k] => fold (frame k) end.
  rewrite !__pa_frame by lia. rewrite (wrap_small 64 (m * 256)) by lia.
  eexists. split.
  { do 4 f_equal. unfold X86_CR3_PCD, X86_CR3_PWT. apply land_lnot_page. by vm_compute. }
  unfold PAGE_SIZE. change (Z.shiftl 1 PAGE_SHIFT) with 4096.
  unfold _PAGE_RW, _PAGE_PRESENT, _PAGE_PCD, set_pgd, set_pud, set_pmd, set_pte.
  split.
  - intros k Hk. skip_stores. destruct (Z.eqb_spec k 0x100) as [->|].
    + skip_stores. rewrite lookup_insert_eq. rewrite wrap_small by lia. f_equal; lia.
    + destruct (decide (k < 0x100)).
      * skip_stores. rewrite set_entries_hit by (done || lia). done.
      * rewrite set_entries_hit by (done || lia). done.
  - skip_stores. rewrite set_entries_lookup by done. rewrite Z.sub_diag.
    rewrite decide_True by (split; [lia | done]). change (0 / 8) with 0.
    rewrite Z.mul_0_l, Z.mul_0_r, Z.add_0_r, __pa_frame by lia.
    rewrite wrap_small by lia. f_equal; lia.
  - skip_stores. rewrite lookup_insert_eq. rewrite wrap_small by lia. f_equal; lia.
  - intros l Hl. skip_stores. rewrite set_entries_hit by (done || lia).
    rewrite wrap_small by lia. f_equal; lia.
  - intros l Hl. skip_stores. rewrite set_entries_hit by (done || lia).
    rewrite wrap_small by lia. f_equal; lia.
  - intros l Hl. skip_stores. rewrite set_entries_hit by (done || lia).
    rewrite wrap_small by lia. f_equal; lia.
  - intros l Hl. skip_stores. rewrite set_entries_hit by (done || lia).
    rewrite wrap_small by lia. f_equal; lia.
Qed.

(** ** Walking the tables *)

Lemma index_div a k : 0 <= k -> Z.land (Z.shiftr a k) (512 - 1) = (a / 2 ^ k) mod 512.
Proof.
  intros Hk. rewrite Z.shiftr_div_pow2 by done. change (512 - 1) with (Z.ones 9).
  by rewrite Z.land_ones by lia.
Qed.

(** The macros take the bits the processor takes. *)
Lemma macro_indices va :
  table_index 39 va = pgd_index va /\ table_index 30 va = pud_index va /\
  table_index 21 va = pmd_index va /\ table_index 12 va = pte_index va.
Proof.
  unfold pgd_index, pud_index, pmd_index, pte_index, PGDIR_SHIFT, PUD_SHIFT, PMD_SHIFT, PAGE_SHIFT.
  by rewrite !index_div by done.
Qed.

(** The four indices and the offset of an address of the kernel's half. *)
Lemma kernel_indices x :
  0 <= x < 2 ^ 39 ->
  pgd_index (PAGE_OFFSET + x) = 0x100 /\ pud_index (PAGE_OFFSET + x) = x / 2 ^ 30 /\
  pmd_index (PAGE_OFFSET + x) = (x / 2 ^ 21) mod 512 /\
  pte_index (PAGE_OFFSET + x) = (x / 2 ^ 12) mod 512 /\
  (PAGE_OFFSET + x) mod 2 ^ 12 = x mod 2 ^ 12.
Proof.
  intros Hx. unfold pgd_index, pud_index, pmd_index, pte_index.
  unfold PGDIR_SHIFT, PUD_SHIFT, PMD_SHIFT, PAGE_SHIFT. rewrite !index_div by lia.
  split_and!.
  - replace (PAGE_OFFSET + x) with (0x1FFFF00 * 2 ^ 39 + x) by (unfold PAGE_OFFSET; lia).
    rewrite Z.div_add_l, (Z.div_small x) by lia. done.
  - replace (PAGE_OFFSET + x) with (0x3FFFE0000 * 2 ^ 30 + x) by (unfold PAGE_OFFSET; lia).
    rewrite Z.div_add_l by lia. replace 0x3FFFE0000 with (0x1FFFF00 * 512) by done.
    rewrite Z.add_comm, Z.mod_add by lia. apply Z.mod_small.
    split; [apply Z.div_pos; lia | apply Z.div_lt_upper_bound; lia].
  - replace (PAGE_OFFSET + x) with (0x3FFFE0000 * 512 * 2 ^ 21 + x) by (unfold PAGE_OFFSET; lia).
    rewrite Z.div_add_l by lia. by rewrite Z.add_comm, Z.mod_add by lia.
  - replace (PAGE_OFFSET + x) with (0x3FFFE0000 * 512 * 512 * 2 ^ 12 + x)
      by (unfold PAGE_OFFSET; lia).
    rewrite Z.div_add_l by lia. by rewrite Z.add_comm, Z.mod_add by lia.
  - replace (PAGE_OFFSET + x) with (x + 0x3FFFE0000 * 512 * 512 * 2 ^ 12)
      by (unfold PAGE_OFFSET; lia).
    by rewrite Z.mod_add by lia.
Qed.

(** One level of the walk: a present entry. *)
Lemma entry_hit mem e k idx p attr :
  0 <= k < 2 ^ 40 -> 0 <= attr < 4096 -> Z.testbit attr 0 = true ->
  mem !! (frame k + 8 * idx) = Some (4096 * p + attr) ->
  entry_base e = 4096 * k -> entry mem (entry_base e) idx = Some (4096 * p + attr).
Proof.
  intros Hk Ha Hpres Hm ->. unfold entry. fold (frame k). rewrite Hm. cbn [mbind option_bind].
  by rewrite attr_testbit, Hpres by lia.
Qed.

Lemma entry_absent mem k idx e :
  mem !! (frame k + 8 * idx) = Some e -> Z.testbit e 0 = false ->
  entry mem (4096 * k) idx = None.
Proof.
  intros Hm He. unfold entry. fold (frame k). rewrite Hm. cbn [mbind option_bind]. by rewrite He.
Qed.

(** A walk through three tables of pages with the same attributes. *)
Lemma translate_4k mem cr3 va k4 k3 k2 k1 p a3 a2 a1 :
  0 <= k4 < 2 ^ 40 -> 0 <= k3 < 2 ^ 40 -> 0 <= k2 < 2 ^ 40 -> 0 <= k1 < 2 ^ 40 ->
  0 <= p < 2 ^ 40 -> a3 ∈ [3; 0x11] -> a2 ∈ [3; 0x11] -> a1 ∈ [3; 0x11] ->
  entry_base cr3 = 4096 * k4 ->
  mem !! (frame k4 + 8 * pgd_index va) = Some (4096 * k3 + 3) ->
  mem !! (frame k3 + 8 * pud_index va) = Some (4096 * k2 + a3) ->
  mem !! (frame k2 + 8 * pmd_index va) = Some (4096 * k1 + a2) ->
  mem !! (frame k1 + 8 * pte_index va) = Some (4096 * p + a1) ->
  translate mem cr3 va
  = Some (4096 * p + va mod 2 ^ 12, Z.testbit a3 1 && Z.testbit a2 1 && Z.testbit a1 1).
Proof.
  intros H4 H3 H2 H1 Hp A3 A2 A1 Hc E4 E3 E2 E1.
  assert (Hattr : forall a, a ∈ [3; 0x11] ->
            0 <= a < 4096 /\ Z.testbit a 0 = true /\ Z.testbit a 7 = false).
  { intros a Ha. rewrite !elem_of_cons in Ha.
    destruct Ha as [->|[->|Ha]]; [split_and!; done || lia..|]. by apply not_elem_of_nil in Ha. }
  destruct (Hattr a3 A3) as (R3 & P3 & S3), (Hattr a2 A2) as (R2 & P2 & S2),
    (Hattr a1 A1) as (R1 & P1 & _).
  destruct (macro_indices va) as (I4 & I3 & I2 & I1). unfold translate. rewrite I4, I3, I2, I1.
  rewrite (entry_hit mem cr3 k4 _ k3 3) by (done || lia).
  cbn [mbind option_bind].
  rewrite (entry_hit mem _ k3 _ k2 a3) by (done || lia || apply entry_base_add; lia).
  cbn [mbind option_bind]. rewrite (attr_testbit k2 a3 7), S3 by lia.
  rewrite (entry_hit mem _ k2 _ k1 a2) by (done || lia || apply entry_base_add; lia).
  cbn [mbind option_bind]. rewrite (attr_testbit k1 a2 7), S2 by lia.
  rewrite (entry_hit mem _ k1 _ p a1) by (done || lia || apply entry_base_add; lia).
  cbn [mbind option_bind]. rewrite entry_base_add by lia. rewrite !attr_testbit by lia. done.
Qed.

Lemma two_level x : 0 <= x -> x / 2 ^ 12 = 512 * (x / 2 ^ 21) + (x / 2 ^ 12) mod 512.
Proof.
  intros Hx. replace (x / 2 ^ 21) with (x / 2 ^ 12 / 512).
  - apply Z.div_mod. lia.
  - rewrite Z.div_div by lia. done.
Qed.

(** What the tables map: the memory to itself above [PAGE_OFFSET], 20 MB of
    devices read-only at 3 GB above it, and nothing in the lower half. *)
Section KernelTables.
Context (mem : ptmem) (i m : Z).
Hypotheses (HK : kernel_tables mem i m) (Hi : 0 <= i) (Hmax : i + 14 + m / 2 < 2 ^ 35)
  (Hm : 2 <= m <= 1024) (Heven : m mod 2 = 0).

Lemma half_memory : m = 2 * (m / 2) /\ 0 < m / 2.
Proof.
  assert (Hd : m = 2 * (m / 2)) by (apply Z_div_exact_full_2; lia). lia.
Qed.

Lemma pgd_base : entry_base (4096 * i) = 4096 * i.
Proof.
  pose proof half_memory.
  rewrite <- (Z.add_0_r (4096 * i)) at 1. apply entry_base_add; lia.
Qed.

Lemma memory_mapped x :
  0 <= x < m * 2 ^ 20 -> translate mem (4096 * i) (PAGE_OFFSET + x) = Some (x, true).
Proof.
  destruct HK as [Kpgd Kpud _ Kpmd Kpte _ _].
  pose proof half_memory.
  intros Hx. destruct (kernel_indices x) as (I4 & I3 & I2 & I1 & Io); [lia|].
  pose proof (two_level x ltac:(lia)) as Htl. pose proof (Z.mod_pos_bound (x / 2 ^ 12) 512 ltac:(lia)).
  assert (H21 : 0 <= x / 2 ^ 21 < 512).
  { split; [apply Z.div_pos; lia | apply Z.div_lt_upper_bound; lia]. }
  assert (H30 : x / 2 ^ 30 = 0) by (apply Z.div_small; lia).
  assert (H21m : x / 2 ^ 21 < m / 2) by (apply Z.div_lt_upper_bound; lia).
  rewrite H30 in I3. rewrite (Z.mod_small (x / 2 ^ 21)) in I2 by lia.
  rewrite (translate_4k mem _ _ i (i + 1) (i + 2) (i + 3 + x / 2 ^ 21) (x / 2 ^ 12) 3 3 3).
  - rewrite Io. do 2 f_equal. pose proof (Z.div_mod x (2 ^ 12)). lia.
  - lia.
  - lia.
  - lia.
  - lia.
  - split; [apply Z.div_pos; lia | apply Z.div_lt_upper_bound; lia].
  - set_solver.
  - set_solver.
  - set_solver.
  - exact pgd_base.
  - rewrite I4. by rewrite (Kpgd 0x100) by lia.
  - rewrite I3, Z.mul_0_r, Z.add_0_r. done.
  - rewrite I2. apply Kpmd. lia.
  - rewrite I1.
    replace (frame (i + 3 + x / 2 ^ 21) + 8 * ((x / 2 ^ 12) mod 512))
      with (frame (i + 3) + 8 * (x / 2 ^ 12)) by (unfold frame; lia).
    apply Kpte. split; [lia | apply Z.div_lt_upper_bound; lia].
Qed.

Lemma devices_mapped y :
  0 <= y < 20 * 2 ^ 20 ->
  translate mem (4096 * i) (PAGE_OFFSET + 0xC0000000 + y) = Some (0xFEC00000 + y, false).
Proof.
  destruct HK as [Kpgd Kpud Kres _ _ Kpmdr Kpter]. pose proof half_memory.
  intros Hy. replace (PAGE_OFFSET + 0xC0000000 + y) with (PAGE_OFFSET + (0xC0000000 + y)) by lia.
  set (x := 0xC0000000 + y).
  destruct (kernel_indices x) as (I4 & I3 & I2 & I1 & Io); [lia|].
  pose proof (two_level y ltac:(lia)) as Htl. pose proof (Z.mod_pos_bound (y / 2 ^ 12) 512 ltac:(lia)).
  assert (H21 : 0 <= y / 2 ^ 21 < 10).
  { split; [apply Z.div_pos; lia | apply Z.div_lt_upper_bound; lia]. }
  assert (X30 : x / 2 ^ 30 = 3).
  { unfold x. replace (0xC0000000 + y) with (3 * 2 ^ 30 + y) by lia.
    rewrite Z.div_add_l, (Z.div_small y) by lia. done. }
  assert (X21 : (x / 2 ^ 21) mod 512 = y / 2 ^ 21).
  { unfold x. replace (0xC0000000 + y) with (3 * 512 * 2 ^ 21 + y) by lia.
    rewrite Z.div_add_l, Z.add_comm, Z.mod_add by lia. apply Z.mod_small. lia. }
  assert (X12 : (x / 2 ^ 12) mod 512 = (y / 2 ^ 12) mod 512).
  { unfold x. replace (0xC0000000 + y) with (3 * 512 * 512 * 2 ^ 12 + y) by lia.
    by rewrite Z.div_add_l, Z.add_comm, Z.mod_add by lia. }
  assert (Xo : x mod 2 ^ 12 = y mod 2 ^ 12).
  { unfold x. replace (0xC0000000 + y) with (y + 3 * 512 * 512 * 2 ^ 12) by lia.
    by rewrite Z.mod_add by lia. }
  rewrite (translate_4k mem _ _ i (i + 1) (i + 3 + m / 2) (i + 4 + m / 2 + y / 2 ^ 21)
             (0xFEC00 + y / 2 ^ 12) 0x11 0x11 0x11).
  - rewrite Io, Xo. do 2 f_equal. pose proof (Z.div_mod y (2 ^ 12)). lia.
  - lia.
  - lia.
  - lia.
  - lia.
  - assert (0 <= y / 2 ^ 12 < 5120); [|lia].
    split; [apply Z.div_pos; lia | apply Z.div_lt_upper_bound; lia].
  - set_solver.
  - set_solver.
  - set_solver.
  - exact pgd_base.
  - rewrite I4. by rewrite (Kpgd 0x100) by lia.
  - rewrite I3, X30. done.
  - rewrite I2, X21. apply Kpmdr. lia.
  - rewrite I1, X12.
    replace (frame (i + 4 + m / 2 + y / 2 ^ 21) + 8 * ((y / 2 ^ 12) mod 512))
      with (frame (i + 4 + m / 2) + 8 * (y / 2 ^ 12)) by (unfold frame; lia).
    apply Kpter. split; [apply Z.div_pos; lia | apply Z.div_lt_upper_bound; lia].
Qed.

Lemma lower_half_unmapped va : 0 <= va < 2 ^ 47 -> translate mem (4096 * i) va = None.
Proof.
  destruct HK as [Kpgd _ _ _ _ _ _].
  intros Hva. unfold translate, table_index.
  assert (H39 : 0 <= va / 2 ^ 39 < 256).
  { split; [apply Z.div_pos; lia | apply Z.div_lt_upper_bound; lia]. }
  rewrite (Z.mod_small (va / 2 ^ 39)) by lia. rewrite pgd_base.
  rewrite (entry_absent mem i (va / 2 ^ 39) 0); [done | |done].
  rewrite (Kpgd (va / 2 ^ 39)) by lia. by rewrite (proj2 (Z.eqb_neq _ _)) by lia.
Qed.

Lemma kernel_tables_map :
  (forall x, 0 <= x < m * 2 ^ 20 ->
     translate mem (4096 * i) (PAGE_OFFSET + x) = Some (x, true)) /\
  (forall y, 0 <= y < 20 * 2 ^ 20 ->
     translate mem (4096 * i) (PAGE_OFFSET + 0xC0000000 + y) = Some (0xFEC00000 + y, false)) /\
  (forall va, 0 <= va < 2 ^ 47 -> translate mem (4096 * i) va = None).
Proof. exact (conj memory_mapped (conj devices_mapped lower_half_unmapped)). Qed.

End KernelTables.

(** ** Attributes of entries *)

Lemma land_pow2 x k : 0 <= k -> Z.land x (2 ^ k) = if Z.testbit x k then 2 ^ k else 0.
Proof.
  intros Hk. apply Z.bits_inj'. intros n Hn. rewrite Z.land_spec, Z.pow2_bits_eqb by done.
  destruct (Z.eqb_spec k n) as [->|Hne].
  - rewrite andb_true_r. destruct (Z.testbit x n); [by rewrite Z.pow2_bits_true | by rewrite Z.bits_0].
  - rewrite andb_false_r. destruct (Z.testbit x k); [by rewrite Z.pow2_bits_false | by rewrite Z.bits_0].
Qed.

(** Setting and clearing bit [k]. *)
Definition sets_bit (f : Z -> Z) (k : Z) (v : bool) : Prop :=
  forall x n, 0 <= n -> Z.testbit (f x) n = if n =? k then v else Z.testbit x n.

Lemma lor_sets_bit k : 0 <= k -> sets_bit (fun x => Z.lor x (2 ^ k)) k true.
Proof.
  intros Hk x n Hn. rewrite <- Z.setbit_spec', Z.setbit_eqb by done. rewrite Z.eqb_sym.
  by destruct (n =? k).
Qed.

Lemma land_lnot_sets_bit k : 0 <= k -> sets_bit (fun x => Z.land x (Z.lnot (2 ^ k))) k false.
Proof.
  intros Hk x n Hn. rewrite <- Z.ldiff_land, <- Z.clearbit_spec', Z.clearbit_eqb by done.
  rewrite (Z.eqb_sym k). by destruct (n =? k); [rewrite andb_false_r | rewrite andb_true_r].
Qed.

Lemma sets_bit_test f k v x :
  0 <= k < 31 -> sets_bit f k v -> s32 (Z.land (f x) (2 ^ k)) <> 0 <-> v = true.
Proof.
  intros Hk Hf. rewrite land_pow2 by lia. rewrite Hf, Z.eqb_refl by lia.
  assert (0 < 2 ^ k < 2 ^ 31) by (split; [lia | apply Z.pow_lt_mono_r; lia]).
  destruct v; rewrite (sext_small 32) by (change (2 ^ (32 - 1)) with (2 ^ 31); lia); lia || done.
Qed.

Lemma sets_bit_pfn f k v x : 0 <= k < 12 -> sets_bit f k v -> pte_pfn (f x) = pte_pfn x.
Proof.
  intros Hk Hf. unfold pte_pfn, PAGE_SHIFT. apply Z.bits_inj'. intros n Hn.
  rewrite !Z.shiftr_spec, !Z.land_spec by lia. rewrite Hf by lia.
  by rewrite (proj2 (Z.eqb_neq _ _)) by lia.
Qed.

(** ** Properties *)

(** C20: the kernel's tables. For an even number of megabytes up to 1024 and
    enough boot memory, [paging_init] returns, and the processor's walk from
    the CR3 it computes maps [PAGE_OFFSET + x] to [x], writable, for all of the
    memory; maps the 20 MB at 3 GB above [PAGE_OFFSET], where the APICs are,
    to the devices at 0xFEC00000, read-only; and faults on every address of
    the lower half, whatever the memory held before. *)
Theorem paging_maps_kernel (m : Z) (mem : ptmem) (b : bootmem) :
  bm_ok b -> 2 <= m <= 1024 -> m mod 2 = 0 ->
  bootmem_page_index b + 14 + m / 2 < bootmem_page_max b ->
  exists cr3 mem' b', paging_init m mem b = Ret (cr3, mem', b') /\
    (forall x, 0 <= x < m * 2 ^ 20 -> translate mem' cr3 (PAGE_OFFSET + x) = Some (x, true)) /\
    (forall y, 0 <= y < 20 * 2 ^ 20 ->
       translate mem' cr3 (PAGE_OFFSET + 0xC0000000 + y) = Some (0xFEC00000 + y, false)) /\
    (forall va, 0 <= va < 2 ^ 47 -> translate mem' cr3 va = None).
Proof.
  intros Hb Hm Heven Hmax.
  destruct (paging_init_tables m mem b Hb Hm Heven Hmax) as (mem' & E & Hk).
  eexists _, mem', _. split; [exact E|]. destruct Hb as [? ?].
  apply (kernel_tables_map mem' (bootmem_page_index b) m Hk); lia.
Qed.

Definition boot_heap : bootmem :=
  {| bootmem_page_index := 0x203; bootmem_page_start := 0x200; bootmem_page_max := 0x7ff |}.

Lemma paging_maps_kernel_witness :
  exists cr3 mem' b', paging_init 128 ∅ boot_heap = Ret (cr3, mem', b') /\
    (forall x, 0 <= x < 128 * 2 ^ 20 -> translate mem' cr3 (PAGE_OFFSET + x) = Some (x, true)) /\
    (forall y, 0 <= y < 20 * 2 ^ 20 ->
       translate mem' cr3 (PAGE_OFFSET + 0xC0000000 + y) = Some (0xFEC00000 + y, false)) /\
    (forall va, 0 <= va < 2 ^ 47 -> translate mem' cr3 va = None).
Proof.
  apply paging_maps_kernel; [split; simpl; lia | lia | reflexivity | vm_compute; reflexivity].
Defined.

(** From 2048 megabytes on, the second page directory is looked for in the
    wrong place: the entry [l] of the upper table points [8 * l] pages behind
    the first directory, although the directories follow each other by one
    page, so what maps the second gigabyte is part of the page tables. *)
Theorem second_directory_misplaced (m : Z) (mem : ptmem) (b : bootmem) :
  bm_ok b -> 2048 <= m < 3072 -> bootmem_page_index b + 15 + m / 2 < bootmem_page_max b ->
  let i := bootmem_page_index b in
  exists cr3 mem' b', paging_init m mem b = Ret (cr3, mem', b') /\
    mem' !! (frame (i + 1) + 8) = Some (4096 * (i + 2 + 8) + 3) /\
    mem' !! (frame (i + 2 + 1)) = Some (4096 * (i + 4 + 512) + 3).
Proof.
  intros Hb Hm Hmax i. pose proof Hb as [Hs Hmx]. fold i in Hs, Hmax.
  assert (Hc : m / 1024 = 2) by (symmetry; apply Z.div_unique with (m - 2048); lia).
  assert (Hp : 1024 <= m / 2 < 1536).
  { split; [apply Z.div_le_lower_bound; lia | apply Z.div_lt_upper_bound; lia]. }
  unfold paging_init. rewrite Hc. change (2 =? 0) with false. cbv iota.
  rewrite (proj2 (Z.eqb_neq (m / 2) 0)) by lia. set (c := m / 2) in *.
  rewrite alloc_bootmem_ok; [|done | lia | lia]. cbn [mbind res_bind].
  do 5 (rewrite alloc_bootmem_ok; [|split; simpl; lia | lia | simpl; lia]; cbn [mbind res_bind]).
  cbn [bootmem_page_index bootmem_page_start bootmem_page_max]. fold i.
  replace (i + 1 + 1 + 2) with (i + 4) by lia. replace (i + 1 + 1) with (i + 2) by lia.
  replace (i + 4 + c + 1) with (i + 5 + c) by lia.
  repeat match goal with |- context [PAGE_OFFSET + 4096 * ?k] => fold (frame k) end.
  rewrite !__pa_frame by lia. rewrite (wrap_small 64 (m * 256)) by lia.
  eexists _, _, _. split; [done|].
  unfold PAGE_SIZE. change (Z.shiftl 1 PAGE_SHIFT) with 4096.
  unfold _PAGE_RW, _PAGE_PRESENT, _PAGE_PCD, set_pgd, set_pud, set_pmd, set_pte. split.
  - skip_stores. change 8 with (8 * 1) at 1. rewrite set_entries_hit by (done || lia).
    replace (frame (i + 2) + 8 * (1 * 4096)) with (frame (i + 2 + 8)) by (unfold frame; lia).
    rewrite __pa_frame by lia. rewrite wrap_small by lia. f_equal; lia.
  - skip_stores. replace (frame (i + 2 + 1)) with (frame (i + 2) + 8 * 512) by (unfold frame; lia).
    rewrite set_entries_hit by (done || lia). rewrite wrap_small by lia. f_equal; lia.
Qed.

(** A heap of 4096 pages. *)
Definition large_heap : bootmem :=
  {| bootmem_page_index := 0x203; bootmem_page_start := 0x200; bootmem_page_max := 0xfff |}.

Lemma second_directory_misplaced_witness :
  exists cr3 mem' b', paging_init 2048 ∅ large_heap = Ret (cr3, mem', b') /\
    mem' !! (frame (0x203 + 1) + 8) = Some (4096 * (0x203 + 2 + 8) + 3) /\
    mem' !! (frame (0x203 + 2 + 1)) = Some (4096 * (0x203 + 4 + 512) + 3).
Proof.
  apply (second_directory_misplaced 2048 ∅ large_heap);
    [split; simpl; lia | lia | vm_compute; reflexivity].
Defined.

(** The attribute functions of page-table entries change one bit each, and
    the tests see it: an entry made dirty, young or writable tests so, one
    made clean, old or read-only does not, and no function changes another
    bit or the page frame. *)
Theorem pte_attributes (pte : Z) :
  (pte_dirty (pte_mkdirty pte) <> 0 /\ pte_dirty (pte_mkclean pte) = 0) /\
  (pte_young (pte_mkyoung pte) <> 0 /\ pte_young (pte_mkold pte) = 0) /\
  (pte_write (pte_mkwrite pte) <> 0 /\ pte_write (pte_wrprotect pte) = 0) /\
  Forall (fun '(f, k) => pte_pfn (f pte) = pte_pfn pte /\
            forall n, 0 <= n -> n <> k -> Z.testbit (f pte) n = Z.testbit pte n)
    [(pte_mkdirty, 6); (pte_mkclean, 6); (pte_mkyoung, 5); (pte_mkold, 5);
     (pte_mkwrite, 1); (pte_wrprotect, 1)].
Proof.
  assert (Htest : forall f k v, 0 <= k < 31 -> sets_bit f k v ->
    (v = true -> s32 (Z.land (f pte) (2 ^ k)) <> 0) /\
    (v = false -> s32 (Z.land (f pte) (2 ^ k)) = 0)).
  { intros f k v Hk Hf. pose proof (sets_bit_test f k v pte Hk Hf) as Ht.
    destruct v; split; try done; [by rewrite Ht|]. intros _.
    destruct (decide (s32 (Z.land (f pte) (2 ^ k)) = 0)) as [|Hn]; [done|]. by apply Ht in Hn. }
  assert (Hframe : forall f k v, 0 <= k < 12 -> sets_bit f k v ->
    pte_pfn (f pte) = pte_pfn pte /\
    forall n, 0 <= n -> n <> k -> Z.testbit (f pte) n = Z.testbit pte n).
  { intros f k v Hk Hf. split; [by eapply sets_bit_pfn|]. intros n Hn Hne.
    rewrite Hf by done. by rewrite (proj2 (Z.eqb_neq n k)). }
  pose proof (lor_sets_bit 6) as D1. pose proof (land_lnot_sets_bit 6) as D0.
  pose proof (lor_sets_bit 5) as Y1. pose proof (land_lnot_sets_bit 5) as Y0.
  pose proof (lor_sets_bit 1) as W1. pose proof (land_lnot_sets_bit 1) as W0.
  split_and!.
  - by apply (Htest _ 6 true ltac:(lia) (D1 ltac:(lia))).
  - by apply (Htest _ 6 false ltac:(lia) (D0 ltac:(lia))).
  - by apply (Htest _ 5 true ltac:(lia) (Y1 ltac:(lia))).
  - by apply (Htest _ 5 false ltac:(lia) (Y0 ltac:(lia))).
  - by apply (Htest _ 1 true ltac:(lia) (W1 ltac:(lia))).
  - by apply (Htest _ 1 false ltac:(lia) (W0 ltac:(lia))).
  - repeat apply Forall_cons_2; [..|apply Forall_nil_2].
    + apply (Hframe _ 6 true); [lia | apply D1; lia].
    + apply (Hframe _ 6 false); [lia | apply D0; lia].
    + apply (Hframe _ 5 true); [lia | apply Y1; lia].
    + apply (Hframe _ 5 false); [lia | apply Y0; lia].
    + apply (Hframe _ 1 true); [lia | apply W1; lia].
    + apply (Hframe _ 1 false); [lia | apply W0; lia].
Qed.
