(* ===== verification/PageWalk.v ===== *)
(** * Walking and switching page tables (pgtable.h, processor.h, page.c)

    The macros with which the kernel follows its own tables from a linear
    address to the entry of its page, and the control registers and flushes
    with which [paging_init] puts the tables in force. Control registers and
    cached translations are given by [Processor]; [cpu] is an instance. *)

From S2P Require Import Prelude BootMem Paging.

(** ** Entries *)

Definition __VIRTUAL_MASK_SHIFT : Z := 48.
Definition __VIRTUAL_MASK : Z := Z.shiftl 1 __VIRTUAL_MASK_SHIFT - 1.
Definition _PAGE_GLOBAL : Z := 0x100.

Definition PUD_SIZE : Z := Z.shiftl 1 PUD_SHIFT.
Definition PUD_MASK : Z := u64 (Z.lnot (PUD_SIZE - 1)).
Definition PMD_SIZE : Z := Z.shiftl 1 PMD_SHIFT.
Definition PMD_MASK : Z := u64 (Z.lnot (PMD_SIZE - 1)).
Definition PTE_SHIFT : Z := 12.
Definition PTE_SIZE : Z := Z.shiftl 1 PTE_SHIFT.
Definition PTE_MASK : Z := u64 (Z.lnot (PAGE_SIZE - 1)).
Definition PHYSICAL_PAGE_MASK : Z :=
  Z.land (u64 (Z.lnot (PAGE_SIZE - 1))) (Z.shiftl 1 __PHYSICAL_MASK_SHIFT - 1).

Definition pgd_none (x : Z) : bool := x =? 0.
Definition pud_none (x : Z) : bool := x =? 0.
Definition pmd_none (x : Z) : bool := x =? 0.
Definition pte_none (x : Z) : bool := x =? 0.
Definition pgd_present (x : Z) : Z := Z.land x _PAGE_PRESENT.
Definition pud_present (x : Z) : Z := Z.land x _PAGE_PRESENT.
Definition pmd_present (x : Z) : Z := Z.land x _PAGE_PRESENT.

Definition pgd_clear (pgd : Z) (m : ptmem) : ptmem := set_pgd pgd 0 m.
Definition pud_clear (pud : Z) (m : ptmem) : ptmem := set_pud pud 0 m.
Definition pmd_clear (xp : Z) (m : ptmem) : ptmem := set_pmd xp 0 m.

Definition pfn_pmd (nr prot : Z) : Z := Z.lor (u64 (Z.shiftl nr PAGE_SHIFT)) prot.
Definition pmd_pfn (x : Z) : Z := Z.shiftr (Z.land x __PHYSICAL_MASK) PAGE_SHIFT.

(** [__pfn_to_page(pfn)] and [__page_to_pfn(page)]: a page descriptor is its
    index in [mem_map]. *)
Definition __pfn_to_page (pfn : Z) : Z := pfn.
Definition __page_to_pfn (page : Z) : Z := u64 page.

(** ** The linear address of the next table, and of an entry in it *)

Definition pgd_page_vaddr (pgd : Z) : Z := __va (Z.land pgd PTE_MASK).
Definition pud_page_vaddr (pud : Z) : Z := __va (Z.land pud PHYSICAL_PAGE_MASK).
Definition pmd_page_vaddr (pmd : Z) : Z := __va (Z.land pmd PTE_MASK).

(** [pgd_offset(mm, addr)], given the field [pgd] of [mm]. *)
Definition pgd_offset (pgd addr : Z) : Z := pgd + 8 * pgd_index addr.

(** [*(p)] *)
Definition deref (m : ptmem) (p : Z) : res Z :=
  match m !! p with Some e => Ret e | None => Fault end.

Definition pud_offset (m : ptmem) (pgd address : Z) : res Z :=
  e ← deref m pgd; Ret (pgd_page_vaddr e + 8 * pud_index address).
Definition pmd_offset (m : ptmem) (dir address : Z) : res Z :=
  e ← deref m dir; Ret (pud_page_vaddr e + 8 * pmd_index address).
Definition pte_offset_kernel (m : ptmem) (dir address : Z) : res Z :=
  e ← deref m dir; Ret (pmd_page_vaddr e + 8 * pte_index address).

(** The pointers a kernel routine computes in turn, with their values. *)
Definition kernel_walk (m : ptmem) (pgd va : Z) : res (Z * Z * Z * Z) :=
  let p4 := pgd_offset pgd va in
  p3 ← pud_offset m p4 va;
  p2 ← pmd_offset m p3 va;
  p1 ← pte_offset_kernel m p2 va;
  e4 ← deref m p4; e3 ← deref m p3; e2 ← deref m p2; e1 ← deref m p1;
  Ret (e4, e3, e2, e1).

(** ** The processor *)

Inductive creg := CR0 | CR2 | CR3 | CR4 | CR8.

#[global] Instance creg_eq_dec : EqDecision creg.
Proof. solve_decision. Defined.

Definition X86_CR4_PGE : Z := 0x80.

(** Control registers hold what is written to them; a write to CR3 drops every
    cached translation that is not global, a write that changes the PGE bit of
    CR4 drops all, and no instruction here adds one. [cached p n] is the frame
    and the global flag cached for the page [n]. *)
Class Processor (P : Type) := {
  get_cr : creg -> P -> Z;
  set_cr : creg -> Z -> P -> P;
  wbinvd : P -> P;
  cached : P -> Z -> option (Z * bool);
  get_set_cr r v p q : get_cr q (set_cr r v p) = if decide (q = r) then v else get_cr q p;
  get_wbinvd p q : get_cr q (wbinvd p) = get_cr q p;
  cached_set r v p n t : cached (set_cr r v p) n = Some t -> cached p n = Some t;
  cached_wbinvd p n t : cached (wbinvd p) n = Some t -> cached p n = Some t;
  cached_cr3 v p n f g : cached (set_cr CR3 v p) n = Some (f, g) -> g = true;
  cached_cr4 v p n : Z.testbit v 7 <> Z.testbit (get_cr CR4 p) 7 -> cached (set_cr CR4 v p) n = None
}.

Section Processor.
Context {P : Type} `{Processor P}.

Definition read_cr0 (p : P) : Z := get_cr CR0 p.
Definition write_cr0 (val : Z) (p : P) : P := set_cr CR0 val p.
Definition read_cr2 (p : P) : Z := get_cr CR2 p.
Definition write_cr2 (val : Z) (p : P) : P := set_cr CR2 val p.
Definition read_cr3 (p : P) : Z := get_cr CR3 p.
Definition write_cr3 (val : Z) (p : P) : P := set_cr CR3 val p.
Definition read_cr4 (p : P) : Z := get_cr CR4 p.
Definition write_cr4 (val : Z) (p : P) : P := set_cr CR4 val p.
Definition read_cr8 (p : P) : Z := get_cr CR8 p.
Definition write_cr8 (val : Z) (p : P) : P := set_cr CR8 val p.
Definition flush_cache (p : P) : P := wbinvd p.

Definition __flush_tlb (p : P) : P := write_cr3 (read_cr3 p) p.

Definition __flush_tlb_all (p : P) : P :=
  let cr4 := read_cr4 p in
  write_cr4 cr4 (write_cr4 (Z.land cr4 (u64 (Z.lnot X86_CR4_PGE))) p).

(** The end of [paging_init], given the value it computes for CR3. *)
Definition load_tables (cr3_val : Z) (p : P) : P :=
  __flush_tlb_all (flush_cache (write_cr3 cr3_val p)).

End Processor.

(** ** Lemmas *)

Lemma page_bits e : 0 <= e -> e = 4096 * (e / 4096) + e mod 4096 /\ 0 <= e mod 4096 < 4096.
Proof.
  intros He. split; [apply Z.div_mod; lia | apply Z.mod_pos_bound; lia].
Qed.

(** Clearing the attribute bits: every mask the kernel and the processor use
    has the bits 12 to 39. *)
Lemma land_page_mask mask e :
  (forall n, 0 <= n < 40 -> Z.testbit mask n = (12 <=? n)) -> 0 <= e < 2 ^ 40 ->
  Z.land e mask = 4096 * (e / 4096).
Proof.
  intros Hm He. apply Z.bits_inj'. intros n Hn. rewrite Z.land_spec.
  replace (4096 * (e / 4096)) with (e / 2 ^ 12 * 2 ^ 12) by (change (2 ^ 12) with 4096; lia).
  destruct (Z.ltb_spec n 40).
  - rewrite Hm by lia. destruct (Z.leb_spec 12 n).
    + rewrite andb_true_r, Z.mul_pow2_bits, Z.div_pow2_bits by lia. f_equal. lia.
    + by rewrite andb_false_r, Z.mul_pow2_bits_low by lia.
  - assert (Hz : Z.testbit e n = false).
    { destruct (decide (e = 0)) as [->|]; [apply Z.bits_0|]. apply Z.bits_above_log2; [lia|].
      assert (Z.log2 e < 40) by (apply Z.log2_lt_pow2; lia). lia. }
    rewrite Hz. symmetry. rewrite Z.mul_pow2_bits, Z.div_pow2_bits by lia.
    by replace (n - 12 + 12) with n by lia.
Qed.

(** Checks the bits 0 to 39 of a mask. *)
Lemma mask_bits mask :
  forallb (fun n => eqb (Z.testbit mask n) (12 <=? n)) (seqZ 0 40) = true ->
  forall n, 0 <= n < 40 -> Z.testbit mask n = (12 <=? n).
Proof.
  intros Hall n Hn. rewrite forallb_forall in Hall.
  apply eqb_prop, Hall, list_elem_of_In, elem_of_seqZ. lia.
Qed.

Lemma next_table e :
  0 <= e < 2 ^ 40 ->
  entry_base e = 4096 * (e / 4096) /\ pgd_page_vaddr e = frame (e / 4096) /\
  pud_page_vaddr e = frame (e / 4096) /\ pmd_page_vaddr e = frame (e / 4096) /\
  pte_pfn e = e / 4096.
Proof.
  intros He. assert (Hd : 0 <= e / 4096 < 2 ^ 28).
  { split; [apply Z.div_pos; lia | apply Z.div_lt_upper_bound; lia]. }
  assert (Hva : __va (4096 * (e / 4096)) = frame (e / 4096)).
  { unfold __va, frame. rewrite wrap_small; [lia | unfold PAGE_OFFSET; lia]. }
  unfold entry_base, pgd_page_vaddr, pud_page_vaddr, pmd_page_vaddr.
  rewrite (land_page_mask 0x000FFFFFFFFFF000) by (done || (apply mask_bits; by vm_compute)).
  rewrite (land_page_mask PTE_MASK) by (done || (apply mask_bits; by vm_compute)).
  rewrite (land_page_mask PHYSICAL_PAGE_MASK) by (done || (apply mask_bits; by vm_compute)).
  rewrite Hva. split_and!; try done.
  unfold pte_pfn, __PHYSICAL_MASK, __PHYSICAL_MASK_SHIFT, PAGE_SHIFT.
  replace (Z.shiftl 1 40 - 1) with (Z.ones 40) by done.
  rewrite Z.land_ones, Z.mod_small, Z.shiftr_div_pow2 by lia. done.
Qed.

Lemma present_bit e : 0 <= e -> (Z.land e _PAGE_PRESENT =? 0) = negb (Z.testbit e 0).
Proof.
  intros He. unfold _PAGE_PRESENT. change 1 with (Z.ones 1). rewrite Z.land_ones by lia.
  change (2 ^ 1) with 2. rewrite Z.bit0_odd, Zmod_odd. by destruct (Z.odd e).
Qed.

Lemma deref_Ret m p e : deref m p = Ret e -> m !! p = Some e.
Proof. unfold deref. destruct (m !! p); [by intros [= ->] | done]. Qed.

Lemma entry_read m k idx e :
  m !! (frame k + 8 * idx) = Some e -> entry m (4096 * k) idx = if Z.testbit e 0 then Some e else None.
Proof. intros Hm. unfold entry. fold (frame k). by rewrite Hm. Qed.

(** What is loaded can be read back. *)
Lemma load_tables_cr3 {P} `{Processor P} cr3_val (p : P) : read_cr3 (load_tables cr3_val p) = cr3_val.
Proof.
  unfold load_tables, __flush_tlb_all, flush_cache, write_cr3, write_cr4, read_cr3, read_cr4.
  rewrite !get_set_cr, !decide_False, get_wbinvd, get_set_cr by done. by rewrite decide_True.
Qed.

(** ** Properties *)

(** C26: the kernel and the processor walk alike. Where the macros from
    [pgd_offset] to [pte_offset_kernel] read four entries that are below the
    40 bits of a physical address and name no large page, the processor's
    translation of the address, which takes the bits 39 to 47, 30 to 38, 21 to
    29 and 12 to 20 of it as the indices of the four tables, is the page
    [pte_pfn] of the last entry with the offset, writable when all four are, if
    all four are present, and a page fault otherwise. *)
Theorem kernel_walk_agrees m k va e4 e3 e2 e1 :
  0 <= k < 2 ^ 28 -> kernel_walk m (frame k) va = Ret (e4, e3, e2, e1) ->
  Forall (fun e => 0 <= e < 2 ^ 40) [e4; e3; e2; e1] ->
  Z.testbit e3 7 = false -> Z.testbit e2 7 = false ->
  translate m (4096 * k) va
  = if (pgd_present e4 =? 0) || (pud_present e3 =? 0) || (pmd_present e2 =? 0) ||
       (Z.land e1 _PAGE_PRESENT =? 0) then None
    else Some (4096 * pte_pfn e1 + va mod 4096,
               Z.testbit e4 1 && Z.testbit e3 1 && Z.testbit e2 1 && Z.testbit e1 1).
Proof.
  intros Hk Hw Hall L3 L2. rewrite !Forall_cons in Hall. destruct Hall as (R4 & R3 & R2 & R1 & _).
  unfold kernel_walk, pud_offset, pmd_offset, pte_offset_kernel, pgd_offset in Hw. cbv zeta in Hw.
  inv_bind Hw. inv_bind E. apply deref_Ret in E0 as M4. injection E as <-.
  inv_bind Hw. inv_bind E. injection E as <-. inv_bind Hw. inv_bind E. injection E as <-.
  rewrite E0 in Hw. cbn [mbind res_bind] in Hw.
  rewrite E1, E2 in Hw. cbn [mbind res_bind] in Hw. inv_bind Hw. injection Hw as -> -> -> ->.
  apply deref_Ret in E1 as M3, E2 as M2, E as M1.
  destruct (next_table e4 R4) as (B4 & V4 & _), (next_table e3 R3) as (B3 & _ & V3 & _),
    (next_table e2 R2) as (B2 & _ & _ & V2 & _), (next_table e1 R1) as (B1 & _ & _ & _ & P1).
  rewrite V4 in M3. rewrite V3 in M2. rewrite V2 in M1.
  unfold pgd_present, pud_present, pmd_present. rewrite !present_bit by lia.
  assert (Bk : entry_base (4096 * k) = 4096 * k).
  { rewrite <- (Z.add_0_r (4096 * k)) at 1. apply entry_base_add; lia. }
  destruct (macro_indices va) as (I4 & I3 & I2 & I1). unfold translate. rewrite I4, I3, I2, I1.
  rewrite Bk, (entry_read m k _ e4) by done.
  destruct (Z.testbit e4 0); cbn [mbind option_bind negb orb]; [|done].
  rewrite B4, (entry_read m _ _ e3) by done.
  destruct (Z.testbit e3 0); cbn [mbind option_bind negb orb]; [|done]. rewrite L3.
  rewrite B3, (entry_read m _ _ e2) by done.
  destruct (Z.testbit e2 0); cbn [mbind option_bind negb orb]; [|done]. rewrite L2.
  rewrite B2, (entry_read m _ _ e1) by done.
  destruct (Z.testbit e1 0); cbn [mbind option_bind negb orb]; [|done].
  by rewrite B1, P1.
Qed.

(** Three tables behind the one of page 1: address 0x5678 of page 0x123. *)
Definition sample_tables : ptmem :=
  {[frame 1 + 8 * 256 := 0x2003; frame 2 := 0x3003; frame 3 := 0x4003; frame 4 + 8 * 5 := 0x123001]}.

Lemma kernel_walk_agrees_witness :
  translate sample_tables (4096 * 1) (PAGE_OFFSET + 0x5678) = Some (4096 * 0x123 + 0x678, false).
Proof.
  rewrite (kernel_walk_agrees sample_tables 1 (PAGE_OFFSET + 0x5678) 0x2003 0x3003 0x4003 0x123001).
  - reflexivity.
  - lia.
  - vm_compute. reflexivity.
  - repeat (apply Forall_cons_2; [lia|]). apply Forall_nil_2.
  - reflexivity.
  - reflexivity.
Defined.

(** New tables are in force at once. When the PGE bit of CR4 is set, as the
    boot loader leaves it, the end of [paging_init] loads CR3, leaves the other
    control registers as they were and no cached translation behind, not even a
    global one; [__flush_tlb] alone would keep the global ones. *)
Theorem new_tables_in_force {P} `{Processor P} cr3_val (p : P) :
  0 <= get_cr CR4 p < 2 ^ 64 -> Z.testbit (get_cr CR4 p) 7 = true ->
  let p' := load_tables cr3_val p in
  read_cr3 p' = cr3_val /\ (forall r, r <> CR3 -> get_cr r p' = get_cr r p) /\
  (forall n, cached p' n = None) /\
  (forall n f g, cached (__flush_tlb p) n = Some (f, g) -> g = true /\ cached p n = Some (f, g)).
Proof.
  intros H4 Hb p'. split; [apply load_tables_cr3|]. unfold p', load_tables, __flush_tlb_all, __flush_tlb, flush_cache, write_cr3, write_cr4,
    read_cr3, read_cr4. clear p'.
  split; [|split].
  - intros r Hr. rewrite !get_set_cr, !get_wbinvd, !get_set_cr. destruct (decide (r = CR4)) as [->|].
    + by rewrite decide_False.
    + by rewrite decide_False.
  - intros n. apply cached_cr4. rewrite !get_set_cr, !get_wbinvd, !get_set_cr.
    rewrite (decide_True (P := CR4 = CR4)), (decide_False (P := CR4 = CR3)) by done.
    rewrite Hb, Z.land_spec, Hb, wrap_testbit by lia. done.
  - intros n f g Hc. split; [by eapply cached_cr3 | by eapply cached_set].
Qed.

(** ** A concrete processor *)

Record cpu := { cr : creg -> Z; tlb : gmap Z (Z * bool) }.

Definition set_creg (r : creg) (v : Z) (c : cpu) : cpu :=
  {| cr := fun q => if decide (q = r) then v else cr c q;
     tlb := if decide (r = CR3) then filter (fun e => e.2.2 = true) (tlb c)
            else if decide (r = CR4 /\ Z.testbit v 7 <> Z.testbit (cr c CR4) 7) then ∅ else tlb c |}.

#[export, refine] Instance cpu_processor : Processor cpu := {
  get_cr r c := cr c r;
  set_cr := set_creg;
  wbinvd c := c;
  cached c n := tlb c !! n
}.
Proof.
  - done.
  - done.
  - intros r v c n t. unfold set_creg. cbn [tlb]. repeat case_decide; [|done|done].
    by intros [? _]%map_lookup_filter_Some.
  - done.
  - intros v c n f g. unfold set_creg. cbn [tlb]. rewrite decide_True by done.
    by intros [_ ?]%map_lookup_filter_Some.
  - intros v c n Hb. unfold set_creg. cbn [tlb]. rewrite decide_False by done. by rewrite decide_True.
Defined.

(** Page 5 is cached, and page 7 as a global one. *)
Definition sample_cpu (cr4 : Z) : cpu :=
  {| cr := fun r => if decide (r = CR4) then cr4 else 0x90000; tlb := {[5 := (5, false); 7 := (7, true)]} |}.

Lemma new_tables_in_force_witness :
  let p' := load_tables 0x203000 (sample_cpu 0xA0) in
  read_cr3 p' = 0x203000 /\ (forall n, cached p' n = None).
Proof.
  destruct (new_tables_in_force 0x203000 (sample_cpu 0xA0)) as (H1 & _ & H2 & _).
  - vm_compute. split; [discriminate | reflexivity].
  - reflexivity.
  - exact (conj H1 H2).
Defined.

(** Without the PGE bit both writes of [__flush_tlb_all] leave it alone and
    drop nothing. *)
Lemma flush_all_needs_pge : tlb (__flush_tlb_all (sample_cpu 0x20)) = tlb (sample_cpu 0x20).
Proof. reflexivity. Qed.
