(* ===== verification/PageFlags.v ===== *)
(** * Page flags (page-flags.h)

    The bits of the [flags] word of a page descriptor and the families of
    macros on them, [PageX], [SetPageX], [ClearPageX], [TestSetPageX] and
    [TestClearPageX], as the operation of the family on the flag [X]. *)

From S2P Require Import Prelude BitOps.

Inductive page_flag :=
| PG_locked | PG_error | PG_referenced | PG_uptodate
| PG_dirty | PG_lru | PG_active | PG_slab
| PG_owner_priv_1 | PG_arch_1 | PG_reserved | PG_private
| PG_writeback | PG_compound | PG_swapcache
| PG_mappedtodisk | PG_reclaim | PG_buddy | PG_uncached.

#[global] Instance page_flag_eq_dec : EqDecision page_flag.
Proof. solve_decision. Defined.

Definition flag_bit (f : page_flag) : Z :=
  match f with
  | PG_locked => 0 | PG_error => 1 | PG_referenced => 2 | PG_uptodate => 3
  | PG_dirty => 4 | PG_lru => 5 | PG_active => 6 | PG_slab => 7
  | PG_owner_priv_1 => 8 | PG_arch_1 => 9 | PG_reserved => 10 | PG_private => 11
  | PG_writeback => 12 | PG_compound => 14 | PG_swapcache => 15
  | PG_mappedtodisk => 16 | PG_reclaim => 17 | PG_buddy => 19 | PG_uncached => 31
  end.

(** Flags with a second name. *)
Definition PG_readahead : page_flag := PG_reclaim.
Definition PG_checked : page_flag := PG_owner_priv_1.
Definition PG_pinned : page_flag := PG_owner_priv_1.

(** The word of flags as a bit string of one word. *)
Definition flag_word (flags : Z) : gmap Z Z := {[0 := flags]}.

Definition PageFlag (f : page_flag) (flags : Z) : Z := test_bit (flag_bit f) (flag_word flags).

Definition SetPageFlag (f : page_flag) (flags : Z) : Z :=
  word_at (set_bit (flag_bit f) (flag_word flags)) 0.

Definition ClearPageFlag (f : page_flag) (flags : Z) : Z :=
  word_at (clear_bit (flag_bit f) (flag_word flags)) 0.

Definition TestSetPageFlag (f : page_flag) (flags : Z) : Z * Z :=
  let '(r, m) := test_and_set_bit (flag_bit f) (flag_word flags) in (r, word_at m 0).

Definition TestClearPageFlag (f : page_flag) (flags : Z) : Z * Z :=
  let '(r, m) := test_and_clear_bit (flag_bit f) (flag_word flags) in (r, word_at m 0).

(** ** Lemmas *)

Lemma flag_bit_range f : 0 <= flag_bit f < 64 /\ flag_bit f / 64 = 0 /\ flag_bit f mod 64 = flag_bit f.
Proof. destruct f; done. Qed.

Lemma flag_bit_inj f g : flag_bit f = flag_bit g -> f = g.
Proof. destruct f, g; done. Qed.

Lemma word_at_flag_word w : word_at (flag_word w) 0 = w.
Proof. unfold word_at, flag_word. by rewrite lookup_singleton_eq. Qed.

Lemma PageFlag_eq f w : PageFlag f w = if Z.testbit w (flag_bit f) then -1 else 0.
Proof.
  unfold PageFlag, test_bit. destruct (flag_bit_range f) as (_ & -> & ->).
  by rewrite word_at_flag_word.
Qed.

Lemma SetPageFlag_eq f w : SetPageFlag f w = bts w (flag_bit f).
Proof.
  unfold SetPageFlag, set_bit. destruct (flag_bit_range f) as (_ & -> & _).
  rewrite word_at_flag_word. unfold word_at. by rewrite lookup_insert_eq.
Qed.

Lemma ClearPageFlag_eq f w : ClearPageFlag f w = btr w (flag_bit f).
Proof.
  unfold ClearPageFlag, clear_bit. destruct (flag_bit_range f) as (_ & -> & _).
  rewrite word_at_flag_word. unfold word_at. by rewrite lookup_insert_eq.
Qed.

(** ** Properties *)

(** The flags of a page are independent. Setting a flag makes its test
    true and clearing it makes the test false, neither changes the test of
    another flag, and the word stays a 64-bit word. *)
Theorem page_flags_independent (f g : page_flag) (flags : Z) :
  0 <= flags < 2 ^ 64 ->
  PageFlag g (SetPageFlag f flags) = (if decide (f = g) then -1 else PageFlag g flags) /\
  PageFlag g (ClearPageFlag f flags) = (if decide (f = g) then 0 else PageFlag g flags) /\
  0 <= SetPageFlag f flags < 2 ^ 64.
Proof.
  intros Hw. rewrite SetPageFlag_eq, ClearPageFlag_eq, !PageFlag_eq.
  destruct (flag_bit_range f) as (_ & _ & Hf). pose proof (proj1 (flag_bit_range g)) as Hg.
  rewrite bts_testbit, btr_testbit by lia. rewrite Hf.
  split_and!; [| |apply bts_range; lia..].
  - destruct (decide (f = g)) as [->|Hne]; [by rewrite decide_True|].
    rewrite decide_False; [done|]. intros E. by apply Hne, eq_sym, flag_bit_inj.
  - destruct (decide (f = g)) as [->|Hne]; [by rewrite decide_True|].
    rewrite decide_False; [done|]. intros E. by apply Hne, eq_sym, flag_bit_inj.
Qed.

Lemma page_flags_independent_witness :
  PageFlag PG_dirty (SetPageFlag PG_slab 0x10) = -1 /\
  PageFlag PG_dirty (ClearPageFlag PG_slab 0x10) = -1 /\ 0 <= SetPageFlag PG_slab 0x10 < 2 ^ 64.
Proof. apply (page_flags_independent PG_slab PG_dirty 0x10). lia. Defined.

(** A test-and-set or test-and-clear is the test followed by the change. *)
Lemma test_and_flags (f : page_flag) (flags : Z) :
  TestSetPageFlag f flags = (PageFlag f flags, SetPageFlag f flags) /\
  TestClearPageFlag f flags = (PageFlag f flags, ClearPageFlag f flags).
Proof. done. Qed.
