(* ===== verification/SlabPages.v ===== *)
(** * Pages for slabs (kmem_getpages and kmem_freepages of slab.c)

    The slab allocator takes and returns blocks of pages through two functions
    that also keep the [slab] field and the slab flag of the descriptors.
    [PageSource] is what it relies on; [page_source] shows that the page
    allocator provides it. *)

From S2P Require Import Prelude BitOps BootMem Memory PageAlloc PageFlags.

(** ** What the slab allocator needs of the pages *)

(** [own] are the blocks handed out: address to order; [held] are blocks of
    pages somebody else keeps meanwhile. [ps_stuck] are the requests the source
    does not survive. *)
Class PageSource (P : Type) := {
  ps_get : Z -> Z -> P -> res (option Z * P);     (* order, flags *)
  ps_put : Z -> Z -> P -> res P;                  (* order, address *)
  ps_slab : Z -> P -> res Z;                      (* virt_to_page(address)->slab *)
  ps_ok : P -> gmap Z Z -> gmap Z Z -> Prop;      (* held, own *)
  ps_stuck : Z -> P -> Prop;
  ps_get_ok p held own order flags : ps_ok p held own -> 0 <= order <= MAX_PAGE_ORDER ->
    ps_get order flags p = Ret (None, p) \/
    (exists a p', ps_get order flags p = Ret (Some a, p') /\ ps_ok p' held (<[a := order]> own) /\
      own !! a = None) \/
    (ps_stuck order p /\ ps_get order flags p = Fault);
  ps_put_ok p held own a order : ps_ok p held own -> own !! a = Some order ->
    exists p', ps_put order a p = Ret p' /\ ps_ok p' held (delete a own);
  ps_slab_ok p held own a order x : ps_ok p held own -> own !! a = Some order ->
    a <= x < a + 4096 * 2 ^ order -> ps_slab x p = Ret a;
  ps_own_range p held own a order : ps_ok p held own -> own !! a = Some order ->
    PAGE_OFFSET <= a /\ a + 4096 * 2 ^ order <= 2 ^ 64 /\ (a - PAGE_OFFSET) mod 4096 = 0 /\
    0 <= order <= MAX_PAGE_ORDER;
  ps_own_disjoint p held own a b o o' x : ps_ok p held own ->
    own !! a = Some o -> own !! b = Some o' ->
    a <= x < a + 4096 * 2 ^ o -> b <= x < b + 4096 * 2 ^ o' -> a = b;
  ps_held_disjoint p held own a b o o' x : ps_ok p held own ->
    held !! a = Some o -> own !! b = Some o' ->
    a <= x < a + 4096 * 2 ^ o -> ~ (b <= x < b + 4096 * 2 ^ o')
}.

(** ** The functions *)

Definition slab_page (slab : Z) (p : page) : page :=
  set_slab slab (set_flags (SetPageFlag PG_slab (pg_flags p)) p).

(** [while (i--) { SetPageSlab(&page[i]); page[i].slab = page->virtual; }] *)
Definition getpages_step (pg count k : Z) (mm : list page) : res (list page) :=
  h ← aget mm pg;
  p ← aget mm (pg + (count - 1 - k));
  aset mm (pg + (count - 1 - k)) (slab_page (pg_virtual h) p).

Definition kmem_getpages (gfporder flag : Z) (st : kpages) : res (option Z * kpages) :=
  '(page, st) ← alloc_pages flag gfporder st;
  match page with
  | None => Ret (None, st)
  | Some page =>
      let i := s32 (Z.shiftl 1 gfporder) in
      mm ← for_loop (Z.to_nat i) 0 (getpages_step page i) (mem_map st);
      h ← aget mm page;
      Ret (Some (pg_virtual h), {| mem_map := mm; zones := zones st |})
  end.

Definition freepages_step (pg k : Z) (mm : list page) : res (list page) :=
  p ← aget mm (pg + k);
  aset mm (pg + k) (set_flags (ClearPageFlag PG_slab (pg_flags p)) (set_slab 0 p)).

Definition kmem_freepages (gfporder addr : Z) (st : kpages) : res kpages :=
  let i := u64 (s32 (Z.shiftl 1 gfporder)) in
  let page := virt_to_page addr in
  p ← aget (mem_map st) page;
  if negb (pg_private p =? gfporder) then Ret st
  else
    mm ← for_loop (Z.to_nat i) 0 (freepages_step page) (mem_map st);
    free_pages_at addr gfporder {| mem_map := mm; zones := zones st |}.

(** [virt_to_page(addr)->slab] *)
Definition slab_of (addr : Z) (st : kpages) : res Z :=
  p ← aget (mem_map st) (virt_to_page addr);
  Ret (pg_slab p).

(** ** The page allocator as a source of pages *)

(** Every page knows its linear address, and the blocks of [own] are live blocks
    whose pages name the block. *)
Definition source_ok (st : kpages) (held own : gmap Z Z) : Prop :=
  exists bl rsv, rep st bl rsv /\
    (forall a o, held !! a = Some o ->
       own !! a = None /\ exists s, a = page_to_virt s /\ bl !! s = Some o) /\
    (forall i p, 0 <= i -> mem_map st !! Z.to_nat i = Some p -> pg_virtual p = page_to_virt i) /\
    (forall a o, own !! a = Some o -> exists s, a = page_to_virt s /\ bl !! s = Some o /\
       forall i p, in_block s o i -> mem_map st !! Z.to_nat i = Some p -> pg_slab p = a).

(** ** Lemmas *)

Lemma free_count_ext mm mm' : pg_count <$> mm = pg_count <$> mm' -> free_count mm = free_count mm'.
Proof.
  revert mm'. induction mm as [|p mm IH]; intros [|p' mm'] E; try done.
  rewrite !fmap_cons in E. injection E as Ep E. rewrite !free_count_cons, (IH mm') by done.
  by rewrite Ep.
Qed.

(** What [rep] says depends only on the counts, orders and zones. *)
Lemma rep_frame f s n st bl rsv :
  (forall i p, pg_count (f i p) = pg_count p /\ pg_private (f i p) = pg_private p /\
               pg_zone (f i p) = pg_zone p) ->
  rep st bl rsv -> rep {| mem_map := alter_range f s n (mem_map st); zones := zones st |} bl rsv.
Proof.
  intros Hf Hr.
  assert (Hfc : free_count (alter_range f s n (mem_map st)) = free_count (mem_map st)).
  { apply free_count_ext, list_eq. intros i. rewrite !list_lookup_fmap, alter_range_lookup.
    destruct (mem_map st !! i) as [p|]; simpl; [|done].
    destruct (decide _); [|done]. f_equal. apply Hf. }
  split; cbn [mem_map zones]; rewrite ?alter_range_length, ?Hfc; try apply Hr.
  intros i q Hi Hq. rewrite alter_range_lookup in Hq. apply fmap_Some in Hq as (p & Hp & ->).
  pose proof (rep_page st bl rsv Hr i p Hi Hp) as Hpage.
  destruct (decide _); [|done]. destruct (Hf (Z.of_nat (Z.to_nat i)) p) as (-> & -> & ->). done.
Qed.

Lemma page_to_virt_inj i j :
  0 <= i < 2 ^ 35 -> 0 <= j < 2 ^ 35 -> page_to_virt i = page_to_virt j -> i = j.
Proof. intros Hi Hj. rewrite !page_to_virt_eq by done. lia. Qed.

(** The address of a page determines the page, whatever the offset in it. *)
Lemma block_page s o x :
  0 <= s -> s + 2 ^ o < 2 ^ 35 -> PAGE_OFFSET + 4096 * s <= x < PAGE_OFFSET + 4096 * s + 4096 * 2 ^ o ->
  in_block s o (virt_to_page x) /\ 0 <= virt_to_page x < 2 ^ 35.
Proof.
  intros Hs Ho Hx. set (d := x - PAGE_OFFSET).
  assert (E : x = PAGE_OFFSET + 4096 * (d / 4096) + d mod 4096).
  { pose proof (Z.div_mod d 4096 ltac:(lia)). lia. }
  pose proof (Z.mod_pos_bound d 4096 ltac:(lia)).
  assert (s <= d / 4096) by (apply Z.div_le_lower_bound; lia).
  assert (d / 4096 < s + 2 ^ o) by (apply Z.div_lt_upper_bound; lia).
  rewrite E, virt_to_page_eq by lia. unfold in_block. lia.
Qed.

Lemma rep_block_range st bl rsv s o :
  rep st bl rsv -> bl !! s = Some o ->
  0 <= s /\ 0 <= o <= MAX_PAGE_ORDER /\ 0 < 2 ^ o <= 32 /\
  s + 2 ^ o <= Z.of_nat (length (mem_map st)) < 2 ^ 35.
Proof.
  intros Hr Hb. destruct (rep_block st bl rsv Hr s o Hb) as (Hs & Ho & Hl & _).
  destruct (pow_order o Ho) as (_ & _ & Hp). pose proof (rep_size st bl rsv Hr). lia.
Qed.

(** [kmem_getpages], on a table whose pages know their addresses. *)
Lemma getpages_loop mm s n h :
  0 <= s -> 0 < n -> s + n <= Z.of_nat (length mm) -> mm !! Z.to_nat s = Some h ->
  for_loop (Z.to_nat n) 0 (getpages_step s n) mm
  = Ret (alter_range (fun _ => slab_page (pg_virtual h)) s n mm).
Proof.
  intros Hs Hn Hl Hh.
  assert (Hinv : forall k t, (k <= Z.to_nat n)%nat ->
    for_loop k 0 (fun k t => x ← aget t (s + (n - 1 - k));
      aset t (s + (n - 1 - k)) (slab_page (pg_virtual h) x)) mm = Ret t ->
    for_loop k 0 (getpages_step s n) mm = Ret t /\
    exists h', t !! Z.to_nat s = Some h' /\ pg_virtual h' = pg_virtual h /\
      length t = length mm).
  { induction k as [|k IH]; intros t Hk E.
    - injection E as <-. eauto 6.
    - replace (S k) with (k + 1)%nat in E |- * by lia. rewrite for_loop_app in E |- *.
      apply bind_ret_inv in E as (t1 & E1 & E). destruct (IH t1 ltac:(lia) E1) as (IH1 & h1 & Hh1 & Hv & Hl1).
      rewrite IH1. cbn [mbind res_bind for_loop] in E |- *. rewrite Z.add_0_l in E |- *.
      unfold getpages_step at 1. rewrite (proj2 (aget_Ret t1 s h1)) by done. cbn [mbind res_bind].
      rewrite Hv. apply bind_ret_inv in E as (t2 & E2 & [= ->]). cbn [mbind res_bind] in E2 |- *.
      rewrite E2. split; [done|]. apply bind_ret_inv in E2 as (x & Hx & E2).
      apply aset_Ret in E2 as [_ ->]. apply aget_Ret in Hx as [Hx0 Hx].
      rewrite length_insert. destruct (decide (Z.to_nat (s + (n - 1 - Z.of_nat k)) = Z.to_nat s)) as [Es|Hne].
      + rewrite Es in Hx |- *. rewrite list_lookup_insert_eq by lia. eexists. split; [done|].
        assert (x = h1) as -> by congruence. done.
      + rewrite list_lookup_insert_ne by done. eauto. }
  apply Hinv; [lia|].
  by apply (alter_range_loop_down (fun _ => slab_page (pg_virtual h))); lia.
Qed.

Lemma s32_order o : 0 <= o <= MAX_PAGE_ORDER -> s32 (Z.shiftl 1 o) = 2 ^ o.
Proof.
  intros Ho. destruct (pow_order o Ho) as (_ & _ & Hp).
  rewrite Z.shiftl_mul_pow2, Z.mul_1_l by lia.
  apply sext_small; [lia|]. change (2 ^ (32 - 1)) with 2147483648. lia.
Qed.

(** An update of the block [s], when the pages of the other blocks of [own]
    keep naming their blocks. *)
Lemma source_update f s o st bl rsv held own :
  rep st bl rsv -> bl !! s = Some o ->
  (forall a o, held !! a = Some o ->
     own !! a = None /\ exists s, a = page_to_virt s /\ bl !! s = Some o) ->
  (forall i p, 0 <= i -> mem_map st !! Z.to_nat i = Some p -> pg_virtual p = page_to_virt i) ->
  (forall i p, pg_count (f i p) = pg_count p /\ pg_private (f i p) = pg_private p /\
               pg_zone (f i p) = pg_zone p /\ pg_virtual (f i p) = pg_virtual p) ->
  (forall a o', own !! a = Some o' -> exists s', a = page_to_virt s' /\ bl !! s' = Some o' /\
     forall i p, in_block s' o' i -> mem_map st !! Z.to_nat i = Some p ->
       s' <> s -> pg_slab p = a) ->
  (forall i p, own !! page_to_virt s <> None -> pg_slab (f i p) = page_to_virt s) ->
  source_ok {| mem_map := alter_range f s (2 ^ o) (mem_map st); zones := zones st |} held own.
Proof.
  intros Hr Hb Hheld Hv Hf Hown Hs. exists bl, rsv. cbn [mem_map].
  split; [|split; [exact Hheld|split]].
  - apply (rep_frame f s (2 ^ o) st); [|done]. intros i p.
    destruct (Hf i p) as (? & ? & ? & _). done.
  - intros i q Hi Hq. rewrite alter_range_lookup in Hq. apply fmap_Some in Hq as (p & Hp & ->).
    rewrite <- (Hv i p) by done. destruct (decide _); [|done]. apply Hf.
  - intros a o' Ha. destruct (Hown a o' Ha) as (s' & -> & Hb' & Hslab).
    exists s'. split_and!; [done | done |]. intros i q Hi Hq.
    pose proof (rep_block_range st bl rsv s' o' Hr Hb') as Hrange'. unfold in_block in Hi.
    rewrite alter_range_lookup in Hq. apply fmap_Some in Hq as (p & Hp & ->).
    rewrite Z2Nat.id by lia. destruct (decide (s' = s)) as [->|Hne].
    + assert (o' = o) as -> by congruence. rewrite decide_True by lia. apply Hs. congruence.
    + destruct (decide (s <= i < s + 2 ^ o)) as [Hin|]; [|by apply (Hslab i p)].
      exfalso. apply Hne. apply (rep_disjoint st bl rsv Hr s' o' s o i); [done | done | |]; done.
Qed.

(** Taking a block changes neither the address nor the slab of a page. *)
Lemma allocated_page gfp o s (st : kpages) i q :
  mem_map (allocated gfp o s st) !! Z.to_nat i = Some q ->
  exists p, mem_map st !! Z.to_nat i = Some p /\ pg_virtual q = pg_virtual p /\ pg_slab q = pg_slab p.
Proof.
  unfold allocated. cbn [mem_map]. rewrite alter_range_lookup. intros (p & Hp & ->)%fmap_Some.
  exists p. split; [done|]. destruct (decide _); [|done]. unfold take_page. by destruct (_ =? _).
Qed.

Lemma allocated_virtual gfp o s (st : kpages) :
  (forall i p, 0 <= i -> mem_map st !! Z.to_nat i = Some p -> pg_virtual p = page_to_virt i) ->
  forall i p, 0 <= i -> mem_map (allocated gfp o s st) !! Z.to_nat i = Some p ->
    pg_virtual p = page_to_virt i.
Proof. intros Hv i q Hi (p & Hp & -> & _)%allocated_page. by apply Hv. Qed.

(** Blocks are known by their addresses. *)
Lemma block_address_inj st bl rsv s o s' o' :
  rep st bl rsv -> bl !! s = Some o -> bl !! s' = Some o' ->
  page_to_virt s = page_to_virt s' -> s = s'.
Proof.
  intros Hr Hb Hb'. pose proof (rep_block_range st bl rsv s o Hr Hb).
  pose proof (rep_block_range st bl rsv s' o' Hr Hb'). apply page_to_virt_inj; lia.
Qed.

Lemma kmem_getpages_ok st held own order flags :
  source_ok st held own -> 0 <= order <= MAX_PAGE_ORDER ->
  kmem_getpages order flags st = Ret (None, st) \/
  (exists a st', kmem_getpages order flags st = Ret (Some a, st') /\
    source_ok st' held (<[a := order]> own) /\ own !! a = None) \/
  (runs_off st order /\ kmem_getpages order flags st = Fault).
Proof.
  intros (bl & rsv & Hr & Hheld & Hv & Hown) Ho. unfold kmem_getpages.
  destruct (alloc_pages_cases flags order st bl rsv Hr Ho) as [[-> _]|[(s & -> & Hs)|[Hoff ->]]];
    cbn [mbind res_bind]; [by left| |by right; right]. right; left.
  destruct (alloc_rep flags order st bl rsv s Hr Ho Hs) as [Hr' Hnone].
  destruct (pow_order order Ho) as (_ & _ & Hp2). rewrite s32_order by done.
  pose proof Hs as (Hs0 & Hsl & _). pose proof (rep_size st bl rsv Hr) as Hsize.
  set (st1 := allocated flags order s st) in *.
  assert (Hl1 : length (mem_map st1) = length (mem_map st)) by apply alter_range_length.
  pose proof (allocated_virtual flags order s st Hv) as Hv1. fold st1 in Hv1.
  assert (Hnew : own !! page_to_virt s = None).
  { destruct (own !! page_to_virt s) as [o'|] eqn:E; [|done]. exfalso.
    destruct (Hown _ _ E) as (s' & Heq & Hb' & _).
    pose proof (rep_block_range st bl rsv s' o' Hr Hb').
    apply page_to_virt_inj in Heq; [|lia|lia]. congruence. }
  destruct (lookup_lt_is_Some_2 (mem_map st1) (Z.to_nat s)) as [h Hh]; [lia|].
  rewrite (getpages_loop _ s (2 ^ order) h) by (done || lia). cbn [mbind res_bind].
  rewrite (Hv1 s h) by done.
  rewrite (proj2 (aget_Ret _ s (slab_page (page_to_virt s) h))).
  2:{ split; [done|]. rewrite alter_range_lookup, Hh. simpl. by rewrite decide_True by lia. }
  cbn [mbind res_bind]. exists (page_to_virt s). eexists. split.
  { cbn [slab_page pg_virtual set_slab set_flags]. by rewrite (Hv1 s h) by done. }
  split; [|done]. apply (source_update _ s order st1 (<[s := order]> bl) rsv).
  - done.
  - apply lookup_insert_eq.
  - intros a o Ha. destruct (Hheld a o Ha) as (Ho1 & s' & -> & Hb').
    pose proof (rep_block_range st bl rsv s' o Hr Hb').
    assert (Hss : s <> s') by congruence. split.
    + rewrite lookup_insert_ne; [done|]. intros Heq.
      apply Hss, page_to_virt_inj; [lia | lia | done].
    + exists s'. by rewrite lookup_insert_ne.
  - done.
  - done.
  - intros a o' Ha. apply lookup_insert_Some in Ha as [[<- <-]|[Hne Ha]].
    + exists s. split_and!; [done | apply lookup_insert_eq | done].
    + destruct (Hown a o' Ha) as (s' & -> & Hb' & Hslab). exists s'.
      assert (Hss : s <> s') by congruence.
      split_and!; [done | by rewrite lookup_insert_ne |]. intros i q Hi Hq _.
      apply allocated_page in Hq as (p & Hp & _ & ->). by apply (Hslab i p).
  - done.
Qed.

Definition clear_slab (_ : Z) (p : page) : page :=
  set_flags (ClearPageFlag PG_slab (pg_flags p)) (set_slab 0 p).

Lemma freepages_loop mm s o :
  0 <= s -> 0 < 2 ^ o -> s + 2 ^ o <= Z.of_nat (length mm) ->
  for_loop (Z.to_nat (2 ^ o)) 0 (freepages_step s) mm = Ret (alter_range clear_slab s (2 ^ o) mm).
Proof.
  intros Hs Hp Hl. unfold freepages_step.
  rewrite (for_loop_shift (Z.to_nat (2 ^ o)) s 0 (fun k mm => p ← aget mm k; aset mm k (clear_slab k p))).
  rewrite Z.add_0_r. apply alter_range_loop; lia.
Qed.

(** A page of the table after the block [s] is released. *)
Lemma released_page st s o i q :
  let st1 := {| mem_map := alter_range clear_slab s (2 ^ o) (mem_map st); zones := zones st |} in
  mem_map (released s o st1) !! Z.to_nat i = Some q -> 0 <= i ->
  exists p, mem_map st !! Z.to_nat i = Some p /\ pg_virtual q = pg_virtual p /\
    (~ in_block s o i -> q = p).
Proof.
  cbn zeta. intros Hq Hi. unfold released in Hq. cbn [mem_map] in Hq.
  rewrite !alter_range_lookup in Hq. destruct (mem_map st !! Z.to_nat i) as [x|]; [|done].
  injection Hq as <-. exists x. split_and!; [done | |].
  - unfold release_page, clear_slab. repeat case_match; done.
  - intros Hout. unfold in_block in Hout. rewrite Z2Nat.id in * by done.
    by rewrite !decide_False by lia.
Qed.

Lemma kmem_freepages_ok st held own a o :
  source_ok st held own -> own !! a = Some o ->
  exists st', kmem_freepages o a st = Ret st' /\ source_ok st' held (delete a own).
Proof.
  intros (bl & rsv & Hr & Hheld & Hv & Hown) Ha.
  destruct (Hown a o Ha) as (s & -> & Hb & Hslab).
  destruct (rep_block_range st bl rsv s o Hr Hb) as (Hs0 & Ho & Hp2 & Hsl).
  destruct (pow_order o Ho) as (_ & Hp1 & _).
  unfold kmem_freepages, free_pages_at. rewrite Hp1.
  assert (Hvp : virt_to_page (page_to_virt s) = s).
  { rewrite page_to_virt_eq by lia. rewrite <- (Z.add_0_r (_ + _)). apply virt_to_page_eq; lia. }
  rewrite Hvp.
  destruct (rep_lookup st bl rsv s Hr) as (p & Hp & _ & Hpr & _); [lia|].
  rewrite (proj2 (aget_Ret _ _ p)) by done. cbn [mbind res_bind].
  rewrite Hpr, Hb. cbn [from_option id]. rewrite Z.eqb_refl. cbn [negb].
  rewrite freepages_loop by lia. cbn [mbind res_bind]. rewrite Z.gtb_ltb, (proj2 (Z.ltb_ge _ _)) by lia.
  set (st1 := {| mem_map := alter_range clear_slab s (2 ^ o) (mem_map st); zones := zones st |}).
  assert (Hr1 : rep st1 bl rsv) by (by apply (rep_frame clear_slab s (2 ^ o) st)).
  rewrite (free_block_spec st1 bl rsv s o Hr1 Hb). eexists. split; [done|].
  pose proof (free_rep st1 bl rsv s o Hr1 Hb) as Hr2.
  exists (delete s bl), rsv. split; [done|]. split.
  { intros a' o' Ha'. destruct (Hheld a' o' Ha') as (Ho1 & s' & -> & Hb').
    assert (Hss : s <> s') by congruence.
    rewrite lookup_delete_ne by (intros Heq; by apply Hss, (block_address_inj st bl rsv s o s' o' Hr Hb Hb')).
    split; [done|]. exists s'. by rewrite lookup_delete_ne. }
  split.
  - intros i q Hi Hq. destruct (released_page st s o i q Hq Hi) as (x & Hx & -> & _). by apply Hv.
  - intros a' o' [Hne Ha']%lookup_delete_Some.
    destruct (Hown a' o' Ha') as (s' & -> & Hb' & Hslab'). exists s'.
    assert (Hss : s <> s') by congruence.
    split_and!; [done | by rewrite lookup_delete_ne |]. intros i q Hi Hq.
    pose proof (rep_block_range st bl rsv s' o' Hr Hb'). unfold in_block in Hi.
    destruct (released_page st s o i q Hq) as (x & Hx & _ & Hsame); [lia|].
    rewrite Hsame; [by apply (Hslab' i)|]. intros Hin. apply Hss.
    by apply (rep_disjoint st bl rsv Hr s o s' o' i).
Qed.

Lemma own_block (st : kpages) (own bl : gmap Z Z) (rsv : Z -> bool) a o :
  rep st bl rsv ->
  (forall a o, own !! a = Some o -> exists s, a = page_to_virt s /\ bl !! s = Some o /\
     forall i p, in_block s o i -> mem_map st !! Z.to_nat i = Some p -> pg_slab p = a) ->
  own !! a = Some o ->
  exists s, a = PAGE_OFFSET + 4096 * s /\ a = page_to_virt s /\ bl !! s = Some o /\
    0 <= s /\ 0 <= o <= MAX_PAGE_ORDER /\ 0 < 2 ^ o <= 32 /\
    s + 2 ^ o <= Z.of_nat (length (mem_map st)) < 2 ^ 35.
Proof.
  intros Hr Hown Ha. destruct (Hown a o Ha) as (s & -> & Hb & _). exists s.
  pose proof (rep_block_range st bl rsv s o Hr Hb) as (? & ? & ? & ?).
  rewrite page_to_virt_eq by lia. done.
Qed.

Lemma blocks_meet st bl rsv s s' o o' x :
  rep st bl rsv -> bl !! s = Some o -> bl !! s' = Some o' ->
  PAGE_OFFSET + 4096 * s <= x < PAGE_OFFSET + 4096 * s + 4096 * 2 ^ o ->
  PAGE_OFFSET + 4096 * s' <= x < PAGE_OFFSET + 4096 * s' + 4096 * 2 ^ o' -> s = s'.
Proof.
  intros Hr Hb Hb' Hx Hx'.
  destruct (rep_block_range st bl rsv s o Hr Hb) as (Hs & Ho & Hp & Hl).
  destruct (rep_block_range st bl rsv s' o' Hr Hb') as (Hs' & Ho' & Hp' & Hl').
  destruct (block_page s o x) as [Hin _]; [lia | lia | lia |].
  destruct (block_page s' o' x) as [Hin' _]; [lia | lia | lia |].
  by apply (rep_disjoint st bl rsv Hr s o s' o' (virt_to_page x)).
Qed.

(** The page allocator provides pages to slabs. *)
#[global, refine] Instance page_source : PageSource kpages := {
  ps_get := kmem_getpages;
  ps_put := kmem_freepages;
  ps_slab := slab_of;
  ps_ok := source_ok;
  ps_stuck order st := runs_off st order
}.
Proof.
  - intros st held own order flags Hst Ho. by apply kmem_getpages_ok.
  - intros st held own a order Hst Ha. by apply kmem_freepages_ok.
  - intros st held own a o x (bl & rsv & Hr & _ & _ & Hown) Ha Hx.
    destruct (own_block st own bl rsv a o Hr Hown Ha) as (s & -> & Hv & Hb & Hs & Ho & Hp & Hl).
    destruct (block_page s o x) as [Hin Hrange]; [lia | lia | lia |].
    unfold slab_of. unfold in_block in Hin.
    destruct (lookup_lt_is_Some_2 (mem_map st) (Z.to_nat (virt_to_page x))) as [p Hpg]; [lia|].
    rewrite (proj2 (aget_Ret _ _ p)) by (split; [lia | done]). cbn [mbind res_bind]. f_equal.
    destruct (Hown _ _ Ha) as (s' & Heq & Hb' & Hslab).
    pose proof (rep_block_range st bl rsv s' o Hr Hb'). rewrite Hv in Heq.
    apply page_to_virt_inj in Heq; [|lia|lia]. subst s'.
    by apply (Hslab (virt_to_page x)).
  - intros st held own a o (bl & rsv & Hr & _ & _ & Hown) Ha.
    destruct (own_block st own bl rsv a o Hr Hown Ha) as (s & -> & _ & _ & Hs & Ho & Hp & Hl).
    unfold PAGE_OFFSET in *. split_and!; [lia | lia | | lia | lia].
    replace (0xFFFF800000000000 + 4096 * s - 0xFFFF800000000000) with (s * 4096) by lia.
    by apply Z.mod_mul.
  - intros st held own a b o o' x (bl & rsv & Hr & _ & _ & Hown) Ha Hb Hx Hx'.
    destruct (own_block st own bl rsv a o Hr Hown Ha) as (s & -> & _ & Hbs & Hs & Ho & Hp & Hl).
    destruct (own_block st own bl rsv b o' Hr Hown Hb) as (s' & -> & _ & Hbs' & Hs' & Ho' & Hp' & Hl').
    by rewrite (blocks_meet st bl rsv s s' o o' x).
  - intros st held own a b o o' x (bl & rsv & Hr & Hheld & _ & Hown) Ha Hb Hx Hx'.
    destruct (own_block st own bl rsv b o' Hr Hown Hb) as (s' & -> & Hv' & Hbs' & Hs' & Ho' & Hp' & Hl').
    destruct (Hheld a o Ha) as (Hn & s & -> & Hbs).
    destruct (rep_block_range st bl rsv s o Hr Hbs) as (Hs & Ho & Hp & Hl).
    rewrite page_to_virt_eq in Hx by lia.
    rewrite (blocks_meet st bl rsv s s' o o' x), <- Hv', Hb in Hn by done. done.
Defined.
