(* ===== verification/Slab.v ===== *)
(** * The slab allocator (slab.c, slab.h)

    Caches of objects of one size. A slab is a block of pages that holds its
    [struct slab], the array [bufctl] that links its free objects, and the
    objects. The table [cache_cache] is a list of cache descriptors at an
    address; the slab structures live in a map from their addresses, the list
    heads of caches and slabs in a list heap, and the pages come from a
    [PageSource]. Messages are in Messages. *)

From Stdlib Require Import Ascii String.
From S2P Require Import Prelude BitOps CList CString BootMem Memory PageAlloc PageFlags SlabPages.

#[local] Open Scope list_scope.

(** ** Data *)

Definition KMALLOC_SMALL_SIZE : Z := 16.
Definition KMALLOC_MAX_SIZE : Z := 2048.
Definition SLAB_DEFAULT_NUM : Z := 10.
Definition CACHE_CACHE_PAGE : Z := 1.
Definition KMALLOC_RETRY_MAX : Z := 3.
Definition BUFCTL_END : Z := u16 0xFFFF.
Definition BYTES_PER_LONG : Z := 8.
Definition X86_64_CACHE_ALIGN : Z := 16.

Definition sizeof_kmem_cache : Z := 64.
Definition sizeof_slab : Z := 64.
Definition sizeof_bufctl : Z := 2.
Definition offsetof_slabs : Z := 32.

(** [struct kmem_cache] without its list head. *)
Record kmem_cache := {
  objsize : Z;
  flag : Z;
  num : Z;
  gfporder : Z;
  colour_off : Z;
  name : Z          (* const char *, 0 for NULL *)
}.

(** [struct slab] without its list head; [cache] is an index in the table. *)
Record slab := {
  s_mem : Z;
  inuse : Z;
  free : Z;
  offset : Z;
  bufctl : list Z;
  cache : option Z
}.

Record slab_state (P : Type) := {
  caches : list kmem_cache;
  slabs : gmap Z slab;
  lists : list_heap;
  source : P
}.
Arguments caches {P}.
Arguments slabs {P}.
Arguments lists {P}.
Arguments source {P}.
Arguments Build_slab_state {P}.

(** ** Creating a cache *)

(** Rounds up to the processor word. *)
Definition word_align (x : Z) : Z :=
  if negb (Z.land x (BYTES_PER_LONG - 1) =? 0)
  then Z.land (u64 (x + (BYTES_PER_LONG - 1))) (u64 (Z.lnot (BYTES_PER_LONG - 1)))
  else x.

(** The order of the blocks for objects of (aligned) size [size]. *)
Definition slab_order (size : Z) : Z :=
  let page_need := u64 (sizeof_slab + size * SLAB_DEFAULT_NUM
                        + sizeof_bufctl * SLAB_DEFAULT_NUM) / 4096 in
  if page_need =? 0 then 1 else PAGE_ORDER page_need.

(** The number of objects in a slab before the room for [bufctl] is taken. *)
Definition slab_obj_num (size : Z) : Z :=
  u64 (Z.shiftl 1 (slab_order size) * 4096 - sizeof_slab) / size.

Definition slab_num (size : Z) : Z :=
  let obj_num := slab_obj_num size in
  let bufctl_size := obj_num * sizeof_bufctl in
  u64 (obj_num - (bufctl_size / size + 1)).

Definition slab_colour_off (size align : Z) : Z :=
  let obj_offset := sizeof_slab + slab_obj_num size * sizeof_bufctl in
  if negb (Z.land obj_offset (align - 1) =? 0)
  then Z.land (u64 (obj_offset + (align - 1))) (u64 (Z.lnot (align - 1)))
  else obj_offset.

Definition new_cache (name size align flags : Z) : kmem_cache :=
  {| name := name; objsize := size; flag := flags; gfporder := slab_order size;
     num := slab_num size; colour_off := slab_colour_off size align |}.

Section Slab.
Context {P : Type} `{PageSource P}.

(** The address of [cache_cache], its capacity, and the memory of the names. *)
Context (cache_cache cache_cache_max : Z) (nm : bmem).

Abbreviation state := (slab_state P).

(** [&cache_cache[i].slabs] *)
Definition slabs_head (i : Z) : Z := cache_cache + sizeof_kmem_cache * i + offsetof_slabs.

Definition get_slab (a : Z) (st : state) : res slab :=
  match slabs st !! a with Some s => Ret s | None => Fault end.

Definition put_slab (a : Z) (s : slab) (st : state) : state :=
  {| caches := caches st; slabs := <[a := s]> (slabs st); lists := lists st;
     source := source st |}.

Definition with_lists (h : list_heap) (st : state) : state :=
  {| caches := caches st; slabs := slabs st; lists := h; source := source st |}.

Definition with_source (p : P) (st : state) : state :=
  {| caches := caches st; slabs := slabs st; lists := lists st; source := p |}.

(** The loop that looks for a cache of the same name: [None] when there is
    one, the first unused index otherwise. *)
Fixpoint seek_name (fuel : nat) (cs : list kmem_cache) (nam i : Z) : res (option Z) :=
  match fuel with
  | O => NoFuel
  | S fuel' =>
      c ← aget cs i;
      if negb (name c =? 0) && (i <? cache_cache_max) then
        r ← caos_strcmp nm (name c) nam;
        if r =? 0 then Ret None else seek_name fuel' cs nam (i + 1)
      else Ret (Some i)
  end.

Definition kmem_cache_create (nam size align flags : Z) (st : state) : res (option Z * state) :=
  if (nam =? 0) || (size <? BYTES_PER_LONG) || (size >? KMALLOC_MAX_SIZE) then Ret (None, st)
  else
    i ← seek_name (S (length (caches st))) (caches st) nam 0;
    match i with
    | None => Ret (None, st)
    | Some i =>
        if i >=? cache_cache_max then Ret (None, st)
        else
          cs ← aset (caches st) i (new_cache nam (word_align size) (word_align align) flags);
          Ret (Some i, {| caches := cs; slabs := slabs st;
                          lists := INIT_LIST_HEAD (slabs_head i) (lists st);
                          source := source st |})
    end.

(** ** Slabs of a cache *)

(** [for (i = 0; i < num; i++) bufctl[i] = i+1; bufctl[i-1] = BUFCTL_END;] *)
Definition init_bufctl (n : Z) : res (list Z) :=
  v ← for_loop (Z.to_nat n) 0 (fun i v => aset v i (u16 (i + 1))) (replicate (Z.to_nat n) 0);
  aset v (n - 1) BUFCTL_END.

Definition kmem_cache_grow (cachep flags : Z) (st : state) : res (Z * state) :=
  c ← aget (caches st) cachep;
  '(slabp, p) ← ps_get (gfporder c) flags (source st);
  let st := with_source p st in
  match slabp with
  | None => Ret (0, st)
  | Some slabp =>
      v ← init_bufctl (num c);
      let sl := {| inuse := 0; offset := colour_off c; bufctl := v;
                   s_mem := u64 (slabp + colour_off c); cache := Some cachep; free := 0 |} in
      h ← list_add slabp (slabs_head cachep) (INIT_LIST_HEAD slabp (lists st));
      Ret (1, with_lists h (put_slab slabp sl st))
  end.

Definition slab_destroy (cachep slabp : Z) (st : state) : res state :=
  c ← aget (caches st) cachep;
  sl ← get_slab slabp st;
  p ← ps_put (gfporder c) (u64 (s_mem sl - offset sl)) (source st);
  Ret (with_source p st).

(** The body of the traversal: the first slab without objects in use goes. *)
Definition shrink_step (cachep slabp : Z) (st : state) : res (state * bool) :=
  sl ← get_slab slabp st;
  if inuse sl =? 0 then
    st ← slab_destroy cachep slabp st;
    h ← list_del slabp (lists st);
    Ret (with_lists h st, true)
  else Ret (st, false).

Definition kmem_cache_shrink (cachep flags : Z) (st : state) : res state :=
  '(_, st) ← list_for_each_entry (list_fuel (lists st)) (lists st) (slabs_head cachep)
               (shrink_step cachep) st;
  Ret st.

(** ** Allocation *)

(** The index of the first cache with large enough objects, or the index at
    which the table ends. *)
Fixpoint seek_cache (fuel : nat) (cs : list kmem_cache) (size i : Z) : res Z :=
  match fuel with
  | O => NoFuel
  | S fuel' =>
      c ← aget cs i;
      if negb (name c =? 0) && (i <? cache_cache_max) then
        if size <=? objsize c then Ret i else seek_cache fuel' cs size (i + 1)
      else Ret i
  end.

(** The test of the traversal: does the slab have a free object? *)
Definition has_free (c : kmem_cache) (st : state) (slabp : Z) (u : unit) : res (unit * bool) :=
  sl ← get_slab slabp st;
  Ret (u, negb (free sl =? BUFCTL_END) && (inuse sl <? num c)).

Definition take_object (c : kmem_cache) (slabp : Z) (st : state) : res (Z * state) :=
  sl ← get_slab slabp st;
  let obj := u64 (s_mem sl + free sl * objsize c) in
  f ← aget (bufctl sl) (free sl);
  Ret (obj, put_slab slabp {| s_mem := s_mem sl; inuse := u64 (inuse sl + 1); free := f;
                              offset := offset sl; bufctl := bufctl sl; cache := cache sl |} st).

(** From the label [retry] on. *)
Fixpoint kmalloc_retry (fuel : nat) (i retry_count flags : Z) (st : state) : res (Z * state) :=
  match fuel with
  | O => NoFuel
  | S fuel' =>
      c ← aget (caches st) i;
      if retry_count >? KMALLOC_RETRY_MAX then Ret (0, st)
      else
        '(slabp, _) ← list_for_each_entry (list_fuel (lists st)) (lists st) (slabs_head i)
                        (has_free c st) tt;
        if slabs_head i =? slabp then
          '(_, st) ← kmem_cache_grow i flags st;
          let retry_count := retry_count + 1 in
          if retry_count >? 1 then kmalloc_retry fuel' (i + 1) 0 flags st
          else kmalloc_retry fuel' i retry_count flags st
        else take_object c slabp st
  end.

Definition kmalloc_fuel (st : state) : nat := 2 * S (length (caches st)).

Definition caos_kmalloc (size flags : Z) (st : state) : res (Z * state) :=
  i ← seek_cache (S (length (caches st))) (caches st) size 0;
  c ← aget (caches st) i;
  if (name c =? 0) || (cache_cache_max <=? i) then Ret (0, st)
  else kmalloc_retry (kmalloc_fuel st) i 0 flags st.

(** ** Release *)

Definition caos_kfree (objp : Z) (st : state) : res state :=
  slabp ← ps_slab objp (source st);
  if slabp =? 0 then Ret st
  else
    sl ← get_slab slabp st;
    match cache sl with
    | None => Ret st
    | Some cachep =>
        if inuse sl <=? 0 then Ret st
        else
          c ← aget (caches st) cachep;
          if objsize c =? 0 then Fault
          else
            let obj_index := u64 (objp - s_mem sl) / objsize c in
            v ← aset (bufctl sl) obj_index (u16 (free sl));
            Ret (put_slab slabp {| s_mem := s_mem sl; inuse := u64 (inuse sl - 1);
                                   free := obj_index; offset := offset sl; bufctl := v;
                                   cache := cache sl |} st)
    end.

End Slab.

(** ** The initial caches *)

Definition CACHE_CACHE_MAX : Z := 128.

Definition cache_names : list (list Z) :=
  bytes_of <$> ["16bytes"; "32bytes"; "64bytes"; "128bytes"; "256bytes"; "512bytes";
                "1024bytes"; "2048bytes"]%string.

(** An entry of the table after it is cleared. *)
Definition no_cache : kmem_cache :=
  {| objsize := 0; flag := 0; num := 0; gfporder := 0; colour_off := 0; name := 0 |}.

Definition cleared_heads (cache_cache : Z) : list_heap :=
  list_to_map ((fun i => (slabs_head cache_cache i, {| next := 0; prev := 0 |}))
                 <$> seqZ 0 CACHE_CACHE_MAX).

(** [while (pcnt--) SetPageSlab(&cache_page[pcnt]);] *)
Definition table_step (pg count k : Z) (mm : list page) : res (list page) :=
  p ← aget mm (pg + (count - 1 - k));
  aset mm (pg + (count - 1 - k)) (set_flags (SetPageFlag PG_slab (pg_flags p)) p).

(** One default cache: its name, and twice the size of the one before. *)
Definition create_step (cache_cache : Z) (nm : bmem) (names : list Z) (l : Z)
    (s : slab_state kpages * Z) : res (slab_state kpages * Z) :=
  let '(st, csize) := s in
  nam ← aget names l;
  '(tmp, st) ← kmem_cache_create cache_cache CACHE_CACHE_MAX nm nam csize X86_64_CACHE_ALIGN 0 st;
  match tmp with
  | None => Halted
  | Some _ => Ret (st, csize * 2)
  end.

(** Without pages the table would be at the address of the descriptor NULL. *)
Definition kmem_cache_init (nm : bmem) (names : list Z) (st : kpages) : res (Z * slab_state kpages) :=
  '(cache_page, p) ← alloc_pages 0 CACHE_CACHE_PAGE st;
  match cache_page with
  | None => Fault
  | Some pg =>
      let cache_cache := page_to_virt pg in
      let pcnt := Z.shiftl 1 CACHE_CACHE_PAGE in
      mm ← for_loop (Z.to_nat pcnt) 0 (table_step pg pcnt) (mem_map p);
      let st := {| caches := replicate (Z.to_nat CACHE_CACHE_MAX) no_cache; slabs := ∅;
                   lists := cleared_heads cache_cache;
                   source := {| mem_map := mm; zones := zones p |} |} in
      '(st, _) ← for_loop (length cache_names) 0 (create_step cache_cache nm names)
                   (st, KMALLOC_SMALL_SIZE);
      Ret (cache_cache, st)
  end.

(** ** Free lists *)

(** [fl] are the indices linked from [f] through [bc]. *)
Fixpoint chain (bc : list Z) (f : Z) (fl : list Z) : Prop :=
  match fl with
  | [] => f = BUFCTL_END
  | k :: fl' => f = k /\ 0 <= k /\ exists g, bc !! Z.to_nat k = Some g /\ chain bc g fl'
  end.

Lemma chain_ext bc bc' f fl :
  (forall k, k ∈ fl -> bc' !! Z.to_nat k = bc !! Z.to_nat k) -> chain bc f fl -> chain bc' f fl.
Proof.
  revert f. induction fl as [|k fl IH]; intros f He Hc; [done|].
  destruct Hc as (-> & Hk & g & Hg & Hc). split_and!; [done | done |].
  exists g. rewrite He by set_solver. split; [done|]. apply IH; [|done]. set_solver.
Qed.

(** A free index put in front of a free list. *)
Lemma chain_push bc k f fl :
  chain bc f fl -> 0 <= k < Z.of_nat (length bc) -> k ∉ fl -> Forall (fun j => 0 <= j) fl ->
  chain (<[Z.to_nat k := f]> bc) k (k :: fl).
Proof.
  intros Hc Hk Hn Hp. split_and!; [done | lia |]. exists f.
  rewrite list_lookup_insert_eq by lia. split; [done|].
  eapply chain_ext; [|done]. intros j Hj. rewrite Forall_forall in Hp.
  apply list_lookup_insert_ne. intros E. apply Z2Nat.inj in E; [congruence | lia | by apply Hp].
Qed.

Lemma chain_head bc f fl :
  chain bc f fl -> Forall (fun j => 0 <= j < 65535) fl -> u16 f = f /\ (f = BUFCTL_END <-> fl = []).
Proof.
  intros Hc Hp. destruct fl as [|k fl]; simpl in Hc.
  - subst. done.
  - destruct Hc as (-> & _). apply Forall_cons in Hp as [Hk _].
    rewrite wrap_small by (change (2 ^ 16) with 65536; lia). split; [done|].
    change BUFCTL_END with 65535. split; [lia | done].
Qed.

Lemma init_bufctl_spec n :
  0 < n < 65535 ->
  exists v, init_bufctl n = Ret v /\ Z.of_nat (length v) = n /\ chain v 0 (seqZ 0 n).
Proof.
  intros Hn. unfold init_bufctl.
  destruct (for_loop_inv (fun i t => length t = Z.to_nat n /\
      forall k, 0 <= k < i -> t !! Z.to_nat k = Some (k + 1))
    (Z.to_nat n) 0 (fun i v => aset v i (u16 (i + 1))) (replicate (Z.to_nat n) 0))
    as (v & E & Hl & Hv).
  - split; [by rewrite length_replicate | lia].
  - intros i t Hi [Hl Hk]. rewrite aset_lt by lia. eexists. split; [done|].
    rewrite length_insert. split; [done|]. intros k Hk'. destruct (decide (k = i)) as [->|].
    + rewrite list_lookup_insert_eq by lia. f_equal. apply wrap_small. change (2 ^ 16) with 65536. lia.
    + rewrite list_lookup_insert_ne by lia. apply Hk. lia.
  - rewrite E. cbn [mbind res_bind]. rewrite aset_lt by lia. eexists. split; [done|].
    rewrite length_insert. split; [lia|].
    assert (Hc : forall (d : nat) i, 0 <= i -> i + Z.of_nat d = n ->
      chain (<[Z.to_nat (n - 1) := BUFCTL_END]> v) (if i =? n then BUFCTL_END else i) (seqZ i (Z.of_nat d))).
    { induction d as [|d IH]; intros i Hi Hd.
      - rewrite (proj2 (Z.eqb_eq i n)) by lia. done.
      - rewrite Nat2Z.inj_succ, seqZ_cons, Z.pred_succ by lia.
        rewrite (proj2 (Z.eqb_neq i n)) by lia. split_and!; [done | done |].
        exists (if Z.succ i =? n then BUFCTL_END else Z.succ i). split; [|apply IH; lia].
        destruct (Z.eqb_spec (Z.succ i) n).
        + replace (n - 1) with i by lia. by rewrite list_lookup_insert_eq by lia.
        + rewrite list_lookup_insert_ne by lia. rewrite Hv by lia. f_equal; lia. }
    specialize (Hc (Z.to_nat n) 0). rewrite (proj2 (Z.eqb_neq 0 n)) in Hc by lia.
    rewrite Z2Nat.id in Hc by lia. apply Hc; lia.
Qed.

(** ** What a slab must be *)

Record cache_ok (c : kmem_cache) : Prop := {
  co_name : name c <> 0;
  co_objsize : 0 < objsize c;
  co_num : 0 < num c < 65535;
  co_order : 0 <= gfporder c <= MAX_PAGE_ORDER;
  co_off : sizeof_slab + sizeof_bufctl * num c <= colour_off c;
  co_fit : colour_off c + num c * objsize c <= 4096 * 2 ^ gfporder c
}.

(** The slab at [s], of cache [i], with the free list [fl]. *)
Record slab_good (i : Z) (c : kmem_cache) (s : Z) (fl : list Z) (sl : slab) : Prop := {
  sg_cache : cache sl = Some i;
  sg_mem : s_mem sl = s + colour_off c;
  sg_offset : offset sl = colour_off c;
  sg_len : Z.of_nat (length (bufctl sl)) = num c;
  sg_chain : chain (bufctl sl) (free sl) fl;
  sg_nodup : NoDup fl;
  sg_range : Forall (fun k => 0 <= k < num c) fl;
  sg_inuse : inuse sl = num c - Z.of_nat (length fl)
}.

(** A free list has at most as many entries as there are objects. *)
Lemma free_list_length n (fl : list Z) :
  0 <= n -> NoDup fl -> Forall (fun k => 0 <= k < n) fl -> Z.of_nat (length fl) <= n.
Proof.
  intros Hn Hnd Hr.
  assert (Hs : fl ⊆+ seqZ 0 n).
  { apply NoDup_submseteq; [done|]. intros k Hk. apply elem_of_seqZ.
    rewrite Forall_forall in Hr. apply Hr in Hk. lia. }
  apply submseteq_length in Hs. rewrite length_seqZ in Hs. lia.
Qed.

Lemma slab_good_taken i c s fl sl :
  cache_ok c -> slab_good i c s fl sl -> Z.of_nat (length fl) <= num c.
Proof.
  intros Hc Hg.
  destruct (co_num c Hc). apply free_list_length; [lia | apply Hg | apply Hg].
Qed.

(** An index that is not free is in use. *)
Lemma slab_good_used i c s fl sl k :
  cache_ok c -> slab_good i c s fl sl -> 0 <= k < num c -> k ∉ fl ->
  Z.of_nat (length fl) < num c.
Proof.
  intros Hc Hg Hk Hn.
  assert (Hl : Z.of_nat (length (k :: fl)) <= num c).
  { apply free_list_length; [lia | |].
    - apply NoDup_cons. split; [done | apply Hg].
    - apply Forall_cons. split; [done | apply Hg]. }
  simpl in Hl. lia.
Qed.

(** ** The state and its live objects *)

Section Invariant.
Context {P : Type} `{PageSource P}.
Context (cache_cache : Z).

Abbreviation state := (slab_state P).
Abbreviation head := (slabs_head cache_cache).

(** [L] are the slabs of each cache, in the order of its list, and [F] their
    free lists. The table of caches is in the two pages at [cache_cache]. *)
Record inv (st : state) (held own : gmap Z Z) (L : list (list Z)) (F : gmap Z (list Z)) : Prop := {
  iv_len : (length (caches st) = 128 /\ length L < 128)%nat;
  iv_cache : forall i xs, L !! i = Some xs -> exists c, caches st !! i = Some c /\ cache_ok c;
  iv_list : forall i xs, L !! i = Some xs -> dlist (lists st) (head (Z.of_nat i)) xs;
  iv_slab : forall i xs s, L !! i = Some xs -> s ∈ xs ->
    exists c fl sl, caches st !! i = Some c /\ F !! s = Some fl /\ slabs st !! s = Some sl /\
      slab_good (Z.of_nat i) c s fl sl /\ own !! s = Some (gfporder c);
  iv_end : forall j, (length L <= j < 128)%nat ->
    (exists c, caches st !! j = Some c /\ name c = 0) /\
    lists st !! head (Z.of_nat j) = Some {| next := 0; prev := 0 |};
  iv_null : lists st !! 0 = None;
  iv_held : held !! cache_cache = Some CACHE_CACHE_PAGE;
  iv_source : ps_ok (source st) held own
}.

(** Object [k] of slab [s] of cache [i] is in use. *)
Definition live (st : state) (L : list (list Z)) (F : gmap Z (list Z)) (x : nat * Z * Z) : Prop :=
  let '(i, s, k) := x in
  exists xs c fl, L !! i = Some xs /\ s ∈ xs /\ caches st !! i = Some c /\ F !! s = Some fl /\
    0 <= k < num c /\ k ∉ fl.

(** Its address. *)
Definition obj_addr (c : kmem_cache) (s k : Z) : Z := s + colour_off c + k * objsize c.

(** A slab belongs to one cache. *)
Lemma inv_slab_cache st held own L F i j xs ys s :
  inv st held own L F -> L !! i = Some xs -> L !! j = Some ys -> s ∈ xs -> s ∈ ys -> i = j.
Proof.
  intros Hi Hx Hy Hsx Hsy.
  destruct (iv_slab _ _ _ _ _ Hi i xs s Hx Hsx) as (c & fl & sl & _ & _ & Hs & Hg & _).
  destruct (iv_slab _ _ _ _ _ Hi j ys s Hy Hsy) as (c' & fl' & sl' & _ & _ & Hs' & Hg' & _).
  assert (sl' = sl) as -> by congruence.
  pose proof (sg_cache _ _ _ _ _ Hg). pose proof (sg_cache _ _ _ _ _ Hg'). assert (Z.of_nat i = Z.of_nat j) by congruence. lia.
Qed.

(** The addresses of a slab and its objects do not wrap around. *)
Lemma inv_slab_range st held own L F s c :
  inv st held own L F -> own !! s = Some (gfporder c) -> cache_ok c ->
  0 < s /\ s + colour_off c + num c * objsize c <= 2 ^ 64.
Proof.
  intros Hi Ho Hc. destruct (ps_own_range _ _ _ _ _ (iv_source _ _ _ _ _ Hi) Ho) as (H1 & H2 & _).
  pose proof (co_fit c Hc). unfold PAGE_OFFSET in H1. lia.
Qed.

(** The list heads of the caches are not slabs. *)
Lemma head_not_own p held own i s o :
  ps_ok p held own -> held !! cache_cache = Some CACHE_CACHE_PAGE -> (i < 128)%nat ->
  own !! s = Some o -> head (Z.of_nat i) <> s.
Proof.
  intros Hp Hh Hlt Ho E.
  destruct (ps_own_range _ _ _ _ _ Hp Ho) as (_ & _ & _ & Hr).
  destruct (pow_order o Hr) as (_ & _ & Hp2).
  apply (ps_held_disjoint _ _ _ cache_cache s 1 o s Hp Hh Ho); [|lia].
  unfold slabs_head, sizeof_kmem_cache, offsetof_slabs in E. lia.
Qed.

Lemma head_inj i j : head (Z.of_nat i) = head (Z.of_nat j) -> i = j.
Proof. unfold slabs_head, sizeof_kmem_cache. lia. Qed.

(** The heads are not slabs. *)
Lemma inv_head_not_in st held own L F j k ys :
  inv st held own L F -> (j < 128)%nat -> L !! k = Some ys -> head (Z.of_nat j) ∉ ys.
Proof.
  intros Hi Hj Hy Hs. destruct (iv_slab _ _ _ _ _ Hi k ys _ Hy Hs) as (? & ? & ? & _ & _ & _ & _ & Ho).
  by eapply (head_not_own _ _ _ j _ _ (iv_source _ _ _ _ _ Hi) (iv_held _ _ _ _ _ Hi) Hj Ho).
Qed.

(** A change of the links of one list leaves the others as they are. *)
Lemma inv_other_lists st held own L F i j xs ys h :
  inv st held own L F -> L !! i = Some xs -> L !! j = Some ys -> j <> i ->
  (forall x, x ∉ head (Z.of_nat i) :: xs -> x ∈ head (Z.of_nat j) :: ys -> h !! x = lists st !! x) ->
  dlist h (head (Z.of_nat j)) ys.
Proof.
  intros Hi Hx Hy Hne Hh. pose proof (iv_len _ _ _ _ _ Hi) as [_ HL].
  pose proof (lookup_lt_Some _ _ _ Hx). pose proof (lookup_lt_Some _ _ _ Hy).
  apply (dlist_frame (lists st)); [by apply (iv_list _ _ _ _ _ Hi)|]. intros x Hxs.
  apply Hh; [|done]. rewrite not_elem_of_cons. apply elem_of_cons in Hxs as [->|Hxs]; split.
  - by intros ?%head_inj.
  - by eapply inv_head_not_in; [done | lia|].
  - intros ->. by eapply (inv_head_not_in st held own L F i j ys); [done | lia|..].
  - intros Hxs'. apply Hne. by apply (inv_slab_cache st held own L F j i ys xs x).
Qed.

(** A change of one slab's structure. *)
Lemma inv_put st held own L F i xs s c sl fl :
  inv st held own L F -> L !! i = Some xs -> s ∈ xs -> caches st !! i = Some c ->
  slab_good (Z.of_nat i) c s fl sl ->
  inv (put_slab s sl st) held own L (<[s := fl]> F).
Proof.
  intros Hi Hx Hs Hc Hg. pose proof Hi as [Hl Hca Hd Hsl He H0 Hh Hp].
  split; try done. cbn [caches slabs put_slab]. intros j ys s' Hy Hs'.
  destruct (decide (s' = s)) as [->|Hne].
  - assert (j = i) as -> by (by apply (inv_slab_cache st held own L F j i ys xs s)).
    destruct (Hsl i xs s Hx Hs) as (c' & _ & _ & Hc' & _ & _ & _ & Ho).
    assert (c' = c) as -> by congruence. exists c, fl, sl.
    rewrite !lookup_insert_eq. done.
  - destruct (Hsl j ys s' Hy Hs') as (c' & fl' & sl' & ? & ? & ? & ? & ?).
    exists c', fl', sl'. rewrite !lookup_insert_ne by done. done.
Qed.

(** ** Taking and releasing one object *)

Lemma take_object_ok st held own L F i xs s c k fl :
  inv st held own L F -> L !! i = Some xs -> s ∈ xs -> caches st !! i = Some c ->
  F !! s = Some (k :: fl) ->
  exists st', take_object c s st = Ret (obj_addr c s k, st') /\
    inv st' held own L (<[s := fl]> F) /\ caches st' = caches st /\
    lists st' = lists st /\ source st' = source st /\ 0 <= k < num c /\ k ∉ fl.
Proof.
  intros Hi Hx Hs Hc HF.
  destruct (iv_slab _ _ _ _ _ Hi i xs s Hx Hs) as (c' & fl' & sl & Hc' & HF' & Hsl & Hg & Ho).
  assert (c' = c) as -> by congruence. assert (fl' = k :: fl) as -> by congruence.
  destruct (iv_cache _ _ _ _ _ Hi i xs Hx) as (c'' & Hc'' & Hok).
  assert (c'' = c) as -> by congruence.
  destruct (inv_slab_range _ _ _ _ _ s c Hi Ho Hok) as [Hs0 Hend].
  pose proof (slab_good_taken _ _ _ _ _ Hok Hg) as Hlen. cbn [length] in Hlen.
  pose proof Hg as [G1 G2 G3 G4 (Gf & Gk & g & Gg & Gc) G6 G7 G8].
  apply Forall_cons in G7 as [Gr G7]. apply NoDup_cons in G6 as [Gn G6]. cbn [length] in G8.
  unfold take_object, get_slab. rewrite Hsl. cbn [mbind res_bind]. rewrite Gf.
  rewrite (proj2 (aget_Ret _ _ g)) by done. cbn [mbind res_bind].
  pose proof (co_num c Hok). pose proof (co_off c Hok). pose proof (co_objsize c Hok).
  unfold sizeof_slab, sizeof_bufctl in *.
  eexists. split; [|split_and!; [| | | |lia|lia|done]].
  - do 2 f_equal. unfold obj_addr. rewrite G2. apply wrap_small.
    assert (0 <= k * objsize c /\ k * objsize c + objsize c <= num c * objsize c) by nia. lia.
  - apply (inv_put st held own L F i xs s c); [done..|]. split; cbn; try done.
    rewrite G8, wrap_small; lia.
  - done.
  - done.
  - done.
Qed.

Lemma kfree_ok st held own L F i xs s c k fl :
  inv st held own L F -> L !! i = Some xs -> s ∈ xs -> caches st !! i = Some c ->
  F !! s = Some fl -> 0 <= k < num c -> k ∉ fl ->
  exists st', caos_kfree (obj_addr c s k) st = Ret st' /\
    inv st' held own L (<[s := k :: fl]> F) /\ caches st' = caches st.
Proof.
  intros Hi Hx Hs Hc HF Hk Hn.
  destruct (iv_slab _ _ _ _ _ Hi i xs s Hx Hs) as (c' & fl' & sl & Hc' & HF' & Hsl & Hg & Ho).
  assert (c' = c) as -> by congruence. assert (fl' = fl) as -> by congruence.
  destruct (iv_cache _ _ _ _ _ Hi i xs Hx) as (c'' & Hc'' & Hok).
  assert (c'' = c) as -> by congruence.
  destruct (inv_slab_range _ _ _ _ _ s c Hi Ho Hok) as [Hs0 Hend].
  pose proof (slab_good_used _ _ _ _ _ _ Hok Hg Hk Hn) as Hlen.
  pose proof Hg as [G1 G2 G3 G4 G5 G6 G7 G8].
  pose proof (co_num c Hok). pose proof (co_off c Hok). pose proof (co_objsize c Hok).
  pose proof (co_fit c Hok). unfold sizeof_slab, sizeof_bufctl in *.
  unfold caos_kfree.
  rewrite (ps_slab_ok _ _ _ s (gfporder c) _ (iv_source _ _ _ _ _ Hi) Ho)
    by (unfold obj_addr; nia).
  cbn [mbind res_bind]. rewrite (proj2 (Z.eqb_neq s 0)) by lia.
  unfold get_slab. rewrite Hsl. cbn [mbind res_bind]. rewrite G1, G8.
  rewrite (proj2 (Z.leb_gt _ _)) by lia.
  rewrite (proj2 (aget_Ret (caches st) _ c)) by (split; [lia | by rewrite Nat2Z.id]).
  cbn [mbind res_bind]. rewrite (proj2 (Z.eqb_neq (objsize c) 0)) by lia.
  assert (Hidx : u64 (obj_addr c s k - s_mem sl) / objsize c = k).
  { unfold obj_addr. rewrite G2.
    replace (s + colour_off c + k * objsize c - (s + colour_off c)) with (k * objsize c) by lia.
    rewrite wrap_small by nia. apply Z.div_mul. lia. }
  rewrite Hidx. rewrite aset_lt by lia. cbn [mbind res_bind].
  assert (Hr16 : Forall (fun j => 0 <= j < 65535) fl).
  { eapply Forall_impl; [exact G7|]. simpl. lia. }
  destruct (chain_head _ _ _ G5 Hr16) as [-> _].
  eexists. split; [done|]. split; [|done].
  apply (inv_put st held own L F i xs s c); [done..|]. split; cbn; try done.
  - by rewrite length_insert.
  - apply chain_push; [done | lia | done |]. eapply Forall_impl; [exact G7|]. simpl. lia.
  - by apply NoDup_cons.
  - by apply Forall_cons.
  - rewrite wrap_small; lia.
Qed.

(** ** Finding a slab *)

(** The first slab of the list with a free object. *)
Fixpoint first_free (F : gmap Z (list Z)) (xs : list Z) : option Z :=
  match xs with
  | [] => None
  | s :: xs' => match F !! s with Some (_ :: _) => Some s | _ => first_free F xs' end
  end.

Lemma first_free_Some F xs s :
  first_free F xs = Some s -> s ∈ xs /\ exists k fl, F !! s = Some (k :: fl).
Proof.
  induction xs as [|x xs IH]; [done|]. simpl. destruct (F !! x) as [[|k fl]|] eqn:E;
    intros Hf; [|injection Hf as <-|]; set_solver.
Qed.

Lemma has_free_ok i c (st : state) s fl sl :
  cache_ok c -> slab_good i c s fl sl -> slabs st !! s = Some sl ->
  has_free c st s tt = Ret (tt, negb (bool_decide (fl = []))).
Proof.
  intros Hc Hg Hs. pose proof (slab_good_taken _ _ _ _ _ Hc Hg).
  pose proof (co_num c Hc). destruct Hg as [_ _ _ _ Gc _ Gr Gi].
  unfold has_free, get_slab. rewrite Hs. cbn [mbind res_bind]. do 2 f_equal.
  destruct (chain_head _ _ _ Gc) as [_ Hend].
  { eapply Forall_impl; [exact Gr|]. simpl. lia. }
  rewrite Gi. destruct fl as [|k fl]; simpl.
  - rewrite (proj2 Hend) by done. done.
  - rewrite (proj2 (Z.eqb_neq _ _)) by naive_solver.
    rewrite (proj2 (Z.ltb_lt _ _)) by (simpl in *; lia). done.
Qed.

Lemma find_slab st held own L F i xs c :
  inv st held own L F -> L !! i = Some xs -> caches st !! i = Some c ->
  list_for_each_entry (list_fuel (lists st)) (lists st) (head (Z.of_nat i)) (has_free c st) tt
  = Ret (default (head (Z.of_nat i)) (first_free F xs), tt).
Proof.
  intros Hi Hx Hc. erewrite list_for_each_walk by apply (iv_list _ _ _ _ _ Hi _ _ Hx).
  assert (Hw : forall ys, (forall s, s ∈ ys -> s ∈ xs) ->
    walk (head (Z.of_nat i)) ys (has_free c st) tt
    = Ret (default (head (Z.of_nat i)) (first_free F ys), tt)).
  { induction ys as [|s ys IH]; intros Hin; [done|]. simpl.
    destruct (iv_slab _ _ _ _ _ Hi i xs s Hx (Hin s ltac:(set_solver)))
      as (c' & fl & sl & Hc' & HF & Hs & Hg & _).
    assert (c' = c) as -> by congruence.
    destruct (iv_cache _ _ _ _ _ Hi i xs Hx) as (c'' & Hc'' & Hok).
    assert (c'' = c) as -> by congruence.
    rewrite (has_free_ok _ _ _ _ _ _ Hok Hg Hs), HF. cbn [mbind res_bind].
    destruct fl; simpl; [|done]. apply IH. set_solver. }
  by apply Hw.
Qed.

(** ** Growing a cache *)

Lemma list_set_lookup {A} (l : list A) i j x y :
  (i < length l)%nat -> <[i := x]> l !! j = Some y ->
  (j = i /\ y = x) \/ (j <> i /\ l !! j = Some y).
Proof.
  intros Hl. destruct (decide (j = i)) as [->|Hne].
  - rewrite list_lookup_insert_eq by done. naive_solver.
  - rewrite list_lookup_insert_ne by done. naive_solver.
Qed.

(** The structure of a new slab. *)
Lemma new_slab_good i c a v :
  cache_ok c -> 0 < a -> a + colour_off c + num c * objsize c <= 2 ^ 64 ->
  Z.of_nat (length v) = num c -> chain v 0 (seqZ 0 (num c)) ->
  slab_good i c a (seqZ 0 (num c))
    {| inuse := 0; offset := colour_off c; bufctl := v; s_mem := u64 (a + colour_off c);
       cache := Some i; free := 0 |}.
Proof.
  intros Hc Ha Hend Hv Hch. pose proof (co_num c Hc). pose proof (co_off c Hc).
  pose proof (co_objsize c Hc). unfold sizeof_slab, sizeof_bufctl in *.
  split; cbn; try done.
  - apply wrap_small. nia.
  - apply NoDup_seqZ.
  - apply Forall_forall. intros k. rewrite elem_of_seqZ. lia.
  - rewrite length_seqZ. lia.
Qed.

(** A slab [a] made of pages the caches did not have goes to the front of the
    list of cache [i]. *)
Section GrowCache.
Context (st : state) (held own : gmap Z Z) (L : list (list Z)) (F : gmap Z (list Z)).
Context (i : nat) (xs : list Z) (c : kmem_cache) (a : Z) (p' : P).
Hypotheses (Hi : inv st held own L F) (Hx : L !! i = Some xs) (Hc : caches st !! i = Some c)
  (Hp : ps_ok p' held (<[a := gfporder c]> own)) (Hna : own !! a = None).

Lemma new_slab_range : 0 < a /\ a + 4096 * 2 ^ gfporder c <= 2 ^ 64.
Proof using Hp.
  destruct (ps_own_range _ _ _ _ _ Hp (lookup_insert_eq own a (gfporder c))) as (Ha & Hend & _).
  unfold PAGE_OFFSET in Ha. lia.
Qed.

Lemma old_slab j ys s : L !! j = Some ys -> s ∈ ys -> s <> a /\ own !! s <> None.
Proof using Hi Hna.
  intros Hy Hs. destruct (iv_slab _ _ _ _ _ Hi j ys s Hy Hs) as (? & ? & ? & _ & _ & _ & _ & ?).
  naive_solver.
Qed.

Lemma head_not_new j : (j < 128)%nat -> head (Z.of_nat j) <> a.
Proof using Hi Hp.
  intros Hj. apply (head_not_own p' held (<[a := gfporder c]> own) j a (gfporder c) Hp).
  - exact (iv_held _ _ _ _ _ Hi).
  - done.
  - apply lookup_insert_eq.
Qed.

(** The lists after the new head is initialised and linked. *)
Lemma grow_lists :
  exists h, CList.list_add a (head (Z.of_nat i)) (INIT_LIST_HEAD a (lists st)) = Ret h /\
    (forall j ys, <[i := a :: xs]> L !! j = Some ys -> dlist h (head (Z.of_nat j)) ys) /\
    (forall x, x <> a -> x ∉ head (Z.of_nat i) :: xs -> h !! x = lists st !! x).
Proof using Hi Hx Hp Hna.
  pose proof (iv_len _ _ _ _ _ Hi) as [_ HL].
  assert (HiL : (i < length L)%nat) by (by eapply lookup_lt_Some).
  set (h1 := INIT_LIST_HEAD a (lists st)).
  assert (Hh1 : forall x, x <> a -> h1 !! x = lists st !! x).
  { intros x Hne. unfold h1, INIT_LIST_HEAD. by rewrite lookup_insert_ne. }
  assert (Hd1 : forall j ys, L !! j = Some ys -> dlist h1 (head (Z.of_nat j)) ys).
  { intros j ys Hy. pose proof (lookup_lt_Some _ _ _ Hy).
    apply (dlist_frame (lists st)); [by apply (iv_list _ _ _ _ _ Hi)|]. intros x [->|Hxs]%elem_of_cons.
    - apply Hh1, head_not_new. lia.
    - apply Hh1. by eapply (old_slab j ys). }
  destruct (list_add_dlist h1 (head (Z.of_nat i)) xs a (Hd1 i xs Hx)) as (h & E & Hd2 & _ & Hf).
  { intros [E|Hs]%elem_of_cons; [by eapply (head_not_new i ltac:(lia)) | by destruct (old_slab i xs a Hx Hs)]. }
  { unfold h1, INIT_LIST_HEAD. by rewrite lookup_insert_eq. }
  assert (Hkeep : forall x, x <> a -> x ∉ head (Z.of_nat i) :: xs -> h !! x = h1 !! x).
  { intros x Hne Hxs. apply Hf. rewrite not_elem_of_cons. done. }
  exists h. split_and!; [done| |].
  - intros j ys Hy. apply list_set_lookup in Hy as [[-> ->]|[Hne Hy]]; [done | | done].
    apply (inv_other_lists st held own L F i j xs ys); [done..|]. intros x Hxi Hxs.
    assert (Hxa : x <> a); [|by rewrite Hkeep, Hh1].
    apply elem_of_cons in Hxs as [->|Hxs]; [|by eapply (old_slab j ys)].
    apply head_not_new. pose proof (lookup_lt_Some _ _ _ Hy). lia.
  - intros x Hne Hxs. by rewrite Hkeep, Hh1.
Qed.

(** Every slab, the new one included, belongs to its cache. *)
Lemma grow_slabs sl :
  slab_good (Z.of_nat i) c a (seqZ 0 (num c)) sl ->
  forall j ys s, <[i := a :: xs]> L !! j = Some ys -> s ∈ ys ->
    exists c' fl sl', caches st !! j = Some c' /\ <[a := seqZ 0 (num c)]> F !! s = Some fl /\
      <[a := sl]> (slabs st) !! s = Some sl' /\ slab_good (Z.of_nat j) c' s fl sl' /\
      <[a := gfporder c]> own !! s = Some (gfporder c').
Proof using Hi Hx Hc Hna.
  intros Hgood j ys s Hy Hs. assert (HiL : (i < length L)%nat) by (by eapply lookup_lt_Some).
  assert (Hold : forall zs, L !! j = Some zs -> s ∈ zs ->
    exists c' fl sl', caches st !! j = Some c' /\ <[a := seqZ 0 (num c)]> F !! s = Some fl /\
      <[a := sl]> (slabs st) !! s = Some sl' /\ slab_good (Z.of_nat j) c' s fl sl' /\
      <[a := gfporder c]> own !! s = Some (gfporder c')).
  { intros zs Hz Hsz. destruct (iv_slab _ _ _ _ _ Hi j zs s Hz Hsz) as (c' & fl & sl' & ? & ? & ? & ? & ?).
    destruct (old_slab j zs s Hz Hsz) as [Hne _]. exists c', fl, sl'. by rewrite !lookup_insert_ne. }
  apply list_set_lookup in Hy as [[-> ->]|[_ Hy]]; [|by apply (Hold ys)|done].
  apply elem_of_cons in Hs as [->|Hs]; [|by apply (Hold xs)].
  exists c, (seqZ 0 (num c)), sl. by rewrite !lookup_insert_eq.
Qed.

End GrowCache.

Lemma kmem_cache_grow_ok st held own L F i xs c flags a p' :
  inv st held own L F -> L !! i = Some xs -> caches st !! i = Some c ->
  ps_get (gfporder c) flags (source st) = Ret (Some a, p') ->
  ps_ok p' held (<[a := gfporder c]> own) -> own !! a = None ->
  exists st', kmem_cache_grow cache_cache (Z.of_nat i) flags st = Ret (1, st') /\
    inv st' held (<[a := gfporder c]> own) (<[i := a :: xs]> L) (<[a := seqZ 0 (num c)]> F) /\
    caches st' = caches st.
Proof.
  intros Hi Hx Hc Hget Hp Hna. pose proof Hi as [Hl Hca Hd _ He H0 Hh _].
  destruct (Hca i xs Hx) as (c' & Hc' & Hok). assert (c' = c) as -> by congruence.
  destruct (new_slab_range held own c a p' Hp) as [Ha Hend]. pose proof (co_fit c Hok).
  assert (HiL : (i < length L)%nat) by (by eapply lookup_lt_Some).
  destruct (grow_lists st held own L F i xs c a p' Hi Hx Hp Hna) as (h & Eh & Hdl & Hkeep).
  unfold kmem_cache_grow.
  rewrite (proj2 (aget_Ret (caches st) _ c)) by (split; [lia | by rewrite Nat2Z.id]).
  cbn [mbind res_bind]. rewrite Hget. cbn [mbind res_bind].
  destruct (init_bufctl_spec (num c) (co_num c Hok)) as (v & -> & Hv & Hch).
  cbn [mbind res_bind lists with_source]. rewrite Eh. cbn [mbind res_bind].
  eexists. split; [done|]. split; [|done].
  split; cbn [caches slabs lists source put_slab with_lists with_source]; rewrite ?length_insert; try done.
  - intros j ys Hy. apply list_set_lookup in Hy as [[-> ->]|[_ Hy]]; eauto.
  - eapply grow_slabs; [done..|]. apply new_slab_good; [done | lia | lia | done | done].
  - intros j Hj. destruct (He j Hj) as [? He2]. split; [done|]. rewrite Hkeep; [done | |].
    + eapply head_not_new; [done | done | lia].
    + intros [Heq%head_inj|Hs]%elem_of_cons; [lia|]. eapply inv_head_not_in; [done | | done | done]. lia.
  - assert (Hn0 : 0 ∉ head (Z.of_nat i) :: xs).
    { intros Hs. destruct (dlist_is_Some _ _ _ _ (Hd i xs Hx) Hs). congruence. }
    rewrite Hkeep; [done | lia | done].
Qed.

(** ** The allocation loop *)

Lemma inv_find st held own L F i xs c :
  inv st held own L F -> L !! i = Some xs -> caches st !! i = Some c ->
  (i < 128)%nat /\ aget (caches st) (Z.of_nat i) = Ret c /\ cache_ok c /\
  match first_free F xs with
  | Some s => (head (Z.of_nat i) =? s) = false
  | None => True
  end.
Proof.
  intros Hi Hx Hc. destruct (iv_len _ _ _ _ _ Hi) as [_ Hl].
  pose proof (lookup_lt_Some _ _ _ Hx). split; [lia|].
  split; [apply aget_Ret; split; [lia | by rewrite Nat2Z.id]|].
  destruct (iv_cache _ _ _ _ _ Hi i xs Hx) as (c' & Hc' & Hok).
  split; [congruence|]. destruct (first_free F xs) as [s|] eqn:Hf; [|done].
  apply first_free_Some in Hf as [Hs _].
  destruct (iv_slab _ _ _ _ _ Hi i xs s Hx Hs) as (? & ? & ? & _ & _ & _ & _ & Ho).
  apply Z.eqb_neq. eapply head_not_own; [apply Hi | apply Hi | lia | exact Ho].
Qed.

Lemma retry_found st held own L F i xs c f rc flags s :
  inv st held own L F -> L !! i = Some xs -> caches st !! i = Some c -> rc <= KMALLOC_RETRY_MAX ->
  first_free F xs = Some s ->
  kmalloc_retry cache_cache (S f) (Z.of_nat i) rc flags st = take_object c s st.
Proof.
  intros Hi Hx Hc Hrc Hf. destruct (inv_find _ _ _ _ _ _ _ _ Hi Hx Hc) as (_ & Ha & _ & Hh).
  rewrite Hf in Hh. cbn [kmalloc_retry]. rewrite Ha. cbn [mbind res_bind].
  rewrite Z.gtb_ltb, (proj2 (Z.ltb_ge _ _)) by lia.
  rewrite (find_slab _ _ _ _ _ _ _ _ Hi Hx Hc), Hf. cbn [mbind res_bind default from_option id]. by rewrite Hh.
Qed.

(** No slab has a free object and there are no pages for another. *)
Definition exhausted (st : state) (L : list (list Z)) (F : gmap Z (list Z)) (flags : Z) (i : nat) : Prop :=
  exists xs c, L !! i = Some xs /\ caches st !! i = Some c /\ first_free F xs = None /\
    ps_get (gfporder c) flags (source st) = Ret (None, source st).

(** No slab has a free object and the source does not survive the request. *)
Definition cache_stuck (st : state) (L : list (list Z)) (F : gmap Z (list Z)) (i : nat) : Prop :=
  exists xs c, L !! i = Some xs /\ caches st !! i = Some c /\ first_free F xs = None /\
    ps_stuck (gfporder c) (source st).

Lemma retry_grow_step st held own L F i xs c f flags :
  inv st held own L F -> L !! i = Some xs -> caches st !! i = Some c -> first_free F xs = None ->
  forall rc, rc <= KMALLOC_RETRY_MAX ->
  kmalloc_retry cache_cache (S f) (Z.of_nat i) rc flags st =
    ('(_, st) ← kmem_cache_grow cache_cache (Z.of_nat i) flags st;
     if rc + 1 >? 1 then kmalloc_retry cache_cache f (Z.of_nat i + 1) 0 flags st
     else kmalloc_retry cache_cache f (Z.of_nat i) (rc + 1) flags st).
Proof.
  intros Hi Hx Hc Hf rc Hrc. destruct (inv_find _ _ _ _ _ _ _ _ Hi Hx Hc) as (_ & Ha & _).
  cbn [kmalloc_retry]. rewrite Ha. cbn [mbind res_bind].
  rewrite Z.gtb_ltb, (proj2 (Z.ltb_ge _ _)) by lia.
  rewrite (find_slab _ _ _ _ _ _ _ _ Hi Hx Hc), Hf. cbn [mbind res_bind default from_option id].
  by rewrite Z.eqb_refl.
Qed.

(** Two tries, then the next cache. *)
Lemma retry_exhausted st held own L F i f flags :
  inv st held own L F -> exhausted st L F flags i ->
  kmalloc_retry cache_cache (S (S f)) (Z.of_nat i) 0 flags st
  = kmalloc_retry cache_cache f (Z.of_nat (S i)) 0 flags st.
Proof.
  intros Hi (xs & c & Hx & Hc & Hf & Hget).
  destruct (inv_find _ _ _ _ _ _ _ _ Hi Hx Hc) as (_ & Ha & _).
  assert (Hg : kmem_cache_grow cache_cache (Z.of_nat i) flags st = Ret (0, st)).
  { unfold kmem_cache_grow. rewrite Ha. cbn [mbind res_bind]. rewrite Hget. cbn [mbind res_bind].
    by destruct st. }
  do 2 (erewrite retry_grow_step by (done || (unfold KMALLOC_RETRY_MAX; lia));
        rewrite Hg; cbn [mbind res_bind]).
  simpl. f_equal. lia.
Qed.

(** Past the last cache: the list head of an unused entry holds no pointers. *)
Lemma retry_end st held own L F f flags :
  inv st held own L F ->
  kmalloc_retry cache_cache (S f) (Z.of_nat (length L)) 0 flags st = Fault.
Proof.
  intros Hi. destruct (iv_len _ _ _ _ _ Hi) as [_ Hlen].
  destruct (iv_end _ _ _ _ _ Hi (length L)) as [(c & Hc & _) Ht]; [lia|].
  cbn [kmalloc_retry]. rewrite (proj2 (aget_Ret (caches st) _ c)) by (split; [lia | by rewrite Nat2Z.id]).
  cbn [mbind res_bind]. simpl (0 >? _). unfold list_for_each_entry, node.
  rewrite Ht. cbn [mbind res_bind next list_loop list_fuel].
  unfold node. by rewrite (iv_null _ _ _ _ _ Hi).
Qed.

(** What a successful allocation does: object [k] of slab [s] of cache [j],
    not in use before, and nothing else changes. *)
Record allocated (st : state) (L : list (list Z)) (F : gmap Z (list Z)) (held : gmap Z Z)
    (j : nat) (c : kmem_cache) (s k : Z) (st' : state) (own' : gmap Z Z)
    (L' : list (list Z)) (F' : gmap Z (list Z)) : Prop := {
  al_inv : inv st' held own' L' F';
  al_caches : caches st' = caches st;
  al_cache : caches st !! j = Some c;
  al_fresh : ~ live st L F (j, s, k);
  al_live : forall x, live st' L' F' x <-> x = (j, s, k) \/ live st L F x
}.

(** Taking the first object of a free list makes it live. *)
Lemma live_take st held own st' L F i xs s c k fl x :
  inv st held own L F -> L !! i = Some xs -> s ∈ xs -> caches st !! i = Some c ->
  F !! s = Some (k :: fl) ->
  0 <= k < num c -> k ∉ fl -> caches st' = caches st ->
  live st' L (<[s := fl]> F) x <-> x = (i, s, k) \/ live st L F x.
Proof.
  intros Hi Hx Hs Hc HF Hk Hn Hcs. destruct x as [[j s'] k']. unfold live. rewrite Hcs. split.
  - intros (ys & c' & fl' & Hy & Hs' & Hc' & HF' & Hk' & Hn').
    apply lookup_insert_Some in HF' as [[<- <-]|[Hne HF']]; [|right; naive_solver].
    assert (j = i) as -> by (by apply (inv_slab_cache st held own L F j i ys xs s)).
    destruct (decide (k' = k)) as [->|Hne]; [by left | right].
    exists ys, c', (k :: fl). set_solver.
  - intros [[= -> -> ->]|(ys & c' & fl' & Hy & Hs' & Hc' & HF' & Hk' & Hn')].
    + exists xs, c, fl. rewrite lookup_insert_eq. naive_solver.
    + destruct (decide (s' = s)) as [->|Hne].
      * exists ys, c', fl. rewrite lookup_insert_eq. assert (fl' = k :: fl) as -> by congruence.
        set_solver.
      * exists ys, c', fl'. by rewrite lookup_insert_ne.
Qed.

(** A new slab has no live object. *)
Lemma live_grow st held own st' L F i xs c a x :
  inv st held own L F -> L !! i = Some xs -> caches st !! i = Some c -> own !! a = None ->
  caches st' = caches st ->
  live st' (<[i := a :: xs]> L) (<[a := seqZ 0 (num c)]> F) x <-> live st L F x.
Proof.
  intros Hi Hx Hc Ha Hcs. destruct x as [[j s] k]. unfold live. rewrite Hcs.
  pose proof (lookup_lt_Some _ _ _ Hx) as Hlt.
  assert (Hin : forall ys, L !! j = Some ys -> s ∈ ys -> s <> a).
  { intros ys Hy Hs ->. destruct (iv_slab _ _ _ _ _ Hi j ys a Hy Hs) as (? & ? & ? & _ & _ & _ & _ & ?).
    congruence. }
  split.
  - intros (ys & c' & fl & Hy & Hs & Hc' & HF & Hk & Hn).
    assert (Hs' : s <> a -> exists zs, L !! j = Some zs /\ s ∈ zs).
    { intros Hne. apply list_set_lookup in Hy as [[-> ->]|[_ Hy]]; [|by eauto|done].
      exists xs. set_solver. }
    destruct (decide (s = a)) as [->|Hne].
    + exfalso. rewrite lookup_insert_eq in HF. injection HF as <-. apply Hn, elem_of_seqZ.
      apply list_set_lookup in Hy as [[-> ->]|[_ Hy]]; [| |done].
      * assert (c' = c) as -> by congruence. lia.
      * by destruct (Hin ys Hy Hs).
    + destruct (Hs' Hne) as (zs & Hz & Hsz). rewrite lookup_insert_ne in HF by done. naive_solver.
  - intros (ys & c' & fl & Hy & Hs & Hc' & HF & Hk & Hn).
    rewrite lookup_insert_ne by (intros <-; by eapply Hin).
    destruct (decide (j = i)) as [->|Hne].
    + exists (a :: ys), c', fl. rewrite list_lookup_insert_eq by done.
      assert (ys = xs) as -> by congruence. set_solver.
    + exists ys, c', fl. by rewrite list_lookup_insert_ne.
Qed.

Lemma allocated_take (st : state) held own L F (j : nat) xs c s k fl (st1 : state) own1 L1 F1 xs1 :
  inv st held own L F -> caches st !! j = Some c -> L !! j = Some xs ->
  inv st1 held own1 L1 F1 -> caches st1 = caches st -> L1 !! j = Some xs1 -> s ∈ xs1 ->
  F1 !! s = Some (k :: fl) -> (forall x, live st1 L1 F1 x <-> live st L F x) ->
  exists st' F', take_object c s st1 = Ret (obj_addr c s k, st') /\
    allocated st L F held j c s k st' own1 L1 F'.
Proof.
  intros Hi Hc Hx Hi1 Hcs Hx1 Hs HF Hlive. rewrite <- Hcs in Hc.
  destruct (take_object_ok st1 held own1 L1 F1 j xs1 s c k fl Hi1 Hx1 Hs Hc HF)
    as (st' & E & Hi' & Hcs' & _ & _ & Hk & Hn).
  exists st', (<[s := fl]> F1). split; [done|]. split.
  - done.
  - congruence.
  - by rewrite <- Hcs.
  - intros Hl. apply Hlive in Hl as (? & ? & fl' & _ & _ & _ & HF' & _ & Hn').
    assert (fl' = k :: fl) as -> by congruence. set_solver.
  - intros x. rewrite <- Hlive. by eapply live_take.
Qed.

(** One cache: an object, or the cache is exhausted, or the source fails. *)
Lemma retry_cache st held own L F i xs f flags :
  inv st held own L F -> L !! i = Some xs ->
  exhausted st L F flags i \/
  (exists c s k st' own' L' F',
    kmalloc_retry cache_cache (S (S f)) (Z.of_nat i) 0 flags st = Ret (obj_addr c s k, st') /\
    allocated st L F held i c s k st' own' L' F') \/
  (cache_stuck st L F i /\ kmalloc_retry cache_cache (S (S f)) (Z.of_nat i) 0 flags st = Fault).
Proof.
  intros Hi Hx. destruct (iv_cache _ _ _ _ _ Hi i xs Hx) as (c & Hc & Hok).
  pose proof (lookup_lt_Some _ _ _ Hx) as HiL.
  assert (Hm : 0 <= KMALLOC_RETRY_MAX /\ 1 <= KMALLOC_RETRY_MAX) by (unfold KMALLOC_RETRY_MAX; lia).
  destruct (first_free F xs) as [s|] eqn:Hf.
  { right; left. destruct (first_free_Some _ _ _ Hf) as (Hs & k & fl & HF).
    destruct (allocated_take st held own L F i xs c s k fl st own L F xs)
      as (st' & F' & E & Ha); try done.
    exists c, s, k, st', own, L, F'. split; [|done]. rewrite <- E. by eapply retry_found. }
  destruct (ps_get_ok _ _ _ (gfporder c) flags (iv_source _ _ _ _ _ Hi) (co_order c Hok))
    as [Hget|[(a & p' & Hget & Hp & Hna)|[Hst Hget]]]; [left; by exists xs, c| |].
  2:{ right; right. split; [by exists xs, c|]. erewrite retry_grow_step by done.
      unfold kmem_cache_grow. rewrite (proj2 (aget_Ret (caches st) _ c)) by (split; [lia | by rewrite Nat2Z.id]).
      cbn [mbind res_bind]. by rewrite Hget. }
  right; left.
  destruct (kmem_cache_grow_ok st held own L F i xs c flags a p' Hi Hx Hc Hget Hp Hna)
    as (st1 & Hg & Hi1 & Hcs).
  assert (HF : <[a := seqZ 0 (num c)]> F !! a = Some (0 :: seqZ 1 (num c - 1))).
  { rewrite lookup_insert_eq, seqZ_cons by (apply Hok). done. }
  assert (Hx1 : <[i := a :: xs]> L !! i = Some (a :: xs)) by by rewrite list_lookup_insert_eq.
  destruct (allocated_take st held own L F i xs c a 0 (seqZ 1 (num c - 1)) st1
    (<[a := gfporder c]> own) (<[i := a :: xs]> L) (<[a := seqZ 0 (num c)]> F) (a :: xs))
    as (st' & F' & E & Ha); try done; [set_solver | intros x; by eapply live_grow |].
  exists c, a, 0, st', (<[a := gfporder c]> own), (<[i := a :: xs]> L), F'. split; [|done].
  erewrite retry_grow_step by done. rewrite Hg. cbn [mbind res_bind]. simpl (_ >? _). cbv iota.
  rewrite <- E. eapply retry_found; [done | done | by rewrite Hcs | done |].
  cbn [first_free]. by rewrite HF.
Qed.

(** ** The search for a cache *)

(** [i] is the first cache whose objects hold [size] bytes, or the number of
    caches. *)
Definition first_fit (st : state) (L : list (list Z)) (size : Z) (i : nat) : Prop :=
  (i <= length L)%nat /\
  (forall j c, (j < i)%nat -> caches st !! j = Some c -> objsize c < size) /\
  (forall c, (i < length L)%nat -> caches st !! i = Some c -> size <= objsize c).

Lemma seek_cache_ok st held own L F size :
  inv st held own L F ->
  exists i, first_fit st L size i /\
    seek_cache CACHE_CACHE_MAX (S (length (caches st))) (caches st) size 0 = Ret (Z.of_nat i).
Proof.
  intros Hi. destruct (iv_len _ _ _ _ _ Hi) as [Hl HL].
  assert (Hs : forall f i, (i <= length L)%nat -> (length L - i < f)%nat ->
    (forall j c, (j < i)%nat -> caches st !! j = Some c -> objsize c < size) ->
    exists i', first_fit st L size i' /\
      seek_cache CACHE_CACHE_MAX f (caches st) size (Z.of_nat i) = Ret (Z.of_nat i')).
  { induction f as [|f IH]; intros i Hle Hf Hlo; [lia|].
    destruct (lookup_lt_is_Some_2 (caches st) i) as [c Hc]; [lia|].
    cbn [seek_cache]. rewrite (proj2 (aget_Ret (caches st) _ c)) by (split; [lia | by rewrite Nat2Z.id]).
    cbn [mbind res_bind]. unfold CACHE_CACHE_MAX. rewrite (proj2 (Z.ltb_lt _ _)) by lia.
    destruct (decide (i = length L)) as [->|Hne].
    - destruct (iv_end _ _ _ _ _ Hi (length L)) as [(c' & Hc' & Hn) _]; [lia|]. assert (c' = c) as -> by congruence.
      rewrite Hn. simpl. exists (length L). split; [|done]. split_and!; [lia | done | lia].
    - destruct (lookup_lt_is_Some_2 L i) as [xs Hx]; [lia|].
      destruct (iv_cache _ _ _ _ _ Hi i xs Hx) as (c' & Hc' & Hok). assert (c' = c) as -> by congruence.
      rewrite (proj2 (Z.eqb_neq _ _)) by apply Hok. cbn [negb andb].
      destruct (Z.leb_spec size (objsize c)).
      + exists i. split; [|done]. split_and!; [lia | done |]. intros c'' _ Hc''. congruence.
      + replace (Z.of_nat i + 1) with (Z.of_nat (S i)) by lia. apply IH; [lia | lia |].
        intros j c'' Hj Hc''. destruct (decide (j = i)) as [->|]; [|apply (Hlo j); done || lia].
        assert (c'' = c) as -> by congruence. lia. }
  apply (Hs _ 0%nat); [lia | lia | lia].
Qed.

(** ** Adding a cache *)

Lemma live_caches st st' L F x :
  (forall i xs, L !! i = Some xs -> caches st' !! i = caches st !! i) ->
  live st' (L ++ [[]]) F x <-> live st L F x.
Proof.
  intros Hc. destruct x as [[j s] k]. unfold live. split.
  - intros (xs & c & fl & Hx & Hs & Hcs & ?).
    apply lookup_app_Some in Hx as [Hx|[_ Hx]].
    + rewrite (Hc _ _ Hx) in Hcs. by exists xs, c, fl.
    + apply list_lookup_singleton_Some in Hx as [_ <-]. set_solver.
  - intros (xs & c & fl & Hx & Hs & Hcs & ?). exists xs, c, fl.
    rewrite (Hc _ _ Hx). split; [|done]. by apply lookup_app_l_Some.
Qed.

Lemma add_cache_inv st held own L F c :
  inv st held own L F -> (length L < 127)%nat -> cache_ok c ->
  inv {| caches := <[length L := c]> (caches st); slabs := slabs st;
         lists := INIT_LIST_HEAD (head (Z.of_nat (length L))) (lists st); source := source st |}
      held own (L ++ [[]]) F.
Proof.
  intros Hi Hlt Hok. pose proof Hi as [Hl Hca Hd Hsl He H0 Hh Hp].
  assert (Hlk : forall j xs, (L ++ [[]]) !! j = Some xs ->
    (L !! j = Some xs /\ j <> length L) \/ (j = length L /\ xs = [])).
  { intros j xs Hx. apply lookup_app_Some in Hx as [Hx|[Hj Hx]].
    - left. split; [done|]. apply lookup_lt_Some in Hx. lia.
    - apply list_lookup_singleton_Some in Hx as [? <-]. right. split; [lia | done]. }
  split; cbn [caches slabs lists source]; rewrite ?length_insert, ?length_app; try done.
  - simpl. lia.
  - intros j xs [[Hx Hj]|[-> ->]]%Hlk.
    + rewrite list_lookup_insert_ne by done. by eapply Hca.
    + exists c. rewrite list_lookup_insert_eq by lia. done.
  - intros j xs [[Hx Hj]|[-> ->]]%Hlk; [|apply INIT_LIST_HEAD_dlist].
    apply (dlist_frame (lists st)); [by apply Hd|]. intros y Hy. unfold INIT_LIST_HEAD.
    apply lookup_insert_ne. intros <-. apply elem_of_cons in Hy as [Hy%head_inj|Hy]; [done|].
    destruct (Hsl j xs _ Hx Hy) as (? & ? & ? & _ & _ & _ & _ & Ho).
    eapply (head_not_own _ _ _ (length L) _ _ Hp Hh); [lia | exact Ho | done].
  - intros j xs s [[Hx Hj]|[-> ->]]%Hlk Hs; [|set_solver].
    rewrite list_lookup_insert_ne by done. by eapply Hsl.
  - intros j Hj. simpl in Hj. rewrite list_lookup_insert_ne by lia. unfold INIT_LIST_HEAD.
    rewrite lookup_insert_ne by (intros E%head_inj; lia). apply He. lia.
  - unfold INIT_LIST_HEAD. rewrite lookup_insert_ne; [done|]. intros E.
    destruct (He (length L)) as [_ He2]; [lia|]. rewrite E in He2. congruence.
Qed.

(** The names of the caches are strings. *)
Definition names_ok (nm : bmem) (cs : list kmem_cache) (ns : list (list Z)) : Prop :=
  forall j n, ns !! j = Some n -> exists c, cs !! j = Some c /\ name c <> 0 /\ cstr nm (name c) n.

Lemma seek_name_ok nm st held own L F ns nam n :
  inv st held own L F -> length ns = length L -> names_ok nm (caches st) ns ->
  cstr nm nam n ->
  seek_name CACHE_CACHE_MAX nm (S (length (caches st))) (caches st) nam 0
  = Ret (if decide (n ∈ ns) then None else Some (Z.of_nat (length L))).
Proof.
  intros Hi Hns Hnm Hn. destruct (iv_len _ _ _ _ _ Hi) as [Hl HL].
  assert (Hs : forall f i, (i <= length L)%nat -> (length L - i < f)%nat ->
    seek_name CACHE_CACHE_MAX nm f (caches st) nam (Z.of_nat i)
    = Ret (if decide (n ∈ drop i ns) then None else Some (Z.of_nat (length L)))).
  { induction f as [|f IH]; intros i Hle Hf; [lia|].
    destruct (lookup_lt_is_Some_2 (caches st) i) as [c Hc]; [lia|].
    cbn [seek_name]. rewrite (proj2 (aget_Ret (caches st) _ c)) by (split; [lia | by rewrite Nat2Z.id]).
    cbn [mbind res_bind]. rewrite (proj2 (Z.ltb_lt (Z.of_nat i) CACHE_CACHE_MAX)) by (unfold CACHE_CACHE_MAX; lia).
    destruct (decide (i = length L)) as [->|Hne].
    - destruct (iv_end _ _ _ _ _ Hi (length L)) as [(c' & Hc' & Hz) _]; [lia|].
      assert (c' = c) as -> by congruence. rewrite Hz, drop_ge by lia.
      by rewrite decide_False by set_solver.
    - destruct (lookup_lt_is_Some_2 ns i) as [m Hm]; [lia|].
      destruct (Hnm i m Hm) as (c' & Hc' & Hz & Hstr). assert (c' = c) as -> by congruence.
      rewrite (proj2 (Z.eqb_neq _ _)) by done. cbn [negb andb].
      destruct (caos_strcmp_spec nm (name c) nam m n Hstr Hn) as (r & -> & Hr). cbn [mbind res_bind].
      rewrite (drop_S ns m i Hm). destruct (Z.eqb_spec r 0) as [Hr0|Hr0].
      + rewrite decide_True by (apply Hr in Hr0; set_solver). done.
      + replace (Z.of_nat i + 1) with (Z.of_nat (S i)) by lia. rewrite (IH (S i)) by lia.
        do 2 f_equal. apply decide_ext. assert (m <> n) by tauto. set_solver. }
  rewrite (Hs _ 0%nat) by lia. done.
Qed.

End Invariant.
