(* ===== verification/SlabSpec.v ===== *)
(** * What the slab allocator guarantees (slab.c)

    The invariant of Slab.v holds after [kmem_cache_init] and is kept by every
    operation; the objects in use form a set that [caos_kmalloc] extends by one
    new object and [caos_kfree] shrinks by the object it is given. *)

From Stdlib Require Import Ascii String.
From S2P Require Import Prelude BitOps CList CString BootMem Memory PageAlloc PageFlags SlabPages Slab.

#[local] Open Scope list_scope.

(** ** The shape of a cache *)

(** What [cache_ok] asks of the numbers of a cache, as a test. *)
Definition shape_ok (size align : Z) : bool :=
  let c := new_cache 1 (word_align size) (word_align align) 0 in
  (size <=? objsize c) && (objsize c mod BYTES_PER_LONG =? 0) && (0 <? num c) && (num c <? 65535) &&
  (0 <=? gfporder c) && (gfporder c <=? MAX_PAGE_ORDER) &&
  (sizeof_slab + sizeof_bufctl * num c <=? colour_off c) &&
  (colour_off c + num c * objsize c <=? 4096 * 2 ^ gfporder c) &&
  (colour_off c mod align =? 0).

Lemma shape_ok_16 size :
  BYTES_PER_LONG <= size <= KMALLOC_MAX_SIZE -> shape_ok size X86_64_CACHE_ALIGN = true.
Proof.
  intros Hs.
  assert (Hall : forallb (fun s => shape_ok s X86_64_CACHE_ALIGN) (seqZ 8 2041) = true)
    by (vm_compute; reflexivity).
  rewrite forallb_forall in Hall. apply Hall, list_elem_of_In, elem_of_seqZ.
  unfold BYTES_PER_LONG, KMALLOC_MAX_SIZE in Hs. lia.
Qed.

Lemma new_cache_ok nam size flags :
  nam <> 0 -> BYTES_PER_LONG <= size <= KMALLOC_MAX_SIZE ->
  let c := new_cache nam (word_align size) (word_align X86_64_CACHE_ALIGN) flags in
  cache_ok c /\ size <= objsize c /\ objsize c mod BYTES_PER_LONG = 0 /\
  colour_off c mod X86_64_CACHE_ALIGN = 0.
Proof.
  intros Hn Hs c. pose proof (shape_ok_16 size Hs) as Hk. unfold shape_ok in Hk.
  set (c1 := new_cache 1 _ _ 0) in Hk.
  assert (E : objsize c = objsize c1 /\ num c = num c1 /\ gfporder c = gfporder c1 /\
    colour_off c = colour_off c1 /\ name c = nam) by done.
  clearbody c c1. rewrite !andb_true_iff, !Z.leb_le, !Z.ltb_lt, !Z.eqb_eq in Hk.
  unfold BYTES_PER_LONG in *. destruct c, c1. simpl in *. destruct E as (-> & -> & -> & -> & ->).
  split_and!; try tauto. split; simpl; intuition lia.
Qed.

Section Spec.
Context {P : Type} `{PageSource P}.
Context (cache_cache : Z) (nm : bmem).

Abbreviation state := (slab_state P).

(** ** Creating a cache *)

Lemma kmem_cache_create_ok (st : state) held own L F ns nam n size flags :
  inv cache_cache st held own L F -> (length L < 127)%nat ->
  length ns = length L -> names_ok nm (caches st) ns -> nam <> 0 -> cstr nm nam n ->
  BYTES_PER_LONG <= size <= KMALLOC_MAX_SIZE -> n ∉ ns ->
  exists st', kmem_cache_create cache_cache CACHE_CACHE_MAX nm nam size X86_64_CACHE_ALIGN flags st
      = Ret (Some (Z.of_nat (length L)), st') /\
    inv cache_cache st' held own (L ++ [[]]) F /\
    (forall x, live st' (L ++ [[]]) F x <-> live st L F x) /\
    caches st' = <[length L := new_cache nam (word_align size) (word_align X86_64_CACHE_ALIGN) flags]>
                   (caches st) /\
    names_ok nm (caches st') (ns ++ [n]).
Proof.
  intros Hi Hlt Hns Hnm Hnam Hn Hs Hnew.
  destruct (iv_len _ _ _ _ _ _ Hi) as [Hl _].
  destruct (new_cache_ok nam size flags Hnam Hs) as [Hok _].
  unfold kmem_cache_create. rewrite (proj2 (Z.eqb_neq _ _)) by done.
  rewrite (proj2 (Z.ltb_ge _ _)) by lia. rewrite Z.gtb_ltb, (proj2 (Z.ltb_ge _ _)) by lia.
  cbn [orb]. rewrite (seek_name_ok cache_cache nm st held own L F ns nam n) by done.
  rewrite decide_False by done. cbn [mbind res_bind].
  rewrite Z.geb_leb, (proj2 (Z.leb_gt _ _)) by (unfold CACHE_CACHE_MAX; lia).
  rewrite aset_lt by lia. cbn [mbind res_bind]. rewrite Nat2Z.id.
  eexists. split; [done|]. split; [by apply add_cache_inv|]. split; [|split; [done|]].
  - intros x. apply live_caches. cbn [caches]. intros i xs Hx. apply lookup_lt_Some in Hx.
    by rewrite list_lookup_insert_ne by lia.
  - cbn [caches]. intros j m Hj. apply lookup_app_Some in Hj as [Hj|[Hj Hj']].
    + rewrite list_lookup_insert_ne by (apply lookup_lt_Some in Hj; lia). by apply Hnm.
    + apply list_lookup_singleton_Some in Hj' as [Hj' <-]. assert (j = length L) as -> by lia.
      rewrite list_lookup_insert_eq by lia. eexists. split; [done|]. by split.
Qed.

End Spec.

(** ** The initial caches *)

Lemma cleared_heads_lookup cc i :
  0 <= i < CACHE_CACHE_MAX ->
  cleared_heads cc !! slabs_head cc i = Some {| next := 0; prev := 0 |}.
Proof.
  intros Hi. apply elem_of_list_to_map_1.
  - rewrite <- list_fmap_compose. apply NoDup_fmap_2_strong; [|apply NoDup_seqZ].
    intros x y _ _. simpl. unfold slabs_head, sizeof_kmem_cache. lia.
  - apply list_elem_of_fmap. exists i. split; [done|]. apply elem_of_seqZ. lia.
Qed.

Lemma cleared_heads_null cc : 0 < cc -> cleared_heads cc !! 0 = None.
Proof.
  intros Hc. apply not_elem_of_list_to_map_1. rewrite <- list_fmap_compose.
  intros (i & Hi & Hin)%list_elem_of_fmap. apply elem_of_seqZ in Hin.
  simpl in Hi. unfold slabs_head, sizeof_kmem_cache, offsetof_slabs in Hi. lia.
Qed.

(** The cleared table, in pages the source keeps apart. *)
Lemma cleared_inv {P} `{PageSource P} cc p held own :
  0 < cc -> held !! cc = Some CACHE_CACHE_PAGE -> ps_ok p held own ->
  inv cc {| caches := replicate (Z.to_nat CACHE_CACHE_MAX) no_cache; slabs := ∅;
            lists := cleared_heads cc; source := p |} held own [] ∅.
Proof.
  intros Hc Hh Hp. split; cbn [caches slabs lists source]; try done.
  - rewrite length_replicate. split; [done | simpl; lia].
  - intros j [_ Hj]. split; [|apply cleared_heads_lookup; unfold CACHE_CACHE_MAX; lia].
    exists no_cache. split; [|done]. apply lookup_replicate_2. unfold CACHE_CACHE_MAX. lia.
  - by apply cleared_heads_null.
Qed.

(** The sizes of the default caches. *)
Definition default_size (l : nat) : Z := KMALLOC_SMALL_SIZE * 2 ^ Z.of_nat l.

(** The strings of [cache_names] lie at the addresses [names]. *)
Definition names_at (nm : bmem) (names : list Z) : Prop :=
  Forall2 (fun a s => a <> 0 /\ cstr nm a s) names cache_names.

Lemma create_default {P} `{PageSource P} cc nm (names : list Z) (st : slab_state P) held own l nam n :
  inv cc st held own (replicate l []) ∅ -> (l < 8)%nat ->
  names_ok nm (caches st) (take l cache_names) -> nam <> 0 -> cstr nm nam n ->
  cache_names !! l = Some n ->
  exists st', kmem_cache_create cc CACHE_CACHE_MAX nm nam (default_size l) X86_64_CACHE_ALIGN 0 st
      = Ret (Some (Z.of_nat l), st') /\
    inv cc st' held own (replicate (S l) []) ∅ /\
    caches st' = <[l := new_cache nam (default_size l) X86_64_CACHE_ALIGN 0]> (caches st) /\
    names_ok nm (caches st') (take (S l) cache_names).
Proof.
  intros Hi Hl Hnm Hnam Hn Hlk.
  assert (Hnew : n ∉ take l cache_names).
  { intros (j & Hj)%list_elem_of_lookup. pose proof (lookup_lt_Some _ _ _ Hj) as Hlt.
    rewrite length_take in Hlt. rewrite lookup_take_lt in Hj by lia.
    assert (Hnd : NoDup cache_names) by (apply (bool_decide_unpack _); vm_compute; done).
    assert (j = l) by (by eapply NoDup_lookup). lia. }
  assert (Hsz : BYTES_PER_LONG <= default_size l <= KMALLOC_MAX_SIZE /\
    word_align (default_size l) = default_size l).
  { do 8 (destruct l as [|l]; [vm_compute; split; [split; discriminate | done]|]). lia. }
  destruct Hsz as [Hsz Hal].
  destruct (kmem_cache_create_ok cc nm st held own (replicate l []) ∅ (take l cache_names) nam n
    (default_size l) 0) as (st' & E & Hi' & _ & Hcs & Hnm'); rewrite ?length_replicate in *;
    try done; [lia | by rewrite length_take_le by (simpl; lia) |].
  rewrite Hal in Hcs. exists st'. split; [done|]. split; [|split; [done|]].
  - replace (replicate (S l) []) with (replicate l ([] : list Z) ++ [[]]); [done|].
    change [[]] with (replicate 1 ([] : list Z)). rewrite <- replicate_add. f_equal. lia.
  - by erewrite take_S_r.
Qed.

(** The two pages of the table leave the source. *)
Lemma table_pages st :
  source_ok st ∅ ∅ ->
  ((free_count (mem_map st) <= 2 \/ (forall s, ~ free_run (mem_map st) 2 s)) /\
   (alloc_pages 0 CACHE_CACHE_PAGE st = Ret (None, st) \/ alloc_pages 0 CACHE_CACHE_PAGE st = Fault)) \/
  exists s p mm, alloc_pages 0 CACHE_CACHE_PAGE st = Ret (Some s, p) /\
    free_run (mem_map st) 2 s /\ 0 < page_to_virt s /\
    for_loop 2 0 (table_step s 2) (mem_map p) = Ret mm /\
    source_ok {| mem_map := mm; zones := zones p |} {[page_to_virt s := CACHE_CACHE_PAGE]} ∅.
Proof.
  intros (bl & rsv & Hr & _ & Hv & _).
  assert (Ho : 0 <= CACHE_CACHE_PAGE <= MAX_PAGE_ORDER)
    by (unfold CACHE_CACHE_PAGE, MAX_PAGE_ORDER; lia).
  destruct (alloc_pages_cases 0 CACHE_CACHE_PAGE st bl rsv Hr Ho)
    as [[-> Hwhy]|[(s & -> & Hs)|[(_ & Hno & _) ->]]]; [left; split; [exact Hwhy | by left] | |
      left; split; [by right | by right]]. right.
  destruct (alloc_rep 0 CACHE_CACHE_PAGE st bl rsv s Hr Ho Hs) as [Hr' _].
  change (2 ^ CACHE_CACHE_PAGE) with 2 in Hs. pose proof Hs as (Hs0 & Hsl & _).
  pose proof (rep_size st bl rsv Hr) as Hsize.
  set (p := PageAlloc.allocated 0 CACHE_CACHE_PAGE s st) in *.
  assert (Hlp : length (mem_map p) = length (mem_map st)) by apply alter_range_length.
  set (f := fun (_ : Z) q => set_flags (SetPageFlag PG_slab (pg_flags q)) q).
  exists s, p, (alter_range f s 2 (mem_map p)). split; [done|]. split; [done|]. split.
  { rewrite page_to_virt_eq by lia. unfold PAGE_OFFSET. lia. }
  split; [apply (alter_range_loop_down f s 2 (mem_map p)); lia|].
  apply (source_update f s CACHE_CACHE_PAGE p (<[s := CACHE_CACHE_PAGE]> bl) rsv); try done.
  - apply lookup_insert_eq.
  - intros a o [<- <-]%lookup_singleton_Some. split; [done|]. exists s. by rewrite lookup_insert_eq.
  - intros i q Hi Hq. unfold p, PageAlloc.allocated in Hq. cbn [mem_map] in Hq.
    rewrite alter_range_lookup in Hq. apply fmap_Some in Hq as (x & Hx & ->).
    rewrite <- (Hv i x) by done. destruct (decide _); [|done]. unfold take_page. by destruct (_ =? _).
Qed.

(** The entries of the table after [kmem_cache_init]. *)
Definition default_cache (nam : Z) (l : nat) : kmem_cache :=
  new_cache nam (default_size l) X86_64_CACHE_ALIGN 0.

Lemma create_defaults {P} `{PageSource P} cc nm (names : list Z) (p : P) held own
    (body : Z -> slab_state P * Z -> res (slab_state P * Z)) :
  (forall l st csize, body l (st, csize) =
     (nam ← aget names l;
      '(tmp, st) ← kmem_cache_create cc CACHE_CACHE_MAX nm nam csize X86_64_CACHE_ALIGN 0 st;
      match tmp with None => Halted | Some _ => Ret (st, csize * 2) end)) ->
  names_at nm names -> 0 < cc -> held !! cc = Some CACHE_CACHE_PAGE -> ps_ok p held own ->
  exists st, for_loop 8 0 body
    ({| caches := replicate (Z.to_nat CACHE_CACHE_MAX) no_cache; slabs := ∅;
        lists := cleared_heads cc; source := p |}, KMALLOC_SMALL_SIZE) = Ret (st, KMALLOC_SMALL_SIZE * 2 ^ 8) /\
    inv cc st held own (replicate 8 []) ∅ /\ names_ok nm (caches st) cache_names /\
    forall l nam, (l < 8)%nat -> names !! l = Some nam -> caches st !! l = Some (default_cache nam l).
Proof.
  intros Hbody Hnames Hc Hh Hp.
  destruct (for_loop_inv (fun i '(st, csize) => csize = default_size (Z.to_nat i) /\
      inv cc st held own (replicate (Z.to_nat i) []) ∅ /\
      names_ok nm (caches st) (take (Z.to_nat i) cache_names) /\
      forall l nam, (l < Z.to_nat i)%nat -> names !! l = Some nam ->
        caches st !! l = Some (default_cache nam l)) 8 0 body
    ({| caches := replicate (Z.to_nat CACHE_CACHE_MAX) no_cache; slabs := ∅;
        lists := cleared_heads cc; source := p |}, KMALLOC_SMALL_SIZE)) as ([st cs] & E & -> & Hi & Hn & Hcs).
  - split; [done|]. split; [by apply cleared_inv|]. split; [done|]. intros l nam Hl. simpl in Hl. lia.
  - intros j [st csize] Hj (-> & Hi & Hn & Hcs).
    destruct (lookup_lt_is_Some_2 cache_names (Z.to_nat j)) as [n Hln]; [simpl; lia|].
    destruct (Forall2_lookup_r _ _ _ _ _ Hnames Hln) as (nam & Hnam & Hnz & Hstr).
    destruct (create_default cc nm names st held own (Z.to_nat j) nam n)
      as (st' & Ec & Hi' & Hcs' & Hn'); [done | lia | done..|].
    exists (st', default_size (Z.to_nat j) * 2). rewrite Hbody.
    rewrite (proj2 (aget_Ret _ _ nam)) by (split; [lia | done]). cbn [mbind res_bind].
    rewrite Ec. cbn [mbind res_bind]. split; [done|].
    replace (Z.to_nat (j + 1)) with (S (Z.to_nat j)) by lia. split; [|split; [done|split; [done|]]].
    + unfold default_size. rewrite Nat2Z.inj_succ, Z.pow_succ_r by lia. ring.
    + intros l nam' Hl Hnam'. rewrite Hcs'. destruct (decide (l = Z.to_nat j)) as [->|].
      * rewrite list_lookup_insert_eq.
        { assert (nam' = nam) as -> by congruence. done. }
        destruct (iv_len _ _ _ _ _ _ Hi) as [-> _]. lia.
      * rewrite list_lookup_insert_ne by done. apply Hcs; [lia | done].
  - exists st. split; [done|]. split; [done|]. split; [done | apply Hcs].
Qed.

(** ** The operations and the objects in use *)

Section Theorems.
Context {P : Type} `{PageSource P}.
Context (cache_cache : Z).

Abbreviation state := (slab_state P).
Abbreviation kmalloc := (caos_kmalloc cache_cache CACHE_CACHE_MAX).

(** The caches from [i] on, tried in order. *)
Lemma retry_from (st : state) held own L F flags : inv cache_cache st held own L F ->
  forall d i f, (i + d)%nat = length L -> (2 * d < f)%nat ->
  (exists j c s k st' own' L' F', (i <= j)%nat /\
     (forall m, (i <= m < j)%nat -> exhausted st L F flags m) /\
     kmalloc_retry cache_cache f (Z.of_nat i) 0 flags st = Ret (obj_addr c s k, st') /\
     allocated cache_cache st L F held j c s k st' own' L' F') \/
  (exists j, (i <= j <= length L)%nat /\ (forall m, (i <= m < j)%nat -> exhausted st L F flags m) /\
     (j = length L \/ cache_stuck st L F j) /\
     kmalloc_retry cache_cache f (Z.of_nat i) 0 flags st = Fault).
Proof.
  intros Hi. induction d as [|d IH]; intros i f Hd Hf.
  - right. exists i. split; [lia|]. split; [lia|]. split; [left; lia|]. destruct f as [|f]; [lia|]. replace i with (length L) by lia.
    by eapply retry_end.
  - destruct f as [|[|f]]; [lia..|].
    destruct (lookup_lt_is_Some_2 L i) as [xs Hx]; [lia|].
    destruct (retry_cache cache_cache st held own L F i xs f flags Hi Hx)
      as [He|[(c & s & k & st' & own' & L' & F' & E & Ha)|[Hst E]]].
    + rewrite (retry_exhausted cache_cache st held own L F i f flags Hi He).
      destruct (IH (S i) f)
        as [(j & c & s & k & st' & own' & L' & F' & Hj & Hex & E & Ha)|(j & Hj & Hex & Hst & E)];
        [lia | lia | left | right].
      * exists j, c, s, k, st', own', L', F'. split_and!; [lia | | done | done].
        intros m Hm. destruct (decide (m = i)) as [->|]; [done | apply Hex; lia].
      * exists j. split_and!; [lia | lia | | done | done].
        intros m Hm. destruct (decide (m = i)) as [->|]; [done | apply Hex; lia].
    + left. exists i, c, s, k, st', own', L', F'. split_and!; [lia | lia | done | done].
    + right. exists i. split_and!; [lia | lia | lia | by right | done].
Qed.

Lemma kmalloc_spec (st : state) held own L F size flags :
  inv cache_cache st held own L F ->
  exists i, first_fit st L size i /\
   ((i = length L /\ kmalloc size flags st = Ret (0, st)) \/
    (exists j c s k st' own' L' F', (i <= j)%nat /\
       (forall m, (i <= m < j)%nat -> exhausted st L F flags m) /\
       kmalloc size flags st = Ret (obj_addr c s k, st') /\
       allocated cache_cache st L F held j c s k st' own' L' F') \/
    ((i < length L)%nat /\ exists j, (i <= j <= length L)%nat /\
       (forall m, (i <= m < j)%nat -> exhausted st L F flags m) /\
       (j = length L \/ cache_stuck st L F j) /\ kmalloc size flags st = Fault)).
Proof.
  intros Hi. destruct (seek_cache_ok cache_cache st held own L F size Hi) as (i & Hfit & E).
  exists i. split; [done|]. destruct (iv_len _ _ _ _ _ _ Hi) as [Hl HL].
  pose proof Hfit as (Hle & _ & _). unfold caos_kmalloc. rewrite E. cbn [mbind res_bind].
  destruct (lookup_lt_is_Some_2 (caches st) i) as [c Hc]; [lia|].
  rewrite (proj2 (aget_Ret (caches st) _ c)) by (split; [lia | by rewrite Nat2Z.id]).
  cbn [mbind res_bind]. rewrite (proj2 (Z.leb_gt CACHE_CACHE_MAX _)), orb_false_r
    by (unfold CACHE_CACHE_MAX; lia).
  destruct (decide (i = length L)) as [Hend|Hne].
  - left. split; [done|]. destruct (iv_end _ _ _ _ _ _ Hi i) as [(c' & Hc' & Hn) _]; [lia|].
    assert (c' = c) as -> by congruence. by rewrite Hn.
  - right. destruct (lookup_lt_is_Some_2 L i) as [xs Hx]; [lia|].
    destruct (iv_cache _ _ _ _ _ _ Hi i xs Hx) as (c' & Hc' & Hok).
    assert (c' = c) as -> by congruence. rewrite (proj2 (Z.eqb_neq _ _)) by apply Hok.
    destruct (retry_from st held own L F flags Hi (length L - i) i (kmalloc_fuel st)) as [Hr|Hr];
      [lia | unfold kmalloc_fuel; lia | by left | right]. split; [lia | done].
Qed.

(** Where an object lies: in the pages of its slab, behind the administration. *)
Lemma live_range (st : state) held own L F i s k c :
  inv cache_cache st held own L F -> live st L F (i, s, k) -> caches st !! i = Some c ->
  own !! s = Some (gfporder c) /\ cache_ok c /\ 0 <= k < num c /\
  s + colour_off c <= obj_addr c s k /\
  obj_addr c s k + objsize c <= s + 4096 * 2 ^ gfporder c.
Proof.
  intros Hi (xs & c' & fl & Hx & Hs & Hc' & HF & Hk & Hn) Hc.
  assert (c' = c) as -> by congruence.
  destruct (iv_slab _ _ _ _ _ _ Hi i xs s Hx Hs) as (c'' & _ & _ & Hc'' & _ & _ & _ & Ho).
  assert (c'' = c) as -> by congruence.
  destruct (iv_cache _ _ _ _ _ _ Hi i xs Hx) as (c'' & Hc''' & Hok).
  assert (c'' = c) as -> by congruence.
  pose proof (co_fit c Hok). pose proof (co_objsize c Hok). split_and!; try done; [lia | lia | |].
  - unfold obj_addr. nia.
  - unfold obj_addr. assert (k * objsize c + objsize c <= num c * objsize c) by nia. lia.
Qed.

(** Releasing one object of the set. *)
Lemma kfree_spec (st : state) held own L F i s k c :
  inv cache_cache st held own L F -> live st L F (i, s, k) -> caches st !! i = Some c ->
  exists st' F', caos_kfree (obj_addr c s k) st = Ret st' /\
    inv cache_cache st' held own L F' /\ caches st' = caches st /\
    (forall x, live st' L F' x <-> x <> (i, s, k) /\ live st L F x).
Proof.
  intros Hi (xs & c' & fl & Hx & Hs & Hc' & HF & Hk & Hn) Hc.
  assert (c' = c) as -> by congruence.
  destruct (kfree_ok cache_cache st held own L F i xs s c k fl) as (st' & E & Hi' & Hcs); [done..|].
  exists st', (<[s := k :: fl]> F). split_and!; [done | done | done |].
  intros [[j s'] k']. unfold live. rewrite Hcs. split.
  - intros (ys & d & gl & Hy & Hs' & Hd & HF' & Hk' & Hn').
    apply lookup_insert_Some in HF' as [[<- <-]|[Hne HF']].
    + assert (j = i) as -> by by apply (inv_slab_cache cache_cache st held own L F j i ys xs s).
      split; [set_solver|]. exists ys, d, fl. set_solver.
    + split; [congruence|]. by exists ys, d, gl.
  - intros [Hne (ys & d & gl & Hy & Hs' & Hd & HF' & Hk' & Hn')].
    destruct (decide (s' = s)) as [->|Hss].
    + exists ys, d, (k :: fl). rewrite lookup_insert_eq.
      assert (j = i) as -> by by apply (inv_slab_cache cache_cache st held own L F j i ys xs s).
      assert (gl = fl) as -> by congruence. do 4 (split; [done|]). split; [done|].
      intros [->|Hin]%elem_of_cons; [congruence | done].
    + exists ys, d, gl. by rewrite lookup_insert_ne.
Qed.

(** Empty caches have no object in use. *)
Lemma live_none (st : state) n F x : ~ live st (replicate n []) F x.
Proof.
  destruct x as [[i s] k]. intros (xs & c & fl & Hx & Hin & _).
  apply lookup_replicate in Hx as [-> _]. set_solver.
Qed.

(** ** Shrinking *)

(** Every object of a slab is free. *)
Definition all_free (st : state) (s : Z) : Prop :=
  exists sl, slabs st !! s = Some sl /\ inuse sl = 0.

Lemma all_free_live (st : state) held own L F i xs s c :
  inv cache_cache st held own L F -> L !! i = Some xs -> s ∈ xs -> caches st !! i = Some c ->
  all_free st s <-> forall k, ~ live st L F (i, s, k).
Proof.
  intros Hi Hx Hs Hc.
  destruct (iv_slab _ _ _ _ _ _ Hi i xs s Hx Hs) as (c' & fl & sl & Hc' & HF & Hsl & Hg & _).
  assert (c' = c) as -> by congruence.
  destruct (iv_cache _ _ _ _ _ _ Hi i xs Hx) as (c'' & Hc'' & Hok).
  assert (c'' = c) as -> by congruence. split.
  - intros (sl' & Hsl' & Hz) k (ys & d & gl & _ & _ & Hd & HF' & Hk & Hn).
    assert (sl' = sl) as -> by congruence. assert (d = c) as -> by congruence.
    assert (gl = fl) as -> by congruence.
    pose proof (slab_good_used _ _ _ _ _ _ Hok Hg Hk Hn). rewrite (sg_inuse _ _ _ _ _ Hg) in Hz. lia.
  - intros Hno. exists sl. split; [done|]. rewrite (sg_inuse _ _ _ _ _ Hg).
    assert (Hsub : seqZ 0 (num c) ⊆+ fl).
    { apply NoDup_submseteq; [apply NoDup_seqZ|]. intros k Hk%elem_of_seqZ.
      destruct (decide (k ∈ fl)) as [|Hn]; [done|]. exfalso. apply (Hno k).
      exists xs, c, fl. split_and!; try done; lia. }
    apply submseteq_length in Hsub. rewrite length_seqZ in Hsub.
    pose proof (slab_good_taken _ _ _ _ _ Hok Hg). lia.
Qed.

(** The traversal passes the slabs with objects in use. *)
Lemma shrink_walk (st : state) held own L F i xs l1 l2 :
  inv cache_cache st held own L F -> L !! i = Some xs -> xs = l1 ++ l2 ->
  (forall s, s ∈ l1 -> ~ all_free st s) ->
  walk (slabs_head cache_cache (Z.of_nat i)) (l1 ++ l2) (shrink_step (Z.of_nat i)) st
  = walk (slabs_head cache_cache (Z.of_nat i)) l2 (shrink_step (Z.of_nat i)) st.
Proof.
  intros Hi Hx. revert l2. induction l1 as [|s l1 IH] using rev_ind; intros l2 Hxs Hno; [done|].
  rewrite <- app_assoc. rewrite IH by (rewrite <- ?app_assoc in Hxs; set_solver). simpl.
  destruct (iv_slab _ _ _ _ _ _ Hi i xs s Hx) as (c & fl & sl & _ & _ & Hsl & _); [set_solver|].
  assert (E : shrink_step (Z.of_nat i) s st = Ret (st, false)); [|by rewrite E].
  unfold shrink_step, get_slab. rewrite Hsl. cbn [mbind res_bind].
  rewrite (proj2 (Z.eqb_neq _ _)); [done|]. intros Hz. apply (Hno s); [set_solver | by exists sl].
Qed.

(** What is left when one slab of cache [i] is gone. *)
Lemma remaining_slabs (st : state) held own L F i l1 s l2 :
  inv cache_cache st held own L F -> L !! i = Some (l1 ++ s :: l2) ->
  forall j ys s', <[i := l1 ++ l2]> L !! j = Some ys -> s' ∈ ys ->
    exists c fl sl, caches st !! j = Some c /\ F !! s' = Some fl /\ slabs st !! s' = Some sl /\
      slab_good (Z.of_nat j) c s' fl sl /\ delete s own !! s' = Some (gfporder c).
Proof.
  intros Hi Hx j ys s' Hy Hs'. pose proof (lookup_lt_Some _ _ _ Hx) as HiL.
  assert (Hnd : s ∉ l1 ++ l2).
  { destruct (iv_list _ _ _ _ _ _ Hi i _ Hx) as [Hnd _]. apply NoDup_cons in Hnd as [_ Hnd].
    rewrite <- Permutation_middle in Hnd. by apply NoDup_cons in Hnd as [? _]. }
  assert (Hold : forall zs, L !! j = Some zs -> s' ∈ zs -> s' <> s ->
    exists c fl sl, caches st !! j = Some c /\ F !! s' = Some fl /\ slabs st !! s' = Some sl /\
      slab_good (Z.of_nat j) c s' fl sl /\ delete s own !! s' = Some (gfporder c)).
  { intros zs Hzs Hsz Hne. rewrite lookup_delete_ne by done. by eapply (iv_slab _ _ _ _ _ _ Hi). }
  apply list_set_lookup in Hy as [[-> ->]|[Hne Hy]]; [|apply (Hold ys); try done |done].
  - apply (Hold (l1 ++ s :: l2)); [done | set_solver | set_solver].
  - intros ->. apply Hne. apply (inv_slab_cache cache_cache st held own L F j i ys (l1 ++ s :: l2) s);
      [done..|set_solver].
Qed.

Lemma shrink_destroy (st : state) held own L F i l1 s l2 c :
  inv cache_cache st held own L F -> L !! i = Some (l1 ++ s :: l2) -> caches st !! i = Some c ->
  all_free st s ->
  exists st', shrink_step (Z.of_nat i) s st = Ret (st', true) /\ own !! s = Some (gfporder c) /\
    inv cache_cache st' held (delete s own) (<[i := l1 ++ l2]> L) F /\ caches st' = caches st.
Proof.
  intros Hi Hx Hc (sl & Hsl & Hz). pose proof Hi as [Hl Hca Hd Hsla He H0 Hh Hp].
  set (xs := l1 ++ s :: l2) in *. assert (Hin : s ∈ xs) by (unfold xs; set_solver).
  destruct (Hsla i xs s Hx Hin) as (c' & fl & sl' & Hc' & HF & Hsl' & Hg & Ho).
  assert (c' = c) as -> by congruence. assert (sl' = sl) as -> by congruence.
  destruct (Hca i xs Hx) as (c'' & Hc'' & Hok). assert (c'' = c) as -> by congruence.
  destruct (inv_slab_range cache_cache st held own L F s c Hi Ho Hok) as [Hs0 Hend].
  pose proof (lookup_lt_Some _ _ _ Hx) as HiL.
  destruct (ps_put_ok _ _ _ _ _ Hp Ho) as (p' & Hput & Hp').
  unfold shrink_step, get_slab. rewrite Hsl. cbn [mbind res_bind]. rewrite Hz. cbn [Z.eqb].
  unfold slab_destroy, get_slab. rewrite (proj2 (aget_Ret (caches st) _ c)) by (split; [lia | by rewrite Nat2Z.id]).
  cbn [mbind res_bind]. rewrite Hsl. cbn [mbind res_bind].
  rewrite (sg_mem _ _ _ _ _ Hg), (sg_offset _ _ _ _ _ Hg), Z.add_simpl_r.
  pose proof (co_num c Hok). pose proof (co_off c Hok). pose proof (co_objsize c Hok).
  unfold sizeof_slab, sizeof_bufctl in *.
  rewrite wrap_small, Hput by nia. cbn [mbind res_bind lists with_source].
  destruct (list_del_dlist _ _ l1 s l2 (Hd i xs Hx)) as (h' & E & Hd' & _ & _ & Hf).
  rewrite E. cbn [mbind res_bind]. eexists. split; [done|]. split; [done|]. split; [|done].
  split; cbn [caches slabs lists source with_lists with_source]; rewrite ?length_insert; try done.
  - intros j ys Hy. apply list_set_lookup in Hy as [[-> ->]|[_ Hy]]; eauto.
  - intros j ys Hy. apply list_set_lookup in Hy as [[-> ->]|[Hne Hy]]; [done | | done].
    apply (inv_other_lists cache_cache st held own L F i j xs ys); [done..|]. intros x Hxi _. by apply Hf.
  - by apply (remaining_slabs st held own L F i l1 s l2).
  - intros j Hj. destruct (He j Hj) as [? He2]. split; [done|]. rewrite Hf; [done|].
    intros [Heq%head_inj|Hs]%elem_of_cons; [lia|].
    by eapply (inv_head_not_in cache_cache st held own L F j i xs); [done | lia | done|].
  - rewrite Hf; [done|]. intros Hs. destruct (dlist_is_Some _ _ _ _ (Hd i xs Hx) Hs). congruence.
Qed.

Lemma in_use_live (st : state) held own L F i xs s c :
  inv cache_cache st held own L F -> L !! i = Some xs -> s ∈ xs -> caches st !! i = Some c ->
  ~ all_free st s -> exists k, live st L F (i, s, k).
Proof.
  intros Hi Hx Hs Hc Hno.
  destruct (iv_slab _ _ _ _ _ _ Hi i xs s Hx Hs) as (c' & fl & sl & Hc' & HF & _).
  assert (c' = c) as -> by congruence.
  destruct (decide (Exists (fun k => k ∉ fl) (seqZ 0 (num c)))) as [He|He].
  - apply Exists_exists in He as (k & Hk%elem_of_seqZ & Hn). exists k, xs, c, fl.
    split_and!; try done; lia.
  - exfalso. apply Hno. apply (all_free_live st held own L F i xs s c); try done.
    intros k (ys & d & gl & _ & _ & Hd & HF' & Hk & Hn). apply He, Exists_exists. exists k.
    assert (gl = fl) as -> by congruence. assert (d = c) as -> by congruence.
    split; [apply elem_of_seqZ; lia | done].
Qed.

Lemma first_all_free (st : state) xs :
  (forall s, s ∈ xs -> ~ all_free st s) \/
  exists l1 s l2, xs = l1 ++ s :: l2 /\ (forall t, t ∈ l1 -> ~ all_free st t) /\ all_free st s.
Proof.
  induction xs as [|x xs [IH|(l1 & s & l2 & -> & H1 & H2)]]; [left; set_solver | |].
  - assert (Hd : all_free st x \/ ~ all_free st x).
    { unfold all_free. destruct (slabs st !! x) as [sl|]; [|right; naive_solver].
      destruct (decide (inuse sl = 0)); [left; eauto | right; naive_solver]. }
    destruct Hd as [Hd|Hd]; [right; exists [], x, xs; set_solver | left; set_solver].
  - assert (Hd : all_free st x \/ ~ all_free st x).
    { unfold all_free. destruct (slabs st !! x) as [sl|]; [|right; naive_solver].
      destruct (decide (inuse sl = 0)); [left; eauto | right; naive_solver]. }
    right. destruct Hd as [Hd|Hd].
    + exists [], x, (l1 ++ s :: l2). set_solver.
    + exists (x :: l1), s, l2. split_and!; [done | set_solver | done].
Qed.

(** Removing a slab without objects in use leaves the objects in use. *)
Lemma live_drop (st st' : state) held own L F i l1 s l2 c x :
  inv cache_cache st held own L F -> L !! i = Some (l1 ++ s :: l2) -> caches st !! i = Some c ->
  (forall k, ~ live st L F (i, s, k)) -> caches st' = caches st ->
  live st' (<[i := l1 ++ l2]> L) F x <-> live st L F x.
Proof.
  intros Hi Hx Hc Hno Hcs. pose proof (lookup_lt_Some _ _ _ Hx) as Hlt.
  destruct x as [[j t] k]. unfold live at 1. rewrite Hcs. split.
  - intros (ys & d & fl & Hy & Ht & ?). apply list_set_lookup in Hy as [[-> ->]|[_ Hy]]; [| |done].
    + exists (l1 ++ s :: l2), d, fl. set_solver.
    + by exists ys, d, fl.
  - intros Hl. pose proof Hl as (ys & d & fl & Hy & Ht & Hd & HF & Hk & Hn).
    destruct (decide (j = i)) as [->|Hne].
    + exists (l1 ++ l2), d, fl. rewrite list_lookup_insert_eq by done.
      assert (t <> s) by (intros ->; by apply (Hno k)). assert (ys = l1 ++ s :: l2) as -> by congruence.
      split_and!; try done; [set_solver | lia | lia].
    + exists ys, d, fl. by rewrite list_lookup_insert_ne.
Qed.

End Theorems.

(** ** A booted allocator *)

(** Creating caches leaves the source of pages alone. *)
Lemma kmem_cache_create_source {P} cc nm nam size align flags (st : slab_state P) r st' :
  kmem_cache_create cc CACHE_CACHE_MAX nm nam size align flags st = Ret (r, st') -> source st' = source st.
Proof.
  unfold kmem_cache_create. intros Hc. destruct (_ || _); [by injection Hc as _ <-|].
  inv_bind Hc. destruct x as [i|]; [|by injection Hc as _ <-].
  destruct (i >=? _); [by injection Hc as _ <-|]. inv_bind Hc. by injection Hc as _ <-.
Qed.

Lemma kmem_cache_init_source nm names st cc st' :
  kmem_cache_init nm names st = Ret (cc, st') ->
  exists s p mm, alloc_pages 0 CACHE_CACHE_PAGE st = Ret (Some s, p) /\ cc = page_to_virt s /\
    for_loop 2 0 (table_step s 2) (mem_map p) = Ret mm /\
    source st' = {| mem_map := mm; zones := zones p |}.
Proof.
  unfold kmem_cache_init. intros Hk. inv_bind Hk. destruct x as [[s|] p]; [|done].
  change (Z.shiftl 1 CACHE_CACHE_PAGE) with 2 in Hk. change (Z.to_nat 2) with 2%nat in Hk.
  inv_bind Hk. inv_bind Hk. destruct x0 as [st1 cs]. injection Hk as <- <-.
  exists s, p, x. split; [done|]. split; [done|]. split; [done|].
  apply (for_loop_ret (fun t => source t.1 = {| mem_map := x; zones := zones p |})) in E1; [done | |done].
  intros j [t c] [t' c'] Ht Hsrc. unfold create_step in Ht. inv_bind Ht. inv_bind Ht.
  destruct x1 as [tmp t1]. apply kmem_cache_create_source in E3. destruct tmp; [|done].
  injection Ht as <- _. cbn [fst] in *. by rewrite E3.
Qed.

Lemma kmem_cache_init_spec nm names st :
  source_ok st ∅ ∅ -> names_at nm names ->
  ((free_count (mem_map st) <= 2 \/ (forall s, ~ free_run (mem_map st) 2 s)) /\
   kmem_cache_init nm names st = Fault) \/
  exists s st', free_run (mem_map st) 2 s /\
    kmem_cache_init nm names st = Ret (page_to_virt s, st') /\
    inv (page_to_virt s) st' {[page_to_virt s := CACHE_CACHE_PAGE]} ∅ (replicate 8 []) ∅ /\
    names_ok nm (caches st') cache_names /\
    forall l nam, (l < 8)%nat -> names !! l = Some nam -> caches st' !! l = Some (default_cache nam l).
Proof.
  intros Hst Hnames. unfold kmem_cache_init.
  destruct (table_pages st Hst) as [[Hwhy [-> | ->]]|(s & p & mm & -> & Hs & Hpos & Hloop & Hsrc)];
    cbn [mbind res_bind]; [by left | by left | right].
  change (Z.shiftl 1 CACHE_CACHE_PAGE) with 2. change (Z.to_nat 2) with 2%nat. rewrite Hloop.
  cbn [mbind res_bind]. change (length cache_names) with 8%nat.
  destruct (create_defaults (page_to_virt s) nm names {| mem_map := mm; zones := zones p |}
    {[page_to_virt s := CACHE_CACHE_PAGE]} ∅ (create_step (page_to_virt s) nm names))
    as (st' & -> & Hi & Hn & Hcs); [done | done | done | apply lookup_singleton_eq | done |].
  exists s, st'. done.
Qed.

(** The sixteen pages of PageAlloc, and the names one after the other. *)
Lemma sample_source : source_ok sample_pages ∅ ∅.
Proof.
  exists ∅, sample_busy. split; [apply sample_pages_rep|]. split_and!; try done.
  intros i p Hi Hp. cbn [mem_map sample_pages] in Hp. rewrite list_lookup_fmap in Hp.
  apply fmap_Some in Hp as (j & Hj & ->). apply lookup_seqZ in Hj as [-> _].
  by rewrite Z.add_0_l, Z2Nat.id.
Qed.

Definition sample_names : list Z := (fun l => 4096 + 16 * l) <$> seqZ 0 8.

Definition sample_strings : bmem :=
  foldr (fun p m => write_bytes p.1 (p.2 ++ [0]) m) ∅ (zip sample_names cache_names).

Lemma sample_names_at : names_at sample_strings sample_names.
Proof.
  repeat (apply Forall2_cons_2; [split; [done|]; split; [by vm_compute | repeat constructor; lia]|]).
  apply Forall2_nil_2.
Qed.

(** The table of caches of the sample is on pages 1 and 2. *)
Definition sample_table : Z := page_to_virt 1.

Lemma sample_booted :
  exists st, kmem_cache_init sample_strings sample_names sample_pages = Ret (sample_table, st) /\
    inv sample_table st {[sample_table := CACHE_CACHE_PAGE]} ∅ (replicate 8 []) ∅ /\
    names_ok sample_strings (caches st) cache_names /\
    forall l nam, (l < 8)%nat -> sample_names !! l = Some nam -> caches st !! l = Some (default_cache nam l).
Proof.
  assert (Hv : match kmem_cache_init sample_strings sample_names sample_pages with
               | Ret (cc, _) => cc = sample_table | _ => False end) by (vm_compute; reflexivity).
  destruct (kmem_cache_init_spec sample_strings sample_names sample_pages sample_source sample_names_at)
    as [[_ E]|(s & st & _ & E & Hi & Hn & Hc)].
  - rewrite E in Hv. destruct Hv.
  - rewrite E in Hv. rewrite Hv in E, Hi. exists st. exact (conj E (conj Hi (conj Hn Hc))).
Qed.

(** After one object is taken from it. *)
Lemma sample_in_use :
  exists st own L F i s k c, inv sample_table st {[sample_table := CACHE_CACHE_PAGE]} own L F /\
    live st L F (i, s, k) /\ caches st !! i = Some c.
Proof.
  destruct sample_booted as (st & E0 & Hi & _ & _).
  assert (Hv : match kmem_cache_init sample_strings sample_names sample_pages with
               | Ret (cc, st) => match caos_kmalloc cc CACHE_CACHE_MAX 64 0 st with
                                 | Ret (o, _) => o <> 0 | _ => False end
               | _ => False end) by (vm_compute; discriminate).
  rewrite E0 in Hv.
  destruct (kmalloc_spec sample_table st _ _ _ _ 64 0 Hi)
    as (i & _ & [[_ E]|[(j & c & s & k & st' & own & L & F & _ & _ & E & Ha)|(_ & ? & _ & _ & _ & E)]]);
    rewrite E in Hv; [destruct (Hv eq_refl) | | destruct Hv].
  exists st', own, L, F, j, s, k, c. split; [apply Ha|]. split; [apply Ha; by left|].
  rewrite (al_caches _ _ _ _ _ _ _ _ _ _ _ _ _ Ha). apply Ha.
Qed.

(** ** Properties *)

Section Properties.
Context {P : Type} `{PageSource P}.
Context (cache_cache : Z).

Abbreviation state := (slab_state P).
Abbreviation kmalloc := (caos_kmalloc cache_cache CACHE_CACHE_MAX).

(** Requests never overlap. Two different objects in use have no byte in
    common, and an object lies in the pages of its slab behind the slab's
    structure and its [bufctl]. *)
Theorem live_objects_disjoint (st : state) held own L F i s k c i' s' k' c' :
  inv cache_cache st held own L F ->
  live st L F (i, s, k) -> live st L F (i', s', k') ->
  caches st !! i = Some c -> caches st !! i' = Some c' ->
  (s + sizeof_slab + sizeof_bufctl * num c <= obj_addr c s k /\
   obj_addr c s k + objsize c <= s + 4096 * 2 ^ gfporder c) /\
  ((i, s, k) <> (i', s', k') ->
   obj_addr c s k + objsize c <= obj_addr c' s' k' \/ obj_addr c' s' k' + objsize c' <= obj_addr c s k).
Proof.
  intros Hi Hl Hl' Hc Hc'.
  destruct (live_range cache_cache st held own L F i s k c Hi Hl Hc) as (Ho & Hok & Hk & Hlo & Hhi).
  destruct (live_range cache_cache st held own L F i' s' k' c' Hi Hl' Hc') as (Ho' & Hok' & Hk' & Hlo' & Hhi').
  pose proof (co_off c Hok). pose proof (co_off c' Hok').
  pose proof (co_objsize c Hok). pose proof (co_objsize c' Hok'). pose proof (co_num c Hok).
  pose proof (co_num c' Hok'). unfold sizeof_slab, sizeof_bufctl in *. split; [lia|]. intros Hne.
  destruct (decide (s = s')) as [<-|Hss].
  - destruct Hl as (xs & _ & _ & Hx & Hs & _). destruct Hl' as (ys & _ & _ & Hy & Hs' & _).
    assert (i' = i) as -> by by apply (inv_slab_cache cache_cache st held own L F i' i ys xs s).
    assert (c' = c) as -> by congruence. unfold obj_addr. assert (k <> k') by congruence. nia.
  - destruct (decide (obj_addr c s k + objsize c <= obj_addr c' s' k')) as [?|Hn1]; [by left|].
    destruct (decide (obj_addr c' s' k' + objsize c' <= obj_addr c s k)) as [?|Hn2]; [by right|].
    exfalso. apply Hss. set (x := Z.max (obj_addr c s k) (obj_addr c' s' k')).
    apply (ps_own_disjoint _ _ _ s s' (gfporder c) (gfporder c') x (iv_source _ _ _ _ _ _ Hi) Ho Ho'); lia.
Qed.

(** C8: [caos_kmalloc] is right on every path. It looks for the first cache
    whose objects are large enough; without one it returns NULL and changes
    nothing. Otherwise it returns the address of an object of that cache, or of
    a later one when the caches before it have neither a free object nor pages
    for a slab; the object was not in use and is the only one added to those in
    use. It faults only when no cache from the first on has a free object or
    gets pages, because the search runs past the last cache into an unused
    entry, whose list head holds no pointers (the check of [retry_count] never
    ends it), or when the source of pages itself does not survive the request
    of the cache reached. *)
Theorem kmalloc_fresh (st : state) held own L F size flags :
  inv cache_cache st held own L F ->
  exists i, first_fit st L size i /\
   ((i = length L /\ kmalloc size flags st = Ret (0, st)) \/
    (exists j c s k st' own' L' F', (i <= j)%nat /\
       (forall m, (i <= m < j)%nat -> exhausted st L F flags m) /\
       kmalloc size flags st = Ret (obj_addr c s k, st') /\
       caches st !! j = Some c /\ (j = i -> size <= objsize c) /\
       inv cache_cache st' held own' L' F' /\ caches st' = caches st /\
       ~ live st L F (j, s, k) /\
       (forall x, live st' L' F' x <-> x = (j, s, k) \/ live st L F x)) \/
    ((i < length L)%nat /\ exists j, (i <= j <= length L)%nat /\
       (forall m, (i <= m < j)%nat -> exhausted st L F flags m) /\
       (j = length L \/ cache_stuck st L F j) /\ kmalloc size flags st = Fault)).
Proof.
  intros Hi. destruct (kmalloc_spec cache_cache st held own L F size flags Hi)
    as (i & Hfit & [Hc|[(j & c & s & k & st' & own' & L' & F' & Hj & Hex & E & [A1 A2 A3 A4 A5])|Hc]]);
    exists i; (split; [done|]); [by left | right; left | by right; right].
  exists j, c, s, k, st', own', L', F'. split_and!; try done. intros ->.
  destruct (A5 (i, s, k)) as [_ Hl]. destruct Hl as (xs & d & _ & Hx & _); [by left|].
  pose proof Hfit as (Hle & _ & Hsz). apply Hsz; [|done].
  destruct (decide (i = length L)) as [->|]; [|lia]. exfalso.
  destruct (iv_cache _ _ _ _ _ _ A1 _ xs Hx) as (d' & Hd & Hok).
  destruct (iv_len _ _ _ _ _ _ Hi) as [_ HL].
  destruct (iv_end _ _ _ _ _ _ Hi (length L)) as [(e & He & Hn) _]; [lia|].
  rewrite A2 in Hd. assert (d' = e) as -> by congruence. by apply (co_name e Hok).
Qed.

(** C13: [caos_kfree] of the address of an object in use releases that object
    and no other: its slab, its cache and its index are found again from the
    address alone. *)
Theorem kfree_releases (st : state) held own L F i s k c :
  inv cache_cache st held own L F -> live st L F (i, s, k) -> caches st !! i = Some c ->
  exists st' F', caos_kfree (obj_addr c s k) st = Ret st' /\
    inv cache_cache st' held own L F' /\ caches st' = caches st /\
    (forall x, live st' L F' x <-> x <> (i, s, k) /\ live st L F x).
Proof. apply kfree_spec. Qed.

(** [kmem_cache_shrink] and the objects in use. *)
Lemma shrink_spec (st : state) held own L F i xs c flags :
  inv cache_cache st held own L F -> L !! i = Some xs -> caches st !! i = Some c ->
  exists st', kmem_cache_shrink cache_cache (Z.of_nat i) flags st = Ret st' /\ caches st' = caches st /\
  ((forall s, s ∈ xs -> exists k, live st L F (i, s, k)) /\ st' = st \/
   exists l1 s l2, xs = l1 ++ s :: l2 /\
     (forall t, t ∈ l1 -> exists k, live st L F (i, t, k)) /\ (forall k, ~ live st L F (i, s, k)) /\
     own !! s = Some (gfporder c) /\ inv cache_cache st' held (delete s own) (<[i := l1 ++ l2]> L) F /\
     (forall x, live st' (<[i := l1 ++ l2]> L) F x <-> live st L F x)).
Proof.
  intros Hi Hx Hc. unfold kmem_cache_shrink.
  erewrite list_for_each_walk by apply (iv_list _ _ _ _ _ _ Hi _ _ Hx).
  destruct (first_all_free st xs) as [Hno|(l1 & s & l2 & -> & Hno & Hs)].
  - pose proof (shrink_walk cache_cache st held own L F i xs xs [] Hi Hx) as E. rewrite app_nil_r in E.
    rewrite E by done. exists st. split; [done|]. split; [done|]. left. split; [|done].
    intros s Hs. eapply in_use_live; [done | done | done | done | by apply Hno].
  - rewrite (shrink_walk cache_cache st held own L F i (l1 ++ s :: l2) l1 (s :: l2)) by done.
    destruct (shrink_destroy cache_cache st held own L F i l1 s l2 c Hi Hx Hc Hs)
      as (st' & E & Ho & Hi' & Hcs). cbn [walk]. rewrite E. cbn [mbind res_bind]. exists st'.
    split; [done|]. split; [done|]. right. exists l1, s, l2.
    assert (Hfree : forall k, ~ live st L F (i, s, k))
      by (eapply all_free_live; [done | done | set_solver | done | done]).
    split_and!; try done.
    + intros t Ht. eapply in_use_live; [done | done | set_solver | done | by apply Hno].
    + intros x. by eapply live_drop.
Qed.

(** C31: [kmem_cache_shrink] gives back the pages of the first slab of the cache
    without objects in use and takes it off the list; it does nothing when
    every slab has one. No object in use is lost. *)
Theorem shrink_reclaims (st : state) held own L F i xs c flags :
  inv cache_cache st held own L F -> L !! i = Some xs -> caches st !! i = Some c ->
  exists st', kmem_cache_shrink cache_cache (Z.of_nat i) flags st = Ret st' /\
  ((forall s, s ∈ xs -> exists k, live st L F (i, s, k)) /\ st' = st \/
   exists l1 s l2, xs = l1 ++ s :: l2 /\
     (forall t, t ∈ l1 -> exists k, live st L F (i, t, k)) /\ (forall k, ~ live st L F (i, s, k)) /\
     own !! s = Some (gfporder c) /\ inv cache_cache st' held (delete s own) (<[i := l1 ++ l2]> L) F /\
     (forall x, live st' (<[i := l1 ++ l2]> L) F x <-> live st L F x)).
Proof.
  intros Hi Hx Hc. destruct (shrink_spec st held own L F i xs c flags Hi Hx Hc) as (st' & E & _ & H').
  by exists st'.
Qed.

(** [kmem_cache_create] of a size between 8 and 2048 bytes takes the next
    entry of the table, when its name is new and an entry is left besides the
    last: an empty cache of objects at least as large, rounded to words, whose
    slabs fit their pages and whose first object is aligned to 16 bytes; the
    objects in use stay. Other sizes, NULL and a name in the table are refused. *)
Theorem cache_creation (nm : bmem) (st : state) held own L F ns nam n size flags :
  inv cache_cache st held own L F -> (length L < 127)%nat ->
  length ns = length L -> names_ok nm (caches st) ns -> cstr nm nam n ->
  let create := kmem_cache_create cache_cache CACHE_CACHE_MAX nm nam size X86_64_CACHE_ALIGN flags st in
  (nam = 0 \/ size < 8 \/ 2048 < size \/ n ∈ ns -> create = Ret (None, st)) /\
  (nam <> 0 -> 8 <= size <= 2048 -> n ∉ ns ->
   exists c st', create = Ret (Some (Z.of_nat (length L)), st') /\
    inv cache_cache st' held own (L ++ [[]]) F /\
    (forall x, live st' (L ++ [[]]) F x <-> live st L F x) /\
    caches st' !! length L = Some c /\ cache_ok c /\ name c = nam /\ flag c = flags /\
    size <= objsize c /\ objsize c mod 8 = 0 /\ colour_off c mod 16 = 0).
Proof.
  intros Hi Hlt Hns Hnm Hn create. split.
  - intros Hbad. unfold create, kmem_cache_create. destruct ((nam =? 0) || _ || _) eqn:E; [done|].
    rewrite !orb_false_iff, Z.eqb_neq, Z.ltb_ge, Z.gtb_ltb, Z.ltb_ge in E.
    unfold BYTES_PER_LONG, KMALLOC_MAX_SIZE in E. destruct Hbad as [?|[?|[?|Hin]]]; [lia..|].
    rewrite (seek_name_ok cache_cache nm st held own L F ns nam n) by done.
    by rewrite decide_True by done.
  - intros Hnam Hs Hnew.
    destruct (new_cache_ok nam size flags Hnam Hs) as (Hok & Hle & Hw & Ha).
    destruct (kmem_cache_create_ok cache_cache nm st held own L F ns nam n size flags)
      as (st' & E & Hi' & Hl & Hcs & _); try done.
    eexists _, st'. split; [done|]. split; [done|]. split; [done|]. rewrite Hcs.
    destruct (iv_len _ _ _ _ _ _ Hi). rewrite list_lookup_insert_eq by lia. split; [done|].
    split; [exact Hok|]. do 2 (split; [done|]). split; [exact Hle|]. split; [exact Hw | exact Ha].
Qed.

End Properties.

Lemma live_objects_disjoint_witness :
  exists st own L F i s k c, inv sample_table st {[sample_table := CACHE_CACHE_PAGE]} own L F /\
    s + sizeof_slab + sizeof_bufctl * num c <= obj_addr c s k /\
    obj_addr c s k + objsize c <= s + 4096 * 2 ^ gfporder c /\ live st L F (i, s, k).
Proof.
  destruct sample_in_use as (st & own & L & F & i & s & k & c & Hi & Hl & Hc).
  destruct (live_objects_disjoint sample_table st _ own L F i s k c i s k c Hi Hl Hl Hc Hc) as [[H1 H2] _].
  exists st, own, L, F, i, s, k, c. exact (conj Hi (conj H1 (conj H2 Hl))).
Defined.

Lemma kmalloc_fresh_witness :
  exists (st : slab_state kpages) j c s k st' own' L' F',
    caos_kmalloc sample_table CACHE_CACHE_MAX 64 0 st = Ret (obj_addr c s k, st') /\
    inv sample_table st' {[sample_table := CACHE_CACHE_PAGE]} own' L' F' /\
    forall x, live st' L' F' x <-> x = (j, s, k).
Proof.
  destruct sample_booted as (st & E0 & Hi & _ & _).
  assert (Hv : match kmem_cache_init sample_strings sample_names sample_pages with
               | Ret (cc, st) => match caos_kmalloc cc CACHE_CACHE_MAX 64 0 st with
                                 | Ret (o, _) => o <> 0 | _ => False end
               | _ => False end) by (vm_compute; discriminate).
  rewrite E0 in Hv.
  destruct (kmalloc_fresh sample_table st _ _ _ _ 64 0 Hi)
    as (i & _ & [[_ E]|[(j & c & s & k & st' & own & L & F & _ & _ & E & _ & _ & Hi' & _ & _ & Hl)|(_ & ? & _ & _ & _ & E)]]);
    rewrite E in Hv; [destruct (Hv eq_refl) | | destruct Hv].
  exists st, j, c, s, k, st', own, L, F. split; [exact E|]. split; [exact Hi'|].
  intros x. destruct (Hl x) as [H1 H2]. split; [|intros Hx; apply H2; left; exact Hx].
  intros Hx. destruct (H1 Hx) as [Hx'|Hlive]; [exact Hx'|]. destruct (live_none st 8 ∅ x Hlive).
Defined.

Lemma kfree_releases_witness :
  exists st own L F i s k c st' F', inv sample_table st {[sample_table := CACHE_CACHE_PAGE]} own L F /\
    caos_kfree (obj_addr c s k) st = Ret st' /\
    (forall x, live st' L F' x <-> x <> (i, s, k) /\ live st L F x).
Proof.
  destruct sample_in_use as (st & own & L & F & i & s & k & c & Hi & Hl & Hc).
  destruct (kfree_releases sample_table st _ own L F i s k c Hi Hl Hc) as (st' & F' & E & _ & _ & Hx).
  exists st, own, L, F, i, s, k, c, st', F'. exact (conj Hi (conj E Hx)).
Defined.

(** After [kmem_cache_init] the allocator is ready. When the page allocator
    has two pages together, the table of caches is on them, holds the eight
    caches of 16 to 2048 bytes with numbers that make a slab fit its pages, and
    the invariant holds with no object in use; it fails only when at most two
    pages are free or no two free pages lie together, and then faults, since
    the table would be at the address of the descriptor NULL. *)
Theorem slab_ready_after_init nm names st :
  source_ok st ∅ ∅ -> names_at nm names ->
  ((free_count (mem_map st) <= 2 \/ (forall s, ~ free_run (mem_map st) 2 s)) /\
   kmem_cache_init nm names st = Fault) \/
  exists s st', free_run (mem_map st) 2 s /\
    kmem_cache_init nm names st = Ret (page_to_virt s, st') /\
    inv (page_to_virt s) st' {[page_to_virt s := CACHE_CACHE_PAGE]} ∅ (replicate 8 []) ∅ /\
    (forall l, (l < 8)%nat -> exists c, caches st' !! l = Some c /\ cache_ok c /\
       objsize c = 16 * 2 ^ Z.of_nat l) /\
    (forall x, ~ live st' (replicate 8 []) ∅ x).
Proof.
  intros Hst Hnames. destruct (kmem_cache_init_spec nm names st Hst Hnames)
    as [?|(s & st' & Hs & E & Hi & _ & Hc)]; [by left | right].
  exists s, st'. split; [done|]. split; [done|]. split; [done|]. split.
  - intros l Hl. destruct (lookup_lt_is_Some_2 names l) as [nam Hnam].
    { by rewrite (Forall2_length _ _ _ Hnames). }
    exists (default_cache nam l). split; [by apply Hc|]. split; [|done].
    destruct (iv_cache _ _ _ _ _ _ Hi l []) as (c & Hcl & Hok); [by apply lookup_replicate_2|].
    rewrite (Hc l nam Hl Hnam) in Hcl. by injection Hcl as <-.
  - intros x. apply live_none.
Qed.

Lemma slab_ready_after_init_witness :
  ((free_count (mem_map sample_pages) <= 2 \/ (forall s, ~ free_run (mem_map sample_pages) 2 s)) /\
   kmem_cache_init sample_strings sample_names sample_pages = Fault) \/
  exists s st', free_run (mem_map sample_pages) 2 s /\
    kmem_cache_init sample_strings sample_names sample_pages = Ret (page_to_virt s, st') /\
    inv (page_to_virt s) st' {[page_to_virt s := CACHE_CACHE_PAGE]} ∅ (replicate 8 []) ∅ /\
    (forall l, (l < 8)%nat -> exists c, caches st' !! l = Some c /\ cache_ok c /\
       objsize c = 16 * 2 ^ Z.of_nat l) /\
    (forall x, ~ live st' (replicate 8 []) ∅ x).
Proof. exact (slab_ready_after_init _ _ _ sample_source sample_names_at). Defined.

Lemma shrink_reclaims_witness :
  exists st, inv sample_table st {[sample_table := CACHE_CACHE_PAGE]} ∅ (replicate 8 []) ∅ /\
    exists st', kmem_cache_shrink sample_table 3 0 st = Ret st'.
Proof.
  destruct sample_booted as (st & _ & Hi & _ & Hc). exists st. split; [exact Hi|].
  destruct (shrink_reclaims sample_table st _ _ _ _ 3 [] (default_cache 4144 3) 0 Hi)
    as (st' & E & _); [reflexivity | apply Hc; [lia | reflexivity] |]. exists st'. exact E.
Defined.

Lemma cache_creation_witness :
  exists (st : slab_state kpages) c (st' : slab_state kpages), kmem_cache_create sample_table CACHE_CACHE_MAX (write_bytes 64 [98; 117; 102; 0] sample_strings)
      64 72 X86_64_CACHE_ALIGN 0 st = Ret (Some 8, st') /\
    caches st' !! 8%nat = Some c /\ cache_ok c /\ 72 <= objsize c.
Proof.
  destruct sample_booted as (st & _ & Hi & _ & Hc).
  destruct (cache_creation sample_table (write_bytes 64 [98; 117; 102; 0] sample_strings)
    st _ _ _ _ cache_names 64 [98; 117; 102] 72 0 Hi)
    as (_ & Hnew); [simpl; lia | done | | |].
  - intros j n Hj. exists (default_cache (4096 + 16 * Z.of_nat j) j).
    pose proof (lookup_lt_Some _ _ _ Hj) as Hlt. simpl in Hlt.
    split; [apply Hc; [done|]|].
    + unfold sample_names. rewrite list_lookup_fmap, lookup_seqZ_lt by lia. done.
    + split; [simpl; lia|]. cbn [name default_cache new_cache]. revert n Hj.
      do 8 (destruct j as [|j]; [intros n [= <-]; split; [by vm_compute | repeat constructor; lia]|]).
      lia.
  - split; [by vm_compute | repeat constructor; lia].
  - destruct Hnew as (c & st' & E & _ & _ & H1 & H2 & _ & _ & H3 & _); [lia | lia | |].
    + apply (bool_decide_unpack _). vm_compute. reflexivity.
    + exists st, c, st'. exact (conj E (conj H1 (conj H2 H3))).
Defined.

(** The padding of an alignment above 16 is not taken from the number of
    objects: 8-byte objects aligned to 64 bytes run past the pages of a slab. *)
Lemma alignment_overruns :
  let c := new_cache 1 (word_align 8) (word_align 64) 0 in
  4096 * 2 ^ gfporder c < colour_off c + num c * objsize c.
Proof. vm_compute. reflexivity. Qed.

(** The check of [inuse] lets the same object be released twice while another
    object of the slab is in use; it is then handed out twice. *)
Lemma double_release :
  match kmem_cache_init sample_strings sample_names sample_pages with
  | Ret (cc, st) =>
      '(a, st) ← caos_kmalloc cc CACHE_CACHE_MAX 64 0 st;
      '(_, st) ← caos_kmalloc cc CACHE_CACHE_MAX 64 0 st;
      st ← caos_kfree a st;
      st ← caos_kfree a st;
      '(x, st) ← caos_kmalloc cc CACHE_CACHE_MAX 64 0 st;
      '(y, st) ← caos_kmalloc cc CACHE_CACHE_MAX 64 0 st;
      Ret (bool_decide (x = y))
  | _ => Fault
  end = Ret true.
Proof. vm_compute. reflexivity. Qed.
