(* ===== verification/Heap.v ===== *)
(** * The kernel heap: sequences of requests to the slab allocator (slab.c)

    A client of the allocator asks for memory, gives it back, and lets caches
    shrink, in any order. Its view is a heap: the list of the blocks it holds,
    latest first. Running the requests on the allocator refines the heap, until
    memory runs out. *)

From S2P Require Import Prelude CString CList Memory PageAlloc SlabPages Slab SlabSpec.

(** ** Requests *)

(** [Release n] gives back the [n]-th block the client holds, if there is one. *)
Inductive request :=
  | Alloc (size flags : Z)
  | Release (n : nat)
  | Shrink (i : nat) (flags : Z).

(** The address and the size of a block. *)
Definition block : Type := Z * Z.

Definition blocks_apart (x y : block) : Prop := x.1 + x.2 <= y.1 \/ y.1 + y.2 <= x.1.

(** The heap: a request for at most [big] bytes gets a block that is at least as
    large and apart from all others; a larger one gets none. *)
Inductive heap_step (big : Z) : list block -> request -> list block -> Prop :=
  | heap_alloc bl size flags a n : 0 < a -> a + n <= 2 ^ 64 -> size <= n <= big ->
      Forall (blocks_apart (a, n)) bl -> heap_step big bl (Alloc size flags) ((a, n) :: bl)
  | heap_null bl size flags : big < size -> heap_step big bl (Alloc size flags) bl
  | heap_release bl n : heap_step big bl (Release n) (delete n bl)
  | heap_shrink bl i flags : heap_step big bl (Shrink i flags) bl.

Inductive heap_steps (big : Z) : list block -> list request -> list block -> Prop :=
  | heap_done bl : heap_steps big bl [] bl
  | heap_more bl bl1 bl2 r rs : heap_step big bl r bl1 -> heap_steps big bl1 rs bl2 ->
      heap_steps big bl (r :: rs) bl2.

Section Heap.
Context {P : Type} `{PageSource P} (cache_cache : Z).

Abbreviation state := (slab_state P).
Abbreviation kmalloc := (caos_kmalloc cache_cache CACHE_CACHE_MAX).

(** The client keeps the addresses it was given. *)
Definition ask (r : request) (held : list Z) (st : state) : res (list Z * state) :=
  match r with
  | Alloc size flags =>
      '(a, st) ← kmalloc size flags st; Ret (if a =? 0 then held else a :: held, st)
  | Release n =>
      match held !! n with
      | Some a => st ← caos_kfree a st; Ret (delete n held, st)
      | None => Ret (held, st)
      end
  | Shrink i flags => st ← kmem_cache_shrink cache_cache (Z.of_nat i) flags st; Ret (held, st)
  end.

Fixpoint ask_all (rs : list request) (held : list Z) (st : state) : res (list Z * state) :=
  match rs with
  | [] => Ret (held, st)
  | r :: rs => '(held, st) ← ask r held st; ask_all rs held st
  end.

(** ** The heap in the allocator *)

(** The caches in use are in the order of their sizes; the largest is [big]. *)
Record ascending (big : Z) (cs : list kmem_cache) : Prop := {
  as_le : forall i j c d, (i <= j)%nat -> cs !! i = Some c -> cs !! j = Some d ->
    name c <> 0 -> name d <> 0 -> objsize c <= objsize d;
  as_max : forall i c, cs !! i = Some c -> name c <> 0 -> objsize c <= big;
  as_big : exists i c, cs !! i = Some c /\ name c <> 0 /\ objsize c = big
}.

Definition is_block (cs : list kmem_cache) (b : block) (x : nat * Z * Z) : Prop :=
  let '(i, s, k) := x in exists c, cs !! i = Some c /\ b = (obj_addr c s k, objsize c).

(** The blocks are the objects in use, each once; there are [n] caches. *)
Definition heap_ok (n : nat) (big : Z) (st : state) (bl : list block) : Prop :=
  exists held own L F xs, inv cache_cache st held own L F /\ length L = n /\ ascending big (caches st) /\
    NoDup xs /\ (forall x, live st L F x <-> x ∈ xs) /\ Forall2 (is_block (caches st)) bl xs.

Definition request_ok (n : nat) (r : request) : Prop :=
  match r with Shrink i _ => (i < n)%nat | _ => True end.

(** From the first cache that is large enough on, no cache has a free object or
    gets a slab: the caches before [j] are refused their pages, and [j] is past
    the last one or makes the source of pages fail. *)
Definition out_of_memory (st : state) (size flags : Z) : Prop :=
  exists held own L F i j, inv cache_cache st held own L F /\ first_fit st L size i /\
    (i < length L)%nat /\ (i <= j <= length L)%nat /\
    (forall m, (i <= m < j)%nat -> exhausted st L F flags m) /\ (j = length L \/ cache_stuck st L F j).

(** ** Lemmas *)

(** The caches that count are those with a name. *)
Lemma inv_named (st : state) held own L F i c :
  inv cache_cache st held own L F -> caches st !! i = Some c -> name c <> 0 <-> (i < length L)%nat.
Proof.
  intros Hi Hc. destruct (iv_len _ _ _ _ _ _ Hi) as [Hl _]. pose proof (lookup_lt_Some _ _ _ Hc). split.
  - intros Hn. destruct (decide (i < length L)%nat) as [|Hge]; [done|]. exfalso.
    destruct (iv_end _ _ _ _ _ _ Hi i) as [(d & Hd & Hz) _]; [lia|]. congruence.
  - intros Hlt. destruct (lookup_lt_is_Some_2 L i Hlt) as [xs Hx].
    destruct (iv_cache _ _ _ _ _ _ Hi i xs Hx) as (d & Hd & Hok).
    assert (d = c) as -> by congruence. apply Hok.
Qed.

Lemma inv_length (st st' : state) held own L F held' own' L' F' :
  inv cache_cache st held own L F -> inv cache_cache st' held' own' L' F' -> caches st' = caches st ->
  length L' = length L.
Proof.
  intros Hi Hi' Hc.
  destruct (iv_len _ _ _ _ _ _ Hi) as [Hl HL]. destruct (iv_len _ _ _ _ _ _ Hi') as [_ HL'].
  assert (Hx : forall i, (i < 128)%nat -> (i < length L)%nat <-> (i < length L')%nat).
  { intros i Hi0. destruct (lookup_lt_is_Some_2 (caches st) i) as [c Hci]; [lia|].
    rewrite <- (inv_named st held own L F i c Hi Hci).
    apply (inv_named st' held' own' L' F' i c Hi'). by rewrite Hc. }
  pose proof (Hx (length L) HL). pose proof (Hx (length L') HL'). lia.
Qed.

Lemma live_block (st : state) held own L F i s k c :
  inv cache_cache st held own L F -> live st L F (i, s, k) -> caches st !! i = Some c ->
  0 < obj_addr c s k /\ obj_addr c s k + objsize c <= 2 ^ 64.
Proof.
  intros Hi Hl Hc. destruct (live_range cache_cache st held own L F i s k c Hi Hl Hc) as (Ho & Hok & Hk & Hlo & _).
  destruct (inv_slab_range cache_cache st held own L F s c Hi Ho Hok) as [Hs Hend].
  pose proof (co_off c Hok). pose proof (co_objsize c Hok). unfold obj_addr in *.
  assert (k * objsize c + objsize c <= num c * objsize c) by nia. unfold sizeof_slab, sizeof_bufctl in *. lia.
Qed.

(** A new object is apart from the blocks the client holds. *)
Lemma new_block_apart (st : state) held own L F bl xs j s k c :
  inv cache_cache st held own L F -> caches st !! j = Some c -> live st L F (j, s, k) ->
  (j, s, k) ∉ xs -> (forall x, x ∈ xs -> live st L F x) -> Forall2 (is_block (caches st)) bl xs ->
  Forall (blocks_apart (obj_addr c s k, objsize c)) bl.
Proof.
  intros Hi Hc Hl Hn Hall Hbl. apply Forall_forall. intros b Hb.
  apply list_elem_of_lookup in Hb as [m Hm].
  destruct (Forall2_lookup_l _ _ _ _ _ Hbl Hm) as ([[i s'] k'] & Hx & d & Hd & ->).
  apply list_elem_of_lookup_2 in Hx.
  destruct (live_objects_disjoint cache_cache st held own L F j s k c i s' k' d Hi Hl (Hall _ Hx) Hc Hd)
    as [_ Hap]. apply Hap. intros E. apply Hn. by rewrite E.
Qed.

Lemma alloc_served n big (st : state) bl size flags :
  heap_ok n big st bl ->
  (exists st' bl', ask (Alloc size flags) (bl.*1) st = Ret (bl'.*1, st') /\
     heap_step big bl (Alloc size flags) bl' /\ heap_ok n big st' bl') \/
  (ask (Alloc size flags) (bl.*1) st = Fault /\ out_of_memory st size flags).
Proof.
  intros (held & own & L & F & xs & Hi & HL & Has & Hnd & Hlive & Hbl). cbn [ask].
  destruct (kmalloc_spec cache_cache st held own L F size flags Hi)
    as (i & Hfit & [[Hend E]|[(j & c & s & k & st' & own' & L' & F' & Hj & Hex & E & [A1 A2 A3 A4 A5])|
                    (Hlt & j & Hj & Hex & Hst & E)]]); rewrite E; cbn [mbind res_bind].
  - left. exists st, bl. split; [done|]. split; [|by exists held, own, L, F, xs].
    constructor. destruct Has as [_ _ (b & c & Hc & Hn & <-)].
    apply (inv_named st held own L F b c Hi Hc) in Hn. destruct Hfit as (_ & Hsm & _).
    apply (Hsm b c); [lia | done].
  - left. assert (Hlj : live st' L' F' (j, s, k)) by (apply A5; by left).
    assert (Hc' : caches st' !! j = Some c) by by rewrite A2.
    destruct (live_block st' held own' L' F' j s k c A1 Hlj Hc') as [H0 H64].
    rewrite (proj2 (Z.eqb_neq _ 0)) by lia. exists st', ((obj_addr c s k, objsize c) :: bl).
    split; [done|].
    assert (Hnx : (j, s, k) ∉ xs) by (intros Hx; by apply A4, Hlive).
    assert (Hjl : (j < length L)%nat).
    { destruct Hlj as (ys & _ & _ & Hy & _). apply lookup_lt_Some in Hy.
      by rewrite <- (inv_length st st' held own L F held own' L' F' Hi A1 A2). }
    split.
    + constructor; [done | done | |].
      * destruct (lookup_lt_is_Some_2 (caches st) i) as [d Hd].
        { destruct (iv_len _ _ _ _ _ _ Hi). lia. }
        destruct Hfit as (_ & _ & Hsz). assert (Hil : (i < length L)%nat) by lia.
        pose proof (proj2 (inv_named st held own L F j c Hi A3) Hjl).
        pose proof (proj2 (inv_named st held own L F i d Hi Hd) Hil).
        pose proof (as_le _ _ Has i j d c Hj Hd A3). pose proof (as_max _ _ Has j c A3).
        pose proof (Hsz d Hil Hd). lia.
      * apply (new_block_apart st' held own' L' F' bl xs j); [done..| | by rewrite A2].
        intros x Hx. apply A5. right. by apply Hlive.
    + exists held, own', L', F', ((j, s, k) :: xs). split; [done|].
      split; [by rewrite (inv_length st st' held own L F held own' L' F' Hi A1 A2)|].
      rewrite A2. split; [done|]. split; [by constructor|]. split.
      * intros x. rewrite A5, Hlive, elem_of_cons. done.
      * constructor; [by exists c | done].
  - right. split; [done|]. by exists held, own, L, F, i, j.
Qed.

Lemma release_served n big (st : state) bl m :
  heap_ok n big st bl ->
  exists st', ask (Release m) (bl.*1) st = Ret ((delete m bl).*1, st') /\ heap_ok n big st' (delete m bl).
Proof.
  intros (held & own & L & F & xs & Hi & HL & Has & Hnd & Hlive & Hbl). cbn [ask].
  destruct (bl.*1 !! m) as [a|] eqn:Ha; rewrite list_lookup_fmap in Ha.
  - apply fmap_Some in Ha as (b & Hb & ->).
    destruct (Forall2_lookup_l _ _ _ _ _ Hbl Hb) as ([[i s] k] & Hx & c & Hc & ->). cbn [fst].
    assert (Hl : live st L F (i, s, k)) by (apply Hlive; by eapply list_elem_of_lookup_2).
    destruct (kfree_spec cache_cache st held own L F i s k c Hi Hl Hc) as (st' & F' & E & Hi' & Hcs & Hl').
    rewrite E. cbn [mbind res_bind]. exists st'. split; [by rewrite list_fmap_delete|].
    exists held, own, L, F', (delete m xs). split; [done|]. split; [done|]. rewrite Hcs. split; [done|].
    pose proof (delete_Permutation xs m _ Hx) as Hp. pose proof (Forall2_delete _ _ _ m Hbl) as Hd.
    set (ys := delete m xs) in *. clearbody ys. rewrite Hp in Hnd. apply NoDup_cons in Hnd as [Hnx Hnd].
    split; [done|]. split; [|done]. intros x. rewrite Hl', Hlive, Hp, elem_of_cons. naive_solver.
  - exists st. assert (Hd : delete m bl = bl).
    { apply fmap_None, lookup_ge_None in Ha. rewrite delete_take_drop, take_ge, drop_ge by (exact Ha || exact (le_S _ _ Ha)).
      apply app_nil_r. }
    rewrite Hd. split; [done|]. by exists held, own, L, F, xs.
Qed.

Lemma shrink_served n big (st : state) bl i flags :
  heap_ok n big st bl -> (i < n)%nat ->
  exists st', ask (Shrink i flags) (bl.*1) st = Ret (bl.*1, st') /\ heap_ok n big st' bl.
Proof.
  intros (held & own & L & F & xs & Hi & HL & Has & Hnd & Hlive & Hbl) Hin. cbn [ask].
  destruct (lookup_lt_is_Some_2 L i) as [ss Hss]; [lia|].
  destruct (iv_cache _ _ _ _ _ _ Hi i ss Hss) as (c & Hc & _).
  destruct (shrink_spec cache_cache st held own L F i ss c flags Hi Hss Hc)
    as (st' & E & Hcs & [[_ ->]|(l1 & s & l2 & _ & _ & _ & _ & Hi' & Hl')]);
    rewrite E; cbn [mbind res_bind]; eexists; (split; [done|]).
  - by exists held, own, L, F, xs.
  - exists held, (delete s own), (<[i := l1 ++ l2]> L), F, xs. rewrite length_insert, Hcs.
    do 4 (split; [done|]). split; [|done]. intros x. by rewrite Hl', Hlive.
Qed.

(** Blocks never overlap. *)
Lemma heap_apart n big (st : state) bl : heap_ok n big st bl -> ForallOrdPairs blocks_apart bl.
Proof.
  intros (held & own & L & F & xs & Hi & _ & _ & Hnd & Hlive & Hbl).
  assert (Hall : forall x, x ∈ xs -> live st L F x) by (intros x; apply Hlive). clear Hlive.
  induction Hbl as [|b [[i s] k] bl xs (c & Hc & ->) Hbl IH]; [constructor|].
  apply NoDup_cons in Hnd as [Hn Hnd].
  assert (Hall' : forall x, x ∈ xs -> live st L F x) by (intros x Hx; apply Hall; by right).
  constructor; [|by apply IH]. apply Forall_forall, list.Forall_forall.
  eapply new_block_apart; [done | done | apply Hall; by left | done | done | done].
Qed.

(** After [kmem_cache_init] the heap is empty. *)
Lemma heap_booted nm names (st : state) held own :
  inv cache_cache st held own (replicate 8 []) ∅ -> names_at nm names ->
  (forall l nam, (l < 8)%nat -> names !! l = Some nam -> caches st !! l = Some (default_cache nam l)) ->
  heap_ok 8 2048 st [].
Proof.
  intros Hi Hn Hc. exists held, own, (replicate 8 []), ∅, []. split; [done|]. split; [done|].
  split; [|split; [constructor | split; [|constructor]]].
  2:{ intros x. split; [intros Hx; by apply live_none in Hx | by intros Hx%elem_of_nil]. }
  assert (Hd : forall i c, caches st !! i = Some c -> name c <> 0 ->
    (i < 8)%nat /\ objsize c = 16 * 2 ^ Z.of_nat i).
  { intros i c Hci Hnm. apply (inv_named st held own (replicate 8 []) ∅ i c Hi Hci) in Hnm as Hlt.
    rewrite length_replicate in Hlt. split; [done|].
    destruct (lookup_lt_is_Some_2 names i) as [nam Hnam]; [by rewrite (Forall2_length _ _ _ Hn)|].
    rewrite (Hc i nam Hlt Hnam) in Hci. injection Hci as <-. done. }
  split.
  - intros i j c d Hij Hci Hdj Hcn Hdn.
    destruct (Hd i c Hci Hcn) as [_ ->]. destruct (Hd j d Hdj Hdn) as [_ ->].
    apply Z.mul_le_mono_nonneg_l; [lia|]. apply Z.pow_le_mono_r; lia.
  - intros i c Hci Hcn. destruct (Hd i c Hci Hcn) as [Hlt ->]. change 2048 with (16 * 2 ^ 7).
    apply Z.mul_le_mono_nonneg_l; [lia|]. apply Z.pow_le_mono_r; lia.
  - destruct (lookup_lt_is_Some_2 names 7) as [nam Hnam]; [rewrite (Forall2_length _ _ _ Hn); cbn; lia|].
    exists 7%nat, (default_cache nam 7). split; [by apply Hc; [lia|]|]. split; [|done].
    destruct (iv_cache _ _ _ _ _ _ Hi 7%nat []) as (c & Hcc & Hok); [apply lookup_replicate_2; lia|].
    rewrite (Hc 7%nat nam) in Hcc by (done || lia). injection Hcc as <-. apply Hok.
Qed.

(** ** Properties *)

(** C5: the allocator refines a heap. Whatever requests a client makes, in any
    order, the blocks it holds are those of the heap: every request for at most
    [big] bytes, the size of the largest cache, gets a block of at least that
    size apart from all others, larger ones get NULL, releasing a block frees
    it and no other, shrinking a cache changes none, and the blocks never
    overlap. The exception: some request finds neither a free object nor pages,
    all requests before it having been answered, and the search leaves the table
    of caches. *)
Theorem requests_refine_heap n big rs (st : state) bl :
  heap_ok n big st bl -> Forall (request_ok n) rs ->
  (exists st' bl', ask_all rs (bl.*1) st = Ret (bl'.*1, st') /\ heap_steps big bl rs bl' /\
     heap_ok n big st' bl' /\ ForallOrdPairs blocks_apart bl') \/
  (exists rs1 size flags rs2 st1 bl1, rs = rs1 ++ Alloc size flags :: rs2 /\
     ask_all rs1 (bl.*1) st = Ret (bl1.*1, st1) /\ heap_steps big bl rs1 bl1 /\ heap_ok n big st1 bl1 /\
     out_of_memory st1 size flags /\ ask_all rs (bl.*1) st = Fault).
Proof.
  intros Hok Hrs. revert st bl Hok. induction Hrs as [|r rs Hr _ IH]; intros st bl Hok.
  { left. exists st, bl. split; [done|]. split; [constructor|]. split; [done | by eapply heap_apart]. }
  assert (Hstep : (exists st1 bl1, ask r (bl.*1) st = Ret (bl1.*1, st1) /\ heap_step big bl r bl1 /\
      heap_ok n big st1 bl1) \/
    (exists size flags, r = Alloc size flags /\ ask r (bl.*1) st = Fault /\ out_of_memory st size flags)).
  { destruct r as [size flags|m|i flags].
    - destruct (alloc_served n big st bl size flags Hok) as [?|[? ?]]; [by left | right; by exists size, flags].
    - left. destruct (release_served n big st bl m Hok) as (st1 & ? & ?).
      exists st1, (delete m bl). split; [done|]. by split; [constructor|].
    - left. destruct (shrink_served n big st bl i flags Hok Hr) as (st1 & ? & ?).
      exists st1, bl. split; [done|]. by split; [constructor|]. }
  destruct Hstep as [(st1 & bl1 & E & Hs & Hok1)|(size & flags & -> & E & Hout)].
  2:{ right. exists [], size, flags, rs, st, bl. cbn [ask_all app]. rewrite E.
      split_and!; [done | done | constructor | done | done | done]. }
  destruct (IH st1 bl1 Hok1)
    as [(st2 & bl2 & E2 & Hs2 & Hok2 & Hap)|(rs1 & size & flags & rs2 & st2 & bl2 & -> & E2 & Hs2 & Hok2 & Hout & Ef)].
  - left. exists st2, bl2. cbn [ask_all]. rewrite E. cbn [mbind res_bind].
    split; [done|]. split; [by econstructor | done].
  - right. exists (r :: rs1), size, flags, rs2, st2, bl2. cbn [ask_all app]. rewrite E. cbn [mbind res_bind].
    split_and!; [done | done | by econstructor | done | done | done].
Qed.

End Heap.

(** Two blocks, one of which is released, a request that is too large, a cache
    that shrinks, and another block. *)
Definition sample_requests : list request :=
  [Alloc 64 0; Alloc 100 0; Release 1; Alloc 4096 0; Shrink 2 0; Alloc 33 0].

Lemma requests_refine_heap_witness :
  exists st st' bl', heap_ok sample_table 8 2048 st [] /\
    ask_all sample_table sample_requests [] st = Ret (bl'.*1, st') /\
    heap_steps 2048 [] sample_requests bl' /\ ForallOrdPairs blocks_apart bl'.
Proof.
  destruct sample_booted as (st & E0 & Hi & _ & Hc).
  assert (Hok : heap_ok sample_table 8 2048 st [])
    by (exact (heap_booted sample_table _ _ st _ _ Hi sample_names_at Hc)).
  assert (Hv : match kmem_cache_init sample_strings sample_names sample_pages with
               | Ret (cc, st) => match ask_all cc sample_requests [] st with Ret _ => True | _ => False end
               | _ => False end) by (vm_compute; exact I).
  rewrite E0 in Hv.
  destruct (requests_refine_heap sample_table 8 2048 sample_requests st [] Hok)
    as [(st' & bl' & E & Hs & _ & Hap)|(? & ? & ? & ? & ? & ? & _ & _ & _ & _ & _ & E)].
  - repeat (apply Forall_cons_2; [cbn; lia || exact I|]). apply Forall_nil_2.
  - exists st, st', bl'. exact (conj Hok (conj E (conj Hs Hap))).
  - cbn [fmap list_fmap] in E. rewrite E in Hv. destruct Hv.
Defined.
