(* ===== verification/MpSpec.v ===== *)
(** * The configuration table of the multiprocessor specification (mp_spec.c)

    [mp_spec_init] looks for the floating pointer structure in the memory of
    the BIOS and reads the table it points to, entry by entry, into the
    kernel's tables of processors, buses, I/O APICs and interrupt sources.
    The memory is byte memory at linear addresses; the kernel's tables are the
    state. Messages are in Messages. *)

From S2P Require Import Prelude BitOps CString BootMem.

(** ** Constants *)

Definition NR_CPUS : Z := 2.
Definition MAX_IO_APICS : Z := 2.
Definition MAX_MP_BUSSES : Z := 256.
Definition MAX_IRQ_SOURCES : Z := MAX_MP_BUSSES * 4.
Definition SMP_MAGIC_IDENT : Z := 0x5F504D5F.
Definition CAOS_TRUE : Z := 1.
Definition CAOS_FALSE : Z := 0.

Definition MP_PROCESSOR : Z := 0.
Definition MP_BUS : Z := 1.
Definition MP_IOAPIC : Z := 2.
Definition MP_INTSRC : Z := 3.
Definition MP_LINTSRC : Z := 4.

Definition CPU_ENABLED : Z := 1.
Definition CPU_BOOTPROCESSOR : Z := 2.
Definition MPC_APIC_USABLE : Z := 0x01.

Definition sizeof_mp_config_table : Z := 44.
Definition sizeof_mpc_config_processor : Z := 20.
Definition sizeof_mpc_config_bus : Z := 8.
Definition sizeof_mpc_config_ioapic : Z := 8.
Definition sizeof_mpc_config_intsrc : Z := 8.
Definition sizeof_mpc_config_lintsrc : Z := 8.

(** ** Data *)

(** [struct mpc_config_ioapic] and [struct mpc_config_intsrc] as the kernel
    keeps them. *)
Record mpc_config_ioapic := {
  io_apicid : Z;
  io_apicver : Z;
  io_flags : Z;
  io_apicaddr : Z
}.

Record mpc_config_intsrc := {
  is_irqtype : Z;
  is_irqflag : Z;
  is_srcbus : Z;
  is_srcbusirq : Z;
  is_dstapic : Z;
  is_dstirq : Z
}.

(** The global variables, in groups. *)
Record cpu_tables := {
  disabled_cpus : Z;
  boot_cpu_id : Z;
  num_processors : Z;
  cpu_present_map : Z;
  bios_cpu_apicid : list Z;
  x86_cpu_to_apicid : list Z
}.

Record bus_tables := {
  mp_current_pci_id : Z;
  mp_bus_not_pci : gmap Z Z;
  mp_bus_id_to_pci_bus : list Z
}.

Record apic_tables := {
  nr_ioapics : Z;
  mp_ioapics : list mpc_config_ioapic
}.

Record irq_tables := {
  mp_irq_entries : Z;
  mp_irqs : list mpc_config_intsrc
}.

Record mp_state := {
  smp_found_config : Z;
  mp_lapic_addr : Z;
  mpf_found : Z;
  cpus : cpu_tables;
  buses : bus_tables;
  apics : apic_tables;
  irqs : irq_tables
}.

Definition with_cpus (c : cpu_tables) (st : mp_state) : mp_state :=
  {| smp_found_config := smp_found_config st; mp_lapic_addr := mp_lapic_addr st;
     mpf_found := mpf_found st; cpus := c; buses := buses st; apics := apics st;
     irqs := irqs st |}.
Definition with_buses (b : bus_tables) (st : mp_state) : mp_state :=
  {| smp_found_config := smp_found_config st; mp_lapic_addr := mp_lapic_addr st;
     mpf_found := mpf_found st; cpus := cpus st; buses := b; apics := apics st;
     irqs := irqs st |}.
Definition with_apics (a : apic_tables) (st : mp_state) : mp_state :=
  {| smp_found_config := smp_found_config st; mp_lapic_addr := mp_lapic_addr st;
     mpf_found := mpf_found st; cpus := cpus st; buses := buses st; apics := a;
     irqs := irqs st |}.
Definition with_irqs (i : irq_tables) (st : mp_state) : mp_state :=
  {| smp_found_config := smp_found_config st; mp_lapic_addr := mp_lapic_addr st;
     mpf_found := mpf_found st; cpus := cpus st; buses := buses st; apics := apics st;
     irqs := i |}.
Definition with_lapic (a : Z) (st : mp_state) : mp_state :=
  {| smp_found_config := smp_found_config st; mp_lapic_addr := a;
     mpf_found := mpf_found st; cpus := cpus st; buses := buses st; apics := apics st;
     irqs := irqs st |}.
Definition with_mpf (a : Z) (st : mp_state) : mp_state :=
  {| smp_found_config := 1; mp_lapic_addr := mp_lapic_addr st;
     mpf_found := a; cpus := cpus st; buses := buses st; apics := apics st;
     irqs := irqs st |}.

(** ** Access to the BIOS's memory *)

(** A little-endian number. *)
Fixpoint le (bs : list Z) : Z :=
  match bs with
  | [] => 0
  | b :: bs' => b + 256 * le bs'
  end.

Definition load_le (n : nat) (mem : bmem) (a : Z) : res Z :=
  bs ← load_bytes n mem a; Ret (le bs).

(** ** The floating pointer structure *)

(** [while (length > 0)]: [basep] is a pointer to 32-bit words. *)
Fixpoint scan_loop (fuel : nat) (mem : bmem) (basep length : Z) : res (option Z) :=
  match fuel with
  | O => NoFuel
  | S fuel' =>
      if length >? 0 then
        w ← load_le 4 mem basep;
        found ←
          (if w =? SMP_MAGIC_IDENT then
             mpf_length ← load8 mem (basep + 8);
             if mpf_length =? 1 then
               mpf_specification ← load8 mem (basep + 9);
               Ret ((mpf_specification =? 1) || (mpf_specification =? 4))
             else Ret false
           else Ret false);
        if (found : bool) then Ret (Some basep)
        else scan_loop fuel' mem (basep + 4 * 4) (u64 (length - 16))
      else Ret None
  end.

Definition smp_scan_config (base length : Z) (mem : bmem) (st : mp_state) : res (Z * mp_state) :=
  r ← scan_loop (S (Z.to_nat length)) mem (__va base) length;
  match r with
  | Some mpf => Ret (CAOS_TRUE, with_mpf mpf st)
  | None => Ret (CAOS_FALSE, st)
  end.

(** ** The entries *)

Definition first_cpu (map : Z) : Z := ffz map.

Definition cpu_set (cpu_id map : Z) : Z := word_at (set_bit cpu_id {[0 := map]}) 0.

(** [m] is the address of the entry. *)
Definition MP_processor_info (mem : bmem) (m : Z) (c : cpu_tables) : res cpu_tables :=
  flag ← load8 mem (m + 3);
  if Z.land flag CPU_ENABLED =? 0 then
    Ret {| disabled_cpus := u64 (disabled_cpus c + 1); boot_cpu_id := boot_cpu_id c;
           num_processors := num_processors c; cpu_present_map := cpu_present_map c;
           bios_cpu_apicid := bios_cpu_apicid c; x86_cpu_to_apicid := x86_cpu_to_apicid c |}
  else
    apicid ← load8 mem (m + 1);
    let boot := negb (Z.land flag CPU_BOOTPROCESSOR =? 0) in
    let boot_id := if boot then apicid else boot_cpu_id c in
    if num_processors c >=? NR_CPUS then
      Ret {| disabled_cpus := disabled_cpus c; boot_cpu_id := boot_id;
             num_processors := num_processors c; cpu_present_map := cpu_present_map c;
             bios_cpu_apicid := bios_cpu_apicid c; x86_cpu_to_apicid := x86_cpu_to_apicid c |}
    else
      let cpu := first_cpu (cpu_present_map c) in
      let cpu := if boot then 0 else cpu in
      b ← aset (bios_cpu_apicid c) cpu apicid;
      x ← aset (x86_cpu_to_apicid c) cpu apicid;
      Ret {| disabled_cpus := disabled_cpus c; boot_cpu_id := boot_id;
             num_processors := num_processors c + 1;
             cpu_present_map := cpu_set cpu (cpu_present_map c);
             bios_cpu_apicid := b; x86_cpu_to_apicid := x |}.

Definition MP_ioapic_info (mem : bmem) (m : Z) (t : apic_tables) : res apic_tables :=
  flags ← load8 mem (m + 3);
  if Z.land flags MPC_APIC_USABLE =? 0 then Ret t
  else
    addr ← load_le 4 mem (m + 4);
    if (nr_ioapics t >=? MAX_IO_APICS) || (addr =? 0) then Ret t
    else
      id ← load8 mem (m + 1);
      ver ← load8 mem (m + 2);
      l ← aset (mp_ioapics t) (nr_ioapics t)
            {| io_apicid := id; io_apicver := ver; io_flags := flags; io_apicaddr := addr |};
      Ret {| nr_ioapics := nr_ioapics t + 1; mp_ioapics := l |}.

Definition MP_intsrc_info (mem : bmem) (m : Z) (t : irq_tables) : res irq_tables :=
  irqtype ← load8 mem (m + 1);
  irqflag ← load_le 2 mem (m + 2);
  srcbus ← load8 mem (m + 4);
  srcbusirq ← load8 mem (m + 5);
  dstapic ← load8 mem (m + 6);
  dstirq ← load8 mem (m + 7);
  l ← aset (mp_irqs t) (mp_irq_entries t)
        {| is_irqtype := irqtype; is_irqflag := irqflag; is_srcbus := srcbus;
           is_srcbusirq := srcbusirq; is_dstapic := dstapic; is_dstirq := dstirq |};
  if mp_irq_entries t + 1 >=? MAX_IRQ_SOURCES then Halted
  else Ret {| mp_irq_entries := mp_irq_entries t + 1; mp_irqs := l |}.

Definition MP_lintsrc_info (mem : bmem) (m : Z) (st : mp_state) : res mp_state := Ret st.

Section Config.
(** The local array [str] of [MP_bus_info], on the stack, and the string
    literals "ISA", "PCI" and "PCMP". *)
Context (str isa pci pcmp : Z).

(** The array is gone when the function returns. *)
Definition MP_bus_info (mem : bmem) (m : Z) (t : bus_tables) : res bus_tables :=
  '(_, mem1) ← caos_memcpy mem str (m + 2) 6;
  mem1 ← store8 (str + 3) 0 mem1;
  busid ← load8 mem1 (m + 1);
  r ← caos_strcmp mem1 str isa;
  if r =? 0 then
    Ret {| mp_current_pci_id := mp_current_pci_id t;
           mp_bus_not_pci := set_bit busid (mp_bus_not_pci t);
           mp_bus_id_to_pci_bus := mp_bus_id_to_pci_bus t |}
  else
    r ← caos_strcmp mem1 str pci;
    if r =? 0 then
      l ← aset (mp_bus_id_to_pci_bus t) busid (mp_current_pci_id t);
      Ret {| mp_current_pci_id := u64 (mp_current_pci_id t + 1);
             mp_bus_not_pci := clear_bit busid (mp_bus_not_pci t);
             mp_bus_id_to_pci_bus := l |}
    else
      _ ← store8 (str + 6) 0 mem1;
      Ret t.

(** One iteration of the [switch]: the state and the size of the entry, 0 for a
    type without a case. *)
Definition read_entry (mem : bmem) (mpt : Z) (st : mp_state) : res (mp_state * Z) :=
  type ← load8 mem mpt;
  if type =? MP_PROCESSOR then
    c ← MP_processor_info mem mpt (cpus st);
    Ret (with_cpus c st, sizeof_mpc_config_processor)
  else if type =? MP_BUS then
    b ← MP_bus_info mem mpt (buses st);
    Ret (with_buses b st, sizeof_mpc_config_bus)
  else if type =? MP_IOAPIC then
    a ← MP_ioapic_info mem mpt (apics st);
    Ret (with_apics a st, sizeof_mpc_config_ioapic)
  else if type =? MP_INTSRC then
    i ← MP_intsrc_info mem mpt (irqs st);
    Ret (with_irqs i st, sizeof_mpc_config_intsrc)
  else if type =? MP_LINTSRC then
    st ← MP_lintsrc_info mem mpt st;
    Ret (st, sizeof_mpc_config_lintsrc)
  else Ret (st, 0).

Fixpoint read_entries (fuel : nat) (mem : bmem) (mpt count length : Z) (st : mp_state)
    : res mp_state :=
  match fuel with
  | O => NoFuel
  | S fuel' =>
      if count <? length then
        '(st, n) ← read_entry mem mpt st;
        read_entries fuel' mem (mpt + n) (count + n) length st
      else Ret st
  end.

(** Every entry that is read takes at least one byte of the [mpc_length]. *)
Definition smp_read_mpc (mem : bmem) (mpc : Z) (st : mp_state) : res (Z * mp_state) :=
  let count := sizeof_mp_config_table in
  r ← caos_memcmp mem mpc pcmp 4;
  if negb (r =? 0) then Ret (CAOS_FALSE, st)
  else
    spec ← load8 mem (mpc + 6);
    if negb (s8 spec =? 0x01) && negb (s8 spec =? 0x04) then Ret (CAOS_FALSE, st)
    else
      lapic ← load_le 4 mem (mpc + 36);
      if lapic =? 0 then Ret (CAOS_FALSE, st)
      else
        length ← load_le 2 mem (mpc + 4);
        st ← read_entries (S (Z.to_nat length)) mem (mpc + count) count length (with_lapic lapic st);
        Ret (CAOS_TRUE, st).

(** [a || b || c]: a later area is scanned only when the earlier ones failed. *)
Definition scan_areas (mem : bmem) (st : mp_state) : res (Z * mp_state) :=
  '(r, st) ← smp_scan_config 0x0 0x400 mem st;
  if negb (r =? 0) then Ret (r, st)
  else
    '(r, st) ← smp_scan_config (639 * 0x400) 0x400 mem st;
    if negb (r =? 0) then Ret (r, st)
    else smp_scan_config 0xf0000 0x10000 mem st.

(** The tables before the configuration is read. The arrays of processors and
    buses are not reset. *)
Definition reset_tables (st : mp_state) : mp_state :=
  {| smp_found_config := smp_found_config st; mp_lapic_addr := mp_lapic_addr st;
     mpf_found := mpf_found st;
     cpus := {| disabled_cpus := 0; boot_cpu_id := 0; num_processors := 0; cpu_present_map := 0;
                bios_cpu_apicid := bios_cpu_apicid (cpus st);
                x86_cpu_to_apicid := x86_cpu_to_apicid (cpus st) |};
     buses := {| mp_current_pci_id := 0; mp_bus_not_pci := mp_bus_not_pci (buses st);
                 mp_bus_id_to_pci_bus := mp_bus_id_to_pci_bus (buses st) |};
     apics := {| nr_ioapics := 0;
                 mp_ioapics := replicate (Z.to_nat MAX_IO_APICS)
                   {| io_apicid := 0; io_apicver := 0; io_flags := 0; io_apicaddr := 0 |} |};
     irqs := {| mp_irq_entries := 0;
                mp_irqs := replicate (Z.to_nat MAX_IRQ_SOURCES)
                  {| is_irqtype := 0; is_irqflag := 0; is_srcbus := 0; is_srcbusirq := 0;
                     is_dstapic := 0; is_dstirq := 0 |} |} |}.

Definition mp_spec_init (mem : bmem) (st : mp_state) : res mp_state :=
  '(found, st) ← scan_areas mem st;
  if found =? 0 then Halted
  else
    let mpf := mpf_found st in
    let st := reset_tables st in
    feature1 ← load8 mem (mpf + 11);
    physptr ← load_le 4 mem (mpf + 4);
    if (feature1 =? 0) && negb (physptr =? 0) then
      '(r, st) ← smp_read_mpc mem (__va physptr) st;
      if r =? 0 then Halted else Ret st
    else Halted.

End Config.

(** ** Tables as sequences of entries *)

(** [n] bytes of a number, the least significant first. *)
Fixpoint bytes_le (n : nat) (v : Z) : list Z :=
  match n with
  | O => []
  | S n' => v mod 256 :: bytes_le n' (v / 256)
  end.

(** The entries; [rest] are the bytes the kernel does not read. *)
Inductive mp_entry :=
| Processor (apicid cpuflag apicver : Z) (rest : list Z)
| Bus (busid : Z) (bustype : list Z)
| IoApic (d : mpc_config_ioapic)
| IntSrc (d : mpc_config_intsrc)
| LintSrc (rest : list Z).

Definition encode_entry (e : mp_entry) : list Z :=
  match e with
  | Processor apicid cpuflag apicver rest => MP_PROCESSOR :: apicid :: apicver :: cpuflag :: rest
  | Bus busid bustype => MP_BUS :: busid :: bustype
  | IoApic d => MP_IOAPIC :: io_apicid d :: io_apicver d :: io_flags d :: bytes_le 4 (io_apicaddr d)
  | IntSrc d => MP_INTSRC :: is_irqtype d :: bytes_le 2 (is_irqflag d) ++
                  [is_srcbus d; is_srcbusirq d; is_dstapic d; is_dstirq d]
  | LintSrc rest => MP_LINTSRC :: rest
  end.

Definition is_byte (b : Z) : Prop := 0 <= b < 256.

Definition entry_ok (e : mp_entry) : Prop :=
  Forall is_byte (encode_entry e) /\
  match e with
  | Processor _ _ _ rest => length rest = 16%nat
  | Bus _ bustype => length bustype = 6%nat
  | IoApic d => 0 <= io_apicaddr d < 2 ^ 32
  | IntSrc d => 0 <= is_irqflag d < 2 ^ 16
  | LintSrc rest => length rest = 7%nat
  end.

(** The characters before the first NUL. *)
Fixpoint until_nul (l : list Z) : list Z :=
  match l with
  | [] => []
  | c :: l' => if c =? 0 then [] else c :: until_nul l'
  end.

Definition ISA : list Z := [73; 83; 65].
Definition PCI : list Z := [80; 67; 73].
Definition PCMP : list Z := [80; 67; 77; 80].

(** What an entry does to the tables. *)
Definition add_processor (apicid flag : Z) (c : cpu_tables) : res cpu_tables :=
  let boot := Z.testbit flag 1 in
  let boot_id := if boot then apicid else boot_cpu_id c in
  if Z.testbit flag 0 then
    if num_processors c <? NR_CPUS then
      let cpu := if boot then 0 else ffz (cpu_present_map c) in
      b ← aset (bios_cpu_apicid c) cpu apicid;
      x ← aset (x86_cpu_to_apicid c) cpu apicid;
      Ret {| disabled_cpus := disabled_cpus c; boot_cpu_id := boot_id;
             num_processors := num_processors c + 1;
             cpu_present_map := cpu_set cpu (cpu_present_map c);
             bios_cpu_apicid := b; x86_cpu_to_apicid := x |}
    else
      Ret {| disabled_cpus := disabled_cpus c; boot_cpu_id := boot_id;
             num_processors := num_processors c; cpu_present_map := cpu_present_map c;
             bios_cpu_apicid := bios_cpu_apicid c; x86_cpu_to_apicid := x86_cpu_to_apicid c |}
  else
    Ret {| disabled_cpus := u64 (disabled_cpus c + 1); boot_cpu_id := boot_cpu_id c;
           num_processors := num_processors c; cpu_present_map := cpu_present_map c;
           bios_cpu_apicid := bios_cpu_apicid c; x86_cpu_to_apicid := x86_cpu_to_apicid c |}.

Definition add_bus (busid : Z) (bustype : list Z) (t : bus_tables) : res bus_tables :=
  let name := until_nul (take 3 bustype) in
  if decide (name = ISA) then
    Ret {| mp_current_pci_id := mp_current_pci_id t;
           mp_bus_not_pci := set_bit busid (mp_bus_not_pci t);
           mp_bus_id_to_pci_bus := mp_bus_id_to_pci_bus t |}
  else if decide (name = PCI) then
    l ← aset (mp_bus_id_to_pci_bus t) busid (mp_current_pci_id t);
    Ret {| mp_current_pci_id := u64 (mp_current_pci_id t + 1);
           mp_bus_not_pci := clear_bit busid (mp_bus_not_pci t);
           mp_bus_id_to_pci_bus := l |}
  else Ret t.

Definition add_ioapic (d : mpc_config_ioapic) (t : apic_tables) : res apic_tables :=
  if Z.testbit (io_flags d) 0 && (nr_ioapics t <? MAX_IO_APICS) && negb (io_apicaddr d =? 0) then
    l ← aset (mp_ioapics t) (nr_ioapics t) d;
    Ret {| nr_ioapics := nr_ioapics t + 1; mp_ioapics := l |}
  else Ret t.

Definition add_intsrc (d : mpc_config_intsrc) (t : irq_tables) : res irq_tables :=
  l ← aset (mp_irqs t) (mp_irq_entries t) d;
  if mp_irq_entries t + 1 <? MAX_IRQ_SOURCES
  then Ret {| mp_irq_entries := mp_irq_entries t + 1; mp_irqs := l |}
  else Halted.

Definition apply_entry (e : mp_entry) (st : mp_state) : res mp_state :=
  match e with
  | Processor apicid flag _ _ => c ← add_processor apicid flag (cpus st); Ret (with_cpus c st)
  | Bus busid bustype => b ← add_bus busid bustype (buses st); Ret (with_buses b st)
  | IoApic d => a ← add_ioapic d (apics st); Ret (with_apics a st)
  | IntSrc d => i ← add_intsrc d (irqs st); Ret (with_irqs i st)
  | LintSrc _ => Ret st
  end.

Fixpoint apply_entries (es : list mp_entry) (st : mp_state) : res mp_state :=
  match es with
  | [] => Ret st
  | e :: es' => st' ← apply_entry e st; apply_entries es' st'
  end.

(** ** Lemmas on numbers in memory *)

Lemma bytes_le_length n v : length (bytes_le n v) = n.
Proof. revert v. induction n as [|n IH]; intros v; simpl; [done | by rewrite IH]. Qed.

Lemma le_bytes_le n v : 0 <= v < 256 ^ Z.of_nat n -> le (bytes_le n v) = v.
Proof.
  revert v. induction n as [|n IH]; intros v Hv; cbn [bytes_le le].
  - simpl in Hv. lia.
  - rewrite Nat2Z.inj_succ, Z.pow_succ_r in Hv by lia.
    rewrite IH.
    + pose proof (Z.div_mod v 256). lia.
    + split; [apply Z.div_pos; lia | apply Z.div_lt_upper_bound; lia].
Qed.

Lemma load_le_bytes mem a n v :
  bytes_at mem a (bytes_le n v) -> 0 <= v < 256 ^ Z.of_nat n -> load_le n mem a = Ret v.
Proof.
  intros Hb Hv. unfold load_le. apply load_bytes_at in Hb. rewrite bytes_le_length in Hb.
  rewrite Hb. cbn [mbind res_bind]. by rewrite le_bytes_le.
Qed.

Lemma land_bit0 f : (Z.land f 1 =? 0) = negb (Z.testbit f 0).
Proof.
  change 1 with (Z.ones 1). rewrite Z.land_ones, Z.bit0_odd by lia. change (2 ^ 1) with 2.
  rewrite Zmod_odd. by destruct (Z.odd f).
Qed.

Lemma land_bit1 f : (Z.land f 2 =? 0) = negb (Z.testbit f 1).
Proof.
  destruct (Z.eqb_spec (Z.land f 2) 0) as [E|E].
  - assert (Hb : Z.testbit (Z.land f 2) 1 = false) by (rewrite E; apply Z.bits_0).
    rewrite Z.land_spec in Hb. change (Z.testbit 2 1) with true in Hb. rewrite andb_true_r in Hb.
    by rewrite Hb.
  - destruct (Z.testbit f 1) eqn:Hb; [done|]. exfalso. apply E. apply Z.bits_inj'. intros n Hn.
    rewrite Z.land_spec, Z.bits_0. destruct (decide (n = 1)) as [->|Hne]; [by rewrite Hb|].
    change 2 with (2 ^ 1). rewrite Z.pow2_bits_false by lia. apply andb_false_r.
Qed.

Lemma bytes_at_get m a bs i b :
  bytes_at m a bs -> 0 <= i -> bs !! Z.to_nat i = Some b -> load8 m (a + i) = Ret b.
Proof.
  intros Hb Hi Hl. apply load8_Ret. replace i with (Z.of_nat (Z.to_nat i)) by lia.
  by eapply bytes_at_lookup.
Qed.

(** The string at the start of an area that holds a NUL. *)
Lemma until_nul_cstr m a l r :
  bytes_at m a (l ++ 0 :: r) -> Forall is_byte l -> cstr m a (until_nul l).
Proof.
  revert a. induction l as [|c l IH]; intros a Hb Hl.
  - destruct Hb as [H0 _]. split; [by split | constructor].
  - destruct Hb as [Hc Hb]. apply Forall_cons in Hl as [Hcr Hl]. simpl.
    destruct (Z.eqb_spec c 0) as [->|Hne].
    + split; [by split | constructor].
    + destruct (IH (a + 1) Hb Hl) as [H1 H2]. split; [by split|].
      apply Forall_cons. split; [unfold is_byte in Hcr; lia | done].
Qed.

(** ** Each handler applies its entry *)

Ltac read_fields Hb :=
  repeat (rewrite (bytes_at_get _ _ _ _ _ Hb) by (lia || reflexivity); cbn [mbind res_bind]).

Lemma MP_processor_info_spec mem m c apicid flag ver rest :
  bytes_at mem m (encode_entry (Processor apicid flag ver rest)) ->
  MP_processor_info mem m c = add_processor apicid flag c.
Proof.
  intros Hb. unfold MP_processor_info, add_processor, CPU_ENABLED, CPU_BOOTPROCESSOR.
  rewrite (bytes_at_get _ _ _ 3 flag Hb) by (lia || reflexivity). cbn [mbind res_bind].
  rewrite land_bit0, land_bit1, negb_involutive, Z.geb_leb.
  destruct (Z.testbit flag 0); simpl negb; cbv iota; [|done].
  rewrite (bytes_at_get _ _ _ 1 apicid Hb) by (lia || reflexivity). cbn [mbind res_bind].
  unfold NR_CPUS. destruct (Z.leb_spec 2 (num_processors c)).
  - by rewrite (proj2 (Z.ltb_ge _ _)) by lia.
  - by rewrite (proj2 (Z.ltb_lt _ _)) by lia.
Qed.

Lemma MP_ioapic_info_spec mem m t d :
  bytes_at mem m (encode_entry (IoApic d)) -> entry_ok (IoApic d) ->
  MP_ioapic_info mem m t = add_ioapic d t.
Proof.
  intros Hb [_ Ha]. unfold MP_ioapic_info, add_ioapic, MPC_APIC_USABLE, MAX_IO_APICS.
  rewrite (bytes_at_get _ _ _ 3 (io_flags d) Hb) by (lia || reflexivity). cbn [mbind res_bind].
  rewrite land_bit0. destruct (Z.testbit (io_flags d) 0); simpl negb; cbv iota; [|done].
  assert (Hb4 : bytes_at mem (m + 4) (bytes_le 4 (io_apicaddr d))).
  { destruct Hb as (_ & _ & _ & _ & Hb). by replace (m + 4) with (m + 1 + 1 + 1 + 1) by lia. }
  rewrite (load_le_bytes _ _ _ _ Hb4) by done. cbn [mbind res_bind]. rewrite Z.geb_leb.
  destruct (Z.leb_spec 2 (nr_ioapics t)).
  - by rewrite (proj2 (Z.ltb_ge _ _)) by lia.
  - rewrite (proj2 (Z.ltb_lt _ _)) by lia. cbn [orb andb]. destruct (io_apicaddr d =? 0); [done|].
    rewrite (bytes_at_get _ _ _ 1 (io_apicid d) Hb) by (lia || reflexivity). cbn [mbind res_bind].
    rewrite (bytes_at_get _ _ _ 2 (io_apicver d) Hb) by (lia || reflexivity). cbn [mbind res_bind negb].
    by destruct d.
Qed.

Lemma MP_intsrc_info_spec mem m t d :
  bytes_at mem m (encode_entry (IntSrc d)) -> entry_ok (IntSrc d) ->
  MP_intsrc_info mem m t = add_intsrc d t.
Proof.
  intros Hb [_ Ha]. unfold MP_intsrc_info, add_intsrc.
  rewrite (bytes_at_get _ _ _ 1 (is_irqtype d) Hb) by (lia || reflexivity). cbn [mbind res_bind].
  assert (Hb2 : bytes_at mem (m + 2) (bytes_le 2 (is_irqflag d))).
  { destruct Hb as (_ & _ & Hb). replace (m + 2) with (m + 1 + 1) by lia.
    rewrite bytes_at_app in Hb. apply Hb. }
  rewrite (load_le_bytes _ _ _ _ Hb2) by done. cbn [mbind res_bind].
  rewrite (bytes_at_get _ _ _ 4 (is_srcbus d) Hb) by (lia || reflexivity). cbn [mbind res_bind].
  rewrite (bytes_at_get _ _ _ 5 (is_srcbusirq d) Hb) by (lia || reflexivity). cbn [mbind res_bind].
  rewrite (bytes_at_get _ _ _ 6 (is_dstapic d) Hb) by (lia || reflexivity). cbn [mbind res_bind].
  rewrite (bytes_at_get _ _ _ 7 (is_dstirq d) Hb) by (lia || reflexivity). cbn [mbind res_bind].
  rewrite Z.geb_leb. unfold MAX_IRQ_SOURCES, MAX_MP_BUSSES.
  assert (Hle : (256 * 4 <=? mp_irq_entries t + 1) = negb (mp_irq_entries t + 1 <? 256 * 4)).
  { by rewrite Z.leb_antisym. }
  rewrite Hle. destruct d. destruct (aset _ _ _); cbn [mbind res_bind]; [|done..].
  by destruct (_ <? _).
Qed.

Section Table.
Context (str isa pci pcmp : Z) (mem : bmem).

(** The local array [str] is seven bytes of the stack, apart from the string
    literals. *)
Record literals_ok : Prop := {
  lo_str : mapped mem str 7;
  lo_isa : cstr mem isa ISA;
  lo_pci : cstr mem pci PCI;
  lo_pcmp : bytes_at mem pcmp PCMP;
  lo_isa_str : isa + 4 <= str \/ str + 7 <= isa;
  lo_pci_str : pci + 4 <= str \/ str + 7 <= pci
}.

Lemma bytes_at_store m a bs x v :
  bytes_at m a bs -> (x < a \/ a + Z.of_nat (length bs) <= x) -> bytes_at (<[x := v]> m) a bs.
Proof.
  intros Hb Hx. eapply bytes_at_frame; [done|]. intros y Hy. apply lookup_insert_ne. lia.
Qed.

Lemma MP_bus_info_spec m t busid bustype :
  literals_ok -> bytes_at mem m (encode_entry (Bus busid bustype)) ->
  entry_ok (Bus busid bustype) -> (m + 8 <= str \/ str + 7 <= m) ->
  MP_bus_info str isa pci mem m t = add_bus busid bustype t.
Proof.
  intros [Hstr Hisa Hpci _ Hi Hp] Hb [Hr Hl] Hd. unfold MP_bus_info.
  pose proof Hb as (_ & _ & Hb6). replace (m + 1 + 1) with (m + 2) in Hb6 by lia.
  apply Forall_cons in Hr as [_ Hr]. apply Forall_cons in Hr as [_ Hr].
  destruct (caos_memcpy mem str (m + 2) 6) as [[a m1]| | |] eqn:E.
  all: change 6 with (Z.of_nat 6) in E; rewrite <- Hl in E;
    rewrite caos_memcpy_spec in E by
      (done || (rewrite Hl; eapply mapped_weaken; [exact Hstr | lia..]) || (rewrite Hl; lia));
    try discriminate E.
  injection E as <- <-. cbn [mbind res_bind].
  assert (Hm1 : mapped (write_bytes str bustype mem) str 7) by by apply write_bytes_mapped.
  rewrite store8_mapped by (apply Hm1; lia). cbn [mbind res_bind].
  set (mem1 := <[str + 3 := 0]> (write_bytes str bustype mem)).
  assert (Hkeep : forall a bs, bytes_at mem a bs ->
    (a + Z.of_nat (length bs) <= str \/ str + 7 <= a) -> bytes_at mem1 a bs).
  { intros a bs Ha Hda. apply bytes_at_store; [|lia]. apply bytes_at_write; [done|]. rewrite Hl. lia. }
  assert (Hb1 : bytes_at mem1 m (encode_entry (Bus busid bustype))).
  { apply Hkeep; [done|]. cbn [encode_entry length]. rewrite Hl. lia. }
  rewrite (bytes_at_get _ _ _ 1 busid Hb1) by (lia || reflexivity). cbn [mbind res_bind].
  destruct bustype as [|b0 [|b1 [|b2 [|b3 [|b4 [|b5 [|]]]]]]]; try discriminate Hl.
  assert (Hs : cstr mem1 str (until_nul [b0; b1; b2])).
  { apply (until_nul_cstr mem1 str [b0; b1; b2] [b4; b5]).
    - unfold mem1. pose proof (bytes_at_written mem str [b0; b1; b2; b3; b4; b5]) as Hw.
      change ([b0; b1; b2] ++ [0; b4; b5]) with [b0; b1; b2; 0; b4; b5].
      cbn [bytes_at] in *. destruct Hw as (W0 & W1 & W2 & _ & W4 & W5 & _).
      replace (str + 1 + 1) with (str + 2) in * by lia. replace (str + 2 + 1) with (str + 3) in * by lia.
      split_and!; rewrite ?lookup_insert_eq; rewrite ?lookup_insert_ne by lia; done.
    - apply Forall_cons in Hr as [? Hr]. apply Forall_cons in Hr as [? Hr].
      apply Forall_cons in Hr as [? _].
      repeat (apply Forall_cons_2; [done|]). apply Forall_nil_2. }
  assert (Hisa1 : cstr mem1 isa ISA) by (split; [apply Hkeep; [apply Hisa | simpl; lia] | apply Hisa]).
  assert (Hpci1 : cstr mem1 pci PCI) by (split; [apply Hkeep; [apply Hpci | simpl; lia] | apply Hpci]).
  unfold add_bus. cbn [take].
  destruct (caos_strcmp_spec mem1 str isa _ _ Hs Hisa1) as (r & -> & Hri). cbn [mbind res_bind].
  destruct (Z.eqb_spec r 0) as [Hr0|Hr0]; [by rewrite decide_True by tauto|].
  rewrite decide_False by tauto.
  destruct (caos_strcmp_spec mem1 str pci _ _ Hs Hpci1) as (r' & -> & Hrp). cbn [mbind res_bind].
  destruct (Z.eqb_spec r' 0) as [Hr1|Hr1]; [by rewrite decide_True by tauto|].
  rewrite decide_False by tauto. rewrite store8_mapped; [done|].
  destruct (decide (str + 6 = str + 3)); [lia|]. unfold mem1. rewrite lookup_insert_ne by lia.
  apply Hm1. lia.
Qed.

(** The size of an entry. *)
Definition entry_size (e : mp_entry) : Z :=
  match e with Processor _ _ _ _ => 20 | _ => 8 end.

Lemma encode_length e : entry_ok e -> Z.of_nat (length (encode_entry e)) = entry_size e.
Proof.
  intros [_ H]. destruct e; cbn [encode_entry length entry_size];
    rewrite ?length_app, ?bytes_le_length; simpl; rewrite ?H; lia.
Qed.

Lemma read_entry_spec m e st :
  literals_ok -> entry_ok e -> bytes_at mem m (encode_entry e) ->
  (m + entry_size e <= str \/ str + 7 <= m) ->
  read_entry str isa pci mem m st = (st' ← apply_entry e st; Ret (st', entry_size e)).
Proof.
  intros Hlit Hok Hb Hd. unfold read_entry.
  assert (Ht : load8 mem m = Ret (default 0 (hd_error (encode_entry e)))).
  { apply load8_Ret. destruct e; destruct Hb as [Hb _]; exact Hb. }
  rewrite Ht. destruct e; cbn [encode_entry hd_error default from_option id mbind res_bind];
    unfold MP_PROCESSOR, MP_BUS, MP_IOAPIC, MP_INTSRC, MP_LINTSRC; cbn [Z.eqb Pos.eqb apply_entry].
  - rewrite (MP_processor_info_spec mem m (cpus st) apicid cpuflag apicver rest) by done.
    by destruct (add_processor _ _ _).
  - rewrite (MP_bus_info_spec m (buses st) busid bustype) by done. by destruct (add_bus _ _ _).
  - rewrite (MP_ioapic_info_spec mem m (apics st) d) by done. by destruct (add_ioapic _ _).
  - rewrite (MP_intsrc_info_spec mem m (irqs st) d) by done. by destruct (add_intsrc _ _).
  - done.
Qed.

Definition table_size (es : list mp_entry) : Z := Z.of_nat (length (concat (encode_entry <$> es))).

Lemma table_size_cons e es :
  entry_ok e -> table_size (e :: es) = entry_size e + table_size es.
Proof.
  intros He. unfold table_size. cbn [fmap list_fmap concat].
  rewrite length_app, Nat2Z.inj_add, encode_length by done. done.
Qed.

Lemma entry_size_pos e : 0 < entry_size e.
Proof. destruct e; simpl; lia. Qed.

Lemma read_entries_spec es : forall fuel m count st,
  literals_ok -> Forall entry_ok es -> bytes_at mem m (concat (encode_entry <$> es)) ->
  (m + table_size es <= str \/ str + 7 <= m) -> table_size es < Z.of_nat fuel ->
  read_entries str isa pci fuel mem m count (count + table_size es) st = apply_entries es st.
Proof.
  induction es as [|e es IH]; intros fuel m count st Hlit Hok Hb Hd Hf;
    (destruct fuel as [|fuel]; [unfold table_size in Hf; lia|]); cbn [read_entries apply_entries].
  - unfold table_size. simpl. by rewrite Z.add_0_r, Z.ltb_irrefl.
  - apply Forall_cons in Hok as [He Hok]. rewrite table_size_cons in * by done.
    pose proof (entry_size_pos e). pose proof (encode_length e He) as Hl.
    assert (Hts : 0 <= table_size es) by (unfold table_size; lia).
    cbn [fmap list_fmap concat] in Hb. apply bytes_at_app in Hb as [Hb1 Hb2].
    rewrite (proj2 (Z.ltb_lt _ _)) by lia.
    rewrite (read_entry_spec m e st) by (done || lia).
    destruct (apply_entry e st) as [st'| | |]; cbn [mbind res_bind]; [|done..].
    replace (count + (entry_size e + table_size es)) with (count + entry_size e + table_size es) by lia.
    apply IH; try done; [|lia..]. by rewrite <- Hl.
Qed.

End Table.

(** The header in front of the entries: 28 bytes identify the manufacturer. *)
Definition table_header (spec checksum lapic len : Z) (oem reserved : list Z) : list Z :=
  PCMP ++ bytes_le 2 len ++ [spec; checksum] ++ oem ++ bytes_le 4 lapic ++ reserved.

(** A configuration table of the entries [es] at [mpc]. *)
Record table_at (str isa pci pcmp : Z) (mem : bmem) (mpc spec lapic : Z) (es : list mp_entry) : Prop := {
  ta_lit : literals_ok str isa pci pcmp mem;
  ta_bytes : exists checksum oem reserved, length oem = 28%nat /\ length reserved = 4%nat /\
    bytes_at mem mpc (table_header spec checksum lapic (44 + table_size es) oem reserved ++
                      concat (encode_entry <$> es));
  ta_entries : Forall entry_ok es;
  ta_size : 44 + table_size es < 2 ^ 16;
  ta_stack : mpc + 44 + table_size es <= str \/ str + 7 <= mpc
}.

Lemma table_fields str isa pci pcmp mem mpc spec lapic es :
  table_at str isa pci pcmp mem mpc spec lapic es -> 0 <= lapic < 2 ^ 32 ->
  bytes_at mem mpc PCMP /\ load_le 2 mem (mpc + 4) = Ret (44 + table_size es) /\
  load8 mem (mpc + 6) = Ret spec /\ load_le 4 mem (mpc + 36) = Ret lapic /\
  bytes_at mem (mpc + 44) (concat (encode_entry <$> es)).
Proof.
  intros [_ (ck & oem & rsv & Hoem & Hrsv & Hb) _ Hsize _] Hlapic.
  unfold table_header in Hb. rewrite <- !app_assoc in Hb.
  apply bytes_at_app in Hb as [H1 Hb]. apply bytes_at_app in Hb as [H2 Hb].
  apply bytes_at_app in Hb as [H3 Hb]. apply bytes_at_app in Hb as [H4 Hb].
  apply bytes_at_app in Hb as [H5 Hb]. apply bytes_at_app in Hb as [H6 Hb].
  rewrite Hrsv in Hb. rewrite !bytes_le_length, ?Hoem in *. cbn [length PCMP] in *.
  assert (0 <= table_size es) by (unfold table_size; lia). split; [exact H1|]. split_and!.
  - apply load_le_bytes; [done | change (256 ^ Z.of_nat 2) with (2 ^ 16); lia].
  - destruct H3 as [H3 _]. apply load8_Ret. rewrite <- H3. f_equal. lia.
  - apply load_le_bytes; [|done]. by replace (mpc + 36)
      with (mpc + Z.of_nat 4 + Z.of_nat 2 + Z.of_nat 2 + Z.of_nat 28) by lia.
  - by replace (mpc + 44)
      with (mpc + Z.of_nat 4 + Z.of_nat 2 + Z.of_nat 2 + Z.of_nat 28 + Z.of_nat 4 + Z.of_nat 4) by lia.
Qed.

Lemma smp_read_mpc_spec str isa pci pcmp mem mpc spec lapic es st :
  table_at str isa pci pcmp mem mpc spec lapic es -> spec = 1 \/ spec = 4 -> 0 < lapic < 2 ^ 32 ->
  smp_read_mpc str isa pci pcmp mem mpc st
  = (st' ← apply_entries es (with_lapic lapic st); Ret (CAOS_TRUE, st')).
Proof.
  intros Ht Hspec Hlapic.
  destruct (table_fields str isa pci pcmp mem mpc spec lapic es Ht) as (Hsig & Hlen & Hsp & Hla & Hes); [lia|].
  destruct Ht as [Hlit _ Hok Hsize Hstack]. pose proof Hlit as [_ _ _ Hpcmp _ _].
  unfold smp_read_mpc, caos_memcmp.
  destruct (memcmp_loop_spec PCMP PCMP mem mpc pcmp Hsig Hpcmp eq_refl) as (r & E & Hr);
    [repeat (apply Forall_cons_2; [lia|]); apply Forall_nil_2..|].
  change (Z.to_nat 4) with (length PCMP). rewrite E. cbn [mbind res_bind].
  rewrite (proj2 (Z.eqb_eq r 0)) by tauto. cbn [negb]. rewrite Hsp. cbn [mbind res_bind].
  assert (Hs : negb (s8 spec =? 1) && negb (s8 spec =? 4) = false) by (by destruct Hspec as [-> | ->]).
  rewrite Hs, Hla. cbn [mbind res_bind]. rewrite (proj2 (Z.eqb_neq lapic 0)) by lia.
  rewrite Hlen. cbn [mbind res_bind]. unfold sizeof_mp_config_table.
  assert (0 <= table_size es) by (unfold table_size; lia).
  rewrite (read_entries_spec str isa pci pcmp mem es) by (done || lia). done.
Qed.

(** ** The tables stay in bounds *)

Record tables_ok (st : mp_state) : Prop := {
  tk_apicids : length (bios_cpu_apicid (cpus st)) = 2%nat /\ length (x86_cpu_to_apicid (cpus st)) = 2%nat;
  tk_present : (num_processors (cpus st) = 0 /\ cpu_present_map (cpus st) = 0) \/
               (num_processors (cpus st) = 1 /\ cpu_present_map (cpus st) = 1) \/
               (num_processors (cpus st) = 2 /\ (cpu_present_map (cpus st) = 1 \/ cpu_present_map (cpus st) = 3));
  tk_pci : length (mp_bus_id_to_pci_bus (buses st)) = 256%nat;
  tk_ioapics : length (mp_ioapics (apics st)) = 2%nat /\ 0 <= nr_ioapics (apics st) <= 2;
  tk_irqs : length (mp_irqs (irqs st)) = 1024%nat /\ 0 <= mp_irq_entries (irqs st) < 1024
}.

Lemma add_processor_ok apicid flag st :
  tables_ok st -> exists c, add_processor apicid flag (cpus st) = Ret c /\ tables_ok (with_cpus c st).
Proof.
  intros [[Hb Hx] Hp ? ? ?]. unfold add_processor.
  destruct (Z.testbit flag 0); [|by eexists]. destruct (Z.ltb_spec (num_processors (cpus st)) NR_CPUS);
    [|by eexists]. unfold NR_CPUS in *.
  set (cpu := if Z.testbit flag 1 then 0 else ffz (cpu_present_map (cpus st))).
  assert (Hc : cpu = 0 \/ cpu = 1 /\ cpu_present_map (cpus st) = 1).
  { unfold cpu. destruct (Z.testbit flag 1); [by left|].
    destruct Hp as [[_ ->]|[[_ ->]|[? _]]]; [by left | by right | lia]. }
  rewrite !aset_lt by lia. cbn [mbind res_bind]. eexists. split; [done|].
  split; cbn [cpus buses apics irqs with_cpus num_processors cpu_present_map bios_cpu_apicid x86_cpu_to_apicid];
    rewrite ?length_insert; try done.
  destruct Hc as [-> |[-> Hm]]; destruct Hp as [[Hn Hm']|[[Hn Hm']|[Hn _]]]; rewrite Hn, ?Hm'; try lia.
  - by right; left.
  - right; right. split; [done|]. by left.
  - right; right. split; [done|]. by right.
Qed.

Lemma apply_entry_ok e st :
  tables_ok st -> entry_ok e ->
  match e with
  | IntSrc _ => if mp_irq_entries (irqs st) + 1 <? 1024
                then exists st', apply_entry e st = Ret st' /\ tables_ok st' /\
                       mp_irq_entries (irqs st') = mp_irq_entries (irqs st) + 1
                else apply_entry e st = Halted
  | _ => exists st', apply_entry e st = Ret st' /\ tables_ok st' /\ irqs st' = irqs st
  end.
Proof.
  intros Hst [Hr He]. destruct e as [a f v rest|b ty|d|d|rest]; cbn [apply_entry].
  - destruct (add_processor_ok a f st Hst) as (c & -> & Hc). cbn [mbind res_bind]. by eexists.
  - destruct Hst as [? ? Hpci ? ?]. unfold add_bus.
    destruct (decide _); [|destruct (decide _)]; cbn [mbind res_bind]; try by eexists.
    apply Forall_cons in Hr as [_ Hr]. apply Forall_cons in Hr as [Hb _]. unfold is_byte in Hb.
    rewrite aset_lt by lia. cbn [mbind res_bind]. eexists. split; [done|]. split; [|done].
    split; cbn [cpus buses apics irqs with_buses mp_bus_id_to_pci_bus]; rewrite ?length_insert; done.
  - destruct Hst as [? ? ? [Hl Hn] ?]. unfold add_ioapic, MAX_IO_APICS.
    destruct (_ && _ && _) eqn:E; cbn [mbind res_bind]; [|by eexists].
    rewrite !andb_true_iff, Z.ltb_lt in E. rewrite aset_lt by lia. cbn [mbind res_bind].
    eexists. split; [done|]. split; [|done].
    split; cbn [cpus buses apics irqs with_apics mp_ioapics nr_ioapics]; rewrite ?length_insert; try done. lia.
  - destruct Hst as [? ? ? ? [Hl Hn]]. unfold add_intsrc, MAX_IRQ_SOURCES, MAX_MP_BUSSES.
    change (256 * 4) with 1024. rewrite aset_lt by lia. cbn [mbind res_bind].
    destruct (Z.ltb_spec (mp_irq_entries (irqs st) + 1) 1024); cbn [mbind res_bind]; [|done].
    eexists. split; [done|]. split; [|done].
    split; cbn [cpus buses apics irqs with_irqs mp_irqs mp_irq_entries]; rewrite ?length_insert; try done. lia.
  - by eexists.
Qed.

(** The number of interrupt sources of a table. *)
Fixpoint sources (es : list mp_entry) : Z :=
  match es with
  | [] => 0
  | IntSrc _ :: es' => 1 + sources es'
  | _ :: es' => sources es'
  end.

Lemma apply_entries_ok es : forall st,
  tables_ok st -> Forall entry_ok es ->
  if mp_irq_entries (irqs st) + sources es <? 1024
  then exists st', apply_entries es st = Ret st' /\ tables_ok st' /\
         mp_irq_entries (irqs st') = mp_irq_entries (irqs st) + sources es
  else apply_entries es st = Halted.
Proof.
  induction es as [|e es IH]; intros st Hst Hok.
  - cbn [sources apply_entries]. rewrite Z.add_0_r. pose proof (tk_irqs st Hst).
    rewrite (proj2 (Z.ltb_lt _ _)) by lia. by exists st.
  - apply Forall_cons in Hok as [He Hok]. pose proof (apply_entry_ok e st Hst He) as Ha.
    assert (Hs : 0 <= sources es).
    { clear. induction es as [|[] es IH]; cbn [sources]; lia. }
    cbn [apply_entries sources]. destruct e.
    4: { destruct (Z.ltb_spec (mp_irq_entries (irqs st) + 1) 1024).
      - destruct Ha as (st' & -> & Hst' & Hn). cbn [mbind res_bind]. specialize (IH st' Hst' Hok).
        rewrite Hn in IH. replace (mp_irq_entries (irqs st) + (1 + sources es))
          with (mp_irq_entries (irqs st) + 1 + sources es) by lia. done.
      - rewrite (proj2 (Z.ltb_ge _ _)) by lia. by rewrite Ha. }
    all: destruct Ha as (st' & -> & Hst' & Hn); cbn [mbind res_bind]; specialize (IH st' Hst' Hok);
      rewrite Hn in IH; done.
Qed.

(** ** The search for the floating pointer structure *)

(** The test of [smp_scan_config] at [a]. *)
Definition floating_at (mem : bmem) (a : Z) : Prop :=
  load_le 4 mem a = Ret SMP_MAGIC_IDENT /\ mem !! (a + 8) = Some 1 /\
  (mem !! (a + 9) = Some 1 \/ mem !! (a + 9) = Some 4).

Lemma load_le_mapped n mem a : mapped mem a (Z.of_nat n) -> exists v, load_le n mem a = Ret v.
Proof.
  intros Hm. unfold load_le.
  assert (Hl : exists bs, load_bytes n mem a = Ret bs).
  { revert a Hm. induction n as [|n IH]; intros a Hm; cbn [load_bytes]; [by eexists|].
    destruct (Hm a) as [b Hb]; [lia|]. rewrite (proj2 (load8_Ret _ _ _) Hb). cbn [mbind res_bind].
    destruct (IH (a + 1)) as (bs & ->); [by eapply mapped_weaken; [exact Hm|lia..]|]. by eexists. }
  destruct Hl as (bs & ->). by eexists.
Qed.

(** The test as the loop makes it, on memory that can be read. *)
Lemma scan_test mem a : mapped mem a 16 ->
  exists b, (w ← load_le 4 mem a;
             if w =? SMP_MAGIC_IDENT then
               mpf_length ← load8 mem (a + 8);
               if mpf_length =? 1 then
                 mpf_specification ← load8 mem (a + 9);
                 Ret ((mpf_specification =? 1) || (mpf_specification =? 4))
               else Ret false
             else Ret false) = Ret b /\ (b = true <-> floating_at mem a).
Proof.
  intros Hm. destruct (load_le_mapped 4 mem a) as (w & Hw); [by eapply mapped_weaken; [exact Hm|lia..]|].
  destruct (Hm (a + 8)) as [l Hl]; [lia|]. destruct (Hm (a + 9)) as [s Hs]; [lia|].
  unfold floating_at. rewrite Hw, Hl, Hs, (proj2 (load8_Ret mem (a + 8) l) Hl). cbn [mbind res_bind].
  destruct (Z.eqb_spec w SMP_MAGIC_IDENT) as [->|]; [|eexists; split; [done|]; naive_solver].
  cbn [mbind res_bind]. destruct (Z.eqb_spec l 1) as [->|]; [|eexists; split; [done|]; naive_solver].
  rewrite (proj2 (load8_Ret mem (a + 9) s) Hs). cbn [mbind res_bind]. eexists. split; [done|].
  rewrite orb_true_iff, !Z.eqb_eq. naive_solver.
Qed.

Lemma scan_loop_spec mem a : forall n fuel,
  (n < fuel)%nat -> Z.of_nat n * 16 < 2 ^ 64 -> mapped mem a (16 * Z.of_nat n) ->
  (exists k, (k < n)%nat /\ floating_at mem (a + 16 * Z.of_nat k) /\
     (forall j, (j < k)%nat -> ~ floating_at mem (a + 16 * Z.of_nat j)) /\
     scan_loop fuel mem a (16 * Z.of_nat n) = Ret (Some (a + 16 * Z.of_nat k))) \/
  ((forall j, (j < n)%nat -> ~ floating_at mem (a + 16 * Z.of_nat j)) /\
   scan_loop fuel mem a (16 * Z.of_nat n) = Ret None).
Proof.
  intros n. revert a. induction n as [|n IH]; intros a fuel Hf Hn Hm;
    (destruct fuel as [|fuel]; [lia|]).
  - right. split; [lia | done].
  - destruct (scan_test mem a) as (b & Hb & Hiff); [by eapply mapped_weaken; [exact Hm|lia..]|].
    destruct (load_le 4 mem a) as [w| | |] eqn:Ew; try done. cbn [mbind res_bind] in Hb.
    assert (E : scan_loop (S fuel) mem a (16 * Z.of_nat (S n))
      = if b then Ret (Some a) else scan_loop fuel mem (a + 16) (16 * Z.of_nat n)).
    { cbn [scan_loop]. rewrite Z.gtb_ltb, (proj2 (Z.ltb_lt _ _)) by lia.
      rewrite Ew. cbn [mbind res_bind]. rewrite Hb. cbn [mbind res_bind].
      replace (16 * Z.of_nat (S n) - 16) with (16 * Z.of_nat n) by lia.
      by rewrite wrap_small by lia. }
    rewrite E. destruct b.
    + left. exists 0%nat. rewrite Z.mul_0_r, Z.add_0_r. split_and!; [lia | tauto | lia | done].
    + assert (Hno : ~ floating_at mem a) by (intros H; apply Hiff in H; done).
      assert (Hsh : forall j, a + 16 + 16 * Z.of_nat j = a + 16 * Z.of_nat (S j)) by lia.
      destruct (IH (a + 16) fuel) as [(k & Hk & Hfl & Hlo & Es)|[Hlo Es]];
        [lia | lia | by eapply mapped_weaken; [exact Hm|lia..] | left | right].
      * exists (S k). rewrite Hsh in Es, Hfl. split_and!; [lia | done | | done].
        intros [|j] Hj; [by rewrite Z.mul_0_r, Z.add_0_r|]. rewrite <- Hsh. apply Hlo. lia.
      * split; [|done]. intros [|j] Hj; [by rewrite Z.mul_0_r, Z.add_0_r|].
        rewrite <- Hsh. apply Hlo. lia.
Qed.

(** ** The processors in order *)

(** The enabled processors: APIC number and whether it is the boot processor. *)
Fixpoint enabled (es : list mp_entry) : list (Z * bool) :=
  match es with
  | [] => []
  | Processor apicid flag _ _ :: es' =>
      if Z.testbit flag 0 then (apicid, Z.testbit flag 1) :: enabled es' else enabled es'
  | _ :: es' => enabled es'
  end.

(** The tables hold the first processors of [ids]. *)
Definition cpus_hold (ids : list Z) (c : cpu_tables) : Prop :=
  let n := (length ids `min` 2)%nat in
  num_processors c = Z.of_nat n /\ cpu_present_map c = 2 ^ Z.of_nat n - 1 /\
  length (bios_cpu_apicid c) = 2%nat /\ length (x86_cpu_to_apicid c) = 2%nat /\
  (forall i, (i < n)%nat -> bios_cpu_apicid c !! i = ids !! i /\ x86_cpu_to_apicid c !! i = ids !! i).

Lemma add_processor_holds ids c apicid flag :
  cpus_hold ids c -> Z.testbit flag 0 = true -> Z.testbit flag 1 = bool_decide (ids = []) ->
  exists c', add_processor apicid flag c = Ret c' /\ cpus_hold (ids ++ [apicid]) c' /\
    boot_cpu_id c' = if Z.testbit flag 1 then apicid else boot_cpu_id c.
Proof.
  intros (Hn & Hm & Hb & Hx & Hi) H0 H1. unfold add_processor, NR_CPUS. rewrite H0, H1, Hn, Hm.
  destruct (bios_cpu_apicid c) as [|b0 [|b1 [|]]] eqn:Eb; try discriminate Hb.
  destruct (x86_cpu_to_apicid c) as [|x0 [|x1 [|]]] eqn:Ex; try discriminate Hx.
  destruct ids as [|i0 [|i1 ids]].
  - simpl. eexists. split; [done|]. split; [|done]. split_and!; try done.
    intros [|i] Hlt; [done | simpl in Hlt; lia].
  - rewrite (bool_decide_eq_false_2 ([i0] = [])) by done. simpl. eexists. split; [done|]. split; [|done].
    destruct (Hi 0%nat) as [E1 E2]; [simpl; lia|]. simpl in E1, E2. injection E1 as ->. injection E2 as ->.
    split_and!; try done; intros [|[|i]] Hlt; try done; simpl in Hlt; lia.
  - rewrite bool_decide_eq_false_2 by done. cbn [length Nat.min].
    rewrite (proj2 (Z.ltb_ge _ _)) by lia. eexists. split; [done|]. split; [|done].
    unfold cpus_hold. rewrite length_app. cbn [length].
    replace ((S (S (length ids)) + 1) `min` 2)%nat with 2%nat by lia.
    cbn [num_processors cpu_present_map bios_cpu_apicid x86_cpu_to_apicid].
    rewrite ?Nat.min_0_r. do 4 (split; [done|]). intros i Hlt.
    destruct (Hi i) as [E1 E2]; [cbn [length]; lia|]. rewrite E1, E2. rewrite lookup_app_l by (cbn [length]; lia). done.
Qed.

Lemma apply_entries_enumerate es : forall ids st st',
  cpus_hold ids (cpus st) -> apply_entries es st = Ret st' ->
  map snd (enabled es) = (if decide (ids = []) then
     (match enabled es with [] => [] | _ :: r => true :: map (fun _ => false) r end)
     else map (fun _ => false) (enabled es)) ->
  cpus_hold (ids ++ map fst (enabled es)) (cpus st') /\
  boot_cpu_id (cpus st') = (if decide (ids = []) then
     match enabled es with [] => boot_cpu_id (cpus st) | (a, _) :: _ => a end else boot_cpu_id (cpus st)).
Proof.
  induction es as [|e es IH]; intros ids st st' Hh E Hb.
  - injection E as <-. cbn. rewrite app_nil_r. split; [done|]. by destruct (decide _).
  - cbn [apply_entries] in E. apply bind_ret_inv in E as (st1 & E1 & E).
    assert (Hskip : cpus_hold ids (cpus st1) -> boot_cpu_id (cpus st1) = boot_cpu_id (cpus st) ->
      enabled (e :: es) = enabled es ->
      cpus_hold (ids ++ map fst (enabled (e :: es))) (cpus st') /\
      boot_cpu_id (cpus st') = (if decide (ids = []) then
        match enabled (e :: es) with [] => boot_cpu_id (cpus st) | (a, _) :: _ => a end
        else boot_cpu_id (cpus st))).
    { intros Hh1 Hb1 He. rewrite He in *. rewrite <- Hb1. by apply (IH ids st1). }
    destruct e as [a f v rest|b ty|d|d|rest]; cbn [apply_entry] in E1.
    + apply bind_ret_inv in E1 as (c & Ec & [= <-]). cbn [enabled] in *.
      destruct (Z.testbit f 0) eqn:H0.
      * assert (H1 : Z.testbit f 1 = bool_decide (ids = []) /\
          map snd (enabled es) = map (fun _ => false) (enabled es)).
        { cbn [map snd] in Hb. clear -Hb. generalize dependent (Z.testbit f 1). intros bt Hb.
          destruct (decide (ids = [])) as [->|Hne]; injection Hb as Hb1 Hb2; (split; [|done]); rewrite Hb1;
            [done|]. by rewrite bool_decide_eq_false_2. }
        destruct H1 as [H1 Hrest].
        destruct (add_processor_holds ids (cpus st) a f Hh H0 H1) as (c' & Ec' & Hh' & Hboot).
        assert (c' = c) as -> by congruence.
        destruct (IH (ids ++ [a]) (with_cpus c st) st' Hh' E) as [Hf Hbt].
        { rewrite decide_False by (by destruct ids). done. }
        rewrite <- app_assoc in Hf. split; [exact Hf|].
        rewrite decide_False in Hbt by (by destruct ids). rewrite Hbt. cbn [cpus with_cpus].
        rewrite Hboot, H1. destruct (decide (ids = [])) as [->|Hne]; [done|].
        by rewrite bool_decide_eq_false_2.
      * apply Hskip; [| |done]; unfold add_processor in Ec; rewrite H0 in Ec; injection Ec as <-; [|done].
        destruct Hh as (? & ? & ? & ? & ?). done.
    + apply bind_ret_inv in E1 as (x & _ & [= <-]). by apply Hskip.
    + apply bind_ret_inv in E1 as (x & _ & [= <-]). by apply Hskip.
    + apply bind_ret_inv in E1 as (x & _ & [= <-]). by apply Hskip.
    + injection E1 as <-. by apply Hskip.
Qed.

(** ** Properties *)

(** C19: when a floating pointer structure was found that points to a
    configuration table (version 1.1 or 1.4, with the address of a local APIC),
    [mp_spec_init] resets its tables and applies to them every entry of the
    table in order, found at the right place whatever the entries before it;
    entries of buses are told apart by the name [MP_bus_info] copies to its
    stack. *)
Theorem mp_spec_init_reads_table str isa pci pcmp mem st st1 p spec lapic es :
  scan_areas mem st = Ret (CAOS_TRUE, st1) ->
  load8 mem (mpf_found st1 + 11) = Ret 0 -> load_le 4 mem (mpf_found st1 + 4) = Ret p -> 0 < p ->
  table_at str isa pci pcmp mem (__va p) spec lapic es -> spec = 1 \/ spec = 4 -> 0 < lapic < 2 ^ 32 ->
  mp_spec_init str isa pci pcmp mem st = apply_entries es (with_lapic lapic (reset_tables st1)).
Proof.
  intros Hs Hf Hp Hp0 Ht Hspec Hl. unfold mp_spec_init. rewrite Hs. cbn [mbind res_bind].
  change (CAOS_TRUE =? 0) with false. cbv iota. rewrite Hf. cbn [mbind res_bind]. rewrite Hp.
  cbn [mbind res_bind]. rewrite (proj2 (Z.eqb_neq p 0)) by lia. cbn [Z.eqb negb andb].
  rewrite (smp_read_mpc_spec str isa pci pcmp mem _ spec lapic es) by done.
  by destruct (apply_entries _ _).
Qed.

(** C28: whatever entries a table has, reading it never leaves the kernel's
    arrays: the result is TRUE with well-formed tables, with one entry of
    [mp_irqs] per interrupt source, or the kernel halts; and it halts exactly
    when the table has 1024 interrupt sources or more. *)
Theorem mp_tables_bounded str isa pci pcmp mem mpc spec lapic es st :
  table_at str isa pci pcmp mem mpc spec lapic es -> spec = 1 \/ spec = 4 -> 0 < lapic < 2 ^ 32 ->
  tables_ok st -> mp_irq_entries (irqs st) = 0 ->
  (sources es < 1024 -> exists st', smp_read_mpc str isa pci pcmp mem mpc st = Ret (CAOS_TRUE, st') /\
     tables_ok st' /\ mp_irq_entries (irqs st') = sources es) /\
  (1024 <= sources es -> smp_read_mpc str isa pci pcmp mem mpc st = Halted).
Proof.
  intros Ht Hspec Hl [H1 H2 H3 H4 H5] Hz.
  rewrite (smp_read_mpc_spec str isa pci pcmp mem mpc spec lapic es) by done.
  assert (Hst : tables_ok (with_lapic lapic st)) by by split.
  pose proof (apply_entries_ok es _ Hst (ta_entries _ _ _ _ _ _ _ _ _ Ht)) as Ha.
  cbn [irqs with_lapic] in Ha. rewrite Hz, Z.add_0_l in Ha. split; intros Hs.
  - rewrite (proj2 (Z.ltb_lt _ _)) in Ha by lia. destruct Ha as (st' & -> & Hok & Hn).
    exists st'. done.
  - rewrite (proj2 (Z.ltb_ge _ _)) in Ha by lia. by rewrite Ha.
Qed.

(** When the boot processor is the first enabled one and the only one
    marked, as the specification demands, the first [NR_CPUS] enabled
    processors get the logical numbers 0 and 1 in the order of the table, both
    tables of APIC numbers hold them, [cpu_present_map] has their bits, and
    [boot_cpu_id] is the first one's. *)
Theorem processors_enumerated str isa pci pcmp mem mpc spec lapic es st a rest :
  table_at str isa pci pcmp mem mpc spec lapic es -> spec = 1 \/ spec = 4 -> 0 < lapic < 2 ^ 32 ->
  tables_ok st -> mp_irq_entries (irqs st) = 0 -> sources es < 1024 -> num_processors (cpus st) = 0 ->
  enabled es = (a, true) :: map (fun x => (x, false)) rest ->
  exists st', smp_read_mpc str isa pci pcmp mem mpc st = Ret (CAOS_TRUE, st') /\
    cpus_hold (a :: rest) (cpus st') /\ boot_cpu_id (cpus st') = a.
Proof.
  intros Ht Hspec Hl [H1 H2 H3 H4 H5] Hz Hs Hn He.
  rewrite (smp_read_mpc_spec str isa pci pcmp mem mpc spec lapic es) by done.
  assert (Hst : tables_ok (with_lapic lapic st)) by by split.
  pose proof (apply_entries_ok es _ Hst (ta_entries _ _ _ _ _ _ _ _ _ Ht)) as Ha.
  cbn [irqs with_lapic] in Ha. rewrite Hz, Z.add_0_l, (proj2 (Z.ltb_lt _ _)) in Ha by lia.
  destruct Ha as (st' & E & _ & _). exists st'. split; [by rewrite E|].
  assert (Hh : cpus_hold [] (cpus (with_lapic lapic st))).
  { destruct H1 as [Hb Hx]. destruct H2 as [[_ Hm]|[[Hm _]|[Hm _]]]; [|lia..].
    split_and!; try done. intros i Hi. simpl in Hi. lia. }
  assert (Hfst : map fst (map (fun x : Z => (x, false)) rest) = rest /\
    map snd (map (fun x : Z => (x, false)) rest) = map (fun _ => false) (map (fun x : Z => (x, false)) rest)).
  { clear. induction rest as [|x rest [IH1 IH2]]; simpl; [done|]. by rewrite IH1, IH2. }
  destruct Hfst as [Hf1 Hf2].
  destruct (apply_entries_enumerate es [] _ st' Hh E) as [Hc Hb].
  { rewrite decide_True by done. rewrite He. cbn [map snd]. by rewrite Hf2. }
  rewrite decide_True in Hb by done. rewrite He in Hc, Hb. split; [|done].
  cbn [map fst app] in Hc. by rewrite Hf1 in Hc.
Qed.

(** [smp_scan_config] finds the floating pointer structure in the first
    16-byte paragraph of the area that has its magic number, a length of one
    paragraph and version 1 or 4, and answers FALSE when no paragraph does. *)
Theorem scan_finds_first base (n : nat) mem st :
  Z.of_nat n * 16 < 2 ^ 64 -> mapped mem (__va base) (16 * Z.of_nat n) ->
  (exists k, (k < n)%nat /\ floating_at mem (__va base + 16 * Z.of_nat k) /\
     (forall j, (j < k)%nat -> ~ floating_at mem (__va base + 16 * Z.of_nat j)) /\
     smp_scan_config base (16 * Z.of_nat n) mem st
     = Ret (CAOS_TRUE, with_mpf (__va base + 16 * Z.of_nat k) st)) \/
  ((forall j, (j < n)%nat -> ~ floating_at mem (__va base + 16 * Z.of_nat j)) /\
   smp_scan_config base (16 * Z.of_nat n) mem st = Ret (CAOS_FALSE, st)).
Proof.
  intros Hn Hm. unfold smp_scan_config.
  destruct (scan_loop_spec mem (__va base) n (S (Z.to_nat (16 * Z.of_nat n))))
    as [(k & Hk & Hfl & Hlo & ->)|[Hlo ->]]; [lia | done | done | left | right].
  - by exists k.
  - done.
Qed.

(** An entry of a type above 4 is never passed: the [switch] has no case
    for it, so the loop reads it again and again. *)
Theorem unknown_entry_never_ends str isa pci fuel mem mpt count length st t :
  mem !! mpt = Some t -> 4 < t -> count < length ->
  read_entries str isa pci fuel mem mpt count length st = NoFuel.
Proof.
  intros Hm Ht Hc. induction fuel as [|fuel IH]; [done|]. cbn [read_entries].
  rewrite (proj2 (Z.ltb_lt _ _)) by lia. unfold read_entry.
  rewrite (proj2 (load8_Ret _ _ _) Hm). cbn [mbind res_bind].
  unfold MP_PROCESSOR, MP_BUS, MP_IOAPIC, MP_INTSRC, MP_LINTSRC.
  rewrite !(proj2 (Z.eqb_neq t _)) by lia. cbn [mbind res_bind]. by rewrite !Z.add_0_r.
Qed.

(** A table that lists the boot processor after another one loses a
    processor: the other one gets the logical number 0, the boot processor
    takes the number over, and with two processors counted only one is present. *)
Theorem boot_processor_second a b va vb ra rb st :
  tables_ok st -> num_processors (cpus st) = 0 -> cpu_present_map (cpus st) = 0 ->
  exists st', apply_entries [Processor a CPU_ENABLED va ra;
                             Processor b (Z.lor CPU_ENABLED CPU_BOOTPROCESSOR) vb rb] st = Ret st' /\
    num_processors (cpus st') = 2 /\ cpu_present_map (cpus st') = 1 /\
    bios_cpu_apicid (cpus st') !! 0%nat = Some b /\
    bios_cpu_apicid (cpus st') !! 1%nat = bios_cpu_apicid (cpus st) !! 1%nat.
Proof.
  intros [[Hb Hx] _ _ _ _] Hn Hm. cbn [apply_entries apply_entry].
  destruct (bios_cpu_apicid (cpus st)) as [|b0 [|b1 [|]]] eqn:Eb; try discriminate Hb.
  destruct (x86_cpu_to_apicid (cpus st)) as [|x0 [|x1 [|]]] eqn:Ex; try discriminate Hx.
  assert (E : add_processor a CPU_ENABLED (cpus st) = Ret
    {| disabled_cpus := disabled_cpus (cpus st); boot_cpu_id := boot_cpu_id (cpus st);
       num_processors := 1; cpu_present_map := 1; bios_cpu_apicid := [a; b1];
       x86_cpu_to_apicid := [a; x1] |}).
  { unfold add_processor. rewrite Hn, Hm, Eb, Ex. done. }
  rewrite E. cbn [mbind res_bind]. eexists. split; [done|]. done.
Qed.

(** ** Witnesses *)

(** A floating pointer structure at the start of memory, a table behind it at
    0x100, the literals and the stack behind both: the boot processor 4, a
    disabled processor, a processor 6, an ISA bus, a PCI bus, an I/O APIC, an
    interrupt source. *)
Definition sample_entries : list mp_entry :=
  [Processor 4 3 20 (replicate 16 0); Processor 5 0 20 (replicate 16 0);
   Processor 6 1 20 (replicate 16 0);
   Bus 0 [73; 83; 65; 32; 32; 32]; Bus 1 [80; 67; 73; 32; 32; 32];
   IoApic {| io_apicid := 2; io_apicver := 17; io_flags := 1; io_apicaddr := 0xFEC00000 |};
   IntSrc {| is_irqtype := 0; is_irqflag := 0; is_srcbus := 0; is_srcbusirq := 1; is_dstapic := 2;
             is_dstirq := 1 |}].

Definition sample_lapic : Z := 0xFEE00000.

Definition sample_mem : bmem :=
  write_bytes (__va 0) (bytes_le 4 SMP_MAGIC_IDENT ++ bytes_le 4 0x100 ++ [1; 4; 0; 0; 0; 0; 0; 0])
  (write_bytes (__va 0x100)
     (table_header 4 0 sample_lapic (44 + table_size sample_entries) (replicate 28 32) (replicate 4 0)
      ++ concat (encode_entry <$> sample_entries))
  (write_bytes (__va 0x1000) (ISA ++ [0])
  (write_bytes (__va 0x1010) (PCI ++ [0])
  (write_bytes (__va 0x1020) PCMP
  (write_bytes (__va 0x2000) (replicate 7 0) ∅))))).

Definition sample_read := smp_read_mpc (__va 0x2000) (__va 0x1000) (__va 0x1010) (__va 0x1020) sample_mem (__va 0x100).

Definition boot_tables : mp_state :=
  {| smp_found_config := 0; mp_lapic_addr := 0; mpf_found := 0;
     cpus := {| disabled_cpus := 0; boot_cpu_id := 0; num_processors := 0; cpu_present_map := 0;
                bios_cpu_apicid := [255; 255]; x86_cpu_to_apicid := [255; 255] |};
     buses := {| mp_current_pci_id := 0; mp_bus_not_pci := ∅;
                 mp_bus_id_to_pci_bus := replicate 256 (u64 (- 1)) |};
     apics := {| nr_ioapics := 0; mp_ioapics := [] |};
     irqs := {| mp_irq_entries := 0; mp_irqs := [] |} |}.

Lemma sample_table_at :
  table_at (__va 0x2000) (__va 0x1000) (__va 0x1010) (__va 0x1020) sample_mem (__va 0x100) 4
    sample_lapic sample_entries.
Proof.
  split.
  - split.
    + intros x Hx. change (__va 8192) with 0xFFFF800000002000 in Hx.
      assert (Hd : x = 0xFFFF800000002000 \/ x = 0xFFFF800000002001 \/ x = 0xFFFF800000002002 \/
        x = 0xFFFF800000002003 \/ x = 0xFFFF800000002004 \/ x = 0xFFFF800000002005 \/
        x = 0xFFFF800000002006) by lia.
      repeat (destruct Hd as [->|Hd]; [by exists 0; vm_compute|]). subst x. by exists 0; vm_compute.
    + split; [by vm_compute | repeat constructor; lia].
    + split; [by vm_compute | repeat constructor; lia].
    + by vm_compute.
    + vm_compute. left. discriminate.
    + vm_compute. left. discriminate.
  - exists 0, (replicate 28 32), (replicate 4 0). split; [done|]. split; [done|]. by vm_compute.
  - assert (Hr : Forall (fun e => Forall (fun b => 0 <= b /\ b < 256) (encode_entry e)) sample_entries)
      by (apply (bool_decide_unpack _); vm_compute; done).
    unfold sample_entries in *. repeat (apply Forall_cons in Hr as [? Hr]).
    repeat (apply Forall_cons_2; [split; [done|] |]); [by vm_compute || (simpl; lia) ..|].
    apply Forall_nil_2.
  - vm_compute. reflexivity.
  - vm_compute. left. discriminate.
Qed.

Lemma reset_tables_ok : tables_ok (reset_tables boot_tables).
Proof.
  split; cbn; try done; by left.
Qed.

Lemma mp_spec_init_reads_table_witness :
  mp_spec_init (__va 0x2000) (__va 0x1000) (__va 0x1010) (__va 0x1020) sample_mem boot_tables
  = apply_entries sample_entries
      (with_lapic sample_lapic (reset_tables (with_mpf (__va 0) boot_tables))).
Proof.
  apply (mp_spec_init_reads_table _ _ _ _ _ _ (with_mpf (__va 0) boot_tables) 0x100 4).
  - vm_compute. reflexivity.
  - vm_compute. reflexivity.
  - vm_compute. reflexivity.
  - lia.
  - exact sample_table_at.
  - right. reflexivity.
  - split; reflexivity.
Defined.

Lemma mp_tables_bounded_witness :
  exists st', sample_read (reset_tables boot_tables) = Ret (CAOS_TRUE, st') /\ tables_ok st' /\
    mp_irq_entries (irqs st') = 1.
Proof.
  apply (mp_tables_bounded _ _ _ _ _ _ 4 sample_lapic sample_entries (reset_tables boot_tables)
    sample_table_at).
  - right. reflexivity.
  - split; reflexivity.
  - exact reset_tables_ok.
  - reflexivity.
  - reflexivity.
Defined.

Lemma processors_enumerated_witness :
  exists st', sample_read (reset_tables boot_tables) = Ret (CAOS_TRUE, st') /\
    cpus_hold [4; 6] (cpus st') /\ boot_cpu_id (cpus st') = 4.
Proof.
  apply (processors_enumerated _ _ _ _ _ _ 4 sample_lapic sample_entries (reset_tables boot_tables)
    4 [6] sample_table_at).
  - right. reflexivity.
  - split; reflexivity.
  - exact reset_tables_ok.
  - reflexivity.
  - reflexivity.
  - reflexivity.
  - reflexivity.
Defined.

Lemma scan_finds_first_witness :
  exists r, smp_scan_config 0 16 sample_mem boot_tables = Ret r.
Proof.
  destruct (scan_finds_first 0 1 sample_mem boot_tables)
    as [(k & _ & _ & _ & E)|[_ E]].
  - reflexivity.
  - intros x Hx.
    apply (bytes_at_mapped sample_mem (__va 0)
      (bytes_le 4 SMP_MAGIC_IDENT ++ bytes_le 4 0x100 ++ [1; 4; 0; 0; 0; 0; 0; 0])).
    + apply bytes_at_written.
    + exact Hx.
  - eexists. exact E.
  - eexists. exact E.
Defined.

Lemma unknown_entry_never_ends_witness :
  read_entries 0 0 0 1000 {[200 := 5]} 200 44 50 boot_tables = NoFuel.
Proof. apply (unknown_entry_never_ends 0 0 0 1000 {[200 := 5]} 200 44 50 boot_tables 5); reflexivity. Defined.

Lemma boot_processor_second_witness :
  exists st', apply_entries [Processor 7 CPU_ENABLED 20 [];
                             Processor 9 (Z.lor CPU_ENABLED CPU_BOOTPROCESSOR) 20 []] (reset_tables boot_tables) = Ret st' /\
    num_processors (cpus st') = 2 /\ cpu_present_map (cpus st') = 1 /\
    bios_cpu_apicid (cpus st') !! 0%nat = Some 9 /\
    bios_cpu_apicid (cpus st') !! 1%nat = Some 255.
Proof.
  apply (boot_processor_second 7 9 20 20 [] [] (reset_tables boot_tables)
    reset_tables_ok); reflexivity.
Defined.
