(* ===== verification/Descriptors.v ===== *)
(** * Descriptor tables (idt.c, gdt.c)

    The interrupt descriptor table with its gates and the global descriptor
    table with the descriptor of the task state segment: what the kernel writes
    into the descriptors, and what the processor reads from them. The entry
    points of interrupts are assembly code; their addresses are given. *)

From S2P Require Import Prelude BootMem.

(** ** Data *)

Definition DESTYPE_INT : Z := 0x8e00.
Definition DESTYPE_TRAP : Z := 0x8f00.
Definition DESTYPE_SYS : Z := 0xef00.
Definition IDT_SIZE : Z := 256.
Definition __KERNEL_CS64 : Z := 0x18.
Definition __KERNEL_DS64 : Z := 0x20.

Record idt_desc := {
  offset0_15 : Z;
  selector : Z;
  type : Z;
  offset16_31 : Z;
  offset32_63 : Z;
  reserved : Z
}.

(** The operand of [lidt] and [lgdt]. *)
Record desc_ptr := { size : Z; address : Z }.

Record gdt_desc := { l : Z; h : Z }.

Definition no_gate : idt_desc :=
  {| offset0_15 := 0; selector := 0; type := 0; offset16_31 := 0; offset32_63 := 0; reserved := 0 |}.

(** ** The interrupt descriptor table *)

Definition gate (t handler : Z) : idt_desc :=
  {| offset0_15 := u16 (Z.land handler 0xffff);
     selector := __KERNEL_CS64;
     type := t;
     offset16_31 := u16 (Z.shiftr (Z.land handler 0xFFFF0000) 16);
     offset32_63 := u32 (Z.shiftr (Z.land handler 0xFFFFFFFF00000000) 32);
     reserved := u32 0 |}.

Definition set_intr_gate (num handler : Z) (t : list idt_desc) : res (list idt_desc) :=
  if num <? IDT_SIZE then aset t num (gate DESTYPE_INT handler) else Ret t.

Definition set_system_gate (num handler : Z) (t : list idt_desc) : res (list idt_desc) :=
  if num <? IDT_SIZE then aset t num (gate DESTYPE_SYS handler) else Ret t.

Definition set_trap_gate (num handler : Z) (t : list idt_desc) : res (list idt_desc) :=
  if num <? IDT_SIZE then aset t num (gate DESTYPE_TRAP handler) else Ret t.

(** The addresses of the entry points of exceptions. *)
Record except_entries := {
  _ignore_isr : Z;
  _divide_error : Z;
  _debug : Z;
  _nmi : Z;
  _int3 : Z;
  _overflow : Z;
  _bounds : Z;
  _invalid_op : Z;
  _device_not_available : Z;
  _doublefault_fn : Z;
  _coprocessor_segment_overrun : Z;
  _invalid_TSS : Z;
  _segment_not_present : Z;
  _stack_segment : Z;
  _general_protection : Z;
  _page_fault : Z;
  _coprocessor_error : Z;
  _alignment_check : Z;
  _machine_check : Z;
  _simd_coprocessor_error : Z
}.

(** The value IDTR gets. *)
Definition set_idt (newidt limit : Z) : desc_ptr := {| size := u16 limit; address := newidt |}.

(** The table, the value of IDTR, and the boot allocator. The page is cleared,
    so what it held does not matter. *)
Definition idt_init (e : except_entries) (b : bootmem)
    : res (list idt_desc * desc_ptr * bootmem) :=
  '(idt_table, b) ← alloc_bootmem 1 b;
  let t := replicate (Z.to_nat IDT_SIZE) no_gate in
  t ← for_loop (Z.to_nat IDT_SIZE) 0 (fun i t => set_trap_gate i (_ignore_isr e) t) t;
  let idtr := set_idt idt_table PAGE_SIZE in
  t ← set_trap_gate 0 (_divide_error e) t;
  t ← set_trap_gate 1 (_debug e) t;
  t ← set_intr_gate 2 (_nmi e) t;
  t ← set_system_gate 3 (_int3 e) t;
  t ← set_system_gate 4 (_overflow e) t;
  t ← set_system_gate 5 (_bounds e) t;
  t ← set_trap_gate 6 (_invalid_op e) t;
  t ← set_trap_gate 7 (_device_not_available e) t;
  t ← set_trap_gate 8 (_doublefault_fn e) t;
  t ← set_trap_gate 9 (_coprocessor_segment_overrun e) t;
  t ← set_trap_gate 10 (_invalid_TSS e) t;
  t ← set_trap_gate 11 (_segment_not_present e) t;
  t ← set_trap_gate 12 (_stack_segment e) t;
  t ← set_trap_gate 13 (_general_protection e) t;
  t ← set_intr_gate 14 (_page_fault e) t;
  t ← set_trap_gate 16 (_coprocessor_error e) t;
  t ← set_trap_gate 17 (_alignment_check e) t;
  t ← set_trap_gate 18 (_machine_check e) t;
  t ← set_trap_gate 19 (_simd_coprocessor_error e) t;
  Ret (t, idtr, b).

(** ** The global descriptor table *)

Definition set_gdt_desc (num addr offset type : Z) (t : list gdt_desc) : res (list gdt_desc) :=
  aset t num
    {| l := Z.lor (u32 (Z.land offset 0xffff)) (u32 (Z.shiftl (Z.land addr 0xffff) 16));
       h := Z.lor (Z.lor (Z.lor (Z.lor
              (u32 (Z.land addr 0xff000000))
              (u32 (Z.land (Z.shiftr addr 16) 0xff)))
              (u32 (Z.land offset 0xf0000)))
              (u32 (Z.land (u64 (Z.shiftl type 12)) 0xf00000)))
              (u32 (Z.land (u64 (Z.shiftl type 8)) 0xff00)) |}.

(** GDTR and the segment registers that are loaded with it. *)
Record seg_regs := { gdtr : desc_ptr; ds : Z; es : Z; ss : Z; fs : Z; gs : Z }.

Definition load_segments (g : desc_ptr) : seg_regs :=
  {| gdtr := g; ds := __KERNEL_DS64; es := __KERNEL_DS64; ss := __KERNEL_DS64;
     fs := __KERNEL_DS64; gs := __KERNEL_DS64 |}.

Definition set_gdt (newgdt limit : Z) : seg_regs :=
  load_segments {| size := u16 limit; address := newgdt |}.

(** Unused: another size for the same descriptor. *)
Definition set_tss_desc (num addr : Z) (t : list gdt_desc) : res (list gdt_desc) :=
  set_gdt_desc num addr 235 0x89 t.

(** The result is the table, the selector loaded into TR, the address of the
    segment and the boot allocator. The page of the segment is cleared; nothing
    reads it. *)
Definition set_tss (num : Z) (t : list gdt_desc) (b : bootmem)
    : res (list gdt_desc * Z * Z * bootmem) :=
  '(address, b) ← alloc_bootmem 1 b;
  let tss_selector := u16 (Z.shiftl num 3) in
  t ← set_gdt_desc num (u32 (Z.land address 0xFFFFFFFF)) 104 0x89 t;
  d ← aget t (num + 1);
  t ← aset t (num + 1) {| l := u32 (Z.land (Z.shiftr address 32) 0xFFFFFFFF); h := h d |};
  Ret (t, tss_selector, address, b).

(** [while (boot_gdt[i] != 0)]: the descriptors of the boot loader, each
    copied as two words. *)
Fixpoint copy_gdt (fuel : nat) (boot_gdt : list Z) (i : Z) (t : list gdt_desc) : res (list gdt_desc) :=
  match fuel with
  | O => NoFuel
  | S fuel' =>
      d ← aget boot_gdt i;
      if negb (d =? 0) then
        t ← aset t i {| l := u32 d; h := u32 (Z.shiftr d 32) |};
        copy_gdt fuel' boot_gdt (i + 1) t
      else Ret t
  end.

(** [page] is what the allocated page holds: it is not cleared. *)
Definition gdt_init (boot_gdt : list Z) (page : list gdt_desc) (b : bootmem)
    : res (list gdt_desc * seg_regs * Z * Z * bootmem) :=
  '(gdt_table, b) ← alloc_bootmem 1 b;
  t ← copy_gdt (S (length boot_gdt)) boot_gdt 1 page;
  let regs := set_gdt gdt_table PAGE_SIZE in
  '(t, tr, tss, b) ← set_tss 5 t b;
  Ret (t, regs, tr, tss, b).

(** ** What the processor reads *)

Definition gate_offset (d : idt_desc) : Z :=
  Z.lor (offset0_15 d) (Z.lor (Z.shiftl (offset16_31 d) 16) (Z.shiftl (offset32_63 d) 32)).
Definition gate_present (d : idt_desc) : bool := Z.testbit (type d) 15.
Definition gate_dpl (d : idt_desc) : Z := Z.land (Z.shiftr (type d) 13) 3.
(** The type field: 14 for an interrupt gate, 15 for a trap gate. *)
Definition gate_type (d : idt_desc) : Z := Z.land (Z.shiftr (type d) 8) 0xf.

(** The base of a code, data or system segment, and the 64-bit base of a system
    segment from its two entries. *)
Definition desc_base (d : gdt_desc) : Z :=
  Z.lor (Z.shiftr (l d) 16) (Z.lor (Z.shiftl (Z.land (h d) 0xff) 16) (Z.land (h d) 0xff000000)).
Definition desc_limit (d : gdt_desc) : Z := Z.lor (Z.land (l d) 0xffff) (Z.land (h d) 0xf0000).
Definition desc_access (d : gdt_desc) : Z := Z.land (Z.shiftr (h d) 8) 0xff.
Definition desc_flags (d : gdt_desc) : Z := Z.land (Z.shiftr (h d) 20) 0xf.
Definition system_base (d d' : gdt_desc) : Z := desc_base d + Z.shiftl (l d') 32.

(** ** Bits of fields *)

(** [n] ones from bit [s] on. *)
Definition mask (s n : Z) : Z := Z.shiftl (Z.ones n) s.

(** The field of [n] bits from bit [s] on. *)
Lemma mask_field h s n : 0 <= s -> 0 <= n -> Z.shiftr (Z.land h (mask s n)) s = h / 2 ^ s mod 2 ^ n.
Proof.
  intros Hs Hn. unfold mask. rewrite Z.shiftr_land, Z.shiftr_shiftl_l, Z.sub_diag, Z.shiftl_0_r by lia.
  by rewrite Z.land_ones, Z.shiftr_div_pow2 by lia.
Qed.

Lemma mask_field_0 h n : 0 <= n -> Z.land h (mask 0 n) = h mod 2 ^ n.
Proof. intros Hn. unfold mask. rewrite Z.shiftl_0_r. by apply Z.land_ones. Qed.

(** A field in its place. *)
Lemma mask_in_place h s n :
  0 <= s -> 0 <= n -> Z.land h (mask s n) = (h / 2 ^ s mod 2 ^ n) * 2 ^ s.
Proof.
  intros Hs Hn. rewrite <- mask_field, <- Z.shiftl_mul_pow2 by done.
  apply Z.bits_inj'. intros k Hk. rewrite Z.shiftl_spec, !Z.land_spec by done. unfold mask.
  destruct (decide (k < s)).
  - rewrite Z.shiftl_spec, (Z.testbit_neg_r _ (k - s)) by lia. rewrite andb_false_r.
    symmetry. apply Z.testbit_neg_r. lia.
  - rewrite Z.shiftr_spec, Z.land_spec by lia. do 2 f_equal; lia.
Qed.

(** Two words without a common bit: the second is a multiple of [2 ^ s]. *)
Lemma lor_add a b s : 0 <= s -> 0 <= a < 2 ^ s -> Z.lor a (b * 2 ^ s) = a + b * 2 ^ s.
Proof.
  intros Hs Ha. assert (Hd : Z.land a (b * 2 ^ s) = 0).
  { apply Z.bits_inj'. intros k Hk.
    rewrite Z.land_spec, Z.bits_0, <- Z.shiftl_mul_pow2, Z.shiftl_spec by lia.
    destruct (decide (k < s)).
    + rewrite (Z.testbit_neg_r _ (k - s)) by lia. apply andb_false_r.
    + destruct (decide (a = 0)) as [->|]; [by rewrite Z.bits_0|].
      rewrite Z.bits_above_log2; [done | lia|]. apply Z.log2_lt_pow2; [lia|].
      assert (2 ^ s <= 2 ^ k) by (apply Z.pow_le_mono_r; lia). lia. }
  by rewrite <- Z.lxor_lor, <- Z.add_nocarry_lxor by exact Hd.
Qed.

Lemma field_range h s n : 0 <= n -> 0 <= h / 2 ^ s mod 2 ^ n < 2 ^ n.
Proof. intros Hn. apply Z.mod_pos_bound. by apply Z.pow_pos_nonneg. Qed.

(** ** Gates *)

Lemma gate_decodes t handler :
  0 <= handler < 2 ^ 64 -> gate_offset (gate t handler) = handler.
Proof.
  intros Hh. unfold gate_offset, gate. cbn [offset0_15 offset16_31 offset32_63].
  change 0xffff with (mask 0 16). change 0xFFFF0000 with (mask 16 16).
  change 0xFFFFFFFF00000000 with (mask 32 32).
  rewrite mask_field_0, !mask_field by lia.
  pose proof (field_range handler 16 16 ltac:(lia)). pose proof (field_range handler 32 32 ltac:(lia)).
  pose proof (Z.mod_pos_bound handler (2 ^ 16) ltac:(lia)).
  rewrite !wrap_small by done. rewrite !Z.shiftl_mul_pow2 by lia.
  rewrite (lor_add _ _ 32) by lia.
  replace (handler / 2 ^ 16 mod 2 ^ 16 * 2 ^ 16 + handler / 2 ^ 32 mod 2 ^ 32 * 2 ^ 32)
    with ((handler / 2 ^ 16 mod 2 ^ 16 + handler / 2 ^ 32 mod 2 ^ 32 * 2 ^ 16) * 2 ^ 16) by lia.
  rewrite lor_add by lia. clear -Hh. Z.to_euclidean_division_equations. lia.
Qed.

(** ** Segments *)

Lemma lor_sort a b c d e :
  Z.lor (Z.lor (Z.lor (Z.lor a b) c) d) e = Z.lor (Z.lor (Z.lor (Z.lor b e) c) d) a.
Proof.
  apply Z.bits_inj'. intros k _. rewrite !Z.lor_spec.
  by destruct (Z.testbit a k), (Z.testbit b k), (Z.testbit c k), (Z.testbit d k), (Z.testbit e k).
Qed.

(** The two words as sums of their fields. *)
Lemma low_word addr offset :
  Z.lor (u32 (Z.land offset 0xffff)) (u32 (Z.shiftl (Z.land addr 0xffff) 16))
  = offset mod 2 ^ 16 + addr mod 2 ^ 16 * 2 ^ 16.
Proof.
  change 0xffff with (mask 0 16). rewrite !mask_field_0, Z.shiftl_mul_pow2 by lia.
  pose proof (Z.mod_pos_bound offset (2 ^ 16) ltac:(lia)).
  pose proof (Z.mod_pos_bound addr (2 ^ 16) ltac:(lia)).
  rewrite !wrap_small by lia. by apply lor_add.
Qed.

Lemma high_word addr offset ty :
  0 <= addr < 2 ^ 32 -> 0 <= offset < 2 ^ 32 -> 0 <= ty < 2 ^ 32 ->
  Z.lor (Z.lor (Z.lor (Z.lor (u32 (Z.land addr 0xff000000)) (u32 (Z.land (Z.shiftr addr 16) 0xff)))
      (u32 (Z.land offset 0xf0000))) (u32 (Z.land (u64 (Z.shiftl ty 12)) 0xf00000)))
      (u32 (Z.land (u64 (Z.shiftl ty 8)) 0xff00))
  = addr / 2 ^ 16 mod 2 ^ 8 + ty mod 2 ^ 8 * 2 ^ 8 + offset / 2 ^ 16 mod 2 ^ 4 * 2 ^ 16
    + ty / 2 ^ 8 mod 2 ^ 4 * 2 ^ 20 + addr / 2 ^ 24 * 2 ^ 24.
Proof.
  intros Ha Ho Ht. rewrite lor_sort.
  change 0xff000000 with (mask 24 8). change 0xff00 with (mask 8 8). change 0xff with (mask 0 8).
  change 0xf00000 with (mask 20 4). change 0xf0000 with (mask 16 4).
  rewrite !Z.shiftl_mul_pow2 by lia. rewrite (wrap_small 64 (ty * _)), (wrap_small 64 (ty * _)) by lia.
  rewrite mask_field_0, !mask_in_place, Z.shiftr_div_pow2 by lia.
  rewrite Z.div_mul by lia. replace (ty * 2 ^ 12 / 2 ^ 20) with (ty / 2 ^ 8)
    by (rewrite <- (Z.div_mul_cancel_r ty (2 ^ 8) (2 ^ 12)) by lia; done).
  assert (Ha24 : addr / 2 ^ 24 mod 2 ^ 8 = addr / 2 ^ 24).
  { apply Z.mod_small. split; [apply Z.div_pos; lia | apply Z.div_lt_upper_bound; lia]. }
  rewrite Ha24.
  pose proof (field_range addr 16 8 ltac:(lia)). pose proof (field_range offset 16 4 ltac:(lia)).
  pose proof (field_range ty 8 4 ltac:(lia)). pose proof (Z.mod_pos_bound ty (2 ^ 8) ltac:(lia)).
  assert (0 <= addr / 2 ^ 24 < 2 ^ 8) by (rewrite <- Ha24; apply field_range; lia).
  rewrite !wrap_small by lia.
  rewrite (lor_add _ _ 8) by lia. rewrite (lor_add _ _ 16) by lia.
  rewrite (lor_add _ _ 20) by lia. rewrite (lor_add _ _ 24) by lia. done.
Qed.

Lemma gdt_desc_decodes num addr offset ty t :
  0 <= num < Z.of_nat (length t) -> 0 <= addr < 2 ^ 32 -> 0 <= offset < 2 ^ 32 -> 0 <= ty < 2 ^ 32 ->
  exists d, set_gdt_desc num addr offset ty t = Ret (<[Z.to_nat num := d]> t) /\
    desc_base d = addr /\ desc_limit d = offset mod 2 ^ 20 /\ desc_access d = ty mod 2 ^ 8 /\
    desc_flags d = ty / 2 ^ 8 mod 2 ^ 4.
Proof.
  intros Hn Ha Ho Ht. unfold set_gdt_desc. rewrite aset_lt by done. eexists. split; [done|].
  unfold desc_base, desc_limit, desc_access, desc_flags. cbn [l h].
  rewrite low_word, high_word by done. set (hw := _ + _ * 2 ^ 24). set (lw := _ + _ * 2 ^ 16).
  change 0xffff with (mask 0 16). change 0xff000000 with (mask 24 8). change 0xff with (mask 0 8).
  change 0xf0000 with (mask 16 4). change 0xf with (mask 0 4).
  rewrite !mask_field_0, !mask_in_place, !Z.shiftr_div_pow2, Z.shiftl_mul_pow2 by lia.
  pose proof (Z.mod_pos_bound offset (2 ^ 16) ltac:(lia)) as B1.
  pose proof (Z.mod_pos_bound addr (2 ^ 16) ltac:(lia)) as B2.
  pose proof (field_range addr 16 8 ltac:(lia)) as B3. pose proof (field_range offset 16 4 ltac:(lia)) as B4.
  pose proof (field_range ty 8 4 ltac:(lia)) as B5. pose proof (Z.mod_pos_bound ty (2 ^ 8) ltac:(lia)) as B6.
  assert (B7 : 0 <= addr / 2 ^ 24 < 2 ^ 8).
  { split; [apply Z.div_pos; lia | apply Z.div_lt_upper_bound; lia]. }
  assert (L1 : lw / 2 ^ 16 = addr mod 2 ^ 16).
  { unfold lw. rewrite Z.div_add, Z.div_small by lia. lia. }
  assert (L0 : lw mod 2 ^ 16 = offset mod 2 ^ 16).
  { unfold lw. rewrite Z.mod_add, Z.mod_small by lia. done. }
  assert (H0 : hw mod 2 ^ 8 = addr / 2 ^ 16 mod 2 ^ 8 /\ hw / 2 ^ 8 mod 2 ^ 8 = ty mod 2 ^ 8 /\
    hw / 2 ^ 16 mod 2 ^ 4 = offset / 2 ^ 16 mod 2 ^ 4 /\
    hw / 2 ^ 20 mod 2 ^ 4 = ty / 2 ^ 8 mod 2 ^ 4 /\ hw / 2 ^ 24 mod 2 ^ 8 = addr / 2 ^ 24).
  { unfold hw. clear -B3 B4 B5 B6 B7.
    generalize dependent (addr / 2 ^ 16 mod 2 ^ 8). generalize dependent (ty mod 2 ^ 8).
    generalize dependent (offset / 2 ^ 16 mod 2 ^ 4). generalize dependent (ty / 2 ^ 8 mod 2 ^ 4).
    generalize dependent (addr / 2 ^ 24). intros. clear -B3 B4 B5 B6 B7.
    split_and!; Z.to_euclidean_division_equations; lia. }
  destruct H0 as (-> & -> & -> & -> & ->). rewrite L0, L1. split_and!; try done.
  - rewrite (lor_add _ _ 24) by lia.
    replace (addr / 2 ^ 16 mod 2 ^ 8 * 2 ^ 16 + addr / 2 ^ 24 * 2 ^ 24)
      with ((addr / 2 ^ 16 mod 2 ^ 8 + addr / 2 ^ 24 * 2 ^ 8) * 2 ^ 16) by lia.
    rewrite lor_add by lia. clear -Ha. Z.to_euclidean_division_equations. lia.
  - rewrite lor_add by lia. clear -Ho. Z.to_euclidean_division_equations. lia.
Qed.

(** ** The table after [idt_init] *)

(** The handler of a vector and the type of its gate. *)
Definition exception_gate (e : except_entries) (v : Z) : Z * Z :=
  match v with
  | 0 => (_divide_error e, DESTYPE_TRAP)
  | 1 => (_debug e, DESTYPE_TRAP)
  | 2 => (_nmi e, DESTYPE_INT)
  | 3 => (_int3 e, DESTYPE_SYS)
  | 4 => (_overflow e, DESTYPE_SYS)
  | 5 => (_bounds e, DESTYPE_SYS)
  | 6 => (_invalid_op e, DESTYPE_TRAP)
  | 7 => (_device_not_available e, DESTYPE_TRAP)
  | 8 => (_doublefault_fn e, DESTYPE_TRAP)
  | 9 => (_coprocessor_segment_overrun e, DESTYPE_TRAP)
  | 10 => (_invalid_TSS e, DESTYPE_TRAP)
  | 11 => (_segment_not_present e, DESTYPE_TRAP)
  | 12 => (_stack_segment e, DESTYPE_TRAP)
  | 13 => (_general_protection e, DESTYPE_TRAP)
  | 14 => (_page_fault e, DESTYPE_INT)
  | 16 => (_coprocessor_error e, DESTYPE_TRAP)
  | 17 => (_alignment_check e, DESTYPE_TRAP)
  | 18 => (_machine_check e, DESTYPE_TRAP)
  | 19 => (_simd_coprocessor_error e, DESTYPE_TRAP)
  | _ => (_ignore_isr e, DESTYPE_TRAP)
  end.

Definition vector_gate (e : except_entries) (v : Z) : idt_desc :=
  let '(handler, t) := exception_gate e v in gate t handler.

Lemma exception_gate_default e v : 20 <= v -> exception_gate e v = (_ignore_isr e, DESTYPE_TRAP).
Proof.
  intros Hv. destruct v as [|p|p]; [lia | | lia].
  do 5 (destruct p as [p|p|]; try lia; try done).
Qed.

Lemma set_gates_ok (set : Z -> Z -> list idt_desc -> res (list idt_desc)) ty num handler t :
  (forall num handler t, set num handler t =
     if num <? IDT_SIZE then aset t num (gate ty handler) else Ret t) ->
  Z.of_nat (length t) = 256 -> 0 <= num < 256 ->
  set num handler t = Ret (<[Z.to_nat num := gate ty handler]> t).
Proof.
  intros Hs Hl Hn. rewrite Hs. unfold IDT_SIZE. rewrite (proj2 (Z.ltb_lt _ _)) by lia.
  apply aset_lt. lia.
Qed.

Lemma default_gates (handler : Z) :
  for_loop (Z.to_nat IDT_SIZE) 0 (fun i t => set_trap_gate i handler t)
    (replicate (Z.to_nat IDT_SIZE) no_gate)
  = Ret (replicate (Z.to_nat IDT_SIZE) (gate DESTYPE_TRAP handler)).
Proof.
  destruct (for_loop_inv (fun i t => length t = 256%nat /\
      forall k, 0 <= k < i -> t !! Z.to_nat k = Some (gate DESTYPE_TRAP handler))
    (Z.to_nat IDT_SIZE) 0 (fun i t => set_trap_gate i handler t)
    (replicate (Z.to_nat IDT_SIZE) no_gate)) as (t & -> & Hl & Ht).
  - split; [apply length_replicate | lia].
  - intros j t Hj [Hl Ht]. unfold IDT_SIZE in Hj.
    rewrite (set_gates_ok set_trap_gate DESTYPE_TRAP) by (done || lia). eexists. split; [done|].
    rewrite length_insert. split; [done|]. intros k Hk. destruct (decide (k = j)) as [->|].
    + by rewrite list_lookup_insert_eq by lia.
    + rewrite list_lookup_insert_ne by lia. apply Ht. lia.
  - f_equal. apply list_eq. intros i. destruct (decide (i < 256)%nat) as [Hi|Hi].
    + rewrite (lookup_replicate_2 (Z.to_nat IDT_SIZE)) by (unfold IDT_SIZE; lia).
      rewrite <- (Ht (Z.of_nat i)) by (unfold IDT_SIZE; lia). by rewrite Nat2Z.id.
    + rewrite !lookup_ge_None_2; [done | rewrite length_replicate; unfold IDT_SIZE; lia | lia].
Qed.

Lemma gate_bind {B} (set : Z -> Z -> list idt_desc -> res (list idt_desc)) ty num handler t
    (k : list idt_desc -> res B) :
  (forall num handler t, set num handler t =
     if num <? IDT_SIZE then aset t num (gate ty handler) else Ret t) ->
  Z.of_nat (length t) = 256 -> 0 <= num < 256 ->
  (set num handler t ≫= k) = k (<[Z.to_nat num := gate ty handler]> t).
Proof. intros Hs Hl Hn. by rewrite (set_gates_ok set ty) by done. Qed.

Ltac step_gate :=
  first
    [ rewrite (gate_bind set_trap_gate DESTYPE_TRAP)
    | rewrite (gate_bind set_intr_gate DESTYPE_INT)
    | rewrite (gate_bind set_system_gate DESTYPE_SYS) ];
  [ cbv beta | intros; reflexivity
  | rewrite ?length_insert, length_replicate; reflexivity | lia ].

(** Looks a vector up below the gates written after it. *)
Ltac find_gate :=
  repeat (rewrite list_lookup_insert_ne by lia);
  first
    [ rewrite list_lookup_insert_eq by (rewrite ?length_insert, length_replicate; unfold IDT_SIZE; lia)
    | rewrite lookup_replicate_2 by (unfold IDT_SIZE; lia) ];
  reflexivity.

Lemma idt_init_spec e b :
  bm_ok b -> bootmem_page_index b + 1 < bootmem_page_max b ->
  exists t, idt_init e b
    = Ret (t, {| size := 4096; address := PAGE_OFFSET + 4096 * bootmem_page_index b |}, taken 1 b) /\
    length t = 256%nat /\ forall v, 0 <= v < 256 -> t !! Z.to_nat v = Some (vector_gate e v).
Proof.
  intros Hb Hm. unfold idt_init. rewrite alloc_bootmem_ok by (done || lia). cbn [mbind res_bind].
  rewrite default_gates. cbn [mbind res_bind].
  change (u16 PAGE_SIZE) with 4096. do 19 step_gate. eexists. split; [reflexivity|]. rewrite !length_insert. split; [done|].
  intros v Hv. unfold vector_gate. clear Hb Hm. destruct (decide (v < 20)) as [Hlt|Hge].
  - assert (Hd : v = 0 \/ v = 1 \/ v = 2 \/ v = 3 \/ v = 4 \/ v = 5 \/ v = 6 \/ v = 7 \/ v = 8 \/ v = 9 \/
      v = 10 \/ v = 11 \/ v = 12 \/ v = 13 \/ v = 14 \/ v = 15 \/ v = 16 \/ v = 17 \/ v = 18 \/ v = 19) by lia.
    repeat (destruct Hd as [->|Hd]; [find_gate|]). subst v. find_gate.
  - rewrite !list_lookup_insert_ne by lia. rewrite lookup_replicate_2 by (unfold IDT_SIZE; lia).
    rewrite exception_gate_default by lia. done.
Qed.

(** ** The global table *)

Lemma copy_gdt_spec boot_gdt k : forall fuel i t,
  1 <= i <= k -> Z.of_nat (length boot_gdt) <= 2 ^ 32 -> k <= Z.of_nat (length t) ->
  boot_gdt !! Z.to_nat k = Some 0 -> k - i < Z.of_nat fuel ->
  (forall j, i <= j < k -> exists d, boot_gdt !! Z.to_nat j = Some d /\ d <> 0) ->
  exists t', copy_gdt fuel boot_gdt i t = Ret t' /\ length t' = length t /\
    (forall j, i <= j < k -> exists d, boot_gdt !! Z.to_nat j = Some d /\
       t' !! Z.to_nat j = Some {| l := u32 d; h := u32 (Z.shiftr d 32) |}) /\
    (forall j, 0 <= j -> ~ (i <= j < k) -> t' !! Z.to_nat j = t !! Z.to_nat j).
Proof.
  induction fuel as [|fuel IH]; intros i t Hi Hl Ht Hk Hf Hnz; [lia|]. cbn [copy_gdt].
  destruct (decide (i = k)) as [->|Hne].
  - rewrite (proj2 (aget_Ret boot_gdt k 0)) by (split; [lia | done]). cbn.
    exists t. split_and!; [done | done | lia | done].
  - destruct (Hnz i) as (d & Hd & Hd0); [lia|].
    rewrite (proj2 (aget_Ret boot_gdt i d)) by (split; [lia | done]). cbn [mbind res_bind].
    rewrite (proj2 (Z.eqb_neq d 0)) by done. cbn [negb]. rewrite aset_lt by lia. cbn [mbind res_bind].
    destruct (IH (i + 1) (<[Z.to_nat i := {| l := u32 d; h := u32 (Z.shiftr d 32) |}]> t))
      as (t' & -> & Hlt & Hin & Hout); [lia | done | rewrite length_insert; lia | done | lia | |].
    { intros j Hj. apply Hnz. lia. }
    exists t'. rewrite length_insert in Hlt. split; [done|]. split; [done|]. split.
    + intros j Hj. destruct (decide (j = i)) as [->|]; [|apply Hin; lia]. exists d. split; [done|].
      rewrite Hout by lia. by rewrite list_lookup_insert_eq by lia.
    + intros j Hj0 Hj. rewrite Hout by lia. by rewrite list_lookup_insert_ne by lia.
Qed.

Lemma gdt_init_spec boot_gdt page b k :
  bm_ok b -> bootmem_page_index b + 2 < bootmem_page_max b ->
  Z.of_nat (length boot_gdt) <= 2 ^ 32 -> length page = 512%nat -> 1 <= k <= 5 ->
  boot_gdt !! Z.to_nat k = Some 0 ->
  (forall j, 1 <= j < k -> exists d, boot_gdt !! Z.to_nat j = Some d /\ d <> 0) ->
  exists t tr tss, gdt_init boot_gdt page b
      = Ret (t, load_segments {| size := 4096; address := PAGE_OFFSET + 4096 * bootmem_page_index b |},
             tr, tss, taken 2 b) /\
    (forall j, 1 <= j < k -> exists d, boot_gdt !! Z.to_nat j = Some d /\
       t !! Z.to_nat j = Some {| l := u32 d; h := u32 (Z.shiftr d 32) |}) /\
    tr = 8 * 5 /\ tss = PAGE_OFFSET + 4096 * (bootmem_page_index b + 1) /\
    exists d d' p', t !! 5%nat = Some d /\ t !! 6%nat = Some d' /\ page !! 6%nat = Some p' /\
      system_base d d' = tss /\ desc_limit d = 104 /\ desc_access d = 0x89 /\ desc_flags d = 0 /\
      h d' = h p'.
Proof.
  intros Hb Hm Hlb Hlp Hk Hzero Hnz. unfold gdt_init.
  rewrite alloc_bootmem_ok by (done || lia). cbn [mbind res_bind].
  destruct (copy_gdt_spec boot_gdt k (S (length boot_gdt)) 1 page) as (t & -> & Hlt & Hin & Hout);
    [lia | done | lia | done | apply lookup_lt_Some in Hzero; lia | done |].
  cbn [mbind res_bind]. unfold set_tss. set (b1 := {| bootmem_page_index := _ + 1 |}).
  assert (Hb1 : bm_ok b1) by (destruct Hb; split; simpl; lia).
  rewrite alloc_bootmem_ok by (done || (simpl; lia)). cbn [mbind res_bind bootmem_page_index b1].
  set (tss := PAGE_OFFSET + 4096 * (bootmem_page_index b + 1)).
  assert (Htss : 0 <= tss < 2 ^ 64).
  { pose proof (bm_max b Hb). pose proof (bm_start b Hb). unfold tss, PAGE_OFFSET. lia. }
  change 0xFFFFFFFF with (mask 0 32). rewrite !mask_field_0 by lia.
  pose proof (Z.mod_pos_bound tss (2 ^ 32) ltac:(lia)) as Hlow.
  rewrite (wrap_small 32 (tss mod 2 ^ 32)) by done.
  destruct (gdt_desc_decodes 5 (tss mod 2 ^ 32) 104 0x89 t) as (d & -> & D1 & D2 & D3 & D4); [lia.. |].
  cbn [mbind res_bind]. destruct (lookup_lt_is_Some_2 page 6) as [p6 Hp6]; [lia|].
  assert (Ht6 : <[Z.to_nat 5 := d]> t !! Z.to_nat (5 + 1) = Some p6).
  { rewrite list_lookup_insert_ne by lia. rewrite <- Hp6. apply (Hout 6); lia. }
  rewrite (proj2 (aget_Ret _ (5 + 1) p6)) by (split; [lia | done]). cbn [mbind res_bind].
  rewrite aset_lt by (rewrite length_insert; lia). cbn [mbind res_bind].
  eexists _, _, _. split.
  { unfold b1, taken. cbn [bootmem_page_start bootmem_page_max].
    replace (bootmem_page_index b + 1 + 1) with (bootmem_page_index b + 2) by lia. done. }
  split; [|split; [done|]; split; [done|]].
  - intros j Hj. rewrite !list_lookup_insert_ne by lia. by apply Hin.
  - eexists d, _, p6. rewrite (list_lookup_insert_ne _ _ 5) by lia.
    rewrite list_lookup_insert_eq by lia. split; [done|].
    rewrite list_lookup_insert_eq by (rewrite length_insert; lia). split; [done|]. split; [done|].
    cbn [h]. split_and!; try done. unfold system_base. rewrite D1. cbn [l].
    rewrite Z.shiftr_div_pow2, Z.shiftl_mul_pow2 by lia.
    rewrite (Z.mod_small (tss / 2 ^ 32)).
    2:{ split; [apply Z.div_pos; lia | apply Z.div_lt_upper_bound; lia]. }
    rewrite wrap_small.
    + pose proof (Z.div_mod tss (2 ^ 32)). lia.
    + split; [apply Z.div_pos; lia | apply Z.div_lt_upper_bound; lia].
Qed.

(** ** Types *)

(** A gate as the processor wants it in 64-bit mode: the fields fit their bits,
    the kernel's code segment is selected, the reserved word is 0, and of the
    16 bits of the type those of the stack table and bit 12 are 0, the gate is
    present, open to the kernel only or to all, and an interrupt gate or a trap
    gate. *)
Definition gate_formed (d : idt_desc) : Prop :=
  0 <= offset0_15 d < 2 ^ 16 /\ 0 <= offset16_31 d < 2 ^ 16 /\ 0 <= offset32_63 d < 2 ^ 32 /\
  selector d = __KERNEL_CS64 /\ reserved d = 0 /\
  0 <= type d < 2 ^ 16 /\ type d mod 2 ^ 8 = 0 /\ Z.testbit (type d) 12 = false /\
  gate_present d = true /\ (gate_dpl d = 0 \/ gate_dpl d = 3) /\ (gate_type d = 14 \/ gate_type d = 15).

(** A place of the table: cleared, or such a gate. *)
Definition gate_typed (d : idt_desc) : Prop := d = no_gate \/ gate_formed d.

Definition idt_typed (t : list idt_desc) : Prop := length t = 256%nat /\ Forall gate_typed t.

Definition gdt_typed (t : list gdt_desc) : Prop :=
  length t = 512%nat /\ Forall (fun d => 0 <= l d < 2 ^ 32 /\ 0 <= h d < 2 ^ 32) t.

(** The setters, with the privilege level and the type of their gates. *)
Definition gate_setters : list ((Z -> Z -> list idt_desc -> res (list idt_desc)) * Z * Z) :=
  [(set_intr_gate, 0, 14); (set_system_gate, 3, 15); (set_trap_gate, 0, 15)].

Lemma gate_is_formed t handler : t ∈ [DESTYPE_INT; DESTYPE_TRAP; DESTYPE_SYS] -> gate_formed (gate t handler).
Proof.
  intros Ht. unfold gate_formed, gate_present, gate_dpl, gate_type, gate.
  cbn [offset0_15 selector type offset16_31 offset32_63 reserved].
  split; [apply wrap_range; lia|]. split; [apply wrap_range; lia|]. split; [apply wrap_range; lia|].
  split; [done|]. split; [done|].
  repeat (apply elem_of_cons in Ht as [->|Ht];
    [split; [unfold DESTYPE_INT, DESTYPE_TRAP, DESTYPE_SYS; lia|]; vm_compute; tauto|]).
  by apply not_elem_of_nil in Ht.
Qed.

Lemma aset_typed {A} (Q : A -> Prop) n (t : list A) i x t' :
  Q x -> length t = n /\ Forall Q t -> aset t i x = Ret t' -> length t' = n /\ Forall Q t'.
Proof.
  intros Hx [Hl Ht] Hs. apply aset_Ret in Hs as [_ ->]. rewrite length_insert.
  split; [done | by apply Forall_insert].
Qed.

Lemma setter_eq set dpl ty num handler t :
  (set, dpl, ty) ∈ gate_setters ->
  exists d, set num handler t = (if num <? IDT_SIZE then aset t num d else Ret t) /\ gate_formed d /\
    gate_dpl d = dpl /\ gate_type d = ty /\ (0 <= handler < 2 ^ 64 -> gate_offset d = handler).
Proof.
  intros Hin.
  assert (Hg : exists w, w ∈ [DESTYPE_INT; DESTYPE_TRAP; DESTYPE_SYS] /\
    set num handler t = (if num <? IDT_SIZE then aset t num (gate w handler) else Ret t) /\
    gate_dpl (gate w handler) = dpl /\ gate_type (gate w handler) = ty).
  { unfold gate_setters in Hin. rewrite !elem_of_cons in Hin.
    destruct Hin as [[= -> -> ->]|[[= -> -> ->]|[[= -> -> ->]|Hin]]]; [| | |by apply not_elem_of_nil in Hin];
      [exists DESTYPE_INT|exists DESTYPE_SYS|exists DESTYPE_TRAP]; (split; [rewrite !elem_of_cons; tauto | done]). }
  destruct Hg as (w & Hw & E & Hd & Ht). exists (gate w handler). split; [done|].
  split; [by apply gate_is_formed|]. split; [done|]. split; [done|]. apply gate_decodes.
Qed.

Lemma setter_keeps (Q : idt_desc -> Prop) set dpl ty num handler t t' :
  (forall d, gate_formed d -> Q d) -> (set, dpl, ty) ∈ gate_setters ->
  set num handler t = Ret t' -> length t = 256%nat /\ Forall Q t -> length t' = 256%nat /\ Forall Q t'.
Proof.
  intros HQ Hin Hs Ht. destruct (setter_eq set dpl ty num handler t Hin) as (d & E & Hd & _).
  rewrite E in Hs. destruct (num <? IDT_SIZE); [|by injection Hs as <-].
  eapply aset_typed; [by apply HQ | exact Ht | exact Hs].
Qed.

(** What a setter does on a table of the kernel. *)
Lemma setter_spec set dpl ty num handler t :
  (set, dpl, ty) ∈ gate_setters -> 0 <= num -> idt_typed t ->
  exists t', set num handler t = Ret t' /\ idt_typed t' /\ (IDT_SIZE <= num -> t' = t) /\
    (num < IDT_SIZE -> exists d, t' = <[Z.to_nat num := d]> t /\ gate_formed d /\
       gate_dpl d = dpl /\ gate_type d = ty /\ (0 <= handler < 2 ^ 64 -> gate_offset d = handler)).
Proof.
  intros Hin Hn Ht. destruct (setter_eq set dpl ty num handler t Hin) as (d & E & Hd).
  assert (Hr : exists t', set num handler t = Ret t' /\ (IDT_SIZE <= num -> t' = t) /\
    (num < IDT_SIZE -> t' = <[Z.to_nat num := d]> t)).
  { rewrite E. unfold IDT_SIZE. destruct (Z.ltb_spec num 256).
    - destruct Ht as [Hl _]. rewrite aset_lt by lia. eexists. split; [done|]. split; [lia | done].
    - eexists. split; [done|]. split; [done | lia]. }
  destruct Hr as (t' & Er & Hge & Hlt). exists t'. split; [done|].
  split; [by eapply (setter_keeps gate_typed); [by right | | |]|]. split; [done|].
  intros Hnum. exists d. split; [by apply Hlt | done].
Qed.

Lemma lor_range a b w : 0 <= w -> 0 <= a < 2 ^ w -> 0 <= b < 2 ^ w -> 0 <= Z.lor a b < 2 ^ w.
Proof.
  intros Hw Ha Hb. assert (E : Z.lor a b = wrap w (Z.lor a b)); [|rewrite E; by apply wrap_range].
  apply Z.bits_inj'. intros n Hn. rewrite wrap_testbit by done. destruct (Z.ltb_spec n w); [done|].
  rewrite Z.lor_spec. assert (Hz : forall x, 0 <= x < 2 ^ w -> Z.testbit x n = false).
  { intros x Hx. rewrite <- (Z.mod_small x (2 ^ w)) by done. by apply Z.mod_pow2_bits_high. }
  by rewrite !Hz.
Qed.

Lemma gdt_desc_typed num addr offset ty t t' :
  set_gdt_desc num addr offset ty t = Ret t' -> gdt_typed t -> gdt_typed t'.
Proof.
  intros Hs Ht. unfold set_gdt_desc in Hs. eapply aset_typed; [|exact Ht|exact Hs]. cbn [l h].
  split; repeat (apply lor_range; [lia | | apply wrap_range; lia]); apply wrap_range; lia.
Qed.

Lemma copy_gdt_typed boot_gdt : forall fuel i t t',
  copy_gdt fuel boot_gdt i t = Ret t' -> gdt_typed t -> gdt_typed t'.
Proof.
  induction fuel as [|fuel IH]; intros i t t' Hc Ht; [done|]. cbn [copy_gdt] in Hc. inv_bind Hc.
  destruct (negb (x =? 0)); [|by injection Hc as <-]. inv_bind Hc. eapply IH; [exact Hc|].
  eapply aset_typed; [|exact Ht|exact E0]. cbn [l h]. split; apply wrap_range; lia.
Qed.

Lemma set_gdt_desc_spec num addr offset ty t :
  0 <= num < 512 -> gdt_typed t ->
  exists t' d, set_gdt_desc num addr offset ty t = Ret t' /\ gdt_typed t' /\
    t' = <[Z.to_nat num := d]> t /\
    (0 <= addr < 2 ^ 32 -> 0 <= offset < 2 ^ 32 -> 0 <= ty < 2 ^ 32 ->
     desc_base d = addr /\ desc_limit d = offset mod 2 ^ 20 /\ desc_access d = ty mod 2 ^ 8 /\
     desc_flags d = ty / 2 ^ 8 mod 2 ^ 4).
Proof.
  intros Hn Ht. pose proof (proj1 Ht) as Hl.
  assert (E : exists t' d, set_gdt_desc num addr offset ty t = Ret t' /\ t' = <[Z.to_nat num := d]> t).
  { unfold set_gdt_desc. rewrite aset_lt by lia. by do 2 eexists. }
  destruct E as (t' & d & E & Et). exists t', d. split; [done|].
  split; [by eapply gdt_desc_typed|]. split; [done|]. intros Ha Ho Hy.
  destruct (gdt_desc_decodes num addr offset ty t) as (d' & E' & Hd'); [lia..|].
  rewrite E in E'. injection E' as E'. rewrite Et in E'.
  assert (d = d') as ->; [|exact Hd'].
  apply (f_equal (lookup (Z.to_nat num))) in E'. rewrite !list_lookup_insert_eq in E' by lia.
  by injection E'.
Qed.

Lemma gdt_init_typed boot_gdt page b t regs tr tss b' :
  gdt_typed page -> gdt_init boot_gdt page b = Ret (t, regs, tr, tss, b') ->
  gdt_typed t /\ 0 <= size (gdtr regs) < 2 ^ 16 /\ 0 <= tr < 2 ^ 16.
Proof.
  intros Hp H. unfold gdt_init in H. inv_bind H. destruct x as [a b1].
  inv_bind H. apply copy_gdt_typed in E0; [|done]. inv_bind H. destruct x0 as [[[u tr1] tss1] b2].
  injection H as <- <- <- _ _. unfold set_tss in E1. inv_bind E1. destruct x0 as [a' b3].
  inv_bind E1. apply gdt_desc_typed in E3; [|done]. inv_bind E1. inv_bind E1. injection E1 as <- <- _ _.
  split; [|cbn [set_gdt load_segments gdtr size]; split; apply wrap_range; lia]. eapply aset_typed; [|exact E3|exact E5]. cbn [l h].
  split; [apply wrap_range; lia|]. apply aget_Ret in E4 as [_ E4].
  by destruct (proj1 (Forall_lookup _ _) (proj2 E3) _ _ E4).
Qed.

(** Takes the next setter of [idt_init]. *)
Ltac setter_step H :=
  inv_bind H;
  match goal with
  | E : ?set ?n ?a ?u = Ret ?x, Ht : length ?u = 256%nat /\ Forall gate_formed ?u |- _ =>
      let Hx := fresh "Hx" in
      assert (Hx : length x = 256%nat /\ Forall gate_formed x)
        by (eapply (setter_keeps gate_formed set _ _ n a u x);
            [done | unfold gate_setters; rewrite !elem_of_cons; eauto | exact E | exact Ht]);
      clear E Ht
  end.

(** The table [idt_init] returns has a gate everywhere, whatever the heap. *)
Lemma idt_init_formed e b t idtr b' :
  idt_init e b = Ret (t, idtr, b') ->
  length t = 256%nat /\ Forall gate_formed t /\ 0 <= size idtr < 2 ^ 16.
Proof.
  intros H. unfold idt_init in H. inv_bind H. destruct x as [a b1]. rewrite default_gates in H.
  cbn [mbind res_bind] in H. clear E.
  assert (Ht : length (replicate (Z.to_nat IDT_SIZE) (gate DESTYPE_TRAP (_ignore_isr e))) = 256%nat /\
    Forall gate_formed (replicate (Z.to_nat IDT_SIZE) (gate DESTYPE_TRAP (_ignore_isr e)))).
  { split; [apply length_replicate|]. apply Forall_replicate, gate_is_formed. rewrite !elem_of_cons. tauto. }
  revert H Ht. generalize (replicate (Z.to_nat IDT_SIZE) (gate DESTYPE_TRAP (_ignore_isr e))) as u.
  intros u H Hu. do 19 setter_step H. injection H as <- <- _.
  match goal with Ht : _ /\ Forall gate_formed _ |- _ => destruct Ht as [Hl Hf] end.
  split; [exact Hl|]. split; [exact Hf|]. cbn [set_idt size]. apply wrap_range. lia.
Qed.

(** ** Properties *)

(** The gates encode the address of the handler: from each of the three
    kinds of gate the processor reads the 64-bit address, the kernel's code
    segment, presence, the privilege level (3 for system gates) and the type
    (interrupt or trap); the other gates are kept, and a vector of 256 or more
    changes nothing. *)
Theorem gate_roundtrip num handler t :
  Z.of_nat (length t) = IDT_SIZE -> 0 <= num -> 0 <= handler < 2 ^ 64 ->
  Forall (fun '(set, dpl, ty) => exists t', set num handler t = Ret t' /\
    (num < IDT_SIZE -> exists d, t' = <[Z.to_nat num := d]> t /\ gate_offset d = handler /\
       selector d = __KERNEL_CS64 /\ gate_present d = true /\ gate_dpl d = dpl /\ gate_type d = ty) /\
    (IDT_SIZE <= num -> t' = t))
  [(set_intr_gate, 0, 14); (set_trap_gate, 0, 15); (set_system_gate, 3, 15)].
Proof.
  intros Hl Hn Hh.
  assert (Hset : forall (set : Z -> Z -> list idt_desc -> res (list idt_desc)) ty,
    (forall num handler t, set num handler t =
       if num <? IDT_SIZE then aset t num (gate ty handler) else Ret t) ->
    exists t', set num handler t = Ret t' /\
      (num < IDT_SIZE -> t' = <[Z.to_nat num := gate ty handler]> t) /\ (IDT_SIZE <= num -> t' = t)).
  { intros set ty Hs. rewrite Hs. destruct (Z.ltb_spec num IDT_SIZE).
    - rewrite aset_lt by lia. eexists. split; [done|]. split; [done | lia].
    - eexists. split; [done|]. split; [lia | done]. }
  repeat apply Forall_cons_2; [| | |apply Forall_nil_2].
  - destruct (Hset set_intr_gate DESTYPE_INT) as (t' & E & H1 & H2); [done|]. exists t'.
    split; [done|]. split; [|done]. intros Hlt. eexists. rewrite H1 by done. split; [done|].
    rewrite gate_decodes by done. done.
  - destruct (Hset set_trap_gate DESTYPE_TRAP) as (t' & E & H1 & H2); [done|]. exists t'.
    split; [done|]. split; [|done]. intros Hlt. eexists. rewrite H1 by done. split; [done|].
    rewrite gate_decodes by done. done.
  - destruct (Hset set_system_gate DESTYPE_SYS) as (t' & E & H1 & H2); [done|]. exists t'.
    split; [done|]. split; [|done]. intros Hlt. eexists. rewrite H1 by done. split; [done|].
    rewrite gate_decodes by done. done.
Qed.

Lemma gate_roundtrip_witness :
  exists t', set_intr_gate 14 0xFFFF800000101234 (replicate 256 no_gate) = Ret t' /\
    (14 < IDT_SIZE -> exists d, t' = <[14%nat := d]> (replicate 256 no_gate) /\
       gate_offset d = 0xFFFF800000101234 /\ selector d = __KERNEL_CS64 /\ gate_present d = true /\
       gate_dpl d = 0 /\ gate_type d = 14) /\ (IDT_SIZE <= 14 -> t' = replicate 256 no_gate).
Proof.
  pose proof (gate_roundtrip 14 0xFFFF800000101234 (replicate 256 no_gate)) as H.
  assert (H1 : Z.of_nat (length (replicate 256 no_gate)) = IDT_SIZE) by (vm_compute; reflexivity).
  assert (H2 : 0 <= 14) by lia. assert (H3 : 0 <= 0xFFFF800000101234 < 2 ^ 64) by lia.
  specialize (H H1 H2 H3). apply Forall_inv in H. exact H.
Defined.

(** C27: after [idt_init] every one of the 256 vectors has the gate the kernel
    means it to have: the processor's exceptions their handlers, with interrupt
    gates for NMI and page faults and gates open to user programs for vectors 3
    to 5, and all others (15 among them) the default handler. *)
Theorem idt_complete e b :
  bm_ok b -> bootmem_page_index b + 1 < bootmem_page_max b ->
  exists t idtr b', idt_init e b = Ret (t, idtr, b') /\ length t = 256%nat /\
    address idtr = PAGE_OFFSET + 4096 * bootmem_page_index b /\
    forall v, 0 <= v < 256 -> exists d, t !! Z.to_nat v = Some d /\ d = vector_gate e v /\
      selector d = __KERNEL_CS64 /\ gate_present d = true /\
      gate_dpl d = (if decide (v = 3 \/ v = 4 \/ v = 5) then 3 else 0) /\
      gate_type d = (if decide (v = 2 \/ v = 14) then 14 else 15).
Proof.
  intros Hb Hm. destruct (idt_init_spec e b Hb Hm) as (t & E & Hl & Ht).
  eexists t, _, _. split; [done|]. split; [done|]. split; [done|]. intros v Hv.
  exists (vector_gate e v). split; [by apply Ht|]. split; [done|]. unfold vector_gate.
  destruct (decide (v < 20)) as [Hlt|Hge].
  - assert (Hd : v = 0 \/ v = 1 \/ v = 2 \/ v = 3 \/ v = 4 \/ v = 5 \/ v = 6 \/ v = 7 \/ v = 8 \/ v = 9 \/
      v = 10 \/ v = 11 \/ v = 12 \/ v = 13 \/ v = 14 \/ v = 15 \/ v = 16 \/ v = 17 \/ v = 18 \/ v = 19) by lia.
    repeat (destruct Hd as [->|Hd]; [done|]). by subst v.
  - rewrite exception_gate_default by lia. rewrite !decide_False by lia. done.
Qed.

Definition sample_entries_at (base : Z) : except_entries :=
  {| _ignore_isr := base; _divide_error := base + 16; _debug := base + 32; _nmi := base + 48;
     _int3 := base + 64; _overflow := base + 80; _bounds := base + 96; _invalid_op := base + 112;
     _device_not_available := base + 128; _doublefault_fn := base + 144;
     _coprocessor_segment_overrun := base + 160; _invalid_TSS := base + 176;
     _segment_not_present := base + 192; _stack_segment := base + 208;
     _general_protection := base + 224; _page_fault := base + 240; _coprocessor_error := base + 256;
     _alignment_check := base + 272; _machine_check := base + 288; _simd_coprocessor_error := base + 304 |}.

Definition sample_heap : bootmem :=
  {| bootmem_page_index := 0x200; bootmem_page_start := 0x200; bootmem_page_max := 0x400 |}.

Lemma idt_complete_witness :
  exists t idtr b', idt_init (sample_entries_at 0xFFFF800000100000) sample_heap = Ret (t, idtr, b') /\
    length t = 256%nat.
Proof.
  destruct (idt_complete (sample_entries_at 0xFFFF800000100000) sample_heap) as (t & i & b' & E & Hl & _).
  - split; simpl; lia.
  - simpl. lia.
  - exists t, i, b'. exact (conj E Hl).
Defined.

(** [gdt_init] keeps the descriptors of the boot loader in front of the
    task state segment, and makes entries 5 and 6 the descriptor of an
    available 64-bit TSS at the allocated page (base of 64 bits, limit 104),
    which TR selects. GDTR names the page, and the data segment registers select
    entry 4. The upper word of entry 6 is what the page held. *)
Theorem gdt_keeps_boot_segments boot_gdt page b k :
  bm_ok b -> bootmem_page_index b + 2 < bootmem_page_max b ->
  Z.of_nat (length boot_gdt) <= 2 ^ 32 -> length page = 512%nat -> 1 <= k <= 5 ->
  boot_gdt !! Z.to_nat k = Some 0 ->
  (forall j, 1 <= j < k -> exists d, boot_gdt !! Z.to_nat j = Some d /\ d <> 0) ->
  exists t regs tr tss b', gdt_init boot_gdt page b = Ret (t, regs, tr, tss, b') /\
    regs = load_segments {| size := 4096; address := PAGE_OFFSET + 4096 * bootmem_page_index b |} /\
    ds regs = 8 * 4 /\
    (forall j, 1 <= j < k -> exists d, boot_gdt !! Z.to_nat j = Some d /\
       t !! Z.to_nat j = Some {| l := u32 d; h := u32 (Z.shiftr d 32) |}) /\
    tr = 8 * 5 /\ tss = PAGE_OFFSET + 4096 * (bootmem_page_index b + 1) /\
    exists d d' p', t !! 5%nat = Some d /\ t !! 6%nat = Some d' /\ page !! 6%nat = Some p' /\
      system_base d d' = tss /\ desc_limit d = 104 /\ desc_access d = 0x89 /\ desc_flags d = 0 /\
      h d' = h p'.
Proof.
  intros Hb Hm Hlb Hlp Hk Hzero Hnz.
  destruct (gdt_init_spec boot_gdt page b k) as (t & tr & tss & E & Hrest); try done.
  by eexists t, _, tr, tss, _.
Qed.

(** The table of setup.asm. *)
Definition setup_gdt : list Z :=
  [0; 0x00CF9A000000FFFF; 0x00CF92000000FFFF; 0x00AF9A000000FFFF; 0x00AF92000000FFFF; 0].

Lemma gdt_keeps_boot_segments_witness :
  exists t regs tr tss b', gdt_init setup_gdt (replicate 512 {| l := 1; h := 2 |}) sample_heap
    = Ret (t, regs, tr, tss, b') /\ tr = 8 * 5 /\ ds regs = 8 * 4.
Proof.
  destruct (gdt_keeps_boot_segments setup_gdt (replicate 512 {| l := 1; h := 2 |}) sample_heap 5)
    as (t & g & tr & tss & b' & E & _ & Hds & _ & Htr & _).
  - split; simpl; lia.
  - simpl. lia.
  - simpl. lia.
  - reflexivity.
  - lia.
  - reflexivity.
  - intros j Hj. assert (Hd : j = 1 \/ j = 2 \/ j = 3 \/ j = 4) by lia.
    repeat (destruct Hd as [->|Hd]; [eexists; split; [reflexivity | discriminate]|]).
    subst j. eexists. split; [reflexivity | discriminate].
  - exists t, g, tr, tss, b'. exact (conj E (conj Htr Hds)).
Defined.

(** C39: the descriptor tables keep their format. On a table of 256 places that
    are cleared or hold well-formed gates (the fields in their bits, reserved
    bits 0, the kernel's code segment, present) each setter returns for every
    number and every address and leaves such a table; with a number of 256 or
    more it changes nothing, with another it puts a well-formed gate in that
    place and nowhere else, of its privilege level and type, from which the
    processor reads the address given. [set_gdt_desc] returns for every index
    of the 512 entries and changes that entry only, to two words of 32 bits
    from which the processor reads the base, the low 20 bits of the limit, the
    access byte and the flags given. Whatever the entry stubs, the boot loader's
    descriptors and the addresses are, the table [idt_init] returns has a
    well-formed gate in every place, the one [gdt_init] returns has words of 32
    bits, and the limit registers hold 16 bits. *)
Theorem descriptors_typed :
  Forall (fun '(set, dpl, ty) => forall num handler t, 0 <= num -> idt_typed t ->
    exists t', set num handler t = Ret t' /\ idt_typed t' /\ (IDT_SIZE <= num -> t' = t) /\
      (num < IDT_SIZE -> exists d, t' = <[Z.to_nat num := d]> t /\ gate_formed d /\
         gate_dpl d = dpl /\ gate_type d = ty /\ (0 <= handler < 2 ^ 64 -> gate_offset d = handler)))
    gate_setters /\
  (forall num addr offset ty t, 0 <= num < 512 -> gdt_typed t ->
    exists t' d, set_gdt_desc num addr offset ty t = Ret t' /\ gdt_typed t' /\
      t' = <[Z.to_nat num := d]> t /\
      (0 <= addr < 2 ^ 32 -> 0 <= offset < 2 ^ 32 -> 0 <= ty < 2 ^ 32 ->
       desc_base d = addr /\ desc_limit d = offset mod 2 ^ 20 /\ desc_access d = ty mod 2 ^ 8 /\
       desc_flags d = ty / 2 ^ 8 mod 2 ^ 4)) /\
  (forall e b t idtr b', idt_init e b = Ret (t, idtr, b') ->
    length t = 256%nat /\ Forall gate_formed t /\ 0 <= size idtr < 2 ^ 16) /\
  (forall boot_gdt page b t regs tr tss b', gdt_typed page ->
    gdt_init boot_gdt page b = Ret (t, regs, tr, tss, b') ->
    gdt_typed t /\ 0 <= size (gdtr regs) < 2 ^ 16 /\ 0 <= tr < 2 ^ 16).
Proof.
  split; [|split; [|split]].
  - apply Forall_forall. intros [[set dpl] ty] Hin num handler t. by apply setter_spec.
  - exact set_gdt_desc_spec.
  - exact idt_init_formed.
  - exact gdt_init_typed.
Qed.

(** A gate for the timer and the first half of a task state segment's
    descriptor. *)
Lemma descriptors_typed_witness :
  (exists t' d, set_intr_gate 48 0xFFFF800000101000 (replicate 256 no_gate) = Ret t' /\
     t' = <[48%nat := d]> (replicate 256 no_gate) /\ gate_formed d /\ gate_offset d = 0xFFFF800000101000) /\
  exists t' d, set_gdt_desc 5 0x201000 104 0x89 (replicate 512 {| l := 0; h := 0 |}) = Ret t' /\
    t' = <[5%nat := d]> (replicate 512 {| l := 0; h := 0 |}) /\ desc_base d = 0x201000.
Proof.
  destruct descriptors_typed as (Hs & Hg & _). split.
  - apply Forall_cons in Hs as [Hs _].
    destruct (Hs 48 0xFFFF800000101000 (replicate 256 no_gate)) as (t' & E & _ & _ & Hd); [lia | |].
    + split; [reflexivity|]. apply Forall_replicate. by left.
    + destruct (Hd eq_refl) as (d & Et & Hf & _ & _ & Ho). exists t', d.
      exact (conj E (conj Et (conj Hf (Ho ltac:(lia))))).
  - destruct (Hg 5 0x201000 104 0x89 (replicate 512 {| l := 0; h := 0 |})) as (t' & d & E & _ & Et & Hd); [lia | |].
    + split; [reflexivity|]. apply Forall_replicate. vm_compute. repeat split; discriminate.
    + destruct Hd as (Hb & _); [lia..|]. exists t', d. exact (conj E (conj Et Hb)).
Defined.
