(* ===== verification/Syscall.v ===== *)
(** * System calls (syscall.h, user_syscall.h)

    The user side of system calls: the macros that generate a stub put the
    number of the call and its arguments into registers and execute
    [int $0x80]. What the instruction does is read from the interrupt
    descriptor table of Descriptors; what the code at the address of a gate does
    to the registers is a parameter, since no kernel code answers the calls. *)

From S2P Require Import Prelude BootMem Descriptors.

Definition SYSCALL_VECTOR : Z := 0x80.

Definition __NR_sys_syscall_test : Z := 0.
Definition __NR_sys_cputstr : Z := 1.
Definition __NR_sys_cgetstr : Z := 2.
Definition __NR_sys_cprintf : Z := 3.
Definition __NR_sys_system_info : Z := 4.
Definition __NR_sys_turnoff : Z := 5.
Definition __NR_sys_open : Z := 6.
Definition __NR_sys_close : Z := 7.
Definition __NR_sys_read : Z := 8.
Definition __NR_sys_write : Z := 9.

(** ** The instruction *)

(** What the processor does at [int $vector], with privilege [cpl]: the checks
    of the limit, the type, the privilege and the presence of the gate, in this
    order. An error code names the vector. *)
Inductive delivery :=
| Enters (rip : Z)
| GeneralProtection (code : Z)
| NotPresent (code : Z).

Definition soft_int (idtr : desc_ptr) (t : list idt_desc) (cpl vector : Z) : delivery :=
  let code := 8 * vector + 2 in
  if size idtr <? 16 * vector + 15 then GeneralProtection code
  else match t !! Z.to_nat vector with
  | None => GeneralProtection code
  | Some d =>
      if negb ((gate_type d =? 14) || (gate_type d =? 15)) then GeneralProtection code
      else if gate_dpl d <? cpl then GeneralProtection code
      else if negb (gate_present d) then NotPresent code
      else Enters (gate_offset d)
  end.

(** The registers the stubs name. *)
Record regs := { rax : Z; rbx : Z; rcx : Z; rdx : Z }.

(** [int $0x80] in a program of privilege [cpl]: the registers when the program
    goes on, [code rip] being what the code at [rip] does to them, or the fault
    that is raised instead. *)
Definition int_0x80 (idtr : desc_ptr) (t : list idt_desc) (cpl : Z)
    (code : Z -> regs -> regs) (r : regs) : regs + delivery :=
  match soft_int idtr t cpl SYSCALL_VECTOR with
  | Enters rip => inl (code rip r)
  | fault => inr fault
  end.

(** ** The stubs *)

(** The registers at the [int], with the operands of each macro. *)
Definition syscall_regs (nr : Z) (args : list Z) (r : regs) : regs :=
  {| rax := nr;
     rbx := default (rbx r) (s64 <$> args !! 0%nat);
     rcx := default (rcx r) (s64 <$> args !! 1%nat);
     rdx := default (rdx r) (s64 <$> args !! 2%nat) |}.

(** [__res], the register [rax] after the instruction [int80], as the [int]
    the stubs return. *)
Definition __res (o : regs + delivery) : Z + delivery :=
  match o with inl r => inl (s32 (rax r)) | inr fault => inr fault end.

Definition _syscall0 (nr : Z) (int80 : regs -> regs + delivery) (r : regs) : Z + delivery :=
  __res (int80 (syscall_regs nr [] r)).

Definition _syscall1 (nr arg1 : Z) (int80 : regs -> regs + delivery) (r : regs) : Z + delivery :=
  __res (int80 (syscall_regs nr [arg1] r)).

Definition _syscall2 (nr arg1 arg2 : Z) (int80 : regs -> regs + delivery) (r : regs) : Z + delivery :=
  __res (int80 (syscall_regs nr [arg1; arg2] r)).

Definition _syscall3 (nr arg1 arg2 arg3 : Z) (int80 : regs -> regs + delivery) (r : regs) : Z + delivery :=
  __res (int80 (syscall_regs nr [arg1; arg2; arg3] r)).

(** ** Lemmas *)

(** A gate of the table. *)
Lemma soft_int_gate idtr t cpl vector ty handler :
  size idtr = 4096 -> 0 <= vector < 256 -> t !! Z.to_nat vector = Some (gate ty handler) ->
  0 <= handler < 2 ^ 64 -> ty ∈ [DESTYPE_INT; DESTYPE_TRAP; DESTYPE_SYS] ->
  soft_int idtr t cpl vector
  = if (if decide (ty = DESTYPE_SYS) then 3 else 0) <? cpl then GeneralProtection (8 * vector + 2)
    else Enters handler.
Proof.
  intros Hs Hv Ht Hh Hty. unfold soft_int. rewrite Hs, (proj2 (Z.ltb_ge _ _)), Ht by lia.
  rewrite gate_decodes by done. rewrite !elem_of_cons in Hty.
  destruct Hty as [->|[->|[->|Hty]]]; [done..|]. by apply not_elem_of_nil in Hty.
Qed.

(** ** Properties *)

(** The four stubs called with one instruction and one state of the registers. *)
Definition calls (nr a1 a2 a3 : Z) (int80 : regs -> regs + delivery) (r : regs) : list (Z + delivery) :=
  [_syscall0 nr int80 r; _syscall1 nr a1 int80 r; _syscall2 nr a1 a2 int80 r; _syscall3 nr a1 a2 a3 int80 r].

(** What the four calls have in the registers when the handler begins: the
    number in rax, the arguments as 64-bit numbers in rbx, rcx and rdx, and in
    the registers a stub does not use what was there. *)
Definition passed (nr a1 a2 a3 : Z) (r : regs) : list regs :=
  [{| rax := nr; rbx := rbx r; rcx := rcx r; rdx := rdx r |};
   {| rax := nr; rbx := s64 a1; rcx := rcx r; rdx := rdx r |};
   {| rax := nr; rbx := s64 a1; rcx := s64 a2; rdx := rdx r |};
   {| rax := nr; rbx := s64 a1; rcx := s64 a2; rdx := s64 a3 |}].

Lemma calls_refused nr a1 a2 a3 idtr t cpl code r n :
  soft_int idtr t cpl SYSCALL_VECTOR = GeneralProtection n ->
  calls nr a1 a2 a3 (int_0x80 idtr t cpl code) r = replicate 4 (inr (GeneralProtection n)).
Proof. intros E. unfold calls, _syscall0, _syscall1, _syscall2, _syscall3, int_0x80. by rewrite E. Qed.

Lemma calls_enter nr a1 a2 a3 idtr t cpl code r rip :
  soft_int idtr t cpl SYSCALL_VECTOR = Enters rip ->
  calls nr a1 a2 a3 (int_0x80 idtr t cpl code) r
  = (fun q => inl (s32 (rax (code rip q)))) <$> passed nr a1 a2 a3 r.
Proof. intros E. unfold calls, _syscall0, _syscall1, _syscall2, _syscall3, int_0x80. by rewrite E. Qed.

(** C35: system calls are not served. In the table [idt_init] builds, the
    vector of system calls has no gate of its own. A call through any of the
    stubs from a user program, whose privilege is 3, is a general protection
    fault with the error code 0x402, which enters the handler of that
    exception. In the kernel a call enters [_ignore_isr] with what the stub
    passes and returns what that leaves in rax, which is the number of the call,
    since the stub restores the register ([stubs_call_handlers]).
    Once [set_system_gate] has installed a handler, a stub called from any
    privilege enters it with the number in rax, its arguments in rbx, rcx and
    rdx and the other registers as they were, and returns the low half of what
    the handler leaves in rax as a signed number. *)
Theorem syscalls_not_served e b :
  bm_ok b -> bootmem_page_index b + 1 < bootmem_page_max b ->
  0 <= _ignore_isr e < 2 ^ 64 -> 0 <= _general_protection e < 2 ^ 64 ->
  exists t idtr b', idt_init e b = Ret (t, idtr, b') /\
    soft_int idtr t 0 13 = Enters (_general_protection e) /\
    forall nr a1 a2 a3 code r,
      calls nr a1 a2 a3 (int_0x80 idtr t 3 code) r = replicate 4 (inr (GeneralProtection 0x402)) /\
      calls nr a1 a2 a3 (int_0x80 idtr t 0 code) r
      = (fun q => inl (s32 (rax (code (_ignore_isr e) q)))) <$> passed nr a1 a2 a3 r /\
      forall handler cpl, 0 <= handler < 2 ^ 64 -> 0 <= cpl <= 3 ->
        exists t', set_system_gate SYSCALL_VECTOR handler t = Ret t' /\
          calls nr a1 a2 a3 (int_0x80 idtr t' cpl code) r
          = (fun q => inl (s32 (rax (code handler q)))) <$> passed nr a1 a2 a3 r.
Proof.
  intros Hb Hm Hi Hg. destruct (idt_init_spec e b Hb Hm) as (t & E & Hl & Ht).
  do 3 eexists. split; [exact E|]. split.
  { by rewrite (soft_int_gate _ _ _ _ DESTYPE_TRAP (_general_protection e)) by (done || by apply Ht || set_solver). }
  intros nr a1 a2 a3 code r. split; [|split].
  - apply calls_refused.
    by rewrite (soft_int_gate _ _ _ _ DESTYPE_TRAP (_ignore_isr e)) by (done || by apply Ht || set_solver).
  - apply calls_enter.
    by rewrite (soft_int_gate _ _ _ _ DESTYPE_TRAP (_ignore_isr e)) by (done || by apply Ht || set_solver).
  - intros handler cpl Hh Hc. unfold set_system_gate. change (SYSCALL_VECTOR <? IDT_SIZE) with true.
    cbn beta iota. rewrite aset_lt by (rewrite Hl; done). eexists. split; [reflexivity|].
    apply calls_enter. rewrite (soft_int_gate _ _ _ _ DESTYPE_SYS handler); [|done|done| |done|set_solver].
    + rewrite decide_True by done. by rewrite (proj2 (Z.ltb_ge _ _)) by lia.
    + apply list_lookup_insert_eq. rewrite Hl. unfold SYSCALL_VECTOR. lia.
Qed.

(** A handler at 0xFFFF800000200000 that adds the arguments. *)
Definition sample_code (rip : Z) (r : regs) : regs :=
  if rip =? 0xFFFF800000200000
  then {| rax := rbx r + rcx r + rdx r; rbx := rbx r; rcx := rcx r; rdx := rdx r |} else r.

Lemma syscalls_not_served_witness :
  exists t idtr b', idt_init (sample_entries_at 0xFFFF800000100000) sample_heap = Ret (t, idtr, b') /\
    calls __NR_sys_write 1 2 (- 10) (int_0x80 idtr t 0 sample_code) {| rax := 0; rbx := 0; rcx := 0; rdx := 0 |}
    = replicate 4 (inl 9) /\
    exists t', set_system_gate SYSCALL_VECTOR 0xFFFF800000200000 t = Ret t' /\
      calls __NR_sys_write 1 2 (- 10) (int_0x80 idtr t' 3 sample_code) {| rax := 0; rbx := 0; rcx := 0; rdx := 0 |}
      = [inl 0; inl 1; inl 3; inl (- 7)].
Proof.
  destruct (syscalls_not_served (sample_entries_at 0xFFFF800000100000) sample_heap)
    as (t & i & b' & E & _ & H).
  - split; simpl; lia.
  - simpl. lia.
  - simpl. lia.
  - simpl. lia.
  - exists t, i, b'. split; [exact E|].
    destruct (H __NR_sys_write 1 2 (- 10) sample_code {| rax := 0; rbx := 0; rcx := 0; rdx := 0 |})
      as (_ & Hk & Hu).
    split; [rewrite Hk; reflexivity|].
    destruct (Hu 0xFFFF800000200000 3) as (t' & Et & Hc); [lia | lia |].
    exists t'. split; [exact Et|]. rewrite Hc. reflexivity.
Defined.
