(* ===== verification/Interrupts.v ===== *)
(** * Interrupts (irq_handler.c, io_apic.c, pic8259.c, apic.h)

    The dispatch of device interrupts: the table of handlers, the gates of the
    interrupt entry points, the task priority and the end-of-interrupt register
    of the local APIC around a handler, the redirection table of the I/O APIC
    and the masks of the 8259A. Devices are given by an interface with the
    registers the kernel uses; messages are in Messages. *)

From S2P Require Import Prelude BitOps BootMem Descriptors.

(** ** Constants *)

Definition APIC_TASKPRI : Z := 0x80.
Definition APIC_EOI : Z := 0xB0.
Definition MAX_IRQ : Z := 32.
Definition VECTOR_BASE : Z := 0x20.
Definition IRQ_TO_VECTOR (num : Z) : Z := num + VECTOR_BASE.

Definition IO_APIC_VERSION : Z := 0x1.
Definition GET_IO_APIC_ENTRY (x : Z) : Z := Z.land (Z.shiftr x 16) 0xFF.
Definition IO_APIC_REDTBL_BASE : Z := 0x10.
Definition SET_IO_APIC_DEST (x : Z) : Z := u64 (Z.shiftl (Z.land x 0xFF) 56).
Definition IO_APIC_IRQ_MASK : Z := Z.shiftl 1 16.
Definition IO_APIC_TRIG_MODE : Z := Z.shiftl 1 15.
Definition IO_APIC_INTPOL : Z := Z.shiftl 1 13.
Definition IO_APIC_DESTMOD : Z := Z.shiftl 1 11.
Definition IO_APIC_DELMOD_FIX : Z := Z.shiftl 0 8.
Definition CAOS_SUCCESS : Z := 0.

(** ** The devices *)

(** The registers of the local APIC, the select register and the window of the
    I/O APIC, and the output ports. [tpr] is the task priority in force,
    [redirection d r] the register [r] behind the window. The laws are the
    documented behaviour of the registers. *)
Class Device (D : Type) := {
  apic_read : Z -> D -> Z * D;
  apic_write : Z -> Z -> D -> D;
  io_select : Z -> D -> D;
  io_window_read : D -> Z * D;
  io_window_write : Z -> D -> D;
  outb : Z -> Z -> D -> D;
  tpr : D -> Z;
  redirection : D -> Z -> Z;
  apic_read_tpr d : apic_read APIC_TASKPRI d = (tpr d, d);
  apic_write_tpr v d : 0 <= v < 2 ^ 32 -> tpr (apic_write APIC_TASKPRI v d) = v;
  apic_write_eoi v d : tpr (apic_write APIC_EOI v d) = tpr d;
  io_window_read_select r d :
    exists d', io_window_read (io_select r d) = (redirection d r, d') /\
      forall q, redirection d' q = redirection d q;
  io_window_write_select r v d q :
    redirection (io_window_write v (io_select r d)) q = if decide (q = r) then v else redirection d q
}.

Section Interrupts.
Context {D : Type} `{Device D}.

(** A handler takes the number of the interrupt. *)
Definition irq_handler_t : Type := Z -> D -> res D.

(** The handlers (NULL is [None]), the interrupt descriptor table, the devices. *)
Record irq_state := {
  irq_handler : list (option irq_handler_t);
  idt_table : list idt_desc;
  device : D
}.

Definition with_device (d : D) (st : irq_state) : irq_state :=
  {| irq_handler := irq_handler st; idt_table := idt_table st; device := d |}.

(** ** The I/O APIC *)

Definition io_apic_read (reg : Z) (d : D) : Z * D := io_window_read (io_select (u32 reg) d).

Definition io_apic_write (reg value : Z) (d : D) : D :=
  io_window_write (u32 value) (io_select (u32 reg) d).

(** The low half of the entry: [io_apic_write] takes an [unsigned int]. *)
Definition irq_entry (irq : Z) : Z :=
  let tbl := 0 in
  let tbl := Z.lor tbl (SET_IO_APIC_DEST 0x0) in
  let tbl := Z.land tbl (u64 (Z.lnot IO_APIC_IRQ_MASK)) in
  let tbl := Z.lor tbl IO_APIC_TRIG_MODE in
  let tbl := Z.lor tbl IO_APIC_INTPOL in
  let tbl := Z.land tbl (u64 (Z.lnot IO_APIC_DESTMOD)) in
  let tbl := Z.lor tbl IO_APIC_DELMOD_FIX in
  Z.lor tbl (u64 (IRQ_TO_VECTOR irq)).

Definition io_apic_enable_irq (irq : Z) (d : D) : Z * D :=
  let '(ver, d) := io_apic_read IO_APIC_VERSION d in
  let entry := GET_IO_APIC_ENTRY ver in
  if s64 irq >? entry then (-1, d)
  else (CAOS_SUCCESS, io_apic_write (u64 (IO_APIC_REDTBL_BASE + irq * 2)) (irq_entry irq) d).

(** [for (delay = 0; delay != n; delay++) continue;] *)
Definition wait_loop (n : Z) : res unit := for_loop (Z.to_nat n) 0 (fun _ u => Ret u) tt.

(** Unused: a write and a read of the register selected last. *)
Definition io_apic_modify (value : Z) (d : D) : D := io_window_write (u32 value) d.
Definition io_apic_sync (d : D) : D := snd (io_window_read d).

(** What the messages read: the identifier and twice the version. *)
Definition io_apic_report (d : D) : Z * Z * Z * D :=
  let '(id, d) := io_apic_read 0x0 d in
  let '(ver, d) := io_apic_read IO_APIC_VERSION d in
  let '(entry, d) := io_apic_read 0x1 d in
  (id, ver, entry, d).

(** It switches the interrupt lines from the 8259A to the APICs. *)
Definition io_apic_init (d : D) : res D :=
  let d := outb 0x22 0x70 d in
  _ ← wait_loop 0x100000;
  let d := outb 0x23 0x1 d in
  let '(_, _, _, d) := io_apic_report d in
  Ret d.

(** ** Handlers *)

(** It only prints a message. *)
Definition ignore_isr_handler : irq_handler_t := fun num d => Ret d.

Definition register_irq (irq : Z) (handler : irq_handler_t) (st : irq_state) : res (Z * irq_state) :=
  hs ← aset (irq_handler st) irq (Some handler);
  let '(r, d) := io_apic_enable_irq irq (device st) in
  Ret (r, {| irq_handler := hs; idt_table := idt_table st; device := d |}).

Definition end_irq (irq : Z) (d : D) : D := apic_write APIC_EOI 0 d.

Definition handle_irq (irq : Z) (st : irq_state) : res irq_state :=
  let '(task_pri, d) := apic_read APIC_TASKPRI (device st) in
  let d := apic_write APIC_TASKPRI (u32 (u64 (IRQ_TO_VECTOR irq))) d in
  h ← aget (irq_handler st) irq;
  d ← match h with Some handler => handler irq d | None => Ret d end;
  let d := end_irq irq d in
  Ret (with_device (apic_write APIC_TASKPRI (u32 task_pri) d) st).

(** [DECLARE_IRQ(num)]: the gate of the entry point [_irq_num]. *)
Definition DECLARE_IRQ (entries : Z -> Z) (num : Z) (t : list idt_desc) : res (list idt_desc) :=
  set_intr_gate (IRQ_TO_VECTOR num) (entries num) t.

(** [entries n] is the address of the entry point [_irq_n]. *)
Definition irq_init (entries : Z -> Z) (st : irq_state) : res irq_state :=
  hs ← for_loop (Z.to_nat MAX_IRQ) 0 (fun i hs => aset hs i (Some ignore_isr_handler)) (irq_handler st);
  t ← for_loop 22 0 (DECLARE_IRQ entries) (idt_table st);
  Ret {| irq_handler := hs; idt_table := t; device := device st |}.

(** keyboard.c: [isr] is [keyboard_isr]. *)
Definition KEYBOARD_IRQ : Z := 1.

Definition keyboard_init (isr : irq_handler_t) (st : irq_state) : res (Z * irq_state) :=
  '(r, st) ← register_irq KEYBOARD_IRQ isr st;
  if r =? CAOS_SUCCESS then Ret (CAOS_SUCCESS, st) else Ret (-1, st).

(** ** The 8259A *)

Definition irq_mask0_7 (irq_mask : Z) : Z := u8 (Z.land irq_mask 0xff).
Definition irq_mask8_15 (irq_mask : Z) : Z := u8 (Z.land (Z.shiftr irq_mask 8) 0xff).

Definition pic8259_init (irq_mask : Z) (d : D) : D :=
  let d := outb 0x20 0x11 d in
  let d := outb 0xa0 0x11 d in
  let d := outb 0x21 VECTOR_BASE d in
  let d := outb 0xa1 VECTOR_BASE d in
  let d := outb 0x21 0x04 d in
  let d := outb 0xa1 0x02 d in
  let d := outb 0x21 0x01 d in
  let d := outb 0xa1 0x01 d in
  let d := outb 0x21 (irq_mask0_7 irq_mask) d in
  outb 0xa1 (irq_mask8_15 irq_mask) d.

(** The global [irq_mask] and the device. *)
Definition enable_pic8259 (irq irq_mask : Z) (d : D) : Z * D :=
  let irq_mask := u16 (Z.land irq_mask (Z.lnot (Z.shiftl 1 irq))) in
  (irq_mask, if irq >=? 8 then outb 0xa1 (irq_mask8_15 irq_mask) d
             else outb 0x21 (irq_mask0_7 irq_mask) d).

Definition disable_pic8259 (irq irq_mask : Z) (d : D) : Z * D :=
  let irq_mask := u16 (Z.lor irq_mask (Z.shiftl 1 irq)) in
  (irq_mask, if irq >=? 8 then outb 0xa1 (irq_mask8_15 irq_mask) d
             else outb 0x21 (irq_mask0_7 irq_mask) d).

Definition ack_pic8259 (d : D) : D := outb 0xa0 0x20 (outb 0x20 0x20 d).

(** ** Lemmas *)

Lemma io_apic_read_version d :
  exists d', io_apic_read IO_APIC_VERSION d = (redirection d IO_APIC_VERSION, d') /\
    forall q, redirection d' q = redirection d q.
Proof. apply (io_window_read_select IO_APIC_VERSION d). Qed.

Lemma wait_loop_ends n : wait_loop n = Ret tt.
Proof.
  unfold wait_loop.
  destruct (for_loop_inv (fun _ _ => True) (Z.to_nat n) 0 (fun _ u => Ret u) tt) as ([] & -> & _);
    [done | by eauto | done].
Qed.

(** The entry for a vector of one byte. *)
Lemma irq_entry_eq irq : 0 <= irq < 224 -> irq_entry irq = 0xA000 + (irq + 32).
Proof.
  intros Hi.
  assert (Hall : forallb (fun i => irq_entry i =? 0xA000 + (i + 32)) (seqZ 0 224) = true)
    by (vm_compute; reflexivity).
  rewrite forallb_forall in Hall. apply Z.eqb_eq, Hall, list_elem_of_In, elem_of_seqZ. lia.
Qed.

Lemma enable_irq_spec irq d :
  0 <= irq < 2 ^ 31 ->
  let max := GET_IO_APIC_ENTRY (redirection d IO_APIC_VERSION) in
  exists d', io_apic_enable_irq irq d = (if decide (irq <= max) then CAOS_SUCCESS else -1, d') /\
    forall q, redirection d' q =
      if decide (irq <= max /\ q = IO_APIC_REDTBL_BASE + irq * 2) then u32 (irq_entry irq)
      else redirection d q.
Proof.
  intros Hi max. unfold io_apic_enable_irq.
  destruct (io_apic_read_version d) as (d1 & -> & Hd1). fold max.
  assert (Hm : max < 256).
  { unfold max, GET_IO_APIC_ENTRY. change 0xFF with (Z.ones 8). rewrite Z.land_ones by lia.
    apply Z.mod_pos_bound. lia. }
  assert (Hs : s64 irq = irq) by (apply sext_small; lia). rewrite Hs, Z.gtb_ltb.
  destruct (Z.ltb_spec max irq).
  - rewrite (decide_False (P := irq <= max)) by lia. exists d1. split; [done|].
    intros q. by rewrite decide_False by lia.
  - rewrite (decide_True (P := irq <= max)) by lia. eexists. split; [done|].
    intros q. unfold io_apic_write. rewrite io_window_write_select, Hd1. unfold IO_APIC_REDTBL_BASE.
    rewrite (wrap_small 64) by lia. rewrite (wrap_small 32 (16 + irq * 2)) by lia.
    destruct (decide (q = 16 + irq * 2)); [rewrite decide_True by done; done | rewrite decide_False by tauto; done].
Qed.

Lemma handle_irq_eq irq st h :
  irq_handler st !! Z.to_nat irq = Some (Some h) -> 0 <= irq < 2 ^ 31 -> 0 <= tpr (device st) < 2 ^ 32 ->
  handle_irq irq st =
    (d' ← h irq (apic_write APIC_TASKPRI (irq + 32) (device st));
     Ret (with_device (apic_write APIC_TASKPRI (tpr (device st)) (apic_write APIC_EOI 0 d')) st)).
Proof.
  intros Hh Hi Ht. unfold handle_irq. rewrite apic_read_tpr.
  rewrite (proj2 (aget_Ret _ _ (Some h))) by (split; [lia | done]). cbn [mbind res_bind].
  unfold IRQ_TO_VECTOR, VECTOR_BASE. rewrite (wrap_small 64 (irq + 32)), (wrap_small 32 (irq + 32)) by lia.
  by rewrite (wrap_small 32 (tpr _)) by done.
Qed.

Lemma handle_irq_spec irq st h :
  irq_handler st !! Z.to_nat irq = Some (Some h) -> 0 <= irq < 2 ^ 31 -> 0 <= tpr (device st) < 2 ^ 32 ->
  exists d, tpr d = irq + 32 /\
    handle_irq irq st =
      (d' ← h irq d;
       Ret (with_device (apic_write APIC_TASKPRI (tpr (device st)) (apic_write APIC_EOI 0 d')) st)).
Proof.
  intros Hh Hi Ht. eexists. split; [|by apply handle_irq_eq]. apply apic_write_tpr. lia.
Qed.

Lemma irq_init_spec entries st :
  length (irq_handler st) = 32%nat -> length (idt_table st) = 256%nat ->
  exists st', irq_init entries st = Ret st' /\ device st' = device st /\
    irq_handler st' = replicate 32 (Some ignore_isr_handler) /\ length (idt_table st') = 256%nat /\
    (forall v, 0 <= v < 256 -> idt_table st' !! Z.to_nat v =
       if decide (32 <= v < 54) then Some (gate DESTYPE_INT (entries (v - 32)))
       else idt_table st !! Z.to_nat v).
Proof.
  intros Hl Ht. unfold irq_init, MAX_IRQ.
  destruct (for_loop_inv (fun i (hs : list (option irq_handler_t)) => length hs = 32%nat /\
      forall k, 0 <= k < i -> hs !! Z.to_nat k = Some (Some ignore_isr_handler))
    (Z.to_nat 32) 0 (fun i hs => aset hs i (Some ignore_isr_handler)) (irq_handler st))
    as (hs & -> & Hl1 & Hk).
  { split; [done | lia]. }
  { intros j hs Hj [Hlh Hk]. rewrite aset_lt by lia. eexists. split; [done|].
    rewrite length_insert. split; [done|]. intros k Hkj. destruct (decide (k = j)) as [->|].
    - by rewrite list_lookup_insert_eq by lia.
    - rewrite list_lookup_insert_ne by lia. apply Hk. lia. }
  cbn [mbind res_bind].
  destruct (for_loop_inv (fun i t => length t = 256%nat /\ forall v, 0 <= v < 256 ->
      t !! Z.to_nat v = if decide (32 <= v < 32 + i) then Some (gate DESTYPE_INT (entries (v - 32)))
                        else idt_table st !! Z.to_nat v)
    22 0 (DECLARE_IRQ entries) (idt_table st)) as (t & -> & Hl2 & Hv).
  { split; [done|]. intros v Hv. by rewrite decide_False by lia. }
  { intros j t Hj [Hlt Hv]. unfold DECLARE_IRQ, IRQ_TO_VECTOR, VECTOR_BASE.
    rewrite (set_gates_ok set_intr_gate DESTYPE_INT) by (done || lia). eexists. split; [done|].
    rewrite length_insert. split; [done|]. intros v Hvr. destruct (decide (v = j + 32)) as [->|].
    - rewrite list_lookup_insert_eq by lia. rewrite decide_True by lia. do 3 f_equal. lia.
    - rewrite list_lookup_insert_ne, Hv by lia.
      destruct (decide (32 <= v < 32 + j)); [rewrite decide_True by lia | rewrite decide_False by lia]; done. }
  cbn [mbind res_bind]. eexists. split; [done|]. cbn [device irq_handler idt_table].
  split; [done|]. split; [|split; [done|]].
  - apply list_eq. intros i. destruct (decide (i < 32)%nat).
    + rewrite lookup_replicate_2 by done. rewrite <- (Hk (Z.of_nat i)) by lia. by rewrite Nat2Z.id.
    + rewrite !lookup_ge_None_2; [done | rewrite length_replicate; lia | lia].
  - intros v Hvr. rewrite Hv by done. done.
Qed.

(** ** Properties *)

(** C15: an interrupt reaches its handler. After [irq_init] and [register_irq]
    of an interrupt the I/O APIC has an entry for, the I/O APIC sends it as the
    vector 32 above its number (unmasked, level-triggered, active low, fixed
    delivery), the gate of that vector leads to its entry point with interrupts
    disabled, and [handle_irq] runs the handler once, at the task priority of
    the vector, acknowledges the local APIC and restores the priority before;
    every other interrupt only does the latter. *)
Theorem irq_dispatched entries st irq (h : irq_handler_t) :
  length (irq_handler st) = 32%nat -> length (idt_table st) = 256%nat ->
  0 <= irq < 22 -> irq <= GET_IO_APIC_ENTRY (redirection (device st) IO_APIC_VERSION) ->
  0 <= entries irq < 2 ^ 64 ->
  exists st1 st2, irq_init entries st = Ret st1 /\ register_irq irq h st1 = Ret (CAOS_SUCCESS, st2) /\
    redirection (device st2) (16 + 2 * irq) = 0xA000 + (irq + 32) /\
    (exists d, idt_table st2 !! Z.to_nat (irq + 32) = Some d /\ gate_offset d = entries irq /\
       gate_type d = 14 /\ gate_present d = true) /\
    (forall st', irq_handler st' = irq_handler st2 -> 0 <= tpr (device st') < 2 ^ 32 ->
     forall j, 0 <= j < 32 -> exists d, tpr d = j + 32 /\
       handle_irq j st' =
         (d' ← (if decide (j = irq) then h j d else Ret d);
          Ret (with_device (apic_write APIC_TASKPRI (tpr (device st')) (apic_write APIC_EOI 0 d')) st'))).
Proof.
  intros Hl Ht Hi Hmax He.
  destruct (irq_init_spec entries st Hl Ht) as (st1 & E1 & Hd & Hh & Ht1 & Hv).
  destruct (enable_irq_spec irq (device st)) as (d' & Er & Hr); [lia|].
  rewrite decide_True in Er by done.
  exists st1. eexists. split; [done|]. unfold register_irq. rewrite Hh, aset_lt by (rewrite length_replicate; lia).
  cbn [mbind res_bind]. rewrite Hd, Er. split; [done|]. cbn [device idt_table irq_handler]. split.
  - rewrite Hr. unfold IO_APIC_REDTBL_BASE. rewrite decide_True by (split; [done | lia]).
    rewrite irq_entry_eq by lia. apply wrap_small. lia.
  - split.
    + eexists. rewrite Hv by lia. rewrite decide_True by lia. split; [done|].
      replace (irq + 32 - 32) with irq by lia. rewrite gate_decodes by done. done.
    + intros st' Hst' Htp j Hj.
      destruct (decide (j = irq)) as [->|Hne].
      * apply (handle_irq_spec irq st' h); [|lia|done]. rewrite Hst'.
        apply list_lookup_insert_eq. rewrite length_replicate. lia.
      * apply (handle_irq_spec j st' ignore_isr_handler); [|lia|done]. rewrite Hst'.
        rewrite list_lookup_insert_ne by lia. apply lookup_replicate_2. lia.
Qed.

(** [register_irq] does not check the number: from 32 on it writes behind
    [irq_handler], and a number the I/O APIC has no entry for is answered with
    -1 although its handler is installed. *)
Theorem register_irq_unchecked irq (h : irq_handler_t) st :
  length (irq_handler st) = 32%nat -> 0 <= irq < 2 ^ 31 ->
  GET_IO_APIC_ENTRY (redirection (device st) IO_APIC_VERSION) < irq ->
  (32 <= irq -> register_irq irq h st = Fault) /\
  (irq < 32 -> exists st', register_irq irq h st = Ret (-1, st') /\
     irq_handler st' !! Z.to_nat irq = Some (Some h) /\
     forall q, redirection (device st') q = redirection (device st) q).
Proof.
  intros Hl Hi Hmax. unfold register_irq. split; intros H32.
  - unfold aset. by rewrite decide_False by lia.
  - rewrite aset_lt by lia. cbn [mbind res_bind].
    destruct (enable_irq_spec irq (device st)) as (d' & Er & Hr); [lia|].
    rewrite decide_False in Er by lia. rewrite Er. eexists. split; [done|]. cbn [irq_handler device].
    split; [apply list_lookup_insert_eq; lia|]. intros q. rewrite Hr. by rewrite decide_False by lia.
Qed.

End Interrupts.

(** [enable_pic8259] clears and [disable_pic8259] sets the mask bit of the
    interrupt and no other, and the byte they send is the new mask of the chip
    that has the interrupt. *)
Theorem pic_masks {D} `{Device D} irq irq_mask (d : D) :
  0 <= irq < 16 -> 0 <= irq_mask < 2 ^ 16 ->
  let port := if irq <? 8 then 0x21 else 0xa1 in
  let byte m := if irq <? 8 then m mod 256 else m / 256 in
  exists on off, enable_pic8259 irq irq_mask d = (on, outb port (byte on) d) /\
    disable_pic8259 irq irq_mask d = (off, outb port (byte off) d) /\
    0 <= on < 2 ^ 16 /\ 0 <= off < 2 ^ 16 /\
    (forall k, 0 <= k -> Z.testbit on k = Z.testbit irq_mask k && negb (k =? irq)) /\
    (forall k, 0 <= k -> Z.testbit off k = Z.testbit irq_mask k || (k =? irq)).
Proof.
  intros Hi Hm port byte. unfold enable_pic8259, disable_pic8259.
  set (on := u16 (Z.land irq_mask (Z.lnot (Z.shiftl 1 irq)))).
  set (off := u16 (Z.lor irq_mask (Z.shiftl 1 irq))). exists on, off.
  assert (Hon : 0 <= on < 2 ^ 16) by (apply wrap_range; lia).
  assert (Hoff : 0 <= off < 2 ^ 16) by (apply wrap_range; lia).
  assert (Hlow : forall m, irq_mask0_7 m = m mod 256).
  { intros m. unfold irq_mask0_7. change 0xff with (Z.ones 8). rewrite Z.land_ones by lia. apply Zmod_mod. }
  assert (Hhigh : forall m, 0 <= m < 2 ^ 16 -> irq_mask8_15 m = m / 256).
  { intros m Hmr. unfold irq_mask8_15. change 0xff with (Z.ones 8).
    rewrite Z.land_ones, Z.shiftr_div_pow2 by lia. unfold wrap. change (2 ^ 8) with 256.
    rewrite Zmod_mod. apply Z.mod_small. split; [apply Z.div_pos; lia | apply Z.div_lt_upper_bound; lia]. }
  assert (Hbit : forall k, 0 <= k -> Z.testbit (Z.shiftl 1 irq) k = (k =? irq)).
  { intros k Hk. rewrite Z.shiftl_1_l, Z.pow2_bits_eqb by lia. apply Z.eqb_sym. }
  assert (Hhi : forall k, 16 <= k -> Z.testbit irq_mask k = false).
  { intros k Hk. by apply (bits_above_false irq_mask 16). }
  rewrite Hlow, Hlow, !Hhigh by done. unfold port, byte. rewrite Z.geb_leb.
  destruct (Z.ltb_spec irq 8); [rewrite (proj2 (Z.leb_gt _ _)) by lia | rewrite (proj2 (Z.leb_le _ _)) by lia];
    (split; [done|]; split; [done|]; split; [done|]; split; [done|]; split; intros k Hk;
     unfold on, off; rewrite wrap_testbit by lia;
     rewrite ?Z.land_spec, ?Z.lor_spec, ?Z.lnot_spec, Hbit by lia;
     (destruct (Z.ltb_spec k 16); [done|]; rewrite Hhi by lia; simpl;
      try rewrite (proj2 (Z.eqb_neq k irq)) by lia; done)).
Qed.

(** ** A concrete machine *)

(** The task priority, the selected register, the registers behind the window
    and the bytes sent to ports. *)
Record machine := {
  m_tpr : Z;
  m_index : Z;
  m_regs : gmap Z Z;
  m_ports : list (Z * Z)
}.

#[export, refine] Instance machine_device : Device machine := {
  apic_read r d := (if r =? APIC_TASKPRI then m_tpr d else 0, d);
  apic_write r v d := if r =? APIC_TASKPRI
    then {| m_tpr := v; m_index := m_index d; m_regs := m_regs d; m_ports := m_ports d |} else d;
  io_select r d := {| m_tpr := m_tpr d; m_index := r; m_regs := m_regs d; m_ports := m_ports d |};
  io_window_read d := (default 0 (m_regs d !! m_index d), d);
  io_window_write v d := {| m_tpr := m_tpr d; m_index := m_index d;
                            m_regs := <[m_index d := v]> (m_regs d); m_ports := m_ports d |};
  outb p v d := {| m_tpr := m_tpr d; m_index := m_index d; m_regs := m_regs d;
                   m_ports := m_ports d ++ [(p, v)] |};
  tpr := m_tpr;
  redirection d r := default 0 (m_regs d !! r)
}.
Proof.
  - done.
  - done.
  - done.
  - intros r d. eexists. split; [reflexivity | done].
  - intros r v d q. cbn [m_index m_regs]. destruct (decide (q = r)) as [->|].
    + by rewrite lookup_insert_eq.
    + by rewrite lookup_insert_ne.
Defined.

(** An I/O APIC with 24 entries. *)
Definition sample_irqs : irq_state (D := machine) :=
  {| irq_handler := replicate 32 None; idt_table := replicate 256 no_gate;
     device := {| m_tpr := 0; m_index := 0; m_regs := {[1 := 0x170011]}; m_ports := [] |} |}.

Definition sample_handler : irq_handler_t (D := machine) := fun num d => Ret (outb 0x20 num d).

Lemma irq_dispatched_witness :
  exists st1 st2, irq_init (fun n => 0xFFFF800000100000 + 16 * n) sample_irqs = Ret st1 /\
    register_irq 1 sample_handler st1 = Ret (CAOS_SUCCESS, st2) /\
    redirection (device st2) (16 + 2 * 1) = 0xA000 + (1 + 32).
Proof.
  destruct (irq_dispatched (fun n => 0xFFFF800000100000 + 16 * n) sample_irqs 1 sample_handler)
    as (st1 & st2 & H1 & H2 & H3 & _).
  - reflexivity.
  - reflexivity.
  - lia.
  - vm_compute. discriminate.
  - lia.
  - exists st1, st2. exact (conj H1 (conj H2 H3)).
Defined.

Lemma register_irq_unchecked_witness :
  (32 <= 40 -> register_irq 40 sample_handler sample_irqs = Fault) /\
  (40 < 32 -> exists st', register_irq 40 sample_handler sample_irqs = Ret (-1, st') /\
     irq_handler st' !! Z.to_nat 40 = Some (Some sample_handler) /\
     forall q, redirection (device st') q = redirection (device sample_irqs) q).
Proof.
  apply (register_irq_unchecked 40 sample_handler sample_irqs).
  - reflexivity.
  - lia.
  - vm_compute. reflexivity.
Defined.

Lemma pic_masks_witness :
  exists on off, enable_pic8259 1 0xfffb (device sample_irqs) = (on, outb 0x21 (on mod 256) (device sample_irqs)) /\
    disable_pic8259 1 0xfffb (device sample_irqs) = (off, outb 0x21 (off mod 256) (device sample_irqs)).
Proof.
  destruct (pic_masks 1 0xfffb (device sample_irqs)) as (on & off & H1 & H2 & _).
  - lia.
  - lia.
  - exists on, off. exact (conj H1 H2).
Defined.
