(* ===== verification/SpinLock.v ===== *)
(** * Spin locks (spinlock.c, spinlock.h, smp.h)

    Processors that lock and unlock one spin lock, each executing the code of
    [spin_lock] and [spin_unlock] step by step: one step is one access to the
    memory they share, the word of the lock and [preempt_count]. An increment
    of [preempt_count] is a read and a write. The steps of the processors
    interleave in any order. *)

From S2P Require Import Prelude BitOps.

(** ** The operations on the lock's word *)

Definition SPIN_LOCK_UNLOCKED : Z := 1.
Definition SPIN_LOCK_LOCKED : Z := 0.

(** [movb $0, %al; lock xchgb %al, slock]: the byte exchanged, in a register
    whose other bytes are [high] (the operand is an output only, so the
    initialisation of [tmp] need not be in the register), and the word. *)
Definition raw_spin_trylock (high slock : Z) : Z * Z :=
  (Z.lor (Z.shiftl high 8) (Z.land slock 0xff), Z.ldiff slock 0xff).

Definition spin_is_locked (slock : Z) : Z := test_bit 0 {[0 := slock]}.

Definition spin_lock_init : Z := SPIN_LOCK_UNLOCKED.

(** [set_bit(0, &lock->slock)] *)
Definition release (slock : Z) : Z := word_at (set_bit 0 {[0 := slock]}) 0.

(** ** Processors *)

(** Where a processor is. The [1] of a pair is before the read of
    [preempt_count], the [2] before the write, with the value read. *)
Inductive pc :=
| Outside                 (* not in the two functions; the next step enters spin_lock *)
| Enter2 (tmp : Z)        (* preempt_disable *)
| Try                     (* while (!raw_spin_trylock(lock)) *)
| Enable1                 (* preempt_enable *)
| Enable2 (tmp : Z)
| Spin                    (* while (spin_is_locked(lock)) *)
| Disable1                (* preempt_disable *)
| Disable2 (tmp : Z)
| Critical                (* spin_lock has returned; the next step enters spin_unlock *)
| Leave1                  (* preempt_enable *)
| Leave2 (tmp : Z).

Record shared := { slock : Z; preempt_count : Z }.

(** One step of a processor. *)
Definition proc_step (high : Z) (p : pc) (m : shared) : pc * shared :=
  let set_preempt v := {| slock := slock m; preempt_count := s64 v |} in
  match p with
  | Outside => (Enter2 (preempt_count m), m)
  | Enter2 tmp => (Try, set_preempt (tmp + 1))
  | Try =>
      let '(r, w) := raw_spin_trylock high (slock m) in
      (if r =? 0 then Enable1 else Critical, {| slock := w; preempt_count := preempt_count m |})
  | Enable1 => (Enable2 (preempt_count m), m)
  | Enable2 tmp => (Spin, set_preempt (tmp - 1))
  | Spin => (if spin_is_locked (slock m) =? 0 then Disable1 else Spin, m)
  | Disable1 => (Disable2 (preempt_count m), m)
  | Disable2 tmp => (Try, set_preempt (tmp + 1))
  | Critical => (Leave1, {| slock := release (slock m); preempt_count := preempt_count m |})
  | Leave1 => (Leave2 (preempt_count m), m)
  | Leave2 tmp => (Outside, set_preempt (tmp - 1))
  end.

(** The machine: the place of each processor and the shared memory. *)
Record smp := { procs : list pc; mem : shared }.

Inductive step (high : Z) : smp -> smp -> Prop :=
| StepProc s i p p' m :
    procs s !! i = Some p -> proc_step high p (mem s) = (p', m) ->
    step high s {| procs := <[i := p']> (procs s); mem := m |}.

(** Runs the processors in the order given. *)
Fixpoint run (high : Z) (sched : list nat) (s : smp) : option smp :=
  match sched with
  | [] => Some s
  | i :: sched' =>
      p ← procs s !! i;
      let '(p', m) := proc_step high p (mem s) in
      run high sched' {| procs := <[i := p']> (procs s); mem := m |}
  end.

Definition initial (n : nat) : smp :=
  {| procs := replicate n Outside;
     mem := {| slock := spin_lock_init; preempt_count := 0 |} |}.

Definition reachable (high : Z) (n : nat) : smp -> Prop := rtc (step high) (initial n).

(** ** The invariant *)

(** The number of processors that hold the lock. *)
Fixpoint holders (ps : list pc) : Z :=
  match ps with
  | [] => 0
  | Critical :: ps' => 1 + holders ps'
  | _ :: ps' => holders ps'
  end.

Definition holds (p : pc) : Z := match p with Critical => 1 | _ => 0 end.

Lemma holders_cons p ps : holders (p :: ps) = holds p + holders ps.
Proof. by destruct p. Qed.

Lemma holders_nonneg ps : 0 <= holders ps.
Proof. induction ps as [|p ps IH]; [done|]. rewrite holders_cons. destruct p; simpl; lia. Qed.

Lemma holders_insert ps i p p' :
  ps !! i = Some p -> holders (<[i := p']> ps) = holders ps - holds p + holds p'.
Proof.
  revert i. induction ps as [|q ps IH]; intros i Hi; [done|]. destruct i as [|i]; simpl in Hi.
  - injection Hi as ->. cbn [list_insert insert]. change (<[0%nat := p']> (p :: ps)) with (p' :: ps).
    rewrite !holders_cons. lia.
  - change (<[S i := p']> (q :: ps)) with (q :: <[i := p']> ps). rewrite !holders_cons, IH by done. lia.
Qed.

(** The word is 1 when nobody holds the lock and 0 when one processor does. *)
Definition lock_inv (s : smp) : Prop :=
  slock (mem s) = 1 /\ holders (procs s) = 0 \/ slock (mem s) = 0 /\ holders (procs s) = 1.

Lemma lock_inv_step s s' : lock_inv s -> step 0 s s' -> lock_inv s'.
Proof.
  intros Hinv Hs. destruct Hs as [s i p p' m Hi E]. unfold lock_inv. cbn [procs mem].
  rewrite (holders_insert _ _ p) by done.
  destruct s as [ps [w c]]. unfold lock_inv in Hinv. cbn [procs mem slock] in *.
  assert (Hc : holds p <= holders ps).
  { clear -Hi. revert i Hi. induction ps as [|q ps IH]; intros [|i] Hi; simpl in Hi; try done.
    - injection Hi as ->. rewrite holders_cons. pose proof (holders_nonneg ps). lia.
    - rewrite holders_cons. apply IH in Hi. destruct q; simpl; lia. }
  destruct p; cbn [proc_step slock preempt_count] in E; try (injection E as <- <-; simpl; lia).
  - destruct Hinv as [[-> Hh]|[-> Hh]]; vm_compute in E; injection E as <- <-; simpl; lia.
  - destruct Hinv as [[-> Hh]|[-> Hh]]; vm_compute in E; injection E as <- <-; simpl; lia.
  - destruct Hinv as [[-> Hh]|[-> Hh]]; vm_compute in E; injection E as <- <-; simpl in *; lia.
Qed.

Lemma initial_inv n : lock_inv (initial n).
Proof. left. split; [done|]. simpl. induction n as [|n IH]; [done|]. exact IH. Qed.

Lemma reachable_inv n s : reachable 0 n s -> lock_inv s.
Proof.
  intros Hr. pose proof (initial_inv n) as Hi. unfold reachable in Hr.
  induction Hr as [|s1 s2 s3 Hs _ IH]; [done|]. apply IH. by eapply lock_inv_step.
Qed.

(** A schedule is a sequence of steps. *)
Lemma run_steps high sched : forall s s', run high sched s = Some s' -> rtc (step high) s s'.
Proof.
  induction sched as [|i sched IH]; intros s s' E; cbn [run] in E.
  - injection E as <-. apply rtc_refl.
  - destruct (procs s !! i) as [p|] eqn:Hp; [|done]. cbn [mbind option_bind] in E.
    destruct (proc_step high p (mem s)) as [p' m] eqn:Es.
    eapply rtc_l; [by eapply StepProc | by apply IH].
Qed.

(** ** Properties *)

Lemma one_holder n s i j :
  reachable 0 n s -> procs s !! i = Some Critical -> procs s !! j = Some Critical ->
  i = j /\ slock (mem s) = SPIN_LOCK_LOCKED.
Proof.
  intros Hr Hi Hj. pose proof (reachable_inv n s Hr) as Hinv.
  destruct (decide (i = j)) as [->|Hne].
  - split; [done|]. destruct Hinv as [[_ Hz]|[-> _]]; [|done]. exfalso.
    pose proof (holders_insert _ _ _ Outside Hj). pose proof (holders_nonneg (<[j := Outside]> (procs s))).
    simpl in *. lia.
  - exfalso. pose proof (holders_insert _ _ _ Outside Hi) as H1.
    assert (Hj' : <[i := Outside]> (procs s) !! j = Some Critical) by (by rewrite list_lookup_insert_ne).
    pose proof (holders_insert _ _ _ Outside Hj') as H2.
    pose proof (holders_nonneg (<[j := Outside]> (<[i := Outside]> (procs s)))).
    simpl in *. destruct Hinv as [[_ ?]|[_ ?]]; lia.
Qed.

(** With any other content of the register every attempt succeeds: the first
    two processors that enter are both in the critical section. *)
Lemma trylock_needs_clear_register high n :
  0 < high -> (2 <= n)%nat ->
  exists s, reachable high n s /\ procs s !! 0%nat = Some Critical /\ procs s !! 1%nat = Some Critical.
Proof.
  intros Hh Hn. destruct high as [|high|high]; [lia| |lia]. destruct n as [|[|n]]; [lia|lia|].
  eexists. split; [apply (run_steps _ [0; 0; 0; 1; 1; 1]%nat); reflexivity | done].
Qed.

(** C14: mutual exclusion, and what it rests on. [raw_spin_trylock] loads only
    the low byte of the register it tests ([tmp] is an output of the assembly
    and nothing more). If the other bytes, [high], are clear, then whatever the
    number of processors and the order of their steps at most one of them is
    between [spin_lock] and [spin_unlock], and the word of the lock says
    locked when there is one. If they are anything else, which nothing in
    spinlock.c excludes, an order of steps puts two processors between the two
    functions, as soon as there are two. *)
Theorem mutual_exclusion high n :
  (high = 0 ->
   forall s i j, reachable high n s -> procs s !! i = Some Critical -> procs s !! j = Some Critical ->
   i = j /\ slock (mem s) = SPIN_LOCK_LOCKED) /\
  (0 < high -> (2 <= n)%nat ->
   exists s, reachable high n s /\ procs s !! 0%nat = Some Critical /\ procs s !! 1%nat = Some Critical).
Proof.
  split.
  - intros ->. exact (one_holder n).
  - exact (trylock_needs_clear_register high n).
Qed.

(** One processor takes the lock, the other waits. *)
Definition sample_held : smp :=
  {| procs := [Critical; Enable1]; mem := {| slock := 0; preempt_count := 2 |} |}.

Lemma sample_held_reachable : reachable 0 2 sample_held.
Proof. by apply (run_steps 0 [0; 0; 0; 1; 1; 1]%nat). Qed.

Lemma mutual_exclusion_witness :
  slock (mem sample_held) = SPIN_LOCK_LOCKED /\
  exists s, reachable 0xdead 2 s /\ procs s !! 0%nat = Some Critical /\ procs s !! 1%nat = Some Critical.
Proof.
  split.
  - destruct (mutual_exclusion 0 2) as [Hw _].
    by apply (Hw eq_refl sample_held 0%nat 0%nat sample_held_reachable).
  - destruct (mutual_exclusion 0xdead 2) as [_ Hex]. apply Hex; lia.
Defined.

(** A step after which the lock is free. *)
Definition free_step (a b : smp) : Prop := step 0 a b /\ slock (mem b) = SPIN_LOCK_UNLOCKED.

Lemma spinning_stays s s' i :
  rtc free_step s s' -> slock (mem s) = SPIN_LOCK_UNLOCKED -> procs s !! i = Some Spin ->
  procs s' !! i = Some Spin.
Proof.
  induction 1 as [|s1 s2 s3 [Hs Hw'] _ IH]; [done|]. intros Hw Hi. apply IH; [done|]. clear IH.
  destruct Hs as [s k p p' m Hk E]. cbn [procs mem] in *.
  destruct (decide (k = i)) as [->|Hne].
  - assert (p = Spin) as -> by congruence. cbn [proc_step] in E. rewrite Hw in E.
    change (spin_is_locked SPIN_LOCK_UNLOCKED =? 0) with false in E. injection E as <- _.
    apply list_lookup_insert_eq. by eapply lookup_lt_Some.
  - by rewrite list_lookup_insert_ne.
Qed.

(** The lock is free, its last holder is gone, and the waiter spins. *)
Definition sample_missed : smp :=
  {| procs := [Outside; Spin]; mem := {| slock := 1; preempt_count := 0 |} |}.

(** C40: the test of [spin_is_locked] is inverted: bit 0 of the word is set when
    the lock is free. A waiter that sees the lock released between its attempt
    and the test never notices: a state can be reached in which the lock is
    free and nobody else is at it, and the waiter stays where it is as long as
    the lock stays free. *)
Theorem waiter_misses_release :
  reachable 0 2 sample_missed /\ slock (mem sample_missed) = SPIN_LOCK_UNLOCKED /\
  forall s', rtc free_step sample_missed s' -> procs s' !! 1%nat = Some Spin.
Proof.
  split; [|split; [done|]].
  - by apply (run_steps 0 [0; 0; 0; 1; 1; 1; 0; 0; 0; 1; 1]%nat).
  - intros s' Hs. by apply (spinning_stays sample_missed).
Qed.

(** Two processors that lock and unlock can lose an update of [preempt_count]:
    both are outside, and the count is not 0 again. *)
Lemma preempt_count_races :
  exists s, reachable 0 2 s /\ procs s = [Outside; Outside] /\ preempt_count (mem s) = - 1.
Proof.
  eexists. split; [|split]; [apply (run_steps 0 [0; 1; 0; 1; 0; 0; 1; 0; 0; 1; 1; 1]%nat); vm_compute; reflexivity|..];
    done.
Qed.
