(* ===== verification/LocalApic.v ===== *)
(** * The local APIC and the start of processors (apic.h, apic.c, smp.c)

    The checks and the initialisation of the boot processor's local APIC, its
    timer and the timer's handler, and the commands that start the other
    processors. The chip is given by [LocalApic], which adds the contents of
    its registers and the commands it was sent to the devices of [Interrupts];
    [chip] is an instance. Messages are in Messages. *)

From S2P Require Import Prelude Screen Descriptors Interrupts.

(** ** Registers *)

Definition APIC_ID : Z := 0x20.
Definition APIC_ID_MASK : Z := Z.shiftl 0xFF 24.
Definition APIC_LVR : Z := 0x30.
Definition APIC_LVR_MASK : Z := 0xFF00FF.
Definition GET_APIC_VERSION (x : Z) : Z := Z.land x 0xFF.
Definition GET_APIC_MAXLVT (x : Z) : Z := Z.land (Z.shiftr x 16) 0xFF.
Definition APIC_SPIV : Z := 0xF0.
Definition APIC_SPIV_APIC_ENABLED : Z := Z.shiftl 1 8.
Definition APIC_ICR : Z := 0x300.
Definition APIC_DEST_ALLBUT : Z := 0xC0000.
Definition APIC_INT_ASSERT : Z := 0x04000.
Definition APIC_ICR_BUSY : Z := 0x01000.
Definition APIC_DM_INIT : Z := 0x00500.
Definition APIC_DM_STARTUP : Z := 0x00600.
Definition APIC_LVTT : Z := 0x320.
Definition APIC_LVTTHMR : Z := 0x330.
Definition APIC_LVTPC : Z := 0x340.
Definition APIC_LVT0 : Z := 0x350.
Definition APIC_LVT_TIMER_PERIODIC : Z := Z.shiftl 1 17.
Definition APIC_LVT_MASKED : Z := Z.shiftl 1 16.
Definition APIC_LVT1 : Z := 0x360.
Definition APIC_LVTERR : Z := 0x370.
Definition APIC_TMICT : Z := 0x380.
Definition APIC_TDCR : Z := 0x3E0.
Definition APIC_TDR_DIV_64 : Z := 0x9.

Definition CPU_IRQ_BASE : Z := 0x10.
Definition BSP_TIMER_IRQ : Z := CPU_IRQ_BASE + 0x0.
Definition SPURIOUS_IRQ : Z := CPU_IRQ_BASE + 0x3.

Definition AP_INIT_ADDRESS : Z := 0x9000.

(** ** The chip *)

Definition lvt_regs : list Z := [APIC_LVTT; APIC_LVTTHMR; APIC_LVTPC; APIC_LVT1; APIC_LVT0; APIC_LVTERR].

(** The registers that keep what is written to them. *)
Definition config_regs : list Z := lvt_regs ++ [APIC_TASKPRI; APIC_SPIV; APIC_TMICT; APIC_TDCR].

(** The registers a read of which has no effect. *)
Definition stable_regs : list Z := config_regs ++ [APIC_ID; APIC_LVR; APIC_ICR].

(** The writable bits of a register. *)
Definition writable (r : Z) : Z :=
  if decide (r = APIC_LVTT) then 0x300FF
  else if decide (r ∈ lvt_regs) then 0x1A7FF
  else if decide (r = APIC_TASKPRI) then 0xFF
  else if decide (r = APIC_SPIV) then 0x3FF
  else if decide (r = APIC_TDCR) then 0xB
  else 0xFFFFFFFF.

(** What the manual says of the registers: the version register is read-only,
    the identifier is a field of eight bits, an entry of the local vector table
    keeps its mask while the APIC is disabled, a write to the command register
    sends a command. The I/O APIC is another chip. *)
Class LocalApic (D : Type) `{Device D} := {
  apic_reg : Z -> D -> Z;
  ipis : D -> list Z;
  lapic_tpr d : tpr d = apic_reg APIC_TASKPRI d;
  lapic_id d : exists i, 0 <= i < 256 /\ apic_reg APIC_ID d = i * 2 ^ 24;
  lapic_read r d : r ∈ stable_regs -> apic_read r d = (apic_reg r d, d);
  lapic_write r v d q : r ∈ config_regs -> q ∈ config_regs ++ [APIC_ID; APIC_LVR] ->
    Z.land v (writable r) = v ->
    (r ∈ lvt_regs -> Z.testbit v 16 = true \/ Z.testbit (apic_reg APIC_SPIV d) 8 = true) ->
    (r = APIC_SPIV -> Z.testbit (apic_reg APIC_SPIV d) 8 = true -> Z.testbit v 8 = true) ->
    apic_reg q (apic_write r v d) = if decide (q = r) then v else apic_reg q d;
  lapic_write_id v d q : q ∈ config_regs ++ [APIC_ID; APIC_LVR] ->
    apic_reg q (apic_write APIC_ID v d)
    = if decide (q = APIC_ID) then Z.land v APIC_ID_MASK else apic_reg q d;
  lapic_write_other r v d q : r = APIC_LVR \/ r = APIC_EOI \/ r = APIC_ICR ->
    q ∈ config_regs ++ [APIC_ID; APIC_LVR] -> apic_reg q (apic_write r v d) = apic_reg q d;
  lapic_write_ipis r v d :
    ipis (apic_write r v d) = if decide (r = APIC_ICR) then ipis d ++ [v] else ipis d;
  lapic_write_redirection r v d q : redirection (apic_write r v d) q = redirection d q;
  lapic_io_select r d q : apic_reg q (io_select r d) = apic_reg q d;
  lapic_io_write v d q : apic_reg q (io_window_write v d) = apic_reg q d;
  lapic_io_read d q : apic_reg q (snd (io_window_read d)) = apic_reg q d;
  lapic_io_ipis r v d : ipis (io_select r d) = ipis d /\ ipis (io_window_write v d) = ipis d /\
    ipis (snd (io_window_read d)) = ipis d;
  lapic_outb p v d q : apic_reg q (outb p v d) = apic_reg q d /\
    redirection (outb p v d) q = redirection d q /\ ipis (outb p v d) = ipis d
}.

Section LocalApic.
Context {D : Type} `{LocalApic D}.

(** ** apic.c *)

(** An [ssize_t]: 1 when the chip answers like a local APIC. *)
Definition verify_local_APIC (d : D) : Z * D :=
  let '(reg0, d) := apic_read APIC_LVR d in
  let d := apic_write APIC_LVR (Z.lxor reg0 APIC_LVR_MASK) d in
  let '(reg1, d) := apic_read APIC_LVR d in
  if negb (reg1 =? reg0) then (0, d)
  else
    let reg1 := GET_APIC_VERSION reg0 in
    if (reg1 =? 0x00) || (reg1 =? 0xff) then (0, d)
    else
      let reg1 := GET_APIC_MAXLVT reg0 in
      if (reg1 <? 0x02) || (reg1 =? 0xff) then (0, d)
      else
        let '(reg0, d) := apic_read APIC_ID d in
        let d := apic_write APIC_ID (Z.lxor reg0 APIC_ID_MASK) d in
        let '(reg1, d) := apic_read APIC_ID d in
        let d := apic_write APIC_ID reg0 d in
        if negb (reg1 =? Z.lxor reg0 APIC_ID_MASK) then (0, d) else (1, d).

(** The registers after the checks of [init_bsp_APIC], up to the value that
    tells whether the chip is enabled. *)
Definition enable_bsp (d : D) : Z * D :=
  let d := apic_write APIC_LVTT 0x10000 d in
  let d := apic_write APIC_LVTTHMR 0x10000 d in
  let d := apic_write APIC_LVTPC 0x10000 d in
  let d := apic_write APIC_LVT1 0x10000 d in
  let d := apic_write APIC_LVT0 0x10000 d in
  let d := apic_write APIC_LVTERR 0x10000 d in
  let d := apic_write APIC_TASKPRI 0 d in
  let '(spiv, d) := apic_read APIC_SPIV d in
  let d := apic_write APIC_SPIV (u32 (Z.lor spiv (IRQ_TO_VECTOR SPURIOUS_IRQ))) d in
  let d := apic_write APIC_EOI 0 d in
  let '(lapic_SVR, d) := apic_read APIC_SPIV d in
  let d := apic_write APIC_SPIV (u32 (Z.lor lapic_SVR APIC_SPIV_APIC_ENABLED)) d in
  apic_read APIC_SPIV d.

Definition setup_bsp (d : D) : D := let '(_, d) := enable_bsp d in apic_write APIC_EOI 0 d.

Definition init_bsp_APIC (boot_cpu_id : Z) (x86_cpu_to_apicid : list Z) (d : D) : res D :=
  let '(lapic_id, d) := apic_read APIC_ID d in
  bad ← (if negb (lapic_id =? boot_cpu_id) then Ret true
         else a ← aget x86_cpu_to_apicid boot_cpu_id; Ret (negb (lapic_id =? a)));
  if (bad : bool) then Halted
  else
    let '(ok, d) := verify_local_APIC d in
    if ok =? 0 then Halted else Ret (setup_bsp d).

(** The identifier the message reads, and what the timer's vector reads as after
    it was written. *)
Definition program_timer (d : D) : Z * Z * D :=
  let '(id, d) := apic_read APIC_ID d in
  let d := apic_write APIC_TMICT 0xFFFFFF d in
  let d := apic_write APIC_TDCR APIC_TDR_DIV_64 d in
  let '(lvt_timer, d) := apic_read APIC_LVTT d in
  let lvt_timer := Z.land lvt_timer (u32 (Z.lnot APIC_LVT_MASKED)) in
  let lvt_timer := Z.lor lvt_timer APIC_LVT_TIMER_PERIODIC in
  let lvt_timer := u32 (Z.lor lvt_timer (IRQ_TO_VECTOR BSP_TIMER_IRQ)) in
  let d := apic_write APIC_LVTT lvt_timer d in
  let '(v, d) := apic_read APIC_LVTT d in
  (id, v, d).

(** [handler] is [bsp_local_timer]. *)
Definition init_bsp_timer (handler : irq_handler_t (D := D)) (st : irq_state) : res irq_state :=
  let '(_, v, d) := program_timer (device st) in
  let st := with_device d st in
  if Z.land v APIC_LVT_MASKED =? 0 then
    '(_, st) ← register_irq BSP_TIMER_IRQ handler st;
    Ret st
  else Ret st.

(** ** smp.c *)

(** [for (; a > 0; a--) continue;], counting the iterations. *)
Fixpoint spin_down (fuel : nat) (a n : Z) : res (Z * Z) :=
  match fuel with
  | O => NoFuel
  | S fuel' => if a >? 0 then spin_down fuel' (a - 1) (n + 1) else Ret (a, n)
  end.

(** [a] and the number of iterations of the inner loop. *)
Definition delay (count : Z) : res (Z * Z) :=
  for_loop (Z.to_nat count) 0 (fun _ '(a, n) => spin_down (S (Z.to_nat a)) a n) (- 1, 0).

(** The message of a wrong state of the command register precedes the halt. *)
Definition wake_ap (d : D) : res D :=
  let d := apic_write APIC_ICR (Z.lor (Z.lor APIC_DEST_ALLBUT APIC_INT_ASSERT) APIC_DM_INIT) d in
  _ ← delay 1000000;
  _ ← delay 1000000;
  let startup := Z.lor (Z.lor (Z.lor APIC_DEST_ALLBUT APIC_INT_ASSERT) APIC_DM_STARTUP)
                       (Z.shiftr AP_INIT_ADDRESS 12) in
  let d := apic_write APIC_ICR startup d in
  _ ← delay 1000000;
  let d := apic_write APIC_ICR startup d in
  _ ← delay 1000000;
  let '(icr, d) := apic_read APIC_ICR d in
  if negb (Z.land icr APIC_ICR_BUSY =? 0) then Halted else Ret d.

(** smp.h: the number of the running processor. *)
Definition cpu_id (d : D) : Z * D := apic_read APIC_ID d.

End LocalApic.

(** ** The handler of the timer *)

(** It draws the first line of the screen; [tick] is its static counter. *)
Definition bsp_local_timer (tick : Z) (s : screen_info) : res (Z * screen_info) :=
  s ← for_loop 80 0 (fun k s => set_screen (79 - k) 32 s) s;
  s ← set_screen 0 66 s;
  s ← set_screen 1 83 s;
  s ← set_screen 2 80 s;
  s ← set_screen 3 tick s;
  s ← set_screen 77 65 s;
  s ← set_screen 78 80 s;
  Ret (u8 (tick + 1), s).

(** ** Lemmas *)

(** Decides a membership in a list of registers. *)
Ltac in_regs := apply (bool_decide_unpack _); vm_compute; reflexivity.

(** The side conditions of the write laws, with concrete registers. *)
Ltac write_done := first [in_regs | by left | by right | done | (intros Hq; exfalso; revert Hq; in_regs)].

Section Lemmas.
Context {D : Type} `{LocalApic D}.

(** The registers the kernel configures, the commands and the redirection table
    are the same. *)
Record same_chip (d d' : D) : Prop := {
  sc_regs : forall q, q ∈ config_regs ++ [APIC_ID; APIC_LVR] -> apic_reg q d' = apic_reg q d;
  sc_ipis : ipis d' = ipis d;
  sc_redirection : forall q, redirection d' q = redirection d q
}.

#[local] Instance same_chip_preorder : PreOrder same_chip.
Proof.
  split; [by split | intros d1 d2 d3 [R1 I1 T1] [R2 I2 T2]; split].
  - intros q Hq. by rewrite R2, R1.
  - by rewrite I2, I1.
  - intros q. by rewrite T2, T1.
Qed.

Lemma same_chip_other r v d : r = APIC_LVR \/ r = APIC_EOI -> same_chip d (apic_write r v d).
Proof.
  intros Hr. split.
  - intros q Hq. apply lapic_write_other; [tauto | done].
  - rewrite lapic_write_ipis. by destruct Hr as [-> | ->].
  - apply lapic_write_redirection.
Qed.

(** The test write of the identifier and the write of the old one. *)
Lemma id_flip i :
  0 <= i < 256 ->
  Z.land (Z.lxor (i * 2 ^ 24) APIC_ID_MASK) APIC_ID_MASK = Z.lxor (i * 2 ^ 24) APIC_ID_MASK /\
  Z.land (i * 2 ^ 24) APIC_ID_MASK = i * 2 ^ 24.
Proof.
  intros Hi.
  assert (Hall : forallb (fun i =>
      (Z.land (Z.lxor (i * 2 ^ 24) APIC_ID_MASK) APIC_ID_MASK =? Z.lxor (i * 2 ^ 24) APIC_ID_MASK) &&
      (Z.land (i * 2 ^ 24) APIC_ID_MASK =? i * 2 ^ 24)) (seqZ 0 256) = true)
    by (vm_compute; reflexivity).
  rewrite forallb_forall in Hall.
  assert (Hin : In i (seqZ 0 256)) by (apply list_elem_of_In, elem_of_seqZ; lia).
  apply Hall, andb_true_iff in Hin as [H1%Z.eqb_eq H2%Z.eqb_eq]. done.
Qed.

Lemma same_chip_id d :
  let reg0 := apic_reg APIC_ID d in
  let d1 := apic_write APIC_ID (Z.lxor reg0 APIC_ID_MASK) d in
  apic_reg APIC_ID d1 = Z.lxor reg0 APIC_ID_MASK /\ same_chip d (apic_write APIC_ID reg0 d1).
Proof.
  intros reg0 d1. destruct (lapic_id d) as (i & Hi & E). fold reg0 in E.
  destruct (id_flip i Hi) as [F1 F2]. rewrite <- E in F1, F2.
  assert (H1 : apic_reg APIC_ID d1 = Z.lxor reg0 APIC_ID_MASK).
  { unfold d1. rewrite lapic_write_id by in_regs. by rewrite decide_True. }
  split; [done|]. split.
  - intros q Hq. rewrite lapic_write_id by done. destruct (decide (q = APIC_ID)) as [->|Hne]; [done|].
    unfold d1. rewrite lapic_write_id by done. by rewrite decide_False.
  - rewrite lapic_write_ipis, decide_False by done. unfold d1.
    by rewrite lapic_write_ipis, decide_False.
  - intros q. unfold d1. by rewrite !lapic_write_redirection.
Qed.

(** The version register of a local APIC: neither version 0 or 0xff nor a local
    vector table of fewer than three entries or 256. *)
Definition version_ok (v : Z) : bool :=
  negb (v mod 256 =? 0) && negb (v mod 256 =? 255) &&
  (2 <=? v / 2 ^ 16 mod 256) && negb (v / 2 ^ 16 mod 256 =? 255).

Lemma verify_spec d :
  exists d', verify_local_APIC d = (if version_ok (apic_reg APIC_LVR d) then 1 else 0, d') /\
    same_chip d d'.
Proof.
  unfold verify_local_APIC. rewrite lapic_read by in_regs. cbv beta iota zeta.
  set (d1 := apic_write APIC_LVR _ d). assert (S1 : same_chip d d1) by (apply same_chip_other; by left).
  rewrite lapic_read by in_regs. cbv beta iota zeta.
  rewrite (sc_regs _ _ S1 APIC_LVR) by in_regs. rewrite Z.eqb_refl. cbn [negb].
  set (v := apic_reg APIC_LVR d).
  assert (Hv : GET_APIC_VERSION v = v mod 256 /\ GET_APIC_MAXLVT v = v / 2 ^ 16 mod 256).
  { unfold GET_APIC_VERSION, GET_APIC_MAXLVT. change 0xFF with (Z.ones 8).
    by rewrite !Z.land_ones, Z.shiftr_div_pow2 by lia. }
  destruct Hv as [-> ->]. unfold version_ok.
  destruct (v mod 256 =? 0); cbn [negb andb orb]; [by exists d1|].
  change 0xff with 255. destruct (v mod 256 =? 255); cbn [negb andb]; [by exists d1|].
  rewrite Z.ltb_antisym. destruct (2 <=? v / 2 ^ 16 mod 256); cbn [negb andb orb]; [|by exists d1].
  destruct (v / 2 ^ 16 mod 256 =? 255); cbn [negb andb]; [by exists d1|].
  rewrite lapic_read by in_regs. cbv beta iota zeta. rewrite lapic_read by in_regs. cbv beta iota zeta.
  destruct (same_chip_id d1) as [E S2]. rewrite E, Z.eqb_refl. cbn [negb].
  eexists. split; [done|]. by transitivity d1.
Qed.

(** A configuration write, on the registers a theorem speaks of. *)
Lemma write_lvt r v d q :
  r ∈ lvt_regs -> q ∈ config_regs ++ [APIC_ID; APIC_LVR] -> Z.land v (writable r) = v ->
  Z.testbit v 16 = true \/ Z.testbit (apic_reg APIC_SPIV d) 8 = true ->
  apic_reg q (apic_write r v d) = if decide (q = r) then v else apic_reg q d.
Proof.
  intros Hr Hq Hw Hm. apply lapic_write; [by apply elem_of_app; left | done..|].
  intros ->. exfalso. revert Hr. in_regs || (apply bool_decide_unpack; by vm_compute).
Qed.

(** The register [q] after a write, with concrete registers. *)
Ltac reg_write :=
  first
    [ rewrite (lapic_write_other APIC_EOI) by (tauto || in_regs)
    | rewrite write_lvt by write_done
    | rewrite lapic_write by write_done ];
  rewrite ?decide_True by done; rewrite ?decide_False by done.

Lemma spiv_bits v :
  Z.land v 0x3FF = v ->
  Z.land (Z.lor v 0x33) 0x3FF = Z.lor v 0x33 /\ u32 (Z.lor v 0x33) = Z.lor v 0x33 /\
  Z.land (Z.lor (Z.lor v 0x33) 0x100) 0x3FF = Z.lor (Z.lor v 0x33) 0x100 /\
  u32 (Z.lor (Z.lor v 0x33) 0x100) = Z.lor (Z.lor v 0x33) 0x100.
Proof.
  intros Hv.
  assert (Hr : 0 <= v < 1024).
  { rewrite <- Hv. change 0x3FF with (Z.ones 10). rewrite Z.land_ones by lia. apply Z.mod_pos_bound. lia. }
  assert (Hall : forallb (fun v => (Z.land (Z.lor v 0x33) 0x3FF =? Z.lor v 0x33) &&
      (u32 (Z.lor v 0x33) =? Z.lor v 0x33) &&
      (Z.land (Z.lor (Z.lor v 0x33) 0x100) 0x3FF =? Z.lor (Z.lor v 0x33) 0x100) &&
      (u32 (Z.lor (Z.lor v 0x33) 0x100) =? Z.lor (Z.lor v 0x33) 0x100)) (seqZ 0 1024) = true)
    by (vm_compute; reflexivity).
  rewrite forallb_forall in Hall.
  assert (Hin : In v (seqZ 0 1024)) by (apply list_elem_of_In, elem_of_seqZ; lia).
  apply Hall in Hin. rewrite !andb_true_iff, !Z.eqb_eq in Hin. tauto.
Qed.

(** What [setup_bsp] leaves in the register [q]. *)
Definition bsp_reg (d : D) (q : Z) : Z :=
  if decide (q ∈ lvt_regs) then APIC_LVT_MASKED
  else if decide (q = APIC_TASKPRI) then 0
  else if decide (q = APIC_SPIV) then Z.lor (Z.lor (apic_reg APIC_SPIV d) 0x33) 0x100
  else apic_reg q d.

(** The eight masking and priority writes. *)
Definition mask_writes : list (Z * Z) :=
  [(APIC_LVTT, 0x10000); (APIC_LVTTHMR, 0x10000); (APIC_LVTPC, 0x10000); (APIC_LVT1, 0x10000);
   (APIC_LVT0, 0x10000); (APIC_LVTERR, 0x10000); (APIC_TASKPRI, 0)].

Lemma mask_writes_spec d q :
  q ∈ config_regs ++ [APIC_ID; APIC_LVR] ->
  apic_reg q (foldl (fun d w => apic_write w.1 w.2 d) d mask_writes)
  = if decide (q ∈ lvt_regs) then 0x10000 else if decide (q = APIC_TASKPRI) then 0 else apic_reg q d.
Proof.
  intros Hq. unfold config_regs, lvt_regs in Hq. cbn [app] in Hq.
  repeat (apply elem_of_cons in Hq as [->|Hq]; [cbn [foldl mask_writes fst snd]; repeat reg_write; reflexivity|]).
  by apply not_elem_of_nil in Hq.
Qed.

Lemma setup_bsp_spec d :
  Z.land (apic_reg APIC_SPIV d) 0x3FF = apic_reg APIC_SPIV d ->
  (forall q, q ∈ config_regs ++ [APIC_ID; APIC_LVR] -> apic_reg q (setup_bsp d) = bsp_reg d q) /\
  ipis (setup_bsp d) = ipis d /\ (forall q, redirection (setup_bsp d) q = redirection d q).
Proof.
  intros Hs. destruct (spiv_bits _ Hs) as (B1 & B2 & B3 & B4).
  unfold setup_bsp, enable_bsp.
  change (apic_write APIC_TASKPRI 0 _) with (foldl (fun d w => apic_write w.1 w.2 d) d mask_writes).
  set (d1 := foldl _ d mask_writes).
  assert (Hd1 := mask_writes_spec d). fold d1 in Hd1.
  assert (Es : apic_reg APIC_SPIV d1 = apic_reg APIC_SPIV d) by (rewrite Hd1 by in_regs; reflexivity).
  rewrite lapic_read by in_regs. cbv beta iota zeta.
  change (IRQ_TO_VECTOR SPURIOUS_IRQ) with 0x33. rewrite Es, B2.
  set (spiv := apic_reg APIC_SPIV d) in *. set (d2 := apic_write APIC_SPIV (Z.lor spiv 0x33) d1).
  assert (Hd2 : forall q, q ∈ config_regs ++ [APIC_ID; APIC_LVR] ->
    apic_reg q (apic_write APIC_EOI 0 d2) = if decide (q = APIC_SPIV) then Z.lor spiv 0x33 else apic_reg q d1).
  { intros q Hq. rewrite lapic_write_other by (tauto || done). unfold d2.
    apply lapic_write; try done; [in_regs | write_done |].
    intros _ Hb. rewrite Es in Hb. by rewrite Z.lor_spec, Hb. }
  rewrite lapic_read by in_regs. cbv beta iota zeta.
  rewrite Hd2 by in_regs. rewrite decide_True by done. unfold APIC_SPIV_APIC_ENABLED.
  change (Z.shiftl 1 8) with 0x100. rewrite B4. rewrite lapic_read by in_regs. cbv beta iota zeta.
  set (d3 := apic_write APIC_EOI 0 d2) in *.
  split; [|split].
  - intros q Hq. rewrite lapic_write_other by (tauto || done).
    rewrite lapic_write; try done; [|in_regs | write_done | intros _ _; by rewrite Z.lor_spec, orb_true_r].
    unfold bsp_reg. destruct (decide (q = APIC_SPIV)) as [->|Hne]; [by rewrite decide_False by in_regs|].
    rewrite Hd2 by done. rewrite decide_False by done. rewrite Hd1 by done. fold spiv. done.
  - unfold d3, d2, d1. cbn [foldl mask_writes fst snd]. rewrite !lapic_write_ipis. done.
  - intros q. unfold d3, d2, d1. cbn [foldl mask_writes fst snd]. by rewrite !lapic_write_redirection.
Qed.

End Lemmas.

(** [a] is -1 from the start: the inner loop never runs. *)
Lemma delay_nothing count : 0 <= count -> delay count = Ret (- 1, 0).
Proof.
  intros Hc. unfold delay.
  destruct (for_loop_inv (fun _ st => st = (- 1, 0)) (Z.to_nat count) 0
    (fun _ '(a, n) => spin_down (S (Z.to_nat a)) a n) (- 1, 0)) as (st & -> & ->); [done | | done].
  intros j t _ ->. exists (- 1, 0). done.
Qed.

(** Decoding of a command: destination shorthand, level, delivery mode, vector. *)
Definition icr_shorthand (v : Z) : Z := v / 2 ^ 18 mod 4.
Definition icr_level (v : Z) : bool := Z.testbit v 14.
Definition icr_mode (v : Z) : Z := v / 2 ^ 8 mod 8.
Definition icr_vector (v : Z) : Z := v mod 256.

Lemma wake_ap_spec {D} `{LocalApic D} (d : D) :
  exists d' d1, d' = apic_write APIC_ICR 0xC4609 d1 /\ ipis d' = ipis d ++ [0xC4500; 0xC4609; 0xC4609] /\
    (forall q, q ∈ config_regs ++ [APIC_ID; APIC_LVR] -> apic_reg q d' = apic_reg q d) /\
    (forall q, redirection d' q = redirection d q) /\
    wake_ap d = if Z.testbit (apic_reg APIC_ICR d') 12 then Halted else Ret d'.
Proof.
  unfold wake_ap. rewrite !delay_nothing by lia. cbn [mbind res_bind]. cbv zeta.
  change (Z.lor (Z.lor APIC_DEST_ALLBUT APIC_INT_ASSERT) APIC_DM_INIT) with 0xC4500.
  change (Z.lor (Z.lor (Z.lor APIC_DEST_ALLBUT APIC_INT_ASSERT) APIC_DM_STARTUP) (Z.shiftr AP_INIT_ADDRESS 12))
    with 0xC4609.
  match goal with |- context [apic_read APIC_ICR (apic_write APIC_ICR 0xC4609 ?x)] =>
    exists (apic_write APIC_ICR 0xC4609 x), x end.
  split; [done|]. split; [|split; [|split; [|rewrite lapic_read by in_regs]]].
  - rewrite !lapic_write_ipis. rewrite !decide_True by done. by rewrite <- !app_assoc.
  - intros q Hq. rewrite !lapic_write_other by (tauto || done). done.
  - intros q. by rewrite !lapic_write_redirection.
  - cbv beta iota zeta. set (v := apic_reg APIC_ICR _). unfold APIC_ICR_BUSY.
    assert (Hb : (Z.land v 0x01000 =? 0) = negb (Z.testbit v 12)); [|rewrite Hb; by destruct (Z.testbit v 12)].
    destruct (Z.testbit v 12) eqn:E; cbn [negb].
    + apply Z.eqb_neq. intros Hz. assert (Ht : Z.testbit (Z.land v 0x1000) 12 = false) by (rewrite Hz; apply Z.bits_0).
      rewrite Z.land_spec, E in Ht. discriminate.
    + apply Z.eqb_eq, Z.bits_inj'. intros n Hn. rewrite Z.land_spec, Z.bits_0.
      destruct (decide (n = 12)) as [->|Hne]; [by rewrite E|].
      change 0x1000 with (2 ^ 12). rewrite Z.pow2_bits_false by lia. apply andb_false_r.
Qed.

Lemma init_bsp_APIC_spec {D} `{LocalApic D} boot_cpu_id table (d : D) :
  Z.land (apic_reg APIC_SPIV d) 0x3FF = apic_reg APIC_SPIV d ->
  0 <= boot_cpu_id < 256 -> table !! 0%nat = Some 0 ->
  let ready := apic_reg APIC_ID d = 0 /\ boot_cpu_id = 0 /\ version_ok (apic_reg APIC_LVR d) = true in
  (~ ready -> init_bsp_APIC boot_cpu_id table d = Halted) /\
  (ready -> exists d', init_bsp_APIC boot_cpu_id table d = Ret d' /\
     (forall r, r ∈ lvt_regs -> apic_reg r d' = APIC_LVT_MASKED) /\ tpr d' = 0 /\
     Z.testbit (apic_reg APIC_SPIV d') 8 = true /\ Z.land (apic_reg APIC_SPIV d') 0x33 = 0x33 /\
     apic_reg APIC_ID d' = 0 /\ ipis d' = ipis d /\ forall q, redirection d' q = redirection d q).
Proof.
  intros Hs Hb Ht ready. unfold init_bsp_APIC. rewrite lapic_read by in_regs. cbv beta iota zeta.
  destruct (lapic_id d) as (i & Hi & E). destruct (verify_spec d) as (d1 & Ev & S1).
  destruct (Z.eqb_spec (apic_reg APIC_ID d) boot_cpu_id) as [Hid|Hid]; cbn [negb mbind res_bind].
  2:{ split; [done|]. unfold ready. intros (? & ? & _). congruence. }
  assert (Hz : apic_reg APIC_ID d = 0 /\ boot_cpu_id = 0) by lia. destruct Hz as [Hz ->].
  rewrite (proj2 (aget_Ret table 0 0)) by done. cbn [mbind res_bind]. rewrite Hz, Z.eqb_refl. cbn [negb].
  rewrite Ev. destruct (version_ok (apic_reg APIC_LVR d)) eqn:Eok; cbv beta iota zeta; cbn [Z.eqb].
  2:{ split; [done|]. unfold ready. by intros (_ & _ & ?). }
  split; [intros Hn; exfalso; apply Hn; done|]. intros _.
  assert (Hs1 := Hs). rewrite <- (sc_regs _ _ S1 APIC_SPIV) in Hs1 by in_regs.
  destruct (setup_bsp_spec d1 Hs1) as (Hr & Hp & Hq). eexists. split; [done|].
  split; [|split; [|split; [|split; [|split; [|split]]]]].
  - intros r Hl. rewrite Hr by (apply elem_of_app; left; by apply elem_of_app; left).
    unfold bsp_reg. by rewrite decide_True.
  - rewrite lapic_tpr, Hr by in_regs. reflexivity.
  - rewrite Hr by in_regs. unfold bsp_reg. rewrite decide_False by in_regs.
    rewrite decide_False by done. rewrite decide_True by done. by rewrite Z.lor_spec, orb_true_r.
  - rewrite Hr by in_regs. unfold bsp_reg. rewrite decide_False by in_regs.
    rewrite decide_False by done. rewrite decide_True by done.
    rewrite !Z.land_lor_distr_l. change (Z.land 0x33 0x33) with 0x33. change (Z.land 0x100 0x33) with 0.
    rewrite Z.lor_0_r. apply Z.bits_inj'. intros n Hn. rewrite Z.lor_spec, Z.land_spec.
    by destruct (Z.testbit (apic_reg APIC_SPIV d1) n), (Z.testbit 0x33 n).
  - rewrite Hr by in_regs. unfold bsp_reg. rewrite !decide_False by (done || in_regs).
    rewrite (sc_regs _ _ S1) by in_regs. done.
  - rewrite Hp. apply S1.
  - intros q. rewrite Hq. apply S1.
Qed.

(** The I/O APIC's accesses of [register_irq] leave the local APIC alone. *)
Lemma enable_irq_apic {D} `{LocalApic D} irq (d : D) q :
  apic_reg q (snd (io_apic_enable_irq irq d)) = apic_reg q d.
Proof.
  unfold io_apic_enable_irq, io_apic_read, io_apic_write.
  destruct (io_window_read (io_select (u32 IO_APIC_VERSION) d)) as [ver d1] eqn:E.
  assert (Hd1 : apic_reg q d1 = apic_reg q d).
  { replace d1 with (snd (io_window_read (io_select (u32 IO_APIC_VERSION) d))) by (by rewrite E).
    by rewrite lapic_io_read, lapic_io_select. }
  destruct (_ >? _); cbn [snd]; [done|]. by rewrite lapic_io_write, lapic_io_select.
Qed.

Lemma enable_irq_ipis {D} `{LocalApic D} irq (d : D) : ipis (snd (io_apic_enable_irq irq d)) = ipis d.
Proof.
  unfold io_apic_enable_irq, io_apic_read, io_apic_write.
  destruct (io_window_read (io_select (u32 IO_APIC_VERSION) d)) as [ver d1] eqn:E.
  assert (Hd1 : ipis d1 = ipis d).
  { replace d1 with (snd (io_window_read (io_select (u32 IO_APIC_VERSION) d))) by (by rewrite E).
    destruct (lapic_io_ipis 0 0 (io_select (u32 IO_APIC_VERSION) d)) as (_ & _ & ->).
    by destruct (lapic_io_ipis (u32 IO_APIC_VERSION) 0 d) as (-> & _). }
  destruct (_ >? _); cbn [snd]; [done|]. rewrite (proj1 (proj2 (lapic_io_ipis 0 _ _))).
  by rewrite (proj1 (lapic_io_ipis _ 0 _)).
Qed.

(** [io_apic_init] changes nothing the kernel looks at. *)
Lemma io_apic_read_same {D} `{LocalApic D} r (d : D) q :
  let d' := snd (io_apic_read r d) in
  apic_reg q d' = apic_reg q d /\ redirection d' q = redirection d q /\ ipis d' = ipis d.
Proof.
  cbv zeta. unfold io_apic_read. split; [|split].
  - by rewrite lapic_io_read, lapic_io_select.
  - by destruct (io_window_read_select (u32 r) d) as (d' & -> & ->).
  - rewrite (proj2 (proj2 (lapic_io_ipis 0 0 (io_select (u32 r) d)))). apply (proj1 (lapic_io_ipis (u32 r) 0 d)).
Qed.

Lemma io_apic_init_same {D} `{LocalApic D} (d : D) :
  exists d', io_apic_init d = Ret d' /\ forall q,
    apic_reg q d' = apic_reg q d /\ redirection d' q = redirection d q /\ ipis d' = ipis d.
Proof.
  unfold io_apic_init, io_apic_report. rewrite wait_loop_ends. cbn [mbind res_bind].
  set (d0 := outb 0x23 0x1 (outb 0x22 0x70 d)).
  destruct (io_apic_read 0x0 d0) as [v1 d1] eqn:E1. destruct (io_apic_read IO_APIC_VERSION d1) as [v2 d2] eqn:E2.
  destruct (io_apic_read 0x1 d2) as [v3 d3] eqn:E3. exists d3. split; [done|]. intros q.
  pose proof (io_apic_read_same 0x1 d2 q) as S3. rewrite E3 in S3. cbn [snd] in S3.
  pose proof (io_apic_read_same IO_APIC_VERSION d1 q) as S2. rewrite E2 in S2. cbn [snd] in S2.
  pose proof (io_apic_read_same 0x0 d0 q) as S1. rewrite E1 in S1. cbn [snd] in S1.
  destruct S3 as (-> & -> & ->), S2 as (-> & -> & ->), S1 as (-> & -> & ->). unfold d0.
  destruct (lapic_outb 0x23 0x1 (outb 0x22 0x70 d) q) as (-> & -> & ->). apply lapic_outb.
Qed.

Lemma init_bsp_timer_spec {D} `{LocalApic D} (handler : irq_handler_t (D := D)) st :
  apic_reg APIC_LVTT (device st) = APIC_LVT_MASKED ->
  Z.testbit (apic_reg APIC_SPIV (device st)) 8 = true ->
  length (irq_handler st) = 32%nat ->
  exists st', init_bsp_timer handler st = Ret st' /\ ipis (device st') = ipis (device st) /\
    apic_reg APIC_LVTT (device st') = Z.lor APIC_LVT_TIMER_PERIODIC 48 /\
    apic_reg APIC_TMICT (device st') = 0xFFFFFF /\ apic_reg APIC_TDCR (device st') = APIC_TDR_DIV_64 /\
    (forall q, q ∈ [APIC_TASKPRI; APIC_SPIV; APIC_ID; APIC_LVR] ->
       apic_reg q (device st') = apic_reg q (device st)) /\
    idt_table st' = idt_table st /\ irq_handler st' = <[16%nat := Some handler]> (irq_handler st) /\
    (forall q, redirection (device st') q =
       if decide (16 <= GET_IO_APIC_ENTRY (redirection (device st) IO_APIC_VERSION) /\ q = 48)
       then 0xA000 + 48 else redirection (device st) q) /\
    (forall st1, irq_handler st1 = irq_handler st' -> 0 <= tpr (device st1) < 2 ^ 32 ->
       exists d, tpr d = 48 /\ handle_irq BSP_TIMER_IRQ st1 =
         (d' ← handler BSP_TIMER_IRQ d;
          Ret (with_device (apic_write APIC_TASKPRI (tpr (device st1)) (apic_write APIC_EOI 0 d')) st1))).
Proof.
  intros Ht Hen Hl. unfold init_bsp_timer, program_timer. rewrite lapic_read by in_regs. cbv beta iota zeta.
  set (d2 := apic_write APIC_TDCR APIC_TDR_DIV_64 (apic_write APIC_TMICT 0xFFFFFF (device st))).
  assert (Hd2 : forall q, q ∈ config_regs ++ [APIC_ID; APIC_LVR] -> apic_reg q d2 =
    if decide (q = APIC_TDCR) then APIC_TDR_DIV_64 else if decide (q = APIC_TMICT) then 0xFFFFFF
    else apic_reg q (device st)).
  { intros q Hq. unfold d2. by rewrite !lapic_write by (done || write_done). }
  rewrite lapic_read by in_regs. cbv beta iota zeta. rewrite Hd2 by in_regs.
  rewrite !decide_False by done. rewrite Ht.
  change (u32 (Z.lor (Z.lor (Z.land APIC_LVT_MASKED (u32 (Z.lnot APIC_LVT_MASKED))) APIC_LVT_TIMER_PERIODIC)
                     (IRQ_TO_VECTOR BSP_TIMER_IRQ))) with 0x20030.
  set (d3 := apic_write APIC_LVTT 0x20030 d2).
  assert (Hd3 : forall q, q ∈ config_regs ++ [APIC_ID; APIC_LVR] -> apic_reg q d3 =
    if decide (q = APIC_LVTT) then 0x20030 else apic_reg q d2).
  { intros q Hq. unfold d3. apply write_lvt; [in_regs | done | done | right].
    rewrite Hd2 by in_regs. by rewrite !decide_False by done. }
  rewrite lapic_read by in_regs. cbv beta iota zeta. rewrite Hd3 by in_regs. rewrite decide_True by done.
  change (Z.land 0x20030 APIC_LVT_MASKED =? 0) with true. cbv iota.
  unfold register_irq. cbn [irq_handler with_device device idt_table].
  rewrite aset_lt by (rewrite Hl; unfold BSP_TIMER_IRQ, CPU_IRQ_BASE; lia). cbn [mbind res_bind].
  destruct (enable_irq_spec BSP_TIMER_IRQ d3) as (d4 & Er & Hr); [unfold BSP_TIMER_IRQ, CPU_IRQ_BASE; lia|].
  assert (Hd4 : forall q, apic_reg q d4 = apic_reg q d3).
  { intros q. rewrite <- (enable_irq_apic BSP_TIMER_IRQ d3 q), Er. done. }
  assert (Hi4 : ipis d4 = ipis d3) by (rewrite <- (enable_irq_ipis BSP_TIMER_IRQ d3), Er; done).
  rewrite Er. cbn [mbind res_bind]. eexists. split; [done|]. cbn [irq_handler with_device device idt_table].
  split; [rewrite Hi4; unfold d3, d2; by rewrite !lapic_write_ipis|].
  split; [rewrite Hd4, Hd3 by in_regs; reflexivity|].
  split; [rewrite Hd4, Hd3, decide_False, Hd2 by (done || in_regs); reflexivity|].
  split; [rewrite Hd4, Hd3, decide_False, Hd2 by (done || in_regs); reflexivity|].
  split.
  { intros q Hq. rewrite Hd4.
    repeat (apply elem_of_cons in Hq as [->|Hq];
      [rewrite Hd3, Hd2 by in_regs; by rewrite !decide_False by done|]). by apply not_elem_of_nil in Hq. }
  split; [done|]. split; [done|]. split.
  - assert (Hred : forall q, redirection d3 q = redirection (device st) q).
    { intros q. unfold d3, d2. by rewrite !lapic_write_redirection. }
    intros q. rewrite Hr, !Hred. change (BSP_TIMER_IRQ) with 16. change (IO_APIC_REDTBL_BASE + 16 * 2) with 48.
    destruct (decide _); done.
  - intros st1 Hh Htp. apply (handle_irq_spec BSP_TIMER_IRQ st1 handler); [|unfold BSP_TIMER_IRQ, CPU_IRQ_BASE; lia | done].
    assert (Hlt : (16 < length (irq_handler st))%nat) by lia.
    rewrite Hh. apply list_lookup_insert_eq. exact Hlt.
Qed.

(** ** Properties *)

(** C23: the boot processor's local APIC. [init_bsp_APIC] returns exactly when
    the chip has the identifier 0, the boot processor is known under it and the
    version register is a local APIC's; then every entry of the local vector
    table is masked, the task priority admits every interrupt, the APIC is
    enabled, its spurious vector has the bits of 0x33, and neither commands were
    sent nor the redirection table changed. With any other identifier the
    machine halts, since the whole register is compared with the number of the
    processor. *)
Theorem bsp_apic_ready {D} `{LocalApic D} boot_cpu_id table (d : D) :
  Z.land (apic_reg APIC_SPIV d) 0x3FF = apic_reg APIC_SPIV d ->
  0 <= boot_cpu_id < 256 -> table !! 0%nat = Some 0 ->
  let ready := apic_reg APIC_ID d = 0 /\ boot_cpu_id = 0 /\ version_ok (apic_reg APIC_LVR d) = true in
  (~ ready -> init_bsp_APIC boot_cpu_id table d = Halted) /\
  (ready -> exists d', init_bsp_APIC boot_cpu_id table d = Ret d' /\
     (forall r, r ∈ lvt_regs -> apic_reg r d' = APIC_LVT_MASKED) /\ tpr d' = 0 /\
     Z.testbit (apic_reg APIC_SPIV d') 8 = true /\ Z.land (apic_reg APIC_SPIV d') 0x33 = 0x33 /\
     apic_reg APIC_ID d' = 0 /\ ipis d' = ipis d /\ forall q, redirection d' q = redirection d q).
Proof. apply init_bsp_APIC_spec. Qed.

(** C24: the start of the other processors. Whatever the state of the chip,
    [wake_ap] sends three commands: INIT and twice STARTUP, each to all
    processors but the sender, asserted, the STARTUP commands with the page of
    [AP_INIT_ADDRESS] as vector; it returns when the chip, read after the last
    one was written, does not report it as pending, and halts otherwise. No time passes in between: [delay]
    does nothing for any count. *)
Theorem processors_started {D} `{LocalApic D} (d : D) :
  (exists d' d1 cmds, ipis d' = ipis d ++ cmds /\ (icr_mode <$> cmds) = [5; 6; 6] /\
     Forall (fun c => icr_shorthand c = 3 /\ icr_level c = true) cmds /\
     Forall (fun c => 4096 * icr_vector c = AP_INIT_ADDRESS) (tail cmds) /\
     (exists c, last cmds = Some c /\ d' = apic_write APIC_ICR c d1) /\
     wake_ap d = if Z.testbit (apic_reg APIC_ICR d') 12 then Halted else Ret d') /\
  (forall count, 0 <= count -> delay count = Ret (- 1, 0)).
Proof.
  split; [|apply delay_nothing]. destruct (wake_ap_spec d) as (d' & d1 & Hd & Hi & _ & _ & E).
  exists d', d1, [0xC4500; 0xC4609; 0xC4609]. split; [done|]. split; [done|].
  split; [repeat constructor|]. split; [repeat constructor|]. split; [|exact E]. exists 0xC4609. exact (conj eq_refl Hd).
Qed.

(** The timer of the boot processor. On an enabled APIC whose timer is
    masked, [init_bsp_timer] starts the counter at 0xFFFFFF with the clock
    divided by 64, unmasks the timer in periodic mode with the vector of
    interrupt 16, and installs the handler: an interrupt of that number then
    runs it at the priority of the vector, acknowledges the APIC and restores
    the priority. It also writes the entry of the I/O APIC with that number, if
    there is one. *)
Theorem timer_programmed {D} `{LocalApic D} (handler : irq_handler_t (D := D)) st :
  apic_reg APIC_LVTT (device st) = APIC_LVT_MASKED ->
  Z.testbit (apic_reg APIC_SPIV (device st)) 8 = true ->
  length (irq_handler st) = 32%nat ->
  exists st', init_bsp_timer handler st = Ret st' /\
    apic_reg APIC_LVTT (device st') = Z.lor APIC_LVT_TIMER_PERIODIC 48 /\
    apic_reg APIC_TMICT (device st') = 0xFFFFFF /\ apic_reg APIC_TDCR (device st') = APIC_TDR_DIV_64 /\
    (forall q, q ∈ [APIC_TASKPRI; APIC_SPIV; APIC_ID; APIC_LVR] ->
       apic_reg q (device st') = apic_reg q (device st)) /\
    idt_table st' = idt_table st /\ irq_handler st' = <[16%nat := Some handler]> (irq_handler st) /\
    (forall q, redirection (device st') q =
       if decide (16 <= GET_IO_APIC_ENTRY (redirection (device st) IO_APIC_VERSION) /\ q = 48)
       then 0xA000 + 48 else redirection (device st) q) /\
    (forall st1, irq_handler st1 = irq_handler st' -> 0 <= tpr (device st1) < 2 ^ 32 ->
       exists d, tpr d = 48 /\ handle_irq BSP_TIMER_IRQ st1 =
         (d' ← handler BSP_TIMER_IRQ d;
          Ret (with_device (apic_write APIC_TASKPRI (tpr (device st1)) (apic_write APIC_EOI 0 d')) st1))).
Proof.
  intros Ht Hen Hl. destruct (init_bsp_timer_spec handler st Ht Hen Hl) as (st' & E & _ & Hrest).
  by exists st'.
Qed.

(** The check of the version register tells ordinary memory from a chip: where
    a write can be read back, [verify_local_APIC] returns 0. *)
Theorem verify_rejects_memory {D} `{Device D} (d : D) :
  (forall v d, fst (apic_read APIC_LVR (apic_write APIC_LVR v d)) = v) ->
  fst (verify_local_APIC d) = 0.
Proof.
  intros Hm. unfold verify_local_APIC. destruct (apic_read APIC_LVR d) as [reg0 d1].
  destruct (apic_read APIC_LVR (apic_write APIC_LVR (Z.lxor reg0 APIC_LVR_MASK) d1)) as [reg1 d2] eqn:E.
  assert (reg1 = Z.lxor reg0 APIC_LVR_MASK) as ->
    by (rewrite <- (Hm (Z.lxor reg0 APIC_LVR_MASK) d1), E; done).
  destruct (Z.eqb_spec (Z.lxor reg0 APIC_LVR_MASK) reg0) as [Hx|Hx]; [|done]. exfalso.
  assert (Hb : Z.testbit (Z.lxor reg0 APIC_LVR_MASK) 0 = Z.testbit reg0 0) by by rewrite Hx.
  rewrite Z.lxor_spec in Hb. change (Z.testbit APIC_LVR_MASK 0) with true in Hb.
  by destruct (Z.testbit reg0 0).
Qed.

(** ** The handler of the timer *)

(** Cell [k] of the first line while the timer runs. *)
Definition timer_cell (tick k : Z) : Z :=
  BG_BLACK + (if k =? 0 then 66 else if k =? 1 then 83 else if k =? 2 then 80
              else if k =? 3 then tick else if k =? 77 then 65 else if k =? 78 then 80 else 32).

Lemma set_screen_ok offset c s :
  0 <= offset < Z.of_nat (length (video_mem s)) -> 0 <= c < 256 ->
  set_screen offset c s = Ret (set_video (<[Z.to_nat offset := BG_BLACK + c]> (video_mem s)) s).
Proof.
  intros Ho Hc. unfold set_screen. rewrite aset_lt by done. cbn [mbind res_bind]. do 3 f_equal.
  assert (Hall : forallb (fun c => u16 (Z.lor BG_BLACK c) =? BG_BLACK + c) (seqZ 0 256) = true)
    by (vm_compute; reflexivity).
  rewrite forallb_forall in Hall. apply Z.eqb_eq, Hall, list_elem_of_In, elem_of_seqZ. lia.
Qed.

(** [k] cells from the right end of the line are blank. *)
Lemma blank_line s :
  length (video_mem s) = 2000%nat ->
  exists v, for_loop 80 0 (fun k s => set_screen (79 - k) 32 s) s = Ret (set_video v s) /\
    length v = 2000%nat /\
    forall i, (i < 2000)%nat -> v !! i = if decide (Z.of_nat i < 80) then Some 0x720 else video_mem s !! i.
Proof.
  intros Hl.
  destruct (for_loop_inv (fun k t => exists v, t = set_video v s /\ length v = 2000%nat /\
      forall i, (i < 2000)%nat -> v !! i = if decide (80 - k <= Z.of_nat i < 80) then Some 0x720 else video_mem s !! i)
    80 0 (fun k s => set_screen (79 - k) 32 s) s) as (t & -> & v & -> & Hlv & Hv).
  - exists (video_mem s). split; [by destruct s|]. split; [done|]. intros i Hi. by rewrite decide_False by lia.
  - intros k t Hk (v & -> & Hlv & Hv). rewrite set_screen_ok by (cbn [video_mem set_video]; lia).
    eexists. split; [done|]. exists (<[Z.to_nat (79 - k) := BG_BLACK + 32]> v). split; [done|].
    rewrite length_insert. split; [done|]. intros i Hi. destruct (decide (i = Z.to_nat (79 - k))) as [->|Hne].
    + rewrite list_lookup_insert_eq by lia. by rewrite decide_True by lia.
    + rewrite list_lookup_insert_ne, Hv by lia.
      destruct (decide (80 - k <= Z.of_nat i < 80)); [rewrite decide_True by lia | rewrite decide_False by lia]; done.
  - exists v. split; [done|]. split; [done|]. intros i Hi. rewrite Hv by done.
    destruct (decide (Z.of_nat i < 80)); [rewrite decide_True by lia | rewrite decide_False by lia]; done.
Qed.

(** The handler of the timer draws the first line: the letters BSP, the
    character of the tick, AP near the end, and blanks; the rest of the screen
    and the cursor stay, and the tick counts modulo 256. *)
Theorem timer_draws_line tick s :
  0 <= tick < 256 -> length (video_mem s) = 2000%nat ->
  exists s', bsp_local_timer tick s = Ret ((tick + 1) mod 256, s') /\ length (video_mem s') = 2000%nat /\
    cursor_offset s' = cursor_offset s /\ crt_ports s' = crt_ports s /\
    forall i, (i < 2000)%nat -> video_mem s' !! i =
      if decide (Z.of_nat i < 80) then Some (timer_cell tick (Z.of_nat i)) else video_mem s !! i.
Proof.
  intros Ht Hl. unfold bsp_local_timer. destruct (blank_line s Hl) as (v & -> & Hlv & Hv). cbn [mbind res_bind].
  do 6 (rewrite set_screen_ok by (cbn [video_mem set_video]; rewrite ?length_insert; lia);
        cbn [mbind res_bind video_mem set_video]).
  eexists. split; [done|]. cbn [video_mem set_video cursor_offset crt_ports].
  split; [by rewrite !length_insert|]. split; [done|]. split; [done|]. intros i Hi.
  assert (Hcells : forall k, k ∈ [0; 1; 2; 3; 77; 78] -> i = Z.to_nat k -> Z.of_nat i = k /\ Z.of_nat i < 80).
  { intros k Hk ->. repeat (apply elem_of_cons in Hk as [->|Hk]; [done|]). by apply not_elem_of_nil in Hk. }
  unfold timer_cell. change (Z.to_nat 0) with 0%nat. change (Z.to_nat 1) with 1%nat.
  change (Z.to_nat 2) with 2%nat. change (Z.to_nat 3) with 3%nat.
  change (Z.to_nat 77) with 77%nat. change (Z.to_nat 78) with 78%nat.
  destruct (decide (i ∈ [0; 1; 2; 3; 77; 78]%nat)) as [Hin|Hout].
  - repeat (apply elem_of_cons in Hin as [->|Hin];
      [repeat first [rewrite list_lookup_insert_eq by (rewrite ?length_insert; lia) | rewrite list_lookup_insert_ne by done];
       done|]). by apply not_elem_of_nil in Hin.
  - rewrite !not_elem_of_cons in Hout. destruct Hout as (? & ? & ? & ? & ? & ? & _).
    rewrite !list_lookup_insert_ne by lia. rewrite Hv by done.
    destruct (decide (Z.of_nat i < 80)); [|done].
    by rewrite !(proj2 (Z.eqb_neq (Z.of_nat i) _)) by lia.
Qed.

(** ** A concrete chip *)

(** The other devices, the registers of the local APIC and the commands. *)
Record chip := {
  c_devices : machine;
  c_regs : gmap Z Z;
  c_ipis : list Z
}.

Definition chip_reg (r : Z) (c : chip) : Z :=
  if decide (r = APIC_TASKPRI) then m_tpr (c_devices c)
  else if decide (r = APIC_ID) then default 0 (c_regs c !! APIC_ID) mod 256 * 2 ^ 24
  else default 0 (c_regs c !! r).

Definition set_devices (m : machine) (c : chip) : chip :=
  {| c_devices := m; c_regs := c_regs c; c_ipis := c_ipis c |}.

Definition set_reg (r v : Z) (c : chip) : chip :=
  {| c_devices := c_devices c; c_regs := <[r := v]> (c_regs c); c_ipis := c_ipis c |}.

Definition chip_write (r v : Z) (c : chip) : chip :=
  if decide (r = APIC_TASKPRI) then set_devices (apic_write APIC_TASKPRI v (c_devices c)) c
  else if decide (r = APIC_LVR \/ r = APIC_EOI) then c
  else if decide (r = APIC_ID) then set_reg APIC_ID (v / 2 ^ 24) c
  else if decide (r = APIC_ICR) then
    {| c_devices := c_devices c; c_regs := <[APIC_ICR := Z.clearbit v 12]> (c_regs c);
       c_ipis := c_ipis c ++ [v] |}
  else if decide (r ∈ lvt_regs /\ Z.testbit (chip_reg APIC_SPIV c) 8 = false) then
    set_reg r (Z.setbit v 16) c
  else set_reg r v c.

#[export, refine] Instance chip_device : Device chip := {
  apic_read r c := (chip_reg r c, c);
  apic_write := chip_write;
  io_select r c := set_devices (io_select r (c_devices c)) c;
  io_window_read c := (fst (io_window_read (c_devices c)), c);
  io_window_write v c := set_devices (io_window_write v (c_devices c)) c;
  outb p v c := set_devices (outb p v (c_devices c)) c;
  tpr c := m_tpr (c_devices c);
  redirection c r := redirection (c_devices c) r
}.
Proof.
  - done.
  - done.
  - done.
  - intros r c. eexists. split; [reflexivity | done].
  - intros r v c q. apply (io_window_write_select r v (c_devices c) q).
Defined.

Lemma set_reg_get r v c q :
  r <> APIC_TASKPRI -> r <> APIC_ID -> chip_reg q (set_reg r v c) = if decide (q = r) then v else chip_reg q c.
Proof.
  intros H1 H2. unfold chip_reg, set_reg. cbn [c_devices c_regs].
  destruct (decide (q = r)) as [->|Hne].
  - rewrite !decide_False by done. by rewrite lookup_insert_eq.
  - rewrite !lookup_insert_ne by done. done.
Qed.

#[export, refine] Instance chip_apic : LocalApic chip := {
  apic_reg := chip_reg;
  ipis := c_ipis
}.
Proof.
  - done.
  - intros c. exists (default 0 (c_regs c !! APIC_ID) mod 256). split; [apply Z.mod_pos_bound; lia | done].
  - done.
  - intros r v c q Hr Hq _ Hm _. cbn [apic_write chip_device]. unfold chip_write.
    destruct (decide (r = APIC_TASKPRI)) as [->|Hne].
    { unfold chip_reg, set_devices. cbn. by destruct (decide (q = APIC_TASKPRI)). }
    assert (Hid : ~ (r = APIC_LVR \/ r = APIC_EOI) /\ r <> APIC_ID /\ r <> APIC_ICR).
    { revert Hr. clear. intros Hr. split; [intros [-> | ->]; revert Hr; in_regs|].
      split; intros ->; revert Hr; in_regs. }
    destruct Hid as (H1 & H2 & H3). rewrite !decide_False by done.
    destruct (decide (r ∈ lvt_regs /\ _)) as [[Hl Hs]|_]; [|by apply set_reg_get].
    destruct (Hm Hl) as [Hm1|Hm1]; [|congruence].
    rewrite set_reg_get by done. destruct (decide (q = r)); [|done].
    apply Z.bits_inj'. intros n Hn. rewrite Z.setbit_eqb by done.
    destruct (Z.eqb_spec 16 n) as [<-|]; [by rewrite Hm1 | done].
  - intros v c q Hq. cbn [apic_write chip_device]. unfold chip_write. rewrite !decide_False by in_regs.
    rewrite decide_True by done. unfold chip_reg, set_reg. cbn [c_devices c_regs].
    destruct (decide (q = APIC_ID)) as [->|Hne].
    + rewrite decide_False by done. rewrite lookup_insert_eq. cbn [default from_option].
      unfold APIC_ID_MASK. rewrite Z.shiftl_mul_pow2 by lia.
      apply Z.bits_inj'. intros n Hn. rewrite Z.land_spec. change (id ?x) with x.
      destruct (decide (n < 24)).
      * rewrite !Z.mul_pow2_bits_low by lia. by rewrite andb_false_r.
      * rewrite !Z.mul_pow2_bits by lia. change 255 with (Z.ones 8). rewrite Z.testbit_ones_nonneg by lia.
        change 256 with (2 ^ 8). destruct (Z.ltb_spec (n - 24) 8).
        -- rewrite Z.mod_pow2_bits_low by lia. rewrite Z.div_pow2_bits by lia.
           rewrite andb_true_r. f_equal. lia.
        -- rewrite Z.mod_pow2_bits_high by lia. by rewrite andb_false_r.
    + rewrite !lookup_insert_ne by done. done.
  - intros r v c q Hr Hq. cbn [apic_write chip_device]. unfold chip_write.
    rewrite decide_False by (destruct Hr as [-> | [-> | ->]]; done).
    destruct (decide (r = APIC_LVR \/ r = APIC_EOI)) as [|Hn]; [done|].
    assert (r = APIC_ICR) as -> by tauto. rewrite decide_False by done. rewrite decide_True by done.
    unfold chip_reg. cbn [c_devices c_regs]. assert (q <> APIC_ICR) by (intros ->; revert Hq; in_regs).
    by rewrite !lookup_insert_ne by done.
  - intros r v c. cbn [apic_write chip_device]. unfold chip_write.
    repeat case_decide; subst; try done; intuition discriminate.
  - intros r v c q. cbn [apic_write chip_device redirection]. unfold chip_write.
    repeat case_decide; done.
  - done.
  - done.
  - done.
  - done.
  - done.
Defined.

(** Reset values: version 0x14 with six entries, the spurious vector 0xff. *)
Definition sample_chip : chip :=
  {| c_devices := {| m_tpr := 0x20; m_index := 0; m_regs := {[1 := 0x170011]}; m_ports := [] |};
     c_regs := {[APIC_LVR := 0x50014; APIC_SPIV := 0xFF]};
     c_ipis := [] |}.

Lemma bsp_apic_ready_witness :
  exists d', init_bsp_APIC 0 [0; 1] sample_chip = Ret d' /\
    (forall r, r ∈ lvt_regs -> apic_reg r d' = APIC_LVT_MASKED) /\ tpr d' = 0.
Proof.
  destruct (bsp_apic_ready 0 [0; 1] sample_chip) as [_ Hr].
  - reflexivity.
  - lia.
  - reflexivity.
  - destruct Hr as (d' & E & Hl & Ht & _); [split; [reflexivity | split; reflexivity]|].
    exists d'. exact (conj E (conj Hl Ht)).
Defined.

(** The chip after [init_bsp_APIC]. *)
Definition sample_timer : irq_state (D := chip) :=
  {| irq_handler := replicate 32 None; idt_table := replicate 256 no_gate;
     device := setup_bsp sample_chip |}.

Lemma timer_programmed_witness :
  exists st', init_bsp_timer (fun _ d => Ret d) sample_timer = Ret st' /\
    apic_reg APIC_LVTT (device st') = Z.lor APIC_LVT_TIMER_PERIODIC 48 /\
    apic_reg APIC_TMICT (device st') = 0xFFFFFF.
Proof.
  destruct (timer_programmed (fun _ d => Ret d) sample_timer) as (st' & E & H1 & H2 & _).
  - vm_compute. reflexivity.
  - vm_compute. reflexivity.
  - reflexivity.
  - exists st'. exact (conj E (conj H1 H2)).
Defined.

Lemma timer_draws_line_witness :
  exists s', bsp_local_timer 42 blank_screen = Ret (43, s') /\ length (video_mem s') = 2000%nat.
Proof.
  destruct (timer_draws_line 42 blank_screen) as (s' & E & Hl & _).
  - lia.
  - vm_compute. reflexivity.
  - exists s'. exact (conj E Hl).
Defined.

Lemma processors_started_witness :
  (exists d' cmds, ipis d' = ipis sample_chip ++ cmds /\ (icr_mode <$> cmds) = [5; 6; 6] /\
     wake_ap sample_chip = if Z.testbit (apic_reg APIC_ICR d') 12 then Halted else Ret d') /\
  delay 1000000 = Ret (- 1, 0).
Proof.
  destruct (processors_started sample_chip) as [(d' & d1 & cmds & H1 & H2 & _ & _ & _ & H3) Hd]. split.
  - exists d', cmds. exact (conj H1 (conj H2 H3)).
  - apply Hd. lia.
Defined.
