(* ===== verification/HwHeaders.v ===== *)
(** * Structures and constants of the headers

    The components work on records and fix the sizes and offsets of the
    structures that other code or the hardware reads. This file has the
    structures as the headers declare them, with the layout rules of the
    compiler, and shows that the components use the right numbers. It also has
    the bits of the control registers and the registers of the I/O APIC. *)

From Stdlib Require Import String.
From S2P Require Import Prelude CString BootMem Memory Slab MpSpec Interrupts PageWalk.

#[local] Open Scope string_scope.
#[local] Open Scope list_scope.
#[local] Open Scope Z_scope.

(** ** Layout *)

(** A scalar with its size in bytes, an array, or a structure, packed or not. *)
Inductive cty :=
| Scalar (size : Z)
| Arr (n : Z) (t : cty)
| Struct (packed : bool) (fields : list (string * cty)).

Definition align_up (a pos : Z) : Z := (pos + a - 1) / a * a.

Fixpoint alignof (t : cty) : Z :=
  match t with
  | Scalar n => n
  | Arr _ t => alignof t
  | Struct true _ => 1
  | Struct false fs =>
      (fix widest (fs : list (string * cty)) : Z :=
         match fs with [] => 1 | (_, t) :: fs => Z.max (alignof t) (widest fs) end) fs
  end.

Definition place_at (packed : bool) (t : cty) (pos : Z) : Z :=
  if packed then pos else align_up (alignof t) pos.

Fixpoint sizeof (t : cty) : Z :=
  match t with
  | Scalar n => n
  | Arr n t => n * sizeof t
  | Struct p fs =>
      align_up (alignof (Struct p fs))
        ((fix last (fs : list (string * cty)) (pos : Z) : Z :=
            match fs with [] => pos | (_, t) :: fs => last fs (place_at p t pos + sizeof t) end) fs 0)
  end.

(** The offset and the type of each field. *)
Fixpoint offsets (p : bool) (fs : list (string * cty)) (pos : Z) : list (string * Z * cty) :=
  match fs with
  | [] => []
  | (n, t) :: fs => (n, place_at p t pos, t) :: offsets p fs (place_at p t pos + sizeof t)
  end.

Definition field (t : cty) (name : string) : option (Z * cty) :=
  match t with
  | Struct p fs =>
      foldr (fun '(n, o, t) r => if decide (n = name) then Some (o, t) else r) None (offsets p fs 0)
  | _ => None
  end.

(** [m->name] of a number, for the structure at [m]. *)
Definition load_field (t : cty) (name : string) (mem : bmem) (m : Z) : res Z :=
  match field t name with
  | Some (o, Scalar n) => load_le (Z.to_nat n) mem (m + o)
  | _ => Fault
  end.

Abbreviation uchar := (Scalar 1).
Abbreviation ushort := (Scalar 2).
Abbreviation uint := (Scalar 4).
Abbreviation ulong := (Scalar 8).
Abbreviation pointer := (Scalar 8).

(** ** The structures of the kernel *)

Definition list_head_t : cty := Struct false [("next", pointer); ("prev", pointer)].

Definition page_t : cty := Struct false [
  ("list", list_head_t); ("private", ulong); ("index", ulong); ("count", ulong); ("flags", ulong);
  ("virtual", pointer); ("page_zone", pointer); ("slab", pointer)].

Definition zone_t : cty := Struct false [
  ("free_pages", ulong); ("zone_pgdat", pointer); ("zone_start_paddr", ulong); ("name", pointer);
  ("size", ulong); ("pages", ulong); ("zone_mem_map", pointer); ("zone_start_pfn", ulong)].

Definition kmem_cache_t : cty := Struct false [
  ("objsize", ulong); ("flag", ulong); ("num", ulong); ("gfporder", ulong); ("slabs", list_head_t);
  ("colour_off", ulong); ("name", pointer)].

Definition slab_t : cty := Struct false [
  ("list", list_head_t); ("s_mem", ulong); ("inuse", ulong); ("free", ulong); ("offset", ulong);
  ("bufctl", pointer); ("cache", pointer)].

(** ** The structures of the hardware *)

Definition gdt_desc_t : cty := Struct true [("l", uint); ("h", uint)].
Definition gdt_desc_ptr_t : cty := Struct true [("size", ushort); ("address", ulong)].

Definition idt_desc_t : cty := Struct true [
  ("offset0_15", ushort); ("selector", ushort); ("type", ushort); ("offset16_31", ushort);
  ("offset32_63", uint); ("reserved", uint)].
Definition idt_desc_ptr_t : cty := Struct true [("size", ushort); ("address", ulong)].

Definition IO_BITMAP_BITS : Z := 65536.
Definition IO_BITMAP_BYTES : Z := IO_BITMAP_BITS / 8.
Definition IO_BITMAP_LONGS : Z := IO_BITMAP_BYTES / sizeof ulong.

Definition tss_struct : cty := Struct true [
  ("reserved1", uint); ("rsp0", ulong); ("rsp1", ulong); ("rsp2", ulong); ("reserved2", ulong);
  ("ist", Arr 7 ulong); ("reserved3", uint); ("reserved4", uint); ("reserved5", ushort);
  ("io_bitmap_base", ushort); ("io_bitmap", Arr (IO_BITMAP_LONGS + 1) ulong)].

(** processor.h declares it again. *)
Definition _tss_struct : cty := Struct true [
  ("reserved1", uint); ("rsp0", ulong); ("rsp1", ulong); ("rsp2", ulong); ("reserved2", ulong);
  ("ist", Arr 7 ulong); ("reserved3", uint); ("reserved4", uint); ("reserved5", ushort);
  ("io_bitmap_base", ushort); ("io_bitmap", Arr (IO_BITMAP_LONGS + 1) ulong)].

Definition IO_BITMAP_OFFSET : Z := default 0 (fst <$> field tss_struct "io_bitmap").
Definition INVALID_IO_BITMAP_OFFSET : Z := 0x8000.

Definition _thread_struct : cty := Struct false [
  ("edi", uint); ("esi", uint); ("ebp", uint); ("esp0", uint); ("ebx", uint); ("edx", uint);
  ("ecx", uint); ("eax", uint); ("ds", ushort); ("ds_res", ushort); ("es", ushort); ("es_res", ushort);
  ("fs", ushort); ("fs_res", ushort); ("gs", ushort); ("gs_res", ushort); ("eip", uint); ("cs", ushort);
  ("cs_res", ushort); ("eflags", uint); ("esp", uint); ("ss", ushort); ("ss_res", ushort)].

Definition io_apic_t : cty := Struct false [("index", uint); ("unused", Arr 3 uint); ("data", uint)].

(** ** The structures of the multiprocessor specification *)

Definition intel_mp_floating : cty := Struct true [
  ("mpf_signature", Arr 4 uchar); ("mpf_physptr", uint); ("mpf_length", uchar);
  ("mpf_specification", uchar); ("mpf_checksum", uchar); ("mpf_feature1", uchar);
  ("mpf_feature2", uchar); ("mpf_feature3", uchar); ("mpf_feature4", uchar); ("mpf_feature5", uchar)].

Definition mp_config_table : cty := Struct true [
  ("mpc_signature", Arr 4 uchar); ("mpc_length", ushort); ("mpc_spec", uchar); ("mpc_checksum", uchar);
  ("mpc_oem", Arr 8 uchar); ("mpc_productid", Arr 12 uchar); ("mpc_oemptr", uint); ("mpc_oemsize", ushort);
  ("mpc_oemcount", ushort); ("mpc_lapic", uint); ("reserved", uint)].

Definition mpc_config_processor : cty := Struct true [
  ("mpc_type", uchar); ("mpc_apicid", uchar); ("mpc_apicver", uchar); ("mpc_cpuflag", uchar);
  ("mpc_cpufeature", uint); ("mpc_featureflag", uint); ("mpc_reserved", Arr 2 uint)].

Definition mpc_config_bus : cty := Struct true [
  ("mpc_type", uchar); ("mpc_busid", uchar); ("mpc_bustype", Arr 6 uchar)].

Definition mpc_config_ioapic_t : cty := Struct true [
  ("mpc_type", uchar); ("mpc_apicid", uchar); ("mpc_apicver", uchar); ("mpc_flags", uchar);
  ("mpc_apicaddr", uint)].

Definition mpc_config_intsrc_t : cty := Struct true [
  ("mpc_type", uchar); ("mpc_irqtype", uchar); ("mpc_irqflag", ushort); ("mpc_srcbus", uchar);
  ("mpc_srcbusirq", uchar); ("mpc_dstapic", uchar); ("mpc_dstirq", uchar)].

Definition mpc_config_lintsrc : cty := Struct true [
  ("mpc_type", uchar); ("mpc_irqtype", uchar); ("mpc_irqflag", ushort); ("mpc_srcbusid", uchar);
  ("mpc_srcbusirq", uchar); ("mpc_destapic", uchar); ("mpc_destapiclint", uchar)].

(** ** Bits of the registers *)

Definition X86_EFLAGS_CF : Z := 0x1.
Definition X86_EFLAGS_PF : Z := 0x4.
Definition X86_EFLAGS_AF : Z := 0x10.
Definition X86_EFLAGS_ZF : Z := 0x40.
Definition X86_EFLAGS_SF : Z := 0x80.
Definition X86_EFLAGS_TF : Z := 0x100.
Definition X86_EFLAGS_IF : Z := 0x200.
Definition X86_EFLAGS_DF : Z := 0x400.
Definition X86_EFLAGS_OF : Z := 0x800.
Definition X86_EFLAGS_IOPL : Z := 0x3000.
Definition X86_EFLAGS_NT : Z := 0x4000.
Definition X86_EFLAGS_RF : Z := 0x10000.
Definition X86_EFLAGS_VM : Z := 0x20000.
Definition X86_EFLAGS_AC : Z := 0x40000.
Definition X86_EFLAGS_VIF : Z := 0x80000.
Definition X86_EFLAGS_VIP : Z := 0x100000.
Definition X86_EFLAGS_ID : Z := 0x200000.
Definition X86_CR0_PE : Z := 0x1.
Definition X86_CR0_MP : Z := 0x2.
Definition X86_CR0_EM : Z := 0x4.
Definition X86_CR0_TS : Z := 0x8.
Definition X86_CR0_ET : Z := 0x10.
Definition X86_CR0_NE : Z := 0x20.
Definition X86_CR0_WP : Z := 0x10000.
Definition X86_CR0_AM : Z := 0x40000.
Definition X86_CR0_NW : Z := 0x20000000.
Definition X86_CR0_CD : Z := 0x40000000.
Definition X86_CR0_PG : Z := 0x80000000.
Definition X86_CR4_VME : Z := 0x1.
Definition X86_CR4_PVI : Z := 0x2.
Definition X86_CR4_TSD : Z := 0x4.
Definition X86_CR4_DE : Z := 0x8.
Definition X86_CR4_PSE : Z := 0x10.
Definition X86_CR4_PAE : Z := 0x20.
Definition X86_CR4_MCE : Z := 0x40.
Definition X86_CR4_PCE : Z := 0x100.
Definition X86_CR4_OSFXSR : Z := 0x200.
Definition X86_CR4_OSXMMEXCPT : Z := 0x400.
Definition X86_CR4_VMXE : Z := 0x2000.

Definition eflags_bits : list Z :=
  [X86_EFLAGS_CF; X86_EFLAGS_PF; X86_EFLAGS_AF; X86_EFLAGS_ZF; X86_EFLAGS_SF;
   X86_EFLAGS_TF; X86_EFLAGS_IF; X86_EFLAGS_DF; X86_EFLAGS_OF; X86_EFLAGS_IOPL;
   X86_EFLAGS_NT; X86_EFLAGS_RF; X86_EFLAGS_VM; X86_EFLAGS_AC; X86_EFLAGS_VIF;
   X86_EFLAGS_VIP; X86_EFLAGS_ID].

Definition cr0_bits : list Z :=
  [X86_CR0_PE; X86_CR0_MP; X86_CR0_EM; X86_CR0_TS; X86_CR0_ET;
   X86_CR0_NE; X86_CR0_WP; X86_CR0_AM; X86_CR0_NW; X86_CR0_CD;
   X86_CR0_PG].

Definition cr4_bits : list Z :=
  [X86_CR4_VME; X86_CR4_PVI; X86_CR4_TSD; X86_CR4_DE; X86_CR4_PSE;
   X86_CR4_PAE; X86_CR4_MCE; X86_CR4_PGE; X86_CR4_PCE; X86_CR4_OSFXSR;
   X86_CR4_OSXMMEXCPT; X86_CR4_VMXE].

(** No bit has two names. *)
Fixpoint disjoint_bits (used : Z) (l : list Z) : bool :=
  match l with
  | [] => true
  | b :: l => (Z.land used b =? 0) && (0 <? b) && disjoint_bits (Z.lor used b) l
  end.

(** ** Registers of the I/O APIC *)

Definition IO_APIC_BASE : Z := 0xFFFF8000C0000000.
Definition IO_APIC_ID : Z := 0x0.
Definition IO_APIC_ARB : Z := 0x2.
Definition GET_IO_APIC_VERSION (x : Z) : Z := Z.land x 0xF.
Definition IO_APIC_REDTBL0 : Z := 0x10.
Definition IO_APIC_REDTBL1 : Z := 0x12.
Definition IO_APIC_REDTBL2 : Z := 0x14.
Definition IO_APIC_REDTBL3 : Z := 0x16.
Definition IO_APIC_REDTBL4 : Z := 0x18.
Definition IO_APIC_REDTBL5 : Z := 0x1A.
Definition IO_APIC_REDTBL6 : Z := 0x1C.
Definition IO_APIC_REDTBL7 : Z := 0x1E.
Definition IO_APIC_REDTBL8 : Z := 0x20.
Definition IO_APIC_REDTBL9 : Z := 0x22.
Definition IO_APIC_REDTBL10 : Z := 0x24.
Definition IO_APIC_REDTBL11 : Z := 0x26.
Definition IO_APIC_REDTBL12 : Z := 0x28.
Definition IO_APIC_REDTBL13 : Z := 0x2A.
Definition IO_APIC_REDTBL14 : Z := 0x2C.
Definition IO_APIC_REDTBL15 : Z := 0x2E.
Definition IO_APIC_REDTBL16 : Z := 0x30.
Definition IO_APIC_REDTBL17 : Z := 0x32.
Definition IO_APIC_REDTBL18 : Z := 0x34.
Definition IO_APIC_REDTBL19 : Z := 0x36.
Definition IO_APIC_REDTBL20 : Z := 0x38.
Definition IO_APIC_REDTBL21 : Z := 0x3A.
Definition IO_APIC_REDTBL22 : Z := 0x3C.
Definition IO_APIC_REDTBL23 : Z := 0x3E.
Definition IO_APIC_IRR : Z := Z.shiftl 1 14.
Definition IO_APIC_DELIVS : Z := Z.shiftl 1 12.
Definition IO_APIC_DELMOD_LOW : Z := Z.shiftl 1 8.
Definition IO_APIC_DELMOD_SMI : Z := Z.shiftl 2 8.
Definition IO_APIC_DELMOD_NMI : Z := Z.shiftl 4 8.
Definition IO_APIC_DELMOD_INIT : Z := Z.shiftl 5 8.
Definition IO_APIC_DELMOD_ExtINT : Z := Z.shiftl 7 8.

Definition redirection_registers : list Z :=
  [IO_APIC_REDTBL0; IO_APIC_REDTBL1; IO_APIC_REDTBL2; IO_APIC_REDTBL3; IO_APIC_REDTBL4;
   IO_APIC_REDTBL5; IO_APIC_REDTBL6; IO_APIC_REDTBL7; IO_APIC_REDTBL8; IO_APIC_REDTBL9;
   IO_APIC_REDTBL10; IO_APIC_REDTBL11; IO_APIC_REDTBL12; IO_APIC_REDTBL13; IO_APIC_REDTBL14;
   IO_APIC_REDTBL15; IO_APIC_REDTBL16; IO_APIC_REDTBL17; IO_APIC_REDTBL18; IO_APIC_REDTBL19;
   IO_APIC_REDTBL20; IO_APIC_REDTBL21; IO_APIC_REDTBL22; IO_APIC_REDTBL23].

(** ** The components use the right numbers *)

(** The kernel's own structures, with the heads of lists where the components
    expect them. *)
Lemma kernel_structures :
  sizeof page_t = sizeof_page /\ field page_t "list" = Some (0, list_head_t) /\
  sizeof kmem_cache_t = sizeof_kmem_cache /\ field kmem_cache_t "slabs" = Some (offsetof_slabs, list_head_t) /\
  sizeof slab_t = sizeof_slab /\ field slab_t "list" = Some (0, list_head_t) /\
  sizeof zone_t = 64.
Proof. vm_compute. tauto. Qed.

(** The tables of the processor: descriptors of 8 and 16 bytes, the values of GDTR and
    IDTR of 10. The task state segment has the places the processor knows in
    its first 104 bytes; with the bitmap it is longer than the page
    [gdt_init] gives it. *)
Lemma processor_structures :
  sizeof gdt_desc_t = 8 /\ sizeof idt_desc_t = 16 /\ sizeof gdt_desc_ptr_t = 10 /\ sizeof idt_desc_ptr_t = 10 /\
  (fun n => fst <$> field idt_desc_t n) <$> ["offset0_15"; "selector"; "type"; "offset16_31"; "offset32_63"]
    = Some <$> [0; 2; 4; 6; 8] /\
  tss_struct = _tss_struct /\
  (fun n => fst <$> field tss_struct n) <$> ["rsp0"; "rsp1"; "rsp2"; "ist"; "io_bitmap_base"]
    = Some <$> [4; 12; 20; 36; 102] /\
  IO_BITMAP_OFFSET = 104 /\ PAGE_SIZE < sizeof tss_struct /\
  fst <$> field io_apic_t "data" = Some 0x10 /\ sizeof _thread_struct = 68.
Proof. vm_compute. tauto. Qed.

(** The entries of the configuration table have the sizes by which they are
    skipped, and the fields lie where they are read. *)
Lemma load_byte mem a : load_le 1 mem a = load8 mem a.
Proof.
  unfold load_le. cbn [load_bytes]. destruct (load8 mem a) as [b| | |]; try done.
  cbn [mbind res_bind le]. f_equal. lia.
Qed.

Lemma mp_structures mem m :
  [sizeof mp_config_table; sizeof mpc_config_processor; sizeof mpc_config_bus; sizeof mpc_config_ioapic_t;
   sizeof mpc_config_intsrc_t; sizeof mpc_config_lintsrc]
  = [sizeof_mp_config_table; sizeof_mpc_config_processor; sizeof_mpc_config_bus; sizeof_mpc_config_ioapic;
     sizeof_mpc_config_intsrc; sizeof_mpc_config_lintsrc] /\
  sizeof intel_mp_floating = 16 /\
  load_field intel_mp_floating "mpf_physptr" mem m = load_le 4 mem (m + 4) /\
  load_field intel_mp_floating "mpf_length" mem m = load8 mem (m + 8) /\
  load_field intel_mp_floating "mpf_specification" mem m = load8 mem (m + 9) /\
  load_field intel_mp_floating "mpf_feature1" mem m = load8 mem (m + 11) /\
  load_field mp_config_table "mpc_length" mem m = load_le 2 mem (m + 4) /\
  load_field mp_config_table "mpc_spec" mem m = load8 mem (m + 6) /\
  load_field mp_config_table "mpc_lapic" mem m = load_le 4 mem (m + 36) /\
  load_field mpc_config_processor "mpc_apicid" mem m = load8 mem (m + 1) /\
  load_field mpc_config_processor "mpc_cpuflag" mem m = load8 mem (m + 3) /\
  load_field mpc_config_bus "mpc_busid" mem m = load8 mem (m + 1) /\
  fst <$> field mpc_config_bus "mpc_bustype" = Some 2 /\
  load_field mpc_config_ioapic_t "mpc_flags" mem m = load8 mem (m + 3) /\
  load_field mpc_config_ioapic_t "mpc_apicaddr" mem m = load_le 4 mem (m + 4) /\
  load_field mpc_config_intsrc_t "mpc_irqflag" mem m = load_le 2 mem (m + 2) /\
  load_field mpc_config_intsrc_t "mpc_dstirq" mem m = load8 mem (m + 7).
Proof. rewrite <- !load_byte. repeat split. Qed.

(** The registers: distinct bits, the interrupt flag of [Running], the PGE bit
    of [PageWalk]; the redirection entries are two registers apart. *)
Lemma register_bits :
  disjoint_bits 0 eflags_bits = true /\ disjoint_bits 0 cr0_bits = true /\ disjoint_bits 0 cr4_bits = true /\
  X86_EFLAGS_IF = Z.shiftl 1 9 /\
  redirection_registers = (fun n => IO_APIC_REDTBL_BASE + n * 2) <$> seqZ 0 24.
Proof. vm_compute. tauto. Qed.
