(* ===== verification/ApicRegs.v ===== *)
(** * The registers of the local APIC (apic.h)

    apic.h describes the registers twice: by macros, offsets and masks, which
    the kernel uses, and by [struct local_apic], a structure of bit-fields laid
    over the page of the chip. This file has both, with the rules by which the
    compiler lays out structures of [u32] and their bit-fields, and shows where
    the two descriptions agree. *)

From Stdlib Require Import String.
From S2P Require Import Prelude BitOps Interrupts LocalApic.

#[local] Open Scope string_scope.
#[local] Open Scope list_scope.
#[local] Open Scope Z_scope.

(** ** Types made of u32 *)

Inductive ctype :=
| U32                                              (* unsigned int *)
| ArrayOf (n : Z) (t : ctype)                      (* t name[n] *)
| StructOf (ms : members)
| UnionOf (ms : members)
with members :=
| MNil
| MField (name : string) (t : ctype) (ms : members)
| MBits (name : string) (width : Z) (ms : members). (* u32 name : width *)

(** Every type is aligned to 32 bits. *)
Definition align32 (pos : Z) : Z := (pos + 31) / 32 * 32.

(** A bit-field that does not fit in the rest of its [u32] begins the next. *)
Definition bits_at (pos width : Z) : Z :=
  if pos mod 32 + width <=? 32 then pos else align32 pos.

(** The size of a type and the end of a structure laid out from bit [pos]. *)
Fixpoint csize (t : ctype) : Z :=
  match t with
  | U32 => 32
  | ArrayOf n t => n * csize t
  | StructOf ms => align32 (struct_end ms 0)
  | UnionOf ms => align32 (union_end ms)
  end
with struct_end (ms : members) (pos : Z) : Z :=
  match ms with
  | MNil => pos
  | MField _ t ms => struct_end ms (align32 pos + csize t)
  | MBits _ w ms => struct_end ms (bits_at pos w + w)
  end
with union_end (ms : members) : Z :=
  match ms with
  | MNil => 0
  | MField _ t ms => Z.max (csize t) (union_end ms)
  | MBits _ w ms => Z.max w (union_end ms)
  end.

(** A member: all of a type, or a bit-field. *)
Inductive slot := Whole (t : ctype) | Field (width : Z).

(** The bit at which a member begins. The members of a union all begin at 0. *)
Fixpoint struct_member (name : string) (ms : members) (pos : Z) : option (Z * slot) :=
  match ms with
  | MNil => None
  | MField n t ms =>
      if decide (n = name) then Some (align32 pos, Whole t)
      else struct_member name ms (align32 pos + csize t)
  | MBits n w ms =>
      if decide (n = name) then Some (bits_at pos w, Field w)
      else struct_member name ms (bits_at pos w + w)
  end.

Fixpoint union_member (name : string) (ms : members) : option (Z * slot) :=
  match ms with
  | MNil => None
  | MField n t ms => if decide (n = name) then Some (0, Whole t) else union_member name ms
  | MBits n w ms => if decide (n = name) then Some (0, Field w) else union_member name ms
  end.

(** [.name] and [[i]] *)
Inductive accessor := Dot (name : string) | Idx (i : Z).

Definition access (a : accessor) (t : ctype) : option (Z * slot) :=
  match a, t with
  | Dot n, StructOf ms => struct_member n ms 0
  | Dot n, UnionOf ms => union_member n ms
  | Idx i, ArrayOf n t => if (0 <=? i) && (i <? n) then Some (i * csize t, Whole t) else None
  | _, _ => None
  end.

(** The place of the object an expression names: its first bit and its size. *)
Fixpoint place (t : ctype) (p : list accessor) : option (Z * Z) :=
  match p with
  | [] => Some (0, csize t)
  | a :: p =>
      '(o, s) ← access a t;
      match s, p with
      | Whole t, _ => '(o', w) ← place t p; Some (o + o', w)
      | Field w, [] => Some (o, w)
      | Field _, _ => None
      end
  end.

Definition bits (fs : list (string * Z)) (ms : members) : members :=
  foldr (fun '(n, w) => MBits n w) ms fs.

Definition fields (fs : list (string * ctype)) (ms : members) : members :=
  foldr (fun '(n, t) => MField n t) ms fs.

(** ** The macros *)

Definition LOCAL_APIC_BASE : Z := 0xFFFF8000C0200000.
Definition GET_APIC_ID (x : Z) : Z := Z.land (Z.shiftr x 24) 0xFF.
Definition SET_APIC_ID (x : Z) : Z := u32 (Z.shiftl x 24).
Definition APIC_INTEGRATED (x : Z) : Z := Z.land x 0xF0.
Definition APIC_TPRI_MASK : Z := 0xFF.
Definition APIC_ARBPRI : Z := 0x90.
Definition APIC_ARBPRI_MASK : Z := 0xFF.
Definition APIC_PROCPRI : Z := 0xA0.
Definition APIC_EIO_ACK : Z := 0x0.
Definition APIC_RRR : Z := 0xC0.
Definition APIC_LDR : Z := 0xD0.
Definition APIC_LDR_MASK : Z := Z.shiftl 0xFF 24.
Definition GET_APIC_LOGICAL_ID (x : Z) : Z := Z.land (Z.shiftr x 24) 0xFF.
Definition SET_APIC_LOGICAL_ID (x : Z) : Z := u32 (Z.shiftl x 24).
Definition APIC_ALL_CPUS : Z := 0xFF.
Definition APIC_DFR : Z := 0xE0.
Definition APIC_DFR_CLUSTER : Z := 0x0FFFFFFF.
Definition APIC_DFR_FLAT : Z := 0xFFFFFFFF.
Definition APIC_SPIV_FOCUS_DISABLED : Z := Z.shiftl 1 9.
Definition APIC_ISR : Z := 0x100.
Definition APIC_ISR_NR : Z := 0x8.
Definition APIC_TMR : Z := 0x180.
Definition APIC_IRR : Z := 0x200.
Definition APIC_ESR : Z := 0x280.
Definition APIC_ESR_SEND_CS : Z := 0x00001.
Definition APIC_ESR_RECV_CS : Z := 0x00002.
Definition APIC_ESR_SEND_ACC : Z := 0x00004.
Definition APIC_ESR_RECV_ACC : Z := 0x00008.
Definition APIC_ESR_SENDILL : Z := 0x00020.
Definition APIC_ESR_RECVILL : Z := 0x00040.
Definition APIC_ESR_ILLREGA : Z := 0x00080.
Definition APIC_DEST_SELF : Z := 0x40000.
Definition APIC_DEST_ALLINC : Z := 0x80000.
Definition APIC_ICR_RR_MASK : Z := 0x30000.
Definition APIC_ICR_RR_INVALID : Z := 0x00000.
Definition APIC_ICR_RR_INPROG : Z := 0x10000.
Definition APIC_ICR_RR_VALID : Z := 0x20000.
Definition APIC_INT_LEVELTRIG : Z := 0x08000.
Definition APIC_DEST_LOGICAL : Z := 0x00800.
Definition APIC_DEST_PHYSICAL : Z := 0x00000.
Definition APIC_DM_FIXED : Z := 0x00000.
Definition APIC_DM_LOWEST : Z := 0x00100.
Definition APIC_DM_SMI : Z := 0x00200.
Definition APIC_DM_REMRD : Z := 0x00300.
Definition APIC_DM_NMI : Z := 0x00400.
Definition APIC_DM_EXTINT : Z := 0x00700.
Definition APIC_VECTOR_MASK : Z := 0x000FF.
Definition APIC_ICR2 : Z := 0x310.
Definition GET_APIC_DEST_FIELD (x : Z) : Z := Z.land (Z.shiftr x 24) 0xFF.
Definition SET_APIC_DEST_FIELD (x : Z) : Z := u32 (Z.shiftl x 24).
Definition APIC_LVT_TIMER_BASE_MASK : Z := Z.shiftl 0x3 18.
Definition GET_APIC_TIMER_BASE (x : Z) : Z := Z.land (Z.shiftr x 18) 0x3.
Definition SET_APIC_TIMER_BASE (x : Z) : Z := u32 (Z.shiftl x 18).
Definition APIC_TIMER_BASE_CLKIN : Z := 0x0.
Definition APIC_TIMER_BASE_TMBASE : Z := 0x1.
Definition APIC_TIMER_BASE_DIV : Z := 0x2.
Definition APIC_LVT_LEVEL_TRIGGER : Z := Z.shiftl 1 15.
Definition APIC_LVT_REMOTE_IRR : Z := Z.shiftl 1 14.
Definition APIC_INPUT_POLARITY : Z := Z.shiftl 1 13.
Definition APIC_SEND_PENDING : Z := Z.shiftl 1 12.
Definition APIC_MODE_MASK : Z := 0x700.
Definition GET_APIC_DELIVERY_MODE (x : Z) : Z := Z.land (Z.shiftr x 8) 0x7.
Definition SET_APIC_DELIVERY_MODE (x y : Z) : Z :=
  u32 (Z.lor (Z.land x (Z.lnot 0x700)) (Z.shiftl y 8)).
Definition APIC_MODE_FIXED : Z := 0x0.
Definition APIC_MODE_NMI : Z := 0x4.
Definition APIC_MODE_EXTINT : Z := 0x7.
Definition APIC_TMCCT : Z := 0x390.
Definition APIC_TDR_DIV_TMBASE : Z := Z.shiftl 1 2.
Definition APIC_TDR_DIV_1 : Z := 0xB.
Definition APIC_TDR_DIV_2 : Z := 0x0.
Definition APIC_TDR_DIV_4 : Z := 0x1.
Definition APIC_TDR_DIV_8 : Z := 0x2.
Definition APIC_TDR_DIV_16 : Z := 0x3.
Definition APIC_TDR_DIV_32 : Z := 0x8.
Definition APIC_TDR_DIV_128 : Z := 0xA.
Definition APIC_BASE : Z := LOCAL_APIC_BASE.
Definition MAX_LOCAL_APIC : Z := 256.
Definition XAPIC_DEST_CPUS_SHIFT : Z := 4.
Definition XAPIC_DEST_CPUS_MASK : Z := Z.shiftl 1 XAPIC_DEST_CPUS_SHIFT - 1.
Definition XAPIC_DEST_CLUSTER_MASK : Z := Z.shiftl XAPIC_DEST_CPUS_MASK XAPIC_DEST_CPUS_SHIFT.
Definition APIC_CLUSTER (apicid : Z) : Z := Z.land apicid XAPIC_DEST_CLUSTER_MASK.
Definition APIC_CLUSTERID (apicid : Z) : Z := Z.shiftr (APIC_CLUSTER apicid) XAPIC_DEST_CPUS_SHIFT.
Definition APIC_CPUID (apicid : Z) : Z := Z.land apicid XAPIC_DEST_CPUS_MASK.

(** ** [struct local_apic] *)

(** [struct { u32 __reserved[4]; }] *)
Definition reserved16 : ctype := StructOf (MField "__reserved" (ArrayOf 4 U32) MNil).

Definition id_reg : ctype := StructOf
  (bits [("__reserved_1", 24); ("phys_apic_id", 4); ("__reserved_2", 4)]
    (MField "__reserved" (ArrayOf 3 U32) MNil)).

Definition version_reg : ctype := StructOf
  (bits [("version", 8); ("__reserved_1", 8); ("max_lvt", 8); ("__reserved_2", 8)]
    (MField "__reserved" (ArrayOf 3 U32) MNil)).

Definition tpr_reg : ctype := StructOf
  (bits [("priority", 8); ("__reserved_1", 24)]
    (MField "__reserved_2" (ArrayOf 3 U32) MNil)).

Definition apr_reg : ctype := StructOf
  (bits [("priority", 8); ("__reserved_1", 24)]
    (MField "__reserved_2" (ArrayOf 3 U32) MNil)).

Definition ppr_reg : ctype := StructOf
  (bits [("priority", 8); ("__reserved_1", 24)]
    (MField "__reserved_2" (ArrayOf 3 U32) MNil)).

Definition eoi_reg : ctype := StructOf
  (MField "eoi" U32 (MField "__reserved" (ArrayOf 3 U32) MNil)).

Definition ldr_reg : ctype := StructOf
  (bits [("__reserved_1", 24); ("logical_dest", 8)]
    (MField "__reserved_2" (ArrayOf 3 U32) MNil)).

Definition dfr_reg : ctype := StructOf
  (bits [("__reserved_1", 28); ("model", 4)]
    (MField "__reserved_2" (ArrayOf 3 U32) MNil)).

Definition svr_reg : ctype := StructOf
  (bits [("spurious_vector", 8); ("apic_enabled", 1); ("focus_cpu", 1); ("__reserved_2", 22)]
    (MField "__reserved_3" (ArrayOf 3 U32) MNil)).

Definition isr_reg : ctype := ArrayOf 8 (StructOf
  (MField "bitfield" U32 (MField "__reserved" (ArrayOf 3 U32) MNil))).

Definition tmr_reg : ctype := ArrayOf 8 (StructOf
  (MField "bitfield" U32 (MField "__reserved" (ArrayOf 3 U32) MNil))).

Definition irr_reg : ctype := ArrayOf 8 (StructOf
  (MField "bitfield" U32 (MField "__reserved" (ArrayOf 3 U32) MNil))).

Definition esr_reg : ctype := UnionOf
  (MField "error_bits" (StructOf (bits [("send_cs_error", 1); ("receive_cs_error", 1);
          ("send_accept_error", 1); ("receive_accept_error", 1); ("__reserved_1", 1);
          ("send_illegal_vector", 1); ("receive_illegal_vector", 1);
          ("illegal_register_address", 1); ("__reserved_2", 24)]
    (MField "__reserved_3" (ArrayOf 3 U32) MNil)))
    (MField "all_errors" (StructOf (MField "errors" U32 (MField "__reserved_3" (ArrayOf 3 U32) MNil)))
    MNil)).

Definition icr1_reg : ctype := StructOf
  (bits [("vector", 8); ("delivery_mode", 3); ("destination_mode", 1); ("delivery_status", 1);
          ("__reserved_1", 1); ("level", 1); ("trigger", 1); ("__reserved_2", 2);
          ("shorthand", 2); ("__reserved_3", 12)]
    (MField "__reserved_4" (ArrayOf 3 U32) MNil)).

Definition icr2_reg : ctype := StructOf
  (MField "dest" (UnionOf (bits [("__reserved_1", 24); ("phys_dest", 4); ("__reserved_2", 4)]
    (bits [("__reserved_3", 24); ("logical_dest", 8)]
    MNil)))
    (MField "__reserved_4" (ArrayOf 3 U32) MNil)).

Definition lvt_timer_reg : ctype := StructOf
  (bits [("vector", 8); ("__reserved_1", 4); ("delivery_status", 1); ("__reserved_2", 3);
          ("mask", 1); ("timer_mode", 1); ("__reserved_3", 14)]
    (MField "__reserved_4" (ArrayOf 3 U32) MNil)).

Definition lvt_thermal_reg : ctype := StructOf
  (bits [("vector", 8); ("delivery_mode", 3); ("__reserved_1", 1); ("delivery_status", 1);
          ("__reserved_2", 3); ("mask", 1); ("__reserved_3", 15)]
    (MField "__reserved_4" (ArrayOf 3 U32) MNil)).

Definition lvt_pc_reg : ctype := StructOf
  (bits [("vector", 8); ("delivery_mode", 3); ("__reserved_1", 1); ("delivery_status", 1);
          ("__reserved_2", 3); ("mask", 1); ("__reserved_3", 15)]
    (MField "__reserved_4" (ArrayOf 3 U32) MNil)).

Definition lvt_lint0_reg : ctype := StructOf
  (bits [("vector", 8); ("delivery_mode", 3); ("__reserved_1", 1); ("delivery_status", 1);
          ("polarity", 1); ("remote_irr", 1); ("trigger", 1); ("mask", 1); ("__reserved_2", 15)]
    (MField "__reserved_3" (ArrayOf 3 U32) MNil)).

Definition lvt_lint1_reg : ctype := StructOf
  (bits [("vector", 8); ("delivery_mode", 3); ("__reserved_1", 1); ("delivery_status", 1);
          ("polarity", 1); ("remote_irr", 1); ("trigger", 1); ("mask", 1); ("__reserved_2", 15)]
    (MField "__reserved_3" (ArrayOf 3 U32) MNil)).

Definition lvt_error_reg : ctype := StructOf
  (bits [("vector", 8); ("__reserved_1", 4); ("delivery_status", 1); ("__reserved_2", 3);
          ("mask", 1); ("__reserved_3", 15)]
    (MField "__reserved_4" (ArrayOf 3 U32) MNil)).

Definition timer_icr_reg : ctype := StructOf
  (MField "initial_count" U32 (MField "__reserved_2" (ArrayOf 3 U32) MNil)).

Definition timer_ccr_reg : ctype := StructOf
  (MField "curr_count" U32 (MField "__reserved_2" (ArrayOf 3 U32) MNil)).

Definition timer_dcr_reg : ctype := StructOf
  (bits [("divisor", 4); ("__reserved_1", 28)]
    (MField "__reserved_2" (ArrayOf 3 U32) MNil)).

Definition local_apic : ctype := StructOf (fields [
  ("__reserved_01", reserved16);
  ("__reserved_02", reserved16);
  ("id", id_reg);
  ("version", version_reg);
  ("__reserved_03", reserved16);
  ("__reserved_04", reserved16);
  ("__reserved_05", reserved16);
  ("__reserved_06", reserved16);
  ("tpr", tpr_reg);
  ("apr", apr_reg);
  ("ppr", ppr_reg);
  ("eoi", eoi_reg);
  ("__reserved_07", reserved16);
  ("ldr", ldr_reg);
  ("dfr", dfr_reg);
  ("svr", svr_reg);
  ("isr", isr_reg);
  ("tmr", tmr_reg);
  ("irr", irr_reg);
  ("esr", esr_reg);
  ("__reserved_08", reserved16);
  ("__reserved_09", reserved16);
  ("__reserved_10", reserved16);
  ("__reserved_11", reserved16);
  ("__reserved_12", reserved16);
  ("__reserved_13", reserved16);
  ("__reserved_14", reserved16);
  ("icr1", icr1_reg);
  ("icr2", icr2_reg);
  ("lvt_timer", lvt_timer_reg);
  ("lvt_thermal", lvt_thermal_reg);
  ("lvt_pc", lvt_pc_reg);
  ("lvt_lint0", lvt_lint0_reg);
  ("lvt_lint1", lvt_lint1_reg);
  ("lvt_error", lvt_error_reg);
  ("timer_icr", timer_icr_reg);
  ("timer_ccr", timer_ccr_reg);
  ("__reserved_16", reserved16);
  ("__reserved_17", reserved16);
  ("__reserved_18", reserved16);
  ("__reserved_19", reserved16);
  ("timer_dcr", timer_dcr_reg);
  ("__reserved_20", reserved16)] MNil).

(** ** Reading and writing fields *)

(** What C reads from, and writes to, a bit-field of [w] bits at bit [o]. *)
Definition slice (o w x : Z) : Z := Z.land (Z.shiftr x o) (Z.ones w).

Definition update (o w v x : Z) : Z :=
  Z.lor (Z.land x (Z.lnot (Z.shiftl (Z.ones w) o))) (Z.shiftl (Z.land v (Z.ones w)) o).

(** The bits of its register a member covers. *)
Definition mask (o w : Z) : Z := Z.shiftl (Z.ones w) (o mod 32).

Definition dot : list string -> list accessor := fmap Dot.

Section Chip.
Context {D : Type} `{LocalApic D}.

(** The member [p] of the structure at [APIC_BASE]. *)
Definition member (p : list accessor) (d : D) : option Z :=
  '(o, w) ← place local_apic p; Some (slice (o mod 32) w (apic_reg (o / 32 * 4) d)).

End Chip.

Lemma slice_testbit o w x n :
  0 <= o -> 0 <= w -> 0 <= n -> Z.testbit (slice o w x) n = (n <? w) && Z.testbit x (n + o).
Proof.
  intros Ho Hw Hn. unfold slice. rewrite Z.land_spec, Z.shiftr_spec, Z.testbit_ones_nonneg by lia.
  apply andb_comm.
Qed.

Lemma update_testbit o w v x n :
  0 <= o -> 0 <= w -> 0 <= n ->
  Z.testbit (update o w v x) n
  = if (o <=? n) && (n <? o + w) then Z.testbit v (n - o) else Z.testbit x n.
Proof.
  intros Ho Hw Hn. unfold update.
  rewrite Z.lor_spec, Z.land_spec, Z.lnot_spec, !Z.shiftl_spec by lia.
  destruct (Z.leb_spec o n); cbn [andb].
  - rewrite Z.land_spec, Z.testbit_ones_nonneg by lia.
    destruct (Z.ltb_spec (n - o) w), (Z.ltb_spec n (o + w)); try lia;
      cbn [negb]; by rewrite ?andb_false_r, ?andb_true_r, ?orb_false_r.
  - rewrite !(Z.testbit_neg_r _ (n - o)) by lia. cbn [negb].
    by rewrite andb_true_r, orb_false_r.
Qed.

Lemma slice_update o w v x :
  0 <= o -> 0 <= w -> slice o w (update o w v x) = Z.land v (Z.ones w).
Proof.
  intros Ho Hw. apply Z.bits_inj'. intros n Hn.
  rewrite slice_testbit, update_testbit, Z.land_spec, Z.testbit_ones_nonneg by lia.
  destruct (Z.ltb_spec n w); cbn [andb]; [|by rewrite andb_false_r].
  rewrite (proj2 (Z.leb_le _ _)), (proj2 (Z.ltb_lt _ _)) by lia. cbn [andb].
  rewrite andb_true_r. f_equal. lia.
Qed.

Lemma slice_update_other o w v o' w' x :
  0 <= o -> 0 <= w -> 0 <= o' -> 0 <= w' -> o + w <= o' \/ o' + w' <= o ->
  slice o' w' (update o w v x) = slice o' w' x.
Proof.
  intros Ho Hw Ho' Hw' Hd. apply Z.bits_inj'. intros n Hn.
  rewrite !slice_testbit, update_testbit by lia.
  destruct (Z.ltb_spec n w'); cbn [andb]; [|done].
  destruct (Z.leb_spec o (n + o')), (Z.ltb_spec (n + o') (o + w)); cbn [andb]; lia || done.
Qed.

(** ** The two descriptions *)

(** Where each register begins. *)
Definition registers : list (string * Z) := [
  ("id", APIC_ID); ("version", APIC_LVR); ("tpr", APIC_TASKPRI); ("apr", APIC_ARBPRI);
  ("ppr", APIC_PROCPRI); ("eoi", APIC_EOI); ("__reserved_07", APIC_RRR); ("ldr", APIC_LDR);
  ("dfr", APIC_DFR); ("svr", APIC_SPIV); ("isr", APIC_ISR); ("tmr", APIC_TMR); ("irr", APIC_IRR);
  ("esr", APIC_ESR); ("icr1", APIC_ICR); ("icr2", APIC_ICR2); ("lvt_timer", APIC_LVTT);
  ("lvt_thermal", APIC_LVTTHMR); ("lvt_pc", APIC_LVTPC); ("lvt_lint0", APIC_LVT0);
  ("lvt_lint1", APIC_LVT1); ("lvt_error", APIC_LVTERR); ("timer_icr", APIC_TMICT);
  ("timer_ccr", APIC_TMCCT); ("timer_dcr", APIC_TDCR)].

(** The masks of fields. *)
Definition masks : list (list string * Z) := [
  (["tpr"; "priority"], APIC_TPRI_MASK); (["apr"; "priority"], APIC_ARBPRI_MASK);
  (["ldr"; "logical_dest"], APIC_LDR_MASK); (["svr"; "apic_enabled"], APIC_SPIV_APIC_ENABLED);
  (["svr"; "focus_cpu"], APIC_SPIV_FOCUS_DISABLED);
  (["esr"; "error_bits"; "send_cs_error"], APIC_ESR_SEND_CS);
  (["esr"; "error_bits"; "receive_cs_error"], APIC_ESR_RECV_CS);
  (["esr"; "error_bits"; "send_accept_error"], APIC_ESR_SEND_ACC);
  (["esr"; "error_bits"; "receive_accept_error"], APIC_ESR_RECV_ACC);
  (["esr"; "error_bits"; "send_illegal_vector"], APIC_ESR_SENDILL);
  (["esr"; "error_bits"; "receive_illegal_vector"], APIC_ESR_RECVILL);
  (["esr"; "error_bits"; "illegal_register_address"], APIC_ESR_ILLREGA);
  (["icr1"; "vector"], APIC_VECTOR_MASK); (["icr1"; "delivery_mode"], APIC_DM_EXTINT);
  (["icr1"; "destination_mode"], APIC_DEST_LOGICAL); (["icr1"; "delivery_status"], APIC_ICR_BUSY);
  (["icr1"; "level"], APIC_INT_ASSERT); (["icr1"; "trigger"], APIC_INT_LEVELTRIG);
  (["icr1"; "__reserved_2"], APIC_ICR_RR_MASK); (["icr1"; "shorthand"], APIC_DEST_ALLBUT);
  (["lvt_timer"; "vector"], APIC_VECTOR_MASK); (["lvt_timer"; "delivery_status"], APIC_SEND_PENDING);
  (["lvt_timer"; "mask"], APIC_LVT_MASKED); (["lvt_timer"; "timer_mode"], APIC_LVT_TIMER_PERIODIC);
  (["lvt_thermal"; "mask"], APIC_LVT_MASKED); (["lvt_thermal"; "delivery_mode"], APIC_MODE_MASK);
  (["lvt_pc"; "mask"], APIC_LVT_MASKED); (["lvt_pc"; "delivery_mode"], APIC_MODE_MASK);
  (["lvt_lint0"; "delivery_mode"], APIC_MODE_MASK); (["lvt_lint0"; "polarity"], APIC_INPUT_POLARITY);
  (["lvt_lint0"; "remote_irr"], APIC_LVT_REMOTE_IRR); (["lvt_lint0"; "mask"], APIC_LVT_MASKED);
  (["lvt_lint0"; "trigger"], APIC_LVT_LEVEL_TRIGGER);
  (["lvt_lint1"; "delivery_mode"], APIC_MODE_MASK); (["lvt_lint1"; "polarity"], APIC_INPUT_POLARITY);
  (["lvt_lint1"; "remote_irr"], APIC_LVT_REMOTE_IRR); (["lvt_lint1"; "mask"], APIC_LVT_MASKED);
  (["lvt_lint1"; "trigger"], APIC_LVT_LEVEL_TRIGGER); (["lvt_error"; "mask"], APIC_LVT_MASKED)].

(** The names of values of fields: the value in a register that is 0. *)
Definition values : list (list string * Z * Z) := [
  (["icr1"; "delivery_mode"], 0, APIC_DM_FIXED); (["icr1"; "delivery_mode"], 1, APIC_DM_LOWEST);
  (["icr1"; "delivery_mode"], 2, APIC_DM_SMI); (["icr1"; "delivery_mode"], 3, APIC_DM_REMRD);
  (["icr1"; "delivery_mode"], 4, APIC_DM_NMI); (["icr1"; "delivery_mode"], 5, APIC_DM_INIT);
  (["icr1"; "delivery_mode"], 6, APIC_DM_STARTUP); (["icr1"; "delivery_mode"], 7, APIC_DM_EXTINT);
  (["icr1"; "destination_mode"], 0, APIC_DEST_PHYSICAL);
  (["icr1"; "shorthand"], 1, APIC_DEST_SELF); (["icr1"; "shorthand"], 2, APIC_DEST_ALLINC);
  (["icr1"; "shorthand"], 3, APIC_DEST_ALLBUT);
  (["icr1"; "__reserved_2"], 0, APIC_ICR_RR_INVALID); (["icr1"; "__reserved_2"], 1, APIC_ICR_RR_INPROG);
  (["icr1"; "__reserved_2"], 2, APIC_ICR_RR_VALID); (["eoi"; "eoi"], 0, APIC_EIO_ACK)].

(** The divisor a value of the divide register selects: the manual numbers the
    divisors with its bits 0, 1 and 3. *)
Definition divisor (v : Z) : Z :=
  let k := Z.lor (Z.land v 3) (Z.shiftr (Z.land v 8) 1) in if k =? 7 then 1 else 2 ^ (k + 1).

Definition divisors : list (Z * Z) := [
  (APIC_TDR_DIV_1, 1); (APIC_TDR_DIV_2, 2); (APIC_TDR_DIV_4, 4); (APIC_TDR_DIV_8, 8);
  (APIC_TDR_DIV_16, 16); (APIC_TDR_DIV_32, 32); (APIC_TDR_DIV_64, 64); (APIC_TDR_DIV_128, 128)].

(** The field [p] of a register that holds [x]: a register is the first of four
    words. *)
Definition field (p : list string) (x : Z) : option Z :=
  '(o, w) ← place local_apic (dot p);
  if o mod 128 + w <=? 32 then Some (slice (o mod 128) w x) else None.

Lemma field_at p x o w :
  place local_apic (dot p) = Some (o, w) -> o mod 128 + w <= 32 ->
  field p x = Some (slice (o mod 128) w x).
Proof. intros E Hw. unfold field. rewrite E. cbn [mbind option_bind]. by rewrite (proj2 (Z.leb_le _ _)). Qed.

(** The macro is an update of the field of the mode. *)
Lemma delivery_mode_update x y :
  0 <= x < 2 ^ 32 -> 0 <= y < 8 -> SET_APIC_DELIVERY_MODE x y = update 8 3 y x.
Proof.
  intros Hx Hy. apply Z.bits_inj'. intros n Hn. unfold SET_APIC_DELIVERY_MODE.
  change 0x700 with (Z.shiftl (Z.ones 3) 8). rewrite update_testbit, wrap_testbit by lia.
  rewrite Z.lor_spec, Z.land_spec, Z.lnot_spec, !Z.shiftl_spec by lia.
  destruct (Z.leb_spec 8 n), (Z.ltb_spec n (8 + 3)); cbn [andb].
  - rewrite (proj2 (Z.ltb_lt n 32)), Z.testbit_ones_nonneg, (proj2 (Z.ltb_lt (n - 8) 3)) by lia.
    cbn [negb]. by rewrite andb_false_r.
  - rewrite Z.testbit_ones_nonneg, (proj2 (Z.ltb_ge (n - 8) 3)) by lia. cbn [negb].
    rewrite andb_true_r, (bits_above_false y 3), orb_false_r by lia.
    destruct (Z.ltb_spec n 32); [done|]. by rewrite (bits_above_false x 32).
  - rewrite !(Z.testbit_neg_r _ (n - 8)) by lia. cbn [negb].
    by rewrite (proj2 (Z.ltb_lt n 32)), andb_true_r, orb_false_r by lia.
  - lia.
Qed.

Lemma lint0_other_fields x y n :
  n <> "delivery_mode" ->
  field ["lvt_lint0"; n] (update 8 3 y x) = field ["lvt_lint0"; n] x.
Proof.
  intros Hn. unfold field, dot. cbn [fmap list_fmap].
  change (place local_apic [Dot "lvt_lint0"; Dot n])
    with ('(o', w) ← place lvt_lint0_reg [Dot n]; Some (6784 + o', w)).
  cbn [place access lvt_lint0_reg bits foldr struct_member].
  repeat match goal with
  | |- context [decide (?m = n)] =>
      destruct (decide (m = n)) as [<-|];
      [first [done | cbn -[slice update Z.modulo]; f_equal;
                     apply slice_update_other; vm_compute; intuition discriminate]|]
  end.
  done.
Qed.

(** Reading a field is masking and shifting. *)
Lemma slice_mask o w x : 0 <= o -> slice o w x = Z.shiftr (Z.land x (Z.shiftl (Z.ones w) o)) o.
Proof.
  intros Ho. unfold slice. rewrite Z.shiftr_land, Z.shiftr_shiftl_l by lia.
  by rewrite Z.sub_diag, Z.shiftl_0_r.
Qed.

(** [m] is the mask of the field [p]: read through the structure or through
    the mask, a register that holds [x] gives the same. *)
Definition mask_of (p : list string) (m x : Z) : Prop :=
  exists o w, place local_apic (dot p) = Some (o, w) /\ m = mask o w /\
    field p x = Some (Z.shiftr (Z.land x m) (o mod 32)).

Lemma mask_is_field p x o w m :
  place local_apic (dot p) = Some (o, w) -> o mod 128 + w <= 32 -> o mod 128 = o mod 32 ->
  m = mask o w -> mask_of p m x.
Proof.
  intros E Hw Ho ->. exists o, w. split; [done|]. split; [done|].
  rewrite (field_at _ _ o w) by done. f_equal. unfold mask. rewrite Ho.
  apply slice_mask. apply Z.mod_pos_bound. lia.
Qed.

(** Writing the named value [c] into a register whose field [p] was cleared
    makes that field [v]. *)
Definition value_of (p : list string) (v c x : Z) : Prop :=
  exists o w, place local_apic (dot p) = Some (o, w) /\
    field p (Z.lor (Z.land x (Z.lnot (mask o w))) c) = Some v.

Lemma value_in_field p x o w v c :
  place local_apic (dot p) = Some (o, w) -> o mod 128 + w <= 32 -> o mod 128 = o mod 32 ->
  0 <= w -> c = Z.shiftl v (o mod 32) -> 0 <= v < 2 ^ w -> value_of p v c x.
Proof.
  intros E Hw Ho H0 -> Hv. exists o, w. split; [done|]. rewrite (field_at _ _ o w) by done. f_equal.
  assert (Hl : Z.land v (Z.ones w) = v) by (rewrite Z.land_ones by lia; by apply Z.mod_small).
  rewrite Ho. unfold mask. rewrite <- Hl at 1. rewrite <- Hl at 2.
  change (slice (o mod 32) w (update (o mod 32) w v x) = Z.land v (Z.ones w)).
  apply slice_update; [|lia]. apply Z.mod_pos_bound. lia.
Qed.

(** ** Properties *)

(** The macros that read and write fields, and the bit-fields. *)
Lemma apic_field_macros (x y i : Z) (Hx : 0 <= x < 2 ^ 32) (Hy : 0 <= y < 8) (Hi : 0 <= i < 256) :
  field ["version"; "version"] x = Some (GET_APIC_VERSION x) /\
  field ["version"; "max_lvt"] x = Some (GET_APIC_MAXLVT x) /\
  field ["ldr"; "logical_dest"] x = Some (GET_APIC_LOGICAL_ID x) /\
  field ["lvt_lint0"; "delivery_mode"] x = Some (GET_APIC_DELIVERY_MODE x) /\
  GET_APIC_LOGICAL_ID (SET_APIC_LOGICAL_ID i) = i /\
  GET_APIC_DEST_FIELD (SET_APIC_DEST_FIELD i) = i /\
  field ["lvt_lint0"; "delivery_mode"] (SET_APIC_DELIVERY_MODE x y) = Some y /\
  (forall n, n <> "delivery_mode" ->
     field ["lvt_lint0"; n] (SET_APIC_DELIVERY_MODE x y) = field ["lvt_lint0"; n] x) /\
  field ["id"; "phys_apic_id"] x = Some (GET_APIC_ID x mod 16) /\
  field ["icr2"; "dest"; "phys_dest"] x = Some (x mod 16) /\
  field ["icr2"; "dest"; "logical_dest"] x = Some (x mod 256).
Proof.
  split; [by rewrite (field_at _ x 384 8)|]. split; [by rewrite (field_at _ x 400 8)|].
  split; [by rewrite (field_at _ x 1688 8)|]. split; [by rewrite (field_at _ x 6792 3)|].
  assert (Hid : forall i, 0 <= i < 256 -> Z.land (Z.shiftr (u32 (Z.shiftl i 24)) 24) 0xFF = i).
  { intros j Hj. rewrite Z.shiftl_mul_pow2, wrap_small by lia.
    rewrite Z.shiftr_div_pow2, Z.div_mul by lia.
    change 0xFF with (Z.ones 8). rewrite Z.land_ones by lia. apply Z.mod_small. lia. }
  split; [exact (Hid i Hi)|]. split; [exact (Hid i Hi)|].
  rewrite (delivery_mode_update x y Hx Hy).
  split.
  { rewrite (field_at _ _ 6792 3) by done. change (6792 mod 128) with 8. rewrite slice_update by lia.
    rewrite Z.land_ones by lia. f_equal. apply Z.mod_small. lia. }
  split; [by apply lint0_other_fields|]. split.
  { rewrite (field_at _ x 280 4) by done. unfold slice, GET_APIC_ID. change (280 mod 128) with 24.
    change 0xFF with (Z.ones 8). rewrite !Z.land_ones by lia. f_equal.
    change (2 ^ 8) with (16 * 2 ^ 4). rewrite Z.rem_mul_r by lia. change (2 ^ 4) with 16.
    by rewrite Z.mul_comm, Z.mod_add, Z.mod_mod by lia. }
  rewrite (field_at _ x 6272 4), (field_at _ x 6272 8) by done. unfold slice. change (6272 mod 128) with 0.
  by rewrite Z.shiftr_0_r, !Z.land_ones by lia.
Qed.

(** C17: the structure is the register map, but for two registers. It covers
    the 1024 bytes of the page the macros address; each register of the
    structure begins at the offset its macro names, and the three registers of
    256 bits are eight words 0x10 bytes apart. For any content [x] of a
    register, each mask of [masks] cuts out of it what the bit-field of the
    same meaning reads, and each value of [values] makes that field, once
    cleared, the number of the value. The names of the divisors are the
    divisors. The macros that read fields read what the bit-fields read; setting
    the delivery mode sets that field of the LINT0 entry and no other. The two
    registers where the structure is not the map are the identifier, of which
    the structure has the lower four bits of the eight that [GET_APIC_ID] and
    [APIC_ID_MASK] have, and the destination of the command register, whose
    fields begin at bit 0 in the structure, because they are members of a
    union, where [GET_APIC_DEST_FIELD] reads the highest byte. *)
Theorem apic_struct_is_register_map (x y i : Z) (Hx : 0 <= x < 2 ^ 32) (Hy : 0 <= y < 8) (Hi : 0 <= i < 256) :
  csize local_apic = 8 * 0x400 /\
  Forall (fun '(n, r) => exists w, place local_apic [Dot n] = Some (8 * r, w)) registers /\
  (forall k, 0 <= k < APIC_ISR_NR ->
     Forall (fun '(n, r) => place local_apic [Dot n; Idx k; Dot "bitfield"]
                            = Some (8 * (r + 0x10 * k), 32))
       [("isr", APIC_ISR); ("tmr", APIC_TMR); ("irr", APIC_IRR)]) /\
  Forall (fun '(p, m) => mask_of p m x) masks /\
  Forall (fun '(p, v, c) => value_of p v c x) values /\
  Forall (fun '(v, n) => divisor v = n) divisors /\
  ~ mask_of ["id"; "phys_apic_id"] APIC_ID_MASK x /\
  field ["version"; "version"] x = Some (GET_APIC_VERSION x) /\
  field ["version"; "max_lvt"] x = Some (GET_APIC_MAXLVT x) /\
  field ["ldr"; "logical_dest"] x = Some (GET_APIC_LOGICAL_ID x) /\
  field ["lvt_lint0"; "delivery_mode"] x = Some (GET_APIC_DELIVERY_MODE x) /\
  GET_APIC_LOGICAL_ID (SET_APIC_LOGICAL_ID i) = i /\
  GET_APIC_DEST_FIELD (SET_APIC_DEST_FIELD i) = i /\
  field ["lvt_lint0"; "delivery_mode"] (SET_APIC_DELIVERY_MODE x y) = Some y /\
  (forall n, n <> "delivery_mode" ->
     field ["lvt_lint0"; n] (SET_APIC_DELIVERY_MODE x y) = field ["lvt_lint0"; n] x) /\
  field ["id"; "phys_apic_id"] x = Some (GET_APIC_ID x mod 16) /\
  field ["icr2"; "dest"; "phys_dest"] x = Some (x mod 16) /\
  field ["icr2"; "dest"; "logical_dest"] x = Some (x mod 256).
Proof.
  split; [reflexivity|]. split; [repeat constructor; eexists; reflexivity|]. split.
  { intros k Hk. unfold APIC_ISR_NR in Hk.
    assert (k = 0 \/ k = 1 \/ k = 2 \/ k = 3 \/ k = 4 \/ k = 5 \/ k = 6 \/ k = 7) as Hc by lia.
    destruct_or! Hc; subst k; repeat constructor. }
  split; [repeat constructor; (eapply mask_is_field; [reflexivity | done..])|].
  split; [repeat constructor; (eapply value_in_field; [reflexivity | done..])|].
  split; [repeat constructor|]. split; [intros (o & w & [= <- <-] & E & _); discriminate E|].
  exact (apic_field_macros x y i Hx Hy Hi).
Qed.

Lemma apic_struct_is_register_map_witness :
  field ["lvt_lint0"; "delivery_mode"] (SET_APIC_DELIVERY_MODE 0x10000 7) = Some 7 /\
  Forall (fun '(p, m) => mask_of p m 0x10000) masks.
Proof.
  destruct (apic_struct_is_register_map 0x10000 7 3) as (_ & _ & _ & Hm & _ & _ & _ & _ & _ & _ & _ & _ & _ & Hf & _);
    [lia..|].
  exact (conj Hf Hm).
Defined.

Lemma member_at {D} `{LocalApic D} p o w r (d : D) :
  place local_apic p = Some (o, w) -> o / 32 * 4 = r ->
  member p d = Some (slice (o mod 32) w (apic_reg r d)).
Proof. intros E <-. unfold member. by rewrite E. Qed.

(** The timer of the boot processor, seen through the structure: periodic, not
    masked, with the vector of its interrupt and the clock divided by 64. *)
Lemma timer_through_struct {D} `{LocalApic D} (handler : irq_handler_t (D := D)) st :
  apic_reg APIC_LVTT (device st) = APIC_LVT_MASKED ->
  Z.testbit (apic_reg APIC_SPIV (device st)) 8 = true ->
  length (irq_handler st) = 32%nat ->
  exists st' v, init_bsp_timer handler st = Ret st' /\
    member (dot ["lvt_timer"; "timer_mode"]) (device st') = Some 1 /\
    member (dot ["lvt_timer"; "mask"]) (device st') = Some 0 /\
    member (dot ["lvt_timer"; "vector"]) (device st') = Some (IRQ_TO_VECTOR BSP_TIMER_IRQ) /\
    member (dot ["timer_icr"; "initial_count"]) (device st') = Some 0xFFFFFF /\
    member (dot ["timer_dcr"; "divisor"]) (device st') = Some v /\ divisor v = 64.
Proof.
  intros Ht Hen Hl.
  destruct (init_bsp_timer_spec handler st Ht Hen Hl) as (st' & E & _ & Hlvt & Hcount & Hdiv & _).
  exists st', APIC_TDR_DIV_64. split; [exact E|].
  rewrite (member_at _ 6417 1 APIC_LVTT), (member_at _ 6416 1 APIC_LVTT), (member_at _ 6400 8 APIC_LVTT),
    (member_at _ 7168 32 APIC_TMICT), (member_at _ 7936 4 APIC_TDCR), Hlvt, Hcount, Hdiv by reflexivity.
  repeat split; reflexivity.
Qed.
