(* ===== verification/Exceptions.v ===== *)
(** * Exception handlers (except_handler.c, except_handler.h)

    The handlers the entry stubs of the exceptions call: each prints its name,
    the error code and the address of the instruction on the kernel's console.
    [lit e] is the address of the format string of the handler [e]. The [int]
    is passed zero-extended, and both numbers are read as signed words. *)

From Stdlib Require Import String.
From S2P Require Import Prelude CString Screen Printf Console.

#[local] Open Scope list_scope.

Inductive exception :=
  | divide_error | debug | nmi | int3 | overflow | bounds | invalid_op | device_not_available
  | doublefault_fn | coprocessor_segment_overrun | invalid_TSS | segment_not_present
  | stack_segment | general_protection | page_fault | coprocessor_error | alignment_check
  | machine_check | simd_coprocessor_error.

#[global] Instance exception_eq_dec : EqDecision exception.
Proof. solve_decision. Defined.

(** All of them, in the order of the file. *)
Definition exceptions : list exception :=
  [divide_error; debug; nmi; int3; overflow; bounds; invalid_op; device_not_available; doublefault_fn;
   coprocessor_segment_overrun; invalid_TSS; segment_not_present; stack_segment; general_protection;
   page_fault; coprocessor_error; alignment_check; machine_check; simd_coprocessor_error].

(** What the message of each handler calls the exception. *)
Definition exception_name (e : exception) : string :=
  match e with
  | divide_error => "divide_error"
  | debug => "debug"
  | nmi => "nmi"
  | int3 => "int3"
  | overflow => "overflow"
  | bounds => "bounds"
  | invalid_op => "invalid operatioin"
  | device_not_available => "device not avalible"
  | doublefault_fn => "doublefault"
  | coprocessor_segment_overrun => "coprocessor segment overrun"
  | invalid_TSS => "invalid TSS"
  | segment_not_present => "segment not present"
  | stack_segment => "stack segment"
  | general_protection => "general protection"
  | page_fault => "page fault"
  | coprocessor_error => "coprocessor error"
  | alignment_check => "alignment check"
  | machine_check => "machine check "
  | simd_coprocessor_error => "SIMD coprocessor error"
  end.

Definition exception_format (e : exception) : list Z :=
  bytes_of "EXCEPTION: " ++ bytes_of (exception_name e) ++ bytes_of ", error=%x, rip=%x" ++ [10].

Section Handlers.
Context (sz : Z) (lit : exception -> Z).

Definition report (e : exception) (err rip : Z) (c : console) : res console :=
  k_printf sz (lit e) [u32 err; s64 rip] c.

Definition do_divide_error : Z -> Z -> console -> res console := report divide_error.
Definition do_debug : Z -> Z -> console -> res console := report debug.
Definition do_nmi : Z -> Z -> console -> res console := report nmi.
Definition do_int3 : Z -> Z -> console -> res console := report int3.
Definition do_overflow : Z -> Z -> console -> res console := report overflow.
Definition do_bounds : Z -> Z -> console -> res console := report bounds.
Definition do_invalid_op : Z -> Z -> console -> res console := report invalid_op.
Definition do_device_not_available : Z -> Z -> console -> res console := report device_not_available.
Definition do_doublefault_fn : Z -> Z -> console -> res console := report doublefault_fn.
Definition do_coprocessor_segment_overrun : Z -> Z -> console -> res console := report coprocessor_segment_overrun.
Definition do_invalid_TSS : Z -> Z -> console -> res console := report invalid_TSS.
Definition do_segment_not_present : Z -> Z -> console -> res console := report segment_not_present.
Definition do_stack_segment : Z -> Z -> console -> res console := report stack_segment.
Definition do_general_protection : Z -> Z -> console -> res console := report general_protection.
Definition do_page_fault : Z -> Z -> console -> res console := report page_fault.
Definition do_coprocessor_error : Z -> Z -> console -> res console := report coprocessor_error.
Definition do_alignment_check : Z -> Z -> console -> res console := report alignment_check.
Definition do_machine_check : Z -> Z -> console -> res console := report machine_check.
Definition do_simd_coprocessor_error : Z -> Z -> console -> res console := report simd_coprocessor_error.

(** The handler of each exception. *)
Definition do_exception (e : exception) : Z -> Z -> console -> res console :=
  match e with
  | divide_error => do_divide_error
  | debug => do_debug
  | nmi => do_nmi
  | int3 => do_int3
  | overflow => do_overflow
  | bounds => do_bounds
  | invalid_op => do_invalid_op
  | device_not_available => do_device_not_available
  | doublefault_fn => do_doublefault_fn
  | coprocessor_segment_overrun => do_coprocessor_segment_overrun
  | invalid_TSS => do_invalid_TSS
  | segment_not_present => do_segment_not_present
  | stack_segment => do_stack_segment
  | general_protection => do_general_protection
  | page_fault => do_page_fault
  | coprocessor_error => do_coprocessor_error
  | alignment_check => do_alignment_check
  | machine_check => do_machine_check
  | simd_coprocessor_error => do_simd_coprocessor_error
  end.

End Handlers.

(** ** Lemmas *)

(** The text a handler prints. *)
Definition exception_text (e : exception) (err rip : Z) : list Z :=
  bytes_of "EXCEPTION: " ++ bytes_of (exception_name e) ++ bytes_of ", error=" ++
  hexadecimal (u32 err) ++ bytes_of ", rip=" ++ hexadecimal (s64 rip) ++ [10].

Lemma render_exception e err rip :
  render (exception_format e) [VNum (u32 err); VNum (s64 rip)] = Some (exception_text e err rip).
Proof. by destruct e. Qed.

(** Characters that neither end the text nor delete. *)
Definition plain (c : Z) : Prop := c <> 0 /\ c <> 8.

Lemma plain_prints cs t :
  Forall plain cs -> until_nul cs = cs /\ term_ok (outputs cs) t = true.
Proof.
  intros Hcs. revert t. induction Hcs as [|c cs [H0 H8] Hcs IH]; intros t; [done|].
  cbn [until_nul]. rewrite (proj2 (Z.eqb_neq c 0)) by done. destruct (IH t) as [-> _]. split; [done|].
  unfold outputs. rewrite fmap_cons. cbn [term_ok].
  rewrite (proj2 (Z.eqb_neq c 8)) by done. destruct (c =? 10); cbn [andb]; apply IH.
Qed.

Lemma hexadecimal_length n k : (0 < k)%nat -> u64 n < 16 ^ Z.of_nat k -> (length (hexadecimal n) <= k)%nat.
Proof.
  intros Hk Hn. unfold hexadecimal. destruct (u64 n =? 0); [simpl; lia|].
  rewrite length_fmap. by apply digits_length.
Qed.

Lemma hexadecimal_plain n : Forall plain (hexadecimal n).
Proof.
  unfold hexadecimal. destruct (u64 n =? 0); [by repeat constructor|]. apply Forall_fmap.
  eapply Forall_impl; [by apply (digits_range 16 16)|]. intros d Hd.
  destruct (hex_char_range d Hd) as [? _]. unfold plain. simpl. lia.
Qed.

Lemma name_plain e : Forall plain (bytes_of (exception_name e)) /\
  (length (bytes_of (exception_name e)) <= 27)%nat.
Proof.
  assert (Hd : forallb (fun c => negb (c =? 0) && negb (c =? 8)) (bytes_of (exception_name e))
    && (length (bytes_of (exception_name e)) <=? 27)%nat = true) by by destruct e.
  apply andb_true_iff in Hd as [Hf Hl]. split; [|by apply Nat.leb_le].
  apply Forall_forall. intros c Hc. rewrite forallb_forall in Hf.
  apply list_elem_of_In, Hf in Hc. unfold plain. lia.
Qed.

Lemma exception_text_plain e err rip : Forall plain (exception_text e err rip).
Proof.
  unfold exception_text. rewrite !Forall_app. destruct (name_plain e) as [Hn _].
  split_and!; try done; try apply hexadecimal_plain; unfold plain; by repeat constructor.
Qed.

Lemma exception_text_length e err rip : (length (exception_text e err rip) < 128)%nat.
Proof.
  unfold exception_text. rewrite !length_app. destruct (name_plain e) as [_ Hl].
  assert (H1 : (length (hexadecimal (u32 err)) <= 16)%nat).
  { apply hexadecimal_length; [lia|]. apply (wrap_range 64 (u32 err)). lia. }
  assert (H2 : (length (hexadecimal (s64 rip)) <= 16)%nat).
  { apply hexadecimal_length; [lia|]. apply (wrap_range 64 (s64 rip)). lia. }
  change (length (bytes_of "EXCEPTION: ")) with 11%nat. change (length (bytes_of ", error=")) with 8%nat.
  change (length (bytes_of ", rip=")) with 6%nat. simpl. lia.
Qed.

(** The handler prints one line, and writes the buffer only. *)
Lemma do_exception_writes sz lit fnl fpc lo e err rip t (c : console) :
  k_shows sz fnl fpc lo t c -> cstr (con_mem c) (lit e) (exception_format e) ->
  apart sz (sz + 128) (lit e) (exception_format e) -> s64 rip <> - 2 ^ 63 ->
  exists c', do_exception sz lit e err rip c = Ret c' /\
    k_shows sz fnl fpc lo (term_run (outputs (exception_text e err rip)) t) c' /\
    con_mem c' = write_bytes sz (exception_text e err rip ++ [0]) (con_mem c).
Proof.
  intros Hc Hl Ha Hmin. pose proof (sext_range 64 rip ltac:(lia)) as Hs.
  destruct (plain_prints _ t (exception_text_plain e err rip)) as [Hu Hok].
  destruct (k_printf_writes sz fnl fpc lo (lit e) (exception_format e) [VNum (u32 err); VNum (s64 rip)]
    (exception_text e err rip) t c) as (c' & E & Hc' & Hm); try done.
  - apply render_exception.
  - apply exception_text_length.
  - repeat (apply Forall_cons_2); [|simpl; lia | apply Forall_nil_2].
    simpl. pose proof (wrap_range 32 err ltac:(lia)). lia.
  - by rewrite Hu.
  - exists c'. rewrite Hu in Hc'. split; [|done]. rewrite <- E. by destruct e.
Qed.

Lemma do_exception_spec sz lit fnl fpc lo e err rip t (c : console) :
  k_shows sz fnl fpc lo t c -> cstr (con_mem c) (lit e) (exception_format e) ->
  apart sz (sz + 128) (lit e) (exception_format e) -> s64 rip <> - 2 ^ 63 ->
  exists c', do_exception sz lit e err rip c = Ret c' /\
    k_shows sz fnl fpc lo (term_run (outputs (exception_text e err rip)) t) c' /\
    forall p s, cstr (con_mem c) p s -> apart sz (sz + 128) p s -> cstr (con_mem c') p s.
Proof.
  intros Hc Hl Ha Hmin.
  destruct (do_exception_writes sz lit fnl fpc lo e err rip t c) as (c' & E & Hc' & Hm); [done..|].
  exists c'. split; [done|]. split; [done|]. rewrite Hm. intros p s Hp Hpa.
  pose proof (exception_text_length e err rip).
  assert (Hlen : (length (exception_text e err rip ++ [0%Z]) <= 128)%nat) by (rewrite length_app; change (length [0%Z]) with 1%nat; lia).
  eapply cstr_write; [done | done | lia | lia].
Qed.

(** ** Properties *)

(** C37: the exception handlers report. Whatever the exception, when its message
    is in memory clear of the buffer of [caos_printf], the handler returns and
    the screen shows the terminal after one line with the name of the
    exception, the error code and the address of the instruction; both numbers
    can be read back. The memory after it is the memory before it with the text
    and its end in the buffer, which they fit, so no other byte changes. *)
Theorem exception_reported sz lit fnl fpc lo e err rip t (c : console) :
  k_shows sz fnl fpc lo t c -> cstr (con_mem c) (lit e) (exception_format e) ->
  apart sz (sz + 128) (lit e) (exception_format e) ->
  0 <= err < 2 ^ 32 -> 0 <= rip < 2 ^ 64 -> rip <> 2 ^ 63 ->
  exists c' he hr, do_exception sz lit e err rip c = Ret c' /\
    parse 16 he = err /\ parse 16 hr = rip /\
    let text := bytes_of "EXCEPTION: " ++ bytes_of (exception_name e) ++ bytes_of ", error=" ++ he ++
                bytes_of ", rip=" ++ hr ++ [10] in
    (length text < 128)%nat /\ k_shows sz fnl fpc lo (term_run (outputs text) t) c' /\
    con_mem c' = write_bytes sz (text ++ [0]) (con_mem c) /\
    forall a, ~ (sz <= a < sz + 128) -> con_mem c' !! a = con_mem c !! a.
Proof.
  intros Hc Hl Ha He Hr Hn.
  assert (Hmin : s64 rip <> - 2 ^ 63).
  { intros Hx. pose proof (sext_wrap 64 rip ltac:(lia)) as Hw. rewrite Hx, (wrap_small 64 rip) in Hw by lia.
    change (u64 (- 2 ^ 63)) with (2 ^ 63) in Hw. lia. }
  destruct (do_exception_writes sz lit fnl fpc lo e err rip t c) as (c' & E & Hc' & Hm); [done..|].
  exists c', (hexadecimal (u32 err)), (hexadecimal (s64 rip)). rewrite !parse_hexadecimal, sext_wrap by lia.
  split; [exact E|]. split; [by rewrite (wrap_small 32), wrap_small by lia|]. split; [by apply wrap_small|].
  pose proof (exception_text_length e err rip) as Hlen.
  split; [exact Hlen|]. split; [exact Hc'|]. split; [exact Hm|].
  intros a Hout. rewrite Hm, write_bytes_lookup, decide_False; [done|].
  rewrite length_app. change (length [0%Z]) with 1%nat. lia.
Qed.

(** A page fault at a kernel address, on the blank screen. *)
Definition fault_lit (e : exception) : Z := 1000.

Definition fault_console : console :=
  {| con_mem := write_bytes 4096 (replicate 128 0) (write_bytes 1000 (exception_format page_fault ++ [0])
                  (write_bytes 100 [10; 0] (write_bytes 110 [37; 99; 0] ∅)));
     con_screen := blank_screen |}.

Lemma exception_reported_witness :
  exists c' he hr, do_exception 4096 fault_lit page_fault 2 0xFFFF800000101234 fault_console = Ret c' /\
    parse 16 he = 2 /\ parse 16 hr = 0xFFFF800000101234 /\
    k_shows 4096 100 110 0 (term_run (outputs (bytes_of "EXCEPTION: page fault, error=" ++ he ++
      bytes_of ", rip=" ++ hr ++ [10])) (0, blank_paper)) c' /\
    con_mem c' !! 1000 = Some 69.
Proof.
  destruct (exception_reported 4096 fault_lit 100 110 0 page_fault 2 0xFFFF800000101234 (0, blank_paper)
    fault_console) as (c' & he & hr & E & H1 & H2 & _ & Hc & _ & Hm).
  - split; cbn [con_mem con_screen fault_console].
    + exact blank_screen_shows.
    + split; [vm_compute; tauto | repeat constructor].
    + split; [vm_compute; tauto | repeat constructor].
    + intros x Hx. rewrite write_bytes_lookup, length_replicate, decide_True by lia.
      apply lookup_lt_is_Some_2. rewrite length_replicate. lia.
    + unfold apart. simpl. lia.
    + unfold apart. simpl. lia.
  - split; [vm_compute; tauto | vm_compute; repeat constructor].
  - left. vm_compute. reflexivity.
  - lia.
  - lia.
  - lia.
  - exists c', he, hr. refine (conj E (conj H1 (conj H2 (conj Hc _)))). rewrite Hm by lia. vm_compute. reflexivity.
Defined.
