(* ===== verification/Messages.v ===== *)
(** * The messages of the kernel (every call of caos_printf)

    The other components leave their messages out; this file has them all: for
    each source file the calls of [caos_printf] with their format and the kinds
    of their arguments, those the preprocessor keeps and those of the
    debugging output. [caos_printf] renders into 128 bytes without a bound, so
    it has to be shown that no message is longer. *)

From Stdlib Require Import String.
From S2P Require Import Prelude CString Screen Printf Console Exceptions.

#[local] Open Scope list_scope.
#[local] Open Scope Z_scope.

(** ** Messages *)

(** What is passed: a number, one number only, a character, or a string of at
    most [k] characters. *)
Inductive kind := Num | Const (n : Z) | Chr | Str (k : nat).

(** A call: its line, whether the preprocessor keeps it, and what it passes. *)
Record message := { m_line : Z; m_kept : bool; m_format : list Z; m_kinds : list kind }.

#[global] Instance kind_eq_dec : EqDecision kind.
Proof. solve_decision. Defined.

#[global] Instance message_eq_dec : EqDecision message.
Proof. solve_decision. Defined.

Definition call (line : Z) (format : list Z) (kinds : list kind) : message :=
  {| m_line := line; m_kept := true; m_format := format; m_kinds := kinds |}.

Definition debug_call (line : Z) (format : list Z) (kinds : list kind) : message :=
  {| m_line := line; m_kept := false; m_format := format; m_kinds := kinds |}.

Definition no_deletion : list Z -> Prop := Forall (fun c => c <> 8).

(** Argument and kind agree. A character or string that deletes is left
    out: what a message deletes depends on the screen. *)
Definition arg_of (k : kind) (a : vararg) : Prop :=
  match k, a with
  | Num, VNum n => - 2 ^ 63 < n < 2 ^ 63
  | Const c, VNum n => n = c /\ - 2 ^ 63 < n < 2 ^ 63
  | Chr, VNum n => 0 <= n < 256 /\ n <> 8
  | Str k, VStr p s => (length s <= k)%nat /\ no_deletion s
  | _, _ => False
  end.

(** The longest text of a conversion; nothing when it does not take the kind. *)
Definition widest (conv : Z) (k : kind) : option nat :=
  match k with
  | Num => if conv =? 100 then Some 20%nat else if conv =? 120 then Some 16%nat else None
  | Const n => if (conv =? 100) || (conv =? 120) then length <$> render_arg conv (VNum n) else None
  | Chr => if conv =? 99 then Some 1%nat else None
  | Str k => if conv =? 115 then Some k else None
  end.

(** The longest text of a format; nothing when it does not fit its
    arguments. *)
Fixpoint bound (f : list Z) (ks : list kind) : option nat :=
  match f with
  | [] => match ks with [] => Some 0%nat | _ => None end
  | x :: f' =>
      match f' with
      | y :: f'' =>
          if (x =? 37) && is_conv y then
            match ks with
            | k :: ks' => o ← widest y k; Nat.add o <$> bound f'' ks'
            | [] => None
            end
          else S <$> bound f' ks
      | [] => match ks with [] => Some 1%nat | _ => None end
      end
  end.

(** The message fits its arguments and the buffer, with the NUL. *)
Definition fits (m : message) : bool :=
  match bound (m_format m) (m_kinds m) with
  | Some n => (n <? 128)%nat && forallb (fun c => negb (c =? 8)) (m_format m)
  | None => false
  end.

(** ** The calls *)

(** A negative [int] comes as the word with its upper half clear. A name of a
    cache or a zone is given 32 characters. *)

Definition apic_messages : list message := [
    debug_call 48 (bytes_of "local apic version=%x" ++ [10]) [Num];
    debug_call 56 (bytes_of "local apic version=%x" ++ [10]) [Num];
    debug_call 85 (bytes_of "Getting old ID: %x" ++ [10]) [Num];
    debug_call 86 (bytes_of "Getting test ID: %x" ++ [10]) [Num];
    debug_call 127 (bytes_of "ISR SETTING [%x]") [Num];
    call 146 (bytes_of "Init local timer of CPU #%d ") [Num];
    debug_call 169 (bytes_of "APIC_LVTT=%x" ++ [10]) [Num];
    call 173 (bytes_of "..success" ++ [10]) [];
    call 178 (bytes_of "..fail" ++ [10]) [];
    call 205 (bytes_of "This is not BSP! Please reboot system." ++ [10]) [];
    call 212 ([10] ++ bytes_of "Cannot verify BSP's Local APIC!!" ++ [10]) [];
    debug_call 284 (bytes_of "SPIV=%x") [Num];
    debug_call 285 (bytes_of "LINT0=%x" ++ [10]) [Num];
    debug_call 286 (bytes_of "LINT1=%x") [Num];
    debug_call 287 (bytes_of "error=%x" ++ [10]) [Num];
    debug_call 288 (bytes_of "perfor=%x") [Num];
    debug_call 289 (bytes_of "therm=%x" ++ [10]) [Num];
    call 304 (bytes_of "enabled" ++ [10]) []].

Definition except_handler_messages : list message := [
    call 12 (exception_format divide_error) [Num; Num];
    call 19 (exception_format debug) [Num; Num];
    call 25 (exception_format nmi) [Num; Num];
    call 31 (exception_format int3) [Num; Num];
    call 37 (exception_format overflow) [Num; Num];
    call 43 (exception_format bounds) [Num; Num];
    call 49 (exception_format invalid_op) [Num; Num];
    call 55 (exception_format device_not_available) [Num; Num];
    call 61 (exception_format doublefault_fn) [Num; Num];
    call 67 (exception_format coprocessor_segment_overrun) [Num; Num];
    call 73 (exception_format invalid_TSS) [Num; Num];
    call 79 (exception_format segment_not_present) [Num; Num];
    call 85 (exception_format stack_segment) [Num; Num];
    call 91 (exception_format general_protection) [Num; Num];
    call 97 (exception_format page_fault) [Num; Num];
    call 103 (exception_format coprocessor_error) [Num; Num];
    call 109 (exception_format alignment_check) [Num; Num];
    call 115 (exception_format machine_check) [Num; Num];
    call 121 (exception_format simd_coprocessor_error) [Num; Num]].

Definition gdt_messages : list message := [
    call 79 (bytes_of "TSS address=%x" ++ [10]) [Num];
    debug_call 111 (bytes_of "%d desc copy" ++ [10]) [Num];
    debug_call 114 (bytes_of "%x" ++ [10]) [Num];
    call 121 (bytes_of "GDT table at %x" ++ [10]) [Num]].

Definition idt_messages : list message := [
    call 69 (bytes_of "IDT table at %x" ++ [10]) [Num]].

Definition io_apic_messages : list message := [
    call 99 (bytes_of "IO APIC ID=%x" ++ [10]) [Num];
    call 100 (bytes_of "IO APIC VER=%x ") [Num];
    call 101 (bytes_of "IO APIC Entry=%d" ++ [10]) [Num]].

Definition irq_handler_messages : list message := [
    call 73 (bytes_of "Unknown interrupt occur, <irq=%d>" ++ [10]) [Num];
    debug_call 94 (bytes_of "Register irq#%d Handler=%x" ++ [10]) [Num; Num];
    debug_call 145 (bytes_of "IRQ[0x%x] occured" ++ [10]) [Num];
    debug_call 156 (bytes_of "end IRQ[0x%x]" ++ [10]) [Num]].

Definition keyboard_messages : list message := [
    call 88 (bytes_of "Initialize keyboard..") [];
    call 92 (bytes_of "OK" ++ [10]) [];
    call 94 (bytes_of "ERROR" ++ [10]) [];
    debug_call 120 (bytes_of "KEYBOARD [%x]" ++ [10]) [Num];
    debug_call 134 (bytes_of "numlock pressed" ++ [10]) [];
    debug_call 141 (bytes_of "capslock pressed" ++ [10]) [];
    debug_call 148 (bytes_of "scroll-lock pressed" ++ [10]) [];
    debug_call 155 (bytes_of "left_shift pressed" ++ [10]) [];
    debug_call 162 (bytes_of "left-shift released" ++ [10]) [];
    debug_call 181 (bytes_of "left-ctrl pressed" ++ [10]) [];
    debug_call 188 (bytes_of "left-ctrl released" ++ [10]) [];
    debug_call 195 (bytes_of "alt pressed" ++ [10]) [];
    debug_call 202 (bytes_of "alt released" ++ [10]) [];
    call 241 ([10]) [];
    call 249 (bytes_of "%c") [Chr]].

Definition main_messages : list message := [
    call 34 (bytes_of "Hello! I am BSP!!" ++ [10]) [];
    call 36 (bytes_of "Hello!! I am AP!! I am running??" ++ [10]) [];
    call 50 (bytes_of "Hello, CaOS. Test printf <%d,%d,%d,%d,%d,%d,0x%x>" ++ [10]) [Const 0; Const 1; Const 0xfffffffd; Const (-4); Const 0xfffffffb; Const 6; Const 0xa];
    call 52 (bytes_of "size int=%d, long=%d, long long=%d" ++ [10]) [Const 4; Const 8; Const 8];
    call 58 (bytes_of "PML4[0]=%x, PDP[0]=%x" ++ [10] ++ bytes_of " PDE[0]=%x, PTE[0]=%x" ++ [10]) [Num; Num; Num; Num];
    call 134 ([10] ++ bytes_of "### MAKE PROCESS MANAGEMENT!! ###" ++ [10]) []].

Definition memory_messages : list message := [
    call 96 (bytes_of "zone[%s] size=%d, mem_map=%x, free=%d" ++ [10]) [Str 32; Num; Num; Num]].

Definition mp_spec_messages : list message := [
    debug_call 83 (bytes_of "scan SMP pointer table: %x~%x" ++ [10]) [Num; Num];
    debug_call 95 (bytes_of "Reserve SMP configuration table %x" ++ [10]) [Num];
    call 139 (bytes_of "Processor #%d%s is found" ++ [10]) [Num; Str 13];
    call 143 (bytes_of "MPCTable: NR_CPUS limit of %d reached..processor ignored" ++ [10]) [Num];
    call 170 (bytes_of "cpu=%d apicid=%d" ++ [10]) [Num; Num];
    debug_call 192 (bytes_of "Bus #%d is %s" ++ [10]) [Num; Str 3];
    call 206 (bytes_of "MPCTable: Unknown bustype detected: %s" ++ [10]) [Str 3];
    call 225 (bytes_of "I/O APIC #%d at 0x%x" ++ [10]) [Num; Num];
    call 230 (bytes_of "I/O APIC error detected.." ++ [10]) [];
    debug_call 256 (bytes_of "INT : type %d, pol %d, trig %d, bus %d,") [Num; Num; Num; Num];
    debug_call 258 (bytes_of " IRQ %x, APIC ID %d, APIC INT %d" ++ [10]) [Num; Num; Num];
    call 263 (bytes_of "Max # of irq sources exceeded!" ++ [10]) [];
    debug_call 282 (bytes_of "LINT : type %d, pol %d, trig %d, bus %d,") [Num; Num; Num; Num];
    debug_call 284 (bytes_of " IRQ %x, APIC ID %x, APIC INT %x" ++ [10]) [Num; Num; Num];
    call 309 (bytes_of "MPCTable: Bad signature[%c%c%c%c]" ++ [10]) [Chr; Chr; Chr; Chr];
    call 319 (bytes_of "MPCTable: bad table version (%d)" ++ [10]) [Num];
    call 325 (bytes_of "MPCTable: null local APIC address" ++ [10]) [];
    debug_call 342 (bytes_of "MPCTable: Product ID: %s" ++ [10]) [Str 12];
    debug_call 343 (bytes_of "MPCTable: OEM ID: %s ") [Str 12];
    debug_call 344 (bytes_of "MPCTable: Local APIC at: 0x%x" ++ [10]) [Num];
    debug_call 345 (bytes_of "MPCTable: Base table length: %d" ++ [10]) [Num];
    debug_call 412 (bytes_of "MPCTable: success to read tables!" ++ [10]) [];
    debug_call 446 (bytes_of "MP floating pointer structure is found at 0x%x." ++ [10]) [Num];
    call 449 (bytes_of "No MP floating pointer structure is found" ++ [10]) [];
    call 457 (bytes_of "Intel Multiprocessor Specification v1.%d" ++ [10]) [Num];
    debug_call 483 (bytes_of "read MP configure at 0x%x" ++ [10]) [Num];
    call 487 (bytes_of "BIOS bus, MP table error detected!!!" ++ [10]) [];
    call 491 (bytes_of "Default MP configurationg processing is not implemented yet!!!" ++ [10]) [];
    call 494 (bytes_of "SMP structure ERROR" ++ [10]) []].

Definition page_messages : list message := [
    call 69 (bytes_of "bootmem page %x~%x" ++ [10]) [Num; Num];
    call 85 (bytes_of "FATAL ERROR: KERNEL HEAP EXHAUSTS") [];
    debug_call 124 (bytes_of "page count = %d, mem_map_size = %dbyte, mem_map_page = %d" ++ [10]) [Num; Num; Num];
    call 135 (bytes_of "mem_map -> %x ~ %x " ++ [10]) [Num; Num];
    debug_call 182 (bytes_of "mem_map[%d] : ") [Num];
    debug_call 183 (bytes_of "list.next=%x list.prev=%x ") [Num; Num];
    debug_call 184 (bytes_of "count=%d" ++ [10]) [Num];
    debug_call 185 (bytes_of "mem_map[%d] : ") [Num];
    debug_call 186 (bytes_of "list.next=%x list.prev=%x ") [Num; Num];
    debug_call 187 (bytes_of "count=%d" ++ [10]) [Num];
    debug_call 189 (bytes_of "mem_map[%d] ") [Num];
    debug_call 190 (bytes_of "list.next=%x list.prev=%x ") [Num; Num];
    debug_call 191 (bytes_of "count=%d" ++ [10]) [Num];
    debug_call 193 (bytes_of "Free page start at %x" ++ [10]) [Num];
    call 256 (bytes_of "FATAL ERROR in PAGING-TABLES BUILDING") [];
    call 277 (bytes_of "pgd=0x%x/pud=0x%x " ++ [10] ++ bytes_of "pmd=0x%x/pte=0x%x" ++ [10]) [Num; Num; Num; Num];
    debug_call 309 (bytes_of "Init Paging-Table Structure, #%d pud, #%d pmd, #%d pte" ++ [10]) [Num; Num; Num];
    debug_call 311 (bytes_of "%x %x %x %x" ++ [10]) [Num; Num; Num; Num];
    call 349 (bytes_of "pmd_reserv=0x%x/pte_reserv=0x%x" ++ [10]) [Num; Num];
    debug_call 383 (bytes_of "PML4[0x100]=%x, PDP[0]=%x" ++ [10] ++ bytes_of " PDE[0]=%x, PTE[0]=%x" ++ [10]) [Num; Num; Num; Num];
    debug_call 391 (bytes_of "Paging test: 0x%x == 0x123456789ABCDEF0??" ++ [10]) [Num];
    debug_call 412 (bytes_of "virt (%x) to page #(%x)" ++ [10]) [Num; Num];
    debug_call 426 (bytes_of "page #(%x) to virt (%x)" ++ [10]) [Num; Num]].

Definition page_alloc_messages : list message := [
    debug_call 100 (bytes_of "alloc_pages(%x~%x) ") [Num; Num];
    debug_call 114 (bytes_of "[%x]private=%d" ++ [10]) [Num; Num];
    debug_call 155 (bytes_of "get_free_pages : %x..OK" ++ [10]) [Num];
    call 199 (bytes_of "free-pages fail. page[%x] is not allocated pages." ++ [10]) [Num];
    call 204 (bytes_of "allocate-order is not same to free-order for page[%d]!!" ++ [10]) [Num];
    debug_call 217 (bytes_of "free_pages(%x~%x)[%x]" ++ [10]) [Num; Num; Num];
    call 233 (bytes_of "free_pages fail <page-counter error> at page[%d]" ++ [10]) [Num]].

Definition percpu_messages : list message := [
    call 83 (bytes_of "per-cpu section: %x ~ %x (%d-bytes)" ++ [10]) [Num; Num; Num];
    call 86 (bytes_of "TEST PER-CPU SECTION: 5 == %d?" ++ [10]) [Num];
    debug_call 96 (bytes_of "order->%d" ++ [10]) [Num];
    debug_call 97 (bytes_of "%d-pages at %x" ++ [10]) [Num; Num];
    debug_call 115 (bytes_of "cpu-offset %d: %x" ++ [10]) [Num; Num];
    debug_call 121 (bytes_of ">>> %x" ++ [10]) [Num];
    debug_call 122 (bytes_of "cpu0 id1 5=%x, %x" ++ [10]) [Num; Num];
    debug_call 123 (bytes_of "cpu0 id2 6=%x, %x" ++ [10]) [Num; Num];
    debug_call 124 (bytes_of "cpu0 id3 7=%x, %x" ++ [10]) [Num; Num];
    debug_call 125 (bytes_of "cpu0 id4 8=%x, %x" ++ [10]) [Num; Num];
    debug_call 126 (bytes_of "cpu0 id5 9=%x, %x" ++ [10]) [Num; Num];
    debug_call 127 (bytes_of "cpu1 id1 5=%x, %x" ++ [10]) [Num; Num];
    debug_call 128 (bytes_of "cpu2 id1 5=%x, %x" ++ [10]) [Num; Num]].

Definition setup_messages : list message := [
    debug_call 101 (bytes_of "%x %x %x %x" ++ [10]) [Num; Num; Num; Num];
    debug_call 102 (bytes_of "%x %x" ++ [10]) [Num; Num];
    call 211 (bytes_of "CPU VENDOR=%s" ++ [10]) [Str 12]].

Definition slab_messages : list message := [
    call 83 (bytes_of "kmem_freepages fail: page order error" ++ [10]) [];
    call 149 ([10] ++ [10] ++ bytes_of "ERROR: Memory management is failed!" ++ [10] ++ [10]) [];
    call 155 (bytes_of "cache_cache created at <%x>" ++ [10]) [Num];
    call 190 (bytes_of "FAIL TO CREATE SLAB, <%s>" ++ [10]) [Str 32];
    call 202 (bytes_of "kmem_cache_create: duplicate cache %s" ++ [10]) [Str 32];
    call 212 (bytes_of "kmem_cache_create: cache_cache table is full" ++ [10]) [];
    debug_call 221 (bytes_of "index=%d  ") [Num];
    debug_call 237 (bytes_of "name:%s size=%d align=%d" ++ [10]) [Str 32; Num; Num];
    debug_call 261 (bytes_of "need:%d order=%d ") [Num; Num];
    debug_call 295 (bytes_of "bufctl_num=%d cache_num=%d off=%d" ++ [10]) [Num; Num; Num];
    debug_call 361 (bytes_of "slabp->0x%x, offset=0x%x, free=%d s_mem=0x%x" ++ [10]) [Num; Num; Num; Num];
    debug_call 386 (bytes_of "slabs=%x" ++ [10]) [Num];
    call 415 (bytes_of "destroy=%x" ++ [10]) [Num];
    call 457 (bytes_of "FAIL TO caos_kmalloc(%d), <no cache>" ++ [10]) [Num];
    call 477 (bytes_of "FAIL TO caos_kmalloc(%d), <kmem_cache_grow fails>" ++ [10]) [Num];
    debug_call 519 (bytes_of "kmalloc: s_mem=0x%x, inuse=%d obj=0x%x" ++ [10]) [Num; Num; Num];
    debug_call 523 (bytes_of "bufctl=") [];
    debug_call 525 (bytes_of "%d ") [Num];
    debug_call 527 ([10]) [];
    debug_call 557 (bytes_of "FREE=%x ") [Num];
    call 566 (bytes_of "caos_free error: page structure error" ++ [10]) [];
    debug_call 572 (bytes_of "slab->%x " ++ [10]) [Num];
    call 578 (bytes_of "caos_free error: broken slab" ++ [10]) [];
    call 583 (bytes_of "caos_free error: free non-allocated object" ++ [10]) [];
    debug_call 597 (bytes_of "slab: objindex=%d inuse=%d, free=%d" ++ [10]) [Num; Num; Num];
    debug_call 601 (bytes_of "bufctl=") [];
    debug_call 603 (bytes_of "%d ") [Num];
    debug_call 605 ([10]) []].

Definition smp_messages : list message := [
    call 84 (bytes_of "AP-WAKENING FAIL!" ++ [10]) [];
    call 98 (bytes_of "preempt-count=> %d" ++ [10]) [Num]].

Definition spinlock_messages : list message := [
    debug_call 40 (bytes_of "PREEMPT=%d" ++ [10]) [Num];
    debug_call 62 (bytes_of "PREEMPT=%d" ++ [10]) [Num]].

Definition kernel_messages : list message :=
  apic_messages ++
  except_handler_messages ++
  gdt_messages ++
  idt_messages ++
  io_apic_messages ++
  irq_handler_messages ++
  keyboard_messages ++
  main_messages ++
  memory_messages ++
  mp_spec_messages ++
  page_messages ++
  page_alloc_messages ++
  percpu_messages ++
  setup_messages ++
  slab_messages ++
  smp_messages ++
  spinlock_messages.

(** ** The messages fit *)

Lemma decimal_length n : - 2 ^ 63 < n < 2 ^ 63 -> (length (decimal n) <= 20)%nat.
Proof.
  intros Hn.
  assert (Hd : forall n, n < 2 ^ 63 -> (length (digits 64 10 n) <= 19)%nat).
  { intros a Ha. apply digits_length; [lia|]. change (10 ^ Z.of_nat 19) with 10000000000000000000. lia. }
  unfold decimal. destruct (_ =? _); [simpl; lia|]. destruct (_ <? _); cbn [length];
    rewrite length_fmap; [specialize (Hd (- n)) | specialize (Hd n)]; lia.
Qed.

Lemma hex_chars_keep b fuel n : 1 < b <= 16 -> no_deletion (hex_char <$> digits fuel b n).
Proof.
  intros Hb. apply Forall_fmap. eapply Forall_impl; [apply (digits_range b fuel); lia|].
  intros d Hd. cbn beta in *. destruct (hex_char_range d ltac:(lia)) as [? _]. simpl. lia.
Qed.

Lemma decimal_keeps n : no_deletion (decimal n).
Proof.
  unfold decimal. destruct (_ =? _); [by repeat constructor|].
  destruct (_ <? _); [apply Forall_cons; split; [done|]|]; apply hex_chars_keep; lia.
Qed.

Lemma hexadecimal_keeps n : no_deletion (hexadecimal n).
Proof. unfold hexadecimal. destruct (_ =? _); [by repeat constructor | apply hex_chars_keep; lia]. Qed.

(** An argument is rendered within the bound of its kind. *)
Lemma widest_renders y k a n : widest y k = Some n -> arg_of k a ->
  exists o, render_arg y a = Some o /\ (length o <= n)%nat /\ no_deletion o.
Proof.
  destruct k as [|c| |k], a as [v|p s]; cbn [widest arg_of]; try done.
  - intros Hw Hv. destruct (y =? 100) eqn:E1; [|destruct (y =? 120) eqn:E2; [|done]]; injection Hw as <-;
      cbn [render_arg]; rewrite E1, ?E2; eexists; (split; [reflexivity|]).
    + split; [by apply decimal_length | apply decimal_keeps].
    + split; [|apply hexadecimal_keeps]. apply hexadecimal_length; [lia|]. apply (wrap_range 64). lia.
  - intros Hw [-> Hv]. cbn [render_arg] in *.
    destruct (y =? 100) eqn:E1; [|destruct (y =? 120) eqn:E2; [|done]]; injection Hw as <-;
      (eexists; split; [reflexivity|]; split; [done|]); [apply decimal_keeps | apply hexadecimal_keeps].
  - intros Hw [Hv H8]. destruct (y =? 99) eqn:E; [|done]. injection Hw as <-. apply Z.eqb_eq in E as ->.
    exists [u8 v]. split; [done|]. split; [done|]. apply Forall_singleton. by rewrite wrap_small.
  - intros Hw [Hl H8]. cbn [render_arg]. destruct (y =? 115); [|done]. injection Hw as <-. by exists s.
Qed.

Lemma bound_renders : forall j f ks args n, (length f <= j)%nat -> bound f ks = Some n ->
  Forall2 arg_of ks args -> no_deletion f ->
  exists out, render f args = Some out /\ (length out <= n)%nat /\ no_deletion out.
Proof.
  induction j as [|j IH]; intros f ks args n Hj Hb Ha Hf.
  { destruct f; [|simpl in Hj; lia]. cbn [bound] in Hb. destruct ks; [|done]. exists []. split; [done|].
    split; [simpl; lia | constructor]. }
  destruct f as [|x [|y f]].
  - cbn [bound] in Hb. destruct ks; [|done]. exists []. split; [done|]. split; [simpl; lia | constructor].
  - cbn [bound] in Hb. destruct ks; [|done]. injection Hb as <-. exists [x].
    split; [done|]. split; [done | exact Hf].
  - cbn [length] in Hj. cbn [bound] in Hb. cbn [render].
    apply Forall_cons in Hf as [Hx Hf].
    destruct ((x =? 37) && is_conv y).
    + destruct Ha as [|k a ks args Hk Ha]; [done|].
      destruct (widest y k) as [o|] eqn:Ew; [|done]. cbn [mbind option_bind] in Hb.
      destruct (bound f ks) as [i|] eqn:Eb; [|done]. injection Hb as <-.
      apply Forall_cons in Hf as [_ Hf].
      destruct (widest_renders y k a o Ew Hk) as (s & -> & Hl & H8).
      destruct (IH f ks args i ltac:(lia) Eb Ha Hf) as (out & -> & Hl' & H8').
      exists (s ++ out). split; [done|]. split; [rewrite length_app; lia | by apply Forall_app].
    + change (S <$> bound (y :: f) ks = Some n) in Hb.
      destruct (bound (y :: f) ks) as [i|] eqn:Eb; [|done]. injection Hb as <-.
      destruct (IH (y :: f) ks args i ltac:(simpl; lia) Eb Ha Hf) as (out & Er & Hl & H8).
      cbn [render] in Er. rewrite Er. exists (x :: out). split; [done|].
      split; [simpl; lia | by apply Forall_cons].
Qed.

Lemma kernel_messages_fit : forallb fits kernel_messages = true.
Proof. vm_compute. reflexivity. Qed.

(** A message of the kernel is rendered, within the buffer. *)
Lemma message_renders m args : m ∈ kernel_messages -> Forall2 arg_of (m_kinds m) args ->
  exists out, render (m_format m) args = Some out /\ (length out < 128)%nat /\ no_deletion out.
Proof.
  intros Hm Ha. pose proof (proj1 (forallb_forall _ _) kernel_messages_fit m (proj1 (list_elem_of_In _ _) Hm)) as Hf.
  unfold fits in Hf. destruct (bound (m_format m) (m_kinds m)) as [n|] eqn:Eb; [|done].
  apply andb_true_iff in Hf as [Hn Hf]. apply Nat.ltb_lt in Hn.
  destruct (bound_renders _ (m_format m) (m_kinds m) args n (le_n _) Eb Ha) as (out & E & Hl & H8).
  { apply Forall_forall. intros c Hc. rewrite forallb_forall in Hf.
    apply list_elem_of_In, Hf, negb_true_iff, Z.eqb_neq in Hc. exact Hc. }
  exists out. split; [done|]. split; [lia | done].
Qed.

(** Text without a deletion can be shown anywhere. *)
Lemma no_deletion_shows cs t : no_deletion cs -> term_ok (outputs (until_nul cs)) t = true.
Proof.
  intros Hcs. revert t. induction Hcs as [|c cs Hc Hcs IH]; intros t; [done|].
  cbn [until_nul]. destruct (c =? 0); [done|]. unfold outputs. rewrite fmap_cons. cbn [term_ok].
  rewrite (proj2 (Z.eqb_neq c 8)) by done. destruct (c =? 10); cbn [andb]; apply IH.
Qed.

(** ** Printing *)

Section Printing.

(** The addresses of the buffer, of the formats of keyboard.c, and of the format of each message. *)
Context (sz fnl fpc : Z) (lit : message -> Z).

(** A call with its arguments. *)
Abbreviation entry := (message * list vararg)%type.

Fixpoint print_all (log : list entry) (c : console) : res console :=
  match log with
  | [] => Ret c
  | (m, args) :: log => c ← k_printf sz (lit m) (raw <$> args) c; print_all log c
  end.

(** The text of a call, to its first NUL. *)
Definition text_of (e : entry) : list Z := until_nul (default [] (render (m_format e.1) e.2)).

(** A string is in memory clear of the buffer. *)
Definition kept (m : bmem) (p : Z) (s : list Z) : Prop := cstr m p s /\ apart sz (sz + 128) p s.

Definition string_kept (m : bmem) (a : vararg) : Prop :=
  match a with VNum _ => True | VStr p s => kept m p s end.

Record entry_ok (mem : bmem) (e : entry) : Prop := {
  eo_message : e.1 ∈ kernel_messages;
  eo_args : Forall2 arg_of (m_kinds e.1) e.2;
  eo_format : kept mem (lit e.1) (m_format e.1);
  eo_strings : Forall (string_kept mem) e.2
}.

Lemma arg_numbers k a : arg_of k a -> match a with VNum n => - 2 ^ 63 < n < 2 ^ 63 | VStr _ _ => True end.
Proof. destruct k, a; simpl; try done; lia. Qed.

Lemma args_ok mem hi ks args : hi <= sz + 128 -> Forall2 arg_of ks args -> Forall (string_kept mem) args ->
  Forall (arg_ok sz hi mem) args.
Proof.
  intros Hhi Ha Hs. induction Ha as [|k a ks args Hk Ha IH]; [done|]. apply Forall_cons in Hs as [H1 H2].
  apply Forall_cons. split; [|by apply IH]. pose proof (arg_numbers k a Hk). destruct a as [n|p s]; [done|].
  destruct H1. split; [done | by eapply apart_weaken].
Qed.

(** One call. *)
Lemma message_prints lo e t c :
  k_shows sz fnl fpc lo t c -> entry_ok (con_mem c) e ->
  exists c', k_printf sz (lit e.1) (raw <$> e.2) c = Ret c' /\ (length (text_of e) < 128)%nat /\
    k_shows sz fnl fpc lo (term_run (outputs (text_of e)) t) c' /\
    forall p s, kept (con_mem c) p s -> kept (con_mem c') p s.
Proof.
  intros Hc [Hm Ha [Hf Hfa] Hs]. destruct (message_renders e.1 e.2 Hm Ha) as (out & Er & Hl & H8).
  destruct (k_printf_shows sz fnl fpc lo (lit e.1) (m_format e.1) e.2 out t c) as (c' & E & Hc' & Hk); try done.
  - eapply args_ok; [lia | done | done].
  - by apply no_deletion_shows.
  - exists c'. unfold text_of. rewrite Er. cbn [default from_option id]. split; [done|].
    split; [|split; [done | intros p s [? ?]; split; [by apply Hk | done]]].
    destruct (until_nul_prefix out) as [ds Hds]. apply (f_equal length) in Hds.
    rewrite !length_app in Hds. simpl in Hds. lia.
Qed.

Lemma entry_kept mem mem' e : (forall p s, kept mem p s -> kept mem' p s) -> entry_ok mem e -> entry_ok mem' e.
Proof.
  intros Hk [H1 H2 H3 H4]. split; try done; [by apply Hk|].
  eapply Forall_impl; [exact H4|]. intros [n|p s]; [done | apply Hk].
Qed.

End Printing.

(** A sequence of messages, which leaves every other string in memory alone. *)
Lemma print_all_spec sz fnl fpc lit lo log t (c : console) :
  k_shows sz fnl fpc lo t c -> Forall (entry_ok sz lit (con_mem c)) log ->
  Forall (fun e => length (text_of e) < 128)%nat log /\
  exists c', print_all sz lit log c = Ret c' /\
    k_shows sz fnl fpc lo (term_run (outputs (concat (text_of <$> log))) t) c' /\
    forall p s, kept sz (con_mem c) p s -> kept sz (con_mem c') p s.
Proof.
  revert t c. induction log as [|e log IH]; intros t c Hc Hlog; [split; [done | by exists c]|].
  apply Forall_cons in Hlog as [He Hlog].
  destruct (message_prints sz fnl fpc lit lo e t c Hc He) as (c1 & E & Hl & Hc1 & Hk).
  destruct (IH _ c1 Hc1) as [Hls (c2 & E2 & Hc2 & Hk2)].
  { eapply Forall_impl; [exact Hlog|]. intros e' He'. by eapply entry_kept. }
  split; [by apply Forall_cons|]. exists c2. destruct e as [m args]. cbn [print_all fst snd] in *.
  step E. split; [exact E2|]. split; [|intros p s Hp; by apply Hk2, Hk].
  rewrite fmap_cons. cbn [concat]. unfold outputs. rewrite fmap_app, term_run_app. exact Hc2.
Qed.

(** ** Properties *)

(** C32: no message overflows the buffer of [caos_printf]. In the whole kernel,
    debugging output included, the format of every call fits its arguments, and
    whatever numbers they are the text has fewer than 128 characters; so any
    sequence of messages is printed, and the screen shows one text after the
    other. *)
Theorem messages_printed sz fnl fpc lit lo log t (c : console) :
  k_shows sz fnl fpc lo t c -> Forall (entry_ok sz lit (con_mem c)) log ->
  Forall (fun e => length (text_of e) < 128)%nat log /\
  exists c', print_all sz lit log c = Ret c' /\
    k_shows sz fnl fpc lo (term_run (outputs (concat (text_of <$> log))) t) c'.
Proof.
  intros Hc Hlog. destruct (print_all_spec sz fnl fpc lit lo log t c Hc Hlog) as [Hl (c' & E & Hc' & _)].
  split; [done|]. by exists c'.
Qed.

(** The first lines of the start-up: the greeting, the test of the formats and
    the zone, whose name is a string. The formats lie 200 bytes apart. *)
Definition message_lit (m : message) : Z := 10000 + 200 * m_line m.

Definition hello : message := call 34 (bytes_of "Hello! I am BSP!!" ++ [10]) [].

Definition format_test : message :=
  call 50 (bytes_of "Hello, CaOS. Test printf <%d,%d,%d,%d,%d,%d,0x%x>" ++ [10])
    [Const 0; Const 1; Const 0xfffffffd; Const (-4); Const 0xfffffffb; Const 6; Const 0xa].

Definition zone_size : message :=
  call 96 (bytes_of "zone[%s] size=%d, mem_map=%x, free=%d" ++ [10]) [Str 32; Num; Num; Num].

Definition sample_log : list (message * list vararg) :=
  [(hello, []);
   (format_test, [VNum 0; VNum 1; VNum 0xfffffffd; VNum (-4); VNum 0xfffffffb; VNum 6; VNum 0xa]);
   (zone_size, [VStr 9000 (bytes_of "NORMAL"); VNum 0x8000000; VNum (-0x7ffffffff000); VNum 32000])].

Definition message_console : console :=
  {| con_mem := foldr (fun p m => write_bytes p.1 (p.2 ++ [0]) m) ∅
       [(4096, replicate 128 0); (100, [10]); (110, [37; 99]); (9000, bytes_of "NORMAL");
        (message_lit hello, m_format hello); (message_lit format_test, m_format format_test);
        (message_lit zone_size, m_format zone_size)];
     con_screen := blank_screen |}.

(** An unsigned or negative [int] does not come as the author of the test
    means it. *)
Lemma format_test_text :
  text_of (format_test, [VNum 0; VNum 1; VNum 0xfffffffd; VNum (-4); VNum 0xfffffffb; VNum 6; VNum 0xa])
  = bytes_of "Hello, CaOS. Test printf <0,1,4294967293,-4,4294967291,6,0xA>" ++ [10].
Proof. vm_compute. reflexivity. Qed.

Lemma message_console_shows : k_shows 4096 100 110 0 (0, blank_paper) message_console.
Proof.
  split; cbn [con_mem con_screen message_console].
  - exact blank_screen_shows.
  - split; [vm_compute; tauto | repeat constructor].
  - split; [vm_compute; tauto | repeat constructor].
  - cbn [foldr fst snd]. intros x Hx. rewrite write_bytes_lookup, length_app, length_replicate, decide_True by (simpl; lia).
    apply lookup_lt_is_Some_2. rewrite length_app, length_replicate. simpl. lia.
  - unfold apart. simpl. lia.
  - unfold apart. simpl. lia.
Qed.

Lemma sample_kept p s : bool_decide (Forall (fun c => 0 < c < 256) s) = true -> 4224 <= p ->
  bytes_at (con_mem message_console) p (s ++ [0]) -> kept 4096 (con_mem message_console) p s.
Proof. intros Hs Hp Hb. split; [split; [done | by apply bool_decide_eq_true_1 in Hs] | right; lia]. Qed.

Lemma messages_printed_witness :
  exists c', print_all 4096 message_lit sample_log message_console = Ret c' /\
    k_shows 4096 100 110 0 (term_run (outputs (
      bytes_of "Hello! I am BSP!!" ++ [10] ++
      bytes_of "Hello, CaOS. Test printf <0,1,4294967293,-4,4294967291,6,0xA>" ++ [10] ++
      bytes_of "zone[NORMAL] size=134217728, mem_map=FFFF800000001000, free=32000" ++ [10])) (0, blank_paper)) c'.
Proof.
  destruct (messages_printed 4096 100 110 message_lit 0 sample_log (0, blank_paper) message_console)
    as [_ (c' & E & Hc)].
  - exact message_console_shows.
  - repeat apply Forall_cons_2; [| | |apply Forall_nil_2]; split; cbn [fst snd];
      lazymatch goal with
      | |- _ ∈ _ => apply (bool_decide_unpack _); vm_compute; exact I
      | |- kept _ _ _ _ => apply sample_kept; [vm_compute; reflexivity | vm_compute; discriminate |
                                               vm_compute; repeat split]
      | |- _ => idtac
      end.
    + apply Forall2_nil_2.
    + apply Forall_nil_2.
    + repeat (apply Forall2_cons_2; [simpl; lia|]). apply Forall2_nil_2.
    + repeat (apply Forall_cons_2; [exact I|]). apply Forall_nil_2.
    + apply Forall2_cons_2; [split; [simpl; lia | by repeat constructor]|].
      repeat (apply Forall2_cons_2; [simpl; lia|]). apply Forall2_nil_2.
    + apply Forall_cons_2; [apply sample_kept; [vm_compute; reflexivity | lia | vm_compute; repeat split]|].
      repeat (apply Forall_cons_2; [exact I|]). apply Forall_nil_2.
  - exists c'. split; [exact E | exact Hc].
Defined.
