(* ===== verification/PerCpu.v ===== *)
(** * Per-processor data (percpu.c, percpu.h, smp.c)

    The copies [setup_per_cpu_areas] makes of the section [.data.percpu] on
    pages of the page allocator, the addresses the macro [per_cpu] computes in
    them, and [smp_init], their only user. *)

From S2P Require Import Prelude BitOps CString BootMem Memory PageAlloc MpSpec.

(** The copies that are made. *)
Definition PERCPU_COPIES : Z := 5.

Record percpu := { cpu_offset : list Z; percpu_buf : Z }.

Definition percpu_order (percpu_size : Z) : Z :=
  PAGE_ORDER (u64 (percpu_size / PAGE_SIZE * NR_CPUS)).

(** One pass of the copying loop. *)
Definition copy_section (start_percpu percpu_size i : Z) (st : bmem * percpu) : res (bmem * percpu) :=
  let '(m, s) := st in
  '(_, m) ← caos_memcpy m (percpu_buf s) start_percpu percpu_size;
  offs ← aset (cpu_offset s) i (u64 (percpu_buf s - start_percpu));
  Ret (m, {| cpu_offset := offs; percpu_buf := u64 (percpu_buf s + percpu_size) |}).

(** The fields of [init_mm] are arguments. The first word of the section is
    read for a message; the page a failed allocation would give is not looked
    at before the copies go there. *)
Definition setup_per_cpu_areas (start_percpu end_percpu : Z) (pages : kpages) (m : bmem) (s : percpu)
    : res (kpages * bmem * percpu) :=
  let percpu_size := u64 (end_percpu - start_percpu) in
  _ ← load_le 8 m start_percpu;
  '(percpu_page, pages) ← alloc_pages 0 (percpu_order percpu_size) pages;
  match percpu_page with
  | None => Fault
  | Some pg =>
      '(m, s) ← for_loop (Z.to_nat PERCPU_COPIES) 0 (copy_section start_percpu percpu_size)
                  (m, {| cpu_offset := cpu_offset s; percpu_buf := page_to_virt pg |});
      Ret (pages, m, s)
  end.

(** The address of [per_cpu(var, cpu)]. *)
Definition per_cpu (var cpu : Z) (s : percpu) : res Z :=
  off ← aget (cpu_offset s) cpu; Ret (u64 (var + off)).

(** The result starts with the new [preempt_count]. *)
Definition smp_init (start_percpu end_percpu : Z) (pages : kpages) (m : bmem) (s : percpu)
    : res (Z * kpages * bmem * percpu) :=
  let preempt_count := 0 in
  '(pages, m, s) ← setup_per_cpu_areas start_percpu end_percpu pages m s;
  Ret (preempt_count, pages, m, s).

(** ** Lemmas *)

(** After [i] copies of [bs] from [base] on. *)
Record copied (m0 : bmem) (base start : Z) (bs : list Z) (i : Z) (m : bmem) (s : percpu) : Prop := {
  cp_buf : percpu_buf s = base + i * Z.of_nat (length bs);
  cp_len : length (cpu_offset s) = 5%nat;
  cp_off : forall j, 0 <= j < i ->
    cpu_offset s !! Z.to_nat j = Some (u64 (base + j * Z.of_nat (length bs) - start));
  cp_bytes : forall j, 0 <= j < i -> bytes_at m (base + j * Z.of_nat (length bs)) bs;
  cp_rest : forall x, ~ (base <= x < base + i * Z.of_nat (length bs)) -> m !! x = m0 !! x
}.

Lemma copy_section_step m0 base start bs i m s :
  bytes_at m0 start bs -> mapped m0 base (5 * Z.of_nat (length bs)) ->
  start + Z.of_nat (length bs) <= base \/ base + 5 * Z.of_nat (length bs) <= start ->
  0 <= base -> base + 5 * Z.of_nat (length bs) < 2 ^ 64 -> 0 <= i < 5 ->
  copied m0 base start bs i m s ->
  exists m' s', copy_section start (Z.of_nat (length bs)) i (m, s) = Ret (m', s') /\
    copied m0 base start bs (i + 1) m' s'.
Proof.
  intros Hb Hm Hd H0 H64 Hi [C1 C2 C3 C4 C5]. unfold copy_section. rewrite C1.
  set (n := Z.of_nat (length bs)) in *. assert (0 <= n) by lia.
  assert (i * n + n <= 5 * n) by nia. assert (0 <= i * n) by nia.
  assert (E : caos_memcpy m (base + i * n) start n = Ret (base + i * n, write_bytes (base + i * n) bs m)).
  { apply caos_memcpy_spec.
    - eapply bytes_at_frame; [done|]. intros x Hx. apply C5. fold n in Hx |- *. lia.
    - fold n. intros x Hx. rewrite C5 by (fold n; lia). apply Hm. lia.
    - fold n. lia. }
  rewrite E. cbn [mbind res_bind]. rewrite aset_lt by lia. cbn [mbind res_bind].
  eexists _, _. split; [done|]. split; cbn [percpu_buf cpu_offset]; fold n.
  - rewrite wrap_small by lia. lia.
  - by rewrite length_insert.
  - intros j Hj. destruct (decide (j = i)) as [->|].
    + by rewrite list_lookup_insert_eq by lia.
    + rewrite list_lookup_insert_ne by lia. apply C3. lia.
  - intros j Hj. destruct (decide (j = i)) as [->|]; [apply bytes_at_written|].
    assert (j * n + n <= i * n) by nia. apply bytes_at_write; [apply C4; lia|]. fold n. lia.
  - intros x Hx. rewrite <- C5 by (fold n; nia).
    rewrite write_bytes_lookup, decide_False; [done|]. fold n. nia.
Qed.

(** The loop as a whole. *)
Lemma copy_sections m base start bs s :
  bytes_at m start bs -> mapped m base (5 * Z.of_nat (length bs)) ->
  start + Z.of_nat (length bs) <= base \/ base + 5 * Z.of_nat (length bs) <= start ->
  0 <= base -> base + 5 * Z.of_nat (length bs) < 2 ^ 64 -> length (cpu_offset s) = 5%nat ->
  exists m' s', for_loop (Z.to_nat PERCPU_COPIES) 0 (copy_section start (Z.of_nat (length bs)))
      (m, {| cpu_offset := cpu_offset s; percpu_buf := base |}) = Ret (m', s') /\
    copied m base start bs 5 m' s'.
Proof.
  intros Hb Hm Hd H0 H64 Hl.
  destruct (for_loop_inv (fun i '(m', s') => copied m base start bs i m' s') (Z.to_nat PERCPU_COPIES) 0
    (copy_section start (Z.of_nat (length bs))) (m, {| cpu_offset := cpu_offset s; percpu_buf := base |}))
    as ([m' s'] & E & Hc).
  - split; cbn [percpu_buf cpu_offset]; [lia | done | lia | lia | done].
  - intros i [m1 s1] Hi Hc. change (Z.of_nat (Z.to_nat PERCPU_COPIES)) with 5 in Hi.
    destruct (copy_section_step m base start bs i m1 s1) as (m2 & s2 & E & Hc2); try done.
    by exists (m2, s2).
  - by exists m', s'.
Qed.

Lemma percpu_pages size : 0 <= size < 2 ^ 62 ->
  percpu_order size = fls64 (size / 4096 * 2) /\ 0 <= size / 4096 * 2 < 2 ^ 63.
Proof.
  intros Hs. unfold percpu_order, PAGE_ORDER, NR_CPUS. rewrite PAGE_SIZE_eq.
  rewrite wrap_small; [split; [done|]|]; Z.to_euclidean_division_equations; lia.
Qed.

Lemma percpu_order_small size : 0 <= size < 4096 -> percpu_order size = 0.
Proof. intros Hs. unfold percpu_order. rewrite PAGE_SIZE_eq, Z.div_small by lia. done. Qed.

(** From a page on, the block has less than 5 pages for each page of the
    section. *)
Lemma percpu_order_pages size :
  4096 <= size < 2 ^ 62 -> 2 ^ percpu_order size <= 4 * (size / 4096).
Proof.
  intros Hs. destruct (percpu_pages size) as [-> Hr]; [lia|].
  assert (1 <= size / 4096) by (Z.to_euclidean_division_equations; lia).
  unfold fls64, __fls, bsr. rewrite (proj2 (Z.eqb_neq _ 0)) by lia.
  pose proof (Z.log2_spec (size / 4096 * 2) ltac:(lia)) as [Hl _].
  rewrite Z.add_1_r, Z.pow_succ_r by apply Z.log2_nonneg. lia.
Qed.

Lemma smp_init_spec start bs pages bl rsv m s pg :
  rep pages bl rsv -> 0 <= percpu_order (Z.of_nat (length bs)) <= MAX_PAGE_ORDER ->
  2 ^ percpu_order (Z.of_nat (length bs)) < free_count (mem_map pages) ->
  first_run (mem_map pages) (2 ^ percpu_order (Z.of_nat (length bs))) pg ->
  (8 <= length bs)%nat -> 0 <= start -> start + Z.of_nat (length bs) < 2 ^ 64 -> bytes_at m start bs ->
  mapped m (page_to_virt pg) (5 * Z.of_nat (length bs)) ->
  page_to_virt pg + 5 * Z.of_nat (length bs) < 2 ^ 64 ->
  start + Z.of_nat (length bs) <= page_to_virt pg \/
    page_to_virt pg + 5 * Z.of_nat (length bs) <= start ->
  length (cpu_offset s) = 5%nat ->
  exists m' s', smp_init start (start + Z.of_nat (length bs)) pages m s
      = Ret (0, PageAlloc.allocated 0 (percpu_order (Z.of_nat (length bs))) pg pages, m', s') /\
    (forall i cpu b, bs !! i = Some b -> 0 <= cpu < 5 ->
       exists a, per_cpu (start + Z.of_nat i) cpu s' = Ret a /\
         a = page_to_virt pg + cpu * Z.of_nat (length bs) + Z.of_nat i /\ m' !! a = Some b) /\
    (forall x, ~ (page_to_virt pg <= x < page_to_virt pg + 5 * Z.of_nat (length bs)) -> m' !! x = m !! x).
Proof.
  intros Hr Ho Hf Hrun H8 H0 H64 Hb Hm Hm64 Hd Hl. unfold smp_init, setup_per_cpu_areas.
  replace (start + Z.of_nat (length bs) - start) with (Z.of_nat (length bs)) by lia.
  rewrite (wrap_small 64) by lia.
  destruct (load_le_mapped 8 m start) as [v ->].
  { eapply mapped_weaken; [by apply bytes_at_mapped | lia..]. }
  cbn [mbind res_bind]. rewrite alloc_pages_eq, (alloc_run_spec _ _ _ bl rsv pg) by done.
  cbn [mbind res_bind].
  assert (Hp0 : 0 <= page_to_virt pg) by (unfold page_to_virt, __va; apply wrap_range; lia).
  destruct (copy_sections m (page_to_virt pg) start bs s) as (m' & s' & -> & [_ Hl' Hoff Hby Hrest]);
    try done. cbn [mbind res_bind].
  exists m', s'. split; [done|]. split; [|done]. intros i cpu b Hi Hc. pose proof (lookup_lt_Some _ _ _ Hi) as Hlt.
  unfold per_cpu. rewrite (proj2 (aget_Ret _ cpu _)) by (split; [lia | by apply Hoff]).
  cbn [mbind res_bind]. eexists. split; [done|]. rewrite wrap_add_r.
  replace (start + Z.of_nat i + (page_to_virt pg + cpu * Z.of_nat (length bs) - start))
    with (page_to_virt pg + cpu * Z.of_nat (length bs) + Z.of_nat i) by lia.
  rewrite wrap_small by nia. split; [done|]. eapply bytes_at_lookup; [by apply Hby | done].
Qed.

(** ** Properties *)

(** C25: the per-processor copies. When the page allocator has the pages and the
    area of five sections from there on can be written and does not meet the
    section, [smp_init] resets [preempt_count] and leaves in every copy the
    bytes of the section: [per_cpu] of a byte of the section is, for each of
    the five processors, the same byte in a copy of its own, holding the
    section's initial value. Nothing else of the memory changes. *)
Theorem percpu_copies start bs pages bl rsv m s pg :
  rep pages bl rsv -> 0 <= percpu_order (Z.of_nat (length bs)) <= MAX_PAGE_ORDER ->
  2 ^ percpu_order (Z.of_nat (length bs)) < free_count (mem_map pages) ->
  first_run (mem_map pages) (2 ^ percpu_order (Z.of_nat (length bs))) pg ->
  (8 <= length bs)%nat -> 0 <= start -> start + Z.of_nat (length bs) < 2 ^ 64 -> bytes_at m start bs ->
  mapped m (page_to_virt pg) (5 * Z.of_nat (length bs)) ->
  page_to_virt pg + 5 * Z.of_nat (length bs) < 2 ^ 64 ->
  start + Z.of_nat (length bs) <= page_to_virt pg \/
    page_to_virt pg + 5 * Z.of_nat (length bs) <= start ->
  length (cpu_offset s) = 5%nat ->
  exists pages' m' s', smp_init start (start + Z.of_nat (length bs)) pages m s = Ret (0, pages', m', s') /\
    rep pages' (<[pg := percpu_order (Z.of_nat (length bs))]> bl) rsv /\
    (forall i cpu b, bs !! i = Some b -> 0 <= cpu < 5 ->
       exists a, per_cpu (start + Z.of_nat i) cpu s' = Ret a /\
         a = page_to_virt pg + cpu * Z.of_nat (length bs) + Z.of_nat i /\ m' !! a = Some b) /\
    (forall x, ~ (page_to_virt pg <= x < page_to_virt pg + 5 * Z.of_nat (length bs)) -> m' !! x = m !! x).
Proof.
  intros Hr Ho Hf Hrun H8 H0 H64 Hb Hm Hm64 Hd Hl.
  destruct (smp_init_spec start bs pages bl rsv m s pg) as (m' & s' & E & Hrest); try done.
  eexists _, m', s'. split; [done|]. split; [apply alloc_rep; [done.. | apply Hrun] | done].
Qed.

(** The copies fit in the block asked for exactly when the section has at
    most 819 bytes: smaller sections than a page get one page, and larger ones
    fewer than five pages for each of theirs, since the request is for
    [NR_CPUS] copies of the whole pages of the section and five are made. *)
Theorem percpu_area_fits size :
  0 <= size < 2 ^ 62 -> (PERCPU_COPIES * size <= 4096 * 2 ^ percpu_order size <-> size <= 819).
Proof.
  intros Hs. unfold PERCPU_COPIES. destruct (decide (size < 4096)).
  - rewrite percpu_order_small by lia. lia.
  - pose proof (percpu_order_pages size ltac:(lia)).
    assert (4096 * (size / 4096) <= size) by (apply Z.mul_div_le; lia). lia.
Qed.

(** The section of percpu.c: five variables of type [long]. *)
Definition percpu_section : list Z := concat (bytes_le 8 <$> [5; 6; 7; 8; 9]).
Definition section_start : Z := PAGE_OFFSET + 0x150000.

Definition percpu_memory : bmem :=
  write_bytes section_start percpu_section (write_bytes (page_to_virt 1) (replicate 4096 0) ∅).

(** The copy of [cpu_id3] that the second processor has. *)
Lemma percpu_copies_witness :
  exists pages' m' s', smp_init section_start (section_start + 40) sample_pages percpu_memory
      {| cpu_offset := replicate 5 0; percpu_buf := 0 |} = Ret (0, pages', m', s') /\
    per_cpu (section_start + 16) 1 s' = Ret (page_to_virt 1 + 40 + 16) /\
    m' !! (page_to_virt 1 + 40 + 16) = Some 7.
Proof.
  destruct (percpu_copies section_start percpu_section sample_pages ∅ sample_busy percpu_memory
    {| cpu_offset := replicate 5 0; percpu_buf := 0 |} 1) as (pages' & m' & s' & E & _ & Hp & _).
  - exact sample_pages_rep.
  - vm_compute. split; discriminate.
  - vm_compute. reflexivity.
  - split; [apply (bool_decide_unpack _); vm_compute; done|]. intros s Hs.
    assert (Hno : ~ free_run (mem_map sample_pages) 1 0) by (apply (bool_decide_unpack _); vm_compute; done).
    change (2 ^ _) with 1 in Hs. destruct (decide (s = 0)) as [->|]; [done|]. destruct Hs as [? _]. lia.
  - apply Nat.leb_le. reflexivity.
  - vm_compute. discriminate.
  - reflexivity.
  - apply bytes_at_written.
  - apply write_bytes_mapped. intros x Hx. rewrite write_bytes_lookup, length_replicate.
    change (5 * Z.of_nat (length percpu_section)) with 200 in Hx. rewrite decide_True by lia.
    apply lookup_lt_is_Some_2. rewrite length_replicate. lia.
  - reflexivity.
  - right. vm_compute. discriminate.
  - reflexivity.
  - destruct (Hp 16%nat 1 7) as (a & Ha & -> & Hm); [reflexivity | lia |].
    exists pages', m', s'. exact (conj E (conj Ha Hm)).
Defined.

(** The section of percpu.c fits; one of 820 bytes does not. *)
Lemma percpu_area_fits_witness :
  PERCPU_COPIES * 40 <= 4096 * 2 ^ percpu_order 40 /\
  ~ PERCPU_COPIES * 820 <= 4096 * 2 ^ percpu_order 820.
Proof.
  split.
  - apply (percpu_area_fits 40); lia.
  - intros Hf. assert (820 <= 819) by (apply (percpu_area_fits 820); [lia | exact Hf]). lia.
Defined.
