(* ===== verification/Setup.v ===== *)
(** * The processor-dependent start-up (setup.c, setup.h, sched.h, msr.h)

    [setup_arch] reads the parameters of the boot loader, identifies the
    processor and runs the initialisation of the boot-time allocator, the
    descriptor tables, the page tables, the multiprocessor tables and the page
    descriptors in its order, each from the file that models it. What the boot
    loader and the firmware leave in memory is a [boot_env]. Every component
    has its own view of the memory; the areas they take from the boot-time
    allocator do not overlap, which [bootmem_areas_disjoint] shows. *)

From Stdlib Require Import String.
From S2P Require Import Prelude CList CString BootMem Memory Paging MpSpec PageWalk Descriptors.

#[local] Open Scope list_scope.

(** ** Data *)

Record mm_struct := {
  start_code : Z; end_code : Z;
  start_data : Z; end_data : Z;
  start_bss : Z; end_bss : Z;
  start_brk : Z; brk : Z; start_stack : Z;
  start_heap : Z; end_heap : Z;
  start_percpu : Z; end_percpu : Z;
  start_reserved : Z; end_reserved : Z
}.

Definition PARAMS_OFFSET_START_CODE : Z := 0.
Definition PARAMS_OFFSET_END_CODE : Z := 1.
Definition PARAMS_OFFSET_START_DATA : Z := 2.
Definition PARAMS_OFFSET_END_DATA : Z := 3.
Definition PARAMS_OFFSET_START_BSS : Z := 4.
Definition PARAMS_OFFSET_END_BSS : Z := 5.
Definition PARAMS_OFFSET_END_KERNEL : Z := 6.
Definition PARAMS_OFFSET_PHYMEM_SIZE : Z := 7.
Definition PARAMS_OFFSET_BOOT_GDT : Z := 8.
Definition PARAMS_OFFSET_BOOT_SIZE : Z := 9.
Definition PARAMS_OFFSET_START_VIDEO : Z := 10.
Definition PARAMS_OFFSET_END_VIDEO : Z := 11.
Definition PARAMS_OFFSET_START_PERCPU : Z := 12.
Definition PARAMS_OFFSET_END_PERCPU : Z := 13.

(** io.h. *)
Definition phys_to_virt (address : Z) : Z := __va address.

Definition X86_VENDOR_UNKNOWN : Z := 0xff.
Definition X86_VENDOR_INTEL : Z := 0.
Definition X86_VENDOR_AMD : Z := 1.

Record cpuinfo_x86 := {
  x86_vendor : Z;
  cpuid_level : Z;
  x86_vendor_id : list Z;
  x86_cache_size : Z;
  x86_cache_alignment : Z;
  x86_tlbsize : Z;
  x86_virt_bits : Z;
  x86_phys_bits : Z;
  x86_max_cores : Z;
  apicid : Z;
  booted_cores : Z;
  phys_proc_id : Z;
  cpu_core_id : Z
}.

(** ** The vendor of the processor *)

(** The instruction, as a function of the operation: EAX, EBX, ECX, EDX. *)
Definition cpuid_function : Type := Z -> Z * Z * Z * Z.

(** [*(unsigned int * )&s[k] = v;] *)
Definition store_word (s : list Z) (k v : Z) : res (list Z) :=
  for_loop 4 0 (fun j s => aset s (k + j) (u8 (Z.shiftr v (8 * j)))) s.

(** [s[k] == c]: the elements are of type [char]. *)
Definition char_is (s : list Z) (k c : Z) : res bool := x ← aget s k; Ret (s8 x =? c).

(** [s[k] == cs[0] && s[k + 1] == cs[1] && ...] *)
Fixpoint chars_are (s : list Z) (k : Z) (cs : list Z) : res bool :=
  match cs with
  | [] => Ret true
  | c :: cs => b ← char_is s k c; if (b : bool) then chars_are s (k + 1) cs else Ret false
  end.

Definition with_vendor (v : Z) (cpu : cpuinfo_x86) : cpuinfo_x86 :=
  {| x86_vendor := v; cpuid_level := cpuid_level cpu; x86_vendor_id := x86_vendor_id cpu;
     x86_cache_size := x86_cache_size cpu; x86_cache_alignment := x86_cache_alignment cpu;
     x86_tlbsize := x86_tlbsize cpu; x86_virt_bits := x86_virt_bits cpu;
     x86_phys_bits := x86_phys_bits cpu; x86_max_cores := x86_max_cores cpu; apicid := apicid cpu;
     booted_cores := booted_cores cpu; phys_proc_id := phys_proc_id cpu; cpu_core_id := cpu_core_id cpu |}.

Definition early_identify_cpu (cpuid : cpuid_function) (cpu : cpuinfo_x86) : res cpuinfo_x86 :=
  id ← aset (x86_vendor_id cpu) 0 0;
  let '(eax, ebx, ecx, edx) := cpuid 0 in
  id ← store_word id 0 ebx;
  id ← store_word id 8 ecx;
  id ← store_word id 4 edx;
  let cpu :=
    {| x86_vendor := X86_VENDOR_UNKNOWN; cpuid_level := s32 eax; x86_vendor_id := id;
       x86_cache_size := -1; x86_cache_alignment := 64; x86_tlbsize := x86_tlbsize cpu;
       x86_virt_bits := x86_virt_bits cpu; x86_phys_bits := x86_phys_bits cpu; x86_max_cores := 4;
       apicid := apicid cpu; booted_cores := booted_cores cpu; phys_proc_id := phys_proc_id cpu;
       cpu_core_id := cpu_core_id cpu |} in
  amd ← chars_are id 9 (bytes_of "AMD");
  if (amd : bool) then Ret (with_vendor X86_VENDOR_AMD cpu)
  else
    intel ← chars_are id 7 (bytes_of "Intel");
    if (intel : bool) then Ret (with_vendor X86_VENDOR_INTEL cpu) else Ret cpu.

(** ** [setup_arch] *)

(** What setup_arch finds: the words at [BOOT_PARAMS], the instruction cpuid,
    the linker's [KERNEL_STACK_START], the boot loader's descriptors at
    [boot_gdt], what the page of the new ones holds, the addresses of the entry
    stubs, the memory of the page tables, the bytes of memory with the places
    of the literals and the stack buffer mp_spec.c uses, and what the memory of
    the page descriptors and their list heads holds. *)
Record boot_env := {
  BOOT_PARAMS : list Z;
  cpuid : cpuid_function;
  KERNEL_STACK_START : Z;
  boot_descriptors : list Z;
  gdt_page : list gdt_desc;
  except_stubs : except_entries;
  table_memory : ptmem;
  memory : bmem;
  mp_literals : Z * Z * Z * Z;
  map_area : list page;
  map_heads : list_heap
}.

(** The state [setup_arch] builds; [gdt_table] to [tr] and [idt] are the new
    descriptor tables and the registers that name them. *)
Record arch := {
  phy_mem_size : Z;
  boot_gdt : Z;
  init_mm : mm_struct;
  boot_cpu_data : cpuinfo_x86;
  gdt_table : list gdt_desc;
  segs : seg_regs;
  tr : Z;
  tss : Z;
  idt : list idt_desc;
  idtr : desc_ptr;
  tables : ptmem;
  mp : mp_state;
  mem_map_at : Z;
  map_table : list page;
  table_heads : list_heap;
  bootmem_left : bootmem
}.

(** The fields of [init_mm] that are set. *)
Definition read_mm (env : boot_env) (mm : mm_struct) : res mm_struct :=
  let param := aget (BOOT_PARAMS env) in
  start_video ← param PARAMS_OFFSET_START_VIDEO;
  end_video ← param PARAMS_OFFSET_END_VIDEO;
  start_code ← param PARAMS_OFFSET_START_CODE;
  end_code ← param PARAMS_OFFSET_END_CODE;
  start_data ← param PARAMS_OFFSET_START_DATA;
  end_data ← param PARAMS_OFFSET_END_DATA;
  start_bss ← param PARAMS_OFFSET_START_BSS;
  end_bss ← param PARAMS_OFFSET_END_BSS;
  end_kernel ← param PARAMS_OFFSET_END_KERNEL;
  start_percpu ← param PARAMS_OFFSET_START_PERCPU;
  end_percpu ← param PARAMS_OFFSET_END_PERCPU;
  boot_size ← param PARAMS_OFFSET_BOOT_SIZE;
  Ret {| start_code := start_code; end_code := end_code; start_data := start_data;
         end_data := end_data; start_bss := start_bss; end_bss := end_bss;
         start_brk := end_kernel; brk := brk mm; start_stack := KERNEL_STACK_START env;
         start_heap := KERNEL_STACK_START env; end_heap := phys_to_virt (u64 (boot_size * 0x100000));
         start_percpu := start_percpu; end_percpu := end_percpu;
         start_reserved := start_video; end_reserved := end_video |}.

Definition read_mp (env : boot_env) (mp0 : mp_state) : res mp_state :=
  let '(str, isa, pci, pcmp) := mp_literals env in
  mp_spec_init str isa pci pcmp (memory env) mp0.

(** The globals hold [mm0], [cpu0] and [mp0] before, and [p] is the processor. *)
Definition setup_arch {P} `{Processor P} (env : boot_env) (mm0 : mm_struct) (cpu0 : cpuinfo_x86)
    (mp0 : mp_state) (p : P) : res (arch * P) :=
  phy_mem_size ← aget (BOOT_PARAMS env) PARAMS_OFFSET_PHYMEM_SIZE;
  boot_gdt ← aget (BOOT_PARAMS env) PARAMS_OFFSET_BOOT_GDT;
  mm ← read_mm env mm0;
  cpu ← early_identify_cpu (cpuid env) cpu0;
  let b := bootmem_init (start_heap mm) (end_heap mm) in
  '(gdt, segs, tr, tss, b) ← gdt_init (boot_descriptors env) (gdt_page env) b;
  '(idt, idtr, b) ← idt_init (except_stubs env) b;
  '(cr3_val, tables, b) ← paging_init phy_mem_size (table_memory env) b;
  let p := load_tables cr3_val p in
  mp ← read_mp env mp0;
  '(mem_map, map, heads, b) ← mem_map_init phy_mem_size (map_area env) (map_heads env) b;
  Ret ({| phy_mem_size := phy_mem_size; boot_gdt := boot_gdt; init_mm := mm; boot_cpu_data := cpu;
          gdt_table := gdt; segs := segs; tr := tr; tss := tss; idt := idt; idtr := idtr;
          tables := tables; mp := mp; mem_map_at := mem_map; map_table := map; table_heads := heads;
          bootmem_left := b |}, p).

(** ** Lemmas *)

Lemma byte_shift v j : 0 <= j -> u8 (Z.shiftr v (8 * j)) = v / 256 ^ j mod 256.
Proof.
  intros Hj. rewrite Z.shiftr_div_pow2, Z.pow_mul_r by lia. done.
Qed.

Lemma bytes_le_4 v : bytes_le 4 v = (fun j => u8 (Z.shiftr v (8 * j))) <$> [0; 1; 2; 3].
Proof.
  cbn [bytes_le fmap list_fmap]. rewrite !byte_shift by lia.
  rewrite !Z.div_div by lia. by rewrite Z.pow_0_r, Z.div_1_r.
Qed.

Lemma bytes_le_range n v : Forall (fun b => 0 <= b < 256) (bytes_le n v).
Proof.
  revert v. induction n as [|n IH]; intros v; [done|]. cbn [bytes_le].
  apply Forall_cons_2; [apply Z.mod_pos_bound; lia | apply IH].
Qed.

Lemma char_test x c : 0 <= x < 256 -> 0 <= c < 128 -> (s8 x =? c) = (x =? c).
Proof.
  intros Hx Hc. assert (Hs : s8 x = if x <? 128 then x else x - 256).
  { unfold sext. cbv zeta. rewrite (wrap_small 8 x) by lia. done. }
  rewrite Hs. destruct (Z.ltb_spec x 128); [done|].
  rewrite !(proj2 (Z.eqb_neq _ _)) by lia. done.
Qed.

Lemma chars_are_spec cs : forall s (k : nat),
  (k + length cs <= length s)%nat -> Forall (fun b => 0 <= b < 256) s -> Forall (fun c => 0 <= c < 128) cs ->
  chars_are s (Z.of_nat k) cs = Ret (bool_decide (take (length cs) (drop k s) = cs)).
Proof.
  induction cs as [|c cs IH]; intros s k Hl Hs Hc; cbn [chars_are length] in *.
  { by rewrite bool_decide_true by done. }
  apply Forall_cons in Hc as [Hc Hcs]. unfold char_is.
  destruct (lookup_lt_is_Some_2 s k) as [x Hx]; [lia|].
  rewrite (proj2 (aget_Ret s _ x)) by (rewrite Nat2Z.id; split; [lia | done]). cbn [mbind res_bind].
  pose proof (proj1 (Forall_lookup _ _) Hs k x Hx) as Hr. cbv beta in Hr.
  rewrite char_test by done. replace (Z.of_nat k + 1) with (Z.of_nat (S k)) by lia.
  rewrite (drop_S s x k) by done. cbn [take]. destruct (Z.eqb_spec x c) as [->|Hne].
  - rewrite IH by (done || lia). f_equal. apply bool_decide_ext. split; congruence.
  - rewrite bool_decide_false by congruence. done.
Qed.

Lemma store_vendor (id : list Z) ebx ecx edx :
  length id = 16%nat ->
  (id ← aset id 0 0; id ← store_word id 0 ebx; id ← store_word id 8 ecx; store_word id 4 edx)
  = Ret (bytes_le 4 ebx ++ bytes_le 4 edx ++ bytes_le 4 ecx ++ drop 12 id).
Proof.
  intros Hl. rewrite !bytes_le_4. do 16 (destruct id as [|? id]; [done|]). destruct id; [|done].
  reflexivity.
Qed.

(** ** The composition *)

(** A machine with [m] megabytes whose heap is between the pages [s] and
    [256 * e], and whose boot loader left [k - 1] descriptors. *)
Record boot_ok (env : boot_env) (cpu0 : cpuinfo_x86) (m s e k : Z) : Prop := {
  bo_params : length (BOOT_PARAMS env) = 14%nat;
  bo_size : BOOT_PARAMS env !! 7%nat = Some m;
  bo_end : BOOT_PARAMS env !! 9%nat = Some e;
  bo_stack : KERNEL_STACK_START env = PAGE_OFFSET + 4096 * s;
  bo_m : 2 <= m <= 1024 /\ m mod 2 = 0;
  bo_s : 0x200 <= s;
  bo_e : 0 < e < 2 ^ 27;
  bo_heap : s + 17 + m / 2 + mem_map_page m < 256 * e - 1;
  bo_memory : s + 17 + m / 2 + mem_map_page m <= 256 * m;
  bo_page : length (gdt_page env) = 512%nat;
  bo_k : 1 <= k <= 5 /\ Z.of_nat (length (boot_descriptors env)) <= 2 ^ 32;
  bo_zero : boot_descriptors env !! Z.to_nat k = Some 0;
  bo_descriptors : forall j, 1 <= j < k -> exists d, boot_descriptors env !! Z.to_nat j = Some d /\ d <> 0;
  bo_area : Z.of_nat (length (map_area env)) = 256 * m;
  bo_vendor : length (x86_vendor_id cpu0) = 16%nat
}.

(** The first page of the page tables, and the last page taken. *)
Definition last_boot_page (m s : Z) : Z := s + 17 + m / 2 + mem_map_page m.

(** What [setup_arch] leaves, apart from the tables of mp_spec.c. *)
Record arch_ok (env : boot_env) (m s : Z) (a : arch) : Prop := {
  ao_size : phy_mem_size a = m;
  ao_percpu : BOOT_PARAMS env !! 12%nat = Some (start_percpu (init_mm a)) /\
              BOOT_PARAMS env !! 13%nat = Some (end_percpu (init_mm a));
  ao_segs : segs a = load_segments {| size := 4096; address := PAGE_OFFSET + 4096 * s |};
  ao_tss : tr a = 8 * 5 /\ tss a = PAGE_OFFSET + 4096 * (s + 1);
  ao_idtr : idtr a = {| size := 4096; address := PAGE_OFFSET + 4096 * (s + 2) |};
  ao_idt : length (idt a) = 256%nat /\
    forall v, 0 <= v < 256 -> idt a !! Z.to_nat v = Some (vector_gate (except_stubs env) v);
  ao_tables : kernel_tables (tables a) (s + 3) m;
  ao_map : mem_map_at a = PAGE_OFFSET + 4096 * (s + 17 + m / 2);
  ao_length : Z.of_nat (length (map_table a)) = 256 * m;
  ao_heads : heads_ready (mem_map_at a) (256 * m) (table_heads a);
  ao_pages : forall i, 0 <= i < 256 * m -> exists p, map_table a !! Z.to_nat i = Some p /\
    fresh_page (bool_decide (boot_busy s (last_boot_page m s) i)) i p
}.

Lemma early_identify_returns cpuid cpu :
  length (x86_vendor_id cpu) = 16%nat -> exists cpu', early_identify_cpu cpuid cpu = Ret cpu'.
Proof.
  intros Hl. unfold early_identify_cpu. destruct (cpuid 0) as [[[eax ebx] ecx] edx].
  pose proof (store_vendor (x86_vendor_id cpu) ebx ecx edx Hl) as Hs.
  inv_bind Hs. inv_bind Hs. inv_bind Hs. rewrite E. cbn [mbind res_bind].
  rewrite E0. cbn [mbind res_bind]. rewrite E1. cbn [mbind res_bind]. rewrite Hs. cbn [mbind res_bind].
  set (id := bytes_le 4 ebx ++ _).
  assert (Hid : length id = 16%nat).
  { unfold id. rewrite !length_app, !bytes_le_length, length_drop. lia. }
  assert (Hc : forall cs k, 0 <= k -> k + Z.of_nat (length cs) <= 16 -> exists b, chars_are id k cs = Ret b).
  { clear -Hid. induction cs as [|c cs IH]; intros k Hk Hr; cbn [chars_are length] in *; [by eexists|].
    unfold char_is. destruct (aget_lt id k) as [x ->]; [lia|]. cbn [mbind res_bind].
    destruct (s8 x =? c); [apply IH; lia | by eexists]. }
  destruct (Hc (bytes_of "AMD") 9) as [b1 ->]; [lia | simpl; lia |]. cbn [mbind res_bind].
  destruct (Hc (bytes_of "Intel") 7) as [b2 Hb2]; [lia | simpl; lia |].
  destruct b1; [by eexists|]. rewrite Hb2. cbn [mbind res_bind]. destruct b2; by eexists.
Qed.

Lemma read_mm_spec env mm0 e :
  length (BOOT_PARAMS env) = 14%nat -> BOOT_PARAMS env !! 9%nat = Some e -> 0 < e < 2 ^ 27 ->
  exists mm, read_mm env mm0 = Ret mm /\ start_heap mm = KERNEL_STACK_START env /\
    end_heap mm = PAGE_OFFSET + 4096 * (256 * e) /\
    BOOT_PARAMS env !! 12%nat = Some (start_percpu mm) /\ BOOT_PARAMS env !! 13%nat = Some (end_percpu mm).
Proof.
  intros Hl H9 He. unfold read_mm. cbv zeta. destruct (BOOT_PARAMS env) as [|p0 [|p1 [|p2 [|p3 [|p4 [|p5
    [|p6 [|p7 [|p8 [|p9 [|p10 [|p11 [|p12 [|p13 [|? ?]]]]]]]]]]]]]]]; try done.
  injection H9 as ->. eexists. split; [reflexivity|]. cbn. split_and!; try done.
  unfold phys_to_virt, __va, PAGE_OFFSET. rewrite (wrap_small 64 (e * 0x100000)) by lia.
  rewrite wrap_small by lia. lia.
Qed.

Lemma setup_arch_spec {P} `{Processor P} env mm0 cpu0 mp0 (p : P) m s e k :
  boot_ok env cpu0 m s e k ->
  (forall mp', read_mp env mp0 = Ret mp' ->
     exists a, setup_arch env mm0 cpu0 mp0 p = Ret (a, load_tables (4096 * (s + 3)) p) /\
       arch_ok env m s a /\ mp a = mp') /\
  (read_mp env mp0 = Halted -> setup_arch env mm0 cpu0 mp0 p = Halted).
Proof.
  intros [Hl H7 H9 Hst [Hm He] Hs Hend Hheap Hmem Hpage [Hk Hlb] Hz Hd Ha Hv].
  destruct (mem_map_page_eq m) as (_ & Hmp & _); [lia|].
  assert (Hd2 : 0 <= m / 2 <= 512) by (Z.to_euclidean_division_equations; lia).
  unfold setup_arch. rewrite (proj2 (aget_Ret (BOOT_PARAMS env) PARAMS_OFFSET_PHYMEM_SIZE m)) by (split; [done | exact H7]).
  cbn [mbind res_bind]. destruct (aget_lt (BOOT_PARAMS env) PARAMS_OFFSET_BOOT_GDT) as [g ->];
    [unfold PARAMS_OFFSET_BOOT_GDT; lia|]. cbn [mbind res_bind].
  destruct (read_mm_spec env mm0 e Hl H9 Hend) as (mm & -> & Hsh & Heh & Hp12 & Hp13). cbn [mbind res_bind].
  destruct (early_identify_returns (cpuid env) cpu0 Hv) as [cpu ->]. cbn [mbind res_bind].
  rewrite Hsh, Heh, Hst, bootmem_init_eq by lia.
  set (b0 := {| bootmem_page_index := s; bootmem_page_start := s; bootmem_page_max := 256 * e - 1 |}).
  assert (Hb0 : bm_ok b0) by (split; simpl; lia).
  destruct (gdt_init_spec (boot_descriptors env) (gdt_page env) b0 k) as (gt & tr & tss & -> & _ & -> & -> & _);
    [done | simpl; lia | done.. |]. cbn [mbind res_bind].
  destruct (idt_init_spec (except_stubs env) (taken 2 b0)) as (it & -> & Hlit & Hit);
    [apply taken_ok; [done | lia] | simpl; lia |]. cbn [mbind res_bind]. rewrite taken_taken.
  destruct (paging_init_tables m (table_memory env) (taken (2 + 1) b0)) as (pt & -> & Hkt);
    [apply taken_ok; [done | lia] | lia | done | simpl; lia |]. cbn [mbind res_bind bootmem_page_index taken] in *.
  cbn [b0 bootmem_page_index bootmem_page_start bootmem_page_max] in *.
  replace (s + (2 + 1)) with (s + 3) in * by lia.
  split; [|by intros ->]. intros mp' ->. cbn [mbind res_bind].
  set (b3 := {| bootmem_page_index := s + 3 + 14 + m / 2 |}).
  destruct (mem_map_init_spec m (map_area env) (map_heads env) b3) as (mmap & hs & -> & Hlm & Hr & Hpg);
    [split; simpl; lia | lia | lia | simpl; lia | simpl; lia |]. cbn [mbind res_bind].
  eexists. split; [reflexivity|]. split; [|reflexivity].
  cbn [b3 bootmem_page_index bootmem_page_start] in *.
  split; cbn [phy_mem_size init_mm segs tr tss idtr idt tables mem_map_at map_table table_heads]; try done.
  - f_equal. lia.
  - lia.
  - intros i Hi. destruct (Hpg i Hi) as (q & Hq & Hf). exists q. split; [done|].
    unfold last_boot_page. by replace (s + 17 + m / 2 + mem_map_page m) with (s + 3 + 14 + m / 2 + mem_map_page m) by lia.
Qed.

(** ** Properties *)

(** The vendor is identified. From the words cpuid returns, the vendor's
    name is stored in its order EBX, EDX, ECX; the vendor is AMD when the name
    ends in "AMD", Intel when it ends in "Intel" and unknown otherwise, although
    only the last characters are compared and as signed ones. *)
Theorem vendor_identified cpuid cpu eax ebx ecx edx :
  length (x86_vendor_id cpu) = 16%nat -> Forall (fun b => 0 <= b < 256) (x86_vendor_id cpu) ->
  cpuid 0 = (eax, ebx, ecx, edx) ->
  let name := bytes_le 4 ebx ++ bytes_le 4 edx ++ bytes_le 4 ecx in
  exists cpu', early_identify_cpu cpuid cpu = Ret cpu' /\
    x86_vendor_id cpu' = name ++ drop 12 (x86_vendor_id cpu) /\ cpuid_level cpu' = s32 eax /\
    x86_vendor cpu' = if decide (drop 9 name = bytes_of "AMD") then X86_VENDOR_AMD
                      else if decide (drop 7 name = bytes_of "Intel") then X86_VENDOR_INTEL
                      else X86_VENDOR_UNKNOWN.
Proof.
  intros Hl Hr Hc name. unfold early_identify_cpu. rewrite Hc.
  pose proof (store_vendor (x86_vendor_id cpu) ebx ecx edx Hl) as Hs.
  inv_bind Hs. inv_bind Hs. inv_bind Hs. rewrite E. cbn [mbind res_bind].
  rewrite E0. cbn [mbind res_bind]. rewrite E1. cbn [mbind res_bind]. rewrite Hs. cbn [mbind res_bind].
  rewrite !app_assoc. rewrite <- (app_assoc (bytes_le 4 ebx)). fold name.
  assert (Hln : length name = 12%nat) by (unfold name; rewrite !length_app, !bytes_le_length; done).
  assert (Hf : Forall (fun b => 0 <= b < 256) (name ++ drop 12 (x86_vendor_id cpu))).
  { unfold name. rewrite !Forall_app. split_and!; try apply bytes_le_range. by apply Forall_drop. }
  change 9 with (Z.of_nat 9). change 7 with (Z.of_nat 7).
  assert (Hd : forall k (cs : list Z), (k + length cs = 12)%nat ->
    take (length cs) (drop k (name ++ drop 12 (x86_vendor_id cpu))) = drop k name).
  { intros k cs Hk. rewrite drop_app_le by lia. rewrite take_app_length' by (rewrite length_drop; lia). done. }
  rewrite !chars_are_spec by (done || (repeat constructor; lia) || (rewrite length_app, Hln; simpl; lia)).
  rewrite !Hd by done. cbn [mbind res_bind].
  destruct (decide (drop 9 name = bytes_of "AMD")) as [Ha|Ha].
  - rewrite bool_decide_true by done. eexists. split; [done|]. done.
  - rewrite bool_decide_false by done. cbn [mbind res_bind].
    destruct (decide (drop 7 name = bytes_of "Intel")).
    + rewrite bool_decide_true by done. eexists. split; [done|]. done.
    + rewrite bool_decide_false by done. eexists. split; [done|]. done.
Qed.

(** C16: the architecture is set up. On a machine with an even number of
    megabytes up to 1024, a heap with room for the tables and a multiprocessor
    table that can be read, [setup_arch] returns: the descriptor tables, the
    page tables and the page descriptors follow each other from the start of
    the heap at the pages of the comment in setup.c; CR3 holds the new tables,
    which map all of the memory; every vector has its gate; and page [i] is in
    use exactly when it is page 0, BIOS or kernel, or in the heap up to the
    last page taken. Without a multiprocessor table the machine halts. *)
Theorem arch_ready {P} `{Processor P} env mm0 cpu0 mp0 (p : P) m s e k :
  boot_ok env cpu0 m s e k ->
  (read_mp env mp0 = Halted -> setup_arch env mm0 cpu0 mp0 p = Halted) /\
  (forall mp', read_mp env mp0 = Ret mp' ->
   exists a p', setup_arch env mm0 cpu0 mp0 p = Ret (a, p') /\ mp a = mp' /\
     (address (gdtr (segs a)) = frame s /\ tss a = frame (s + 1) /\ address (idtr a) = frame (s + 2) /\
      read_cr3 p' = 4096 * (s + 3) /\ mem_map_at a = frame (s + 17 + m / 2)) /\
     (forall x, 0 <= x < m * 2 ^ 20 -> translate (tables a) (read_cr3 p') (PAGE_OFFSET + x) = Some (x, true)) /\
     (forall va, 0 <= va < 2 ^ 47 -> translate (tables a) (read_cr3 p') va = None) /\
     (forall v, 0 <= v < 256 -> idt a !! Z.to_nat v = Some (vector_gate (except_stubs env) v)) /\
     (forall i, 0 <= i < 256 * m -> exists pg, map_table a !! Z.to_nat i = Some pg /\
        pg_virtual pg = page_to_virt i /\
        pg_count pg = if decide (boot_busy s (s + 17 + m / 2 + mem_map_page m) i) then 1 else 0)).
Proof.
  intros Hb. destruct (setup_arch_spec env mm0 cpu0 mp0 p m s e k Hb) as [Hr Hh]. split; [done|].
  intros mp' Hmp. destruct (Hr mp' Hmp) as (a & E & [A1 _ A3 [_ A4] A5 [_ A6] A7 A8 _ _ A11] & Ea).
  exists a, (load_tables (4096 * (s + 3)) p). split; [done|]. split; [done|].
  rewrite load_tables_cr3, A3, A4, A5, A8. split; [done|].
  destruct (bo_m _ _ _ _ _ _ Hb) as [Hm He]. pose proof (bo_s _ _ _ _ _ _ Hb).
  pose proof (bo_e _ _ _ _ _ _ Hb). pose proof (bo_heap _ _ _ _ _ _ Hb).
  destruct (mem_map_page_eq m) as (_ & Hmp2 & _); [lia|].
  destruct (kernel_tables_map (tables a) (s + 3) m A7) as (M1 & _ & M3); [lia | | done | done |].
  { Z.to_euclidean_division_equations; lia. }
  split; [done|]. split; [done|]. split; [done|]. intros i Hi.
  destruct (A11 i Hi) as (pg & Hpg & (_ & Hc & _ & _ & Hv)). exists pg. split; [done|]. split; [done|].
  rewrite Hc. unfold last_boot_page. destruct (decide (boot_busy _ _ _)) as [Hin|Hout].
  - by rewrite bool_decide_true.
  - by rewrite bool_decide_false.
Qed.

(** ** Witnesses *)

(** A processor that answers as an Intel one. *)
Definition intel_cpuid : cpuid_function := fun _ => (13, 0x756e6547, 0x6c65746e, 0x49656e69).

Definition blank_cpuinfo : cpuinfo_x86 :=
  {| x86_vendor := 0; cpuid_level := 0; x86_vendor_id := replicate 16 0; x86_cache_size := 0;
     x86_cache_alignment := 0; x86_tlbsize := 0; x86_virt_bits := 0; x86_phys_bits := 0;
     x86_max_cores := 0; apicid := 0; booted_cores := 0; phys_proc_id := 0; cpu_core_id := 0 |}.

Lemma vendor_identified_witness :
  exists cpu, early_identify_cpu intel_cpuid blank_cpuinfo = Ret cpu /\
    x86_vendor_id cpu = bytes_of "GenuineIntel" ++ replicate 4 0 /\ x86_vendor cpu = X86_VENDOR_INTEL.
Proof.
  destruct (vendor_identified intel_cpuid blank_cpuinfo 13 0x756e6547 0x6c65746e 0x49656e69)
    as (cpu & E & H1 & _ & H2).
  - reflexivity.
  - apply Forall_replicate. lia.
  - reflexivity.
  - exists cpu. split; [exact E|]. split; [exact H1 | exact H2].
Defined.

(** The machine of the comment in setup.c: 128 MB, of which the boot loader
    maps 8, the image from 1 MB, the per-processor section at 0x150000. *)
Definition blank_mm : mm_struct :=
  {| start_code := 0; end_code := 0; start_data := 0; end_data := 0; start_bss := 0; end_bss := 0;
     start_brk := 0; brk := 0; start_stack := 0; start_heap := 0; end_heap := 0; start_percpu := 0;
     end_percpu := 0; start_reserved := 0; end_reserved := 0 |}.

Definition small_env (mem : bmem) : boot_env :=
  {| BOOT_PARAMS := [frame 0x100; frame 0x120; frame 0x120; frame 0x150; frame 0x150; frame 0x160; frame 0x160;
                     128; frame 8; 8; frame 0x9f; frame 0x100; frame 0x150; frame 0x150 + 40];
     cpuid := intel_cpuid;
     KERNEL_STACK_START := frame 0x200;
     boot_descriptors := setup_gdt;
     gdt_page := replicate 512 {| l := 1; h := 2 |};
     except_stubs := sample_entries_at 0xFFFF800000101000;
     table_memory := ∅;
     memory := mem;
     mp_literals := (__va 0x2000, __va 0x1000, __va 0x1010, __va 0x1020);
     map_area := replicate (Z.to_nat (256 * 128)) garbage_page;
     map_heads := ∅ |}.

Lemma small_env_ok mem : boot_ok (small_env mem) blank_cpuinfo 128 0x200 8 5.
Proof.
  split.
  - reflexivity.
  - reflexivity.
  - reflexivity.
  - reflexivity.
  - split; [lia | reflexivity].
  - lia.
  - lia.
  - vm_compute. reflexivity.
  - vm_compute. discriminate.
  - reflexivity.
  - split; [lia | vm_compute; discriminate].
  - reflexivity.
  - intros j Hj. assert (Hd : j = 1 \/ j = 2 \/ j = 3 \/ j = 4) by lia.
    repeat (destruct Hd as [->|Hd]; [eexists; split; [reflexivity | discriminate]|]).
    subst j. eexists. split; [reflexivity | discriminate].
  - cbn [map_area small_env]. rewrite length_replicate, Z2Nat.id; [reflexivity | lia].
  - reflexivity.
Qed.

Lemma arch_ready_witness :
  exists mp' a p', setup_arch (small_env sample_mem) blank_mm blank_cpuinfo boot_tables (sample_cpu 0xA0) = Ret (a, p') /\
    mp a = mp' /\ address (gdtr (segs a)) = frame 0x200 /\ tss a = frame 0x201 /\ address (idtr a) = frame 0x202 /\
    read_cr3 p' = 0x203000 /\ mem_map_at a = frame 0x251.
Proof.
  destruct (arch_ready (small_env sample_mem) blank_mm blank_cpuinfo boot_tables (sample_cpu 0xA0)
    128 0x200 8 5 (small_env_ok sample_mem)) as [_ Hr].
  destruct (read_mp (small_env sample_mem) boot_tables) as [mp'| | |] eqn:E;
    [|exfalso; vm_compute in E; discriminate..].
  destruct (Hr mp' eq_refl) as (a & p' & Es & Em & (H1 & H2 & H3 & H4 & H5) & _).
  exists mp', a, p'. exact (conj Es (conj Em (conj H1 (conj H2 (conj H3 (conj H4 H5)))))).
Defined.
