(* ===== verification/Boot.v ===== *)
(** * The start of the kernel (main.c)

    [start_kernel] on the boot processor: every component is initialised in the
    order of main.c, each on the state the ones before left, up to the point
    where interrupts are enabled. Another processor shows that it is alive
    ([ap_loop]). Messages are in Messages: the screen is what [init_screen]
    leaves, on which the first message is printed. *)

From S2P Require Import Prelude BitOps CList CString Screen BootMem Memory PageAlloc PageFlags SlabPages Slab SlabSpec Heap.
From S2P Require Import Interrupts Paging MpSpec PageWalk Descriptors LocalApic PerCpu Setup.

(** ** State *)

(** The variables before the kernel runs: the screen, what setup.c fills, the
    only node and the per-processor data, the processor and the devices. *)
Record power_on (P D : Type) := {
  screen0 : screen_info;
  mm0 : mm_struct;
  cpu0 : cpuinfo_x86;
  mp0 : mp_state;
  node0 : pg_data;
  percpu0 : percpu;
  handlers0 : list (option (irq_handler_t (D := D)));
  processor0 : P;
  device0 : D
}.
Arguments screen0 {P D}. Arguments mm0 {P D}. Arguments cpu0 {P D}. Arguments mp0 {P D}.
Arguments node0 {P D}. Arguments percpu0 {P D}. Arguments handlers0 {P D}.
Arguments processor0 {P D}. Arguments device0 {P D}.

(** The kernel when interrupts are enabled. The pages are the source of the
    slab allocator; [k_cleared] is the screen before the first message. *)
Record kernel (P D : Type) := {
  k_cleared : screen_info;
  k_arch : arch;
  k_processor : P;
  k_heads : list_heap;
  k_node : pg_data;
  k_cache_cache : Z;
  k_slab : slab_state kpages;
  k_preempt_count : Z;
  k_memory : bmem;
  k_percpu : percpu;
  k_irqs : irq_state (D := D);
  k_interrupts : bool
}.
Arguments k_cleared {P D}. Arguments k_arch {P D}. Arguments k_processor {P D}. Arguments k_heads {P D}.
Arguments k_node {P D}. Arguments k_cache_cache {P D}. Arguments k_slab {P D}.
Arguments k_preempt_count {P D}. Arguments k_memory {P D}. Arguments k_percpu {P D}.
Arguments k_irqs {P D}. Arguments k_interrupts {P D}.

Section Boot.
Context {P D : Type} `{LocalApic D} `{Processor P}.

(** The addresses of the names of the default caches, the entry points of the
    interrupts, and the two handlers that are installed. *)
Context (names : list Z) (irq_stubs : Z -> Z) (timer isr : irq_handler_t (D := D)).

(** [start_kernel(0)] up to [sti]. *)
Definition start_kernel (env : boot_env) (w : power_on P D) : res (kernel P D) :=
  screen ← init_screen (screen0 w);
  '(a, p) ← setup_arch env (mm0 w) (cpu0 w) (mp0 w) (processor0 w);
  '(mm, heads, node) ← memory_init (phy_mem_size a) (mem_map_at a) (map_table a) (table_heads a) (node0 w);
  '(cc, slab) ← kmem_cache_init (memory env) names {| mem_map := mm; zones := node_zones node |};
  d ← init_bsp_APIC (boot_cpu_id (cpus (mp a))) (x86_cpu_to_apicid (cpus (mp a))) (device0 w);
  d ← io_apic_init d;
  irqs ← irq_init irq_stubs {| irq_handler := handlers0 w; idt_table := idt a; device := d |};
  '(preempt_count, pages, m, pc) ←
    smp_init (start_percpu (init_mm a)) (end_percpu (init_mm a)) (source slab) (memory env) (percpu0 w);
  irqs ← init_bsp_timer timer irqs;
  d ← wake_ap (device irqs);
  '(_, irqs) ← keyboard_init isr (with_device d irqs);
  Ret {| k_cleared := screen; k_arch := a; k_processor := p; k_heads := heads; k_node := node;
         k_cache_cache := cc; k_slab := with_source pages slab; k_preempt_count := preempt_count;
         k_memory := m; k_percpu := pc; k_irqs := irqs; k_interrupts := true |}.

End Boot.

(** [while (1) screen_info.video_mem[79]++;]: [n] passes of another processor. *)
Definition ap_loop (n : nat) (s : screen_info) : res screen_info :=
  for_loop n 0 (fun _ s => x ← aget (video_mem s) 79; v ← aset (video_mem s) 79 (u16 (x + 1));
                           Ret (set_video v s)) s.

(** It counts in the last cell of the first line. *)
Lemma ap_loop_screen n (s : screen_info) :
  length (video_mem s) = 2000%nat ->
  exists v, ap_loop n s = Ret (set_video v s) /\ length v = 2000%nat /\
    forall i, i <> 79%nat -> v !! i = video_mem s !! i.
Proof.
  intros Hl. destruct (for_loop_inv (fun _ t => exists v, t = set_video v s /\ length v = 2000%nat /\
      forall i, i <> 79%nat -> v !! i = video_mem s !! i)
    n 0 (fun _ s => x ← aget (video_mem s) 79; v ← aset (video_mem s) 79 (u16 (x + 1)); Ret (set_video v s)) s)
    as (t & E & v & -> & Hlv & Hv).
  - exists (video_mem s). by destruct s.
  - intros j t _ (v & -> & Hlv & Hv). cbn [video_mem set_video].
    destruct (aget_lt v 79) as [x Hx]; [lia|]. rewrite Hx. cbn [mbind res_bind].
    rewrite aset_lt by lia. cbn [mbind res_bind]. eexists. split; [done|].
    eexists. split; [done|]. rewrite length_insert. split; [done|]. intros i Hi.
    rewrite list_lookup_insert_ne by lia. by apply Hv.
  - exists v. by split.
Qed.

(** ** Pages in the order they are taken *)

Lemma rep_not_free st bl rsv n s i :
  rep st bl rsv -> used bl rsv i -> s <= i < s + n -> ~ free_run (mem_map st) n s.
Proof. intros Hr Hu Hi Hf. by apply (free_run_unused st bl rsv n s i Hr Hf Hi). Qed.

Lemma rep_free st bl rsv n s :
  rep st bl rsv -> 0 <= s -> s + n <= Z.of_nat (length (mem_map st)) ->
  (forall i, s <= i < s + n -> ~ used bl rsv i) -> free_run (mem_map st) n s.
Proof.
  intros Hr Hs Hl Hu. split_and!; [done | done |]. intros i p Hi Hp.
  destruct (rep_page st bl rsv Hr i p ltac:(lia) Hp) as ([[? _]|[_ Hx]] & _); [done|].
  by destruct (Hu i Hi).
Qed.

Lemma free_run_count mm n s : 0 <= n -> free_run mm n s -> n <= free_count mm.
Proof.
  intros Hn (Hs & Hl & Hf).
  pose proof (free_count_range (fun _ => set_count 1) 1 0 mm s n Hs Hn Hl) as Hc.
  pose proof (free_count_le (alter_range (fun _ => set_count 1) s n mm)). rewrite Hc in H; [lia|].
  intros i p Hi Hp. unfold zero_one. rewrite (Hf i p Hi Hp). done.
Qed.

(** The pages of a machine that has just counted them: page 0 is taken, the
    four after it are free. *)
Record low_pages_free (st : kpages) (rsv : Z -> bool) : Prop := {
  lp_rep : rep st ∅ rsv;
  lp_length : 5 <= Z.of_nat (length (mem_map st));
  lp_zero : rsv 0 = true;
  lp_free : forall i, 1 <= i < 5 -> rsv i = false;
  lp_virtual : forall i p, 0 <= i -> mem_map st !! Z.to_nat i = Some p -> pg_virtual p = page_to_virt i
}.

(** The pages 1 and 2 go to the table of caches. *)
Lemma slab_pages_taken nm names (st : kpages) rsv :
  low_pages_free st rsv -> names_at nm names ->
  exists sl, kmem_cache_init nm names st = Ret (page_to_virt 1, sl) /\
    inv (page_to_virt 1) sl {[page_to_virt 1 := CACHE_CACHE_PAGE]} ∅ (replicate 8 []) ∅ /\
    rep (source sl) {[1 := 1]} rsv /\ length (mem_map (source sl)) = length (mem_map st) /\
    (forall i p, 0 <= i -> mem_map (source sl) !! Z.to_nat i = Some p -> pg_virtual p = page_to_virt i) /\
    (forall l nam, (l < 8)%nat -> names !! l = Some nam -> caches sl !! l = Some (default_cache nam l)).
Proof.
  intros [Hr Hl H0 Hf Hv] Hn.
  assert (Hu : forall i, 1 <= i < 5 -> ~ used ∅ rsv i).
  { intros i Hi [Hx|(s & o & Hx & _)]; [by rewrite Hf in Hx | by rewrite lookup_empty in Hx]. }
  assert (H4 : 4 <= free_count (mem_map st)).
  { apply (free_run_count _ _ 1); [lia|]. apply (rep_free st ∅ rsv); [done | lia | lia |].
    intros i Hi. apply Hu. lia. }
  assert (Hrun : first_run (mem_map st) (2 ^ CACHE_CACHE_PAGE) 1).
  { change (2 ^ CACHE_CACHE_PAGE) with 2. split.
    - apply (rep_free st ∅ rsv); [done | lia | lia |]. intros i Hi. apply Hu. lia.
    - intros s Hs. destruct (decide (s = 0)) as [->|]; [|destruct Hs as [? _]; lia]. exfalso.
      apply (rep_not_free st ∅ rsv 2 0 0 Hr); [by left | lia | done]. }
  assert (Ho : 0 <= CACHE_CACHE_PAGE <= MAX_PAGE_ORDER) by (unfold CACHE_CACHE_PAGE, MAX_PAGE_ORDER; lia).
  assert (Hsrc : source_ok st ∅ ∅) by (exists ∅, rsv; by split_and!).
  destruct (kmem_cache_init_spec nm names st Hsrc Hn) as [[Hx _]|(s & sl & _ & E & Hi & _ & Hcs)].
  { exfalso. destruct Hx as [Hx|Hx]; [lia|]. apply (Hx 1), Hrun. }
  destruct (kmem_cache_init_source nm names st _ sl E) as (s' & p & mm & Ea & Hs' & Em & Esl).
  rewrite alloc_pages_eq, (alloc_run_spec _ _ _ ∅ rsv 1) in Ea by (done || (change (2 ^ CACHE_CACHE_PAGE) with 2; lia)).
  injection Ea as <- <-. rewrite Hs' in *. exists sl. split; [done|]. split; [done|].
  destruct (alloc_rep 0 CACHE_CACHE_PAGE st ∅ rsv 1 Hr Ho (proj1 Hrun)) as [Hr' _].
  set (p := PageAlloc.allocated 0 CACHE_CACHE_PAGE 1 st) in *.
  assert (Hlp : length (mem_map p) = length (mem_map st)) by apply alter_range_length.
  set (f := fun (_ : Z) q => set_flags (SetPageFlag PG_slab (pg_flags q)) q).
  assert (Emm : mm = alter_range f 1 2 (mem_map p)).
  { pose proof (alter_range_loop_down f 1 2 (mem_map p)) as El. change (Z.to_nat 2) with 2%nat in El.
    assert (Ef : for_loop 2 0 (table_step 1 2) (mem_map p) = Ret (alter_range f 1 2 (mem_map p)))
      by (apply El; lia).
    rewrite Ef in Em. by injection Em as <-. }
  rewrite Esl. cbn [mem_map]. rewrite Emm, alter_range_length. split; [|split; [done | split; [|exact Hcs]]].
  - apply (rep_frame f 1 2 p); [done|]. exact Hr'.
  - intros i q Hiq Hq. rewrite alter_range_lookup in Hq. apply fmap_Some in Hq as (x & Hx & ->).
    rewrite <- (allocated_virtual 0 CACHE_CACHE_PAGE 1 st Hv i x Hiq Hx). by destruct (decide _).
Qed.

(** Page 3 goes to the per-processor data; the slab allocator keeps its
    invariant on the pages that are left. *)
Lemma percpu_page_taken (sl : slab_state kpages) rsv :
  inv (page_to_virt 1) sl {[page_to_virt 1 := CACHE_CACHE_PAGE]} ∅ (replicate 8 []) ∅ ->
  rep (source sl) {[1 := 1]} rsv -> 5 <= Z.of_nat (length (mem_map (source sl))) -> rsv 0 = true ->
  (forall i, 1 <= i < 5 -> rsv i = false) ->
  (forall i p, 0 <= i -> mem_map (source sl) !! Z.to_nat i = Some p -> pg_virtual p = page_to_virt i) ->
  first_run (mem_map (source sl)) (2 ^ 0) 3 /\ 2 ^ 0 < free_count (mem_map (source sl)) /\
  forall pages', pages' = PageAlloc.allocated 0 0 3 (source sl) ->
    rep pages' (<[3 := 0]> {[1 := 1]}) rsv /\
    inv (page_to_virt 1) (with_source pages' sl)
      {[page_to_virt 1 := CACHE_CACHE_PAGE; page_to_virt 3 := 0]} ∅ (replicate 8 []) ∅.
Proof.
  intros Hi Hr Hl H0 Hf Hv.
  assert (Hu : forall i, 3 <= i < 5 -> ~ used {[1 := 1]} rsv i).
  { intros i Hin [Hx|(s & o & [<- <-]%lookup_singleton_Some & Hb)]; [rewrite Hf in Hx; [done | lia]|].
    unfold in_block in Hb. lia. }
  assert (Hrun : first_run (mem_map (source sl)) (2 ^ 0) 3).
  { change (2 ^ 0) with 1. split.
    - apply (rep_free _ {[1 := 1]} rsv); [done | lia | lia |]. intros i Hin. apply Hu. lia.
    - intros s Hs. destruct (decide (3 <= s)); [done|]. exfalso. destruct Hs as [Hs0 Hs].
      apply (rep_not_free _ {[1 := 1]} rsv 1 s s Hr); [ | lia | by split].
      destruct (decide (s = 0)) as [->|]; [by left|]. right. exists 1, 1.
      split; [apply lookup_singleton_eq | unfold in_block; lia]. }
  split; [done|]. split.
  { change (2 ^ 0) with 1. enough (2 <= free_count (mem_map (source sl))) by lia.
    apply (free_run_count _ _ 3); [lia|]. apply (rep_free _ {[1 := 1]} rsv); [done | lia | lia |].
    intros i Hin. apply Hu. lia. }
  intros pages' ->.
  destruct (alloc_rep 0 0 (source sl) {[1 := 1]} rsv 3 Hr) as [Hr' Hn];
    [unfold MAX_PAGE_ORDER; lia | apply Hrun |]. split; [done|].
  destruct Hi as [I1 I2 I3 I4 I5 I6 I7 I8]. split; try done.
  cbn [with_source source].
  exists (<[3 := 0]> {[1 := 1]}), rsv. split; [done|]. split; [|split; [by apply allocated_virtual|]].
  - intros a o Ha. split; [done|]. apply lookup_insert_Some in Ha as [[<- <-]|[_ Ha]].
    + exists 1. split; [done|]. rewrite lookup_insert_ne by done. apply lookup_singleton_eq.
    + apply lookup_singleton_Some in Ha as [<- <-]. exists 3. split; [done | apply lookup_insert_eq].
  - done.
Qed.

(** ** The stages *)

(** The pages [mem_map_init] marks as taken. *)
Definition boot_rsv (m s : Z) (i : Z) : bool := bool_decide (boot_busy s (last_boot_page m s) i).

Lemma memory_ready env m s a nd z0 :
  arch_ok env m s a -> 2 <= m < 2 ^ 16 -> 0x200 <= s ->
  node_zones nd = [z0] -> free_pages z0 = 0 ->
  exists mm heads nd', memory_init (phy_mem_size a) (mem_map_at a) (map_table a) (table_heads a) nd
      = Ret (mm, heads, nd') /\
    low_pages_free {| mem_map := mm; zones := node_zones nd' |} (boot_rsv m s) /\
    Z.of_nat (length mm) = 256 * m.
Proof.
  intros [A1 _ _ _ _ _ _ _ Al Ah Ap] Hm Hs Hz Hf. rewrite A1.
  destruct (Ap 0) as (q0 & Hq0 & (_ & Hc0 & _)); [lia|].
  rewrite bool_decide_true in Hc0 by (by left).
  destruct (memory_init_spec m (mem_map_at a) (map_table a) (table_heads a) nd z0 q0)
    as (h' & nd' & -> & _ & Hz'); [lia | done | done | done | done | done | lia |].
  eexists _, h', nd'. split; [done|]. rewrite length_fmap. split; [|done].
  assert (Hpages : forall i p, 0 <= i -> (set_zone (Some ZONE_NORMAL) <$> map_table a) !! Z.to_nat i = Some p ->
    pg_count p = (if boot_rsv m s i then 1 else 0) /\ pg_private p = u64 (- 1) /\
    pg_zone p = Some ZONE_NORMAL /\ pg_virtual p = page_to_virt i).
  { intros i p Hi Hp. rewrite list_lookup_fmap in Hp. apply fmap_Some in Hp as (x & Hx & ->).
    pose proof (lookup_lt_Some _ _ _ Hx). destruct (Ap i) as (y & Hy & (_ & Hc & _ & Hpr & Hv)); [lia|].
    assert (x = y) as -> by congruence. done. }
  split; cbn [mem_map zones].
  - rewrite Hz'. apply rep_boot.
    + rewrite length_fmap. lia.
    + done.
    + rewrite length_fmap. cbn. lia.
    + cbn. by rewrite free_count_fmap.
    + intros i p Hi Hp. destruct (Hpages i p Hi Hp) as (? & ? & ? & _). done.
  - rewrite length_fmap. lia.
  - unfold boot_rsv. apply bool_decide_true. by left.
  - intros i Hi. unfold boot_rsv. apply bool_decide_false. unfold boot_busy. lia.
  - intros i p Hi Hp. by destruct (Hpages i p Hi Hp) as (_ & _ & _ & ?).
Qed.

(** The per-processor section is in memory and its copies fit one page. *)
Definition section_ok (env : boot_env) (section : list Z) (start : Z) : Prop :=
  bytes_at (memory env) start section /\ (8 <= length section <= 819)%nat /\ 0 <= start /\
  start + Z.of_nat (length section) < 2 ^ 64.

(** The memory: the page allocator, the slab allocator on its pages, and the
    per-processor data on the next. *)
Lemma memory_stages env names section start pc m s a nd z0 :
  arch_ok env m s a -> 2 <= m < 2 ^ 16 -> 0x200 <= s ->
  node_zones nd = [z0] /\ free_pages z0 = 0 -> names_at (memory env) names ->
  length (cpu_offset pc) = 5%nat -> section_ok env section start ->
  mapped (memory env) (page_to_virt 3) 4096 /\
    (start + Z.of_nat (length section) <= page_to_virt 3 \/ page_to_virt 3 + 4096 <= start) ->
  exists mm heads nd' sl m1 pc1,
    memory_init (phy_mem_size a) (mem_map_at a) (map_table a) (table_heads a) nd = Ret (mm, heads, nd') /\
    kmem_cache_init (memory env) names {| mem_map := mm; zones := node_zones nd' |} = Ret (page_to_virt 1, sl) /\
    smp_init start (start + Z.of_nat (length section)) (source sl) (memory env) pc
      = Ret (0, PageAlloc.allocated 0 0 3 (source sl), m1, pc1) /\
    let sl' := with_source (PageAlloc.allocated 0 0 3 (source sl)) sl in
    rep (source sl') {[3 := 0; 1 := 1]} (boot_rsv m s) /\
    inv (page_to_virt 1) sl' {[page_to_virt 1 := CACHE_CACHE_PAGE; page_to_virt 3 := 0]} ∅ (replicate 8 []) ∅ /\
    heap_ok (page_to_virt 1) 8 2048 sl' [] /\
    (forall i cpu b, section !! i = Some b -> 0 <= cpu < 5 ->
       exists a, per_cpu (start + Z.of_nat i) cpu pc1 = Ret a /\
         a = page_to_virt 3 + cpu * Z.of_nat (length section) + Z.of_nat i /\ m1 !! a = Some b) /\
    (forall x, ~ (page_to_virt 3 <= x < page_to_virt 3 + 4096) -> m1 !! x = memory env !! x).
Proof.
  intros Ha Hm Hs [Hn Hz] Hnames Hpc (Hsec & Hlen & Hst0 & H64) [Hpage Hapart].
  destruct (memory_ready env m s a nd z0 Ha) as (mm & heads & nd' & E1 & Hlow & Hlm); [done..|].
  destruct (slab_pages_taken (memory env) names _ _ Hlow Hnames) as (sl & E2 & Hinv & Hrep & Hlsl & Hvirt & Hcs).
  cbn [mem_map] in Hlsl. pose proof Hlow as [_ Hl5 Hr0 Hrf _]. cbn [mem_map] in Hl5.
  destruct (percpu_page_taken sl (boot_rsv m s) Hinv Hrep) as (Hrun & Hfree & Hafter);
    [by rewrite Hlsl | exact Hr0 | exact Hrf | exact Hvirt |].
  assert (Hord : percpu_order (Z.of_nat (length section)) = 0) by (apply percpu_order_small; lia).
  assert (Hp3 : page_to_virt 3 = PAGE_OFFSET + 4096 * 3) by done.
  pose proof (smp_init_spec start section (source sl) {[1 := 1]} (boot_rsv m s) (memory env) pc 3) as Hsmp.
  rewrite Hord in Hsmp.
  destruct Hsmp as (m1 & pc1 & E3 & Hcopies & Hrest);
    [exact Hrep | unfold MAX_PAGE_ORDER; lia | exact Hfree | exact Hrun | lia | exact Hst0 | exact H64 | exact Hsec
    | eapply mapped_weaken; [exact Hpage | lia | lia] | rewrite Hp3; unfold PAGE_OFFSET; lia | lia | exact Hpc |].
  destruct (Hafter _ eq_refl) as [Hrep' Hinv']. exists mm, heads, nd', sl, m1, pc1.
  split; [exact E1|]. split; [exact E2|]. split; [exact E3|]. cbv zeta.
  split; [exact Hrep'|]. split; [exact Hinv'|].
  split; [|split; [exact Hcopies | intros x Hx; apply Hrest; lia]].
  exact (heap_booted (page_to_virt 1) _ names _ _ _ Hinv' Hnames Hcs).
Qed.

(** The tables [setup_arch] builds map all of the memory. *)
Lemma booted_tables env cpu m s e k a :
  boot_ok env cpu m s e k -> arch_ok env m s a -> forall x, 0 <= x < m * 2 ^ 20 ->
  translate (tables a) (4096 * (s + 3)) (PAGE_OFFSET + x) = Some (x, true).
Proof.
  intros Hboot Ha. destruct (bo_m _ _ _ _ _ _ Hboot) as [Hm Heven].
  destruct (mem_map_page_eq m) as (_ & ? & _); [lia|]. pose proof (bo_s _ _ _ _ _ _ Hboot).
  pose proof (bo_e _ _ _ _ _ _ Hboot). pose proof (bo_heap _ _ _ _ _ _ Hboot).
  destruct (kernel_tables_map (tables a) (s + 3) m (ao_tables _ _ _ _ Ha)) as (M1 & _); [lia | | done | done | done].
  enough (m / 2 <= 512) by lia. apply Z.div_le_upper_bound; lia.
Qed.

(** What the devices must be: a local APIC with the identifier 0 and an I/O
    APIC with an entry for the keyboard. *)
Record chip_ok {D} `{LocalApic D} (d : D) : Prop := {
  ch_id : apic_reg APIC_ID d = 0;
  ch_version : version_ok (apic_reg APIC_LVR d) = true;
  ch_spiv : Z.land (apic_reg APIC_SPIV d) 0x3FF = apic_reg APIC_SPIV d;
  ch_lines : 1 <= GET_IO_APIC_ENTRY (redirection d IO_APIC_VERSION)
}.

(** What the interrupts are after boot: the handlers of the timer and of the
    keyboard, the gates of 22 interrupts in front of those of exceptions, the
    entry of the keyboard in the I/O APIC, the timer, the priority that admits
    every interrupt, and three commands sent. *)
Record irqs_ok {D} `{LocalApic D} (e : except_entries) (irq_stubs : Z -> Z) (timer isr : irq_handler_t (D := D))
    (d0 : D) (st : irq_state (D := D)) : Prop := {
  io_handlers : irq_handler st = <[1%nat := Some isr]> (<[16%nat := Some timer]>
                                   (replicate 32 (Some ignore_isr_handler)));
  io_gates : forall v, 0 <= v < 256 -> idt_table st !! Z.to_nat v =
    Some (if decide (32 <= v < 54) then gate DESTYPE_INT (irq_stubs (v - 32)) else vector_gate e v);
  io_keyboard : redirection (device st) (IO_APIC_REDTBL_BASE + 2) = 0xA000 + 33;
  io_timer : apic_reg APIC_LVTT (device st) = Z.lor APIC_LVT_TIMER_PERIODIC 48;
  io_enabled : Z.testbit (apic_reg APIC_SPIV (device st)) 8 = true;
  io_priority : tpr (device st) = 0;
  io_commands : ipis (device st) = ipis d0 ++ [0xC4500; 0xC4609; 0xC4609]
}.

Lemma keyboard_init_spec {D} `{LocalApic D} (isr : irq_handler_t (D := D)) st :
  length (irq_handler st) = 32%nat -> 1 <= GET_IO_APIC_ENTRY (redirection (device st) IO_APIC_VERSION) ->
  exists st', keyboard_init isr st = Ret (CAOS_SUCCESS, st') /\
    irq_handler st' = <[1%nat := Some isr]> (irq_handler st) /\ idt_table st' = idt_table st /\
    redirection (device st') (IO_APIC_REDTBL_BASE + 2) = 0xA000 + 33 /\
    (forall q, apic_reg q (device st') = apic_reg q (device st)) /\ ipis (device st') = ipis (device st).
Proof.
  intros Hl Hmax. unfold keyboard_init, register_irq, KEYBOARD_IRQ. rewrite aset_lt by (rewrite Hl; lia).
  cbn [mbind res_bind]. destruct (enable_irq_spec 1 (device st)) as (d' & Er & Hr); [lia|].
  assert (Ha : forall q, apic_reg q d' = apic_reg q (device st)).
  { intros q. rewrite <- (enable_irq_apic 1 (device st) q), Er. done. }
  assert (Hi : ipis d' = ipis (device st)) by (rewrite <- (enable_irq_ipis 1 (device st)), Er; done).
  rewrite Er, decide_True by done. cbn [mbind res_bind]. change (CAOS_SUCCESS =? CAOS_SUCCESS) with true.
  cbv iota. eexists. split; [done|]. cbn [irq_handler idt_table device].
  split; [done|]. split; [done|]. split; [|done].
  rewrite Hr, decide_True by done. rewrite irq_entry_eq by lia. done.
Qed.

(** The devices in the order of [start_kernel]. *)
Lemma irqs_ready {D} `{LocalApic D} e irq_stubs (timer isr : irq_handler_t (D := D)) (d0 : D) table hs it :
  chip_ok d0 -> table !! 0%nat = Some 0 -> length hs = 32%nat -> length it = 256%nat ->
  (forall v, 0 <= v < 256 -> it !! Z.to_nat v = Some (vector_gate e v)) ->
  exists d1 d2 st1 st2 d3 d4 st3,
    init_bsp_APIC 0 table d0 = Ret d1 /\ io_apic_init d1 = Ret d2 /\
    irq_init irq_stubs {| irq_handler := hs; idt_table := it; device := d2 |} = Ret st1 /\
    init_bsp_timer timer st1 = Ret st2 /\
    wake_ap (device st2) = (if Z.testbit (apic_reg APIC_ICR d3) 12 then Halted else Ret d3) /\
    d3 = apic_write APIC_ICR 0xC4609 d4 /\
    keyboard_init isr (with_device d3 st2) = Ret (CAOS_SUCCESS, st3) /\
    irqs_ok e irq_stubs timer isr d0 st3.
Proof.
  intros [C1 C2 C3 C4] Ht Hhs Hit Hv.
  destruct (init_bsp_APIC_spec 0 table d0 C3 ltac:(lia) Ht) as [_ Hr].
  destruct Hr as (d1 & E1 & Hmask & Htp & Hen & _ & _ & Hi1 & Hr1); [done|].
  destruct (io_apic_init_same d1) as (d2 & E2 & Hd2).
  destruct (irq_init_spec irq_stubs {| irq_handler := hs; idt_table := it; device := d2 |} Hhs Hit)
    as (st1 & E3 & D1 & Hh1 & Hl1 & Hg1). cbn [device idt_table] in D1, Hg1.
  destruct (init_bsp_timer_spec timer st1) as (st2 & E4 & Hi2 & Ht2 & _ & _ & Hk2 & Hg2 & Hh2 & Hr2 & _).
  { rewrite D1. destruct (Hd2 APIC_LVTT) as (-> & _). apply Hmask. in_regs. }
  { rewrite D1. by destruct (Hd2 APIC_SPIV) as (-> & _). }
  { by rewrite Hh1. }
  destruct (wake_ap_spec (device st2)) as (d3 & d4 & Hd4 & Hi3 & Hk3 & Hr3 & E5).
  destruct (keyboard_init_spec isr (with_device d3 st2)) as (st3 & E6 & Hh3 & Hg3 & Hr4 & Hk4 & Hi4).
  { cbn [with_device irq_handler]. rewrite Hh2, length_insert, Hh1. done. }
  { cbn [with_device device]. rewrite Hr3, Hr2, D1. destruct (Hd2 IO_APIC_VERSION) as (_ & -> & _).
    rewrite Hr1. rewrite decide_False by (intros [_ Hx]; discriminate). done. }
  cbn [with_device irq_handler idt_table device] in *.
  exists d1, d2, st1, st2, d3, d4, st3. split; [done|]. split; [done|]. split; [done|].
  split; [done|]. split; [done|]. split; [done|]. split; [done|]. split.
  - by rewrite Hh3, Hh2, Hh1.
  - intros v Hv'. rewrite Hg3, Hg2, Hg1 by done. destruct (decide _); [done | by apply Hv].
  - done.
  - rewrite Hk4, Hk3 by in_regs. done.
  - rewrite Hk4, Hk3, Hk2 by in_regs. rewrite D1. by destruct (Hd2 APIC_SPIV) as (-> & _).
  - rewrite lapic_tpr, Hk4, Hk3, Hk2 by in_regs. rewrite D1. destruct (Hd2 APIC_TASKPRI) as (-> & _).
    by rewrite <- lapic_tpr.
  - rewrite Hi4, Hi3, Hi2, D1. destruct (Hd2 0) as (_ & _ & ->). by rewrite Hi1.
Qed.

(** ** Properties *)

(** The rest of a machine the kernel can start on: a readable table of
    processors with the boot processor first, both APICs, the strings and the
    per-processor section in memory, and the variables as the image has them. *)
Record machine_ok {P D} `{LocalApic D} (env : boot_env) (w : power_on P D) (names : list Z) (mp' : mp_state)
    (section : list Z) (start : Z) (z0 : zone) : Prop := {
  bt_mp : read_mp env (mp0 w) = Ret mp';
  bt_first : boot_cpu_id (cpus mp') = 0 /\ x86_cpu_to_apicid (cpus mp') !! 0%nat = Some 0;
  bt_chip : chip_ok (device0 w);
  bt_names : names_at (memory env) names;
  bt_node : node_zones (node0 w) = [z0] /\ free_pages z0 = 0;
  bt_sizes : length (video_mem (screen0 w)) = 2000%nat /\ length (handlers0 w) = 32%nat /\
             length (cpu_offset (percpu0 w)) = 5%nat;
  bt_percpu : BOOT_PARAMS env !! 12%nat = Some start /\
              BOOT_PARAMS env !! 13%nat = Some (start + Z.of_nat (length section));
  bt_section : section_ok env section start;
  bt_page : mapped (memory env) (page_to_virt 3) 4096 /\
            (start + Z.of_nat (length section) <= page_to_virt 3 \/ page_to_virt 3 + 4096 <= start)
}.

(** A machine the kernel can start on. *)
Record bootable {P D} `{LocalApic D} (env : boot_env) (w : power_on P D) (names : list Z) (mp' : mp_state)
    (section : list Z) (start m s e k : Z) (z0 : zone) : Prop := {
  bt_boot : boot_ok env (cpu0 w) m s e k;
  bt_machine : machine_ok env w names mp' section start z0
}.

(** What [start_kernel] leaves. *)
Record kernel_ready {P D} `{LocalApic D} `{Processor P} (irq_stubs : Z -> Z) (timer isr : irq_handler_t (D := D))
    (env : boot_env) (w : power_on P D) (mp' : mp_state) (section : list Z) (start m s : Z)
    (K : kernel P D) : Prop := {
  kr_screen : shows 0 (0, blank_paper) (k_cleared K);
  kr_mp : mp (k_arch K) = mp';
  kr_tables : forall x, 0 <= x < m * 2 ^ 20 ->
    translate (tables (k_arch K)) (read_cr3 (k_processor K)) (PAGE_OFFSET + x) = Some (x, true);
  kr_pages : rep (source (k_slab K)) {[3 := 0; 1 := 1]} (boot_rsv m s);
  kr_caches : k_cache_cache K = page_to_virt 1;
  kr_slabs : inv (k_cache_cache K) (k_slab K)
    {[page_to_virt 1 := CACHE_CACHE_PAGE; page_to_virt 3 := 0]} ∅ (replicate 8 []) ∅;
  kr_heap : heap_ok (k_cache_cache K) 8 2048 (k_slab K) [];
  kr_percpu : forall i cpu b, section !! i = Some b -> 0 <= cpu < 5 ->
    exists a, per_cpu (start + Z.of_nat i) cpu (k_percpu K) = Ret a /\
      a = page_to_virt 3 + cpu * Z.of_nat (length section) + Z.of_nat i /\ k_memory K !! a = Some b;
  kr_memory : forall x, ~ (page_to_virt 3 <= x < page_to_virt 3 + 4096) -> k_memory K !! x = memory env !! x;
  kr_irqs : irqs_ok (except_stubs env) irq_stubs timer isr (device0 w) (k_irqs K);
  kr_preempt : k_preempt_count K = 0;
  kr_interrupts : k_interrupts K = true
}.

Lemma start_kernel_spec {P D} `{LocalApic D} `{Processor P} names irq_stubs (timer isr : irq_handler_t (D := D))
    env (w : power_on P D) mp' section start m s e k z0 :
  bootable env w names mp' section start m s e k z0 ->
  exists d K, start_kernel names irq_stubs timer isr env w
      = (if Z.testbit (apic_reg APIC_ICR (apic_write APIC_ICR 0xC4609 d)) 12 then Halted else Ret K) /\
    kernel_ready irq_stubs timer isr env w mp' section start m s K.
Proof.
  intros [Hboot [Hmp [Hb0 Hb1] Hchip Hnames [Hn Hz] (Hv & Hhs & Hpc) [P12 P13] Hsec Hpage]].
  pose proof (bo_m _ _ _ _ _ _ Hboot) as [Hm Heven]. pose proof (bo_s _ _ _ _ _ _ Hboot) as Hs.
  unfold start_kernel. destruct (init_screen_blank (screen0 w) Hv) as (scr & E & Hscr). step E. clear E.
  destruct (setup_arch_spec env (mm0 w) (cpu0 w) (mp0 w) (processor0 w) m s e k Hboot) as [Hsa _].
  destruct (Hsa mp' Hmp) as (a & E & Ha & Ea). step E. clear Hsa E.
  destruct (memory_stages env names section start (percpu0 w) m s a (node0 w) z0 Ha)
    as (mm & heads & nd & sl & m1 & pc1 & E1 & E2 & E3 & Hrep & Hinv & Hheap & Hcopies & Hrest); [lia | done..|].
  step E1. step E2. clear E1 E2.
  rewrite Ea, Hb0. destruct (ao_idt _ _ _ _ Ha) as [Hli Hgates].
  destruct (irqs_ready (except_stubs env) irq_stubs timer isr (device0 w) (x86_cpu_to_apicid (cpus mp'))
    (handlers0 w) (idt a) Hchip Hb1 Hhs Hli Hgates)
    as (d1 & d2 & st1 & st2 & d3 & d4 & st3 & E1 & E2 & E4 & E5 & E6 & Hd4 & E7 & Hirqs).
  step E1. step E2. step E4. destruct (ao_percpu _ _ _ _ Ha) as [Hp12 Hp13].
  assert (Hst : start_percpu (init_mm a) = start) by congruence.
  assert (Hen : end_percpu (init_mm a) = start + Z.of_nat (length section)) by congruence.
  rewrite Hst, Hen. step E3. step E5. exists d4.
  exists {| k_cleared := scr; k_arch := a; k_processor := load_tables (4096 * (s + 3)) (processor0 w);
    k_heads := heads; k_node := nd; k_cache_cache := page_to_virt 1;
    k_slab := with_source (PageAlloc.allocated 0 0 3 (source sl)) sl; k_preempt_count := 0; k_memory := m1;
    k_percpu := pc1; k_irqs := st3; k_interrupts := true |}.
  split.
  { rewrite <- Hd4. destruct (Z.testbit (apic_reg APIC_ICR d3) 12); [by rewrite E6|]. step E6. step E7. reflexivity. }
  split; cbn [k_cleared k_arch k_processor k_slab k_cache_cache k_percpu k_memory k_irqs k_preempt_count
    k_interrupts with_source source].
  - exact Hscr.
  - exact Ea.
  - intros x Hx. rewrite load_tables_cr3. by apply (booted_tables env _ m s e k a Hboot Ha).
  - exact Hrep.
  - reflexivity.
  - exact Hinv.
  - exact Hheap.
  - exact Hcopies.
  - exact Hrest.
  - exact Hirqs.
  - reflexivity.
  - reflexivity.
Qed.

(** C3: the kernel boots. On a bootable machine [start_kernel] gets through all
    its stages, and halts only if the chip reports the last command to the other
    processors as pending after it was written. Then the screen was blank before the first
    message, the page tables in force map all of the memory, the page allocator has exactly two blocks
    (pages 1 and 2 for the table of caches, page 3 for the per-processor data)
    besides the pages taken at boot, the slab allocator's invariant holds and
    its heap is empty, every processor has its own copy of the section, each of
    the vectors leads to its entry point and the timer and the keyboard to
    their handlers, three commands were sent to the other processors, and
    interrupts are enabled. *)
Theorem kernel_boots {P D} `{LocalApic D} `{Processor P} names irq_stubs (timer isr : irq_handler_t (D := D))
    env (w : power_on P D) mp' section start m s e k z0 :
  bootable env w names mp' section start m s e k z0 ->
  exists d K, start_kernel names irq_stubs timer isr env w
      = (if Z.testbit (apic_reg APIC_ICR (apic_write APIC_ICR 0xC4609 d)) 12 then Halted else Ret K) /\
    kernel_ready irq_stubs timer isr env w mp' section start m s K.
Proof. apply start_kernel_spec. Qed.

(** ** A machine *)

(** 128 MB, a boot processor with the identifier 0 and another one, the names
    of the caches at 0x130000, the per-processor section at 0x150000. *)
Definition small_entries : list mp_entry :=
  [MpSpec.Processor 0 3 20 (replicate 16 0); MpSpec.Processor 1 1 20 (replicate 16 0);
   Bus 0 [73; 83; 65; 32; 32; 32];
   IoApic {| io_apicid := 2; io_apicver := 17; io_flags := 1; io_apicaddr := 0xFEC00000 |};
   IntSrc {| is_irqtype := 0; is_irqflag := 0; is_srcbus := 0; is_srcbusirq := 1; is_dstapic := 2;
             is_dstirq := 1 |}].

Definition small_names : list Z := (fun l => frame 0x130 + 16 * l) <$> seqZ 0 8.

Definition small_memory : bmem :=
  write_bytes (frame 0x150) percpu_section
  (foldr (fun p m => write_bytes p.1 (p.2 ++ [0]) m)
    (write_bytes (frame 3) (replicate 4096 0)
    (write_bytes (__va 0) (bytes_le 4 SMP_MAGIC_IDENT ++ bytes_le 4 0x100 ++ [1; 4; 0; 0; 0; 0; 0; 0])
    (write_bytes (__va 0x100)
       (table_header 4 0 sample_lapic (44 + table_size small_entries) (replicate 28 32) (replicate 4 0)
        ++ concat (encode_entry <$> small_entries))
    (write_bytes (__va 0x1000) (ISA ++ [0])
    (write_bytes (__va 0x1010) (PCI ++ [0])
    (write_bytes (__va 0x1020) PCMP
    (write_bytes (__va 0x2000) (replicate 7 0) ∅)))))))
    (zip small_names cache_names)).

Definition small_power_on : power_on cpu chip :=
  {| screen0 := garbage_screen; mm0 := blank_mm; cpu0 := blank_cpuinfo; mp0 := boot_tables;
     node0 := empty_node; percpu0 := {| cpu_offset := replicate 5 0; percpu_buf := 0 |};
     handlers0 := replicate 32 None; processor0 := sample_cpu 0xA0; device0 := sample_chip |}.

Definition sample_isr : irq_handler_t (D := chip) := fun _ d => Ret d.

Definition small_mp : mp_state :=
  match read_mp (small_env small_memory) boot_tables with Ret st => st | _ => boot_tables end.

Lemma small_mp_read :
  read_mp (small_env small_memory) boot_tables = Ret small_mp /\
  boot_cpu_id (cpus small_mp) = 0 /\ x86_cpu_to_apicid (cpus small_mp) !! 0%nat = Some 0.
Proof. vm_compute. split; [reflexivity | split; reflexivity]. Qed.

Lemma small_names_at : names_at small_memory small_names.
Proof.
  repeat (apply Forall2_cons_2; [split; [done|]; split; [by vm_compute | repeat constructor; lia]|]).
  apply Forall2_nil_2.
Qed.

Lemma small_page_mapped : mapped small_memory (page_to_virt 3) 4096.
Proof.
  unfold small_memory. apply write_bytes_mapped.
  assert (Hf : forall l m, mapped m (page_to_virt 3) 4096 ->
    mapped (foldr (fun (p : Z * list Z) m => write_bytes p.1 (p.2 ++ [0]) m) m l) (page_to_virt 3) 4096).
  { induction l as [|p l IH]; intros m Hm; [done|]. cbn [foldr]. by apply write_bytes_mapped, IH. }
  apply Hf. intros x Hx. rewrite write_bytes_lookup, length_replicate.
  change (page_to_virt 3) with (frame 3) in Hx. rewrite decide_True by lia.
  apply lookup_lt_is_Some_2. rewrite length_replicate. lia.
Qed.

Lemma small_bootable :
  bootable (small_env small_memory) small_power_on small_names small_mp percpu_section (frame 0x150)
    128 0x200 8 5 garbage_zone.
Proof.
  split; [exact (small_env_ok small_memory)|]. split.
  - exact (proj1 small_mp_read).
  - exact (proj2 small_mp_read).
  - split; [reflexivity | reflexivity | reflexivity | vm_compute; discriminate].
  - exact small_names_at.
  - split; reflexivity.
  - split; [reflexivity | split; reflexivity].
  - split; reflexivity.
  - split; [apply bytes_at_written|]. split; [split; apply Nat.leb_le; reflexivity|].
    split; [vm_compute; discriminate | reflexivity].
  - split; [exact small_page_mapped | right; vm_compute; discriminate].
Qed.

(** On this machine the chip delivers the commands, so the kernel runs. *)
Lemma kernel_boots_witness :
  exists d K, start_kernel small_names (fun n => 0xFFFF800000102000 + 16 * n) (fun _ d => Ret d) sample_isr
      (small_env small_memory) small_power_on
      = (if Z.testbit (apic_reg APIC_ICR (apic_write APIC_ICR 0xC4609 d)) 12 then Halted else Ret K) /\
    mp (k_arch K) = small_mp /\ k_cache_cache K = page_to_virt 1 /\ k_interrupts K = true.
Proof.
  destruct (kernel_boots small_names (fun n => 0xFFFF800000102000 + 16 * n) (fun _ d => Ret d) sample_isr
    (small_env small_memory) small_power_on small_mp percpu_section (frame 0x150) 128 0x200 8 5 garbage_zone
    small_bootable) as (d & K & E & [_ H1 _ _ H2 _ _ _ _ _ _ H3]).
  exists d, K. exact (conj E (conj H1 (conj H2 H3))).
Defined.
