(* ===== verification/Ram.v ===== *)
(** * Memory as the boot loader sees it

    The bytes at physical addresses, words of several bytes in them, the
    addresses and the stack of real mode. Used by A20 (a20.inc) and BootLoader
    (bootsect.asm, setup.asm). *)

From S2P Require Import Prelude.

(** ** Memory *)

Abbreviation ram := (Z -> Z).

(** [n] bytes at [a], the least significant first. *)
Fixpoint load (n : nat) (a : Z) (r : ram) : Z :=
  match n with O => 0 | S n => r a + 256 * load n (a + 1) r end.

Definition store (n : nat) (a v : Z) (r : ram) : ram :=
  fun x => if decide (a <= x < a + Z.of_nat n) then v / 256 ^ (x - a) mod 256 else r x.

Definition store_bytes (a : Z) (bs : list Z) (r : ram) : ram :=
  fun x => if decide (a <= x < a + Z.of_nat (length bs)) then bs !!! Z.to_nat (x - a) else r x.

(** ** Real mode *)

Definition BOOT_SEG : Z := 0x7c0.

(** A real-mode address: the offset has 16 bits. *)
Definition far (seg off : Z) : Z := 16 * seg + u16 off.

(** PUSH and POP of [n] bytes in the segment of the boot sector: the stack
    pointer and the memory. *)
Definition push_at (n : nat) (v sp : Z) (r : ram) : Z * ram :=
  let sp := u16 (sp - Z.of_nat n) in (sp, store n (far BOOT_SEG sp) v r).

Definition pop_at (n : nat) (sp : Z) (r : ram) : Z * Z :=
  (load n (far BOOT_SEG sp) r, u16 (sp + Z.of_nat n)).

(** ** Lemmas *)

Lemma store_in n a v r x : a <= x < a + Z.of_nat n -> store n a v r x = v / 256 ^ (x - a) mod 256.
Proof. intros Hx. unfold store. by rewrite decide_True. Qed.

Lemma store_out n a v r x : ~ (a <= x < a + Z.of_nat n) -> store n a v r x = r x.
Proof. intros Hx. unfold store. by rewrite decide_False. Qed.

Lemma load_ext n : forall a r r', (forall x, a <= x < a + Z.of_nat n -> r' x = r x) -> load n a r' = load n a r.
Proof.
  induction n as [|n IH]; intros a r r' Hx; [done|]. cbn [load]. rewrite Hx by lia. f_equal. f_equal.
  apply IH. intros x Hx'. apply Hx. lia.
Qed.

Lemma load_digits n : forall a v r,
  (forall i, 0 <= i < Z.of_nat n -> r (a + i) = v / 256 ^ i mod 256) -> load n a r = v mod 256 ^ Z.of_nat n.
Proof.
  induction n as [|n IH]; intros a v r Hr; [by rewrite Z.pow_0_r, Z.mod_1_r|]. cbn [load].
  rewrite (IH (a + 1) (v / 256)).
  - pose proof (Hr 0 ltac:(lia)) as H0. rewrite Z.add_0_r, Z.pow_0_r, Z.div_1_r in H0. rewrite H0.
    rewrite Nat2Z.inj_succ, Z.pow_succ_r by lia. rewrite Z.rem_mul_r by lia. done.
  - intros i Hi. replace (a + 1 + i) with (a + (i + 1)) by lia. rewrite Hr by lia.
    rewrite Z.pow_add_r, Z.pow_1_r by lia. rewrite Z.div_div by lia. do 2 f_equal. lia.
Qed.

Lemma load_store n a v r : load n a (store n a v r) = v mod 256 ^ Z.of_nat n.
Proof. apply load_digits. intros i Hi. rewrite store_in by lia. do 3 f_equal. lia. Qed.

Lemma load_store_other n m a b v r :
  a + Z.of_nat n <= b \/ b + Z.of_nat m <= a -> load n a (store m b v r) = load n a r.
Proof. intros Hd. apply load_ext. intros x Hx. apply store_out. lia. Qed.

Lemma load_app n m : forall a r,
  load (n + m) a r = load n a r + 256 ^ Z.of_nat n * load m (a + Z.of_nat n) r.
Proof.
  induction n as [|n IH]; intros a r; [cbn [load Nat.add]; rewrite Z.add_0_r, Z.pow_0_r; lia|].
  cbn [load Nat.add]. rewrite IH, Nat2Z.inj_succ, Z.pow_succ_r by lia.
  replace (a + Z.succ (Z.of_nat n)) with (a + 1 + Z.of_nat n) by lia. lia.
Qed.

Lemma load_zero n : forall a r, (forall x, a <= x < a + Z.of_nat n -> r x = 0) -> load n a r = 0.
Proof.
  induction n as [|n IH]; intros a r Hr; [done|]. cbn [load]. rewrite Hr, IH by (try intros x Hx; try apply Hr; lia).
  done.
Qed.

Lemma store_bytes_in a bs r i b : bs !! i = Some b -> store_bytes a bs r (a + Z.of_nat i) = b.
Proof.
  intros Hi. pose proof (lookup_lt_Some _ _ _ Hi). unfold store_bytes. rewrite decide_True by lia.
  apply list_lookup_total_correct. rewrite <- Hi. f_equal. lia.
Qed.

Lemma store_bytes_out a bs r x : ~ (a <= x < a + Z.of_nat (length bs)) -> store_bytes a bs r x = r x.
Proof. intros Hx. unfold store_bytes. by rewrite decide_False. Qed.

Lemma load_store_bytes n a b bs r :
  a + Z.of_nat n <= b \/ b + Z.of_nat (length bs) <= a -> load n a (store_bytes b bs r) = load n a r.
Proof. intros Hd. apply load_ext. intros x Hx. apply store_bytes_out. lia. Qed.

Lemma far_low seg off : 0 <= off < 0x10000 -> far seg off = 16 * seg + off.
Proof. intros Ho. unfold far. by rewrite wrap_small by (change (2 ^ 16) with 0x10000; lia). Qed.

(** The bytes of a word. *)
Lemma word_byte n : forall a r i, (forall y, a <= y < a + Z.of_nat n -> 0 <= r y < 256) -> 0 <= i < Z.of_nat n ->
  load n a r / 256 ^ i mod 256 = r (a + i).
Proof.
  induction n as [|n IH]; intros a r i Hb Hi; [lia|]. cbn [load]. pose proof (Hb a ltac:(lia)).
  rewrite (Z.mul_comm 256). destruct (decide (i = 0)) as [->|].
  - rewrite Z.pow_0_r, Z.div_1_r, Z.mod_add, Z.add_0_r by lia. by apply Z.mod_small.
  - replace (256 ^ i) with (256 * 256 ^ (i - 1)) by (rewrite <- Z.pow_succ_r by lia; f_equal; lia).
    rewrite <- Z.div_div by lia. rewrite Z.div_add by lia. rewrite (Z.div_small (r a)) by lia.
    rewrite Z.add_0_l. rewrite IH by (try (intros y Hy; apply Hb); lia). f_equal. lia.
Qed.
