(* ===== verification/A20.v ===== *)
(** * The A20 line (a20.inc)

    [a20_try_loop] opens the gate that masks bit 20 of addresses: it asks the
    BIOS, then the keyboard controller, then port A, and tests after each
    whether the gate is open. The hardware is a parameter ([chipset]): whether
    the gate is open in a state, and how ports and the BIOS change the state.
    The stack is in memory; the stack and the data of the BIOS are left out. *)

From S2P Require Import Prelude Ram.

(** The hardware: its gate, service 0x15 of the BIOS on AX, and the ports. *)
Record chipset (H : Type) := {
  gate : H -> bool;
  bios15 : Z -> H -> Z * H;
  inb : Z -> H -> Z * H;
  outb : Z -> Z -> H -> H
}.
Arguments gate {H}.
Arguments bios15 {H}.
Arguments inb {H}.
Arguments outb {H}.

(** The byte [a20_tries], the registers the code uses, memory and hardware. *)
Record a20_state (H : Type) := {
  a20_tries : Z; eax : Z; ecx : Z; a_sp : Z; a_ram : ram; hw : H
}.
Arguments a20_tries {H}.
Arguments eax {H}.
Arguments ecx {H}.
Arguments a_sp {H}.
Arguments a_ram {H}.
Arguments hw {H}.
Arguments Build_a20_state {H}.

Definition A20_TEST_LOOPS : Z := 32.
Definition A20_ENABLE_LOOPS : Z := 255.
Definition A20_TEST_ADDR : Z := 4 * 0x80.

Section A20.

(** [ra n] is the return address of the call in line [n] of a20.inc. *)
Context {H : Type} (m : chipset H) (ra : Z -> Z) (eflags : Z).

Abbreviation st := (a20_state H).

(** *** Registers *)

Definition with_eax (v : Z) (s : st) : st := Build_a20_state (a20_tries s) v (ecx s) (a_sp s) (a_ram s) (hw s).
Definition with_ecx (v : Z) (s : st) : st := Build_a20_state (a20_tries s) (eax s) v (a_sp s) (a_ram s) (hw s).
Definition with_stack (sp : Z) (r : ram) (s : st) : st :=
  Build_a20_state (a20_tries s) (eax s) (ecx s) sp r (hw s).
Definition with_hw (h : H) (s : st) : st := Build_a20_state (a20_tries s) (eax s) (ecx s) (a_sp s) (a_ram s) h.

Definition ax (s : st) : Z := u16 (eax s).
Definition cx (s : st) : Z := u16 (ecx s).
Definition al (s : st) : Z := u8 (eax s).

(** A write to the low part of a register keeps the rest. *)
Definition low (w v old : Z) : Z := 2 ^ w * (old / 2 ^ w) + wrap w v.
Definition set_ax (v : Z) (s : st) : st := with_eax (low 16 v (eax s)) s.
Definition set_cx (v : Z) (s : st) : st := with_ecx (low 16 v (ecx s)) s.
Definition set_al (v : Z) (s : st) : st := with_eax (low 8 v (eax s)) s.

(** *** Instructions *)

Definition push (n : nat) (v : Z) (s : st) : st :=
  let '(sp, r) := push_at n v (a_sp s) (a_ram s) in with_stack sp r s.

Definition pop (n : nat) (s : st) : Z * st :=
  let '(v, sp) := pop_at n (a_sp s) (a_ram s) in (v, with_stack sp (a_ram s) s).

(** CALL in line [k] of a function that ends with RET. *)
Definition call {A} (k : Z) (f : st -> res (A * st)) (s : st) : res (A * st) :=
  '(a, s) ← f (push 2 (ra k) s);
  let '(v, s) := pop 2 s in
  if v =? ra k then Ret (a, s) else Fault.

Definition out (p v : Z) (s : st) : st := with_hw (outb m p v (hw s)) s.

Definition in_al (p : Z) (s : st) : st := let '(v, h) := inb m p (hw s) in set_al v (with_hw h s).

(** Without the gate bit 20 of every address is 0. *)
Definition phys (h : H) (a : Z) : Z := if gate m h then a else Z.clearbit a 20.

Definition word_at (seg off : Z) (s : st) : Z := load 2 (phys (hw s) (far seg off)) (a_ram s).

Definition set_word (seg off v : Z) (s : st) : st :=
  with_stack (a_sp s) (store 2 (phys (hw s) (far seg off)) v (a_ram s)) s.

(** *** The routines *)

Definition delay (s : st) : res (unit * st) := Ret (tt, out 0x80 (al s) s).

(** The zero flag of the comparison: LOOP does not look at it. *)
Fixpoint a20_test_wait (fuel : nat) (fs gs : Z) (s : st) : res (bool * st) :=
  match fuel with
  | O => NoFuel
  | S fuel =>
      let s := set_ax (ax s + 1) s in
      let s := set_word fs A20_TEST_ADDR (ax s) s in
      '(_, s) ← call 110 delay s;
      let zf := ax s =? word_at gs (A20_TEST_ADDR + 0x10) s in
      let s := set_cx (cx s - 1) s in
      if cx s =? 0 then Ret (zf, s) else a20_test_wait fuel fs gs s
  end.

(** The result is the zero flag, which the instructions behind the loop
    keep. *)
Definition a20_test (s : st) : res (bool * st) :=
  let s := push 2 (cx s) s in
  let s := push 2 (ax s) s in
  let s := set_cx 0 s in
  let fs := cx s in
  let s := set_cx (cx s - 1) s in
  let gs := cx s in
  let s := set_cx A20_TEST_LOOPS s in
  let s := set_ax (word_at fs A20_TEST_ADDR s) s in
  let s := push 2 (ax s) s in
  '(zf, s) ← a20_test_wait (Z.to_nat A20_TEST_LOOPS) fs gs s;
  let '(v, s) := pop 2 s in
  let s := set_word fs A20_TEST_ADDR v s in
  let '(v, s) := pop 2 s in
  let s := set_ax v s in
  let '(v, s) := pop 2 s in
  Ret (zf, set_cx v s).

Fixpoint empty_8042_loop (fuel : nat) (s : st) : res (unit * st) :=
  match fuel with
  | O => NoFuel
  | S fuel =>
      let s := with_ecx (u32 (ecx s - 1)) s in
      if ecx s =? 0 then Ret (tt, s)
      else
        '(_, s) ← call 128 delay s;
        let s := in_al 0x64 s in
        if Z.land (al s) 1 =? 0 then
          if Z.land (al s) 2 =? 0 then Ret (tt, s) else empty_8042_loop fuel s
        else
          '(_, s) ← call 134 delay s;
          empty_8042_loop fuel (in_al 0x60 s)
  end.

Definition empty_8042 (s : st) : res (unit * st) :=
  let s := push 4 (ecx s) s in
  let s := with_ecx 100000 s in
  '(_, s) ← empty_8042_loop (Z.to_nat 100000) s;
  let '(v, s) := pop 4 s in
  Ret (tt, with_ecx v s).

(** The loops that wait for the gate, with the test in line [k]: true when it
    is open. 0 in CX means 65536. *)
Fixpoint a20_wait_loop (fuel : nat) (k : Z) (s : st) : res (bool * st) :=
  match fuel with
  | O => NoFuel
  | S fuel =>
      '(zf, s) ← call k a20_test s;
      if negb zf then Ret (true, s)
      else
        let s := set_cx (cx s - 1) s in
        if cx s =? 0 then Ret (false, s) else a20_wait_loop fuel k s
  end.

Definition a20_wait (k : Z) (s : st) : res (bool * st) :=
  a20_wait_loop (Z.to_nat 0x10000) k (set_cx 0 s).

(** The parts of one try: each says whether it jumped to [a20_done]. *)
Definition a20_none (s : st) : res (bool * st) :=
  '(zf, s) ← call 28 a20_test s; Ret (negb zf, s).

Definition a20_bios (s : st) : res (bool * st) :=
  let s := set_ax 0x2401 s in
  let s := push 4 eflags s in
  let '(v, h) := bios15 m (ax s) (hw s) in
  let s := set_ax v (with_hw h s) in
  let '(_, s) := pop 4 s in
  '(zf, s) ← call 38 a20_test s; Ret (negb zf, s).

Definition a20_kbc (s : st) : res (bool * st) :=
  '(_, s) ← call 43 empty_8042 s;
  '(zf, s) ← call 45 a20_test s;
  if negb zf then Ret (true, s)
  else
    let s := set_al 0xD1 s in
    let s := out 0x64 (al s) s in
    '(_, s) ← call 50 empty_8042 s;
    let s := set_al 0xDF s in
    let s := out 0x60 (al s) s in
    '(_, s) ← call 54 empty_8042 s;
    a20_wait 62 s.

Definition a20_fast (s : st) : res (bool * st) :=
  let s := in_al 0x92 s in
  let s := set_al (Z.lor (al s) 0x02) s in
  let s := set_al (Z.land (al s) 0xFE) s in
  let s := out 0x92 (al s) s in
  a20_wait 77 s.

(** [f], and [g] if [f] did not jump to [a20_done]. *)
Definition or_else (f g : st -> res (bool * st)) (s : st) : res (bool * st) :=
  '(d, s) ← f s; if d : bool then Ret (true, s) else g s.

Definition a20_try : st -> res (bool * st) :=
  or_else a20_none (or_else a20_bios (or_else a20_kbc a20_fast)).

(** [a20_die] stops the machine. *)
Fixpoint a20_tries_loop (fuel : nat) (s : st) : res (unit * st) :=
  match fuel with
  | O => NoFuel
  | S fuel =>
      '(d, s) ← a20_try s;
      if d : bool then Ret (tt, s)
      else
        let t := u8 (a20_tries s - 1) in
        let s := Build_a20_state t (eax s) (ecx s) (a_sp s) (a_ram s) (hw s) in
        if t =? 0 then Halted else a20_tries_loop fuel s
  end.

(** The byte [a20_tries] starts with [A20_ENABLE_LOOPS]; 256 passes are enough
    for any byte. *)
Definition a20_try_loop (s : st) : res (unit * st) := a20_tries_loop (Z.to_nat 0x100) s.

(** ** Lemmas *)

(** *** Registers and the stack *)

Hypothesis Hra : forall k, 0 <= ra k < 0x10000.

Lemma low_wrap w v old : 0 <= w -> wrap w (low w v old) = wrap w v.
Proof.
  intros Hw. unfold low, wrap. rewrite Z.add_comm, Z.mul_comm, Z.mod_add by lia. apply Zmod_mod.
Qed.

Lemma push_eq n v s : Z.of_nat n <= a_sp s < 0x10000 ->
  push n v s = with_stack (a_sp s - Z.of_nat n) (store n (0x7c00 + (a_sp s - Z.of_nat n)) v (a_ram s)) s.
Proof.
  intros Hs. unfold push, push_at. rewrite wrap_small by (change (2 ^ 16) with 0x10000; lia).
  by rewrite far_low by lia.
Qed.

Lemma pop_eq n s : 0 <= a_sp s -> a_sp s + Z.of_nat n < 0x10000 ->
  pop n s = (load n (0x7c00 + a_sp s) (a_ram s), with_stack (a_sp s + Z.of_nat n) (a_ram s) s).
Proof.
  intros H0 Hs. unfold pop, pop_at. rewrite wrap_small by (change (2 ^ 16) with 0x10000; lia).
  by rewrite far_low by lia.
Qed.

(** The part of the stack the code may use, and the word the test writes. *)
Definition below_stack (s : st) (x : Z) : Prop := 0x17B00 <= x < 0x7c00 + a_sp s.
Definition test_word (x : Z) : Prop := 0x200 <= x < 0x202.
Definition nothing (x : Z) : Prop := False.

(** What a routine leaves as it was, except where [P] lets it write. *)
Record kept (P : Z -> Prop) (s s' : st) : Prop := {
  kept_sp : a_sp s' = a_sp s;
  kept_tries : a20_tries s' = a20_tries s;
  kept_ram : forall x, ~ below_stack s x -> ~ P x -> a_ram s' x = a_ram s x
}.

Lemma kept_refl P s : kept P s s.
Proof. by split. Qed.

Lemma kept_trans P s1 s2 s3 : kept P s1 s2 -> kept P s2 s3 -> kept P s1 s3.
Proof.
  intros [S1 T1 R1] [S2 T2 R2]. split; [congruence | congruence |]. intros x Hx HP.
  rewrite R2; [by apply R1 | unfold below_stack in *; by rewrite S1 | done].
Qed.

Lemma kept_weaken s s' P : kept nothing s s' -> kept P s s'.
Proof. intros [S T R]. split; [done..|]. intros x Hx _. apply R; [done | exact id]. Qed.

(** A change of registers and hardware alone. *)
Lemma kept_same P s s' :
  a_sp s' = a_sp s -> a20_tries s' = a20_tries s -> a_ram s' = a_ram s -> kept P s s'.
Proof. intros S T R. split; [done..|]. intros x _ _. by rewrite R. Qed.

(** What is pushed comes back, and below the stack nothing matters. *)
Lemma pushed P n v s s2 : (0 < n)%nat -> 0xFF00 + Z.of_nat n <= a_sp s < 0x10000 ->
  (forall x, P x -> x < 0x17B00) -> kept P (push n v s) s2 ->
  pop n s2 = (v mod 256 ^ Z.of_nat n, with_stack (a_sp s) (a_ram s2) s2) /\
  kept P s (with_stack (a_sp s) (a_ram s2) s2).
Proof.
  intros Hn Hs HP [S T R]. rewrite push_eq in S, T, R by lia. unfold below_stack in R. cbn in S, T, R.
  split; [|split].
  - rewrite pop_eq, S by lia. f_equal; [|f_equal; lia].
    rewrite <- (load_store n (0x7c00 + (a_sp s - Z.of_nat n)) v (a_ram s)). apply load_ext.
    intros x Hx. apply R; [lia|]. intros HPx. specialize (HP x HPx). lia.
  - done.
  - done.
  - intros x Hx HPx. unfold below_stack in Hx. cbn [with_stack a_ram]. rewrite R by (lia || done).
    apply store_out. lia.
Qed.

Lemma call_ok {A} P k (f : st -> res (A * st)) s a s2 : 0xFF02 <= a_sp s < 0x10000 ->
  (forall x, P x -> x < 0x17B00) -> f (push 2 (ra k) s) = Ret (a, s2) -> kept P (push 2 (ra k) s) s2 ->
  call k f s = Ret (a, with_stack (a_sp s) (a_ram s2) s2) /\ kept P s (with_stack (a_sp s) (a_ram s2) s2).
Proof.
  intros Hs HP Hf Hk. destruct (pushed P 2 (ra k) s s2 ltac:(lia) ltac:(lia) HP Hk) as [Hp Hk'].
  split; [|done]. unfold call. step Hf. rewrite Hp. pose proof (Hra k).
  rewrite Z.mod_small by (change (256 ^ Z.of_nat 2) with 0x10000; lia). by rewrite Z.eqb_refl.
Qed.

(** *** The hardware *)

(** One wait of the code, and the ways it waits for the controller. *)
Definition delayed (h h' : H) : Prop := exists v, h' = outb m 0x80 v h.

Inductive waited : H -> H -> Prop :=
| wait_delay h v : waited h (outb m 0x80 v h)
| wait_status h : waited h (inb m 0x64 h).2
| wait_data h : waited h (inb m 0x60 h).2.

Lemma nothing_low x : nothing x -> x < 0x17B00.
Proof. intros []. Qed.

Lemma test_word_low x : test_word x -> x < 0x17B00.
Proof. unfold test_word. lia. Qed.

Lemma call_delay k s : 0xFF02 <= a_sp s < 0x10000 ->
  exists s', call k delay s = Ret (tt, s') /\ kept nothing s s' /\ eax s' = eax s /\ ecx s' = ecx s /\
    hw s' = outb m 0x80 (al s) (hw s).
Proof.
  intros Hs. destruct (call_ok nothing k delay s tt (out 0x80 (al s) (push 2 (ra k) s)) Hs nothing_low) as [E Hk].
  - reflexivity.
  - by apply kept_same.
  - eexists. split; [exact E|]. by split.
Qed.

(** *** The test *)

(** The word above 1 MB happens to be what the last pass of the test writes. *)
Definition coincides (r : ram) : bool := u16 (load 2 0x200 r + A20_TEST_LOOPS) =? load 2 0x100200 r.

Lemma phys_low h : phys h 0x200 = 0x200.
Proof. unfold phys. by destruct (gate m h). Qed.

Lemma phys_high h : phys h 0x100200 = if gate m h then 0x100200 else 0x200.
Proof. unfold phys. by destruct (gate m h). Qed.

Lemma ax_set_ax v s : ax (set_ax v s) = u16 v.
Proof. apply low_wrap. lia. Qed.

Lemma cx_set_cx v s : cx (set_cx v s) = u16 v.
Proof. apply low_wrap. lia. Qed.

(** One pass. *)
Lemma test_pass s : 0xFF02 <= a_sp s < 0x10000 ->
  let s1 := set_ax (ax s + 1) s in
  let s2 := set_word 0 A20_TEST_ADDR (ax s1) s1 in
  exists s', call 110 delay s2 = Ret (tt, s') /\ kept test_word s s' /\ ax s' = u16 (ax s + 1) /\ cx s' = cx s /\
    delayed (hw s) (hw s') /\
    word_at 0xFFFF (A20_TEST_ADDR + 0x10) s'
      = if gate m (hw s') then load 2 0x100200 (a_ram s) else u16 (ax s + 1).
Proof.
  intros Hs s1 s2. destruct (call_delay 110 s2 Hs) as (s' & E & Hk & Ea & Ec & Eh). exists s'.
  assert (R2 : a_ram s2 = store 2 0x200 (ax s1) (a_ram s))
    by (unfold s2, set_word; cbn [with_stack a_ram]; by rewrite phys_low).
  assert (Hx : ax s1 = u16 (ax s + 1)) by apply ax_set_ax.
  destruct Hk as [Sk Tk Rk]. split; [exact E|]. split; [|split; [|split; [|split]]].
  - split; [exact Sk | exact Tk |]. intros x Hb Ht. rewrite Rk by (exact Hb || exact id). rewrite R2.
    apply store_out. unfold test_word in Ht. lia.
  - unfold ax at 1. rewrite Ea. exact Hx.
  - unfold cx. by rewrite Ec.
  - rewrite Eh. by eexists.
  - unfold word_at. change (far 0xFFFF (A20_TEST_ADDR + 0x10)) with 0x100200. rewrite phys_high.
    assert (Hl : forall a, a = 0x200 \/ a = 0x100200 -> load 2 a (a_ram s') = load 2 a (a_ram s2)).
    { intros a Ha. apply load_ext. intros x Hx'. apply Rk; [|exact id]. unfold below_stack.
      change (a_sp s2) with (a_sp s). lia. }
    destruct (gate m (hw s')); rewrite Hl, R2 by auto.
    + apply load_store_other. lia.
    + rewrite load_store, Hx. apply wrap_wrap.
Qed.

Lemma a20_test_wait_spec n : forall fuel s,
  (n < fuel)%nat -> 0xFF02 <= a_sp s < 0x10000 -> cx s = Z.of_nat n + 1 ->
  exists zf s', a20_test_wait fuel 0 0xFFFF s = Ret (zf, s') /\ kept test_word s s' /\
    nsteps delayed (S n) (hw s) (hw s') /\
    zf = if gate m (hw s') then u16 (ax s + (Z.of_nat n + 1)) =? load 2 0x100200 (a_ram s) else true.
Proof.
  induction n as [|n IH]; intros fuel s Hf Hs Hc; (destruct fuel as [|fuel]; [lia|]); cbn [a20_test_wait];
    (destruct (test_pass s Hs) as (s1 & E & Hk & Ea & Ec & Hd & Ew)); step E;
    (assert (Hlt : cx s < 0x10000) by (apply (wrap_range 16); lia));
    rewrite cx_set_cx, Ec, Hc.
  - change (u16 (Z.of_nat 0 + 1 - 1) =? 0) with true. cbv iota. eexists _, _. split; [reflexivity|].
    split; [destruct Hk as [K1 K2 K3]; by split|]. split; [by apply nsteps_once|]. rewrite Ea, Ew.
    cbn [set_cx with_ecx hw]. destruct (gate m (hw s1)); [done|]. apply Z.eqb_refl.
  - rewrite wrap_small by (change (2 ^ 16) with 0x10000; lia). rewrite (proj2 (Z.eqb_neq _ _)) by lia.
    destruct (IH fuel (set_cx (cx s1 - 1) s1)) as (zf & s' & E' & Hk' & Hd' & Hz).
    + lia.
    + cbn [set_cx with_ecx a_sp]. by rewrite (kept_sp _ _ _ Hk).
    + rewrite cx_set_cx, Ec, Hc, wrap_small by (change (2 ^ 16) with 0x10000; lia). lia.
    + exists zf, s'. split; [by rewrite <- Hc, <- Ec|]. split.
      { eapply kept_trans; [exact Hk|]. destruct Hk' as [K1 K2 K3]. by split. }
      split; [eapply nsteps_l; [exact Hd | exact Hd']|]. rewrite Hz.
      change (ax (set_cx (cx s1 - 1) s1)) with (ax s1). rewrite Ea, wrap_add_l.
      replace (ax s + 1 + (Z.of_nat n + 1)) with (ax s + (Z.of_nat (S n) + 1)) by lia.
      destruct (gate m (hw s')); [|done]. f_equal. apply load_ext. intros x Hx.
      destruct Hk as [K1 K2 K3]. apply K3; unfold below_stack, test_word; lia.
Qed.

(** The two bytes of the word are bytes. *)
Definition word_ok (r : ram) : Prop := forall x, test_word x -> 0 <= r x < 256.

Lemma kept_word s s' : kept nothing s s' -> word_ok (a_ram s) -> a_sp s < 0x10000 ->
  word_ok (a_ram s') /\ coincides (a_ram s') = coincides (a_ram s).
Proof.
  intros [S T R] Hw Hs. unfold word_ok, test_word, below_stack in *. split.
  - intros x Hx. rewrite R by (lia || exact id). by apply Hw.
  - unfold coincides. f_equal; [f_equal; f_equal|]; apply load_ext; intros x Hx; apply R; (lia || exact id).
Qed.

(** The word is put back. *)
Lemma test_restored s s2 v : word_ok (a_ram s) -> a_sp s < 0x10000 -> v = load 2 0x200 (a_ram s) ->
  kept test_word s s2 -> kept nothing s (set_word 0 A20_TEST_ADDR v s2).
Proof.
  intros Hw Hs -> [S T R]. split; [exact S | exact T |]. intros x Hx _. cbn [set_word with_stack a_ram].
  change (far 0 A20_TEST_ADDR) with 0x200. rewrite phys_low. destruct (decide (test_word x)) as [Ht|Ht].
  - unfold test_word in Ht. rewrite store_in by lia. rewrite word_byte by (lia || exact Hw). f_equal. lia.
  - rewrite store_out by (unfold test_word in Ht; lia). by apply R.
Qed.

(** The test never says that a closed gate is open, and says that an open one
    is closed only when the words coincide. *)
Lemma a20_test_spec s : 0xFF10 <= a_sp s < 0x10000 -> word_ok (a_ram s) ->
  exists zf s', a20_test s = Ret (zf, s') /\ kept nothing s s' /\ cx s' = cx s /\
    nsteps delayed 32 (hw s) (hw s') /\ zf = if gate m (hw s') then coincides (a_ram s) else true.
Proof.
  intros Hs Hw. unfold a20_test. cbv zeta. rewrite !cx_set_cx. change (u16 (u16 0 - 1)) with 0xFFFF.
  change (u16 0) with 0. set (sA := push 2 (cx s) s). set (sB := push 2 (ax s) sA).
  set (sE := set_cx A20_TEST_LOOPS _). set (sC := set_ax (word_at 0 A20_TEST_ADDR sE) sE).
  assert (EB : a_sp sB = a_sp s - 4 /\ forall a, a + 2 <= 0x17B00 \/ 0x100000 <= a -> load 2 a (a_ram sB) = load 2 a (a_ram s)).
  { assert (Es : a_sp sA = a_sp s - 2) by (unfold sA; rewrite push_eq by lia; reflexivity).
    split; [unfold sB; rewrite push_eq by lia; cbn [with_stack a_sp]; lia|]. intros a Ha.
    unfold sB. rewrite push_eq by lia. cbn [with_stack a_ram]. rewrite load_store_other by lia.
    unfold sA. rewrite push_eq by lia. cbn [with_stack a_ram]. apply load_store_other. lia. }
  destruct EB as [SB LB]. change (a_sp sB) with (a_sp sC) in SB. change (a_ram sB) with (a_ram sC) in LB.
  assert (HwC : word_ok (a_ram sC)).
  { intros x Hx. unfold test_word in Hx. change (a_ram sC) with (a_ram sB). unfold sB, sA.
    rewrite !push_eq by (rewrite ?push_eq by lia; cbn [with_stack a_sp]; lia). cbn [with_stack a_ram a_sp].
    rewrite !store_out by lia. by apply Hw. }
  assert (Hax : ax sC = load 2 0x200 (a_ram s)).
  { unfold sC. rewrite ax_set_ax. unfold word_at. change (far 0 A20_TEST_ADDR) with 0x200. rewrite phys_low.
    change (a_ram sE) with (a_ram sC). rewrite LB by lia. apply wrap_small. cbn [load].
    pose proof (Hw 0x200 ltac:(unfold test_word; lia)). pose proof (Hw 0x201 ltac:(unfold test_word; lia)).
    change (0x200 + 1) with 0x201. change (2 ^ 16) with 0x10000. lia. }
  set (sD := push 2 (ax sC) sC).
  destruct (a20_test_wait_spec 31 (Z.to_nat A20_TEST_LOOPS) sD) as (zf & s2 & E & Hk & Hd & Hz).
  { unfold A20_TEST_LOOPS. lia. }
  { unfold sD. rewrite push_eq by lia. cbn [with_stack a_sp]. lia. }
  { change (cx sD) with (cx sE). unfold sE. by rewrite cx_set_cx. }
  step E. destruct (pushed test_word 2 (ax sC) sC s2 ltac:(lia) ltac:(lia) test_word_low Hk) as [E3 Hk3].
  rewrite E3. clear E3. pose proof (wrap_range 16 (eax sC) ltac:(lia)) as Hr. fold (ax sC) in Hr.
  rewrite (Z.mod_small (ax sC)) by exact Hr.
  pose proof (test_restored sC _ (ax sC) HwC ltac:(lia) ltac:(rewrite Hax, LB by lia; reflexivity) Hk3) as Hk4.
  set (s4 := set_word 0 A20_TEST_ADDR (ax sC) _) in *.
  assert (Hk4' : kept nothing (push 2 (ax s) sA) s4) by (destruct Hk4 as [K1 K2 K3]; by split).
  assert (SA : a_sp sA = a_sp s - 2) by (unfold sA; rewrite push_eq by lia; reflexivity).
  destruct (pushed nothing 2 (ax s) sA s4 ltac:(lia) ltac:(lia) nothing_low Hk4') as [E5 Hk5]. rewrite E5. clear E5.
  set (s5 := with_stack (a_sp sA) (a_ram s4) s4) in *.
  assert (Hk5' : kept nothing (push 2 (cx s) s) (set_ax (ax s mod 256 ^ Z.of_nat 2) s5))
    by (destruct Hk5 as [K1 K2 K3]; by split).
  destruct (pushed nothing 2 (cx s) s _ ltac:(lia) ltac:(lia) nothing_low Hk5') as [E6 Hk6]. rewrite E6. clear E6.
  eexists _, _. split; [reflexivity|]. split; [|split; [|split]].
  - destruct Hk6 as [K1 K2 K3]. by split.
  - rewrite cx_set_cx. change (256 ^ Z.of_nat 2) with (2 ^ 16). fold (u16 (cx s)). rewrite wrap_wrap. apply wrap_wrap.
  - exact Hd.
  - rewrite Hz. change (hw (set_cx _ _)) with (hw s2). destruct (gate m (hw s2)); [|done].
    unfold coincides, A20_TEST_LOOPS. change (ax sD) with (ax sC). rewrite Hax. f_equal.
    unfold sD. rewrite push_eq by lia. cbn [with_stack a_ram]. rewrite load_store_other by lia. apply LB. lia.
Qed.

(** The result of a part of a try, for the word above 1 MB of the state [s] it
    starts in: true only when the gate is open, false only when it is closed or
    the words coincide. *)
Definition outcome (s : st) (d : bool) (s' : st) : Prop :=
  if d then gate m (hw s') = true /\ coincides (a_ram s) = false
  else coincides (a_ram s) = false -> gate m (hw s') = false.

(** What every part of a try needs of the state it starts in. *)
Definition ready (s : st) : Prop := 0xFF20 <= a_sp s < 0x10000 /\ word_ok (a_ram s).

Lemma ready_kept s s' : ready s -> kept nothing s s' -> ready s' /\ coincides (a_ram s') = coincides (a_ram s).
Proof.
  intros [Hs Hw] Hk. destruct (kept_word s s' Hk Hw ltac:(lia)) as [Hw' Hc]. split; [|exact Hc].
  split; [|exact Hw']. by rewrite (kept_sp _ _ _ Hk).
Qed.

Lemma pushed_ready s n v : ready s -> (n <= 4)%nat -> word_ok (a_ram (push n v s)) /\
  coincides (a_ram (push n v s)) = coincides (a_ram s).
Proof.
  intros [Hs Hw] Hn. rewrite push_eq by lia. cbn [with_stack a_ram]. split.
  - intros x Hx. unfold test_word in Hx. rewrite store_out by lia. by apply Hw.
  - unfold coincides. by rewrite !load_store_other by lia.
Qed.

Lemma test_called k s : ready s ->
  exists d s', call k a20_test s = Ret (negb d, s') /\ kept nothing s s' /\ cx s' = cx s /\
    nsteps delayed 32 (hw s) (hw s') /\ outcome s d s'.
Proof.
  intros Hr. pose proof Hr as [Hs Hw]. destruct (pushed_ready s 2 (ra k) Hr ltac:(lia)) as [Hw1 Hc1].
  destruct (a20_test_spec (push 2 (ra k) s)) as (zf & s2 & E & Hk & Hcx & Hd & Hz).
  { rewrite push_eq by lia. cbn [with_stack a_sp]. lia. }
  { exact Hw1. }
  destruct (call_ok nothing k a20_test s zf s2 ltac:(lia) nothing_low E Hk) as [E' Hk'].
  exists (negb zf). eexists. split; [by rewrite negb_involutive|]. split; [exact Hk'|]. split; [exact Hcx|].
  split; [exact Hd|]. rewrite Hc1 in Hz. unfold outcome. cbn [with_stack hw].
  destruct (gate m (hw s2)), (coincides (a_ram s)); subst zf; done.
Qed.

(** *** The keyboard controller *)

Lemma in_al_spec p s :
  kept nothing s (in_al p s) /\ ecx (in_al p s) = ecx s /\ hw (in_al p s) = (inb m p (hw s)).2.
Proof. unfold in_al. by destruct (inb m p (hw s)). Qed.

Lemma empty_8042_loop_spec n : forall fuel s,
  (n < fuel)%nat -> 0xFF02 <= a_sp s < 0x10000 -> ecx s = Z.of_nat n + 1 -> Z.of_nat n < 2 ^ 32 ->
  exists s', empty_8042_loop fuel s = Ret (tt, s') /\ kept nothing s s' /\ rtc waited (hw s) (hw s').
Proof.
  induction n as [|n IH]; intros fuel s Hf Hs He Hn; (destruct fuel as [|fuel]; [lia|]); cbn [empty_8042_loop];
    cbn [with_ecx ecx]; rewrite He.
  - change (u32 (Z.of_nat 0 + 1 - 1)) with 0. cbn. eexists. split; [reflexivity|]. split; [by split|]. apply rtc_refl.
  - rewrite wrap_small by lia. rewrite (proj2 (Z.eqb_neq _ _)) by lia.
    set (s1 := with_ecx _ s). destruct (call_delay 128 s1 Hs) as (s2 & E2 & K2 & _ & C2 & H2). step E2. clear E2.
    set (s3 := in_al 0x64 s2). destruct (in_al_spec 0x64 s2) as (K23 & C3 & H3). fold s3 in K23, C3, H3.
    assert (K3 : kept nothing s s3)
      by (eapply (kept_trans _ _ s1); [by apply kept_same |]; eapply kept_trans; [exact K2 | exact K23]).
    assert (W3 : rtc waited (hw s) (hw s3)).
    { eapply rtc_l; [|apply rtc_once; rewrite H3; apply wait_status]. rewrite H2. apply wait_delay. }
    assert (C3' : ecx s3 = Z.of_nat n + 1) by (rewrite C3, C2; unfold s1; cbn [with_ecx ecx]; lia).
    assert (S3' : 0xFF02 <= a_sp s3 < 0x10000) by (rewrite (kept_sp _ _ _ K3); exact Hs).
    destruct (Z.land (al s3) 1 =? 0); [destruct (Z.land (al s3) 2 =? 0)|].
    + by eexists.
    + destruct (IH fuel s3) as (s' & E' & K' & W'); [lia | done | done | lia |]. exists s'.
      split; [exact E'|]. split; [by eapply kept_trans | by etrans].
    + destruct (call_delay 134 s3 S3') as (s4 & E4 & K4 & _ & C4 & H4). step E4.
      set (s5 := in_al 0x60 s4). destruct (in_al_spec 0x60 s4) as (K45 & C5 & H5). fold s5 in K45, C5, H5.
      assert (K5 : kept nothing s s5)
        by (eapply kept_trans; [exact K3|]; eapply kept_trans; [exact K4 | exact K45]).
      destruct (IH fuel s5) as (s' & E' & K' & W'); [lia | by rewrite (kept_sp _ _ _ K5) | by rewrite C5, C4 | lia |].
      exists s'. split; [exact E'|]. split; [by eapply kept_trans|]. etrans; [exact W3|].
      apply (rtc_l _ _ (hw s4)); [rewrite H4; apply wait_delay|].
      apply (rtc_l _ _ (hw s5)); [rewrite H5; apply wait_data | exact W'].
Qed.

Lemma empty_8042_called k s : ready s ->
  exists s', call k empty_8042 s = Ret (tt, s') /\ kept nothing s s' /\ rtc waited (hw s) (hw s').
Proof.
  intros [Hs _]. set (s0 := push 2 (ra k) s).
  assert (S0 : a_sp s0 = a_sp s - 2) by (unfold s0; rewrite push_eq by lia; reflexivity).
  assert (S1 : a_sp (push 4 (ecx s0) s0) = a_sp s - 6) by (rewrite push_eq by lia; cbn [with_stack a_sp]; lia).
  destruct (empty_8042_loop_spec (Z.to_nat 99999) (Z.to_nat 100000) (with_ecx 100000 (push 4 (ecx s0) s0)))
    as (s2 & E & Hk & Hw); [lia | cbn [with_ecx a_sp]; lia | cbn [with_ecx ecx]; lia | lia |].
  destruct (pushed nothing 4 (ecx s0) s0 s2) as [Ep Kp]; [lia | lia | exact nothing_low | destruct Hk; by split |].
  set (s3 := with_ecx (ecx s0 mod 256 ^ Z.of_nat 4) (with_stack (a_sp s0) (a_ram s2) s2)).
  assert (E3 : empty_8042 s0 = Ret (tt, s3)) by (unfold empty_8042; step E; by rewrite Ep).
  destruct (call_ok nothing k empty_8042 s tt s3 ltac:(lia) nothing_low E3) as [E' Hk']; [destruct Kp; by split|].
  eexists. split; [exact E'|]. by split.
Qed.

(** *** One try *)

Lemma a20_wait_loop_spec n k : forall fuel s, (n < fuel)%nat -> ready s -> u16 (cx s - 1) = Z.of_nat n ->
  exists d s', a20_wait_loop fuel k s = Ret (d, s') /\ kept nothing s s' /\ outcome s d s' /\
    (d = false -> nsteps delayed (32 * S n) (hw s) (hw s')).
Proof.
  induction n as [|n IH]; intros fuel s Hf Hr Hc; (destruct fuel as [|fuel]; [lia|]); cbn [a20_wait_loop];
    (destruct (test_called k s Hr) as (d & s1 & E & K1 & C1 & D1 & O1)); step E;
    rewrite negb_involutive; (destruct d; [by eexists true, _|]); rewrite cx_set_cx, C1, Hc.
  - eexists false, _. split; [reflexivity|]. split; [destruct K1; by split|]. split; [exact O1|]. intros _. exact D1.
  - rewrite (proj2 (Z.eqb_neq _ _)) by lia. set (s2 := set_cx _ s1).
    assert (K2 : kept nothing s s2) by (destruct K1; by split).
    destruct (ready_kept s s2 Hr K2) as [R2 W2].
    destruct (IH fuel s2) as (d & s' & E' & K' & O' & D'); [lia | exact R2 | |].
    { unfold s2. rewrite cx_set_cx, Hc. pose proof (wrap_range 16 (cx s - 1) ltac:(lia)) as Hb. rewrite Hc in Hb.
      rewrite wrap_small by lia. lia. }
    exists d, s'. split; [exact E'|]. split; [by eapply kept_trans|]. split.
    + unfold outcome in *. by rewrite <- W2.
    + intros Hd. replace (32 * S (S n))%nat with (32 + 32 * S n)%nat by lia. eapply nsteps_trans; [exact D1|].
      by apply D'.
Qed.

(** 65536 tests of 32 waits each. *)
Definition long_wait : nat := Z.to_nat (32 * 0x10000).

Lemma a20_wait_spec k s : ready s ->
  exists d s', a20_wait k s = Ret (d, s') /\ kept nothing s s' /\ outcome s d s' /\
    (d = false -> nsteps delayed long_wait (hw s) (hw s')).
Proof.
  intros Hr. unfold a20_wait. assert (K0 : kept nothing s (set_cx 0 s)) by (by apply kept_same).
  destruct (ready_kept _ _ Hr K0) as [R0 _].
  destruct (a20_wait_loop_spec (Z.to_nat 0xFFFF) k (Z.to_nat 0x10000) (set_cx 0 s))
    as (d & s' & E & K & O & D); [lia | exact R0 | rewrite cx_set_cx, Z2Nat.id by lia; reflexivity |].
  exists d, s'. split; [exact E|]. split; [by eapply kept_trans|]. split; [exact O|]. intros Hd.
  unfold long_wait. replace (Z.to_nat (32 * 0x10000)) with (32 * S (Z.to_nat 0xFFFF))%nat by lia. by apply D.
Qed.

(** What a part of a try does: [Q] holds of the hardware at its end when the
    gate did not open. *)
Definition part (f : st -> res (bool * st)) (Q : H -> Prop) : Prop :=
  forall s, ready s -> exists d s', f s = Ret (d, s') /\ kept nothing s s' /\ outcome s d s' /\
    (d = false -> Q (hw s')).

(** The traces of the hardware that end where each part gives up. *)
Definition after_bios (h : H) : Prop := exists h0, nsteps delayed 32 (bios15 m 0x2401 h0).2 h.
Definition after_kbc (h : H) : Prop := exists h0 h1 h2,
  rtc waited (outb m 0x64 0xD1 h0) h1 /\ rtc waited (outb m 0x60 0xDF h1) h2 /\ nsteps delayed long_wait h2 h.
Definition after_fast (h : H) : Prop := exists v h0,
  Z.testbit v 1 = true /\ Z.testbit v 0 = false /\ nsteps delayed long_wait (outb m 0x92 v h0) h.

Lemma none_part : part a20_none (fun h => True).
Proof.
  intros s Hr. destruct (test_called 28 s Hr) as (d & s' & E & K & _ & _ & O). exists d, s'.
  split; [unfold a20_none; step E; by rewrite negb_involutive | done].
Qed.

Lemma bios_part : part a20_bios after_bios.
Proof.
  intros s Hr. pose proof Hr as [Hs _]. unfold a20_bios. cbv zeta. set (s0 := set_ax 0x2401 s).
  change (ax (push 4 eflags s0)) with (ax s0). change (hw (push 4 eflags s0)) with (hw s).
  assert (E0 : ax s0 = 0x2401) by apply ax_set_ax. rewrite E0.
  destruct (bios15 m 0x2401 (hw s)) as [v h] eqn:Eb. set (s1 := set_ax v _).
  destruct (pushed nothing 4 eflags s0 s1) as [Ep Kp];
    [lia | change (a_sp s0) with (a_sp s); lia | exact nothing_low | by split |].
  rewrite Ep. set (s2 := with_stack _ _ s1) in *.
  assert (K2 : kept nothing s s2) by (destruct Kp; by split).
  destruct (ready_kept s s2 Hr K2) as [R2 W2].
  destruct (test_called 38 s2 R2) as (d & s' & E & K & _ & D & O). exists d, s'.
  split; [step E; by rewrite negb_involutive|]. split; [by eapply kept_trans|].
  split; [unfold outcome in *; by rewrite <- W2|]. intros _. exists (hw s). rewrite Eb. exact D.
Qed.

Lemma kbc_part : part a20_kbc after_kbc.
Proof.
  intros s Hr. unfold a20_kbc. cbv zeta.
  destruct (empty_8042_called 43 s Hr) as (s1 & E1 & K1 & _). step E1. clear E1.
  destruct (ready_kept s s1 Hr K1) as [R1 W1].
  destruct (test_called 45 s1 R1) as (d & s2 & E2 & K2 & _ & _ & O2). step E2. clear E2.
  rewrite negb_involutive. assert (K02 : kept nothing s s2) by (by eapply kept_trans).
  destruct d; [exists true, s2; split; [done|]; split; [done|]; split; [unfold outcome in *; by rewrite <- W1 | done]|].
  set (s3 := set_al 0xD1 s2).
  assert (E3 : al s3 = 0xD1) by (apply low_wrap; lia). rewrite E3.
  destruct (ready_kept s s2 Hr K02) as [R2 _].
  destruct (empty_8042_called 50 (out 0x64 0xD1 s3)) as (s4 & E4 & K4 & A4); [exact R2|]. step E4. clear E4.
  set (s5 := set_al 0xDF s4). assert (E5 : al s5 = 0xDF) by (apply low_wrap; lia). rewrite E5.
  assert (K04 : kept nothing s s4) by (eapply kept_trans; [exact K02|]; destruct K4; by split).
  destruct (ready_kept s s4 Hr K04) as [R4 _].
  destruct (empty_8042_called 54 (out 0x60 0xDF s5)) as (s6 & E6 & K6 & A6); [exact R4|]. step E6. clear E6.
  assert (K06 : kept nothing s s6) by (eapply kept_trans; [exact K04|]; destruct K6; by split).
  destruct (ready_kept s s6 Hr K06) as [R6 W6].
  destruct (a20_wait_spec 62 s6 R6) as (d & s7 & E7 & K7 & O7 & D7). exists d, s7.
  split; [exact E7|]. split; [by eapply kept_trans|]. split; [unfold outcome in *; by rewrite <- W6|].
  intros Hd. exists (hw s2), (hw s4), (hw s6). split; [exact A4|]. split; [exact A6|]. by apply D7.
Qed.

(** The value written to port A: "fast A20" and not reset. *)
Lemma fast_value v : Z.testbit (u8 (Z.land (u8 (Z.lor v 0x02)) 0xFE)) 1 = true /\
  Z.testbit (u8 (Z.land (u8 (Z.lor v 0x02)) 0xFE)) 0 = false.
Proof.
  rewrite !wrap_testbit, !Z.land_spec, !wrap_testbit, !Z.lor_spec by lia. cbn.
  by rewrite orb_true_r, andb_false_r.
Qed.

Lemma fast_part : part a20_fast after_fast.
Proof.
  intros s Hr. unfold a20_fast. cbv zeta. destruct (in_al_spec 0x92 s) as (K1 & _ & _).
  set (s1 := in_al 0x92 s) in *. set (s2 := set_al (Z.lor (al s1) 0x02) s1).
  set (s3 := set_al (Z.land (al s2) 0xFE) s2).
  destruct (ready_kept s s1 Hr K1) as [R1 W1].
  destruct (a20_wait_spec 77 (out 0x92 (al s3) s3) R1) as (d & s4 & E4 & K4 & O4 & D4). exists d, s4.
  split; [exact E4|]. split; [eapply kept_trans; [exact K1|]; destruct K4; by split|].
  split; [unfold outcome in *; by rewrite <- W1|]. intros Hd. exists (al s3), (hw s1).
  assert (E3 : al s3 = u8 (Z.land (u8 (Z.lor (al s1) 0x02)) 0xFE)).
  { unfold s3, al at 1. cbn [set_al with_eax eax]. rewrite low_wrap by lia. do 2 f_equal.
    unfold s2, al at 1. cbn [set_al with_eax eax]. by apply low_wrap. }
  pose proof (fast_value (al s1)) as [F1 F0]. rewrite E3 at 1 2. split; [exact F1|]. split; [exact F0|]. by apply D4.
Qed.

(** *** All tries *)

(** The gate is closed where a part gives up. *)
Definition fails (Q : H -> Prop) : Prop := exists h, Q h /\ gate m h = false.

(** A part, or several in turn: [F] holds if they do not open the gate. *)
Definition attempt (f : st -> res (bool * st)) (F : Prop) : Prop :=
  forall s, ready s -> exists d s', f s = Ret (d, s') /\ kept nothing s s' /\
    (d = true -> gate m (hw s') = true /\ coincides (a_ram s) = false) /\
    (d = false -> coincides (a_ram s) = false -> F).

Lemma part_attempt f Q : part f Q -> attempt f (fails Q).
Proof.
  intros Hp s Hr. destruct (Hp s Hr) as (d & s' & E & K & O & D). exists d, s'. split; [done|]. split; [done|].
  destruct d; (split; [|try done]); [intros _; exact O | done |]. intros _ Hc. exists (hw s'). split; [by apply D|].
  by apply O.
Qed.

Lemma or_else_attempt f g F G : attempt f F -> attempt g G -> attempt (or_else f g) (F /\ G).
Proof.
  intros Hf Hg s Hr. destruct (Hf s Hr) as (d & s1 & E & K & T & N). unfold or_else. step E.
  destruct d; [by exists true, s1|]. destruct (ready_kept s s1 Hr K) as [R1 W1].
  destruct (Hg s1 R1) as (d & s2 & E2 & K2 & T2 & N2). exists d, s2. rewrite W1 in T2, N2.
  split; [done|]. split; [by eapply kept_trans|]. split; [done|]. intros Hd Hc. auto.
Qed.

Definition all_fail : Prop := fails (fun _ => True) /\ fails after_bios /\ fails after_kbc /\ fails after_fast.

Lemma try_attempt : attempt a20_try all_fail.
Proof.
  repeat apply or_else_attempt; apply part_attempt;
    [exact none_part | exact bios_part | exact kbc_part | exact fast_part].
Qed.

(** The end of the tries, or the stop. *)
Record opened (s s' : st) : Prop := {
  op_gate : gate m (hw s') = true;
  op_words : coincides (a_ram s) = false;
  op_sp : a_sp s' = a_sp s;
  op_ram : forall x, ~ below_stack s x -> a_ram s' x = a_ram s x
}.

Lemma tries_spec n : forall fuel s, (n < fuel)%nat -> ready s -> u8 (a20_tries s - 1) = Z.of_nat n ->
  (exists s', a20_tries_loop fuel s = Ret (tt, s') /\ opened s s') \/
  (a20_tries_loop fuel s = Halted /\ (coincides (a_ram s) = false -> all_fail)).
Proof.
  induction n as [|n IH]; intros fuel s Hf Hr Ht; (destruct fuel as [|fuel]; [lia|]); cbn [a20_tries_loop];
    (destruct (try_attempt s Hr) as (d & s1 & E & K & T & N)); step E;
    (destruct d; [left; exists s1; split; [done|]; destruct (T eq_refl), K as [K1 K2 K3];
       split; try done; intros x Hx; apply K3; [exact Hx | exact id] |]); cbv zeta; rewrite (kept_tries _ _ _ K), Ht.
  - right. split; [done | auto].
  - rewrite (proj2 (Z.eqb_neq _ _)) by lia. set (s2 := Build_a20_state _ _ _ _ _ _).
    assert (W2 : ready s2 /\ coincides (a_ram s2) = coincides (a_ram s)) by exact (ready_kept s s1 Hr K).
    destruct W2 as [R2 W2].
    destruct (IH fuel s2) as [(s' & E' & [O1 O2 O3 O4]) | [E' F']]; [lia | exact R2 | | left | right].
    + unfold s2. cbn [a20_tries]. pose proof (wrap_range 8 (a20_tries s - 1) ltac:(lia)) as Hb. rewrite Ht in Hb.
      rewrite wrap_small by lia. lia.
    + exists s'. split; [done|]. destruct K as [K1 K2 K3]. split; [done | congruence | by rewrite O3 |].
      intros x Hx. rewrite O4; [apply K3; [exact Hx | exact id]|]. unfold below_stack in *. change (a_sp s2) with (a_sp s1). by rewrite K1.
    + split; [done|]. rewrite <- W2. exact F'.
Qed.

(** For every value of [a20_tries]. *)
Lemma a20_try_loop_spec s : ready s ->
  (exists s', a20_try_loop s = Ret (tt, s') /\ opened s s') \/
  (a20_try_loop s = Halted /\ (coincides (a_ram s) = false -> all_fail)).
Proof.
  intros Hr. pose proof (wrap_range 8 (a20_tries s - 1) ltac:(lia)) as Hb. change (2 ^ 8) with 0x100 in Hb.
  apply (tries_spec (Z.to_nat (u8 (a20_tries s - 1)))); [lia | done | lia].
Qed.

(** A way to open the gate that works: no gate at all, the BIOS at once, the
    keyboard controller or port A within 65536 tests. *)
Definition opens : Prop :=
  (forall h, gate m h = true) \/ (forall h, after_bios h -> gate m h = true) \/
  (forall h, after_kbc h -> gate m h = true) \/ (forall h, after_fast h -> gate m h = true).

Lemma opens_succeeds : opens -> ~ all_fail.
Proof.
  intros Ho ((h1 & _ & F1) & (h2 & A2 & F2) & (h3 & A3 & F3) & (h4 & A4 & F4)).
  destruct Ho as [O | [O | [O | O]]].
  - specialize (O h1). congruence.
  - specialize (O h2 A2). congruence.
  - specialize (O h3 A3). congruence.
  - specialize (O h4 A4). congruence.
Qed.

End A20.

(** ** A machine *)

(** A keyboard controller that opens the gate when it is told to, and nothing
    else that does: whether command 0xD1 waits for its byte, and the gate. *)
Definition sample_chipset : chipset (bool * bool) :=
  {| gate := snd;
     bios15 := fun ax h => (ax, h);
     inb := fun p h => (0, h);
     outb := fun p v h =>
       if (p =? 0x64) && (v =? 0xD1) then (true, h.2)
       else if (p =? 0x60) && h.1 then (false, Z.testbit v 1) else h |}.

Definition sample_state (r : ram) : a20_state (bool * bool) :=
  Build_a20_state A20_ENABLE_LOOPS 0 0 0xFFFE r (false, false).

(** The same controller after the gate has been opened. *)
Definition sample_open (r : ram) : a20_state (bool * bool) :=
  Build_a20_state A20_ENABLE_LOOPS 0 0 0xFFFE r (false, true).

(** The word above 1 MB is 32 and the one below is 0. *)
Definition coincidence : ram := fun x => if x =? 0x100200 then 32 else 0.

Definition test_result (s : a20_state (bool * bool)) : option bool :=
  match a20_test sample_chipset (fun k => k) s with Ret (zf, _) => Some zf | _ => None end.

(** Open, closed, and open with words that coincide. *)
Example tests :
  test_result (sample_open (fun _ => 255)) = Some false /\ test_result (sample_state (fun _ => 255)) = Some true /\
  test_result (sample_open coincidence) = Some true.
Proof. vm_compute. done. Qed.

Lemma sample_waits h h' : rtc (waited sample_chipset) h h' -> h' = h.
Proof. induction 1 as [|h1 h2 h3 Hw _ IH]; [done|]. rewrite IH. by destruct Hw. Qed.

Lemma sample_delays n h h' : nsteps (delayed sample_chipset) n h h' -> h' = h.
Proof. induction 1 as [|n h1 h2 h3 [v Hw] _ IH]; [done|]. by rewrite IH, Hw. Qed.

Lemma sample_opens : opens sample_chipset.
Proof.
  right. right. left. intros h (h0 & h1 & h2 & A1 & A2 & A3).
  apply sample_waits in A1. apply sample_waits in A2. apply sample_delays in A3. by subst.
Qed.

(** ** Properties *)

(** C33: the boot sector goes on only with the A20 line open. On any hardware
    [a20_try_loop] either returns with the gate open and memory as it was, or
    stops the machine after its last try. It returns where one of its ways to
    open the gate works within the time it waits, or where there is no gate. But the
    test compares the two words only after its last pass, since LOOP does not
    look at the flags: when the word above 1 MB is the one below plus 32, it
    takes an open gate for a closed one in every try and stops the machine. *)
Theorem a20_line_opened {H} (m : chipset H) ra eflags s :
  (forall k, 0 <= ra k < 0x10000) -> ready s ->
  ((exists s', a20_try_loop m ra eflags s = Ret (tt, s') /\ opened m s s') \/ a20_try_loop m ra eflags s = Halted) /\
  (opens m -> coincides (a_ram s) = false ->
     exists s', a20_try_loop m ra eflags s = Ret (tt, s') /\ opened m s s') /\
  (coincides (a_ram s) = true \/ (forall h, gate m h = false) -> a20_try_loop m ra eflags s = Halted).
Proof.
  intros Hra Hr. destruct (a20_try_loop_spec m ra eflags Hra s Hr) as [(s' & E & O) | [E F]].
  - split; [left; by exists s'|]. split; [intros _ _; by exists s'|].
    intros [Hc | Hg]; [pose proof (op_words _ _ _ O); congruence | pose proof (op_gate _ _ _ O) as Hg'; by rewrite Hg in Hg'].
  - split; [by right|]. split; [|done]. intros Ho Hc. by destruct (opens_succeeds m Ho (F Hc)).
Qed.

Lemma a20_line_opened_witness :
  (exists s', a20_try_loop sample_chipset (fun _ => 0x40) 0x202 (sample_state (fun _ => 255)) = Ret (tt, s') /\
     (hw s').2 = true /\ a_sp s' = 0xFFFE /\ a_ram s' 0x200 = 255) /\
  a20_try_loop sample_chipset (fun _ => 0x40) 0x202 (sample_open coincidence) = Halted.
Proof.
  split.
  - destruct (a20_line_opened sample_chipset (fun _ => 0x40) 0x202 (sample_state (fun _ => 255))) as (_ & Ho & _).
    + intros k. lia.
    + split; [simpl; lia|]. intros x Hx. change (a_ram (sample_state (fun _ => 255)) x) with 255. lia.
    + destruct (Ho sample_opens eq_refl) as (s' & E & [Og _ Os Or]). exists s'. split; [exact E|].
      split; [exact Og|]. split; [exact Os|]. rewrite Or; [reflexivity|]. unfold below_stack. simpl. lia.
  - destruct (a20_line_opened sample_chipset (fun _ => 0x40) 0x202 (sample_open coincidence)) as (_ & _ & Hh).
    + intros k. lia.
    + split; [simpl; lia|]. intros x Hx. cbn [sample_open a_ram]. unfold coincidence. destruct (x =? 0x100200); lia.
    + apply Hh. left. reflexivity.
Defined.
