(* ===== verification/BootLoader.v ===== *)
(** * The boot loader (bootsect.asm, setup.asm)

    [boot_sector] reads setup.img and the kernel from the diskette and jumps to
    setup.asm, which switches the processor to 64-bit mode in three steps
    ([real_mode], [protected_mode], [long_mode]), copies the kernel to 1 MB,
    writes the boot parameters and enters [start_kernel]. Memory is the bytes
    at physical addresses; in 64-bit mode each access goes through the tables
    the code has just built. The BIOS is a parameter: what it reads from the
    diskette; the stack it uses itself is left out. Between the two reads and
    the jump the boot sector opens the A20 line (A20). *)

From S2P Require Import Prelude CString BootMem Memory Paging MpSpec Descriptors Setup Ram A20.

(** ** bootsect.asm *)

Definition SETUP_SECT : Z := 8.
Definition SETUP_SEG : Z := 0x900.
Definition KERNEL_SEG : Z := 0xA00.

Definition sect_per_track : Z := 18.
Definition head_per_drv : Z := 2.

(** The word [current_sect], the stack pointer and the memory. *)
Record loader := { current_sect : Z; sp : Z; l_ram : ram }.

Definition push (v : Z) (l : loader) : loader :=
  let '(sp, r) := push_at 2 v (sp l) (l_ram l) in
  {| current_sect := current_sect l; sp := sp; l_ram := r |}.

Definition pop (l : loader) : Z * loader :=
  let '(v, sp) := pop_at 2 (sp l) (l_ram l) in
  (v, {| current_sect := current_sect l; sp := sp; l_ram := l_ram l |}).

(** [ret] to the caller at [ra]; anything else on the stack is a jump to
    nowhere. *)
Definition ret (ra : Z) (l : loader) : res loader :=
  let '(a, l) := pop l in if a =? ra then Ret l else Fault.

Section Bootsect.

(** Service 2 of int 0x13: the sector at a cylinder, head and number, if it
    can be read. The return addresses of the three calls, and the number of
    sectors of the kernel. *)
Context (disk : Z -> Z -> Z -> option (list Z)) (ra_setup ra_kernel ra_one KERNEL_SECT : Z).

(** The hardware of the A20 line, the return addresses of the call of
    [a20_try_loop] and of the calls of a20.inc, and what the BIOS leaves in
    EAX, ECX and the flags. *)
Context {H : Type} (m : chipset H) (ra_a20 : Z) (ra : Z -> Z) (eax0 ecx0 eflags : Z).

(** The result of the BIOS is not tested. [inc byte [current_sect]] counts in
    the low byte. *)
Definition read_one_sect (es si : Z) (l : loader) : loader :=
  let ax := current_sect l / sect_per_track in
  let dx := current_sect l mod sect_per_track in
  let read_sect := u8 (dx + 1) in
  let dx := ax mod head_per_drv in
  let ax := ax / head_per_drv in
  let ch := u8 ax in
  let cl := read_sect in
  let dh := u8 dx in
  let r := match disk (ch + 256 * Z.shiftr cl 6) dh (Z.land cl 0x3f) with
           | Some bs => store_bytes (far es si) bs (l_ram l)
           | None => l_ram l
           end in
  {| current_sect := 256 * (current_sect l / 256) + u8 (current_sect l + 1); sp := sp l; l_ram := r |}.

(** [cx] is kept on the stack; 0 means 65536. *)
Fixpoint read_loop (fuel : nat) (es si cx : Z) (l : loader) : res loader :=
  match fuel with
  | O => NoFuel
  | S fuel =>
      let l := push cx l in
      let l := push ra_one l in
      l ← ret ra_one (read_one_sect es si l);
      let '(cx, l) := pop l in
      let si := u16 (si + 512) in
      let cx := u16 (cx - 1) in
      if cx =? 0 then Ret l else read_loop fuel es si cx l
  end.

Definition read_sectors (ra es si cx : Z) (l : loader) : res loader :=
  l ← read_loop (Z.to_nat 0x10000) es si cx (push ra l);
  ret ra l.

(** The stack starts at 0x7c0:0. It ends with the jump to setup.asm. *)
Definition boot_sector (r : ram) (h : H) : res (loader * H) :=
  let l := {| current_sect := 1; sp := 0; l_ram := r |} in
  l ← read_sectors ra_setup SETUP_SEG 0 SETUP_SECT l;
  l ← read_sectors ra_kernel KERNEL_SEG 0 (u16 KERNEL_SECT) l;
  '(_, s) ← call (fun _ => ra_a20) 58 (a20_try_loop m ra eflags)
              (Build_a20_state A20_ENABLE_LOOPS eax0 ecx0 (sp l) (l_ram l) h);
  Ret ({| current_sect := current_sect l; sp := a_sp s; l_ram := store 1 (far 0xb800 0) 67 (a_ram s) |}, hw s).

End Bootsect.

(** ** setup.asm *)

Definition KERNEL_CODE64_SEL : Z := 0x18.
Definition GDT_ADDR : Z := 0x8000.
Definition GDT_SIZE : Z := 0x1000.
Definition PML4_addr : Z := 0x90000.
Definition PDP_addr : Z := 0x91000.
Definition PDE_addr : Z := 0x92000.
Definition PTE_addr : Z := 0x93000.
Definition BIT_CR4_PAE : Z := 5.
Definition BIT_CR4_PGE : Z := 7.
Definition BIT_CR3_PWT : Z := 3.
Definition BIT_CR3_PCD : Z := 4.
Definition BIT_CR0_PE : Z := 0.
Definition BIT_CR0_PG : Z := 31.
Definition BIT_CR0_CD : Z := 30.
Definition BIT_CR0_NW : Z := 29.
Definition BIT_EFER_LME : Z := 8.
Definition BIT_EFER_LMA : Z := 10.
Definition BIT_EFER_SCE : Z := 0.
Definition BOOTING_PARAMS_ADDR : Z := 0x9F000.
Definition BOOTING_MEMORY_SIZE : Z := 8.

(** The descriptors of setup.asm, as words of eight bytes. *)
Definition gdt : list Z :=
  [0; 0x00CF9A000000FFFF; 0x00CF92000000FFFF; 0x00AF9A000000FFFF; 0x00AF92000000FFFF].

(** What the build gives setup.asm: the symbols of kernel_section.inc, the
    sizes of the image in sectors and of the memory in megabytes, and the
    stack. *)
Record link := {
  _code_start : Z; _code_end : Z;
  _data_start : Z; _data_end : Z;
  _bss_start : Z; _bss_end : Z;
  _kernel_end : Z;
  _per_cpu_start : Z; _per_cpu_end : Z;
  KSIZE : Z; MSIZE : Z; STACK_START : Z
}.

(** The control registers, the table of descriptors LGDT names, the counter
    [processor_sig64] and the memory. *)
Record boot_cpu := {
  cr0 : Z; cr3 : Z; cr4 : Z; efer : Z;
  lgdt : Z * Z;
  processor_sig64 : Z;
  p_ram : ram
}.

Definition with_ram (r : ram) (p : boot_cpu) : boot_cpu :=
  {| cr0 := cr0 p; cr3 := cr3 p; cr4 := cr4 p; efer := efer p; lgdt := lgdt p;
     processor_sig64 := processor_sig64 p; p_ram := r |}.

Definition with_controls (c0 c3 c4 e : Z) (p : boot_cpu) : boot_cpu :=
  {| cr0 := c0; cr3 := c3; cr4 := c4; efer := e; lgdt := lgdt p;
     processor_sig64 := processor_sig64 p; p_ram := p_ram p |}.

(** [rep stosd] at es:di, with 16-bit offsets. *)
Fixpoint rep_stosd16 (cx : nat) (es di eax : Z) (r : ram) : ram :=
  match cx with O => r | S cx => rep_stosd16 cx es (u16 (di + 4)) eax (store 4 (far es di) eax r) end.

Fixpoint rep_stosd (ecx : nat) (edi eax : Z) (r : ram) : ram :=
  match ecx with O => r | S ecx => rep_stosd ecx (edi + 4) eax (store 4 edi eax r) end.

(** 16 bits: [es] is still the segment of the screen when "clear GDT" begins,
    and [xor ax, ax] leaves the upper half of EAX as CR0 was. *)
Definition real_mode (p : boot_cpu) : boot_cpu :=
  let r := store 1 (far 0xb800 2) 97 (p_ram p) in
  let eax := Z.lor (cr0 p) (Z.shiftl 0x1 BIT_CR0_CD) in
  let r := rep_stosd16 (Z.to_nat (4096 / 2)) 0xb800 GDT_ADDR (Z.land eax 0xFFFF0000) r in
  let r := store_bytes (far 0 GDT_ADDR) (concat (bytes_le 8 <$> gdt)) r in
  let eax := Z.land eax (Z.lnot (Z.shiftl 0x1 BIT_CR0_CD)) in
  let eax := Z.land eax (Z.lnot (Z.shiftl 0x1 BIT_CR0_NW)) in
  let eax := Z.lor eax (Z.shiftl 0x1 BIT_CR0_PE) in
  {| cr0 := eax; cr3 := cr3 p; cr4 := cr4 p; efer := efer p; lgdt := (GDT_ADDR, GDT_SIZE);
     processor_sig64 := processor_sig64 p; p_ram := r |}.

(** [set_PDE] and [set_PTE]. *)
Fixpoint set_table (ecx : nat) (edi eax : Z) (r : ram) : ram :=
  match ecx with O => r | S ecx => set_table ecx (edi + 8) (u32 (eax + 0x1000)) (store 4 edi eax r) end.

(** A write to CR0 that turns paging on activates 64-bit mode when EFER asks
    for it, which needs PAE. *)
Definition write_cr0 (v : Z) (p : boot_cpu) : res boot_cpu :=
  if Z.testbit v BIT_CR0_PG && Z.testbit (efer p) BIT_EFER_LME then
    if Z.testbit (cr4 p) BIT_CR4_PAE
    then Ret (with_controls v (cr3 p) (cr4 p) (Z.lor (efer p) (Z.shiftl 0x1 BIT_EFER_LMA)) p)
    else Fault
  else Ret (with_controls v (cr3 p) (cr4 p) (efer p) p).

Definition protected_mode (p : boot_cpu) : res boot_cpu :=
  let r := store 1 0xb8004 79 (p_ram p) in
  let c4 := Z.lor (cr4 p) (Z.shiftl 0x1 BIT_CR4_PAE) in
  let r := rep_stosd (Z.to_nat (7 * 4096)) 0x90000 0 r in
  let eax := Z.lor PDP_addr 0x7 in
  let r := store 4 PML4_addr eax r in
  let r := store 4 (PML4_addr + 8 * 0x100) eax r in
  let r := store 4 PDP_addr (Z.lor PDE_addr 0x7) r in
  let r := set_table (Z.to_nat (BOOTING_MEMORY_SIZE / 2)) PDE_addr (PTE_addr + 0x7) r in
  let r := set_table (Z.to_nat (BOOTING_MEMORY_SIZE * 256)) PTE_addr 0x7 r in
  let c3 := Z.lor (Z.lor PML4_addr (Z.shiftl 0x1 BIT_CR3_PWT)) (Z.shiftl 0x1 BIT_CR3_PCD) in
  let e := Z.lor (efer p) (Z.shiftl 0x1 BIT_EFER_LME) in
  write_cr0 (Z.lor (cr0 p) (Z.shiftl 0x1 BIT_CR0_PG)) (with_controls (cr0 p) c3 c4 e (with_ram r p)).

(** The processor's walk through the tables in memory. *)
Definition boot_entry (r : ram) (t i : Z) : option Z :=
  let e := load 8 (t + 8 * i) r in if Z.testbit e 0 then Some e else None.

Definition walk (r : ram) (cr3 va : Z) : option Z :=
  e4 ← boot_entry r (entry_base cr3) (table_index 39 va);
  e3 ← boot_entry r (entry_base e4) (table_index 30 va);
  if Z.testbit e3 7 then Some (Z.land e3 0x000FFFFFC0000000 + va mod 2 ^ 30)
  else
    e2 ← boot_entry r (entry_base e3) (table_index 21 va);
    if Z.testbit e2 7 then Some (Z.land e2 0x000FFFFFFFE00000 + va mod 2 ^ 21)
    else
      e1 ← boot_entry r (entry_base e2) (table_index 12 va);
      Some (entry_base e1 + va mod 2 ^ 12).

(** Accesses in 64-bit mode; none of them crosses a page. *)
Definition vload (n : nat) (cr3 va : Z) (r : ram) : res Z :=
  match walk r cr3 va with Some a => Ret (load n a r) | None => Fault end.

Definition vstore (n : nat) (cr3 va v : Z) (r : ram) : res ram :=
  match walk r cr3 va with Some a => Ret (store n a v r) | None => Fault end.

Section LongMode.
Context (k : link).

Fixpoint rep_stosq (rcx : nat) (cr3 rdi rax : Z) (r : ram) : res ram :=
  match rcx with O => Ret r | S rcx => r ← vstore 8 cr3 rdi rax r; rep_stosq rcx cr3 (rdi + 8) rax r end.

(** [copy_kernel] *)
Fixpoint copy_kernel (fuel : nat) (cr3 rsi rdi rcx : Z) (r : ram) : res ram :=
  match fuel with
  | O => NoFuel
  | S fuel =>
      rax ← vload 8 cr3 rsi r;
      r ← vstore 8 cr3 rdi rax r;
      let rcx := u64 (rcx - 8) in
      if rcx =? 0 then Ret r else copy_kernel fuel cr3 (rsi + 8) (rdi + 8) rcx r
  end.

Definition vpush (cr3 v : Z) (s : Z * ram) : res (Z * ram) :=
  let rsp := u64 (s.1 - 8) in
  r ← vstore 8 cr3 rsp v s.2;
  Ret (rsp, r).

(** The boot parameters in the order they are written from
    [BOOTING_PARAMS_ADDR] on. *)
Definition boot_params : list Z :=
  [_code_start k; _code_end k; _data_start k; _data_end k; _bss_start k; _bss_end k; _kernel_end k;
   MSIZE k; GDT_ADDR; BOOTING_MEMORY_SIZE; 0x9F000; 0x100000; _per_cpu_start k; _per_cpu_end k].

Fixpoint write_params (cr3 rdi : Z) (ps : list Z) (r : ram) : res ram :=
  match ps with
  | [] => Ret r
  | p :: ps => r ← vstore 8 cr3 rdi p r; write_params cr3 (rdi + 8) ps r
  end.

(** What [iretq] takes from the stack, and RDI, the argument of
    [start_kernel]. *)
Record start := { rip : Z; cs : Z; rflags : Z; rsp : Z; ss : Z; rdi : Z }.

Definition iretq (cr3 rsp rdi : Z) (r : ram) : res start :=
  rip ← vload 8 cr3 rsp r;
  cs ← vload 8 cr3 (rsp + 8) r;
  rflags ← vload 8 cr3 (rsp + 16) r;
  rsp' ← vload 8 cr3 (rsp + 24) r;
  ss ← vload 8 cr3 (rsp + 32) r;
  Ret {| rip := rip; cs := cs; rflags := rflags; rsp := rsp'; ss := ss; rdi := rdi |}.

(** From [fill_stack] to [iretq]. *)
Definition enter_kernel (p : boot_cpu) (rsp : Z) (r : ram) : res (boot_cpu * start) :=
  let c3 := cr3 p in
  let sig := processor_sig64 p in
  '(rsp, r) ← for_loop 0x10 0 (fun _ => vpush c3 0x12345678ABCDEF00) (rsp, r);
  r ← vstore 1 c3 0xb8006 76 r;
  r ← write_params c3 BOOTING_PARAMS_ADDR boot_params r;
  s ← vpush c3 0 (rsp, r);
  s ← vpush c3 rsp s;
  s ← vpush c3 0 s;
  s ← vpush c3 KERNEL_CODE64_SEL s;
  '(top, r) ← vpush c3 (_code_start k) s;
  st ← iretq c3 top sig r;
  Ret ({| cr0 := cr0 p; cr3 := c3; cr4 := cr4 p; efer := efer p; lgdt := lgdt p;
          processor_sig64 := u64 (sig + 1); p_ram := r |}, st).

(** 64 bits. Only the first processor clears the memory and copies the
    kernel. *)
Definition long_mode (p : boot_cpu) : res (boot_cpu * start) :=
  if Z.land (efer p) (Z.shiftl 0x1 BIT_EFER_LMA) =? 0 then Halted
  else
    let c4 := Z.lor (cr4 p) (Z.lor (Z.shiftl 0x1 BIT_CR4_PAE) (Z.shiftl 0x1 BIT_CR4_PGE)) in
    let e := Z.lor (efer p) (Z.shiftl 0x1 BIT_EFER_SCE) in
    let p := with_controls (cr0 p) (cr3 p) c4 e p in
    if u8 (processor_sig64 p) =? 0 then
      r ← rep_stosq (Z.to_nat (7 * 1024 * 1024 / 8)) (cr3 p) 0x100000 0 (p_ram p);
      let rcx := u64 (KSIZE k * 512) in
      r ← copy_kernel (S (Z.to_nat rcx)) (cr3 p) 0xA000 0x100000 rcx r;
      enter_kernel p (STACK_START k) r
    else enter_kernel p (STACK_START k - 0x2000) (p_ram p).

Definition setup_asm (p : boot_cpu) : res (boot_cpu * start) :=
  p ← protected_mode (real_mode p);
  long_mode p.

End LongMode.

(** ** Lemmas *)

(** *** The diskette *)

(** 80 cylinders with two heads and 18 sectors: the sector of each number. *)
Definition diskette (disk : Z -> Z -> Z -> option (list Z)) (sector : Z -> list Z) : Prop :=
  forall n, 0 <= n < 2880 -> disk (n / 36) (n / 18 mod 2) (n mod 18 + 1) = Some (sector n) /\
    length (sector n) = 512%nat /\ Forall (fun b => 0 <= b < 256) (sector n).

(** The cylinder, head and number the code computes are those of the sector. *)
Lemma read_one_sect_spec disk sector es si l :
  diskette disk sector -> 0 <= current_sect l < 255 -> 
  read_one_sect disk es si l =
  {| current_sect := current_sect l + 1; sp := sp l;
     l_ram := store_bytes (far es si) (sector (current_sect l)) (l_ram l) |}.
Proof.
  intros Hd Hc. set (n := current_sect l) in *. destruct (Hd n ltac:(lia)) as (Hs & _ & _).
  unfold read_one_sect. cbv zeta. fold n. unfold sect_per_track, head_per_drv.
  pose proof (Z.mod_pos_bound n 18 ltac:(lia)). pose proof (Z.mod_pos_bound (n / 18) 2 ltac:(lia)).
  assert (Hn : 0 <= n / 36 < 80) by (split; [apply Z.div_pos; lia | apply Z.div_lt_upper_bound; lia]).
  rewrite !Z.div_div by lia. change (18 * 2) with 36.
  rewrite !(wrap_small 8) by (change (2 ^ 8) with 256; lia).
  assert (E : Z.shiftr (n mod 18 + 1) 6 = 0) by (rewrite Z.shiftr_div_pow2 by lia; apply Z.div_small; lia).
  rewrite E, Z.mul_0_r, Z.add_0_r. clear E.
  assert (E : Z.land (n mod 18 + 1) 0x3f = n mod 18 + 1)
    by (change 0x3f with (Z.ones 6); rewrite Z.land_ones by lia; apply Z.mod_small; lia).
  rewrite E, Hs. f_equal. rewrite (Z.div_small n) by lia. lia.
Qed.

Section Loading.
Context (disk : Z -> Z -> Z -> option (list Z)) (sector : Z -> list Z) (ra_one : Z).
Hypotheses (Hdisk : diskette disk sector) (Hra : 0 <= ra_one < 0x10000).

(** One sector, below the stack. *)
Lemma read_step es si cx l :
  0 <= es -> 0 <= si -> si + 512 <= 0x10000 -> 16 * es + si + 512 <= 0x17BFA -> sp l = 0xFFFE ->
  0 <= current_sect l < 255 -> 0 <= cx < 0x10000 ->
  exists r, ret ra_one (read_one_sect disk es si (push ra_one (push cx l)))
      = Ret {| current_sect := current_sect l + 1; sp := 0xFFFC; l_ram := r |} /\
    pop {| current_sect := current_sect l + 1; sp := 0xFFFC; l_ram := r |}
      = (cx, {| current_sect := current_sect l + 1; sp := 0xFFFE; l_ram := r |}) /\
    (forall j b, sector (current_sect l) !! j = Some b -> r (16 * es + si + Z.of_nat j) = b) /\
    (forall x, ~ (16 * es + si <= x < 16 * es + si + 512) -> ~ (0x17BFA <= x < 0x17BFE) -> r x = l_ram l x).
Proof.
  intros He Hs Hs2 Hend Hsp Hc Hcx. destruct (Hdisk (current_sect l) ltac:(lia)) as (_ & Hlen & _).
  unfold push, push_at. rewrite Hsp. change (u16 (0xFFFE - Z.of_nat 2)) with 0xFFFC. cbn [sp l_ram current_sect].
  change (u16 (0xFFFC - Z.of_nat 2)) with 0xFFFA.
  rewrite (read_one_sect_spec disk sector) by (cbn [current_sect]; (done || lia)). cbn [current_sect sp l_ram].
  change (far BOOT_SEG 0xFFFC) with 0x17BFC. change (far BOOT_SEG 0xFFFA) with 0x17BFA.
  rewrite far_low by lia.
  set (r := store_bytes (16 * es + si) _ _). exists r.
  assert (Hr : forall a, 0x17BFA <= a -> load 2 a r = load 2 a (store 2 0x17BFA ra_one (store 2 0x17BFC cx (l_ram l))))
    by (intros a Ha; apply load_store_bytes; rewrite Hlen; lia).
  assert (Hm : forall v, 0 <= v < 0x10000 -> v mod 256 ^ Z.of_nat 2 = v) by (intros v Hv; apply Z.mod_small; exact Hv).
  split_and!.
  - unfold ret, pop, pop_at. cbn [sp l_ram current_sect]. change (far BOOT_SEG 0xFFFA) with 0x17BFA.
    rewrite Hr, load_store, Hm, Z.eqb_refl by lia. done.
  - unfold pop, pop_at. cbn [sp l_ram current_sect]. change (far BOOT_SEG 0xFFFC) with 0x17BFC.
    rewrite Hr, load_store_other, load_store, Hm by lia. done.
  - intros j b Hj. unfold r. by apply store_bytes_in.
  - intros x H1 H2. unfold r. rewrite store_bytes_out by (rewrite Hlen; lia). rewrite !store_out by lia. done.
Qed.

(** Bytes that arrive in two steps. *)
Lemma sectors_join (r1 r2 r0 : ram) base c n :
  0 <= n -> 0 <= c -> c + n <= 255 ->
  (forall i j b, 0 <= i < n -> sector (c + i) !! j = Some b -> r1 (base + 512 * i + Z.of_nat j) = b) ->
  (forall x, ~ (base <= x < base + 512 * n) -> ~ (0x17BFA <= x < 0x17BFE) -> r1 x = r0 x) ->
  base + 512 * n <= 0x17BFA ->
  (forall j b, sector (c + n) !! j = Some b -> r2 (base + 512 * n + Z.of_nat j) = b) ->
  (forall x, ~ (base + 512 * n <= x < base + 512 * n + 512) -> ~ (0x17BFA <= x < 0x17BFE) -> r2 x = r1 x) ->
  (forall i j b, 0 <= i < n + 1 -> sector (c + i) !! j = Some b -> r2 (base + 512 * i + Z.of_nat j) = b) /\
  (forall x, ~ (base <= x < base + 512 * (n + 1)) -> ~ (0x17BFA <= x < 0x17BFE) -> r2 x = r0 x).
Proof.
  intros Hn Hc Hcn Hin1 Hout1 Hb Hin2 Hout2. split.
  - intros i j b Hi Hj. destruct (Hdisk (c + i) ltac:(lia)) as (_ & Hl & _). pose proof (lookup_lt_Some _ _ _ Hj).
    destruct (decide (i = n)) as [->|]; [by apply Hin2|]. rewrite Hout2 by lia. apply Hin1; [lia | done].
  - intros x H1 H2. rewrite Hout2, Hout1 by lia. done.
Qed.

(** The first [n] passes of the loop. *)
Lemma read_loop_prefix es cx l : 0 <= es -> cx < 0x10000 -> sp l = 0xFFFE -> 0 <= current_sect l ->
  forall n fuel, (n < fuel)%nat -> Z.of_nat n < cx -> 16 * es + 512 * Z.of_nat n <= 0x17BFA ->
  512 * Z.of_nat n < 0x10000 -> current_sect l + Z.of_nat n <= 255 ->
  exists r, read_loop disk ra_one fuel es 0 cx l
      = read_loop disk ra_one (fuel - n) es (512 * Z.of_nat n) (cx - Z.of_nat n)
          {| current_sect := current_sect l + Z.of_nat n; sp := 0xFFFE; l_ram := r |} /\
    (forall i j b, 0 <= i < Z.of_nat n -> sector (current_sect l + i) !! j = Some b ->
       r (16 * es + 512 * i + Z.of_nat j) = b) /\
    (forall x, ~ (16 * es <= x < 16 * es + 512 * Z.of_nat n) -> ~ (0x17BFA <= x < 0x17BFE) -> r x = l_ram l x).
Proof.
  intros He Hcx Hsp Hc. induction n as [|n IH]; intros fuel Hf Hn Hend Hlen Hc2.
  - exists (l_ram l). split; [|split; [intros; lia | done]]. rewrite Nat.sub_0_r, Z.mul_0_r, Z.sub_0_r, Z.add_0_r.
    destruct l. cbn [sp current_sect l_ram] in *. by subst.
  - destruct (IH fuel) as (r & E & Hin & Hout); [lia..|].
    destruct (read_step es (512 * Z.of_nat n) (cx - Z.of_nat n)
      {| current_sect := current_sect l + Z.of_nat n; sp := 0xFFFE; l_ram := r |}) as (r2 & E2 & Ep & Hin2 & Hout2);
      cbn [sp current_sect]; [lia..|]. cbn [current_sect l_ram] in *.
    destruct (sectors_join r r2 (l_ram l) (16 * es) (current_sect l) (Z.of_nat n)) as [Hin3 Hout3];
      [lia | done | lia | done | done | lia | done | done |].
    replace (Z.of_nat n + 1) with (Z.of_nat (S n)) in Hin3, Hout3 by lia. exists r2. split; [|by split].
    rewrite E. replace (fuel - n)%nat with (S (fuel - S n)) by lia. cbn [read_loop]. step E2. rewrite Ep.
    rewrite (wrap_small 16 (cx - Z.of_nat n - 1)) by (change (2 ^ 16) with 0x10000; lia).
    rewrite (proj2 (Z.eqb_neq _ _)) by lia.
    rewrite (wrap_small 16 (512 * Z.of_nat n + 512)) by (change (2 ^ 16) with 0x10000; lia).
    replace (512 * Z.of_nat n + 512) with (512 * Z.of_nat (S n)) by lia.
    replace (cx - Z.of_nat n - 1) with (cx - Z.of_nat (S n)) by lia.
    by replace (current_sect l + Z.of_nat n + 1) with (current_sect l + Z.of_nat (S n)) by lia.
Qed.

Lemma read_loop_spec es cx l fuel : 0 <= es -> 0 < cx -> 16 * es + 512 * cx <= 0x17BFA -> 512 * cx < 0x10000 ->
  sp l = 0xFFFE -> cx <= Z.of_nat fuel -> 0 <= current_sect l -> current_sect l + cx <= 255 ->
  exists r, read_loop disk ra_one fuel es 0 cx l
      = Ret {| current_sect := current_sect l + cx; sp := 0xFFFE; l_ram := r |} /\
    (forall i j b, 0 <= i < cx -> sector (current_sect l + i) !! j = Some b ->
       r (16 * es + 512 * i + Z.of_nat j) = b) /\
    (forall x, ~ (16 * es <= x < 16 * es + 512 * cx) -> ~ (0x17BFA <= x < 0x17BFE) -> r x = l_ram l x).
Proof.
  intros He Hcx Hend Hlen Hsp Hf Hc Hc2. set (n := Z.to_nat (cx - 1)).
  destruct (read_loop_prefix es cx l He ltac:(lia) Hsp Hc n fuel) as (r & E & Hin & Hout); [lia..|].
  replace (Z.of_nat n) with (cx - 1) in * by lia.
  destruct (read_step es (512 * (cx - 1)) (cx - (cx - 1))
    {| current_sect := current_sect l + (cx - 1); sp := 0xFFFE; l_ram := r |}) as (r2 & E2 & Ep & Hin2 & Hout2);
    cbn [sp current_sect]; [lia..|]. cbn [current_sect l_ram] in *.
  destruct (sectors_join r r2 (l_ram l) (16 * es) (current_sect l) (cx - 1)) as [Hin3 Hout3];
    [lia | done | lia | done | done | lia | done | done |].
  replace (cx - 1 + 1) with cx in Hin3, Hout3 by lia. exists r2. split; [|by split].
  rewrite E. replace (fuel - n)%nat with (S (fuel - S n)) by lia. cbn [read_loop].
  step E2. rewrite Ep. replace (cx - (cx - 1) - 1) with 0 by lia. change (u16 0 =? 0) with true. cbv iota.
  do 2 f_equal. lia.
Qed.

Lemma read_sectors_spec ra es cx l :
  0 <= ra < 0x10000 -> 0 <= es -> 0 < cx -> 16 * es + 512 * cx <= 0x17BFA -> 512 * cx < 0x10000 -> sp l = 0 ->
  0 <= current_sect l -> current_sect l + cx <= 255 ->
  exists r, read_sectors disk ra_one ra es 0 cx l
      = Ret {| current_sect := current_sect l + cx; sp := 0; l_ram := r |} /\
    (forall i j b, 0 <= i < cx -> sector (current_sect l + i) !! j = Some b ->
       r (16 * es + 512 * i + Z.of_nat j) = b) /\
    (forall x, ~ (16 * es <= x < 16 * es + 512 * cx) -> ~ (0x17BFA <= x < 0x17C00) -> r x = l_ram l x).
Proof.
  intros Hr He Hcx Hend Hlen Hsp Hc Hc2. unfold read_sectors.
  assert (Hp : push ra l = {| current_sect := current_sect l; sp := 0xFFFE; l_ram := store 2 0x17BFE ra (l_ram l) |})
    by (unfold push; rewrite Hsp; reflexivity).
  destruct (read_loop_spec es cx (push ra l) (Z.to_nat 0x10000)) as (r & E & Hin & Hout);
    rewrite ?Hp; cbn [sp current_sect]; rewrite ?Z2Nat.id; [lia..|].
  rewrite Hp in E, Hin, Hout. cbn [current_sect l_ram] in E, Hin, Hout. step E. exists r.
  split; [|split].
  - unfold ret, pop, pop_at. cbn [sp l_ram current_sect]. change (far BOOT_SEG 0xFFFE) with 0x17BFE.
    assert (El : load 2 0x17BFE r = ra).
    { rewrite (load_ext 2 0x17BFE (store 2 0x17BFE ra (l_ram l)) r); [|intros x Hx; apply Hout; lia].
      rewrite load_store. apply Z.mod_small. exact Hr. }
    by rewrite El, Z.eqb_refl.
  - exact Hin.
  - intros x H1 H2. rewrite Hout by lia. apply store_out. lia.
Qed.

(** *** The A20 line *)

Context {H : Type} (m : chipset H) (ra_a20 : Z) (ra : Z -> Z) (eax0 ecx0 eflags : Z).
Hypotheses (Hra_a20 : 0 <= ra_a20 < 0x10000) (Hras : forall k, 0 <= ra k < 0x10000).

Abbreviation a20_call r h :=
  (call (fun _ => ra_a20) 58 (a20_try_loop m ra eflags) (Build_a20_state A20_ENABLE_LOOPS eax0 ecx0 0 r h)).

(** The call pushes the first word of the empty stack. *)
Lemma a20_entry r (h : H) : word_ok r ->
  let s := A20.push 2 ra_a20 (Build_a20_state A20_ENABLE_LOOPS eax0 ecx0 0 r h) in
  s = Build_a20_state A20_ENABLE_LOOPS eax0 ecx0 0xFFFE (store 2 0x17BFE ra_a20 r) h /\
  ready s /\ coincides (a_ram s) = coincides r.
Proof.
  intros Hw s. split; [reflexivity|]. change (a_ram s) with (store 2 0x17BFE ra_a20 r). split.
  - split; [change (a_sp s) with 0xFFFE; lia|]. intros x Hx. unfold test_word in Hx.
    change (a_ram s) with (store 2 0x17BFE ra_a20 r). rewrite store_out by lia. by apply Hw.
  - unfold coincides. by rewrite !load_store_other by lia.
Qed.

Lemma a20_called r h : word_ok r -> opens m -> coincides r = false ->
  exists s', a20_call r h = Ret (tt, s') /\ gate m (hw s') = true /\ a_sp s' = 0 /\
    forall x, ~ (0x17B00 <= x < 0x17C00) -> a_ram s' x = r x.
Proof.
  intros Hw Ho Hc. destruct (a20_entry r h Hw) as (E0 & Hr & Hc0). set (s := A20.push 2 ra_a20 (Build_a20_state A20_ENABLE_LOOPS eax0 ecx0 0 r h)) in *.
  rewrite Hc in Hc0. destruct (a20_try_loop_spec m ra eflags Hras s Hr) as [(s1 & E & [Og _ Os Or]) | [_ F]];
    [|by destruct (opens_succeeds m Ho (F Hc0))].
  unfold call. fold s. step E. unfold A20.pop, pop_at. rewrite Os, E0. cbn [a_sp].
  change (far BOOT_SEG 0xFFFE) with 0x17BFE. unfold below_stack in Or. rewrite E0 in Or. cbn [a_sp a_ram] in Or.
  assert (El : load 2 0x17BFE (a_ram s1) = ra_a20).
  { rewrite (load_ext 2 0x17BFE (store 2 0x17BFE ra_a20 r)) by (intros x Hx; apply Or; lia).
    rewrite load_store. apply Z.mod_small. exact Hra_a20. }
  rewrite El, Z.eqb_refl. eexists. split; [reflexivity|]. split; [exact Og|]. split; [reflexivity|].
  intros x Hx. cbn [with_stack a_ram]. rewrite Or by lia. apply store_out. lia.
Qed.

(** The boot sector stops where the test cannot see the open gate. *)
Lemma a20_stuck r h : word_ok r -> coincides r = true -> a20_call r h = Halted.
Proof.
  intros Hw Hc. destruct (a20_entry r h Hw) as (_ & Hr & Hc0). unfold call. set (s := A20.push 2 ra_a20 (Build_a20_state A20_ENABLE_LOOPS eax0 ecx0 0 r h)) in *.
  rewrite Hc in Hc0. destruct (a20_try_loop_spec m ra eflags Hras s Hr) as [(s1 & _ & [_ Ow _ _]) | [E _]];
    [congruence | by rewrite E].
Qed.

(** setup.img and the kernel arrive in memory: the image has at most 109
    sectors, since it grows towards the stack of the boot sector. *)
Lemma image_loaded ra_setup ra_kernel K r0 h0 :
  0 <= ra_setup < 0x10000 -> 0 <= ra_kernel < 0x10000 -> 0 < K <= 109 ->
  exists r, boot_sector disk ra_setup ra_kernel ra_one K m ra_a20 ra eax0 ecx0 eflags r0 h0
      = ('(_, s) ← a20_call r h0;
         Ret ({| current_sect := 9 + K; sp := a_sp s; l_ram := store 1 0xB8000 67 (a_ram s) |}, hw s)) /\
    (forall i j b, 0 <= i < 8 -> sector (1 + i) !! j = Some b -> r (0x9000 + 512 * i + Z.of_nat j) = b) /\
    (forall i j b, 0 <= i < K -> sector (9 + i) !! j = Some b -> r (0xA000 + 512 * i + Z.of_nat j) = b) /\
    (forall x, ~ (0x9000 <= x < 0xA000 + 512 * K) -> ~ (0x17BFA <= x < 0x17C00) -> r x = r0 x).
Proof.
  intros H1 H2 HK. unfold boot_sector. rewrite (wrap_small 16 K) by (change (2 ^ 16) with 0x10000; lia).
  destruct (read_sectors_spec ra_setup SETUP_SEG SETUP_SECT {| current_sect := 1; sp := 0; l_ram := r0 |})
    as (r1 & E1 & Hin1 & Hout1); cbn [sp current_sect]; [unfold SETUP_SEG, SETUP_SECT; lia..|].
  cbn [current_sect l_ram] in *. step E1.
  destruct (read_sectors_spec ra_kernel KERNEL_SEG K {| current_sect := 1 + SETUP_SECT; sp := 0; l_ram := r1 |})
    as (r2 & E2 & Hin2 & Hout2); cbn [sp current_sect]; [unfold KERNEL_SEG, SETUP_SECT; lia..|].
  cbn [current_sect l_ram] in *. step E2. exists r2. cbn [current_sect sp l_ram].
  unfold SETUP_SEG, SETUP_SECT, KERNEL_SEG in *.
  split; [change (far 0xb800 0) with 0xB8000; by replace (1 + 8 + K) with (9 + K) by lia|].
  split; [|split].
  - intros i j b Hi Hj. destruct (Hdisk (1 + i) ltac:(lia)) as (_ & Hl & _).
    pose proof (lookup_lt_Some _ _ _ Hj). rewrite Hout2 by lia. by apply Hin1.
  - intros i j b Hi Hj. by apply Hin2.
  - intros x Hx1 Hx2. rewrite Hout2, Hout1 by lia. done.
Qed.

(** What the loader needs of the memory it finds: the two bytes of the test
    are bytes, and the word above 1 MB is not what the test writes. *)
Definition a20_fits (r : ram) : Prop := word_ok r /\ coincides r = false.

Lemma image_keeps_test r r0 K : 0 < K <= 109 ->
  (forall x, ~ (0x9000 <= x < 0xA000 + 512 * K) -> ~ (0x17BFA <= x < 0x17C00) -> r x = r0 x) ->
  word_ok r0 -> word_ok r /\ coincides r = coincides r0.
Proof.
  intros HK Ho Hw. split.
  - intros x Hx. unfold test_word in Hx. rewrite Ho by lia. by apply Hw.
  - unfold coincides. f_equal; [f_equal; f_equal|]; apply load_ext; intros x Hx; apply Ho; lia.
Qed.

Lemma boot_sector_spec ra_setup ra_kernel K r0 h0 :
  0 <= ra_setup < 0x10000 -> 0 <= ra_kernel < 0x10000 -> 0 < K <= 109 -> opens m -> a20_fits r0 ->
  exists r h, boot_sector disk ra_setup ra_kernel ra_one K m ra_a20 ra eax0 ecx0 eflags r0 h0
      = Ret ({| current_sect := 9 + K; sp := 0; l_ram := r |}, h) /\ gate m h = true /\
    (forall i j b, 0 <= i < 8 -> sector (1 + i) !! j = Some b -> r (0x9000 + 512 * i + Z.of_nat j) = b) /\
    (forall i j b, 0 <= i < K -> sector (9 + i) !! j = Some b -> r (0xA000 + 512 * i + Z.of_nat j) = b) /\
    (forall x, ~ (0x9000 <= x < 0xA000 + 512 * K) -> ~ (0x17B00 <= x < 0x17C00) -> x <> 0xB8000 -> r x = r0 x).
Proof.
  intros H1 H2 HK Ho [Hw Hc]. destruct (image_loaded ra_setup ra_kernel K r0 h0 H1 H2 HK) as (r & E & I1 & I2 & O).
  destruct (image_keeps_test r r0 K HK O Hw) as [Hw' Hc']. rewrite Hc in Hc'.
  destruct (a20_called r h0 Hw' Ho Hc') as (s & E2 & Hg & Hsp & Hr). rewrite E. step E2. rewrite Hsp.
  eexists _, _. split; [reflexivity|]. split; [exact Hg|]. split; [|split].
  - intros i j b Hi Hj. destruct (Hdisk (1 + i) ltac:(lia)) as (_ & Hl & _). pose proof (lookup_lt_Some _ _ _ Hj).
    rewrite store_out, Hr by lia. by apply I1.
  - intros i j b Hi Hj. destruct (Hdisk (9 + i) ltac:(lia)) as (_ & Hl & _). pose proof (lookup_lt_Some _ _ _ Hj).
    rewrite store_out, Hr by lia. by apply I2.
  - intros x Hx1 Hx2 Hx3. rewrite store_out, Hr, O by lia. done.
Qed.

(** On memory where the words coincide the machine never starts. *)
Lemma boot_sector_stuck ra_setup ra_kernel K r0 h0 :
  0 <= ra_setup < 0x10000 -> 0 <= ra_kernel < 0x10000 -> 0 < K <= 109 -> word_ok r0 -> coincides r0 = true ->
  boot_sector disk ra_setup ra_kernel ra_one K m ra_a20 ra eax0 ecx0 eflags r0 h0 = Halted.
Proof.
  intros H1 H2 HK Hw Hc. destruct (image_loaded ra_setup ra_kernel K r0 h0 H1 H2 HK) as (r & E & _ & _ & O).
  destruct (image_keeps_test r r0 K HK O Hw) as [Hw' Hc']. rewrite Hc in Hc'. by rewrite E, a20_stuck.
Qed.

(** A sector that covers the stack: the return address is part of it. *)
Lemma return_lost es si cx l b0 b1 :
  far es si = 0x17A00 -> sp l = 0xFFFE -> current_sect l = 118 ->
  sector 118 !! 0x1FA%nat = Some b0 -> sector 118 !! 0x1FB%nat = Some b1 -> b0 + 256 * b1 <> ra_one ->
  ret ra_one (read_one_sect disk es si (push ra_one (push cx l))) = Fault.
Proof.
  intros Ha Hsp Hc Hb0 Hb1 Hne. unfold push, push_at. rewrite Hsp.
  change (u16 (0xFFFE - Z.of_nat 2)) with 0xFFFC. cbn [sp l_ram current_sect].
  change (u16 (0xFFFC - Z.of_nat 2)) with 0xFFFA.
  rewrite (read_one_sect_spec disk sector) by (cbn [current_sect]; (done || lia)). cbn [current_sect sp l_ram].
  rewrite Ha, Hc. unfold ret, pop, pop_at. cbn [sp l_ram current_sect]. change (far BOOT_SEG 0xFFFA) with 0x17BFA.
  set (r := store _ _ _ (store _ _ _ _)). cbn [load].
  pose proof (store_bytes_in 0x17A00 _ r _ _ Hb0) as E0. change (0x17A00 + Z.of_nat 0x1FA) with 0x17BFA in E0.
  pose proof (store_bytes_in 0x17A00 _ r _ _ Hb1) as E1. change (0x17A00 + Z.of_nat 0x1FB) with 0x17BFB in E1.
  change (0x17BFA + 1) with 0x17BFB. rewrite E0, E1. rewrite (proj2 (Z.eqb_neq _ _)) by lia. done.
Qed.

(** The 110th sector of the kernel falls on the stack: the boot sector returns
    to an address that is part of the image. *)
Lemma large_image_lost ra_setup ra_kernel K r0 h0 b0 b1 :
  0 <= ra_setup < 0x10000 -> 110 <= K < 0x10000 ->
  sector 118 !! 0x1FA%nat = Some b0 -> sector 118 !! 0x1FB%nat = Some b1 -> b0 + 256 * b1 <> ra_one ->
  boot_sector disk ra_setup ra_kernel ra_one K m ra_a20 ra eax0 ecx0 eflags r0 h0 = Fault.
Proof.
  intros H1 HK Hb0 Hb1 Hne. unfold boot_sector. rewrite (wrap_small 16 K) by (change (2 ^ 16) with 0x10000; lia).
  destruct (read_sectors_spec ra_setup SETUP_SEG SETUP_SECT {| current_sect := 1; sp := 0; l_ram := r0 |})
    as (r1 & E1 & _); cbn [sp current_sect]; [unfold SETUP_SEG, SETUP_SECT; lia..|].
  cbn [current_sect l_ram] in *. step E1. unfold read_sectors, SETUP_SECT.
  change (push ra_kernel _) with {| current_sect := 9; sp := 0xFFFE; l_ram := store 2 0x17BFE ra_kernel r1 |}.
  destruct (read_loop_prefix KERNEL_SEG K {| current_sect := 9; sp := 0xFFFE; l_ram := store 2 0x17BFE ra_kernel r1 |})
    with (n := 109%nat) (fuel := Z.to_nat 0x10000) as (r & E & _); cbn [sp current_sect];
    [unfold KERNEL_SEG; lia..|].
  cbn [current_sect] in E. rewrite E. clear E.
  destruct (Z.to_nat 0x10000 - 109)%nat as [|f] eqn:Ef; [lia|]. cbn [read_loop].
  change (9 + Z.of_nat 109) with 118. by rewrite (return_lost _ _ _ _ b0 b1).
Qed.

End Loading.

(** *** The tables *)

Lemma rep_stosd16_out es x eax cx : forall di r,
  0 <= di -> di + 4 * Z.of_nat cx <= 0x10000 -> ~ (16 * es + di <= x < 16 * es + di + 4 * Z.of_nat cx) ->
  rep_stosd16 cx es di eax r x = r x.
Proof.
  induction cx as [|cx IH]; intros di r Hd Hd2 Hx; [done|]. cbn [rep_stosd16].
  destruct cx as [|cx].
  - cbn [rep_stosd16]. rewrite store_out by (rewrite far_low by lia; lia). done.
  - rewrite (wrap_small 16 (di + 4)) by (change (2 ^ 16) with 0x10000; lia).
    rewrite IH by lia. apply store_out. rewrite far_low by lia. lia.
Qed.

Lemma rep_stosd_out x eax n : forall edi r,
  ~ (edi <= x < edi + 4 * Z.of_nat n) -> rep_stosd n edi eax r x = r x.
Proof.
  induction n as [|n IH]; intros edi r Hx; [done|]. cbn [rep_stosd]. rewrite IH by lia. apply store_out. lia.
Qed.

Lemma rep_stosd_zero x n : forall edi r, edi <= x < edi + 4 * Z.of_nat n -> rep_stosd n edi 0 r x = 0.
Proof.
  induction n as [|n IH]; intros edi r Hx; [lia|]. cbn [rep_stosd].
  destruct (decide (x < edi + 4)); [|apply IH; lia].
  rewrite rep_stosd_out, store_in by lia. by rewrite Z.div_0_l by lia.
Qed.

Lemma set_table_out x n : forall edi eax r,
  (forall i, 0 <= i < Z.of_nat n -> ~ (edi + 8 * i <= x < edi + 8 * i + 4)) -> set_table n edi eax r x = r x.
Proof.
  induction n as [|n IH]; intros edi eax r Hx; [done|]. cbn [set_table]. rewrite IH.
  - apply store_out. specialize (Hx 0). lia.
  - intros i Hi. specialize (Hx (i + 1)). lia.
Qed.

Lemma set_table_entry i n : forall edi eax r,
  0 <= i < Z.of_nat n -> 0 <= eax -> eax + 0x1000 * Z.of_nat n <= 2 ^ 32 ->
  load 4 (edi + 8 * i) (set_table n edi eax r) = eax + 0x1000 * i.
Proof.
  revert i. induction n as [|n IH]; intros i edi eax r Hi He Hn; [lia|]. cbn [set_table].
  destruct (decide (i = 0)) as [->|].
  - rewrite (load_ext 4 _ (store 4 edi eax r)) by (intros x Hx; apply set_table_out; lia).
    replace (edi + 8 * 0) with edi by lia. rewrite load_store. rewrite Z.mod_small; [lia|].
    change (256 ^ Z.of_nat 4) with (2 ^ 32). lia.
  - destruct n as [|n]; [lia|]. rewrite (wrap_small 32) by lia.
    replace (edi + 8 * i) with (edi + 8 + 8 * (i - 1)) by lia. rewrite IH by lia. lia.
Qed.

Lemma store_byte n a v r x : 0 <= r x < 256 -> 0 <= store n a v r x < 256.
Proof. intros Hx. unfold store. case_decide; [apply Z.mod_pos_bound; lia | done]. Qed.

Lemma set_table_byte x n : forall edi eax r, 0 <= r x < 256 -> 0 <= set_table n edi eax r x < 256.
Proof. induction n as [|n IH]; intros edi eax r Hx; [done|]. cbn [set_table]. apply IH. by apply store_byte. Qed.

(** The entry of eight bytes whose upper half is clear. *)
Lemma load_low a r : (forall x, a + 4 <= x < a + 8 -> r x = 0) -> load 8 a r = load 4 a r.
Proof. intros Hz. rewrite (load_app 4 4), (load_zero 4 (a + Z.of_nat 4)) by (intros x Hx; apply Hz; lia). by rewrite Z.mul_0_r, Z.add_0_r. Qed.

(** What the tables hold. *)
Record tables_ok (r : ram) : Prop := {
  tb_low : load 8 PML4_addr r = 0x91007;
  tb_high : load 8 (PML4_addr + 8 * 0x100) r = 0x91007;
  tb_pdp : load 8 PDP_addr r = 0x92007;
  tb_pde : forall i, 0 <= i < 4 -> load 8 (PDE_addr + 8 * i) r = 4096 * (0x93 + i) + 7;
  tb_pte : forall i, 0 <= i < 2048 -> load 8 (PTE_addr + 8 * i) r = 4096 * i + 7;
  tb_bytes : forall x, PML4_addr <= x < 0x97000 -> 0 <= r x < 256
}.

Lemma tables_kept r r' : tables_ok r -> (forall x, PML4_addr <= x < 0x97000 -> r' x = r x) -> tables_ok r'.
Proof.
  intros [T1 T2 T3 T4 T5 T6] Hx. unfold PML4_addr, PDP_addr, PDE_addr, PTE_addr in *.
  split; [..| intros x Hx'; unfold PML4_addr in Hx'; rewrite Hx by lia; by apply T6]; [rewrite <- T1 | rewrite <- T2 | rewrite <- T3 | intros i Hi; rewrite <- T4 by done
    | intros i Hi; rewrite <- T5 by done];
    (apply load_ext; intros x Hx'; apply Hx; unfold PML4_addr, PDP_addr, PDE_addr, PTE_addr in *; lia).
Qed.

(** The tables as they are built on cleared memory. *)
Lemma tables_built r :
  (forall x, 0x90000 <= x < 0x97000 -> r x = 0) ->
  let r := store 4 PML4_addr 0x91007 r in
  let r := store 4 (PML4_addr + 8 * 0x100) 0x91007 r in
  let r := store 4 PDP_addr 0x92007 r in
  let r := set_table 4 PDE_addr 0x93007 r in
  tables_ok (set_table 2048 PTE_addr 0x7 r).
Proof.
  intros Hz r1 r2 r3 r4. unfold PML4_addr, PDP_addr, PDE_addr, PTE_addr in *.
  assert (Ho : forall x, 0x90000 <= x < 0x97000 -> 4 <= x mod 8 -> set_table 2048 0x93000 7 r4 x = 0).
  { intros x Hx Hm. pose proof (Z.div_mod x 8 ltac:(lia)). pose proof (Z.mod_pos_bound x 8 ltac:(lia)).
    rewrite set_table_out by (intros i Hi; lia). unfold r4. rewrite set_table_out by (intros i Hi; lia).
    unfold r3, r2, r1. rewrite !store_out by lia. by apply Hz. }
  assert (Hl : forall a v, 0x90000 <= a < 0x97000 -> a mod 8 = 0 ->
    load 4 a (set_table 2048 0x93000 7 r4) = v -> load 8 a (set_table 2048 0x93000 7 r4) = v).
  { intros a v Ha Hm <-. apply load_low. intros x Hx. pose proof (Z.div_mod a 8 ltac:(lia)). apply Ho; [lia|].
    replace x with (x - a + a / 8 * 8) by lia. rewrite Z.mod_add, Z.mod_small by lia. lia. }
  assert (H4 : forall a, a + 4 <= 0x93000 -> load 4 a (set_table 2048 0x93000 7 r4) = load 4 a r4)
    by (intros a Ha; apply load_ext; intros x Hx; apply set_table_out; intros i Hi; lia).
  assert (H3 : forall a, a + 4 <= 0x92000 -> load 4 a r4 = load 4 a r3)
    by (intros a Ha; apply load_ext; intros x Hx; apply set_table_out; intros i Hi; lia).
  split; unfold PML4_addr, PDP_addr, PDE_addr, PTE_addr.
  - apply Hl; [lia | done|]. rewrite H4, H3 by lia. unfold r3, r2, r1. by rewrite !load_store_other, load_store by lia.
  - apply Hl; [lia | done|]. rewrite H4, H3 by lia. unfold r3, r2. by rewrite load_store_other, load_store by lia.
  - apply Hl; [lia | done|]. rewrite H4, H3 by lia. unfold r3. by rewrite load_store.
  - intros i Hi. apply Hl; [lia | |].
    { rewrite Z.add_mod, Z.mul_comm, Z.mod_mul by lia. done. }
    rewrite H4 by lia. unfold r4. rewrite set_table_entry by lia. lia.
  - intros i Hi. apply Hl; [lia | |].
    { rewrite Z.add_mod, Z.mul_comm, Z.mod_mul by lia. done. }
    rewrite set_table_entry by lia. lia.
  - intros x Hx. apply set_table_byte. unfold r4. apply set_table_byte. unfold r3, r2, r1.
    do 3 apply store_byte. rewrite Hz by lia. lia.
Qed.

(** *** Addresses *)

(** CR3 as it is written: both cache bits are set. *)
Definition boot_cr3 : Z := 0x90018.

Lemma boot_entry_hit r t i v :
  load 8 (t + 8 * i) r = v -> Z.testbit v 0 = true -> boot_entry r t i = Some v.
Proof. intros Hl Hv. unfold boot_entry. by rewrite Hl, Hv. Qed.

Lemma attr_bits q n : 0 <= q -> 0 <= n < 12 -> Z.testbit (4096 * q + 7) n = Z.testbit 7 n.
Proof.
  intros Hq Hn. rewrite <- (Z.mod_pow2_bits_low (4096 * q + 7) 12 n) by lia.
  change (2 ^ 12) with 4096. rewrite Z.add_comm, Z.mul_comm, Z.mod_add by lia. done.
Qed.

(** The last three levels, for an address whose indices are those of [x]. *)
Lemma walk_low r va x :
  tables_ok r -> 0 <= x < 8 * 2 ^ 20 -> table_index 39 va = 0 \/ table_index 39 va = 0x100 ->
  table_index 30 va = 0 -> table_index 21 va = x / 2 ^ 21 -> table_index 12 va = (x / 2 ^ 12) mod 512 ->
  va mod 2 ^ 12 = x mod 2 ^ 12 -> walk r boot_cr3 va = Some x.
Proof.
  intros [T1 T2 T3 T4 T5 _] Hx I4 I3 I2 I1 Io. unfold PML4_addr, PDP_addr, PDE_addr, PTE_addr in *.
  assert (H21 : 0 <= x / 2 ^ 21 < 4) by (split; [apply Z.div_pos; lia | apply Z.div_lt_upper_bound; lia]).
  pose proof (two_level x ltac:(lia)) as Htl. pose proof (Z.mod_pos_bound (x / 2 ^ 12) 512 ltac:(lia)).
  assert (H12 : 0 <= x / 2 ^ 12 < 2048) by lia.
  assert (Hb : forall q, 0 <= q < 2 ^ 40 -> entry_base (4096 * q + 7) = 4096 * q)
    by (intros q Hq; apply entry_base_add; lia).
  unfold walk. change (entry_base boot_cr3) with 0x90000.
  assert (E4 : load 8 (0x90000 + 8 * table_index 39 va) r = 0x91007) by (destruct I4 as [E | E]; rewrite E; done).
  rewrite (boot_entry_hit _ _ _ 0x91007 E4) by done. cbn [mbind option_bind].
  change (entry_base 0x91007) with 0x91000.
  rewrite (boot_entry_hit _ 0x91000 _ 0x92007) by (rewrite ?I3; done). cbn [mbind option_bind].
  change (Z.testbit 0x92007 7) with false. cbv iota. change (entry_base 0x92007) with 0x92000.
  rewrite (boot_entry_hit _ _ _ (4096 * (0x93 + x / 2 ^ 21) + 7))
    by (first [rewrite I2; by apply T4 | rewrite attr_bits by lia; reflexivity]).
  cbn [mbind option_bind]. rewrite attr_bits by lia. change (Z.testbit 7 7) with false. cbv iota.
  rewrite Hb by lia. rewrite (boot_entry_hit _ _ _ (4096 * (x / 2 ^ 12) + 7)).
  - cbn [mbind option_bind]. rewrite Hb, Io by lia. f_equal. pose proof (Z.div_mod x (2 ^ 12)). lia.
  - rewrite I1. rewrite <- T5 by lia. f_equal. lia.
  - rewrite attr_bits by lia. done.
Qed.

(** The first 8 MB, at their physical addresses and above [PAGE_OFFSET]. *)
Lemma walk_boot r x : tables_ok r -> 0 <= x < 8 * 2 ^ 20 ->
  walk r boot_cr3 x = Some x /\ walk r boot_cr3 (PAGE_OFFSET + x) = Some x.
Proof.
  intros Ht Hx.
  assert (H30 : x / 2 ^ 30 = 0) by (apply Z.div_small; lia).
  assert (H21 : (x / 2 ^ 21) mod 512 = x / 2 ^ 21).
  { apply Z.mod_small. split; [apply Z.div_pos; lia | apply Z.div_lt_upper_bound; lia]. }
  split.
  - apply walk_low; try done; unfold table_index; try done.
    + left. by rewrite (Z.div_small x) by lia.
    + by rewrite H30.
  - destruct (kernel_indices x) as (I4 & I3 & I2 & I1 & Io); [lia|].
    destruct (macro_indices (PAGE_OFFSET + x)) as (M4 & M3 & M2 & M1).
    apply walk_low; rewrite ?M4, ?M3, ?M2, ?M1; try done; [by right | by rewrite I3 | by rewrite I2].
Qed.

(** A linear address of the first 8 MB and its physical address. *)
Definition linear (va x : Z) : Prop := 0 <= x < 8 * 2 ^ 20 /\ (va = x \/ va = PAGE_OFFSET + x).

Lemma vload_ok n r va x : tables_ok r -> linear va x -> vload n boot_cr3 va r = Ret (load n x r).
Proof.
  intros Ht [Hx Hv]. unfold vload. destruct (walk_boot r x Ht Hx) as [H1 H2].
  destruct Hv as [-> | ->]; by rewrite ?H1, ?H2.
Qed.

(** A store outside the tables keeps them. *)
Lemma vstore_ok n r va x v : tables_ok r -> linear va x -> x + Z.of_nat n <= PML4_addr \/ 0x97000 <= x ->
  vstore n boot_cr3 va v r = Ret (store n x v r) /\ tables_ok (store n x v r).
Proof.
  intros Ht [Hx Hv] Hd. unfold PML4_addr in Hd. destruct (walk_boot r x Ht Hx) as [H1 H2]. split.
  - unfold vstore. destruct Hv as [-> | ->]; by rewrite ?H1, ?H2.
  - eapply tables_kept; [done|]. unfold PML4_addr. intros y Hy. apply store_out. lia.
Qed.

Lemma rep_stosq_zero n : forall x r, tables_ok r -> 0x97000 <= x -> x + 8 * Z.of_nat n <= 8 * 2 ^ 20 ->
  exists r', rep_stosq n boot_cr3 x 0 r = Ret r' /\ tables_ok r' /\
    (forall y, x <= y < x + 8 * Z.of_nat n -> r' y = 0) /\
    (forall y, ~ (x <= y < x + 8 * Z.of_nat n) -> r' y = r y).
Proof.
  induction n as [|n IH]; intros x r Ht Hx Hn.
  - exists r. split; [done|]. split; [done|]. split; [lia | done].
  - cbn [rep_stosq]. destruct (vstore_ok 8 r x x 0 Ht) as [E Ht']; [split; [lia | by left] | lia |]. step E.
    destruct (IH (x + 8) _ Ht') as (r' & E' & Ht2 & Hin & Hout); [lia..|]. exists r'. split; [done|]. split; [done|].
    split; intros y Hy.
    + destruct (decide (x + 8 <= y)); [apply Hin; lia|]. rewrite Hout, store_in by lia. by rewrite Z.div_0_l by lia.
    + rewrite Hout by lia. apply store_out. lia.
Qed.

Lemma copy_word a b r i : (forall y, a <= y < a + 8 -> 0 <= r y < 256) -> 0 <= i < 8 ->
  store 8 b (load 8 a r) r (b + i) = r (a + i).
Proof. intros Hb Hi. rewrite store_in by lia. rewrite Z.add_simpl_l. by apply word_byte. Qed.

(** The copy, eight bytes at a time, to a place apart from the source. *)
Lemma copy_kernel_spec n : forall fuel src dst r, (n < fuel)%nat ->
  tables_ok r -> 0 <= src -> src + 8 * (Z.of_nat n + 1) <= PML4_addr -> 0x97000 <= dst ->
  dst + 8 * (Z.of_nat n + 1) <= 8 * 2 ^ 20 ->
  (forall y, src <= y < src + 8 * (Z.of_nat n + 1) -> 0 <= r y < 256) ->
  exists r', copy_kernel fuel boot_cr3 src dst (8 * (Z.of_nat n + 1)) r = Ret r' /\ tables_ok r' /\
    (forall i, 0 <= i < 8 * (Z.of_nat n + 1) -> r' (dst + i) = r (src + i)) /\
    (forall y, ~ (dst <= y < dst + 8 * (Z.of_nat n + 1)) -> r' y = r y).
Proof.
  unfold PML4_addr. induction n as [|n IH]; intros fuel src dst r Hf Ht Hs Hs2 Hd Hd2 Hb;
    (destruct fuel as [|fuel]; [lia|]); cbn [copy_kernel];
    (rewrite (vload_ok 8 r src src Ht) by (split; [lia | by left])); cbn [mbind res_bind];
    (destruct (vstore_ok 8 r dst dst (load 8 src r) Ht) as [E Ht']; [split; [lia | by left] | lia |]); step E.
  - change (u64 (8 * (Z.of_nat 0 + 1) - 8) =? 0) with true. cbv iota. eexists. split; [done|]. split; [done|].
    split; intros i Hi; [apply copy_word; [intros y Hy; apply Hb; lia | lia] | apply store_out; lia].
  - replace (8 * (Z.of_nat (S n) + 1) - 8) with (8 * (Z.of_nat n + 1)) by lia.
    rewrite (wrap_small 64) by lia. rewrite (proj2 (Z.eqb_neq _ _)) by lia.
    destruct (IH fuel (src + 8) (dst + 8) _ ltac:(lia) Ht') as (r' & E' & Ht2 & Hin & Hout); [lia..| |].
    { intros y Hy. rewrite store_out by lia. apply Hb. lia. }
    exists r'. split; [done|]. split; [done|]. split.
    + intros i Hi. destruct (decide (i < 8)).
      * rewrite Hout by lia. apply copy_word; [intros y Hy; apply Hb; lia | lia].
      * replace (dst + i) with (dst + 8 + (i - 8)) by lia. rewrite Hin, store_out by lia. f_equal. lia.
    + intros y Hy. rewrite Hout by lia. apply store_out. lia.
Qed.

(** *** The jump to the kernel *)

Lemma vpush_ok v y r : tables_ok r -> 0x97008 <= y <= 8 * 2 ^ 20 ->
  vpush boot_cr3 v (PAGE_OFFSET + y, r) = Ret (PAGE_OFFSET + (y - 8), store 8 (y - 8) v r) /\
  tables_ok (store 8 (y - 8) v r).
Proof.
  intros Ht Hy. unfold vpush. cbn [fst snd].
  rewrite (wrap_small 64) by (unfold PAGE_OFFSET; lia).
  replace (PAGE_OFFSET + y - 8) with (PAGE_OFFSET + (y - 8)) by lia.
  destruct (vstore_ok 8 r (PAGE_OFFSET + (y - 8)) (y - 8) v Ht) as [E Ht']; [split; [lia | by right] | lia |].
  step E. by split.
Qed.

Lemma fill_stack_ok n i v y : forall r, tables_ok r -> 0x97000 + 8 * Z.of_nat n <= y <= 8 * 2 ^ 20 ->
  exists r', for_loop n i (fun _ => vpush boot_cr3 v) (PAGE_OFFSET + y, r)
      = Ret (PAGE_OFFSET + (y - 8 * Z.of_nat n), r') /\ tables_ok r' /\
    forall x, ~ (y - 8 * Z.of_nat n <= x < y) -> r' x = r x.
Proof.
  revert i y. induction n as [|n IH]; intros i y r Ht Hy.
  - exists r. split; [|by split]. cbn [for_loop]. do 3 f_equal. lia.
  - cbn [for_loop]. destruct (vpush_ok v y r Ht) as [E Ht']; [lia|]. step E.
    destruct (IH (i + 1) (y - 8) _ Ht') as (r' & E' & Ht2 & Hr); [lia|]. exists r'. split; [|split; [done|]].
    + rewrite E'. do 3 f_equal. lia.
    + intros x Hx. rewrite Hr by lia. apply store_out. lia.
Qed.

Lemma write_params_ok ps : forall x r, tables_ok r -> 0x97000 <= x -> x + 8 * Z.of_nat (length ps) <= 8 * 2 ^ 20 ->
  exists r', write_params boot_cr3 x ps r = Ret r' /\ tables_ok r' /\
    (forall i p, ps !! i = Some p -> load 8 (x + 8 * Z.of_nat i) r' = u64 p) /\
    (forall y, ~ (x <= y < x + 8 * Z.of_nat (length ps)) -> r' y = r y).
Proof.
  induction ps as [|p ps IH]; intros x r Ht Hx Hl.
  - exists r. split; [done|]. split; [done|]. by split.
  - cbn [write_params length] in *. destruct (vstore_ok 8 r x x p Ht) as [E Ht']; [split; [lia | by left] | lia |].
    step E. destruct (IH (x + 8) _ Ht') as (r' & E' & Ht2 & Hin & Hout); [lia..|]. exists r'.
    split; [done|]. split; [done|]. split.
    + intros [|i] q Hi; cbn in Hi.
      * injection Hi as <-. rewrite Z.mul_0_r, Z.add_0_r.
        rewrite (load_ext 8 x (store 8 x p r)) by (intros y Hy; apply Hout; lia). by rewrite load_store.
      * replace (x + 8 * Z.of_nat (S i)) with (x + 8 + 8 * Z.of_nat i) by lia. by apply Hin.
    + intros y Hy. rewrite Hout by lia. apply store_out. lia.
Qed.

Lemma load_store8 a b v r : b + 8 <= a \/ a + 8 <= b -> load 8 a (store 8 b v r) = load 8 a r.
Proof. intros Hd. apply (load_store_other 8 8). lia. Qed.

(** The frame of [iretq]. *)
Lemma iretq_ok y v1 v2 v3 v4 v5 sig r : tables_ok r -> 0x97028 <= y <= 8 * 2 ^ 20 ->
  let r := store 8 (y - 40) v5 (store 8 (y - 32) v4 (store 8 (y - 24) v3 (store 8 (y - 16) v2 (store 8 (y - 8) v1 r)))) in
  iretq boot_cr3 (PAGE_OFFSET + (y - 40)) sig r
  = Ret {| rip := u64 v5; cs := u64 v4; rflags := u64 v3; rsp := u64 v2; ss := u64 v1; rdi := sig |}.
Proof.
  intros Ht Hy r'. assert (Ht' : tables_ok r').
  { eapply tables_kept; [done|]. unfold PML4_addr. intros x Hx. unfold r'. by rewrite !store_out by lia. }
  assert (Hl : forall d, 0 <= d < 40 -> vload 8 boot_cr3 (PAGE_OFFSET + (y - 40) + d) r' = Ret (load 8 (y - 40 + d) r')).
  { intros d Hd. apply vload_ok; [done|]. split; [lia | right; lia]. }
  unfold iretq. rewrite <- (Z.add_0_r (PAGE_OFFSET + (y - 40))) at 1. rewrite !Hl by lia. cbn [mbind res_bind].
  rewrite Z.add_0_r. replace (y - 40 + 8) with (y - 32) by lia. replace (y - 40 + 16) with (y - 24) by lia.
  replace (y - 40 + 24) with (y - 16) by lia. replace (y - 40 + 32) with (y - 8) by lia.
  assert (E : forall a v q, load 8 a (store 8 a v q) = u64 v) by (intros a v q; apply (load_store 8)).
  f_equal. unfold r'. f_equal.
  - apply E.
  - rewrite load_store8 by lia. apply E.
  - rewrite 2!load_store8 by lia. apply E.
  - rewrite 3!load_store8 by lia. apply E.
  - rewrite 4!load_store8 by lia. apply E.
Qed.

(** A place the kernel's stack can be. *)
Definition stack_ok (y : Z) : Prop := 0x100000 + 168 <= y <= 8 * 2 ^ 20.

(** The memory the last part writes to: the screen, the parameters, the stack. *)
Definition scratch (y x : Z) : Prop :=
  x = 0xB8006 \/ 0x9F000 <= x < 0x9F070 \/ y - 168 <= x < y.

Lemma enter_kernel_spec k p y r :
  tables_ok r -> cr3 p = boot_cr3 -> stack_ok y -> 0 <= _code_start k < 2 ^ 64 ->
  exists r', enter_kernel k p (PAGE_OFFSET + y) r
      = Ret ({| cr0 := cr0 p; cr3 := boot_cr3; cr4 := cr4 p; efer := efer p; lgdt := lgdt p;
                processor_sig64 := u64 (processor_sig64 p + 1); p_ram := r' |},
             {| rip := _code_start k; cs := KERNEL_CODE64_SEL; rflags := 0; rsp := PAGE_OFFSET + (y - 128); ss := 0;
                rdi := processor_sig64 p |}) /\
    tables_ok r' /\
    (forall i v, boot_params k !! i = Some v -> load 8 (BOOTING_PARAMS_ADDR + 8 * Z.of_nat i) r' = u64 v) /\
    (forall x, ~ scratch y x -> r' x = r x).
Proof.
  intros Ht Hc Hy Hcode. unfold stack_ok in Hy. unfold enter_kernel. rewrite Hc. cbv zeta.
  destruct (fill_stack_ok 0x10 0 0x12345678ABCDEF00 y r Ht) as (r1 & E1 & Ht1 & O1); [lia|].
  change (8 * Z.of_nat 0x10) with 128 in *. step E1.
  destruct (vstore_ok 1 r1 0xb8006 0xb8006 76 Ht1) as [E2 Ht2]; [split; [lia | by left] | lia |]. step E2.
  set (r2 := store 1 0xb8006 76 r1) in *.
  destruct (write_params_ok (boot_params k) BOOTING_PARAMS_ADDR r2 Ht2) as (r3 & E3 & Ht3 & I3 & O3);
    [unfold BOOTING_PARAMS_ADDR; lia | unfold BOOTING_PARAMS_ADDR; simpl; lia |].
  unfold BOOTING_PARAMS_ADDR in *. change (Z.of_nat (length (boot_params k))) with 14 in O3. step E3.
  destruct (vpush_ok 0 (y - 128) r3 Ht3) as [E4 Ht4]; [lia|]. step E4.
  destruct (vpush_ok (PAGE_OFFSET + (y - 128)) (y - 128 - 8) _ Ht4) as [E5 Ht5]; [lia|]. step E5.
  destruct (vpush_ok 0 (y - 128 - 8 - 8) _ Ht5) as [E6 Ht6]; [lia|]. step E6.
  destruct (vpush_ok KERNEL_CODE64_SEL (y - 128 - 8 - 8 - 8) _ Ht6) as [E7 Ht7]; [lia|]. step E7.
  destruct (vpush_ok (_code_start k) (y - 128 - 8 - 8 - 8 - 8) _ Ht7) as [E8 Ht8]; [lia|]. step E8.
  pose proof (iretq_ok (y - 128) 0 (PAGE_OFFSET + (y - 128)) 0 KERNEL_CODE64_SEL (_code_start k) (processor_sig64 p) r3
    Ht3 ltac:(lia)) as E9. cbv zeta in E9.
  replace (y - 128 - 8 - 8 - 8 - 8 - 8) with (y - 128 - 40) in * by lia.
  replace (y - 128 - 8 - 8 - 8 - 8) with (y - 128 - 32) in * by lia.
  replace (y - 128 - 8 - 8 - 8) with (y - 128 - 24) in * by lia.
  replace (y - 128 - 8 - 8) with (y - 128 - 16) in * by lia.
  step E9. eexists. split.
  - rewrite (wrap_small 64 (_code_start k)), (wrap_small 64 (PAGE_OFFSET + _)) by (unfold PAGE_OFFSET; lia). reflexivity.
  - split; [exact Ht8|]. split.
    + intros i v Hi. pose proof (lookup_lt_Some _ _ _ Hi) as Hl. simpl in Hl.
      rewrite !load_store8 by lia. by apply I3.
    + intros x Hx. unfold scratch in Hx. rewrite !store_out by lia. rewrite O3 by lia. unfold r2.
      rewrite store_out by lia. apply O1. lia.
Qed.

Lemma bit_clear_test e n : 0 <= n -> (Z.land e (Z.shiftl 0x1 n) =? 0) = negb (Z.testbit e n).
Proof.
  intros Hn. rewrite Z.shiftl_1_l. destruct (Z.testbit e n) eqn:E; cbn [negb].
  - apply Z.eqb_neq. intros Hz. apply (f_equal (fun v => Z.testbit v n)) in Hz.
    rewrite Z.land_spec, E, Z.pow2_bits_true, Z.bits_0 in Hz by done. done.
  - apply Z.eqb_eq, Z.bits_inj'. intros i Hi. rewrite Z.land_spec, Z.bits_0.
    destruct (decide (i = n)) as [->|]; [by rewrite E|]. rewrite Z.pow2_bits_false by lia. apply andb_false_r.
Qed.

(** What the processor that copies the kernel leaves in memory. *)
Record kernel_in_place (k : link) (y : Z) (image : Z -> Z) (r : ram) : Prop := {
  kp_tables : tables_ok r;
  kp_image : forall i, 0 <= i < 512 * KSIZE k -> r (0x100000 + i) = image i;
  kp_clear : forall x, 0x100000 + 512 * KSIZE k <= x < 8 * 2 ^ 20 -> ~ (y - 168 <= x < y) -> r x = 0;
  kp_params : forall i v, boot_params k !! i = Some v -> load 8 (BOOTING_PARAMS_ADDR + 8 * Z.of_nat i) r = u64 v
}.

Lemma long_mode_spec k p y :
  tables_ok (p_ram p) -> cr3 p = boot_cr3 -> Z.testbit (efer p) BIT_EFER_LMA = true -> processor_sig64 p = 0 ->
  STACK_START k = PAGE_OFFSET + y -> 0 < KSIZE k -> 0xA000 + 512 * KSIZE k <= PML4_addr ->
  0x100000 + 512 * KSIZE k <= y - 168 -> y <= 8 * 2 ^ 20 -> 0 <= _code_start k < 2 ^ 64 ->
  (forall i, 0 <= i < 512 * KSIZE k -> 0 <= p_ram p (0xA000 + i) < 256) ->
  exists p' r', long_mode k p = Ret (p',
      {| rip := _code_start k; cs := KERNEL_CODE64_SEL; rflags := 0; rsp := PAGE_OFFSET + (y - 128); ss := 0; rdi := 0 |}) /\
    p' = {| cr0 := cr0 p; cr3 := boot_cr3;
            cr4 := Z.lor (cr4 p) (Z.lor (Z.shiftl 0x1 BIT_CR4_PAE) (Z.shiftl 0x1 BIT_CR4_PGE));
            efer := Z.lor (efer p) (Z.shiftl 0x1 BIT_EFER_SCE); lgdt := lgdt p; processor_sig64 := 1; p_ram := r' |} /\
    kernel_in_place k y (fun i => p_ram p (0xA000 + i)) r' /\
    (forall x, 0 <= x < 0x100000 -> ~ scratch y x -> r' x = p_ram p x).
Proof.
  intros Ht Hc Hl Hsig Hst HK Hsrc Hdst Hy Hcode Hb. unfold PML4_addr in *.
  assert (Hy' : stack_ok y) by (unfold stack_ok; lia).
  unfold long_mode. rewrite bit_clear_test, Hl by done. cbn [negb]. cbv zeta.
  cbn [with_controls cr0 cr3 cr4 efer lgdt processor_sig64 p_ram]. rewrite Hsig, Hc. change (u8 0 =? 0) with true. cbv iota.
  change (7 * 1024 * 1024 / 8) with 917504.
  destruct (rep_stosq_zero (Z.to_nat 917504) 0x100000 (p_ram p) Ht) as (r1 & E1 & Ht1 & Z1 & O1); [lia..|].
  rewrite (Z2Nat.id 917504) in Z1, O1 by lia. change (8 * 917504) with 0x700000 in *. step E1. clear E1.
  rewrite (wrap_small 64 (KSIZE k * 512)) by lia.
  destruct (copy_kernel_spec (Z.to_nat (64 * KSIZE k - 1)) (S (Z.to_nat (KSIZE k * 512))) 0xA000 0x100000 r1)
    as (r2 & E2 & Ht2 & I2 & O2); [lia | done | unfold PML4_addr; lia.. | |].
  { intros x Hx. rewrite O1 by lia. replace x with (0xA000 + (x - 0xA000)) by lia. apply Hb. lia. }
  replace (8 * (Z.of_nat (Z.to_nat (64 * KSIZE k - 1)) + 1)) with (KSIZE k * 512) in * by lia. step E2.
  rewrite Hst.
  destruct (enter_kernel_spec k (with_controls (cr0 p) (cr3 p)
    (Z.lor (cr4 p) (Z.lor (Z.shiftl 0x1 BIT_CR4_PAE) (Z.shiftl 0x1 BIT_CR4_PGE)))
    (Z.lor (efer p) (Z.shiftl 0x1 BIT_EFER_SCE)) p) y r2 Ht2 Hc Hy' Hcode) as (r3 & E3 & Ht3 & I3 & O3).
  cbn [with_controls cr0 cr3 cr4 efer lgdt processor_sig64 p_ram] in *. rewrite Hsig, Hc in E3.
  rewrite E3. eexists _, r3. split; [reflexivity|]. split; [reflexivity|]. unfold scratch in *.
  split; [split|].
  - exact Ht3.
  - intros i Hi. rewrite O3, I2, O1 by lia. done.
  - intros x Hx Hs. rewrite O3, O2 by lia. apply Z1. lia.
  - exact I3.
  - intros x Hx Hs. rewrite O3, O2, O1 by lia. done.
Qed.

Lemma or_bit v n : 0 <= n -> Z.testbit (Z.lor v (Z.shiftl 0x1 n)) n = true.
Proof. intros Hn. rewrite Z.lor_spec, Z.shiftl_1_l, Z.pow2_bits_true by done. apply orb_true_r. Qed.

(** The clearing covers 0x90000 to 0xABFFF, four times what the comment says. *)
Lemma protected_mode_spec p :
  exists r', protected_mode p = Ret
      {| cr0 := Z.lor (cr0 p) (Z.shiftl 0x1 BIT_CR0_PG); cr3 := boot_cr3;
         cr4 := Z.lor (cr4 p) (Z.shiftl 0x1 BIT_CR4_PAE);
         efer := Z.lor (Z.lor (efer p) (Z.shiftl 0x1 BIT_EFER_LME)) (Z.shiftl 0x1 BIT_EFER_LMA);
         lgdt := lgdt p; processor_sig64 := processor_sig64 p; p_ram := r' |} /\
    tables_ok r' /\ (forall x, 0x97000 <= x < 0xAC000 -> r' x = 0) /\
    (forall x, ~ (0x90000 <= x < 0xAC000) -> x <> 0xB8004 -> r' x = p_ram p x).
Proof.
  unfold protected_mode. cbv zeta.
  change (Z.to_nat (BOOTING_MEMORY_SIZE / 2)) with 4%nat.
  change (Z.lor PDP_addr 0x7) with 0x91007. change (Z.lor PDE_addr 0x7) with 0x92007.
  change (PTE_addr + 0x7) with 0x93007.
  change (Z.lor (Z.lor PML4_addr (Z.shiftl 0x1 BIT_CR3_PWT)) (Z.shiftl 0x1 BIT_CR3_PCD)) with boot_cr3.
  set (r0 := rep_stosd (Z.to_nat (7 * 4096)) 0x90000 0 (store 1 0xb8004 79 (p_ram p))).
  assert (Hz : forall x, 0x90000 <= x < 0xAC000 -> r0 x = 0) by (intros x Hx; apply rep_stosd_zero; lia).
  assert (Ho : forall x, ~ (0x90000 <= x < 0xAC000) -> x <> 0xB8004 -> r0 x = p_ram p x).
  { intros x H1 H2. unfold r0. rewrite rep_stosd_out by lia. apply store_out. lia. }
  pose proof (tables_built r0 (fun x Hx => Hz x ltac:(lia))) as Ht. cbv zeta in Ht.
  change (set_table (Z.to_nat (BOOTING_MEMORY_SIZE * 256))) with (set_table 2048).
  set (r1 := set_table 2048 PTE_addr 0x7 _) in *.
  assert (Hr : forall x, ~ (0x90000 <= x < 0x97000) -> r1 x = r0 x).
  { intros x Hx. unfold r1, PML4_addr, PDP_addr, PDE_addr, PTE_addr.
    rewrite set_table_out by (intros i Hi; lia). rewrite set_table_out by (intros i Hi; lia).
    by rewrite !store_out by lia. }
  unfold write_cr0. cbn [with_controls with_ram cr0 cr3 cr4 efer lgdt processor_sig64 p_ram].
  rewrite !or_bit by done. cbn [andb]. exists r1. split; [reflexivity|]. split; [exact Ht|]. split.
  - intros x Hx. rewrite Hr by lia. apply Hz. lia.
  - intros x H1 H2. rewrite Hr by lia. by apply Ho.
Qed.

(** The descriptors arrive; the rest of their page is not touched. *)
Lemma real_mode_ram p :
  (forall j d, gdt !! j = Some d -> load 8 (GDT_ADDR + 8 * Z.of_nat j) (p_ram (real_mode p)) = d) /\
  (forall x, ~ (0x8000 <= x < 0x8028) -> x <> 0xB8002 -> ~ (0xC0000 <= x < 0xC2000) ->
     p_ram (real_mode p) x = p_ram p x).
Proof.
  unfold real_mode. cbv zeta. cbn [p_ram]. change (far 0 GDT_ADDR) with 0x8000. change (far 0xb800 2) with 0xB8002.
  set (r := rep_stosd16 _ _ _ _ _). set (bs := concat _).
  assert (Hl : length bs = 40%nat) by reflexivity. split.
  - intros j d Hj. pose proof (lookup_lt_Some _ _ _ Hj) as Hj'. simpl in Hj'.
    assert (Hb : forall i b, bs !! i = Some b -> store_bytes 0x8000 bs r (0x8000 + Z.of_nat i) = b)
      by (intros i b; apply store_bytes_in).
    do 5 (destruct j as [|j]; [injection Hj as <-; cbn [load]; unfold GDT_ADDR;
      repeat match goal with |- context [store_bytes 0x8000 bs r ?a] =>
        let i := eval vm_compute in (Z.to_nat (a - 0x8000)) in
        let b := eval vm_compute in (bs !!! i) in
        change (store_bytes 0x8000 bs r a) with (store_bytes 0x8000 bs r (0x8000 + Z.of_nat i));
        rewrite (Hb i b eq_refl) end; reflexivity|]).
    lia.
  - intros x H1 H2 H3. rewrite store_bytes_out by (rewrite Hl; lia). unfold r.
    rewrite rep_stosd16_out by (unfold GDT_ADDR; rewrite ?Z2Nat.id; (done || lia)). apply store_out. lia.
Qed.

Section Whole.
Context (disk : Z -> Z -> Z -> option (list Z)) (ra_setup ra_kernel ra_one : Z) (k : link).
Context {H : Type} (m : chipset H) (ra_a20 : Z) (ra : Z -> Z) (eax0 ecx0 eflags : Z).

(** From the jump of the BIOS to the kernel. *)
Definition boot_loader (p : boot_cpu) (h : H) : res (boot_cpu * start * H) :=
  '(l, h) ← boot_sector disk ra_setup ra_kernel ra_one (KSIZE k) m ra_a20 ra eax0 ecx0 eflags (p_ram p) h;
  s ← setup_asm k (with_ram (l_ram l) p);
  Ret (s, h).

End Whole.

(** The byte [i] of the kernel on the diskette. *)
Definition image_byte (sector : Z -> list Z) (i : Z) : Z := sector (9 + i / 512) !!! Z.to_nat (i mod 512).

(** Sizes that fit: the image and the stack. *)
Record link_ok (k : link) (y : Z) : Prop := {
  lk_size : 0 < KSIZE k <= 109;
  lk_stack : STACK_START k = PAGE_OFFSET + y;
  lk_room : 0x100000 + 512 * KSIZE k <= y - 168 /\ y <= 8 * 2 ^ 20;
  lk_code : 0 <= _code_start k < 2 ^ 64
}.

(** The processor when it enters the kernel. *)
Record in_long_mode (p : boot_cpu) : Prop := {
  lm_protected : Z.testbit (cr0 p) BIT_CR0_PE = true;
  lm_paging : Z.testbit (cr0 p) BIT_CR0_PG = true;
  lm_cache : Z.testbit (cr0 p) BIT_CR0_CD = false;
  lm_pae : Z.testbit (cr4 p) BIT_CR4_PAE = true;
  lm_active : Z.testbit (efer p) BIT_EFER_LMA = true;
  lm_walk : forall x, 0 <= x < 8 * 2 ^ 20 ->
    walk (p_ram p) (cr3 p) x = Some x /\ walk (p_ram p) (cr3 p) (PAGE_OFFSET + x) = Some x
}.

Lemma diskette_byte disk sector n i : diskette disk sector -> 0 <= n < 2880 -> 0 <= i < 512 ->
  exists b, sector n !! Z.to_nat i = Some b /\ 0 <= b < 256.
Proof.
  intros Hd Hn Hi. destruct (Hd n Hn) as (_ & Hl & Hb).
  destruct (lookup_lt_is_Some_2 (sector n) (Z.to_nat i)) as [b Hs]; [lia|]. exists b. split; [done|].
  by eapply (Forall_lookup_1 _ _ _ _ Hb).
Qed.

(** What the boot sector leaves of the kernel. *)
Lemma loaded_byte disk sector r K i : diskette disk sector -> 0 < K <= 109 -> 0 <= i < 512 * K ->
  (forall i j b, 0 <= i < K -> sector (9 + i) !! j = Some b -> r (0xA000 + 512 * i + Z.of_nat j) = b) ->
  r (0xA000 + i) = image_byte sector i /\ 0 <= r (0xA000 + i) < 256.
Proof.
  intros Hd HK Hi Hr. pose proof (Z.div_mod i 512 ltac:(lia)) as Hm. pose proof (Z.mod_pos_bound i 512 ltac:(lia)).
  assert (Hq : 0 <= i / 512 < K) by (split; [apply Z.div_pos; lia | apply Z.div_lt_upper_bound; lia]).
  destruct (diskette_byte disk sector (9 + i / 512) (i mod 512) Hd) as (b & Hs & Hb); [lia..|].
  specialize (Hr (i / 512) _ b Hq Hs). replace (0xA000 + 512 * (i / 512) + Z.of_nat (Z.to_nat (i mod 512)))
    with (0xA000 + i) in Hr by lia.
  rewrite Hr. split; [|done]. unfold image_byte. symmetry. by apply list_lookup_total_correct.
Qed.

(** *** What the kernel reads *)

(** [setup_arch] reads what the loader has left at [BOOT_PARAMS] and at the
    address of the descriptors. *)
Record reads_boot (r : ram) (env : boot_env) : Prop := {
  rb_params : BOOT_PARAMS env = (fun i => load 8 (BOOTING_PARAMS_ADDR + 8 * i) r) <$> seqZ 0 14;
  rb_descriptors : boot_descriptors env = (fun j => load 8 (GDT_ADDR + 8 * j) r) <$> seqZ 0 512
}.

(** The loader meets what [Setup.boot_ok] asks of it, if the word behind the
    descriptors happens to be 0. *)
Lemma loader_fits_setup k y image r env cpu0 s :
  kernel_in_place k y image r -> STACK_START k = PAGE_OFFSET + y -> y = 4096 * s ->
  (forall j d, gdt !! j = Some d -> load 8 (GDT_ADDR + 8 * Z.of_nat j) r = d) ->
  load 8 (GDT_ADDR + 8 * 5) r = 0 -> reads_boot r env -> Setup.KERNEL_STACK_START env = STACK_START k ->
  2 <= MSIZE k <= 1024 -> MSIZE k mod 2 = 0 -> 0x200 <= s ->
  s + 17 + MSIZE k / 2 + mem_map_page (MSIZE k) < 256 * 8 - 1 ->
  s + 17 + MSIZE k / 2 + mem_map_page (MSIZE k) <= 256 * MSIZE k ->
  length (gdt_page env) = 512%nat -> Z.of_nat (length (map_area env)) = 256 * MSIZE k ->
  length (x86_vendor_id cpu0) = 16%nat -> boot_ok env cpu0 (MSIZE k) s 8 5.
Proof.
  intros [_ _ _ Kp] Hst -> Hg Hz [Rp Rd] Hks Hm Heven Hs Hh Hmem Hgp Hma Hv.
  assert (Hp : forall i v, boot_params k !! i = Some v -> BOOT_PARAMS env !! i = Some (u64 v)).
  { intros i v Hi. pose proof (lookup_lt_Some _ _ _ Hi) as Hl. simpl in Hl.
    rewrite Rp, list_lookup_fmap, lookup_seqZ_lt by lia. cbn [fmap option_fmap option_map].
    by rewrite Z.add_0_l, (Kp i v Hi). }
  assert (Hd : forall j, 0 <= j < 512 -> boot_descriptors env !! Z.to_nat j = Some (load 8 (GDT_ADDR + 8 * j) r)).
  { intros j Hj. rewrite Rd, list_lookup_fmap, lookup_seqZ_lt by lia. cbn [fmap option_fmap option_map].
    do 4 f_equal. lia. }
  split.
  - by rewrite Rp.
  - rewrite (Hp 7%nat (MSIZE k) eq_refl), wrap_small by lia. done.
  - by rewrite (Hp 9%nat 8 eq_refl).
  - by rewrite Hks, Hst.
  - done.
  - done.
  - lia.
  - done.
  - done.
  - done.
  - split; [lia|]. rewrite Rd, length_fmap, length_seqZ. done.
  - rewrite Hd by lia. by rewrite Hz.
  - intros j Hj. rewrite Hd by lia. eexists. split; [done|].
    assert (Hn : forall i d, gdt !! i = Some d -> d <> 0 -> load 8 (GDT_ADDR + 8 * Z.of_nat i) r <> 0)
      by (intros i d Hi Hnz; by rewrite (Hg i d Hi)).
    assert (Hc : j = 1 \/ j = 2 \/ j = 3 \/ j = 4) by lia.
    destruct Hc as [-> | [-> | [-> | ->]]].
    + exact (Hn 1%nat _ eq_refl ltac:(discriminate)).
    + exact (Hn 2%nat _ eq_refl ltac:(discriminate)).
    + exact (Hn 3%nat _ eq_refl ltac:(discriminate)).
    + exact (Hn 4%nat _ eq_refl ltac:(discriminate)).
  - done.
  - done.
Qed.

(** Nothing is found in memory that is clear. *)
Lemma scan_clear mem n : forall fuel a, (n < fuel)%nat -> 16 * Z.of_nat n < 2 ^ 64 ->
  (forall x, a <= x < a + 16 * Z.of_nat n -> mem !! x = Some 0) ->
  scan_loop fuel mem a (16 * Z.of_nat n) = Ret None.
Proof.
  induction n as [|n IH]; intros fuel a Hf Hn Hz; (destruct fuel as [|fuel]; [lia|]); cbn [scan_loop]; [done|].
  assert (Hgt : (16 * Z.of_nat (S n) >? 0) = true) by (apply Z.gtb_lt; lia). rewrite Hgt.
  assert (E : load_le 4 mem a = Ret 0).
  { assert (Hb : bytes_at mem a [0; 0; 0; 0]) by (cbn [bytes_at]; split_and!; try done; apply Hz; lia).
    unfold load_le. change 4%nat with (length [0; 0; 0; 0]). by rewrite (load_bytes_at mem a _ Hb). }
  step E. change (0 =? SMP_MAGIC_IDENT) with false. cbn [mbind res_bind].
  rewrite (wrap_small 64) by lia. replace (16 * Z.of_nat (S n) - 16) with (16 * Z.of_nat n) by lia.
  apply IH; [lia | lia |]. intros x Hx. apply Hz. lia.
Qed.

(** The kernel cannot find the structure of the multiprocessor specification
    in the last kilobyte below 640 KB, which the loader has cleared. *)
Lemma ebda_scan_fails (r : ram) (mem : bmem) st :
  (forall x, 0x9FC00 <= x < 0xA0000 -> r x = 0) ->
  (forall x, 0x9FC00 <= x < 0xA0000 -> mem !! (PAGE_OFFSET + x) = Some (r x)) ->
  smp_scan_config (639 * 0x400) 0x400 mem st = Ret (CAOS_FALSE, st).
Proof.
  intros Hz Hm. unfold smp_scan_config.
  assert (E : scan_loop (S (Z.to_nat 0x400)) mem (__va (639 * 0x400)) 0x400 = Ret None).
  { apply (scan_clear mem 64); [lia | lia |]. intros x Hx. change (__va (639 * 0x400)) with (PAGE_OFFSET + 0x9FC00) in Hx.
    replace x with (PAGE_OFFSET + (x - PAGE_OFFSET)) by lia. rewrite Hm, Hz by lia. done. }
  step E. done.
Qed.

(** Another processor enters with its number; its stack is the same whatever
    the number. It leaves the memory above 1 MB alone but for that stack. *)
Lemma other_processor_enters k y p :
  STACK_START k = PAGE_OFFSET + (y + 0x2000) -> stack_ok y -> 0 <= _code_start k < 2 ^ 64 ->
  0 < processor_sig64 p < 256 ->
  exists p', setup_asm k p = Ret (p',
      {| rip := _code_start k; cs := KERNEL_CODE64_SEL; rflags := 0; rsp := PAGE_OFFSET + (y - 128); ss := 0;
         rdi := processor_sig64 p |}) /\
    (forall x, 0x100000 <= x -> ~ (y - 168 <= x < y) -> p_ram p' x = p_ram p x).
Proof.
  intros Hst Hy Hcode Hsig. unfold setup_asm. set (p1 := real_mode p).
  destruct (real_mode_ram p) as [_ O2]. fold p1 in O2.
  destruct (protected_mode_spec p1) as (r3 & E3 & Ht3 & _ & O3). step E3. unfold long_mode.
  rewrite bit_clear_test by done. cbn [efer]. rewrite or_bit by done. cbn [negb]. cbv zeta.
  cbn [with_controls cr0 cr3 cr4 efer lgdt processor_sig64 p_ram].
  change (processor_sig64 p1) with (processor_sig64 p).
  rewrite (wrap_small 8) by (change (2 ^ 8) with 256; lia). rewrite (proj2 (Z.eqb_neq _ _)) by lia.
  rewrite Hst. replace (PAGE_OFFSET + (y + 0x2000) - 0x2000) with (PAGE_OFFSET + y) by lia.
  match goal with |- context [enter_kernel k ?q _ _] =>
    destruct (enter_kernel_spec k q y r3 Ht3 eq_refl Hy Hcode) as (r4 & E4 & _ & _ & O4) end.
  eexists. split; [exact E4|]. intros x Hx Hs. cbn [p_ram].
  rewrite O4, O3, O2 by (unfold scratch; lia). done.
Qed.

(** The memory below 1 MB that the loader leaves as it was: what is below the
    descriptors, the rest of their page, and what is above the expansion ROMs. *)
Definition untouched (x : Z) : Prop := 0 <= x < 0x8000 \/ 0x8028 <= x < 0x9000 \/ 0xD0000 <= x < 0x100000.

Lemma boot_loader_spec {H} disk sector ra_setup ra_kernel ra_one k
    (m : chipset H) ra_a20 ra eax0 ecx0 eflags y p0 h0 :
  diskette disk sector -> 0 <= ra_setup < 0x10000 -> 0 <= ra_kernel < 0x10000 -> 0 <= ra_one < 0x10000 ->
  0 <= ra_a20 < 0x10000 -> (forall n, 0 <= ra n < 0x10000) -> opens m -> a20_fits (p_ram p0) ->
  link_ok k y -> processor_sig64 p0 = 0 ->
  exists p h, boot_loader disk ra_setup ra_kernel ra_one k m ra_a20 ra eax0 ecx0 eflags p0 h0 = Ret (p,
      {| rip := _code_start k; cs := KERNEL_CODE64_SEL; rflags := 0; rsp := PAGE_OFFSET + (y - 128); ss := 0; rdi := 0 |}, h) /\
    gate m h = true /\ in_long_mode p /\ kernel_in_place k y (image_byte sector) (p_ram p) /\
    (forall j d, gdt !! j = Some d -> load 8 (GDT_ADDR + 8 * Z.of_nat j) (p_ram p) = d) /\
    load 8 (GDT_ADDR + 8 * 5) (p_ram p) = load 8 (GDT_ADDR + 8 * 5) (p_ram p0) /\
    (forall x, 0x9FC00 <= x < 0xA0000 -> p_ram p x = 0) /\
    (forall x, untouched x -> p_ram p x = p_ram p0 x).
Proof.
  intros Hd Hs Hk Ho Ha Hras Hop Hf [HK Hst [Hroom Hy] Hcode] Hsig. unfold boot_loader, setup_asm.
  destruct (boot_sector_spec disk sector ra_one Hd Ho m ra_a20 ra eax0 ecx0 eflags Ha Hras ra_setup ra_kernel (KSIZE k)
    (p_ram p0) h0 Hs Hk HK Hop Hf) as (r1 & h1 & E1 & Hg & _ & I1 & O1). step E1. cbn [l_ram].
  set (p1 := real_mode (with_ram r1 p0)).
  destruct (real_mode_ram (with_ram r1 p0)) as [G2 O2]. fold p1 in G2, O2. cbn [with_ram p_ram] in O2.
  destruct (protected_mode_spec p1) as (r3 & E3 & Ht3 & Z3 & O3). step E3.
  set (p3 := {| cr0 := _; cr3 := _; cr4 := _; efer := _; lgdt := _; processor_sig64 := _; p_ram := r3 |}).
  assert (Hsrc : forall i, 0 <= i < 512 * KSIZE k -> r3 (0xA000 + i) = image_byte sector i /\ 0 <= r3 (0xA000 + i) < 256).
  { intros i Hi. rewrite O3, O2 by lia. by apply (loaded_byte disk sector r1 (KSIZE k)). }
  destruct (long_mode_spec k p3 y) as (p4 & r4 & E4 & -> & [Ht4 I4 Z4 P4] & O4);
    [exact Ht3 | reflexivity | by apply or_bit | exact Hsig | exact Hst | lia | unfold PML4_addr; lia | lia | lia
    | exact Hcode | intros i Hi; by apply Hsrc |].
  cbn [p_ram p3] in I4, O4. assert (Ho4 : forall x, 0 <= x < 0x9F000 -> r4 x = r3 x)
    by (intros x Hx; apply O4; [lia | unfold scratch; lia]).
  eexists _, h1. split; [step E4; reflexivity|]. split; [exact Hg|]. split_and!.
  - split; cbn [cr0 cr3 cr4 efer p_ram p3].
    + unfold p1, real_mode. cbv zeta. cbn [cr0]. by rewrite Z.lor_spec, or_bit.
    + by apply or_bit.
    + unfold p1, real_mode. cbv zeta. cbn [cr0]. rewrite !Z.lor_spec, !Z.land_spec. cbn. by rewrite andb_false_r.
    + by rewrite Z.lor_spec, or_bit.
    + rewrite Z.lor_spec, or_bit by done. done.
    + intros x Hx. by apply walk_boot.
  - split; [exact Ht4 | | exact Z4 | exact P4]. intros i Hi. cbn [p_ram]. rewrite I4 by done. by apply Hsrc.
  - intros j d Hj. cbn [p_ram]. pose proof (lookup_lt_Some _ _ _ Hj) as Hj'. simpl in Hj'. rewrite <- (G2 j d Hj).
    unfold GDT_ADDR. apply load_ext. intros x Hx. rewrite Ho4, O3 by lia. done.
  - cbn [p_ram]. unfold GDT_ADDR. apply load_ext. intros x Hx. rewrite Ho4, O3, O2, O1 by lia. done.
  - intros x Hx. cbn [p_ram]. rewrite O4 by (unfold scratch; lia). apply Z3. lia.
  - intros x Hx. unfold untouched in Hx. cbn [p_ram]. rewrite O4, O3, O2, O1 by (unfold scratch; lia). done.
Qed.

(** ** Properties *)

(** C4: the boot loader starts the kernel. From a diskette with setup.img and
    an image of at most 109 sectors, on a machine whose A20 line one of the
    known ways opens, whatever memory holds but the coincidence of
    [a20_line_opened], the boot sector and
    setup.asm bring the processor to 64-bit mode, with the A20 line open, the first 8 MB mapped
    both at their addresses and above [PAGE_OFFSET], and enter the code of the
    kernel with the number 0 as argument and the stack it is linked for. The
    image lies at 1 MB byte for byte, what follows it up to 8 MB is clear, the
    parameters are at the offsets setup.h gives them, and the descriptors of
    setup.asm are at 0x8000. The place behind the descriptors still holds what it held
    before, and the last kilobyte below 640 KB is cleared. *)
Theorem boot_loader_starts_kernel {H} disk sector ra_setup ra_kernel ra_one k
    (m : chipset H) ra_a20 ra eax0 ecx0 eflags y p0 h0 :
  diskette disk sector -> 0 <= ra_setup < 0x10000 -> 0 <= ra_kernel < 0x10000 -> 0 <= ra_one < 0x10000 ->
  0 <= ra_a20 < 0x10000 -> (forall n, 0 <= ra n < 0x10000) -> opens m -> a20_fits (p_ram p0) ->
  link_ok k y -> processor_sig64 p0 = 0 ->
  exists p h, boot_loader disk ra_setup ra_kernel ra_one k m ra_a20 ra eax0 ecx0 eflags p0 h0 = Ret (p,
      {| rip := _code_start k; cs := KERNEL_CODE64_SEL; rflags := 0; rsp := PAGE_OFFSET + (y - 128); ss := 0; rdi := 0 |}, h) /\
    gate m h = true /\ in_long_mode p /\ kernel_in_place k y (image_byte sector) (p_ram p) /\
    (forall j d, gdt !! j = Some d -> load 8 (GDT_ADDR + 8 * Z.of_nat j) (p_ram p) = d) /\
    load 8 (GDT_ADDR + 8 * 5) (p_ram p) = load 8 (GDT_ADDR + 8 * 5) (p_ram p0) /\
    (forall x, 0x9FC00 <= x < 0xA0000 -> p_ram p x = 0).
Proof.
  intros Hd Hs Hk Ho Ha Hras Hop Hf Hl Hsig.
  destruct (boot_loader_spec disk sector ra_setup ra_kernel ra_one k m ra_a20 ra eax0 ecx0 eflags y p0 h0
    Hd Hs Hk Ho Ha Hras Hop Hf Hl Hsig) as (p & h & E & H1 & H2 & H3 & H4 & H5 & H6 & _).
  exists p, h. exact (conj E (conj H1 (conj H2 (conj H3 (conj H4 (conj H5 H6)))))).
Qed.

(** ** A machine *)

(** A diskette whose sector [n] is full of the byte [n], an image of 100
    sectors, the stack of the Makefile, and memory full of 0xFF. *)
Definition sample_sector (n : Z) : list Z := replicate 512 (n mod 256).

Definition sample_disk (c h s : Z) : option (list Z) := Some (sample_sector ((c * 2 + h) * 18 + s - 1)).

Definition sample_link : link :=
  {| _code_start := frame 0x100; _code_end := frame 0x108; _data_start := frame 0x108; _data_end := frame 0x10a;
     _bss_start := frame 0x10a; _bss_end := frame 0x10d; _kernel_end := frame 0x10d;
     _per_cpu_start := frame 0x109; _per_cpu_end := frame 0x109 + 40; KSIZE := 100; MSIZE := 128;
     STACK_START := frame 0x200 |}.

Definition sample_boot_cpu : boot_cpu :=
  {| cr0 := 0x60000010; cr3 := 0; cr4 := 0; efer := 0; lgdt := (0, 0); processor_sig64 := 0; p_ram := fun _ => 255 |}.

Lemma sample_diskette : diskette sample_disk sample_sector.
Proof.
  intros n Hn. split; [|split].
  - unfold sample_disk. do 2 f_equal. change 36 with (18 * 2). rewrite <- (Z.div_div n 18 2) by lia.
    pose proof (Z.div_mod n 18 ltac:(lia)). pose proof (Z.div_mod (n / 18) 2 ltac:(lia)). lia.
  - apply length_replicate.
  - apply Forall_replicate. apply Z.mod_pos_bound. lia.
Qed.

Lemma boot_loader_starts_kernel_witness :
  exists p st h, boot_loader sample_disk 0x40 0x50 0x60 sample_link sample_chipset 0x70 (fun _ => 0x80) 0 0 0x202
      sample_boot_cpu (false, false) = Ret (p, st, h) /\ h.2 = true /\
    rip st = frame 0x100 /\ rdi st = 0 /\ walk (p_ram p) (cr3 p) (frame 0x100) = Some 0x100000 /\
    p_ram p 0x100000 = 9 /\ p_ram p (0x100000 + 512 * 99) = 108 /\ p_ram p 0x180000 = 0 /\
    load 8 (BOOTING_PARAMS_ADDR + 8 * 7) (p_ram p) = 128 /\ load 8 (GDT_ADDR + 8 * 3) (p_ram p) = 0x00AF9A000000FFFF /\
    load 8 (GDT_ADDR + 8 * 5) (p_ram p) = 0xFFFFFFFFFFFFFFFF.
Proof.
  destruct (boot_loader_starts_kernel sample_disk sample_sector 0x40 0x50 0x60 sample_link sample_chipset 0x70
    (fun _ => 0x80) 0 0 0x202 0x200000 sample_boot_cpu (false, false)) as (p & h & E & Hopen & [_ _ _ _ _ Hw] & [_ Hi Hz Hp] & Hg & Ht & _).
  - exact sample_diskette.
  - lia.
  - lia.
  - lia.
  - lia.
  - intros n. lia.
  - exact sample_opens.
  - split; [|reflexivity]. intros x Hx. change (p_ram sample_boot_cpu x) with 255. lia.
  - split; [simpl; lia | reflexivity | simpl; lia | vm_compute; split; [discriminate | reflexivity]].
  - reflexivity.
  - eexists p, _, h. split; [exact E|]. split; [exact Hopen|]. split; [reflexivity|]. split; [reflexivity|].
    split; [exact (proj2 (Hw 0x100000 ltac:(lia)))|].
    split; [exact (Hi 0 ltac:(simpl; lia))|]. split; [exact (Hi (512 * 99) ltac:(simpl; lia))|].
    split; [exact (Hz 0x180000 ltac:(simpl; lia) ltac:(lia))|].
    split; [exact (Hp 7%nat _ eq_refl)|]. split; [exact (Hg 3%nat _ eq_refl)|]. exact Ht.
Defined.
