(* ===== verification/Startup.v ===== *)
(** * What the start of the kernel prints (main.c and the files it calls)

    The calls of [caos_printf] that [start_kernel] reaches on the boot
    processor, in their order and with the values they pass, each computed from
    the state of the component at that point ([start_says]). A string the code
    builds before it prints it is stored first ([puts]). Another processor adds
    its greeting anywhere after it was started ([weave]). *)

From S2P Require Import Prelude CString HwHeaders Screen Printf Console BootMem Memory Interrupts Paging MpSpec PageWalk Descriptors LocalApic PerCpu Setup Boot Exceptions Messages.

(** ** Calls *)

(** A call with its arguments, and what is stored before it. *)
Record said := { puts : list (Z * list Z); said_call : message * list vararg }.

(** The call in a line, of those the preprocessor keeps. *)
Definition say_with (ps : list (Z * list Z)) (ms : list message) (line : Z) (args : list vararg) : list said :=
  (fun m => {| puts := ps; said_call := (m, args) |}) <$>
    List.filter (fun m => (m_line m =? line) && m_kept m) ms.

Definition say : list message -> Z -> list vararg -> list said := say_with [].

(** A word of 64 bits is passed as it is, and read as a signed one. *)
Definition u64_arg (v : Z) : vararg := VNum (s64 v).

(** The array [x86_vendor_id] of [boot_cpu_data], and the literals " (Bootup-CPU)"
    and "" of mp_spec.c. *)
Record literals := { vendor_at : Z; bootup_at : Z; empty_at : Z }.

Definition BOOTUP : list Z := [32; 40; 66; 111; 111; 116; 117; 112; 45; 67; 80; 85; 41].

Section Says.
Context (t : literals).

(** ** main.c *)

Definition hello_says (mem : bmem) : res (list said) :=
  let entry := 0xFFFF800000090000 in
  pml4 ← load_le 8 mem entry;
  pdp ← load_le 8 mem (entry + 8 * 512);
  pde ← load_le 8 mem (entry + 8 * 1024);
  pte ← load_le 8 mem (entry + 8 * 1536);
  Ret (say main_messages 34 [] ++
       say main_messages 50 (VNum <$> [0; 1; 0xfffffffd; -4; 0xfffffffb; 6; 0xa]) ++
       say main_messages 52 (VNum <$> [4; 8; 8]) ++
       say main_messages 58 (u64_arg <$> [pml4; pdp; pde; pte])).

(** ** setup.c, page.c, gdt.c, idt.c *)

Definition vendor_says (cpu : cpuinfo_x86) : list said :=
  let id := x86_vendor_id cpu in
  say_with [(vendor_at t, id)] setup_messages 211 [VStr (vendor_at t) (MpSpec.until_nul id)].

Definition bootmem_says (b : bootmem) : list said :=
  say page_messages 69 (u64_arg <$> [bootmem_page_index b; bootmem_page_max b]).

(** ** mp_spec.c *)

(** [MP_processor_info], before it changes the tables. *)
Definition processor_says (mem : bmem) (m : Z) (c : cpu_tables) : res (list said) :=
  flag ← load8 mem (m + 3);
  if Z.land flag CPU_ENABLED =? 0 then Ret []
  else
    apicid ← load8 mem (m + 1);
    let boot := negb (Z.land flag CPU_BOOTPROCESSOR =? 0) in
    let bootup_cpu := if boot then VStr (bootup_at t) BOOTUP else VStr (empty_at t) [] in
    let found := say mp_spec_messages 139 [VNum apicid; bootup_cpu] in
    if num_processors c >=? NR_CPUS then Ret (found ++ say mp_spec_messages 143 [VNum NR_CPUS])
    else
      let cpu := if boot then 0 else first_cpu (cpu_present_map c) in
      Ret (found ++ say mp_spec_messages 170 [u64_arg cpu; VNum apicid]).

(** [MP_bus_info]: a bus that is neither ISA nor PCI, with what its array [str]
    holds then. *)
Definition bus_says (str isa pci : Z) (mem : bmem) (m : Z) : res (list said) :=
  '(_, mem1) ← caos_memcpy mem str (m + 2) 6;
  mem1 ← store8 (str + 3) 0 mem1;
  r ← caos_strcmp mem1 str isa;
  if r =? 0 then Ret []
  else
    r ← caos_strcmp mem1 str pci;
    if r =? 0 then Ret []
    else
      mem1 ← store8 (str + 6) 0 mem1;
      name ← load_bytes 7 mem1 str;
      Ret (say_with [(str, name)] mp_spec_messages 206 [VStr str (MpSpec.until_nul name)]).

Definition ioapic_says (mem : bmem) (m : Z) (a : apic_tables) : res (list said) :=
  flags ← load8 mem (m + 3);
  if Z.land flags MPC_APIC_USABLE =? 0 then Ret []
  else
    id ← load8 mem (m + 1);
    addr ← load_le 4 mem (m + 4);
    let at_addr := say mp_spec_messages 225 [VNum id; VNum addr] in
    if (nr_ioapics a >=? MAX_IO_APICS) || (addr =? 0) then Ret (at_addr ++ say mp_spec_messages 230 [])
    else Ret at_addr.

(** One iteration of the [switch]; interrupt sources say nothing, unless there
    are too many and the kernel halts. *)
Definition entry_says (str isa pci : Z) (mem : bmem) (mpt : Z) (st : mp_state) : res (list said) :=
  type ← load8 mem mpt;
  if type =? MP_PROCESSOR then processor_says mem mpt (cpus st)
  else if type =? MP_BUS then bus_says str isa pci mem mpt
  else if type =? MP_IOAPIC then ioapic_says mem mpt (apics st)
  else Ret [].

(** The loop of [smp_read_mpc]. *)
Fixpoint entries_say (str isa pci : Z) (fuel : nat) (mem : bmem) (mpt count length : Z) (st : mp_state)
    : res (list said) :=
  match fuel with
  | O => NoFuel
  | S fuel' =>
      if count <? length then
        said ← entry_says str isa pci mem mpt st;
        '(st, n) ← read_entry str isa pci mem mpt st;
        rest ← entries_say str isa pci fuel' mem (mpt + n) (count + n) length st;
        Ret (said ++ rest)
      else Ret []
  end.

(** [mp_spec_init], when it does not halt. *)
Definition mp_says (str isa pci pcmp : Z) (mem : bmem) (st : mp_state) : res (list said) :=
  '(found, st) ← scan_areas mem st;
  if found =? 0 then Halted
  else
    let mpf := mpf_found st in
    specification ← load8 mem (mpf + 9);
    let st := reset_tables st in
    physptr ← load_le 4 mem (mpf + 4);
    let mpc := __va physptr in
    lapic ← load_le 4 mem (mpc + 36);
    length ← load_le 2 mem (mpc + 4);
    rest ← entries_say str isa pci (S (Z.to_nat length)) mem (mpc + sizeof_mp_config_table)
             sizeof_mp_config_table length (with_lapic lapic st);
    Ret (say mp_spec_messages 457 [VNum specification] ++ rest).

(** ** [setup_arch] *)

(** The pages each component takes from the boot-time allocator, in their
    order. *)
Definition arch_says (env : boot_env) (mm0 : mm_struct) (cpu0 : cpuinfo_x86) (mp0 : mp_state) : res (list said) :=
  phy_mem_size ← aget (BOOT_PARAMS env) PARAMS_OFFSET_PHYMEM_SIZE;
  mm ← read_mm env mm0;
  cpu ← early_identify_cpu (cpuid env) cpu0;
  let b := bootmem_init (start_heap mm) (end_heap mm) in
  let heap := bootmem_says b in
  '(gdt_table, b) ← alloc_bootmem 1 b;
  '(tss, b) ← alloc_bootmem 1 b;
  '(idt_table, b) ← alloc_bootmem 1 b;
  '(pgd, b) ← alloc_bootmem 1 b;
  '(pud, b) ← alloc_bootmem 1 b;
  '(pmd, b) ← alloc_bootmem (if phy_mem_size / 1024 =? 0 then 1 else phy_mem_size / 1024) b;
  '(pte, b) ← alloc_bootmem (phy_mem_size / 2) b;
  '(pmd_reserv, b) ← alloc_bootmem 1 b;
  '(pte_reserv, b) ← alloc_bootmem 10 b;
  let '(str, isa, pci, pcmp) := mp_literals env in
  processors ← mp_says str isa pci pcmp (memory env) mp0;
  let pages := u64 (mem_map_page phy_mem_size) in
  '(mem_map, b) ← alloc_bootmem pages b;
  Ret (vendor_says cpu ++ heap ++
       say gdt_messages 121 [u64_arg gdt_table] ++ say gdt_messages 79 [u64_arg tss] ++
       say idt_messages 69 [u64_arg idt_table] ++
       say page_messages 277 (u64_arg <$> [pgd; pud; pmd; pte]) ++
       say page_messages 349 (u64_arg <$> [pmd_reserv; pte_reserv]) ++
       processors ++
       say page_messages 135 (u64_arg <$> [mem_map; mem_map + pages * 4096 - 1])).

(** ** slab.c, percpu.c, smp.c *)

Definition slab_says (cache_cache : Z) : list said := say slab_messages 155 [u64_arg cache_cache].

Definition smp_says (mem : bmem) (start_percpu end_percpu : Z) : res (list said) :=
  p ← load_le 8 mem start_percpu;
  Ret (say smp_messages 98 [VNum 0] ++
       say percpu_messages 83 (u64_arg <$> [start_percpu; end_percpu; end_percpu - start_percpu]) ++
       say percpu_messages 86 [u64_arg p]).

(** ** apic.c, io_apic.c, keyboard.c *)

Section Devices.
Context {D : Type} `{LocalApic D}.

Definition bsp_says (d : D) : list said :=
  let '(_, d) := apic_read APIC_ID d in
  let '(_, d) := verify_local_APIC d in
  let '(lapic_SVR, _) := enable_bsp d in
  if Z.land lapic_SVR APIC_SPIV_APIC_ENABLED =? 0 then [] else say apic_messages 304 [].

Definition io_apic_says (d : D) : list said :=
  let '(id, ver, entry, _) := io_apic_report (outb 0x23 0x1 (outb 0x22 0x70 d)) in
  say io_apic_messages 99 [VNum (Z.land (Z.shiftr (u32 id) 24) 0xF)] ++
  say io_apic_messages 100 [VNum (GET_IO_APIC_VERSION (u32 ver))] ++
  say io_apic_messages 101 [VNum (GET_IO_APIC_ENTRY (u32 entry))].

Definition timer_says (d : D) : list said :=
  let '(id, v, _) := program_timer d in
  say apic_messages 146 [VNum (u32 id)] ++
  say apic_messages (if Z.land v APIC_LVT_MASKED =? 0 then 173 else 178) [].

(** [register_irq] returns what [io_apic_enable_irq] does. *)
Definition keyboard_says (d : D) : list said :=
  let '(r, _) := io_apic_enable_irq KEYBOARD_IRQ d in
  say keyboard_messages 88 [] ++ say keyboard_messages (if r =? CAOS_SUCCESS then 92 else 94) [].

(** ** [start_kernel] *)

(** What is printed before the other processors are started, and after.
    [cache_cache] is what [kmem_cache_init] left; the table of gates plays no
    part. *)
Definition start_says {P} (timer : irq_handler_t (D := D)) (env : boot_env) (w : power_on P D) (cache_cache : Z)
    : res (list said * list said) :=
  hello ← hello_says (memory env);
  arch ← arch_says env (mm0 w) (cpu0 w) (mp0 w);
  start_percpu ← aget (BOOT_PARAMS env) PARAMS_OFFSET_START_PERCPU;
  end_percpu ← aget (BOOT_PARAMS env) PARAMS_OFFSET_END_PERCPU;
  smp ← smp_says (memory env) start_percpu end_percpu;
  mp ← read_mp env (mp0 w);
  let bsp := bsp_says (device0 w) in
  d ← init_bsp_APIC (boot_cpu_id (cpus mp)) (x86_cpu_to_apicid (cpus mp)) (device0 w);
  let io_apic := io_apic_says d in
  d ← io_apic_init d;
  let init_timer := timer_says d in
  irqs ← init_bsp_timer timer {| irq_handler := handlers0 w; idt_table := []; device := d |};
  d ← wake_ap (device irqs);
  Ret (hello ++ arch ++ slab_says cache_cache ++ bsp ++ io_apic ++ smp ++ init_timer,
       say main_messages 134 [] ++ keyboard_says d).

End Devices.
End Says.

(** The greeting of another processor, [k] times for the [k]s in turn before
    each message of [l]. *)
Definition ap_says : list said := say main_messages 36 [].

Fixpoint weave (ks : list nat) (l : list said) : list said :=
  match ks, l with
  | [], _ => l
  | k :: _, [] => concat (replicate k ap_says)
  | k :: ks, x :: l => concat (replicate k ap_says) ++ x :: weave ks l
  end.

(** ** Printing *)

Section Printing.
Context (sz : Z) (lit : message -> Z).

(** The strings are stored, then the call prints. *)
Definition print_one (e : said) (c : console) : res console :=
  let mem := foldr (fun p m => write_bytes p.1 p.2 m) (con_mem c) (puts e) in
  k_printf sz (lit (said_call e).1) (raw <$> (said_call e).2) {| con_mem := mem; con_screen := con_screen c |}.

Fixpoint print_said (l : list said) (c : console) : res console :=
  match l with [] => Ret c | e :: l => c ← print_one e c; print_said l c end.

End Printing.

(** ** The values fit *)

(** The kinds of what the call in a line takes. *)
Definition said_kinds (ms : list message) (line : Z) : option (list kind) :=
  match List.filter (fun m => (m_line m =? line) && m_kept m) ms with
  | [m] => if bool_decide (m ∈ kernel_messages) then Some (m_kinds m) else None
  | _ => None
  end.

Section Fits.

(** The strings of the image, and the areas the kernel stores strings in: address
    and size. *)
Context (ok : Z -> list Z -> Prop) (written : list (Z * Z)).

Definition stored (ps : list (Z * list Z)) (p : Z) (s : list Z) : Prop :=
  exists r, ps = [(p, s ++ 0 :: r)] /\ Forall (fun c => 0 < c < 256) s.

Definition string_fits (ps : list (Z * list Z)) (a : vararg) : Prop :=
  match a with VNum _ => True | VStr p s => ok p s \/ stored ps p s end.

Record said_fits (e : said) : Prop := {
  sf_message : (said_call e).1 ∈ kernel_messages /\ m_kept (said_call e).1 = true;
  sf_args : Forall2 arg_of (m_kinds (said_call e).1) (said_call e).2;
  sf_puts : Forall (fun q => exists n, (q.1, n) ∈ written /\ Z.of_nat (length q.2) <= n) (puts e);
  sf_strings : Forall (string_fits (puts e)) (said_call e).2
}.

Lemma say_fits ps ms line args ks :
  said_kinds ms line = Some ks -> Forall2 arg_of ks args ->
  Forall (fun q => exists n, (q.1, n) ∈ written /\ Z.of_nat (length q.2) <= n) ps ->
  Forall (string_fits ps) args -> Forall said_fits (say_with ps ms line args).
Proof.
  unfold said_kinds, say_with. intros Hk Ha Hp Hs.
  destruct (List.filter _ ms) as [|m [|? ?]] eqn:E; [done | | done].
  destruct (bool_decide_reflect (m ∈ kernel_messages)) as [Hm|]; [|done]. injection Hk as <-.
  assert (Hin : In m (List.filter (fun m => (m_line m =? line) && m_kept m) ms)) by (rewrite E; by left).
  apply filter_In in Hin as [_ Hkept]. apply andb_true_iff in Hkept as [_ Hkept].
  apply Forall_singleton. by split.
Qed.

(** *** Numbers *)

Lemma num_ok v : - 2 ^ 63 < v < 2 ^ 63 -> arg_of Num (VNum v).
Proof. done. Qed.

Lemma u64_ok v : 0 <= v < 2 ^ 64 -> v <> 2 ^ 63 -> arg_of Num (u64_arg v).
Proof.
  intros Hv Hne. cbn [arg_of u64_arg]. unfold sext. cbv zeta. rewrite wrap_small by lia.
  destruct (Z.ltb_spec v (2 ^ (64 - 1))); change (2 ^ (64 - 1)) with (2 ^ 63) in *; lia.
Qed.

Lemma frame_num i : 0 <= i < 2 ^ 35 -> arg_of Num (u64_arg (PAGE_OFFSET + 4096 * i)).
Proof. intros Hi. apply u64_ok; unfold PAGE_OFFSET; lia. Qed.

Lemma land_num v n : 0 <= n < 63 -> arg_of Num (VNum (Z.land v (Z.ones n))).
Proof.
  intros Hn. apply num_ok. rewrite Z.land_ones by lia. pose proof (Z.mod_pos_bound v (2 ^ n) ltac:(lia)).
  assert (2 ^ n < 2 ^ 63) by (apply Z.pow_lt_mono_r; lia). lia.
Qed.

(** A call that prints numbers only. *)
Lemma numbers_fit ms line args ks : said_kinds ms line = Some ks -> Forall2 arg_of ks args ->
  Forall (fun a => match a with VNum _ => True | VStr _ _ => False end) args -> Forall said_fits (say ms line args).
Proof.
  intros Hk Ha Hn. eapply say_fits; [done | done | constructor |]. eapply Forall_impl; [exact Hn|].
  by intros [n|p s].
Qed.

(** Numbers that are bounded by the arithmetic, and by the hypotheses [H]. *)
Ltac numbers tac :=
  eapply numbers_fit; [vm_compute; reflexivity | repeat (apply Forall2_cons_2; [tac|]); apply Forall2_nil_2 |
                       repeat (apply Forall_cons_2; [exact I|]); apply Forall_nil_2].

Lemma plain_fits ms line : said_kinds ms line = Some [] -> Forall said_fits (say ms line []).
Proof. intros Hk. eapply numbers_fit; [exact Hk | apply Forall2_nil_2 | apply Forall_nil_2]. Qed.

(** *** Each part *)

Definition small_word (mem : bmem) (a : Z) : Prop := exists v, load_le 8 mem a = Ret v /\ 0 <= v < 2 ^ 63.

(** The entries of the boot loader's tables that are shown. *)
Definition words_ok (mem : bmem) : Prop :=
  small_word mem 0xFFFF800000090000 /\ small_word mem 0xFFFF800000091000 /\ small_word mem 0xFFFF800000092000 /\
  small_word mem 0xFFFF800000093000.

Lemma hello_fits mem : words_ok mem -> exists l, hello_says mem = Ret l /\ Forall said_fits l.
Proof.
  intros ((v1 & E1 & H1) & (v2 & E2 & H2) & (v3 & E3 & H3) & (v4 & E4 & H4)). unfold hello_says. cbv zeta.
  change (0xFFFF800000090000 + 8 * 512) with 0xFFFF800000091000.
  change (0xFFFF800000090000 + 8 * 1024) with 0xFFFF800000092000.
  change (0xFFFF800000090000 + 8 * 1536) with 0xFFFF800000093000.
  step E1. step E2. step E3. step E4. eexists. split; [reflexivity|]. rewrite !Forall_app. split_and!.
  - by apply plain_fits; vm_compute.
  - numbers ltac:(split; [reflexivity | lia]).
  - numbers ltac:(split; [reflexivity | lia]).
  - numbers ltac:(apply u64_ok; lia).
Qed.

(** The characters before a NUL that is there. *)
Lemma until_nul_split l : 0 ∈ l -> exists r, l = MpSpec.until_nul l ++ 0 :: r.
Proof.
  induction l as [|c l IH]; intros Hin; [by apply not_elem_of_nil in Hin|]. cbn [MpSpec.until_nul].
  destruct (Z.eqb_spec c 0) as [->|Hc]; [by exists l|]. apply elem_of_cons in Hin as [?|Hin]; [done|].
  destruct (IH Hin) as [r Hr]. exists r. cbn [app]. by rewrite <- Hr.
Qed.

Lemma until_nul_chars l : Forall (fun b => 0 <= b < 256) l -> Forall (fun c => 0 < c < 256) (MpSpec.until_nul l).
Proof.
  induction 1 as [|c l Hc Hl IH]; [constructor|]. cbn [MpSpec.until_nul].
  destruct (Z.eqb_spec c 0); [constructor|]. apply Forall_cons. split; [lia | done].
Qed.

Lemma until_nul_first l r : MpSpec.until_nul (l ++ 0 :: r) = MpSpec.until_nul l.
Proof. induction l as [|c l IH]; [done|]. cbn [app MpSpec.until_nul]. destruct (c =? 0); [done|]. by rewrite IH. Qed.

Lemma until_nul_length l : (length (MpSpec.until_nul l) <= length l)%nat.
Proof. induction l as [|c l IH]; [done|]. cbn [MpSpec.until_nul]. destruct (c =? 0); simpl; lia. Qed.

(** The name of the vendor the instruction gives. *)
Definition vendor_name (f : cpuid_function) : list Z :=
  let '(_, ebx, ecx, edx) := f 0 in bytes_le 4 ebx ++ bytes_le 4 edx ++ bytes_le 4 ecx.

(** The array is followed by a NUL, and the name does not delete. *)
Record vendor_ok (f : cpuid_function) (cpu : cpuinfo_x86) : Prop := {
  vn_bytes : Forall (fun b => 0 <= b < 256) (x86_vendor_id cpu);
  vn_end : x86_vendor_id cpu !! 12%nat = Some 0;
  vn_keeps : no_deletion (MpSpec.until_nul (vendor_name f))
}.

Lemma vendor_fits t f cpu : length (x86_vendor_id cpu) = 16%nat -> vendor_ok f cpu -> (vendor_at t, 16) ∈ written ->
  exists cpu', early_identify_cpu f cpu = Ret cpu' /\ Forall said_fits (vendor_says t cpu').
Proof.
  intros Hl [Hb He Hk] Hw. destruct (f 0) as [[[eax ebx] ecx] edx] eqn:Ef.
  destruct (vendor_identified f cpu eax ebx ecx edx Hl Hb Ef) as (cpu' & E & Hid & _).
  exists cpu'. split; [exact E|]. unfold vendor_name in Hk. rewrite Ef in Hk.
  set (name := bytes_le 4 ebx ++ bytes_le 4 edx ++ bytes_le 4 ecx) in *.
  assert (Hln : length name = 12%nat) by (unfold name; rewrite !length_app, !bytes_le_length; done).
  rewrite (drop_S _ 0 12) in Hid by done.
  assert (Hu : MpSpec.until_nul (x86_vendor_id cpu') = MpSpec.until_nul name) by (rewrite Hid; apply until_nul_first).
  assert (Hall : Forall (fun b => 0 <= b < 256) (x86_vendor_id cpu')).
  { rewrite Hid. unfold name. rewrite !Forall_app. split; [split_and!; apply bytes_le_range|].
    apply Forall_cons. split; [lia | by apply Forall_drop]. }
  assert (Hlen : length (x86_vendor_id cpu') = 16%nat) by (rewrite Hid, length_app, Hln; cbn [length]; rewrite length_drop; lia).
  unfold vendor_says. eapply say_fits; [vm_compute; reflexivity | | |].
  - apply Forall2_cons_2; [|apply Forall2_nil_2]. split; [|by rewrite Hu].
    rewrite Hu. pose proof (until_nul_length name). lia.
  - apply Forall_singleton. exists 16. split; [exact Hw|]. cbn [snd]. rewrite Hlen. done.
  - apply Forall_singleton. right. destruct (until_nul_split (x86_vendor_id cpu')) as [r Hr].
    + rewrite Hid. apply elem_of_app. right. apply elem_of_cons. by left.
    + exists r. split; [by rewrite <- Hr | by apply until_nul_chars].
Qed.

Section Arch.
Context (t : literals) (env : boot_env) (mm0 : mm_struct) (cpu0 : cpuinfo_x86) (mp0 : mp_state).

(** One request, from an allocator whose next page is [i]. *)
Lemma take_page n i s e : 0 <= s <= i -> e < 2 ^ 35 -> 0 <= n -> i + n < e ->
  alloc_bootmem n {| bootmem_page_index := i; bootmem_page_start := s; bootmem_page_max := e |}
  = Ret (frame i, {| bootmem_page_index := i + n; bootmem_page_start := s; bootmem_page_max := e |}).
Proof. intros Hs He Hn Hi. by rewrite alloc_bootmem_ok by (try split; cbn [bootmem_page_index bootmem_page_start bootmem_page_max]; lia). Qed.

(** What mp_spec.c prints about the table of the firmware. *)
Definition processors_say (mps : list said) : Prop :=
  let '(str, isa, pci, pcmp) := mp_literals env in mp_says t str isa pci pcmp (memory env) mp0 = Ret mps.

(** The addresses are those of [Setup.arch_ok]: the pages of the heap in
    order. *)
Lemma arch_says_spec m s e k mps :
  boot_ok env cpu0 m s e k -> vendor_ok (cpuid env) cpu0 -> (vendor_at t, 16) ∈ written ->
  processors_say mps -> Forall said_fits mps ->
  exists cpu, early_identify_cpu (cpuid env) cpu0 = Ret cpu /\
    let l := vendor_says t cpu ++ say page_messages 69 (u64_arg <$> [s; 256 * e - 1]) ++
      say gdt_messages 121 [u64_arg (frame s)] ++ say gdt_messages 79 [u64_arg (frame (s + 1))] ++
      say idt_messages 69 [u64_arg (frame (s + 2))] ++
      say page_messages 277 (u64_arg <$> [frame (s + 3); frame (s + 4); frame (s + 5); frame (s + 6)]) ++
      say page_messages 349 (u64_arg <$> [frame (s + 6 + m / 2); frame (s + 7 + m / 2)]) ++ mps ++
      say page_messages 135 (u64_arg <$> [frame (s + 17 + m / 2); frame (s + 17 + m / 2 + mem_map_page m) - 1]) in
    arch_says t env mm0 cpu0 mp0 = Ret l /\ Forall said_fits l.
Proof.
  intros [Hl H7 H9 Hst [Hm Hev] Hs Hend Hheap Hmem Hpage _ _ _ _ Hv] Hven Hw Hmp Hmps.
  destruct (vendor_fits t (cpuid env) cpu0 Hv Hven Hw) as (cpu & Ecpu & Fcpu). exists cpu. split; [exact Ecpu|].
  destruct (mem_map_page_eq m) as (_ & Hmm & _); [lia|].
  assert (Hd2 : 1 <= m / 2 <= 512) by (Z.to_euclidean_division_equations; lia).
  assert (Hpmd : (if m / 1024 =? 0 then 1 else m / 1024) = 1)
    by (destruct (Z.eqb_spec (m / 1024) 0); [done | Z.to_euclidean_division_equations; lia]).
  cbv zeta. split.
  - unfold arch_says. rewrite (proj2 (aget_Ret (BOOT_PARAMS env) PARAMS_OFFSET_PHYMEM_SIZE m)) by (split; [done | exact H7]).
    cbn [mbind res_bind]. destruct (read_mm_spec env mm0 e Hl H9 Hend) as (mm & -> & Hsh & Heh & _). cbn [mbind res_bind].
    step Ecpu. rewrite Hsh, Heh, Hst, bootmem_init_eq by lia. rewrite Hpmd.
    unfold processors_say in Hmp. destruct (mp_literals env) as [[[str isa] pci] pcmp].
    do 6 (rewrite take_page by lia; cbn [mbind res_bind]). rewrite take_page by lia. cbn [mbind res_bind].
    rewrite take_page by lia. cbn [mbind res_bind].
    rewrite take_page by lia. cbn [mbind res_bind]. step Hmp.
    rewrite (wrap_small 64 (mem_map_page m)) by lia. rewrite take_page by lia. cbn [mbind res_bind].
    unfold bootmem_says. cbn [bootmem_page_index bootmem_page_max].
    replace (s + 1 + 1) with (s + 2) by lia. replace (s + 2 + 1) with (s + 3) by lia.
    replace (s + 3 + 1) with (s + 4) by lia. replace (s + 4 + 1) with (s + 5) by lia.
    replace (s + 5 + 1) with (s + 6) by lia. replace (s + 6 + m / 2 + 1) with (s + 7 + m / 2) by lia.
    replace (s + 7 + m / 2 + 10) with (s + 17 + m / 2) by lia.
    replace (frame (s + 17 + m / 2) + mem_map_page m * 4096 - 1) with (frame (s + 17 + m / 2 + mem_map_page m) - 1)
      by (unfold frame; lia). reflexivity.
  - rewrite !Forall_app. split_and!; [exact Fcpu| | | | | | | exact Hmps |].
    + numbers ltac:(apply u64_ok; lia).
    + numbers ltac:(apply frame_num; lia).
    + numbers ltac:(apply frame_num; lia).
    + numbers ltac:(apply frame_num; lia).
    + numbers ltac:(apply frame_num; lia).
    + numbers ltac:(apply frame_num; lia).
    + numbers ltac:(apply u64_ok; unfold frame, PAGE_OFFSET; lia).
Qed.

End Arch.

(** *** The devices *)

Lemma slab_fits p : 0 <= p < 2 ^ 35 -> Forall said_fits (slab_says (frame p)).
Proof. intros Hp. unfold slab_says. numbers ltac:(by apply frame_num). Qed.

Lemma smp_fits mem start end_ : PAGE_OFFSET <= start < 2 ^ 64 -> start <= end_ < 2 ^ 64 -> end_ - start < 2 ^ 63 ->
  small_word mem start -> exists l, smp_says mem start end_ = Ret l /\ Forall said_fits l.
Proof.
  intros Hs He Hd (v & E & Hv). unfold smp_says. step E. eexists. split; [reflexivity|]. unfold PAGE_OFFSET in Hs.
  rewrite !Forall_app. split_and!.
  - numbers ltac:(apply num_ok; lia).
  - numbers ltac:(apply u64_ok; lia).
  - numbers ltac:(apply u64_ok; lia).
Qed.

Section Chips.
Context {D : Type} `{LocalApic D}.

Lemma bsp_fits (d : D) : Forall said_fits (bsp_says d).
Proof.
  unfold bsp_says. repeat case_match; [apply Forall_nil_2|]. by apply plain_fits; vm_compute.
Qed.

Lemma io_apic_fits (d : D) : Forall said_fits (io_apic_says d).
Proof.
  unfold io_apic_says. destruct (io_apic_report _) as [[[id ver] entry] d']. rewrite !Forall_app. split_and!.
  - numbers ltac:(apply (land_num _ 4); lia).
  - numbers ltac:(apply (land_num _ 4); lia).
  - numbers ltac:(apply (land_num _ 8); lia).
Qed.

Lemma timer_fits (d : D) : Forall said_fits (timer_says d).
Proof.
  unfold timer_says. destruct (program_timer d) as [[id v] d']. rewrite Forall_app. split.
  - numbers ltac:(apply num_ok; pose proof (wrap_range 32 id ltac:(lia)); lia).
  - destruct (_ =? 0); by apply plain_fits; vm_compute.
Qed.

Lemma keyboard_fits (d : D) : Forall said_fits (keyboard_says d).
Proof.
  unfold keyboard_says. destruct (io_apic_enable_irq KEYBOARD_IRQ d) as [r d']. rewrite Forall_app. split.
  - by apply plain_fits; vm_compute.
  - destruct (_ =? _); by apply plain_fits; vm_compute.
Qed.

(** The chips as [start_kernel] sets them up, up to the commands to the other
    processors. *)
Lemma chips_set_up (timer : irq_handler_t (D := D)) table hs (d0 : D) :
  chip_ok d0 -> table !! 0%nat = Some 0 -> length hs = 32%nat ->
  (forall (d : D), Z.testbit (apic_reg APIC_ICR (apic_write APIC_ICR 0xC4609 d)) 12 = false) ->
  exists d1 d2 st d3, init_bsp_APIC 0 table d0 = Ret d1 /\ io_apic_init d1 = Ret d2 /\
    init_bsp_timer timer {| irq_handler := hs; idt_table := []; device := d2 |} = Ret st /\ wake_ap (device st) = Ret d3.
Proof.
  intros [C1 C2 C3 C4] Ht Hhs Hc.
  destruct (init_bsp_APIC_spec 0 table d0 C3 ltac:(lia) Ht) as [_ Hr].
  destruct Hr as (d1 & E1 & Hmask & Htp & Hen & _ & _ & Hi1 & Hr1); [done|].
  destruct (io_apic_init_same d1) as (d2 & E2 & Hd2).
  destruct (init_bsp_timer_spec timer {| irq_handler := hs; idt_table := []; device := d2 |}) as (st & E3 & _).
  { cbn [device]. destruct (Hd2 APIC_LVTT) as (-> & _). apply Hmask. in_regs. }
  { cbn [device]. by destruct (Hd2 APIC_SPIV) as (-> & _). }
  { exact Hhs. }
  destruct (wake_ap_spec (device st)) as (d3 & d4 & Hd4 & _ & _ & _ & E4). rewrite Hd4, Hc in E4.
  exists d1, d2, st, (apic_write APIC_ICR 0xC4609 d4). exact (conj E1 (conj E2 (conj E3 E4))).
Qed.

End Chips.

(** *** The whole start *)

(** What a machine must hold for its start to print what the kernel means to:
    the boot tables and the first word of the per-processor data are read as
    positive numbers, the vendor's name ends, and the table of the firmware is
    shown by values that fit. *)
Record prints_ok {P D} (t : literals) (env : boot_env) (w : power_on P D) (start : Z) (mps : list said) : Prop := {
  pr_words : words_ok (memory env);
  pr_vendor : vendor_ok (cpuid env) (cpu0 w);
  pr_vendor_at : (vendor_at t, 16) ∈ written;
  pr_processors : processors_say t env (mp0 w) mps;
  pr_processors_fit : Forall said_fits mps;
  pr_section : PAGE_OFFSET <= start /\ small_word (memory env) start
}.

Lemma start_says_spec {P D} `{LocalApic D} t (timer : irq_handler_t (D := D)) env (w : power_on P D) names mp'
    section start m s e k z0 mps :
  bootable env w names mp' section start m s e k z0 -> prints_ok t env w start mps ->
  (forall (d : D), Z.testbit (apic_reg APIC_ICR (apic_write APIC_ICR 0xC4609 d)) 12 = false) ->
  exists early late, start_says t timer env w (page_to_virt 1) = Ret (early, late) /\
    Forall said_fits early /\ Forall said_fits late.
Proof.
  intros [Hboot [Hmp [Hb0 Hb1] Hchip _ _ (_ & Hhs & _) [P12 P13] (_ & [_ Hlen] & Hs0 & Hs1) _]] [Pw Pv Pa Pm Pf [Ps Px]] Hc.
  unfold start_says. destruct (hello_fits (memory env) Pw) as (hello & Eh & Fh). step Eh.
  destruct (arch_says_spec t env (mm0 w) (cpu0 w) (mp0 w) m s e k mps Hboot Pv Pa Pm Pf) as (cpu & _ & Ea & Fa).
  set (arch := vendor_says t cpu ++ _) in *. step Ea.
  rewrite (proj2 (aget_Ret (BOOT_PARAMS env) PARAMS_OFFSET_START_PERCPU start)) by (split; [done | exact P12]).
  cbn [mbind res_bind].
  rewrite (proj2 (aget_Ret (BOOT_PARAMS env) PARAMS_OFFSET_END_PERCPU _)) by (split; [done | exact P13]).
  cbn [mbind res_bind].
  destruct (smp_fits (memory env) start (start + Z.of_nat (length section))) as (smp & Es & Fs); [lia | lia | lia | done |].
  step Es. step Hmp. rewrite Hb0.
  destruct (chips_set_up timer _ (handlers0 w) (device0 w) Hchip Hb1 Hhs Hc) as (d1 & d2 & st & d3 & E1 & E2 & E3 & E4).
  step E1. step E2. step E3. step E4. eexists _, _. split; [reflexivity|]. split.
  - rewrite !Forall_app. split_and!; [exact Fh | exact Fa | | apply bsp_fits | apply io_apic_fits | exact Fs | apply timer_fits].
    change (page_to_virt 1) with (frame 1). apply slab_fits. lia.
  - rewrite Forall_app. split; [by apply plain_fits; vm_compute | apply keyboard_fits].
Qed.

Lemma ap_fits : Forall said_fits ap_says.
Proof. by apply plain_fits; vm_compute. Qed.

Lemma weave_fits ks : forall l, Forall said_fits l -> Forall said_fits (weave ks l).
Proof.
  assert (Hk : forall k, Forall said_fits (concat (replicate k ap_says))).
  { intros k. apply Forall_concat, Forall_replicate, ap_fits. }
  induction ks as [|k ks IH]; intros l Hl; [exact Hl|]. destruct l as [|x l]; cbn [weave]; [apply Hk|].
  apply Forall_cons in Hl as [Hx Hl]. apply Forall_app. split; [apply Hk|]. apply Forall_cons. split; [done | by apply IH].
Qed.

End Fits.

(** ** Printing *)

Section Screen.
Context (sz fnl fpc : Z) (lit : message -> Z) (ok : Z -> list Z -> Prop) (written : list (Z * Z)).

(** The strings of the image are clear of what the kernel writes, and the buffer
    is clear of it too. *)
Hypothesis ok_apart : forall p s, ok p s -> Forall (fun a => apart a.1 (a.1 + a.2) p s) written.
Hypothesis written_apart : Forall (fun a => a.1 + a.2 <= sz \/ sz + 128 <= a.1) written.
Hypotheses (ok_nl : ok fnl [10]) (ok_pc : ok fpc [37; 99]).
Hypothesis ok_formats : forall m, m ∈ kernel_messages -> m_kept m = true -> ok (lit m) (m_format m).

(** The screen shows the terminal, and the strings are where they were. *)
Definition talking (t : Z * paper) (c : console) : Prop :=
  k_shows sz fnl fpc 0 t c /\ forall p s, ok p s -> kept sz (con_mem c) p s.

Abbreviation in_area q := (exists n, (q.1, n) ∈ written /\ Z.of_nat (length q.2) <= n).
Abbreviation put_all ps mem := (foldr (fun p m => write_bytes p.1 p.2 m) mem ps).

Lemma puts_keep ps mem : Forall (fun q => in_area q) ps -> (forall p s, ok p s -> kept sz mem p s) ->
  forall p s, ok p s -> kept sz (put_all ps mem) p s.
Proof.
  intros Hps Hm. induction Hps as [|[a bs] ps (n & Hin & Hn) _ IH]; [exact Hm|]. intros p s Hok. cbn [foldr fst snd] in *.
  destruct (IH p s Hok) as [Hc Ha]. split; [|exact Ha].
  pose proof (proj1 (Forall_forall _ _) (ok_apart p s Hok) _ Hin) as Hap. cbn [fst snd] in Hap.
  apply (cstr_write a (a + n)); [done | done | lia | lia].
Qed.

Lemma puts_mapped ps mem a n : mapped mem a n -> mapped (put_all ps mem) a n.
Proof. intros Hm. induction ps as [|q ps IH]; [exact Hm|]. cbn [foldr]. by apply write_bytes_mapped. Qed.

Lemma stored_kept ps mem p s : Forall (fun q => in_area q) ps -> stored ps p s -> kept sz (put_all ps mem) p s.
Proof.
  intros Hps (r & -> & Hs). apply Forall_singleton in Hps as (n & Hin & Hn). cbn [fst snd foldr] in *.
  rewrite length_app in Hn. cbn [length] in Hn.
  pose proof (proj1 (Forall_forall _ _) written_apart _ Hin) as Hap. cbn [fst snd] in Hap. split; [split; [|exact Hs]|].
  - pose proof (bytes_at_written mem p (s ++ 0 :: r)) as Hb. replace (s ++ 0 :: r) with ((s ++ [0]) ++ r) in Hb at 2
      by (by rewrite <- app_assoc). by apply bytes_at_app in Hb as [Hb _].
  - unfold apart. lia.
Qed.

Lemma print_one_spec e t c : talking t c -> said_fits ok written e ->
  exists c', print_one sz lit e c = Ret c' /\ talking (term_run (outputs (text_of (said_call e))) t) c'.
Proof.
  intros [[S1 S2 S3 S4 S5 S6] Hk] [[Hm Hkept] Ha Hp Hs]. unfold print_one.
  set (c1 := {| con_mem := put_all (puts e) (con_mem c); con_screen := con_screen c |}).
  assert (Hk1 : forall p s, ok p s -> kept sz (con_mem c1) p s) by (by apply puts_keep).
  destruct (Hk1 _ _ ok_nl) as [N1 N2], (Hk1 _ _ ok_pc) as [C1 C2].
  destruct (message_prints sz fnl fpc lit 0 (said_call e) t c1) as (c' & E & _ & Hc' & Hkeep).
  - split; [exact S1 | exact N1 | exact C1 | by apply puts_mapped | exact N2 | exact C2].
  - split; [exact Hm | exact Ha | by apply Hk1, ok_formats |]. eapply Forall_impl; [exact Hs|].
    intros [n|p s]; [done|]. intros [Hok|Hst]; [by apply Hk1 | by apply stored_kept].
  - exists c'. split; [exact E|]. split; [exact Hc'|]. intros p s Hok. by apply Hkeep, Hk1.
Qed.

Lemma print_said_spec l : forall t c, talking t c -> Forall (said_fits ok written) l ->
  exists c', print_said sz lit l c = Ret c' /\
    talking (term_run (outputs (concat (text_of <$> (said_call <$> l)))) t) c'.
Proof.
  induction l as [|e l IH]; intros t c Hc Hl; [by exists c|]. apply Forall_cons in Hl as [He Hl].
  destruct (print_one_spec e t c Hc He) as (c1 & E1 & Hc1). destruct (IH _ c1 Hc1 Hl) as (c2 & E2 & Hc2).
  exists c2. cbn [print_said]. step E1. split; [exact E2|]. rewrite !fmap_cons. cbn [concat].
  unfold outputs in *. rewrite fmap_app, term_run_app. exact Hc2.
Qed.

End Screen.
