(* ===== verification/EntryStubs.v ===== *)
(** * The entry stubs (irq_entry.asm, except_entry.asm)

    What the gates lead to: code that saves the registers on the stack, calls
    its C function, restores the registers and returns, or stops. A stub is
    the list of its instructions, run on the registers and the words above the
    stack pointer. The C function is a parameter that works on the rest of the
    machine, of type [W]; it gets what is in RDI and RSI and may leave anything
    in the registers. *)

From S2P Require Import Prelude Exceptions.

Inductive reg :=
  | rax | rbx | rcx | rdx | rsi | rdi | rbp
  | r8 | r9 | r10 | r11 | r12 | r13 | r14 | r15 | fs | gs.

#[global] Instance reg_eq_dec : EqDecision reg.
Proof. solve_decision. Defined.

Abbreviation registers := (reg -> Z).

(** FS and GS hold a selector, 16 bits of the word that is popped. *)
Definition set_reg (r : reg) (v : Z) (c : registers) : registers :=
  fun q => if decide (q = r) then match r with fs | gs => u16 v | _ => v end else c q.

Inductive instr :=
  | PUSH_IMM (v : Z) | PUSH (r : reg) | POP (r : reg)
  | MOV (r : reg) (v : Z)            (* mov r, v *)
  | LOAD (r : reg) (o : Z)           (* mov r, [rsp+o] *)
  | CALL                             (* call of the C function *)
  | ADD_RSP (n : Z)                  (* add rsp, n *)
  | IRETQ | JMP_SELF.                (* jmp $ *)

(** ** The stubs *)

Definition _ERROR : Z := 17 * 8.
Definition _RIP : Z := 18 * 8.

Definition saved : list reg :=
  [rax; rbx; rcx; rdx; rsi; rdi; rbp; r8; r9; r10; r11; r12; r13; r14; r15; fs; gs].

Definition popped : list reg :=
  [fs; gs; r15; r14; r13; r12; r11; r10; r9; r8; rbp; rdi; rsi; rdx; rcx; rbx; rax].

Definition SAVE_ALL : list instr := PUSH <$> saved.
Definition RESTORE_ALL : list instr := POP <$> popped.

(** [IRQ_ENTRY _irq_n, n] and [_ignore_isr], whose number is 0xff. *)
Definition IRQ_ENTRY (n : Z) : list instr :=
  SAVE_ALL ++ [MOV rdi n; CALL] ++ RESTORE_ALL ++ [IRETQ].

(** The stubs that push a word of their own in place of an error code. *)
Definition pushes_zero (e : exception) : bool :=
  match e with
  | invalid_TSS | segment_not_present | stack_segment | general_protection | page_fault
  | alignment_check => false
  | _ => true
  end.

Definition exception_entry (e : exception) : list instr :=
  (if pushes_zero e then [PUSH_IMM 0] else []) ++
  SAVE_ALL ++ [LOAD rdi _ERROR; LOAD rsi _RIP; CALL] ++ RESTORE_ALL ++ [ADD_RSP 8] ++
  match e with general_protection => [IRETQ] | _ => [JMP_SELF] end.

(** ** The processor *)

(** [Resumed frame]: the stub has returned, and the processor takes RIP, CS,
    RFLAGS, RSP and SS from the frame. [Looping]: it jumps to itself. *)
Inductive ending := Resumed (frame : list Z) | Looping.

#[global] Instance ending_eq_dec : EqDecision ending.
Proof. solve_decision. Defined.

Record cpu := { regs : registers; stack : list Z }.

(** The exceptions for which the processor pushes an error code. *)
Definition has_error_code (e : exception) : bool :=
  match e with doublefault_fn => true | _ => negb (pushes_zero e) end.

Definition frame_of (e : exception) (code : Z) (frame : list Z) : list Z :=
  if has_error_code e then code :: frame else frame.

Section Exec.
Context {W : Type}.
Context (call : Z -> Z -> W -> res W) (clobber : registers -> registers).

Fixpoint exec (prog : list instr) (c : cpu) (w : W) : res (cpu * W * ending) :=
  match prog with
  | [] => Fault
  | PUSH_IMM v :: prog => exec prog {| regs := regs c; stack := v :: stack c |} w
  | PUSH r :: prog => exec prog {| regs := regs c; stack := regs c r :: stack c |} w
  | POP r :: prog =>
      match stack c with
      | [] => Fault
      | v :: s => exec prog {| regs := set_reg r v (regs c); stack := s |} w
      end
  | MOV r v :: prog => exec prog {| regs := set_reg r v (regs c); stack := stack c |} w
  | LOAD r o :: prog =>
      v ← aget (stack c) (o / 8);
      exec prog {| regs := set_reg r v (regs c); stack := stack c |} w
  | CALL :: prog =>
      w ← call (regs c rdi) (regs c rsi) w;
      exec prog {| regs := clobber (regs c); stack := stack c |} w
  | ADD_RSP n :: prog => exec prog {| regs := regs c; stack := drop (Z.to_nat (n / 8)) (stack c) |} w
  | IRETQ :: _ =>
      if (length (stack c) <? 5)%nat then Fault
      else Ret ({| regs := regs c; stack := drop 5 (stack c) |}, w, Resumed (take 5 (stack c)))
  | JMP_SELF :: _ => Ret (c, w, Looping)
  end.

End Exec.

(** ** What the stubs do *)

(** What [RESTORE_ALL] leaves: it takes FS first, which [SAVE_ALL] has not
    pushed last. *)
Definition exchanged (c : registers) : registers :=
  fun r => match r with fs => c gs | gs => c fs | r => c r end.

(** The error code and the address the C function is called with: the two
    words below the saved registers. *)
Definition reported (e : exception) (code rip : Z) : Z * Z :=
  match e with
  | doublefault_fn => (0, code)
  | _ => (if pushes_zero e then 0 else code, rip)
  end.

Definition selectors_ok (c : registers) : Prop := 0 <= c fs < 2 ^ 16 /\ 0 <= c gs < 2 ^ 16.

Definition ending_of (e : exception) (frame : list Z) : ending :=
  match e with general_protection => Resumed frame | _ => Looping end.

(** The stack a stub leaves. The stub of the double fault takes off one word of the two
    in front of the frame. *)
Definition left_of (e : exception) (code : Z) (frame rest : list Z) : list Z :=
  match e with
  | general_protection => rest
  | doublefault_fn => code :: frame ++ rest
  | _ => frame ++ rest
  end.

Lemma exchanged_ok c c' : selectors_ok c -> (forall r, c' r = exchanged c r) -> selectors_ok c'.
Proof. intros [? ?] Hx. unfold selectors_ok. by rewrite !Hx. Qed.

(** The program finds its registers unchanged when FS and GS hold the same
    selector. *)
Definition same_registers (c c' : registers) : Prop := c fs = c gs -> forall r, c' r = c r.

Lemma exchanged_same c c' : (forall r, c' r = exchanged c r) -> same_registers c c'.
Proof. intros H He r. rewrite H. by destruct r. Qed.

Lemma same_registers_trans c c' c'' :
  same_registers c c' -> same_registers c' c'' -> same_registers c c''.
Proof. intros H1 H2 He r. rewrite H2, H1; [done | done|]. by rewrite !H1. Qed.

Section Stubs.
Context {W : Type} (call : Z -> Z -> W -> res W) (clobber : registers -> registers).

(** Pushing and popping a list of registers. *)
Lemma exec_push rs prog c s (w : W) :
  exec call clobber ((PUSH <$> rs) ++ prog) {| regs := c; stack := s |} w
  = exec call clobber prog {| regs := c; stack := reverse (c <$> rs) ++ s |} w.
Proof.
  revert s. induction rs as [|r rs IH]; intros s; [done|].
  rewrite !fmap_cons. cbn [app exec regs stack]. rewrite IH. by rewrite reverse_cons, <- app_assoc.
Qed.

Definition set_regs (rs : list reg) (vs : list Z) (c : registers) : registers :=
  foldl (fun c '(r, v) => set_reg r v c) c (zip rs vs).

Lemma exec_pop rs vs prog c s (w : W) : length rs = length vs ->
  exec call clobber ((POP <$> rs) ++ prog) {| regs := c; stack := vs ++ s |} w
  = exec call clobber prog {| regs := set_regs rs vs c; stack := s |} w.
Proof.
  revert vs c. induction rs as [|r rs IH]; intros [|v vs] c Hl; try done.
  rewrite fmap_cons. cbn [app exec regs stack]. injection Hl as Hl. by rewrite IH.
Qed.

(** The words saved for [c] restore [c], but for the two selectors. *)
Lemma set_regs_saved c r q : selectors_ok c -> set_regs popped (reverse (c <$> saved)) r q = exchanged c q.
Proof.
  intros [Hf Hg]. unfold set_regs, set_reg. destruct q; cbn; try reflexivity; by apply wrap_small.
Qed.

Lemma irq_entry_spec n c frame rest (w : W) :
  selectors_ok c -> length frame = 5%nat ->
  exists r', (forall q, r' q = exchanged c q) /\
    exec call clobber (IRQ_ENTRY n) {| regs := c; stack := frame ++ rest |} w
    = (w' ← call n (c rsi) w; Ret ({| regs := r'; stack := rest |}, w', Resumed frame)).
Proof.
  intros Hc Hl. eexists. split; [intros q; by apply (set_regs_saved c (clobber (set_reg rdi n c)))|].
  unfold IRQ_ENTRY, SAVE_ALL, RESTORE_ALL. rewrite exec_push. cbn [app exec regs stack].
  change (set_reg rdi n c rdi) with n. change (set_reg rdi n c rsi) with (c rsi).
  destruct (call n (c rsi) w) as [w'| | |]; try done. cbn [mbind res_bind].
  rewrite exec_pop by done. cbn [exec regs stack].
  rewrite length_app, Hl. cbn [Nat.add Nat.ltb Nat.leb].
  by rewrite <- Hl, take_app_length, drop_app_length.
Qed.

Lemma exec_zero (b : bool) prog c s (w : W) :
  exec call clobber ((if b then [PUSH_IMM 0] else []) ++ prog) {| regs := c; stack := s |} w
  = exec call clobber prog {| regs := c; stack := (if b then [0] else []) ++ s |} w.
Proof. by destruct b. Qed.

(** The arguments, behind the seventeen saved words. *)
Lemma load_args (c : registers) x y s :
  aget (reverse (c <$> saved) ++ x :: y :: s) (_ERROR / 8) = Ret x /\
  aget (reverse (c <$> saved) ++ x :: y :: s) (_RIP / 8) = Ret y.
Proof. done. Qed.

(** The end of the stub, with the reported address on top of the stack. *)
Lemma ending_ok e (c : registers) code rip frame rest (w : W) : length frame = 4%nat ->
  exec call clobber (match e with general_protection => [IRETQ] | _ => [JMP_SELF] end)
    {| regs := c;
       stack := (reported e code rip).2 ::
         match e with doublefault_fn => rip :: frame ++ rest | _ => frame ++ rest end |} w
  = Ret ({| regs := c; stack := left_of e code (rip :: frame) rest |}, w, ending_of e (rip :: frame)).
Proof.
  intros Hl. destruct e; try done. cbn [exec regs stack reported fst snd left_of ending_of].
  rewrite length_cons, length_app, Hl. cbn [Nat.add Nat.ltb Nat.leb take drop].
  by rewrite <- Hl, take_app_length, drop_app_length.
Qed.

Lemma exception_entry_spec e c code rip frame rest (w : W) :
  selectors_ok c -> length frame = 4%nat ->
  exists r', (forall q, r' q = exchanged c q) /\
    exec call clobber (exception_entry e) {| regs := c; stack := frame_of e code (rip :: frame) ++ rest |} w
    = (w' ← call (reported e code rip).1 (reported e code rip).2 w;
       Ret ({| regs := r'; stack := left_of e code (rip :: frame) rest |}, w', ending_of e (rip :: frame))).
Proof.
  intros Hc Hl.
  eexists. split; [intros q; by apply (set_regs_saved c (clobber (set_reg rsi (reported e code rip).2
    (set_reg rdi (reported e code rip).1 c))))|].
  unfold exception_entry, SAVE_ALL, RESTORE_ALL. rewrite exec_zero, exec_push. cbn [app exec regs stack].
  replace ((if pushes_zero e then [0] else []) ++ frame_of e code (rip :: frame) ++ rest)
    with ((reported e code rip).1 :: (reported e code rip).2 ::
          match e with doublefault_fn => rip :: frame ++ rest | _ => frame ++ rest end)
    by (by destruct e).
  destruct (load_args c (reported e code rip).1 (reported e code rip).2
    (match e with doublefault_fn => rip :: frame ++ rest | _ => frame ++ rest end)) as [-> ->].
  cbn [mbind res_bind exec regs stack].
  set (args := reported e code rip).
  change (set_reg rsi args.2 (set_reg rdi args.1 c) rdi) with args.1.
  change (set_reg rsi args.2 (set_reg rdi args.1 c) rsi) with args.2.
  destruct (call args.1 args.2 w) as [w'| | |]; try done. cbn [mbind res_bind].
  rewrite exec_pop by done. cbn [exec regs stack drop].
  change (Z.to_nat (8 / 8)) with 1%nat. cbn [drop]. apply ending_ok. done.
Qed.

End Stubs.

(** ** Properties *)

(** C38: the stubs. When the C function returns, the stub of an interrupt has
    called it with the number of the interrupt and the processor goes on where it was interrupted; the stub
    of an exception has called it with the error code, or 0 where the
    processor pushes none, and the address of the instruction, and the
    processor stays in the stub, except after a general protection fault, when
    it goes back to that instruction. Every register is as before, but FS and GS
    are exchanged, so nothing is lost while both hold the same selector. The
    double fault is reported with the error code for the address: its stub does
    not count on the error code of the processor. *)
Theorem stubs_call_handlers {W} (call : Z -> Z -> W -> res W) clobber (c : registers) rip cs flags sp ss rest
    (w w' : W) :
  selectors_ok c ->
  let frame := [rip; cs; flags; sp; ss] in
  (forall n, call n (c rsi) w = Ret w' -> exists c',
     exec call clobber (IRQ_ENTRY n) {| regs := c; stack := frame ++ rest |} w
     = Ret ({| regs := c'; stack := rest |}, w', Resumed frame) /\
     (forall r, c' r = exchanged c r) /\ same_registers c c') /\
  (forall e code,
     let '(err, addr) := match e with
       | doublefault_fn => (0, code) | _ => (if has_error_code e then code else 0, rip) end in
     call err addr w = Ret w' -> exists c' s,
     exec call clobber (exception_entry e) {| regs := c; stack := frame_of e code frame ++ rest |} w
     = Ret ({| regs := c'; stack := s |}, w',
            if decide (e = general_protection) then Resumed frame else Looping) /\
     (e = general_protection -> s = rest) /\
     (forall r, c' r = exchanged c r) /\ same_registers c c').
Proof.
  intros Hc frame.
  split.
  - intros n Hcall. destruct (irq_entry_spec call clobber n c frame rest w Hc) as (r' & Hr & ->); [done|].
    rewrite Hcall. exists r'. split; [done|]. split; [done|]. by apply exchanged_same.
  - intros e code. destruct (exception_entry_spec call clobber e c code rip [cs; flags; sp; ss] rest w Hc)
      as (r' & Hr & E); [done|].
    assert (Hfin : forall x, call (reported e code rip).1 (reported e code rip).2 w = Ret w' ->
      x = (if decide (e = general_protection) then Resumed frame else Looping) ->
      exists c' s, exec call clobber (exception_entry e) {| regs := c; stack := frame_of e code frame ++ rest |} w
        = Ret ({| regs := c'; stack := s |}, w', x) /\ (e = general_protection -> s = rest) /\
        (forall r, c' r = exchanged c r) /\ same_registers c c').
    { intros x Hcall ->. exists r', (left_of e code frame rest). unfold frame. rewrite E, Hcall.
      split; [by destruct e|]. split; [by intros ->|]. split; [done|]. by apply exchanged_same. }
    destruct e; cbn [reported fst snd has_error_code pushes_zero negb] in *; intros Hcall; by apply Hfin.
Qed.

(** The C functions note what they are called with; a page fault and the
    interrupt 1, with the selector 0x10 in FS and GS. *)
Definition note (x y : Z) (w : list (Z * Z)) : res (list (Z * Z)) := Ret ((x, y) :: w).

Definition sample_registers : registers :=
  fun r => match r with fs | gs => 0x10 | rsi => 7 | _ => 1 end.

Lemma stubs_call_handlers_witness :
  (exists c', exec note (fun _ _ => 0) (IRQ_ENTRY 1)
     {| regs := sample_registers; stack := [0x100; 8; 0x202; 0x9000; 0x10; 5] |} []
     = Ret ({| regs := c'; stack := [5] |}, [(1, 7)], Resumed [0x100; 8; 0x202; 0x9000; 0x10]) /\
     c' r15 = 1) /\
  (exists c' s, exec note (fun _ _ => 0) (exception_entry page_fault)
     {| regs := sample_registers; stack := [2; 0x100; 8; 0x202; 0x9000; 0x10; 5] |} []
     = Ret ({| regs := c'; stack := s |}, [(2, 0x100)], Looping)).
Proof.
  assert (Hc : selectors_ok sample_registers) by (split; simpl; lia). split.
  - destruct (stubs_call_handlers note (fun _ _ => 0) sample_registers 0x100 8 0x202 0x9000 0x10 [5] [] [(1, 7)] Hc)
      as [Hi _].
    destruct (Hi 1 eq_refl) as (c' & E & _ & Hs). exists c'. split; [exact E|]. exact (Hs eq_refl r15).
  - destruct (stubs_call_handlers note (fun _ _ => 0) sample_registers 0x100 8 0x202 0x9000 0x10 [5] []
      [(2, 0x100)] Hc) as [_ He].
    destruct (He page_fault 2 eq_refl) as (c' & s & E & _). exists c', s. exact E.
Defined.
