(* ===== verification/Running.v ===== *)
(** * The running kernel (irq_handler.c, keyboard.c, apic.c, except_handler.c)

    What the kernel does once interrupts are enabled: it waits, the keyboard and
    the timer interrupt it, exceptions are raised, and the other processors go
    around their loop. An interrupt goes from the line through
    the redirection entry or the timer's entry to a vector, through the gate of
    the vector to an entry stub, from there to [handle_irq] and to the handler,
    which works on the console; an exception goes through its gate and its
    stub to its handler. The gates of interrupts clear the interrupt
    flag, so handlers of interrupts do not nest; those of most exceptions leave it set, and an
    interrupt that comes while such a handler prints is not modelled. The
    theorem starts from what [Boot.irqs_ok] says of the state [start_kernel]
    leaves. *)

From S2P Require Import Prelude CString Screen Printf Console Keyboard Descriptors Interrupts LocalApic Exceptions EntryStubs Boot.

(** ** The machine the handlers see *)

(** The chips, the byte the keyboard shows at port 0x60, and the static
    variables of the handlers with the console they write to. *)
Record world (D : Type) := {
  w_chips : D;
  w_port : Z;
  w_kbd : kbd;
  w_console : console;
  w_tick : Z
}.
Arguments w_chips {D}. Arguments w_port {D}. Arguments w_kbd {D}. Arguments w_console {D}.
Arguments w_tick {D}.

Definition with_chips {D} (d : D) (w : world D) : world D :=
  {| w_chips := d; w_port := w_port w; w_kbd := w_kbd w; w_console := w_console w; w_tick := w_tick w |}.

Definition press {D} (scan : Z) (w : world D) : world D :=
  {| w_chips := w_chips w; w_port := scan; w_kbd := w_kbd w; w_console := w_console w; w_tick := w_tick w |}.

Definition soft {D} (w : world D) : kbd * console * Z := (w_kbd w, w_console w, w_tick w).

#[export, refine] Instance world_device {D} `{Device D} : Device (world D) := {
  apic_read r w := let '(v, d) := apic_read r (w_chips w) in (v, with_chips d w);
  apic_write r v w := with_chips (apic_write r v (w_chips w)) w;
  io_select r w := with_chips (io_select r (w_chips w)) w;
  io_window_read w := let '(v, d) := io_window_read (w_chips w) in (v, with_chips d w);
  io_window_write v w := with_chips (io_window_write v (w_chips w)) w;
  outb p v w := with_chips (outb p v (w_chips w)) w;
  tpr w := tpr (w_chips w);
  redirection w := redirection (w_chips w)
}.
Proof.
  - intros w. rewrite apic_read_tpr. by destruct w.
  - intros v w. apply (apic_write_tpr v (w_chips w)).
  - intros v w. apply (apic_write_eoi v (w_chips w)).
  - intros r w. cbn [with_chips w_chips].
    destruct (io_window_read_select r (w_chips w)) as (d' & -> & Hd'). eexists. by split.
  - intros r v w q. apply (io_window_write_select r v (w_chips w)).
Defined.

#[export, refine] Instance world_apic {D} `{LocalApic D} : LocalApic (world D) := {
  apic_reg r w := apic_reg r (w_chips w);
  ipis w := ipis (w_chips w)
}.
Proof.
  - intros w. apply (lapic_tpr (w_chips w)).
  - intros w. apply (lapic_id (w_chips w)).
  - intros r w Hr. cbn [apic_read world_device]. rewrite lapic_read by done. by destruct w.
  - intros r v w. apply (lapic_write r v (w_chips w)).
  - intros v w. apply (lapic_write_id v (w_chips w)).
  - intros r v w. apply (lapic_write_other r v (w_chips w)).
  - intros r v w. apply (lapic_write_ipis r v (w_chips w)).
  - intros r v w. apply (lapic_write_redirection r v (w_chips w)).
  - intros r w. apply (lapic_io_select r (w_chips w)).
  - intros v w. apply (lapic_io_write v (w_chips w)).
  - intros w q. cbn [io_window_read world_device].
    rewrite <- (lapic_io_read (w_chips w) q). by destruct (io_window_read (w_chips w)).
  - intros r v w. destruct (lapic_io_ipis r v (w_chips w)) as (H1 & H2 & H3). split; [done|]. split; [done|].
    cbn [io_window_read world_device]. rewrite <- H3. by destruct (io_window_read (w_chips w)).
  - intros p v w. apply (lapic_outb p v (w_chips w)).
Defined.

(** ** The handlers *)

(** What the code at an entry point is: [_irq_n], or the stub of an exception. *)
Inductive entry := Irq (n : Z) | Exc (e : exception).

Definition entry_code (c : entry) : list instr :=
  match c with Irq n => IRQ_ENTRY n | Exc e => exception_entry e end.

(** The vector of an exception, and its stub among those [idt_init] is given. *)
Definition vector (e : exception) : Z :=
  match e with
  | divide_error => 0 | debug => 1 | nmi => 2 | int3 => 3 | overflow => 4 | bounds => 5
  | invalid_op => 6 | device_not_available => 7 | doublefault_fn => 8
  | coprocessor_segment_overrun => 9 | invalid_TSS => 10 | segment_not_present => 11
  | stack_segment => 12 | general_protection => 13 | page_fault => 14 | coprocessor_error => 16
  | alignment_check => 17 | machine_check => 18 | simd_coprocessor_error => 19
  end.

Definition entry_point (x : except_entries) (e : exception) : Z :=
  match e with
  | divide_error => _divide_error x | debug => _debug x | nmi => _nmi x | int3 => _int3 x
  | overflow => _overflow x | bounds => _bounds x | invalid_op => _invalid_op x
  | device_not_available => _device_not_available x | doublefault_fn => _doublefault_fn x
  | coprocessor_segment_overrun => _coprocessor_segment_overrun x | invalid_TSS => _invalid_TSS x
  | segment_not_present => _segment_not_present x | stack_segment => _stack_segment x
  | general_protection => _general_protection x | page_fault => _page_fault x
  | coprocessor_error => _coprocessor_error x | alignment_check => _alignment_check x
  | machine_check => _machine_check x | simd_coprocessor_error => _simd_coprocessor_error x
  end.

(** The addresses of the buffer of [caos_printf] and of the formats of
    keyboard.c and except_handler.c, the stubs, the code at an address; what C
    code leaves in the registers, and RIP, CS, RSP and SS of the program that
    is interrupted. *)
Record machine_env := {
  sz : Z; fnl : Z; fpc : Z; lit : exception -> Z;
  irq_stubs : Z -> Z; except_stubs : except_entries; code_at : Z -> option entry;
  clobber : registers -> registers; pc : Z; cs : Z; sp : Z; ss : Z
}.

(** The formats of the exceptions are in memory, clear of the buffer. *)
Definition formats_ok (env : machine_env) (c : console) : Prop :=
  forall e, cstr (con_mem c) (lit env e) (exception_format e) /\
            apart (sz env) (sz env + 128) (lit env e) (exception_format e).

(** The terminal below the first line, with everything the handlers print. *)
Definition run_shows (env : machine_env) (t : Z * paper) (c : console) : Prop :=
  k_shows (sz env) (fnl env) (fpc env) 80 t c /\ formats_ok env c.

Lemma formats_kept env c c' : formats_ok env c ->
  (forall p s, cstr (con_mem c) p s -> apart (sz env) (sz env + 128) p s -> cstr (con_mem c') p s) ->
  formats_ok env c'.
Proof. intros H Hk e. destruct (H e). split; [by apply Hk | done]. Qed.

#[export, refine] Instance running_console (env : machine_env) : Console console := {
  con_newline := k_printf (sz env) (fnl env) [];
  con_putc x := k_printf (sz env) (fpc env) [x];
  con_delchar := k_delchar;
  con_shows := run_shows env
}.
Proof.
  - intros t c [Hc Hf].
    destruct (k_printf_shows _ _ _ 80 (fnl env) [10] [] [10] t c Hc) as (c' & E & Hc' & Hk);
      try apply Hc; try done; [simpl; lia|].
    exists c'. split; [done|]. split; [done | by eapply formats_kept].
  - intros t c x [Hc Hf] Hx Hok.
    destruct (k_printf_shows _ _ _ 80 (fpc env) [37; 99] [VNum x] [x] t c Hc) as (c' & E & Hc' & Hk);
      try apply Hc; try done.
    + cbn. by rewrite (wrap_small 8 x) by (change (2 ^ 8) with 256; lia).
    + simpl. lia.
    + apply Forall_singleton. simpl. lia.
    + exists c'. split; [done|]. split; [done | by eapply formats_kept].
  - intros t c [Hc Hf] Hok.
    destruct (con_delchar_ok (Console := printf_console (sz env) (fnl env) (fpc env) 80) t c Hc Hok)
      as (c' & E & Hc').
    exists c'. split; [exact E|]. split; [exact Hc'|].
    cbn [con_delchar printf_console] in E. unfold k_delchar in E. apply bind_ret_inv in E as (s' & _ & E).
    apply (f_equal (fun r => match r with Ret x => con_mem x | _ => con_mem c' end)) in E.
    cbn [con_mem] in E. intros e. rewrite <- E. apply Hf.
Defined.

Section Running.
Context {D : Type} `{LocalApic D}.
Context (env : machine_env).

(** [keyboard_isr(num)]: the scan code is read from the port. *)
Definition keyboard_handler : irq_handler_t (D := world D) := fun num w =>
  '(k, c) ← keyboard_isr (H := running_console env) (w_port w) (w_kbd w) (w_console w);
  Ret {| w_chips := w_chips w; w_port := w_port w; w_kbd := k; w_console := c; w_tick := w_tick w |}.

Definition with_console (c : console) (w : world D) : world D :=
  {| w_chips := w_chips w; w_port := w_port w; w_kbd := w_kbd w; w_console := c; w_tick := w_tick w |}.

Definition with_screen (s : screen_info) (w : world D) : world D :=
  with_console {| con_mem := con_mem (w_console w); con_screen := s |} w.

(** [bsp_local_timer(num)] on its static counter and the screen. *)
Definition timer_handler : irq_handler_t (D := world D) := fun num w =>
  '(tick, s) ← bsp_local_timer (w_tick w) (con_screen (w_console w));
  Ret {| w_chips := w_chips w; w_port := w_port w; w_kbd := w_kbd w;
         w_console := {| con_mem := con_mem (w_console w); con_screen := s |}; w_tick := tick |}.

(** ** The processor takes an interrupt *)

(** The kernel's tables and the machine behind them, the registers, and RFLAGS, of which bit 9 is the
    interrupt flag. *)
Record system := {
  s_irqs : irq_state (D := world D);
  s_regs : registers;
  s_flags : Z
}.

Abbreviation s_world m := (device (s_irqs m)).

Definition with_world (w : world D) (m : system) : system :=
  {| s_irqs := with_device w (s_irqs m); s_regs := s_regs m; s_flags := s_flags m |}.

(** The C function a stub calls. *)
Definition entry_function (c : entry) (rdi rsi : Z) (st : irq_state (D := world D)) : res irq_state :=
  match c with
  | Irq n => handle_irq rdi st
  | Exc e =>
      c ← do_exception (sz env) (lit env) e rdi rsi (w_console (device st));
      Ret (with_device (with_console c (device st)) st)
  end.

(** The processor goes through the gate of a vector, which has to be present;
    an interrupt gate clears the interrupt flag. When the stub returns, the
    flags are those of its frame. *)
Definition deliver (v : Z) (frame : list Z) (m : system) : res system :=
  g ← aget (idt_table (s_irqs m)) v;
  match gate_present g, code_at env (gate_offset g) with
  | true, Some c =>
      '(regs', st, fin) ← exec (entry_function c) (clobber env) (entry_code c)
                            {| regs := s_regs m; stack := frame |} (s_irqs m);
      let flags := if gate_type g =? 14 then Z.clearbit (s_flags m) 9 else s_flags m in
      Ret {| s_irqs := st; s_regs := regs regs';
             s_flags := match fin with Resumed f => nth 2 f 0 | Looping => flags end |}
  | _, _ => Fault
  end.

Definition frame_at (rip : Z) (m : system) : list Z := [rip; cs env; s_flags m; sp env; ss env].

(** An interrupt is taken when the flag is set and its vector is of a class
    above the task priority. *)
Definition interrupt (v : Z) (m : system) : res system :=
  if negb (Z.testbit (s_flags m) 9) || negb (tpr (s_world m) / 16 <? v / 16) then Ret m
  else deliver v (frame_at (pc env) m) m.

(** An entry of the redirection table or of the local vector table: bit 16
    masks it, the low byte is the vector. *)
Definition signal (entry : Z) (m : system) : res system :=
  if Z.testbit entry 16 then Ret m else interrupt (Z.land entry 0xff) m.

(** [Raise e code rip]: the instruction at [rip] raises [e], for which the
    processor may push [code]. [Spin n]: another processor makes [n] passes. It only writes one cell of the
    first line, where nothing is read, so it does not matter that its passes
    fall between the events of this processor. *)
Inductive event := Key (scan : Z) | Tick | Raise (e : exception) (code rip : Z) | Spin (n : nat).

Definition occurs (e : event) (m : system) : res system :=
  match e with
  | Key scan => signal (redirection (s_world m) (IO_APIC_REDTBL_BASE + KEYBOARD_IRQ * 2))
                  (with_world (press scan (s_world m)) m)
  | Tick => signal (apic_reg APIC_LVTT (s_world m)) m
  | Raise e code rip => deliver (vector e) (frame_of e code (frame_at rip m)) m
  | Spin n => s ← ap_loop n (con_screen (w_console (s_world m)));
              Ret (with_world (with_screen s (s_world m)) m)
  end.

(** The kernel waits for the next event forever. *)
Fixpoint run (es : list event) (m : system) : res system :=
  match es with [] => Ret m | e :: es => m ← occurs e m; run es m end.

(** ** What the events mean *)

(** What someone in front of the machine sees: whether it takes interrupts, the keys
    it has taken, the terminal, and the ticks. *)
Record view := { v_on : bool; v_keys : list Z; v_term : Z * paper; v_ticks : Z }.

Definition printed (e : event) (v : view) : list output :=
  match e with
  | Key s => if v_on v then typed (history_status (v_keys v)) s else []
  | Raise e code rip =>
      outputs (exception_text e (reported e code rip).1 (reported e code rip).2)
  | _ => []
  end.

(** The handlers of NMI and page fault end in a loop with interrupts disabled. *)
Definition see (e : event) (v : view) : view :=
  {| v_on := match e with Raise (nmi | page_fault) _ _ => false | _ => v_on v end;
     v_keys := match e with Key s => if v_on v then v_keys v ++ [s] else v_keys v | _ => v_keys v end;
     v_term := term_run (printed e v) (v_term v);
     v_ticks := match e with Tick => if v_on v then v_ticks v + 1 else v_ticks v | _ => v_ticks v end |}.

Fixpoint see_all (es : list event) (v : view) : view :=
  match es with [] => v | e :: es => see_all es (see e v) end.

(** The machine can produce the event, and the terminal can show what it
    prints: it does not delete at the first cell. *)
Definition possible (e : event) (v : view) : Prop :=
  match e with
  | Key s => 0 <= s < 256 /\ term_ok (printed e v) (v_term v) = true
  | Raise x code rip => s64 (reported x code rip).2 <> - 2 ^ 63
  | _ => True
  end.

Fixpoint all_possible (es : list event) (v : view) : Prop :=
  match es with [] => True | e :: es => possible e v /\ all_possible es (see e v) end.

(** What [start_kernel] has to leave. *)
Record running (m : system) : Prop := {
  ru_keyboard : irq_handler (s_irqs m) !! 1%nat = Some (Some keyboard_handler);
  ru_timer : irq_handler (s_irqs m) !! 16%nat = Some (Some timer_handler);
  ru_gates : forall v, 0 <= v < 256 -> idt_table (s_irqs m) !! Z.to_nat v =
    Some (if decide (32 <= v < 54) then gate DESTYPE_INT (irq_stubs env (v - 32))
          else vector_gate (except_stubs env) v);
  ru_key_entry : redirection (s_world m) (IO_APIC_REDTBL_BASE + KEYBOARD_IRQ * 2) = 0xA000 + 33;
  ru_timer_entry : apic_reg APIC_LVTT (s_world m) = Z.lor APIC_LVT_TIMER_PERIODIC 48;
  ru_priority : tpr (s_world m) = 0;
  ru_selectors : selectors_ok (s_regs m)
}.

(** The entry points are addresses of the stubs. *)
Definition stubs_ok : Prop :=
  (forall n, 0 <= n < 22 -> 0 <= irq_stubs env n < 2 ^ 64 /\ code_at env (irq_stubs env n) = Some (Irq n)) /\
  (forall e, 0 <= entry_point (except_stubs env) e < 2 ^ 64 /\
     code_at env (entry_point (except_stubs env) e) = Some (Exc e)).

(** The machine is as the view says. *)
Record served (v : view) (m : system) : Prop := {
  se_on : Z.testbit (s_flags m) 9 = v_on v;
  se_status : status (w_kbd (s_world m)) = history_status (v_keys v);
  se_console : run_shows env (v_term v) (w_console (s_world m));
  se_tick : w_tick (s_world m) = v_ticks v mod 256
}.

(** ** Lemmas *)

Hypothesis Hstubs : stubs_ok.

(** The accesses around a handler leave the chips as they were. *)
Lemma around_handler n (d : D) :
  0 <= n < 22 -> tpr d = 0 ->
  let d' := apic_write APIC_TASKPRI 0 (apic_write APIC_EOI 0 (apic_write APIC_TASKPRI (n + 32) d)) in
  tpr d' = 0 /\ apic_reg APIC_LVTT d' = apic_reg APIC_LVTT d /\ forall q, redirection d' q = redirection d q.
Proof.
  intros Hn Ht d'. unfold d'. split; [by apply apic_write_tpr|]. split.
  - assert (Hw : forall v d0, 0 <= v < 256 ->
      apic_reg APIC_LVTT (apic_write APIC_TASKPRI v d0) = apic_reg APIC_LVTT d0).
    { intros v d0 Hv. rewrite lapic_write; try write_done.
      change (writable APIC_TASKPRI) with (Z.ones 8). rewrite Z.land_ones by lia. apply Z.mod_small. lia. }
    rewrite Hw by lia. rewrite (lapic_write_other APIC_EOI) by (try (right; by left); in_regs). apply Hw. lia.
  - intros q. by rewrite !lapic_write_redirection.
Qed.

(** An interrupt whose handler only changes the variables of the handlers runs
    it once and goes back, with interrupts enabled as before. *)
Lemma interrupt_served n h (m : system) w' :
  running m -> 0 <= n < 22 -> irq_handler (s_irqs m) !! Z.to_nat n = Some (Some h) ->
  Z.testbit (s_flags m) 9 = true ->
  h n (apic_write APIC_TASKPRI (n + 32) (s_world m)) = Ret w' ->
  w_chips w' = apic_write APIC_TASKPRI (n + 32) (w_chips (s_world m)) ->
  exists m', interrupt (n + 32) m = Ret m' /\ running m' /\ soft (s_world m') = soft w' /\
    s_flags m' = s_flags m /\ same_registers (s_regs m) (s_regs m').
Proof.
  intros [R1 R2 R3 R4 R5 R6 R7] Hn Hh Hif E Hc. unfold interrupt. rewrite R6, Hif.
  rewrite (proj2 (Z.ltb_lt _ _)) by (change (0 / 16) with 0; apply Z.div_str_pos; lia). cbn [negb orb].
  unfold deliver. rewrite (proj2 (aget_Ret _ _ (gate DESTYPE_INT (irq_stubs env n)))).
  2: { split; [lia|]. rewrite R3 by lia. rewrite decide_True by lia. do 3 f_equal. lia. }
  cbn [mbind res_bind]. destruct (proj1 Hstubs n Hn) as [Hs Hat].
  rewrite gate_decodes, Hat by done. change (gate_present (gate DESTYPE_INT (irq_stubs env n))) with true.
  cbv iota. cbn [entry_code].
  destruct (irq_entry_spec (entry_function (Irq n)) (clobber env) n (s_regs m) (frame_at (pc env) m) []
    (s_irqs m) R7 eq_refl) as (r' & Hr' & Ex).
  rewrite app_nil_r in Ex. rewrite Ex. clear Ex. cbn [entry_function].
  rewrite (handle_irq_eq n (s_irqs m) h Hh) by lia. rewrite E. cbn [mbind res_bind].
  eexists. split; [reflexivity|]. rewrite R6.
  destruct (around_handler n (w_chips (s_world m)) Hn R6) as (H1 & H2 & H3).
  cbn [s_irqs s_regs s_flags regs frame_at nth]. split; [|split_and!; try done; by apply exchanged_same].
  split; cbn [s_irqs s_regs with_device irq_handler idt_table device tpr redirection apic_reg apic_write
              world_device world_apic with_chips w_chips]; rewrite ?Hc; try done.
  - by rewrite H3.
  - by rewrite H2.
  - by eapply exchanged_ok.
Qed.

(** The gate of an exception leads to its stub; those of NMI and page fault
    clear the interrupt flag. *)
Lemma vector_gate_of e : exists ty,
  vector_gate (except_stubs env) (vector e) = gate ty (entry_point (except_stubs env) e) /\
  (forall x, gate_present (gate ty x) = true) /\
  forall x v code rip, v_on (see (Raise e code rip) v) = v_on v && negb (gate_type (gate ty x) =? 14).
Proof.
  destruct e; (eexists; split; [reflexivity|]; split; [reflexivity|]); intros x v code rip; cbn;
    by destruct (v_on v).
Qed.

(** Whether the program goes on after a general protection fault or the
    processor stays in the stub, the interrupt flag is as the gate left it. *)
Lemma flags_after e m frame ty x rip :
  vector_gate (except_stubs env) (vector e) = gate ty x -> frame = frame_at rip m ->
  Z.testbit match ending_of e frame with
            | Resumed f => nth 2 f 0
            | Looping => if gate_type (gate ty x) =? 14 then Z.clearbit (s_flags m) 9 else s_flags m
            end 9
  = Z.testbit (s_flags m) 9 && negb (gate_type (gate ty x) =? 14).
Proof.
  intros Hg ->.
  assert (Hgen : Z.testbit (if gate_type (gate ty x) =? 14 then Z.clearbit (s_flags m) 9 else s_flags m) 9
    = Z.testbit (s_flags m) 9 && negb (gate_type (gate ty x) =? 14)).
  { destruct (_ =? 14); [|by rewrite andb_true_r]. by rewrite Z.clearbit_eq, andb_false_r. }
  destruct e; try exact Hgen. cbn [ending_of frame_at nth].
  rewrite <- Hg. cbn. by rewrite andb_true_r.
Qed.

(** An exception is reported. *)
Lemma exception_served e code rip v (m : system) :
  running m -> served v m -> s64 (reported e code rip).2 <> - 2 ^ 63 ->
  exists m', deliver (vector e) (frame_of e code (frame_at rip m)) m = Ret m' /\ running m' /\
    served (see (Raise e code rip) v) m' /\ same_registers (s_regs m) (s_regs m').
Proof.
  intros [R1 R2 R3 R4 R5 R6 R7] [S1 S2 [S3 S4] S5] Hmin.
  destruct (vector_gate_of e) as (ty & Eg & Hp & Hon). destruct (proj2 Hstubs e) as [Hs Hat].
  destruct (do_exception_spec (sz env) (lit env) (fnl env) (fpc env) 80 e (reported e code rip).1
    (reported e code rip).2 (v_term v) (w_console (s_world m)) S3 (proj1 (S4 e)) (proj2 (S4 e)) Hmin)
    as (c' & Ec & Hc' & Hk).
  unfold deliver. rewrite (proj2 (aget_Ret _ _ (gate ty (entry_point (except_stubs env) e)))).
  2: { assert (0 <= vector e < 32) by (destruct e; simpl; lia). split; [lia|].
       rewrite R3, decide_False by lia. by rewrite Eg. }
  cbn [mbind res_bind]. rewrite gate_decodes, Hat, Hp by done.
  destruct (exception_entry_spec (entry_function (Exc e)) (clobber env) e (s_regs m) code rip
    [cs env; s_flags m; sp env; ss env] [] (s_irqs m) R7 eq_refl) as (r' & Hr' & Ex).
  rewrite app_nil_r in Ex. cbn [entry_code]. unfold frame_at at 1. rewrite Ex. clear Ex.
  cbn [entry_function]. rewrite Ec. cbn [mbind res_bind].
  eexists. split; [reflexivity|]. cbn [s_irqs s_regs s_flags regs].
  split; [split; try done; by eapply exchanged_ok|]. split; [|by apply exchanged_same].
  split; cbn [s_irqs s_flags device with_device with_console w_kbd w_console w_tick]; try done.
  - etrans; [exact (flags_after e m _ ty _ rip Eg eq_refl)|]. rewrite S1. symmetry. apply Hon.
  - split; [exact Hc' | by eapply formats_kept].
Qed.

(** The timer draws above the part of the screen the console shows. *)
Lemma timer_console t tick (c : console) :
  0 <= tick < 256 -> run_shows env t c ->
  exists s, bsp_local_timer tick (con_screen c) = Ret ((tick + 1) mod 256, s) /\
    run_shows env t {| con_mem := con_mem c; con_screen := s |} /\
    forall i, 0 <= i < 80 -> video_mem s !! Z.to_nat i = Some (timer_cell tick i).
Proof.
  intros Ht [[[[W1 W2 W3 W4] Hcur Hpos Hcrt] ? ? ? ? ?] Hf].
  destruct (timer_draws_line tick (con_screen c) Ht W2) as (s & E & Hl & Hc & Hp & Hv).
  exists s. split; [done|]. split.
  - split; [|exact Hf]. split; cbn [con_mem con_screen]; try done. split; rewrite ?Hc, ?Hp; try done.
    split; try done. intros i Hi Hlo. rewrite Hv by lia. rewrite decide_False by lia. by apply W3.
  - intros i Hi. rewrite Hv by lia. rewrite decide_True by lia. do 2 f_equal. lia.
Qed.

(** So does another processor. *)
Lemma ap_loop_console n t (c : console) :
  run_shows env t c ->
  exists s, ap_loop n (con_screen c) = Ret s /\
    run_shows env t {| con_mem := con_mem c; con_screen := s |}.
Proof.
  intros [[[[W1 W2 W3 W4] Hcur Hpos Hcrt] ? ? ? ? ?] Hf].
  destruct (ap_loop_screen n (con_screen c) W2) as (v & E & Hl & Hv). eexists. split; [done|].
  split; [|exact Hf]. split; try done. split; try done. split; try done.
  intros i Hi Hlo. cbn [con_screen set_video video_mem]. rewrite Hv by lia. by apply W3.
Qed.

(** Nothing reaches the processor while interrupts are disabled. *)
Lemma interrupt_ignored v (m : system) : Z.testbit (s_flags m) 9 = false -> interrupt v m = Ret m.
Proof. intros Hif. unfold interrupt. by rewrite Hif. Qed.

Lemma key_served s v (m : system) :
  running m -> served v m -> possible (Key s) v ->
  exists m', occurs (Key s) m = Ret m' /\ running m' /\ served (see (Key s) v) m' /\
    same_registers (s_regs m) (s_regs m').
Proof.
  intros Hr [S1 S2 S3 S5] [Hb Hok]. cbn [occurs]. rewrite (ru_key_entry m Hr).
  change (signal (0xA000 + 33)) with (interrupt (1 + 32)).
  set (m0 := with_world (press s (s_world m)) m).
  assert (Hr0 : running m0) by (destruct Hr; by split).
  unfold see. cbn [printed] in *. destruct (v_on v) eqn:Hon.
  - destruct (keyboard_isr_step (H := running_console env) (v_keys v) s (w_kbd (s_world m))
      (w_console (s_world m)) (v_term v)) as (kb & c & E & Hst & Hc); [done..|].
    destruct (interrupt_served 1 keyboard_handler m0
      {| w_chips := apic_write APIC_TASKPRI (1 + 32) (w_chips (s_world m)); w_port := s;
         w_kbd := kb; w_console := c; w_tick := w_tick (s_world m) |})
      as (m' & E' & Hr' & Hsoft & Hf & Hre); [done | lia | apply Hr | done | | done |].
    { unfold keyboard_handler. cbn [m0 with_world s_irqs with_device device world_device apic_write with_chips
        press w_port w_kbd w_console w_chips w_tick]. by rewrite E. }
    exists m'. split; [exact E'|]. split; [done|]. split; [|exact Hre].
    unfold soft in Hsoft. cbn [w_kbd w_console w_tick] in Hsoft. injection Hsoft as E1 E2 E3.
    split; cbn [v_on v_keys v_term v_ticks].
    + rewrite Hf. exact S1.
    + by rewrite E1.
    + by rewrite E2.
    + by rewrite E3.
  - exists m0. split; [apply interrupt_ignored; exact S1|]. split; [done|]. by split.
Qed.

Lemma tick_served v (m : system) :
  running m -> served v m ->
  exists m', occurs Tick m = Ret m' /\ running m' /\ served (see Tick v) m' /\
    same_registers (s_regs m) (s_regs m') /\
    (v_on v = true -> forall i, 0 <= i < 80 ->
       video_mem (con_screen (w_console (s_world m'))) !! Z.to_nat i = Some (timer_cell (v_ticks v mod 256) i)).
Proof.
  intros Hr [S1 S2 S3 S5]. cbn [occurs]. rewrite (ru_timer_entry m Hr).
  change (signal (Z.lor APIC_LVT_TIMER_PERIODIC 48)) with (interrupt (16 + 32)).
  unfold see. cbn [printed]. destruct (v_on v) eqn:Hon.
  - destruct (timer_console (v_term v) (w_tick (s_world m)) (w_console (s_world m))) as (s & E & Hc & Hl);
      [rewrite S5; apply Z.mod_pos_bound; lia | done |].
    destruct (interrupt_served 16 timer_handler m
      {| w_chips := apic_write APIC_TASKPRI (16 + 32) (w_chips (s_world m)); w_port := w_port (s_world m);
         w_kbd := w_kbd (s_world m);
         w_console := {| con_mem := con_mem (w_console (s_world m)); con_screen := s |};
         w_tick := (w_tick (s_world m) + 1) mod 256 |})
      as (m' & E' & Hr' & Hsoft & Hf & Hre); [done | lia | apply Hr | done | | done |].
    { unfold timer_handler. cbn [world_device apic_write with_chips w_port w_kbd w_console w_chips w_tick].
      by rewrite E. }
    exists m'. split; [exact E'|]. split; [done|].
    unfold soft in Hsoft. cbn [w_kbd w_console w_tick] in Hsoft. injection Hsoft as E1 E2 E3.
    split; [|split; [exact Hre|]].
    + split; cbn [v_on v_keys v_term v_ticks term_run].
      * by rewrite Hf.
      * by rewrite E1.
      * by rewrite E2.
      * rewrite E3, S5. apply Zplus_mod_idemp_l.
    + intros _ i Hi. rewrite E2. cbn [con_screen]. rewrite <- S5. by apply Hl.
  - exists m. split; [by apply interrupt_ignored|]. split; [done|]. split; [by split|]. split; [by intros ? ?|].
    discriminate.
Qed.

Lemma spin_served n v (m : system) :
  running m -> served v m ->
  exists m', occurs (Spin n) m = Ret m' /\ running m' /\ served (see (Spin n) v) m' /\
    same_registers (s_regs m) (s_regs m').
Proof.
  intros Hr [S1 S2 S3 S5]. cbn [occurs].
  destruct (ap_loop_console n (v_term v) (w_console (s_world m)) S3) as (s & E & Hc). rewrite E.
  cbn [mbind res_bind]. eexists. split; [reflexivity|]. split; [destruct Hr; by split|].
  split; [by split | by intros ? ?].
Qed.

(** One event. *)
Lemma event_served e v (m : system) :
  running m -> served v m -> possible e v ->
  exists m', occurs e m = Ret m' /\ running m' /\ served (see e v) m' /\
    same_registers (s_regs m) (s_regs m') /\
    (e = Tick -> v_on v = true -> forall i, 0 <= i < 80 ->
       video_mem (con_screen (w_console (s_world m'))) !! Z.to_nat i = Some (timer_cell (v_ticks v mod 256) i)).
Proof.
  intros Hr Hs Hp. destruct e as [s| |e code rip|n].
  - destruct (key_served s v m Hr Hs Hp) as (m' & E & ? & ? & ?). by exists m'.
  - destruct (tick_served v m Hr Hs) as (m' & E & ? & ? & ? & Hl). exists m'. by split_and!.
  - destruct (exception_served e code rip v m Hr Hs Hp) as (m' & E & ? & ? & ?). by exists m'.
  - destruct (spin_served n v m Hr Hs) as (m' & E & ? & ? & ?). by exists m'.
Qed.

End Running.

(** What [start_kernel] leaves is what the kernel needs to run: its interrupts,
    and the same selector in FS and GS. *)
Lemma booted_running {D} `{LocalApic D} env (d0 : world D) (m : system) :
  irqs_ok (except_stubs env) (irq_stubs env) (timer_handler (D := D)) (keyboard_handler env) d0 (s_irqs m) ->
  selectors_ok (s_regs m) -> running env m.
Proof.
  intros [I1 I2 I3 I4 I5 I6 _] Hc. split; try done.
  - rewrite I1. done.
  - rewrite I1. done.
Qed.

(** A sequence of events. *)
Lemma run_served {D} `{LocalApic D} env es v (m : system (D := D)) :
  stubs_ok env -> running env m -> served env v m -> all_possible es v ->
  exists m', run env es m = Ret m' /\ running env m' /\ served env (see_all es v) m' /\
    same_registers (s_regs m) (s_regs m') /\
    (last es = Some Tick -> v_on (see_all es v) = true -> forall i, 0 <= i < 80 ->
       video_mem (con_screen (w_console (device (s_irqs m')))) !! Z.to_nat i
       = Some (timer_cell ((v_ticks (see_all es v) - 1) mod 256) i)).
Proof.
  intros Hstubs. revert v m. induction es as [|e es IH]; intros v m Hr Hs Hp.
  - exists m. split; [done|]. split; [done|]. split; [done|]. by split; [intros ? ?|].
  - destruct Hp as [Hp Hps].
    destruct (event_served env Hstubs e v m Hr Hs Hp) as (m1 & E & Hr1 & Hs1 & Hc1 & Hl1).
    destruct (IH _ m1 Hr1 Hs1 Hps) as (m2 & E2 & Hr2 & Hs2 & Hc2 & Hl2).
    exists m2. cbn [run see_all]. step E. split; [done|]. split; [done|]. split; [done|].
    split; [by eapply same_registers_trans|].
    intros Hlast Hon i Hi. destruct es as [|e' es']; [|by apply Hl2].
    injection Hlast as ->. injection E2 as <-. cbn [see_all see v_on] in Hon.
    rewrite Hl1 by done. cbn [see_all see v_ticks]. rewrite Hon. do 3 f_equal. lia.
Qed.

(** ** Properties *)

(** C7: the running kernel serves its interrupts. From a state as [start_kernel]
    leaves it ([booted_running]), whatever sequence of keys, ticks of the
    timer, exceptions and passes of other processors comes, each interrupt
    reaches its handler through its entry, its gate, its stub and [handle_irq],
    each exception its handler through its gate and stub, and the kernel is
    ready for the next: the status of the modifiers is that of all keys taken,
    below its first line the screen shows the terminal after what the keys type
    and the exceptions report, whatever the timer and the other processors draw
    in between, the counter of the timer has the number of ticks modulo 256,
    and right after a tick the first line is the timer's. After an NMI or a
    page fault no interrupt is taken any more; after any other exception they
    still are. The interrupted program finds its registers unchanged. *)
Theorem interrupts_served {D} `{LocalApic D} env es v (m : system (D := D)) :
  stubs_ok env -> running env m -> served env v m -> all_possible es v ->
  exists m', run env es m = Ret m' /\ running env m' /\ served env (see_all es v) m' /\
    same_registers (s_regs m) (s_regs m') /\
    (last es = Some Tick -> v_on (see_all es v) = true -> forall i, 0 <= i < 80 ->
       video_mem (con_screen (w_console (device (s_irqs m')))) !! Z.to_nat i
       = Some (timer_cell ((v_ticks (see_all es v) - 1) mod 256) i)).
Proof.
  apply run_served.
Qed.

(** A booted machine with a blank screen: Shift, a and the release of Shift, a
    tick, three passes of another processor, a division by zero, b, a tick, a page fault,
    c and a tick. *)
Definition sample_stubs (n : Z) : Z := 0xFFFF800000102000 + 16 * n.

Definition sample_code_at (a : Z) : option entry :=
  if a <? 0xFFFF800000102000 then
    ([Exc divide_error; Exc debug; Exc nmi; Exc int3; Exc overflow; Exc bounds; Exc invalid_op;
      Exc device_not_available; Exc doublefault_fn; Exc coprocessor_segment_overrun; Exc invalid_TSS;
      Exc segment_not_present; Exc stack_segment; Exc general_protection; Exc page_fault;
      Exc coprocessor_error; Exc alignment_check; Exc machine_check; Exc simd_coprocessor_error])
      !! Z.to_nat ((a - 0xFFFF800000100010) / 16)
  else Some (Irq ((a - 0xFFFF800000102000) / 16)).

Definition sample_lit (e : exception) : Z := 10000 + 200 * vector e.

Definition sample_env : machine_env :=
  {| sz := 4096; fnl := 100; fpc := 1000; lit := sample_lit; irq_stubs := sample_stubs;
     except_stubs := sample_entries_at 0xFFFF800000100000; code_at := sample_code_at;
     clobber := fun _ _ => 0; pc := 0xFFFF800000101000; cs := 0x18; sp := 0xFFFF800000090000; ss := 0x20 |}.

Definition running_console_state : console :=
  {| con_mem := foldr (fun e m => write_bytes (sample_lit e) (exception_format e ++ [0]) m)
                  (con_mem sample_console) exceptions;
     con_screen := con_screen sample_console |}.

Definition sample_world : world chip :=
  {| w_chips := {| c_devices := {| m_tpr := 0; m_index := 0; m_regs := {[18 := 0xA021]}; m_ports := [] |};
                   c_regs := {[APIC_LVTT := 0x20030; APIC_SPIV := 0x1FF]}; c_ipis := [] |};
     w_port := 0; w_kbd := {| status := 0; code := 0; prefix := 0 |}; w_console := running_console_state;
     w_tick := 0 |}.

Definition sample_machine : system (D := chip) :=
  {| s_irqs :=
       {| irq_handler := <[1%nat := Some (keyboard_handler sample_env)]> (<[16%nat := Some timer_handler]>
                           (replicate 32 (Some ignore_isr_handler)));
          idt_table := (fun v => if decide (32 <= v < 54) then gate DESTYPE_INT (sample_stubs (v - 32))
                                 else vector_gate (sample_entries_at 0xFFFF800000100000) v) <$> seqZ 0 256;
          device := sample_world |};
     s_regs := sample_registers; s_flags := 0x202 |}.

Definition sample_events : list event :=
  [Key 0x2a; Key 0x1e; Key 0xaa; Tick; Spin 3; Raise divide_error 0 0xFFFF800000101234; Key 0x30; Tick;
   Raise page_fault 2 0xFFFF800000101240; Key 0x2e; Tick].

Definition sample_view : view := {| v_on := true; v_keys := []; v_term := (0, blank_paper); v_ticks := 0 |}.

Lemma sample_stubs_ok : stubs_ok sample_env.
Proof.
  split.
  - intros n Hn. cbn [irq_stubs code_at sample_env]. unfold sample_stubs, sample_code_at. split; [lia|].
    rewrite (proj2 (Z.ltb_ge _ _)) by lia. do 2 f_equal. rewrite Z.add_simpl_l, Z.mul_comm.
    apply Z.div_mul. lia.
  - intros e. destruct e; (split; [vm_compute; split; [discriminate | reflexivity] | vm_compute; reflexivity]).
Qed.

Lemma sample_machine_running : running sample_env sample_machine.
Proof.
  split; try reflexivity; [|split; simpl; lia]. intros v Hv. cbn [s_irqs sample_machine idt_table].
  rewrite list_lookup_fmap, lookup_seqZ_lt by lia. cbn [fmap option_fmap option_map].
  by rewrite Z2Nat.id, Z.add_0_l by lia.
Qed.

Lemma sample_formats : formats_ok sample_env running_console_state.
Proof.
  intros e. split.
  - split; [destruct e; vm_compute; repeat split | apply (bool_decide_unpack _); destruct e; vm_compute; exact I].
  - right. destruct e; vm_compute; discriminate.
Qed.

Lemma sample_console_runs : run_shows sample_env (0, blank_paper) running_console_state.
Proof.
  split; [|exact sample_formats].
  apply (k_shows_weaken 4096 100 1000 0 80); [lia|]. split.
  - exact blank_screen_shows.
  - split; [vm_compute; repeat split | repeat constructor].
  - split; [vm_compute; repeat split | repeat constructor].
  - unfold running_console_state. cbn [con_mem].
    generalize (scratch_mapped 128 [10] [37; 99]). cbn [sample_console con_mem].
    generalize (scratch 128 [10] [37; 99]). induction exceptions as [|e es IH]; intros m Hm; [exact Hm|].
    cbn [foldr]. by apply write_bytes_mapped, IH.
  - unfold apart. simpl. lia.
  - unfold apart. simpl. lia.
Qed.

Lemma interrupts_served_witness :
  exists m', run sample_env sample_events sample_machine = Ret m' /\
    w_tick (device (s_irqs m')) = 2 /\ v_on (see_all sample_events sample_view) = false /\
    s_regs m' r12 = 1 /\
    run_shows sample_env (term_run ([OutChar 65] ++
        outputs (exception_text divide_error 0 0xFFFF800000101234) ++ [OutChar 98] ++
        outputs (exception_text page_fault 2 0xFFFF800000101240)) (0, blank_paper))
      (w_console (device (s_irqs m'))).
Proof.
  destruct (interrupts_served sample_env sample_events sample_view sample_machine)
    as (m' & E & _ & [_ _ Hc Ht] & Hr & _).
  - exact sample_stubs_ok.
  - exact sample_machine_running.
  - split; try reflexivity. exact sample_console_runs.
  - vm_compute. repeat split; discriminate.
  - exists m'. split; [exact E|]. split; [exact Ht|]. split; [reflexivity|].
    split; [exact (Hr eq_refl r12) | exact Hc].
Defined.
