(* ===== verification/System.v ===== *)
(** * The whole system (main.c)

    From power-on to the keys: [start_kernel] on a machine whose console and
    keyboard are there from the beginning, the messages it prints, and the
    interrupts it serves from then on. The setting up of the devices leaves the
    variables of the handlers alone ([start_keeps]), so the state that
    [Boot.start_kernel] hands over is one that [Running.run] starts from. *)

From Stdlib Require Import String.
From S2P Require Import Prelude CString Screen Printf Console Keyboard BootMem Memory PageAlloc PageFlags SlabPages Slab PerCpu Interrupts Paging MpSpec PageWalk Descriptors LocalApic Setup Exceptions EntryStubs Boot Messages Startup Running.

(** ** What the set-up of the devices leaves alone *)

(** Something that no access to a register or a port changes. *)
Class Untouched {D X : Type} `{Device D} (f : D -> X) := {
  keeps_apic_read r d : f (snd (apic_read r d)) = f d;
  keeps_apic_write r v d : f (apic_write r v d) = f d;
  keeps_io_select r d : f (io_select r d) = f d;
  keeps_io_read d : f (snd (io_window_read d)) = f d;
  keeps_io_write v d : f (io_window_write v d) = f d;
  keeps_outb p v d : f (outb p v d) = f d
}.

#[export] Instance soft_untouched {D} `{Device D} : Untouched (soft (D := D)).
Proof.
  split; try done.
  - intros r w. cbn. by destruct (apic_read r (w_chips w)).
  - intros w. cbn. by destruct (io_window_read (w_chips w)).
Qed.

Section Untouched.
Context {P D X : Type} `{LocalApic D} `{Processor P} (f : D -> X) `{!Untouched f}.

(** A read and its value. *)
Lemma keeps_read r d v d' : apic_read r d = (v, d') -> f d' = f d.
Proof. intros E. by rewrite <- (keeps_apic_read (f := f) r d), E. Qed.

Lemma keeps_io_apic_read r d v d' : io_apic_read r d = (v, d') -> f d' = f d.
Proof.
  unfold io_apic_read. intros E. pose proof (keeps_io_read (f := f) (io_select (u32 r) d)) as Hf. rewrite E in Hf.
  by rewrite <- (keeps_io_select (f := f) (u32 r) d).
Qed.

(** Follows the accesses back to the first state. *)
Ltac back :=
  repeat first
    [ done
    | rewrite (keeps_apic_write (f := f)) | rewrite (keeps_io_write (f := f)) | rewrite (keeps_io_select (f := f)) | rewrite keeps_outb
    | match goal with
      | E : apic_read _ _ = (_, ?d) |- context [f ?d] => rewrite (keeps_read _ _ _ _ E); clear E
      | E : io_apic_read _ _ = (_, ?d) |- context [f ?d] => rewrite (keeps_io_apic_read _ _ _ _ E); clear E
      end ].

Lemma keeps_verify d v d' : verify_local_APIC d = (v, d') -> f d' = f d.
Proof.
  unfold verify_local_APIC. intros E. repeat case_match; simplify_eq; back.
Qed.

Lemma keeps_setup d : f (setup_bsp d) = f d.
Proof. unfold setup_bsp, enable_bsp. repeat case_match; back. Qed.

Lemma keeps_bsp b ids d d' : init_bsp_APIC b ids d = Ret d' -> f d' = f d.
Proof.
  unfold init_bsp_APIC. intros E. destruct (apic_read APIC_ID d) as [id d1] eqn:E1.
  apply bind_ret_inv in E as (bad & _ & E). destruct bad; [done|].
  destruct (verify_local_APIC d1) as [ok d2] eqn:E2. destruct (ok =? 0); [done|]. injection E as <-.
  rewrite keeps_setup, (keeps_verify _ _ _ E2). back.
Qed.

Lemma keeps_io_init d d' : io_apic_init d = Ret d' -> f d' = f d.
Proof.
  unfold io_apic_init, io_apic_report. intros E. apply bind_ret_inv in E as (u & _ & E).
  repeat case_match; simplify_eq; back.
Qed.

Lemma keeps_register n h st r st' : register_irq n h st = Ret (r, st') -> f (device st') = f (device st).
Proof.
  unfold register_irq. intros E. apply bind_ret_inv in E as (hs & _ & E).
  destruct (io_apic_enable_irq n (device st)) as [r' d] eqn:Ed. simplify_eq. cbn [device].
  unfold io_apic_enable_irq in Ed. repeat case_match; simplify_eq; unfold io_apic_write; back.
Qed.

Lemma keeps_timer h st st' : init_bsp_timer h st = Ret st' -> f (device st') = f (device st).
Proof.
  unfold init_bsp_timer, program_timer. intros E.
  destruct (apic_read APIC_ID (device st)) as [v1 d1] eqn:E1.
  destruct (apic_read APIC_LVTT _) as [v2 d2] eqn:E2.
  destruct (apic_read APIC_LVTT (apic_write _ _ d2)) as [v3 d3] eqn:E3.
  assert (Hd : f d3 = f (device st)) by back.
  destruct (_ =? 0).
  - apply bind_ret_inv in E as ([r st1] & E & Er). injection Er as <-. by rewrite (keeps_register _ _ _ _ _ E).
  - by injection E as <-.
Qed.

Lemma keeps_wake d d' : wake_ap d = Ret d' -> f d' = f d.
Proof.
  unfold wake_ap. intros E. do 4 apply bind_ret_inv in E as (? & _ & E).
  repeat case_match; simplify_eq; back.
Qed.

Lemma keeps_keyboard h st r st' : keyboard_init h st = Ret (r, st') -> f (device st') = f (device st).
Proof.
  unfold keyboard_init. intros E. apply bind_ret_inv in E as ([r1 st1] & E1 & E).
  apply keeps_register in E1. by destruct (_ =? _); simplify_eq.
Qed.

Lemma start_keeps names irq_stubs (timer isr : irq_handler_t (D := D)) env (w : power_on P D) K :
  start_kernel names irq_stubs timer isr env w = Ret K -> f (device (k_irqs K)) = f (device0 w).
Proof.
  unfold start_kernel. intros E.
  apply bind_ret_inv in E as (scr & _ & E). apply bind_ret_inv in E as ([a p] & _ & E).
  apply bind_ret_inv in E as ([[mm heads] nd] & _ & E). apply bind_ret_inv in E as ([cc sl] & _ & E).
  apply bind_ret_inv in E as (d1 & E1 & E). apply bind_ret_inv in E as (d2 & E2 & E).
  apply bind_ret_inv in E as (st1 & E3 & E). apply bind_ret_inv in E as ([[[pc pages] m] p2] & _ & E).
  apply bind_ret_inv in E as (st2 & E4 & E). apply bind_ret_inv in E as (d3 & E5 & E).
  apply bind_ret_inv in E as ([r st3] & E6 & E). injection E as <-. cbn [k_irqs].
  rewrite (keeps_keyboard _ _ _ _ E6). cbn [with_device device].
  rewrite (keeps_wake _ _ E5), (keeps_timer _ _ _ E4).
  unfold irq_init in E3. apply bind_ret_inv in E3 as (hs & _ & E3). apply bind_ret_inv in E3 as (t & _ & E3).
  injection E3 as <-. cbn [device]. by rewrite (keeps_io_init _ _ E2), (keeps_bsp _ _ _ _ E1).
Qed.

End Untouched.

(** ** The program *)

Section System.
Context {P D : Type} `{LocalApic D} `{Processor P}.

(** What the handlers need, the addresses of the formats of the messages, of
    other strings and of the names of the default caches, the strings the kernel
    is linked with, and how often other processors greet in between. *)
Context (x : machine_env) (mlit : message -> Z) (t : literals) (names : list Z) (env : boot_env) (ks : list nat).

(** The kernel until it waits: it starts, prints the messages of the start, and
    [sti] sets the interrupt flag. *)
Definition system_start (r : registers) (flags : Z) (w : power_on P (world D)) : res system :=
  K ← start_kernel names (irq_stubs x) timer_handler (keyboard_handler x) env w;
  '(early, late) ← start_says t timer_handler env w (k_cache_cache K);
  c ← print_said (sz x) mlit (early ++ weave ks late) {| con_mem := k_memory K; con_screen := k_cleared K |};
  Ret {| s_irqs := with_device (with_console c (device (k_irqs K))) (k_irqs K); s_regs := r;
         s_flags := Z.setbit flags 9 |}.

(** The kernel from power-on through a sequence of events. *)
Definition system_run r flags es (w : power_on P (world D)) : res system :=
  m ← system_start r flags w; run x es m.

(** What someone in front of the machine sees when the start is over. *)
Definition start_view (l : list said) : view :=
  {| v_on := true; v_keys := [];
     v_term := term_run (outputs (concat (text_of <$> (said_call <$> l)))) (0, blank_paper); v_ticks := 0 |}.

(** ** The strings of the image *)

(** What the kernel writes before it waits, of the memory strings are in: the
    page of the per-processor data, the vendor's name and the name of a bus. *)
Definition areas : list (Z * Z) :=
  [(page_to_virt 3, 4096); (vendor_at t, 16); ((mp_literals env).1.1.1, 7)].

Definition placed (mem : bmem) (p : Z) (s : list Z) : Prop :=
  kept (sz x) mem p s /\ Forall (fun a => apart a.1 (a.1 + a.2) p s) areas.

Record image_ok (mem : bmem) : Prop := {
  im_nl : placed mem (fnl x) [10];
  im_pc : placed mem (fpc x) [37; 99];
  im_formats : forall e, placed mem (lit x e) (exception_format e);
  im_messages : forall m, m ∈ kernel_messages -> m_kept m = true -> placed mem (mlit m) (m_format m);
  im_buffer : mapped mem (sz x) 128;
  im_areas : Forall (fun a => a.1 + a.2 <= sz x \/ sz x + 128 <= a.1) areas
}.

(** Memory that differs in page 3 only. *)
Definition same_image (mem mem' : bmem) : Prop :=
  forall a, ~ (page_to_virt 3 <= a < page_to_virt 3 + 4096) -> mem' !! a = mem !! a.

Lemma same_kept mem mem' p s : same_image mem mem' -> placed mem p s -> kept (sz x) mem' p s.
Proof.
  intros Hs [[[Hb Hc] Ha] Ho]. split; [|done]. split; [|done].
  eapply bytes_at_frame; [done|]. intros a Hin. apply Hs. apply Forall_cons in Ho as [Ho _]. unfold apart in Ho.
  cbn [fst snd] in Ho. rewrite length_app in Hin. simpl in Hin. lia.
Qed.

(** The console the kernel starts printing on. *)
Lemma console_ready mem K :
  image_ok mem -> same_image mem (k_memory (P := P) (D := world D) K) -> shows 0 (0, blank_paper) (k_cleared K) ->
  talking (sz x) (fnl x) (fpc x) (placed mem) (0, blank_paper) {| con_mem := k_memory K; con_screen := k_cleared K |}.
Proof.
  intros [I1 I2 I3 I4 I5 I6] Hs Hscr.
  destruct (same_kept _ _ _ _ Hs I1) as [N1 N2]. destruct (same_kept _ _ _ _ Hs I2) as [C1 C2].
  split; [|intros p s Hp; exact (same_kept _ _ _ _ Hs Hp)].
  split; [done | done | done | | done | done]. intros a Ha. cbn [con_mem]. rewrite Hs; [by apply I5|].
  apply Forall_cons in I6 as [I6 _]. cbn [fst snd] in I6. lia.
Qed.

(** The messages leave a console the handlers can work on. *)
Lemma messages_ready mem K l :
  image_ok mem -> Forall (said_fits (placed mem) areas) l ->
  same_image mem (k_memory (P := P) (D := world D) K) -> shows 0 (0, blank_paper) (k_cleared K) ->
  exists c, print_said (sz x) mlit l {| con_mem := k_memory K; con_screen := k_cleared K |} = Ret c /\
    run_shows x (v_term (start_view l)) c.
Proof.
  intros Hi Hl Hs Hscr. pose proof (console_ready mem K Hi Hs Hscr) as Hc. destruct Hi as [I1 I2 I3 I4 I5 I6].
  destruct (print_said_spec (sz x) (fnl x) (fpc x) mlit (placed mem) areas) with (l := l)
    (2 := I6) (3 := I1) (4 := I2) (5 := I4) (6 := Hc) as (c & E & Hc' & Hk); [by intros p s [_ Hp] | exact Hl |].
  exists c. split; [exact E|]. split; [|intros e; by apply Hk].
  eapply k_shows_weaken; [|exact Hc']. lia.
Qed.

(** ** Handing over *)

(** What [start_kernel] leaves is what [Running] starts from. *)
Lemma handed_over (w : power_on P (world D)) st r flags c :
  irqs_ok (Setup.except_stubs env) (irq_stubs x) timer_handler (keyboard_handler x) (device0 w) st ->
  Running.except_stubs x = Setup.except_stubs env -> selectors_ok r ->
  running x {| s_irqs := with_device (with_console c (device st)) st; s_regs := r; s_flags := flags |}.
Proof.
  intros [I1 I2 I3 I4 _ I6 _] He Hr. split; cbn [s_irqs s_regs with_device irq_handler idt_table device].
  - by rewrite I1.
  - by rewrite I1.
  - intros v Hv. rewrite He. by apply I2.
  - exact I3.
  - exact I4.
  - exact I6.
  - exact Hr.
Qed.

End System.

(** ** Properties *)

(** What the handlers need: the entry points are addresses of the stubs, the
    strings are in memory, the variables of the handlers are zero, and the chip
    has delivered a command by the time it is asked. *)
Record host_ok {P D} `{LocalApic D} (x : machine_env) (mlit : message -> Z) (t : literals)
    (env : boot_env) (r : registers) (w : power_on P (world D)) : Prop := {
  sy_chip : forall (c : D) v, Z.testbit (apic_reg APIC_ICR (apic_write APIC_ICR v c)) 12 = false;
  sy_stubs : stubs_ok x;
  sy_gates : Running.except_stubs x = Setup.except_stubs env;
  sy_image : image_ok x mlit t env (memory env);
  sy_registers : selectors_ok r;
  sy_keyboard : status (w_kbd (device0 w)) = 0;
  sy_ticks : w_tick (device0 w) = 0
}.

(** A machine the kernel can start and run on: it is [bootable], what the start
    prints fits its messages, and the handlers have what they need. *)
Record startable {P D} `{LocalApic D} (x : machine_env) (mlit : message -> Z) (t : literals) (names : list Z)
    (env : boot_env) (r : registers) (w : power_on P (world D)) : Prop := {
  sy_boot : exists mp' section start m s e k z0 mps, bootable env w names mp' section start m s e k z0 /\
    prints_ok (placed x t env (memory env)) (areas t env) t env w start mps;
  sy_host : host_ok x mlit t env r w
}.

Lemma system_spec {P D} `{LocalApic D} `{Processor P} x mlit t names env r flags (w : power_on P (world D)) :
  startable x mlit t names env r w ->
  exists early late, start_says t timer_handler env w (page_to_virt 1) = Ret (early, late) /\
    forall ks es, let v := start_view (early ++ weave ks late) in all_possible es v ->
      exists m, system_run x mlit t names env ks r flags es w = Ret m /\ running x m /\ served x (see_all es v) m.
Proof.
  intros [(mp' & section & start & ms & s & e & k & z0 & mps & Hb & Hp) [Hchip Hst Hg Hi Hr Hk Ht]].
  destruct (start_kernel_spec names (irq_stubs x) timer_handler (keyboard_handler x) env w mp' section start ms s
    e k z0 Hb) as (d & K & E & Hready).
  assert (Hd : forall d : world D, Z.testbit (apic_reg APIC_ICR (apic_write APIC_ICR 0xC4609 d)) 12 = false)
    by (intros d'; exact (Hchip (w_chips d') _)).
  rewrite Hd in E. pose proof (start_keeps soft _ _ _ _ _ _ _ E) as Hsoft.
  pose proof (f_equal (fun p => p.1.1) Hsoft) as Hkbd. pose proof (f_equal (fun p => p.2) Hsoft) as Htick.
  cbn [soft fst snd] in Hkbd, Htick. clear Hsoft.
  destruct (start_says_spec (placed x t env (memory env)) (areas t env) t timer_handler env w names mp' section start
    ms s e k z0 mps Hb Hp Hd) as (early & late & Es & Fe & Fl).
  exists early, late. split; [exact Es|]. intros ks es v Hes.
  destruct (messages_ready x mlit t env (memory env) K (early ++ weave ks late) Hi) as (c & Ec & Hc).
  { apply Forall_app. split; [exact Fe | by apply weave_fits]. }
  { exact (kr_memory _ _ _ _ _ _ _ _ _ _ _ Hready). }
  { exact (kr_screen _ _ _ _ _ _ _ _ _ _ _ Hready). }
  destruct (run_served x es v {| s_irqs := with_device (with_console c (device (k_irqs K))) (k_irqs K);
    s_regs := r; s_flags := Z.setbit flags 9 |} Hst) as (m & Em & Hrun & Hserved & _).
  - exact (handed_over x env w _ _ _ _ (kr_irqs _ _ _ _ _ _ _ _ _ _ _ Hready) Hg Hr).
  - split; cbn [s_irqs s_flags with_device device with_console w_kbd w_console w_tick v start_view v_on v_keys
                v_term v_ticks].
    + by rewrite Z.setbit_eq by lia.
    + by rewrite Hkbd, Hk.
    + exact Hc.
    + by rewrite Htick, Ht.
  - exact Hes.
  - assert (Ess : system_start x mlit t names env ks r flags w = Ret {|
      s_irqs := with_device (with_console c (device (k_irqs K))) (k_irqs K); s_regs := r;
      s_flags := Z.setbit flags 9 |}).
    { unfold system_start. step E. rewrite (kr_caches _ _ _ _ _ _ _ _ _ _ _ Hready). step Es. step Ec. reflexivity. }
    exists m. unfold system_run. step Ess. exact (conj Em (conj Hrun Hserved)).
Qed.

(** C2: from power-on to the keys. On a machine the kernel can start on, it
    gets through its start and prints its messages with the values
    [start_says] computes, with the greetings of other processors anywhere
    after they were started, on the screen it has cleared; it enables
    interrupts, and then serves whatever sequence of keys, ticks of
    the timer, exceptions and passes of other processors comes: below its first
    line the screen shows the texts of the messages, followed by what the keys
    type and the exceptions report, the modifiers are those of the keys taken
    and the timer has counted its ticks. *)
Theorem system_runs {P D} `{LocalApic D} `{Processor P} x mlit t names env r flags (w : power_on P (world D)) :
  startable x mlit t names env r w ->
  exists early late, start_says t timer_handler env w (page_to_virt 1) = Ret (early, late) /\
    forall ks es, let v := start_view (early ++ weave ks late) in all_possible es v ->
      exists m, system_run x mlit t names env ks r flags es w = Ret m /\ running x m /\ served x (see_all es v) m.
Proof. apply system_spec. Qed.

(** ** A machine *)

(** The machine of [Boot], the strings at low addresses, the tables of the boot
    loader and the events of [Running]. *)
Definition system_lit (m : message) : Z :=
  100000 + 200 * match list_find (eq m) kernel_messages with Some (i, _) => Z.of_nat i | None => 1000 end.

Definition system_literals : literals := {| vendor_at := 9000; bootup_at := 9100; empty_at := 9200 |}.

Definition kept_messages : list message := List.filter m_kept kernel_messages.

Definition system_strings : list (Z * list Z) :=
  [(100, [10]); (1000, [37; 99]); (4096, replicate 128 0); (9100, BOOTUP); (9200, [])] ++
  ((fun e => (sample_lit e, exception_format e)) <$> exceptions) ++
  ((fun m => (system_lit m, m_format m)) <$> kept_messages).

(** The first entries of the tables of setup.asm. *)
Definition boot_words : list (Z * Z) :=
  [(0xFFFF800000090000, 0x91007); (0xFFFF800000091000, 0x92007); (0xFFFF800000092000, 0x93007);
   (0xFFFF800000093000, 7)].

Definition system_memory : bmem :=
  foldr (fun p m => write_bytes p.1 (bytes_le 8 p.2) m)
    (foldr (fun p m => write_bytes p.1 (p.2 ++ [0]) m) small_memory system_strings) boot_words.

Definition system_env : machine_env :=
  {| sz := 4096; fnl := 100; fpc := 1000; lit := sample_lit; irq_stubs := sample_stubs;
     except_stubs := sample_entries_at 0xFFFF800000101000;
     code_at := fun a => sample_code_at (if a <? 0xFFFF800000102000 then a - 0x1000 else a);
     clobber := fun _ _ => 0; pc := 0xFFFF800000103000; cs := 0x18; sp := 0xFFFF800000200000; ss := 0x20 |}.

Definition system_power_on : power_on PageWalk.cpu (world chip) :=
  {| screen0 := garbage_screen; mm0 := blank_mm; cpu0 := blank_cpuinfo; mp0 := boot_tables;
     node0 := empty_node; percpu0 := {| cpu_offset := replicate 5 0; percpu_buf := 0 |};
     handlers0 := replicate 32 None; processor0 := sample_cpu 0xA0;
     device0 := {| w_chips := sample_chip; w_port := 0; w_kbd := {| status := 0; code := 0; prefix := 0 |};
                   w_console := sample_console; w_tick := 0 |} |}.

Lemma system_stubs_ok : stubs_ok system_env.
Proof.
  split.
  - intros n Hn. cbn [irq_stubs code_at system_env]. rewrite (proj2 (Z.ltb_ge _ _)) by (unfold sample_stubs; lia).
    exact (proj1 sample_stubs_ok n Hn).
  - intros e. destruct e; (split; [vm_compute; split; [discriminate | reflexivity] | vm_compute; reflexivity]).
Qed.

Lemma system_mp_read : exists mp',
  read_mp (small_env system_memory) boot_tables = Ret mp' /\
  boot_cpu_id (cpus mp') = 0 /\ x86_cpu_to_apicid (cpus mp') !! 0%nat = Some 0.
Proof.
  exists small_mp. split; [vm_compute; reflexivity|]. exact (proj2 small_mp_read).
Qed.

Lemma system_page_mapped : mapped system_memory (page_to_virt 3) 4096.
Proof.
  unfold system_memory. induction boot_words as [|p l IH]; cbn [foldr]; [|by apply write_bytes_mapped].
  induction system_strings as [|p l IH]; [exact small_page_mapped|]. cbn [foldr]. by apply write_bytes_mapped.
Qed.

Lemma system_bootable : exists mp' z0,
  bootable (small_env system_memory) system_power_on small_names mp' percpu_section (frame 0x150) 128 0x200 8 5 z0.
Proof.
  destruct system_mp_read as (mp' & Hmp). exists mp', garbage_zone.
  split; [exact (small_env_ok system_memory)|]. split.
  - exact (proj1 Hmp).
  - exact (proj2 Hmp).
  - split; [reflexivity | reflexivity | reflexivity | vm_compute; discriminate].
  - repeat (apply Forall2_cons_2; [split; [done|]; split; [by vm_compute | repeat constructor; lia]|]).
    apply Forall2_nil_2.
  - split; reflexivity.
  - split; [reflexivity | split; reflexivity].
  - split; reflexivity.
  - split; [vm_compute; repeat split|]. split; [split; apply Nat.leb_le; reflexivity|].
    split; [vm_compute; discriminate | reflexivity].
  - split; [exact system_page_mapped | right; vm_compute; discriminate].
Qed.

(** [placed], decided. *)
Fixpoint bytes_here (m : bmem) (a : Z) (bs : list Z) : bool :=
  match bs with [] => true | b :: bs => bool_decide (m !! a = Some b) && bytes_here m (a + 1) bs end.

Definition apart_here (lo hi p : Z) (s : list Z) : bool := (p + Z.of_nat (length s) <? lo) || (hi <=? p).

Definition placed_here (x : machine_env) (t : literals) (env : boot_env) (mem : bmem) (p : Z) (s : list Z) : bool :=
  bytes_here mem p (s ++ [0]) && forallb (fun c => (0 <? c) && (c <? 256)) s && apart_here (sz x) (sz x + 128) p s &&
  forallb (fun a => apart_here a.1 (a.1 + a.2) p s) (areas t env).

Lemma bytes_here_at m bs : forall a, bytes_here m a bs = true -> bytes_at m a bs.
Proof.
  induction bs as [|b bs IH]; intros a Hb; [exact I|]. cbn [bytes_here] in Hb. apply andb_true_iff in Hb as [Hb Hbs].
  split; [by apply bool_decide_eq_true_1 in Hb | by apply IH].
Qed.

Lemma apart_here_apart lo hi p s : apart_here lo hi p s = true -> apart lo hi p s.
Proof. unfold apart_here, apart. intros [H%Z.ltb_lt|H%Z.leb_le]%orb_true_iff; lia. Qed.

Lemma placed_here_placed x t env mem p s : placed_here x t env mem p s = true -> placed x t env mem p s.
Proof.
  unfold placed_here. intros [[[Hb Hc]%andb_true_iff Ha]%andb_true_iff Hw]%andb_true_iff. split.
  - split; [split; [by apply bytes_here_at|] | by apply apart_here_apart].
    apply Forall_forall. intros c Hin. rewrite forallb_forall in Hc. apply list_elem_of_In, Hc in Hin.
    apply andb_true_iff in Hin as [H1%Z.ltb_lt H2%Z.ltb_lt]. lia.
  - apply Forall_forall. intros a Hin. rewrite forallb_forall in Hw. apply list_elem_of_In, Hw in Hin.
    by apply apart_here_apart.
Qed.

Ltac here := apply placed_here_placed; vm_compute; reflexivity.

Lemma system_image_ok : image_ok system_env system_lit system_literals (small_env system_memory) system_memory.
Proof.
  split.
  - here.
  - here.
  - intros e. destruct e; here.
  - intros m Hm Hk. apply placed_here_placed.
    assert (Hall : forallb (fun m => placed_here system_env system_literals (small_env system_memory) system_memory
      (system_lit m) (m_format m)) kept_messages = true) by (vm_compute; reflexivity).
    rewrite forallb_forall in Hall. apply Hall, filter_In. split; [by apply list_elem_of_In | done].
  - intros a Ha. cbn [sz system_env] in Ha.
    destruct (bytes_at_mapped system_memory 4096 (replicate 128 0)) with (x := a) as [v Hv];
      [apply bytes_here_at; vm_compute; reflexivity | rewrite length_replicate; lia | by exists v].
  - apply (bool_decide_unpack _). vm_compute. exact I.
Qed.

(** What the table of the firmware makes the kernel say. *)
Definition system_processors_at (t : literals) : list said :=
  say mp_spec_messages 457 [VNum 4] ++
  say mp_spec_messages 139 [VNum 0; VStr (bootup_at t) BOOTUP] ++ say mp_spec_messages 170 [u64_arg 0; VNum 0] ++
  say mp_spec_messages 139 [VNum 1; VStr (empty_at t) []] ++ say mp_spec_messages 170 [u64_arg 1; VNum 1] ++
  say mp_spec_messages 225 [VNum 2; VNum 0xFEC00000].

Definition system_processors : list said := system_processors_at system_literals.

Lemma processors_fit (ok : Z -> list Z -> Prop) written t :
  ok (bootup_at t) BOOTUP -> ok (empty_at t) [] -> Forall (said_fits ok written) (system_processors_at t).
Proof.
  intros Hb He. unfold system_processors_at. rewrite !Forall_app. split_and!;
    (eapply say_fits; [vm_compute; reflexivity | | constructor |]);
    repeat (first [apply Forall_nil_2 | apply Forall2_nil_2 | apply Forall_cons_2 | apply Forall2_cons_2]);
    first [exact I | by left | by apply u64_ok | split; [simpl; lia | by repeat constructor] | by apply num_ok].
Qed.

Lemma system_prints : prints_ok (placed system_env system_literals (small_env system_memory) system_memory)
  (areas system_literals (small_env system_memory)) system_literals (small_env system_memory) system_power_on
  (frame 0x150) system_processors.
Proof.
  assert (Hb : placed system_env system_literals (small_env system_memory) system_memory 9100 BOOTUP) by here.
  assert (He : placed system_env system_literals (small_env system_memory) system_memory 9200 []) by here.
  split.
  - repeat split; (eexists; split; [vm_compute; reflexivity | lia]).
  - split; [apply Forall_replicate; lia | reflexivity | vm_compute; repeat (constructor; [discriminate|]); constructor].
  - right. left.
  - vm_compute. reflexivity.
  - by apply processors_fit.
  - split; [vm_compute; discriminate|]. eexists. split; [vm_compute; reflexivity | lia].
Qed.

Lemma sample_delivers (c : chip) v : Z.testbit (apic_reg APIC_ICR (apic_write APIC_ICR v c)) 12 = false.
Proof.
  change (apic_reg APIC_ICR (apic_write APIC_ICR v c)) with (chip_reg APIC_ICR (chip_write APIC_ICR v c)).
  unfold chip_write. rewrite !decide_False by (try intros [? | ?]; discriminate).
  rewrite decide_True by reflexivity. unfold chip_reg. cbn [c_regs].
  rewrite !decide_False by discriminate. rewrite lookup_insert_eq. apply Z.clearbit_eq.
Qed.

(** *** What appears *)

Definition system_says : list said * list said :=
  match start_says system_literals timer_handler (small_env system_memory) system_power_on (page_to_virt 1) with
  | Ret l => l
  | _ => ([], [])
  end.

Lemma system_says_eq :
  start_says system_literals timer_handler (small_env system_memory) system_power_on (page_to_virt 1) = Ret system_says.
Proof. vm_compute. reflexivity. Qed.

Definition boot_text (section : string) : list Z := concat (flip app [10] <$> (bytes_of <$> [
  "Hello! I am BSP!!";
  "Hello, CaOS. Test printf <0,1,4294967293,-4,4294967291,6,0xA>";
  "size int=4, long=8, long long=8";
  "PML4[0]=91007, PDP[0]=92007";
  " PDE[0]=93007, PTE[0]=7";
  "CPU VENDOR=GenuineIntel";
  "bootmem page 200~7FF";
  "GDT table at FFFF800000200000";
  "TSS address=FFFF800000201000";
  "IDT table at FFFF800000202000";
  "pgd=0xFFFF800000203000/pud=0xFFFF800000204000 ";
  "pmd=0xFFFF800000205000/pte=0xFFFF800000206000";
  "pmd_reserv=0xFFFF800000246000/pte_reserv=0xFFFF800000247000";
  "Intel Multiprocessor Specification v1.4";
  "Processor #0 (Bootup-CPU) is found";
  "cpu=0 apicid=0";
  "Processor #1 is found";
  "cpu=1 apicid=1";
  "I/O APIC #2 at 0xFEC00000";
  "mem_map -> FFFF800000251000 ~ FFFF800000491FFF ";
  "cache_cache created at <FFFF800000001000>";
  "enabled";
  "IO APIC ID=0";
  "IO APIC VER=1 IO APIC Entry=23";
  "preempt-count=> 0";
  section;
  "TEST PER-CPU SECTION: 5 == 5?";
  "Init local timer of CPU #0 ..success";
  "";
  "### MAKE PROCESS MANAGEMENT!! ###";
  "Hello!! I am AP!! I am running??";
  "Initialize keyboard..OK"]%string)).

Definition system_section : string := "per-cpu section: FFFF800000150000 ~ FFFF800000150028 (40-bytes)".

(** One greeting, before the keyboard. *)
Lemma boot_text_eq :
  concat (text_of <$> (said_call <$> (system_says.1 ++ weave [0; 1]%nat system_says.2))) = boot_text system_section.
Proof. vm_compute. reflexivity. Qed.

(** Shift and a type A; b comes after a division by zero, and nothing after the
    page fault. *)
Definition events_text : list Z :=
  [65] ++ exception_text divide_error 0 0xFFFF800000101234 ++ [98] ++ exception_text page_fault 2 0xFFFF800000101240.

Fixpoint all_printed (es : list event) (v : view) : list output :=
  match es with [] => [] | e :: es => printed e v ++ all_printed es (see e v) end.

(** What events print depends on the modifiers and the interrupts alone. *)
Lemma see_all_term es : forall v w, v_on v = v_on w -> v_keys v = v_keys w ->
  v_term (see_all es v) = term_run (all_printed es w) (v_term v).
Proof.
  induction es as [|e es IH]; intros v w Hon Hk; [done|]. cbn [see_all all_printed].
  assert (Hp : printed e v = printed e w) by (unfold printed; rewrite Hon, Hk; reflexivity).
  rewrite (IH (see e v) (see e w)), term_run_app by (unfold see; cbn; rewrite ?Hon, ?Hk; reflexivity).
  cbn [see v_term]. by rewrite Hp.
Qed.

Lemma events_term t0 : v_term (see_all sample_events {| v_on := true; v_keys := []; v_term := t0; v_ticks := 0 |})
  = term_run (outputs events_text) t0.
Proof.
  rewrite (see_all_term _ _ {| v_on := true; v_keys := []; v_term := (0, blank_paper); v_ticks := 0 |}) by reflexivity.
  cbn [v_term]. f_equal.
Qed.

Lemma system_startable : startable system_env system_lit system_literals small_names (small_env system_memory)
  sample_registers system_power_on.
Proof.
  split.
  - destruct system_bootable as (mp' & z0 & Hb). do 8 eexists. exists system_processors.
    split; [exact Hb | exact system_prints].
  - split; [exact sample_delivers | | | | | |].
    + exact system_stubs_ok.
    + reflexivity.
    + exact system_image_ok.
    + split; simpl; lia.
    + reflexivity.
    + reflexivity.
Qed.

(** [all_possible], decided. *)
Definition possible_here (e : event) (v : view) : bool :=
  match e with
  | Key s => (0 <=? s) && (s <? 256) && term_ok (printed e v) (v_term v)
  | Raise x code rip => negb (s64 (reported x code rip).2 =? - 2 ^ 63)
  | _ => true
  end.

Fixpoint all_possible_here (es : list event) (v : view) : bool :=
  match es with [] => true | e :: es => possible_here e v && all_possible_here es (see e v) end.

Lemma all_possible_here_possible es : forall v, all_possible_here es v = true -> all_possible es v.
Proof.
  induction es as [|e es IH]; intros v Hb; [exact I|]. cbn [all_possible_here] in Hb.
  apply andb_true_iff in Hb as [He Hes]. split; [|by apply IH]. destruct e; try exact I; cbn [possible_here] in He.
  - apply andb_true_iff in He as [[H1%Z.leb_le H2%Z.ltb_lt]%andb_true_iff Ht]. by split.
  - apply negb_true_iff, Z.eqb_neq in He. exact He.
Qed.

Lemma system_possible l : system_says = l -> all_possible sample_events (start_view (l.1 ++ weave [0; 1]%nat l.2)).
Proof. intros <-. apply all_possible_here_possible. vm_compute. reflexivity. Qed.

(** The terminal after the events, from the text of the start. *)
Lemma text_seen l T : concat (text_of <$> (said_call <$> l)) = T ->
  v_term (see_all sample_events (start_view l)) = term_run (outputs (T ++ events_text)) (0, blank_paper).
Proof.
  intros HT. unfold start_view. rewrite HT, events_term. unfold outputs. by rewrite fmap_app, term_run_app.
Qed.

Lemma system_text l : system_says = l ->
  v_term (see_all sample_events (start_view (l.1 ++ weave [0; 1]%nat l.2)))
  = term_run (outputs (boot_text system_section ++ events_text)) (0, blank_paper).
Proof. intros <-. apply text_seen, boot_text_eq. Qed.

Lemma system_runs_witness :
  exists m, system_run system_env system_lit system_literals small_names (small_env system_memory) [0; 1]%nat
      sample_registers 2 sample_events system_power_on = Ret m /\
    w_tick (device (s_irqs m)) = 2 /\
    run_shows system_env (term_run (outputs (boot_text system_section ++ events_text)) (0, blank_paper)) (w_console (device (s_irqs m))).
Proof.
  destruct (system_runs system_env system_lit system_literals small_names (small_env system_memory) sample_registers 2
    system_power_on system_startable) as (early & late & Es & Hrun).
  pose proof (ret_inj _ _ (eq_trans (eq_sym system_says_eq) Es)) as El.
  destruct (Hrun [0; 1]%nat sample_events (system_possible (early, late) El)) as (m & E & _ & [_ _ Hc Ht]).
  exists m. split; [exact E|]. split; [exact Ht|].
  exact (eq_ind _ (fun t => run_shows system_env t _) Hc _ (system_text (early, late) El)).
Defined.
