(* ===== verification/PowerOn.v ===== *)
(** * From the diskette to the keys

    The boot loader and the kernel together: the memory the loader leaves, as a
    function of the diskette and of the memory it found ([loaded_ram]), is the
    memory the kernel starts on ([kernel_env]), so what [System] shows of the
    kernel holds from the jump of the BIOS to the boot sector on
    ([power_on_run]). *)

From Stdlib Require Import String.
From S2P Require Import Prelude CString Screen Printf Console BootMem Memory Interrupts Paging MpSpec PageWalk Descriptors LocalApic PerCpu Slab SlabSpec Setup Boot Exceptions Messages Ram A20 BootLoader Startup EntryStubs Running System.

(** ** Memory *)

(** The bytes of some areas of physical memory (address and size), where the
    kernel sees them: above [PAGE_OFFSET], as the tables of the loader map them
    ([in_long_mode]). *)
Fixpoint bytes_from (n : nat) (a : Z) (r : ram) : list Z :=
  match n with O => [] | S n => r a :: bytes_from n (a + 1) r end.

Definition memory_of (ws : list (Z * Z)) (r : ram) : bmem :=
  foldr (fun w mem => write_bytes (PAGE_OFFSET + w.1) (bytes_from (Z.to_nat w.2) w.1 r) mem) ∅ ws.

Fixpoint store_words (a : Z) (vs : list Z) (r : ram) : ram :=
  match vs with [] => r | v :: vs => store_words (a + 8) vs (store 8 a v r) end.

Definition cleared_ram (k : link) (image : Z -> Z) (r : ram) : ram := fun x =>
  if (0x100000 <=? x) && (x <? 8 * 2 ^ 20) then
    if x <? 0x100000 + 512 * KSIZE k then image (x - 0x100000) else 0
  else if (0x9FC00 <=? x) && (x <? 0xA0000) then 0
  else r x.

(** What the loader makes of memory, as far as the kernel reads it: the
    parameters, the descriptors, the first entries of the tables, the image and
    the clear memory up to 8 MB, and the clear kilobyte of the extended BIOS data
    area. *)
Definition loaded_ram (k : link) (image : Z -> Z) (r : ram) : ram :=
  store_words BOOTING_PARAMS_ADDR (boot_params k) (store_words GDT_ADDR gdt
  (store 8 PML4_addr 0x91007 (store 8 PDP_addr 0x92007 (store 8 PDE_addr 0x93007 (store 8 PTE_addr 7
  (cleared_ram k image r)))))).

(** Where that is known: the stack of the loader at [y] is left out. *)
Definition regions (y : Z) : list (Z * Z) :=
  [(0, 0x8000); (0x8028, 0x9000); (PML4_addr, PML4_addr + 8); (PDP_addr, PDP_addr + 8); (PDE_addr, PDE_addr + 8);
   (PTE_addr, PTE_addr + 8); (0x9FC00, 0xA0000); (0xD0000, y - 168); (y, 8 * 2 ^ 20)].

Definition window_ok (y : Z) (w : Z * Z) : bool :=
  existsb (fun g => (g.1 <=? w.1) && (w.1 + w.2 <=? g.2)) (regions y).

(** *** Lemmas *)

Lemma bytes_from_ext r r' n : forall a, (forall x, a <= x < a + Z.of_nat n -> r x = r' x) -> bytes_from n a r = bytes_from n a r'.
Proof.
  induction n as [|n IH]; intros a Hx; [done|]. cbn [bytes_from]. f_equal; [apply Hx; lia|].
  apply IH. intros x Hr. apply Hx. lia.
Qed.

Lemma memory_of_ext ws r r' :
  Forall (fun w => forall x, w.1 <= x < w.1 + w.2 -> r x = r' x) ws -> memory_of ws r = memory_of ws r'.
Proof.
  induction 1 as [|w ws Hw _ IH]; [done|]. cbn [memory_of foldr]. unfold memory_of in IH. rewrite IH. f_equal.
  apply bytes_from_ext. intros x Hx. apply Hw. lia.
Qed.

Lemma store_words_out x vs : forall a r, ~ (a <= x < a + 8 * Z.of_nat (length vs)) -> store_words a vs r x = r x.
Proof.
  induction vs as [|v vs IH]; intros a r Hx; [done|]. cbn [store_words]. cbn [length] in Hx.
  rewrite IH by lia. apply store_out. lia.
Qed.

Lemma load_words vs : forall i v a r, vs !! i = Some v -> load 8 (a + 8 * Z.of_nat i) (store_words a vs r) = u64 v.
Proof.
  induction vs as [|v0 vs IH]; intros i v a r Hi; [done|]. cbn [store_words]. destruct i as [|i].
  - injection Hi as ->. rewrite Z.add_0_r. rewrite (load_ext 8 a (store 8 a v r)), load_store; [done|].
    intros x Hx. apply store_words_out. lia.
  - replace (a + 8 * Z.of_nat (S i)) with (a + 8 + 8 * Z.of_nat i) by lia. by apply IH.
Qed.

Lemma load_words_out n b vs a r : b + Z.of_nat n <= a \/ a + 8 * Z.of_nat (length vs) <= b ->
  load n b (store_words a vs r) = load n b r.
Proof. intros Hd. apply load_ext. intros x Hx. apply store_words_out. lia. Qed.

(** ** The program *)

Section PowerOn.
Context {H P D : Type} `{LocalApic D} `{Processor P}.

(** The diskette, the return addresses of the boot sector, the link and the
    ways to the A20 line; then what [System] needs: the areas of memory the
    kernel reads, and in [env0] the processor's identification and the objects
    that have models of their own. *)
Context (disk : Z -> Z -> Z -> option (list Z)) (ra_setup ra_kernel ra_one : Z) (k : link).
Context (m : chipset H) (ra_a20 : Z) (ra : Z -> Z) (eax0 ecx0 eflags : Z).
Context (x : machine_env) (mlit : message -> Z) (t : literals) (names : list Z) (ws : list (Z * Z)) (env0 : boot_env).

(** What the kernel finds in memory [r]. *)
Definition kernel_env (r : ram) : boot_env :=
  {| BOOT_PARAMS := (fun i => load 8 (BOOTING_PARAMS_ADDR + 8 * i) r) <$> seqZ 0 14;
     cpuid := cpuid env0;
     Setup.KERNEL_STACK_START := STACK_START k;
     boot_descriptors := (fun j => load 8 (GDT_ADDR + 8 * j) r) <$> seqZ 0 512;
     gdt_page := gdt_page env0;
     Setup.except_stubs := Setup.except_stubs env0;
     table_memory := table_memory env0;
     memory := memory_of ws r;
     mp_literals := mp_literals env0;
     map_area := map_area env0;
     map_heads := map_heads env0 |}.

(** The boot sector, setup.asm, and the kernel it enters: [start_kernel] is the
    first function of the image, its argument is in RDI, and with any other argument it
    never returns ([Boot.ap_loop]). *)
Definition power_on_run (ks : list nat) (r : registers) (es : list event) (p : boot_cpu) (h : H)
    (w : power_on P (world D)) : res system :=
  '(p, st, h) ← boot_loader disk ra_setup ra_kernel ra_one k m ra_a20 ra eax0 ecx0 eflags p h;
  if negb (rip st =? _code_start k) then Fault
  else if negb (BootLoader.rdi st =? 0) then Halted
  else system_run x mlit t names (kernel_env (p_ram p)) ks r (rflags st) es w.

Lemma kernel_env_ext r r' :
  (forall i, 0 <= i < 14 -> load 8 (BOOTING_PARAMS_ADDR + 8 * i) r = load 8 (BOOTING_PARAMS_ADDR + 8 * i) r') ->
  (forall j, 0 <= j < 512 -> load 8 (GDT_ADDR + 8 * j) r = load 8 (GDT_ADDR + 8 * j) r') ->
  Forall (fun w => forall a, w.1 <= a < w.1 + w.2 -> r a = r' a) ws -> kernel_env r = kernel_env r'.
Proof.
  intros Hp Hd Hm. unfold kernel_env. rewrite (memory_of_ext ws r r' Hm). f_equal; apply list_fmap_ext;
    intros i v Hv; apply lookup_seqZ in Hv as [-> Hi]; [apply Hp | apply Hd]; lia.
Qed.

End PowerOn.

(** ** What the loader leaves *)

Section Loaded.
Context (k : link) (y : Z) (image : Z -> Z) (r0 r : ram).
Hypothesis (Hplace : kernel_in_place k y image r).
Hypothesis (Hlow : forall a, untouched a -> r a = r0 a).
Hypothesis (Hebda : forall a, 0x9FC00 <= a < 0xA0000 -> r a = 0).
Hypothesis (Hroom : 0x100000 + 512 * KSIZE k <= y - 168 /\ y <= 8 * 2 ^ 20 /\ 0 < KSIZE k).

(** An entry of the tables, byte by byte. *)
Lemma table_bytes a v b r' : load 8 a r = v -> PML4_addr <= a -> a + 8 <= 0x97000 -> a <= b < a + 8 ->
  r b = store 8 a v r' b.
Proof.
  intros Hl H1 H2 Hb. rewrite store_in by lia. rewrite <- Hl, word_byte; [f_equal; lia | | lia].
  intros c Hc. apply (tb_bytes _ (kp_tables _ _ _ _ Hplace)). lia.
Qed.

Lemma cleared_region b : untouched b \/ 0x9FC00 <= b < 0xA0000 \/ (0x100000 <= b < 8 * 2 ^ 20 /\ ~ (y - 168 <= b < y)) ->
  r b = cleared_ram k image r0 b.
Proof.
  unfold cleared_ram. destruct Hplace as [_ Pi Pz _]. intros Hb.
  destruct (Z.leb_spec 0x100000 b), (Z.ltb_spec b (8 * 2 ^ 20)); cbn [andb];
    [| unfold untouched in Hb; lia | | unfold untouched in Hb; lia].
  - destruct (Z.ltb_spec b (0x100000 + 512 * KSIZE k)).
    + replace b with (0x100000 + (b - 0x100000)) at 1 by lia. apply Pi. lia.
    + apply Pz; unfold untouched in Hb; lia.
  - destruct Hb as [Hb | [Hb | Hb]]; [| | lia].
    + rewrite Hlow by done. unfold untouched in Hb.
      destruct (Z.leb_spec 0x9FC00 b), (Z.ltb_spec b 0xA0000); (done || lia).
    + rewrite Hebda by done. destruct (Z.leb_spec 0x9FC00 b), (Z.ltb_spec b 0xA0000); (done || lia).
Qed.

Lemma loaded_region g b : g ∈ regions y -> g.1 <= b < g.2 -> r b = loaded_ram k image r0 b.
Proof.
  intros Hg Hb. unfold loaded_ram, boot_params, gdt, BOOTING_PARAMS_ADDR, GDT_ADDR.
  pose proof (kp_tables _ _ _ _ Hplace) as [T1 _ T3 T4 T5 _]. specialize (T4 0 ltac:(lia)). specialize (T5 0 ltac:(lia)).
  pose proof cleared_region as Hc. pose proof table_bytes as Ht.
  unfold regions, untouched, PML4_addr, PDP_addr, PDE_addr, PTE_addr in *.
  repeat (apply elem_of_cons in Hg as [->|Hg]; [cbn [fst snd] in Hb |]); [..| by apply elem_of_nil in Hg].
  all: rewrite !store_words_out by (cbn [length]; lia).
  1,2,7,8,9: rewrite !store_out by lia; apply Hc; lia.
  - apply Ht; (done || lia).
  - rewrite store_out by lia. apply Ht; (done || lia).
  - rewrite 2!store_out by lia. apply Ht; (done || lia).
  - rewrite 3!store_out by lia. apply Ht; (done || lia).
Qed.

Lemma window_region w b : window_ok y w = true -> w.1 <= b < w.1 + w.2 -> r b = loaded_ram k image r0 b.
Proof.
  unfold window_ok. intros Hw Hb. apply existsb_exists in Hw as (g & Hg & Hle). apply andb_true_iff in Hle as [H1 H2].
  apply Z.leb_le in H1, H2. apply (loaded_region g); [by apply list_elem_of_In | lia].
Qed.

Lemma loaded_params i : 0 <= i < 14 ->
  load 8 (BOOTING_PARAMS_ADDR + 8 * i) r = load 8 (BOOTING_PARAMS_ADDR + 8 * i) (loaded_ram k image r0).
Proof.
  intros Hi. rewrite <- (Z2Nat.id i) by lia. destruct (lookup_lt_is_Some_2 (boot_params k) (Z.to_nat i)) as [v Hv];
    [simpl; lia|].
  rewrite (kp_params _ _ _ _ Hplace _ _ Hv). unfold loaded_ram. by rewrite (load_words _ _ _ _ _ Hv).
Qed.

Lemma loaded_descriptors j :
  (forall j d, gdt !! j = Some d -> load 8 (GDT_ADDR + 8 * Z.of_nat j) r = d) -> 0 <= j < 512 ->
  load 8 (GDT_ADDR + 8 * j) r = load 8 (GDT_ADDR + 8 * j) (loaded_ram k image r0).
Proof.
  intros Hg Hj. rewrite <- (Z2Nat.id j) by lia. unfold loaded_ram.
  rewrite load_words_out by (unfold GDT_ADDR, BOOTING_PARAMS_ADDR; simpl; lia).
  destruct (gdt !! Z.to_nat j) as [d|] eqn:Hd.
  - rewrite (Hg _ _ Hd), (load_words _ _ _ _ _ Hd).
    assert (Hc : forall d, In d gdt -> u64 d = d) by (intros e; simpl; intuition (subst; reflexivity)).
    symmetry. apply Hc. apply list_elem_of_In. by eapply list_elem_of_lookup_2.
  - apply lookup_ge_None in Hd. simpl in Hd. rewrite load_words_out by (unfold GDT_ADDR; simpl; lia).
    apply load_ext. intros a Ha. unfold GDT_ADDR, PML4_addr, PDP_addr, PDE_addr, PTE_addr in *.
    rewrite !store_out by lia. apply cleared_region. left. unfold untouched. lia.
Qed.

End Loaded.

(** ** Properties *)

(** A diskette and a machine the loader can start the kernel on, and that the
    kernel can run on: what [boot_loader_starts_kernel] asks for, a clear word
    behind the place of the descriptors, as the loader does not clear it, [s]
    pages up to the stack and enough memory for what [setup_arch] takes behind
    it, and windows on memory the loader leaves as [loaded_ram] says. *)
Record diskette_ok {H} (disk : Z -> Z -> Z -> option (list Z)) (sector : Z -> list Z) (ra_setup ra_kernel ra_one : Z)
    (k : link) (m : chipset H) (ra_a20 : Z) (ra : Z -> Z) (s : Z) (ws : list (Z * Z)) (p : boot_cpu) : Prop := {
  do_disk : diskette disk sector;
  do_addresses : 0 <= ra_setup < 0x10000 /\ 0 <= ra_kernel < 0x10000 /\ 0 <= ra_one < 0x10000 /\
                 0 <= ra_a20 < 0x10000 /\ forall n, 0 <= ra n < 0x10000;
  do_a20 : opens m /\ a20_fits (p_ram p);
  do_link : link_ok k (4096 * s);
  do_first : processor_sig64 p = 0;
  do_word : load 8 (GDT_ADDR + 8 * 5) (p_ram p) = 0;
  do_size : 2 <= MSIZE k <= 1024 /\ MSIZE k mod 2 = 0;
  do_heap : 0x200 <= s /\ s + 17 + MSIZE k / 2 + mem_map_page (MSIZE k) < 256 * 8 - 1 /\
            s + 17 + MSIZE k / 2 + mem_map_page (MSIZE k) <= 256 * MSIZE k;
  do_windows : forallb (window_ok (4096 * s)) ws = true
}.

(** The objects outside [memory_of] have the sizes of the code. *)
Definition sizes_ok (k : link) (env0 : boot_env) (cpu0 : cpuinfo_x86) : Prop :=
  length (gdt_page env0) = 512%nat /\ Z.of_nat (length (map_area env0)) = 256 * MSIZE k /\
  length (x86_vendor_id cpu0) = 16%nat.

(** The loader hands the kernel what [loaded_ram] says. *)
Lemma loader_hands_over {H} disk sector ra_setup ra_kernel ra_one k (m : chipset H) ra_a20 ra eax0 ecx0 eflags s ws
    env0 cpu0 p0 h0 :
  diskette_ok disk sector ra_setup ra_kernel ra_one k m ra_a20 ra s ws p0 -> sizes_ok k env0 cpu0 ->
  let env := kernel_env k ws env0 (loaded_ram k (image_byte sector) (p_ram p0)) in
  boot_ok env cpu0 (MSIZE k) s 8 5 /\
  exists p st h, boot_loader disk ra_setup ra_kernel ra_one k m ra_a20 ra eax0 ecx0 eflags p0 h0 = Ret (p, st, h) /\
    rip st = _code_start k /\ BootLoader.rdi st = 0 /\ rflags st = 0 /\ kernel_env k ws env0 (p_ram p) = env.
Proof.
  intros [Hd (H1 & H2 & H3 & H4 & H5) [Ho Hf] Hl Hsig Hw [Hm Heven] (Hs & Hheap & Hmem) Hws] (Hgp & Hma & Hv) env.
  destruct (boot_loader_spec disk sector ra_setup ra_kernel ra_one k m ra_a20 ra eax0 ecx0 eflags (4096 * s) p0 h0
    Hd H1 H2 H3 H4 H5 Ho Hf Hl Hsig) as (p & h & E & _ & _ & Hp & Hg & H6 & Hz & Hout).
  destruct Hl as [HK Hst [Hroom Hy] _].
  assert (Hr : 0x100000 + 512 * KSIZE k <= 4096 * s - 168 /\ 4096 * s <= 8 * 2 ^ 20 /\ 0 < KSIZE k) by lia.
  assert (He : kernel_env k ws env0 (p_ram p) = env).
  { apply kernel_env_ext.
    - intros i Hi. by eapply loaded_params.
    - intros j Hj. by eapply loaded_descriptors.
    - apply Forall_forall. intros w Hin b Hb. rewrite forallb_forall in Hws. apply list_elem_of_In, Hws in Hin.
      by eapply window_region. }
  split.
  - rewrite <- He. eapply loader_fits_setup; [exact Hp | exact Hst | done | exact Hg | by rewrite H6 | by split
      | done | done | done | done | done | done | done | done | done].
  - eexists p, _, h. split; [exact E|]. split; [done|]. split; [done|]. split; [done | exact He].
Qed.

(** Where the test of the A20 line cannot see that it is open, the machine stops
    in the boot sector. *)
Lemma power_on_stuck {H P D} `{LocalApic D} `{Processor P} disk sector ra_setup ra_kernel ra_one k (m : chipset H)
    ra_a20 ra eax0 ecx0 eflags x mlit t names ws env0 ks r es p0 h0 (w : power_on P (world D)) :
  diskette disk sector -> 0 <= ra_setup < 0x10000 -> 0 <= ra_kernel < 0x10000 -> 0 <= ra_one < 0x10000 ->
  (forall n, 0 <= ra n < 0x10000) -> 0 < KSIZE k <= 109 ->
  word_ok (p_ram p0) -> coincides (p_ram p0) = true ->
  power_on_run disk ra_setup ra_kernel ra_one k m ra_a20 ra eax0 ecx0 eflags x mlit t names ws env0 ks r es p0 h0 w
  = Halted.
Proof.
  intros Hd Hs Hk Ho Hr HK Hw Hc. unfold power_on_run, boot_loader.
  by rewrite (boot_sector_stuck disk sector ra_one Hd Ho m ra_a20 ra eax0 ecx0 eflags Hr).
Qed.

(** C1: from the jump of the BIOS to the keys. On a diskette and a machine as
    [diskette_ok] says, if the memory the loader makes of them holds the table of
    processors, the strings and the rest of what the kernel needs, the boot
    sector loads the kernel and opens the A20 line, setup.asm brings the
    processor to 64-bit mode and enters [start_kernel], which finds that memory,
    starts, prints its messages, enables interrupts and serves whatever sequence
    of keys, ticks of the timer, exceptions and passes of other processors
    comes. *)
Theorem diskette_to_keys {H P D} `{LocalApic D} `{Processor P} disk sector ra_setup ra_kernel ra_one k
    (m : chipset H) ra_a20 ra eax0 ecx0 eflags x mlit t names s ws env0 r p0 h0 (w : power_on P (world D)) :
  diskette_ok disk sector ra_setup ra_kernel ra_one k m ra_a20 ra s ws p0 -> sizes_ok k env0 (cpu0 w) ->
  let env := kernel_env k ws env0 (loaded_ram k (image_byte sector) (p_ram p0)) in
  (exists mp' section start z0 mps, machine_ok env w names mp' section start z0 /\
     prints_ok (placed x t env (memory env)) (areas t env) t env w start mps) ->
  host_ok x mlit t env r w ->
  exists early late, start_says t timer_handler env w (page_to_virt 1) = Ret (early, late) /\
    forall ks es, let v := start_view (early ++ weave ks late) in all_possible es v ->
      exists s', power_on_run disk ra_setup ra_kernel ra_one k m ra_a20 ra eax0 ecx0 eflags x mlit t names ws env0
          ks r es p0 h0 w = Ret s' /\ running x s' /\ served x (see_all es v) s'.
Proof.
  intros Hd Hz env (mp' & section & start & z0 & mps & Hm & Hp) Hh.
  destruct (loader_hands_over disk sector ra_setup ra_kernel ra_one k m ra_a20 ra eax0 ecx0 eflags s ws env0 (cpu0 w)
    p0 h0 Hd Hz) as (Hb & p & st & h & E & Hrip & Hrdi & Hfl & He). fold env in Hb, He.
  destruct (system_spec x mlit t names env r 0 w) as (early & late & Es & Hrun).
  - split; [|exact Hh]. exists mp', section, start, (MSIZE k), s, 8, 5, z0, mps. split; [by split | exact Hp].
  - exists early, late. split; [exact Es|]. intros ks es v Hes. destruct (Hrun ks es Hes) as (s' & Er & Hr & Hs).
    exists s'. split; [|exact (conj Hr Hs)]. unfold power_on_run. step E.
    rewrite Hrip, Hrdi, Z.eqb_refl, Hfl, He. exact Er.
Qed.

(** ** A machine *)

(** *** The image on the diskette *)

(** A hundred sectors, linked as [sample_link] says: the strings from 0x102800
    on, the per-processor section at 0x109000, the static arrays at 0x10B000. *)
Definition power_lit (e : exception) : Z := frame 0x102 + 0x800 + 64 * vector e.

Definition power_message (m : message) : Z :=
  frame 0x103 + 128 * match list_find (eq m) kernel_messages with Some (i, _) => Z.of_nat i | None => 180 end.

Definition power_names : list Z := (fun l => frame 0x102 + 0xE00 + 16 * l) <$> seqZ 0 8.

Definition power_literals : literals :=
  {| vendor_at := frame 0x10b + 0x100; bootup_at := frame 0x102 + 0xD20; empty_at := frame 0x102 + 0xD40 |}.

Definition power_strings : list (Z * list Z) :=
  [(frame 0x102 + 0xD00, [10]); (frame 0x102 + 0xD10, [37; 99]); (bootup_at power_literals, BOOTUP);
   (empty_at power_literals, []); (frame 0x102 + 0xD50, ISA); (frame 0x102 + 0xD60, PCI); (frame 0x102 + 0xD70, PCMP)] ++
  zip power_names cache_names ++ ((fun e => (power_lit e, exception_format e)) <$> exceptions) ++
  ((fun m => (power_message m, m_format m)) <$> kept_messages).

Definition power_image : bmem :=
  write_bytes (frame 0x109) percpu_section
    (foldr (fun p mem => write_bytes p.1 (p.2 ++ [0]) mem) ∅ power_strings).

Definition power_byte (i : Z) : Z := default 0 (power_image !! (frame 0x100 + i)).

Definition sector_of (byte : Z -> Z) (n : Z) : list Z := (fun i => byte (512 * (n - 9) + i)) <$> seqZ 0 512.

Definition disk_of (byte : Z -> Z) (c h s : Z) : option (list Z) := Some (sector_of byte ((c * 2 + h) * 18 + s - 1)).

(** *** What the firmware leaves in memory *)

Definition firmware : bmem :=
  write_bytes 0 (bytes_le 4 SMP_MAGIC_IDENT ++ bytes_le 4 0x100 ++ [1; 4; 0; 0; 0; 0; 0; 0])
  (write_bytes 0x100 (table_header 4 0 sample_lapic (44 + table_size small_entries) (replicate 28 32) (replicate 4 0)
     ++ concat (encode_entry <$> small_entries)) ∅).

Definition power_cpu : boot_cpu :=
  {| cr0 := 0x60000010; cr3 := 0; cr4 := 0; efer := 0; lgdt := (0, 0); processor_sig64 := 0;
     p_ram := fun a => if (0x8028 <=? a) && (a <? 0x8030) then 0 else default 255 (firmware !! a) |}.

Definition power_windows : list (Z * Z) :=
  [(0, 0x400); (0x3000, 0x1000); (PML4_addr, 8); (PDP_addr, 8); (PDE_addr, 8); (PTE_addr, 8); (0x9FC00, 0x400);
   (0x109000, 40); (0x10B000, 0x300)] ++
  ((fun p => (p.1 - PAGE_OFFSET, Z.of_nat (length p.2) + 1)) <$> power_strings).

Definition power_env0 : boot_env :=
  {| BOOT_PARAMS := []; cpuid := intel_cpuid; Setup.KERNEL_STACK_START := 0; boot_descriptors := [];
     gdt_page := replicate 512 {| l := 1; h := 2 |};
     Setup.except_stubs := sample_entries_at 0xFFFF800000101000; table_memory := ∅; memory := ∅;
     mp_literals := (frame 0x10b + 0x200, frame 0x102 + 0xD50, frame 0x102 + 0xD60, frame 0x102 + 0xD70);
     map_area := replicate (Z.to_nat (256 * 128)) garbage_page; map_heads := ∅ |}.

Definition power_machine : machine_env :=
  {| sz := frame 0x10b; fnl := frame 0x102 + 0xD00; fpc := frame 0x102 + 0xD10; lit := power_lit;
     irq_stubs := sample_stubs; Running.except_stubs := sample_entries_at 0xFFFF800000101000;
     code_at := code_at system_env; clobber := clobber system_env; pc := pc system_env; cs := cs system_env;
     sp := sp system_env; ss := ss system_env |}.

Definition power_env : boot_env :=
  kernel_env sample_link power_windows power_env0 (loaded_ram sample_link power_byte (p_ram power_cpu)).

(** *** The memory it starts on *)

Definition is_byte (v : Z) : bool := (0 <=? v) && (v <? 256).

Definition holds_bytes (mem : bmem) : Prop := forall a v, mem !! a = Some v -> 0 <= v < 256.

Lemma write_holds a bs mem : forallb is_byte bs = true -> holds_bytes mem -> holds_bytes (write_bytes a bs mem).
Proof.
  intros Hb Hm c v. rewrite write_bytes_lookup. case_decide; [|apply Hm]. intros E.
  apply list_elem_of_lookup_2, list_elem_of_In in E. rewrite forallb_forall in Hb. apply Hb, andb_true_iff in E as [H1 H2].
  apply Z.leb_le in H1. apply Z.ltb_lt in H2. lia.
Qed.

Lemma writes_hold l mem : forallb (fun p => forallb is_byte (p.2 ++ [0])) l = true -> holds_bytes mem ->
  holds_bytes (foldr (fun (p : Z * list Z) mem => write_bytes p.1 (p.2 ++ [0]) mem) mem l).
Proof.
  intros Hl Hm. induction l as [|p l IH]; [done|]. cbn [forallb] in Hl. apply andb_true_iff in Hl as [Hp Hl].
  cbn [foldr]. apply write_holds; [done | by apply IH].
Qed.

Lemma default_byte mem a d : holds_bytes mem -> 0 <= d < 256 -> 0 <= default d (mem !! a) < 256.
Proof. intros Hm Hd. destruct (mem !! a) as [v|] eqn:E; [exact (Hm _ _ E) | exact Hd]. Qed.

Lemma power_image_bytes : holds_bytes power_image.
Proof.
  unfold power_image. apply write_holds; [vm_compute; reflexivity|]. apply writes_hold; [vm_compute; reflexivity | done].
Qed.

Lemma power_bytes i : 0 <= power_byte i < 256.
Proof. unfold power_byte. apply default_byte; [exact power_image_bytes | lia]. Qed.

Lemma firmware_bytes : holds_bytes firmware.
Proof. apply write_holds; [vm_compute; reflexivity|]. by apply write_holds; [vm_compute; reflexivity|]. Qed.

Lemma disk_of_diskette byte : (forall i, 0 <= byte i < 256) -> diskette (disk_of byte) (sector_of byte).
Proof.
  intros Hb n Hn. split; [|split].
  - unfold disk_of. do 2 f_equal. change 36 with (18 * 2). rewrite <- (Z.div_div n 18 2) by lia.
    pose proof (Z.div_mod n 18 ltac:(lia)). pose proof (Z.div_mod (n / 18) 2 ltac:(lia)). lia.
  - unfold sector_of. by rewrite length_fmap, length_seqZ.
  - unfold sector_of. apply Forall_fmap, Forall_forall. intros i _. apply Hb.
Qed.

Lemma sector_of_image byte i : 0 <= i -> image_byte (sector_of byte) i = byte i.
Proof.
  intros Hi. pose proof (Z.div_mod i 512 ltac:(lia)). pose proof (Z.mod_pos_bound i 512 ltac:(lia)).
  unfold image_byte. apply list_lookup_total_correct. unfold sector_of.
  rewrite list_lookup_fmap, lookup_seqZ_lt by lia. cbn [fmap option_fmap option_map]. do 2 f_equal. lia.
Qed.

(** The environment is the same with the byte-wise view of the image. *)
Lemma store_words_ext vs : forall a r r' x, r x = r' x -> store_words a vs r x = store_words a vs r' x.
Proof.
  induction vs as [|v vs IH]; intros a r r' x Hx; [done|]. cbn [store_words]. apply IH. unfold store. by case_decide.
Qed.

Lemma loaded_ram_ext k image image' r x :
  (forall i, 0 <= i < 512 * KSIZE k -> image i = image' i) -> loaded_ram k image r x = loaded_ram k image' r x.
Proof.
  intros Hi. unfold loaded_ram. do 2 apply store_words_ext.
  assert (Hc : cleared_ram k image r x = cleared_ram k image' r x).
  { unfold cleared_ram. destruct (Z.leb_spec 0x100000 x); cbn [andb]; [|done]. destruct (x <? 8 * 2 ^ 20); [|done].
    destruct (Z.ltb_spec x (0x100000 + 512 * KSIZE k)); [|done]. apply Hi. lia. }
  unfold store. by repeat case_decide.
Qed.

Lemma kernel_env_same k ws env0 r r' : (forall x, r x = r' x) -> kernel_env k ws env0 r = kernel_env k ws env0 r'.
Proof.
  intros Hx. apply kernel_env_ext.
  - intros i _. apply load_ext. intros x _. apply Hx.
  - intros j _. apply load_ext. intros x _. apply Hx.
  - apply Forall_forall. intros w _ a _. apply Hx.
Qed.

Lemma power_env_eq :
  kernel_env sample_link power_windows power_env0 (loaded_ram sample_link (image_byte (sector_of power_byte)) (p_ram power_cpu))
  = power_env.
Proof.
  apply kernel_env_same. intros x. apply loaded_ram_ext. intros i Hi. apply sector_of_image. lia.
Qed.

Lemma power_diskette_ok :
  diskette_ok (disk_of power_byte) (sector_of power_byte) 0x40 0x50 0x60 sample_link sample_chipset 0x70 (fun _ => 0x80) 0x200
    power_windows power_cpu.
Proof.
  split.
  - exact (disk_of_diskette power_byte power_bytes).
  - repeat split; lia.
  - split; [exact sample_opens|]. split; [|vm_compute; reflexivity]. intros x _. cbn [power_cpu p_ram].
    destruct (_ && _); [lia|]. apply default_byte; [exact firmware_bytes | lia].
  - split; [simpl; lia | reflexivity | simpl; lia | vm_compute; split; [discriminate | reflexivity]].
  - reflexivity.
  - vm_compute. reflexivity.
  - split; [simpl; lia | reflexivity].
  - split; [lia | vm_compute; split; [reflexivity | discriminate]].
  - vm_compute. reflexivity.
Qed.

Lemma power_sizes : sizes_ok sample_link power_env0 (cpu0 system_power_on).
Proof.
  split; [reflexivity|]. split; [|reflexivity]. cbn [map_area power_env0]. rewrite length_replicate, Z2Nat.id;
    [reflexivity | lia].
Qed.

(** *** The kernel on it *)

Definition power_mp : mp_state := match read_mp power_env boot_tables with Ret st => st | _ => boot_tables end.

Lemma power_mp_eq : read_mp power_env boot_tables = Ret power_mp.
Proof. vm_compute. reflexivity. Qed.

Lemma power_mp_first : boot_cpu_id (cpus power_mp) = 0 /\ x86_cpu_to_apicid (cpus power_mp) !! 0%nat = Some 0.
Proof. vm_compute. split; reflexivity. Qed.

Abbreviation on_power_image := (placed power_machine power_literals power_env (memory power_env)).

Ltac here := apply placed_here_placed; vm_compute; reflexivity.

Lemma power_mapped : mapped (memory power_env) (page_to_virt 3) 4096.
Proof.
  assert (Hb : bytes_here (memory power_env) (page_to_virt 3) (replicate 4096 255) = true) by (vm_compute; reflexivity).
  apply bytes_here_at in Hb. intros a Ha. eapply bytes_at_mapped; [exact Hb|]. rewrite length_replicate. lia.
Qed.

Lemma power_names_at : names_at (memory power_env) power_names.
Proof.
  assert (Hall : forallb (fun p => bytes_here (memory power_env) p.1 (p.2 ++ [0]) && negb (p.1 =? 0) &&
    forallb (fun c => (0 <? c) && (c <? 256)) p.2) (zip power_names cache_names) = true) by (vm_compute; reflexivity).
  unfold names_at. apply Forall2_same_length_lookup_2; [reflexivity|]. intros i a n Ha Hn.
  rewrite forallb_forall in Hall. specialize (Hall (a, n)). cbn [fst snd] in Hall.
  assert (Hin : In (a, n) (zip power_names cache_names)).
  { apply list_elem_of_In, list_elem_of_lookup. exists i. apply lookup_zip_with_Some. by exists a, n. }
  apply Hall, andb_true_iff in Hin as [[Hb Hz]%andb_true_iff Hc]. split; [by apply negb_true_iff, Z.eqb_neq in Hz|].
  split; [by apply bytes_here_at|]. apply Forall_forall. intros c Hc'. rewrite forallb_forall in Hc.
  apply list_elem_of_In, Hc, andb_true_iff in Hc' as [H1%Z.ltb_lt H2%Z.ltb_lt]. lia.
Qed.

Lemma power_machine_ok :
  machine_ok power_env system_power_on power_names power_mp percpu_section (frame 0x109) garbage_zone.
Proof.
  split.
  - exact power_mp_eq.
  - exact power_mp_first.
  - split; [reflexivity | reflexivity | reflexivity | vm_compute; discriminate].
  - exact power_names_at.
  - split; reflexivity.
  - split; [reflexivity | split; reflexivity].
  - split; vm_compute; reflexivity.
  - split; [apply bytes_here_at; vm_compute; reflexivity|]. split; [split; apply Nat.leb_le; reflexivity|].
    split; [vm_compute; discriminate | reflexivity].
  - split; [exact power_mapped | right; vm_compute; discriminate].
Qed.

Lemma power_image_ok : image_ok power_machine power_message power_literals power_env (memory power_env).
Proof.
  split.
  - here.
  - here.
  - intros e. apply placed_here_placed.
    assert (Hall : forallb (fun e => placed_here power_machine power_literals power_env (memory power_env) (power_lit e)
      (exception_format e)) exceptions = true) by (vm_compute; reflexivity).
    rewrite forallb_forall in Hall. apply Hall. destruct e; cbn; tauto.
  - intros m Hm Hk. apply placed_here_placed.
    assert (Hall : forallb (fun m => placed_here power_machine power_literals power_env (memory power_env)
      (power_message m) (m_format m)) kept_messages = true) by (vm_compute; reflexivity).
    rewrite forallb_forall in Hall. apply Hall, filter_In. split; [by apply list_elem_of_In | done].
  - assert (Hb : bytes_here (memory power_env) (frame 0x10b) (replicate 128 0) = true) by (vm_compute; reflexivity).
    apply bytes_here_at in Hb. intros a Ha. eapply bytes_at_mapped; [exact Hb|]. rewrite length_replicate. exact Ha.
  - apply (bool_decide_unpack _). vm_compute. exact I.
Qed.

Lemma power_prints : prints_ok on_power_image (areas power_literals power_env) power_literals power_env
  system_power_on (frame 0x109) (system_processors_at power_literals).
Proof.
  assert (Hb : on_power_image (bootup_at power_literals) BOOTUP) by here.
  assert (He : on_power_image (empty_at power_literals) []) by here.
  split.
  - repeat split; (eexists; split; [vm_compute; reflexivity | lia]).
  - split; [apply Forall_replicate; lia | reflexivity | vm_compute; repeat (constructor; [discriminate|]); constructor].
  - right. left.
  - vm_compute. reflexivity.
  - exact (processors_fit on_power_image (areas power_literals power_env) power_literals Hb He).
  - split; [vm_compute; discriminate|]. eexists. split; [vm_compute; reflexivity | lia].
Qed.

Lemma power_host_ok : host_ok power_machine power_message power_literals power_env sample_registers system_power_on.
Proof.
  split; [exact sample_delivers | | | | | |].
  - exact system_stubs_ok.
  - reflexivity.
  - exact power_image_ok.
  - split; simpl; lia.
  - reflexivity.
  - reflexivity.
Qed.

Definition power_says : list said * list said :=
  match start_says power_literals timer_handler power_env system_power_on (page_to_virt 1) with
  | Ret l => l
  | _ => ([], [])
  end.

Lemma power_says_eq : start_says power_literals timer_handler power_env system_power_on (page_to_virt 1) = Ret power_says.
Proof. vm_compute. reflexivity. Qed.

Definition power_section : string := "per-cpu section: FFFF800000109000 ~ FFFF800000109028 (40-bytes)".

Lemma power_text_eq :
  concat (text_of <$> (said_call <$> (power_says.1 ++ weave [0; 1]%nat power_says.2))) = boot_text power_section.
Proof. vm_compute. reflexivity. Qed.

Lemma power_possible l : power_says = l -> all_possible sample_events (start_view (l.1 ++ weave [0; 1]%nat l.2)).
Proof. intros <-. apply all_possible_here_possible. vm_compute. reflexivity. Qed.

Lemma power_text l : power_says = l ->
  v_term (see_all sample_events (start_view (l.1 ++ weave [0; 1]%nat l.2)))
  = term_run (outputs (boot_text power_section ++ events_text)) (0, blank_paper).
Proof. intros <-. apply text_seen, power_text_eq. Qed.

(** The hypotheses of [diskette_to_keys], on the memory as the loader makes it. *)
Lemma power_machine_ready :
  let env := kernel_env sample_link power_windows power_env0
    (loaded_ram sample_link (image_byte (sector_of power_byte)) (p_ram power_cpu)) in
  (exists mp' section start z0 mps, machine_ok env system_power_on power_names mp' section start z0 /\
     prints_ok (placed power_machine power_literals env (memory env)) (areas power_literals env) power_literals env
       system_power_on start mps) /\
  host_ok power_machine power_message power_literals env sample_registers system_power_on.
Proof.
  cbv zeta. rewrite power_env_eq. split; [|exact power_host_ok]. do 5 eexists. exact (conj power_machine_ok power_prints).
Qed.

Lemma diskette_to_keys_witness :
  exists m, power_on_run (disk_of power_byte) 0x40 0x50 0x60 sample_link sample_chipset 0x70 (fun _ => 0x80) 0 0 0x202
      power_machine power_message power_literals power_names power_windows power_env0 [0; 1]%nat sample_registers
      sample_events power_cpu (false, false) system_power_on = Ret m /\
    w_tick (device (s_irqs m)) = 2 /\
    run_shows power_machine (term_run (outputs (boot_text power_section ++ events_text)) (0, blank_paper))
      (w_console (device (s_irqs m))).
Proof.
  destruct (diskette_to_keys (disk_of power_byte) (sector_of power_byte) 0x40 0x50 0x60 sample_link sample_chipset 0x70
    (fun _ => 0x80) 0 0 0x202 power_machine power_message power_literals power_names 0x200 power_windows power_env0
    sample_registers power_cpu (false, false) system_power_on power_diskette_ok power_sizes
    (proj1 power_machine_ready) (proj2 power_machine_ready)) as (early & late & Es & Hrun).
  rewrite power_env_eq in Es. pose proof (ret_inj _ _ (eq_trans (eq_sym power_says_eq) Es)) as El.
  destruct (Hrun [0; 1]%nat sample_events (power_possible (early, late) El)) as (m & E & _ & [_ _ Hc Ht]).
  exists m. split; [exact E|]. split; [exact Ht|].
  exact (eq_ind _ (fun t => run_shows power_machine t _) Hc _ (power_text (early, late) El)).
Defined.
